(* ===== verification/_CoqProject ===== *)
-Q . S2P
Prelude.v
Assoc.v
PyFloat.v
PyValue.v
Json.v
JsonFacts.v
Checksum.v
Envelope.v
Files.v
Models.v
KernelConfig.v
KernelInterface.v
Vectors.v
ArrowInterface.v
Database.v
Arrow.v
ArrowPoints.v
ArrowStreams.v
DatabaseFacts.v
MemoryKernel.v
DatabaseTheorems.v
LogicalPoints.v
Operations.v
Admin.v
Server.v
ServerFacts.v
ServerTheorems.v
LogicalFacts.v
OperationsFacts.v
AdminTheorems.v
ArrowFacts.v
ArrowStreamsFacts.v
ArrowPointsFacts.v
ArrowMemory.v
ArrowTheorems.v
PointKernel.v
LogicalTheorems.v
CollectionIdentity.v
Mutation.v
Journal.v
JournalFacts.v
JournalSpec.v
Metadata.v
MetadataFacts.v
Snapshot.v
SnapshotFacts.v
Replica.v
ReplicaFacts.v
ReplicaHistory.v
ReplicaServer.v
Ranking.v
RankingFacts.v
Cluster.v
ClusterFacts.v
ClusterWrites.v
ReplicaLiveness.v
ClusterLiveness.v
ClusterProgress.v
ProtocolTheorems.v
MetadataTheorems.v
ReplicaTheorems.v
ClusterTheorems.v
LivenessTheorems.v
