(* ===== verification/Prelude.v ===== *)
(** * AkashaDB: a verification of its replication layer and its Python adapters

    The program.  AkashaDB is a vector database.  A compiled kernel stores and
    searches points; the Python package [python/akashadb] puts an in-process
    facade over it ([database.py], [models.py], [vectors.py]) and a replicated
    cluster around it ([distributed/protocol.py], [replica.py], [cluster.py]), with
    tools to export, import and tidy storage ([operations.py], [logical_points.py],
    [admin.py]), record batches in and out ([arrow.py], [arrow_points.py]), and an
    HTTP adapter ([apps/server]).
    The parts, from the inside out, and the files that model them:

    - values and formats.  [PyFloat], [PyValue]: Python's floats (binary64, on
      [spec_float]), integers, strings and dictionaries, [int()], [float()],
      [str()], [bool()], equality.  [Json]: [json.dumps(sort_keys=True)] as
      [canonical_bytes] and [json.loads] as [loads], both on bytes.  [Checksum]:
      [zlib.crc32] and [payload_checksum].  [Envelope]: [checked_envelope] and its
      decoder.  Their lemmas are in [JsonFacts] and at the end of each file.
    - files.  [Files]: a file is its content and how much of it is synced; a crash
      keeps the synced part and any part of the rest.
    - configuration.  [Models.CollectionConfig], [KernelConfig]: the typed
      configuration, its crossing to the kernel, the kernel's validation and
      fingerprint.  [CollectionIdentity]: the identity stored with a cluster.
    - the replicated log ([protocol.py]).  [Mutation]: [ReplicatedEntry] and
      [validate_replicated_mutation].  [Journal]: [ReplicaJournal], at the level of
      the bytes of its file; [JournalFacts] its invariant, [JournalSpec] the
      abstract log it implements.
    - cluster metadata ([protocol.py]).  [Metadata]: [ShardPlacement] and
      [ClusterMetadata], validation, publication and loading; [MetadataFacts].
    - the facade ([database.py], [models.py], [vectors.py], [exceptions.py]).
      [Models], [Vectors]: the dataclasses.  [KernelInterface]: the class [Kernel],
      what the facade calls of the compiled module.  [Database]: [Collection] and
      [LocalDatabase], one definition per method; [DatabaseFacts].
      [MemoryKernel]: an instance of the interface that the witnesses run.
    - logical export and storage ([logical_points.py], [operations.py]).
      [LogicalPoints]: the NDJSON form of points, its encoder and its decoders.
      [Operations]: export, import in both formats, storage reports, the quarantine
      of orphaned files.  [LogicalFacts], [OperationsFacts]; [PointKernel], an
      instance with named vectors for the witnesses.
    - record batches ([arrow.py], [arrow_points.py]).  [ArrowInterface]: what the
      sources use of NumPy and PyArrow, as the classes [NumPy] and [PyArrow], with
      their documented laws in [NumPyLaws] and [PyArrowLaws].  [Arrow]: leases and
      the descriptor of a batch; [ArrowPoints]: the descriptor of a batch of points
      with named vectors; [ArrowStreams]: ingestion, searches into batches, the
      scanner, over the class [ArrowKernel].  [ArrowFacts], [ArrowPointsFacts],
      [ArrowStreamsFacts]; [ArrowMemory], instances on lists that have the laws.
    - the command line and the HTTP adapter.  [Admin]: the commands of [admin.py].
      [Server]: the bodies of [schemas.py], the routes and [create_app];
      [ServerFacts], where [TypedReplies] is what the adapter expects of a kernel.
    - a replica ([replica.py]).  [Snapshot]: the state file, the rows of a snapshot,
      the root directory with its three workspaces ([site]) and their recovery.
      [Replica]: [ReplicaShard], a record of the attributes and of the directory,
      one definition per method ([init], [configure], [prepare], [commit],
      [install_snapshot], ...).  [ReplicaServer]: [replica_server_main] and
      [ReplicaProcess].  [SnapshotFacts], [ReplicaFacts], [ReplicaHistory].
    - the cluster ([cluster.py]).  [Ranking]: the merge and the fusion of hits.
      [Cluster]: [DistributedCluster], the record of its attributes with its
      processes and the directory of its metadata file, one definition per method.
      [RankingFacts], [ClusterFacts], [ClusterWrites].  Progress: [ReplicaLiveness]
      (a shard whose collection carries out what it accepts, and a process that is
      up or down), [ClusterLiveness] (loops over the nodes), [ClusterProgress]
      (records that stay valid, elections and writes that succeed).

    How they interact.  A method that changes state is a function in the state
    monad [M S A = S -> res A * S] of this file, whose state survives a raised
    exception, as Python's does; a value that may raise is in [res].  A component
    runs another's methods on the part of its state that is the other:
    [with_collection] and [with_journal] in a shard, [with_shard] in a server,
    [with_node] in the cluster.  The journal a shard holds in memory and the file
    in its directory are two things in the model, as in the program.

    What the theorems show.
    - [ProtocolTheorems]: canonical JSON reads back and does not depend on the
      order of keys; reading ends; a changed byte is detected; what the validators
      accept, exactly; entries round-trip; a journal refines the abstract log, loses
      nothing it acknowledged, and survives a crash at any byte of an append.
    - [MetadataTheorems]: quorums meet; a loaded record is valid; publication
      round-trips and is atomic at every step.
    - [DatabaseTheorems]: the counters, the limits, the filters and the registry of
      the facade, over any kernel.
    - [LogicalTheorems]: an export reads back as one batch that restores every
      captured point; an import validates the whole file before it changes
      anything; what an accepted file contains; an export is published whole or not
      at all; a quarantine moves orphans only and loses nothing.
    - [ReplicaTheorems]: stale entries are refused; along every history of a shard,
      with restarts and kills, nothing goes back; acknowledged commits survive
      restarts and are idempotent; snapshots are checked, and replace the directory
      atomically; a process reports three kinds of errors only.
    - [ClusterTheorems]: routing; the merge of the shards' best hits is the best of
      all; an elected leader is as far as any quorum; an acknowledged write is held
      by a quorum and published; requests are executed once; the record never goes
      back.  [acknowledged_write_lost] is a run of the cluster, in full, in which a
      point whose write was acknowledged is not found although no more than one of
      three nodes is ever unavailable: [commit] in [replica.py] advances the applied
      index past entries the replica has missed.  [caught_up_from_snapshot] is
      another, through a source that has no entries from before its snapshot.
    - [LivenessTheorems]: with a quorum of the replicas up and the rest stopped or
      cut off, an election finds a leader, and new writes are acknowledged one after
      the other.
    - [ArrowTheorems]: the vectorised check of sparse columns is the check of every
      row; an accepted batch has exactly the columns, types and views it should; a
      lease made for a call is released whatever happens; the scanner's counters; its
      arguments are within 64 bits and its columns distinct.
    - [ServerTheorems], [AdminTheorems]: which status each request gets, never 500 on
      a kernel with typed replies; a command closes the collection it opened, and
      touches nothing when it cannot open it.

    Bounds and fuel.  The JSON parser has fuel [2 * length + 1], which
    [json_reading_ends] shows to be enough.  [_write] recurses on the retries that
    are left, as the source counts to 2.  The printing of digits has the number of
    bits as fuel.  All other recursion is structural.

    Choices of the model.
    - Dictionaries have string keys, in insertion order.  Strings are the bytes of
      their UTF-8 (surrogates as three bytes).  [int()] and [float()] of strings read
      ASCII.
    - [int_ok], [json_ok]: CPython neither prints nor reads integers of more than 4300
      digits; histories take their integers from that range.  Journals and state
      files that were read are in it ([open_short]).
    - [sorted] is a stable insertion sort; scores that are not numbers are excluded
      where an order is claimed.  Loops over sets only choose among messages or
      touch keys that are there.
    - Records give attributes their annotated types, so guards on their types that
      cannot fail are dropped.
    - A directory operation ([mkdir], [rename], [rmtree]) succeeds and is atomic and
      durable; [OSError]s of the disk are not modelled, nor is the [fsync] of a
      directory.  Killing a process keeps what it has written.
    - The clock, the ports the system gives, and [uuid4] are parameters.
    - A server handles one request at a time and the coordinator holds its lock, so
      calls do not interleave; a lost answer is a [Dropped] reply.  A process is
      always ready in time.  Sockets, pickling and the authentication key are left
      out, as are thread-level races on the facade.
    - Values that cross into the kernel are converted as its binding converts them
      (64-bit identifiers and sequences); what the kernel does with them is the
      interface's.

    - A file read as text is decoded in whole before its first line; [bytes] at the
      kernel's boundary are tuples of byte values; [\d] and [int()] read ASCII digits;
      the text [str()] gives for a container is a parameter.

    - A request body, a command's arguments and a scanner's arguments are what the
      framework, the parser and the annotations give; a body that the framework
      refuses is answered 422.  How an answer is rendered is the framework's.
    - What the kernel keeps in a directory is a parameter where a command sees both
      the files and the collection ([held_by], [entries_of] in [Admin]).

    Not modelled: the kernel in Mojo, of which [KernelConfig] has the validation and
    the fingerprint of a configuration; NumPy, PyArrow, FastAPI and the argument
    parser, which are third-party or library code; the re-exports of the packages;
    benchmarks and tools.

    This file: Python's exceptions, the monads [res] and [M], [respects] (what a
    computation does to its state, error or not) with its walking tactics, strings,
    and the stable sort. *)

From stdpp Require Export base tactics list option strings gmap sorting.
From Stdlib Require Export ZArith Lia String Ascii.
From Corelib Require Export Datatypes.

#[global] Open Scope string_scope.
#[global] Open Scope list_scope.
#[global] Open Scope Z_scope.

(** * Python exceptions *)

(** The exception classes the sources raise or catch. *)
Inductive exn_class : Type :=
| BaseException
| Exception
| RuntimeError
| ValueError
| TypeError
| KeyError
| IndexError
| AttributeError
| OverflowError
| AssertionError
| StopIteration
| ZeroDivisionError
| OSError
| EOFError
| ConnectionError
| FileNotFoundError
| FileExistsError
| UnicodeDecodeError
| UnicodeEncodeError
| JSONDecodeError
| ProtocolError
| StaleEpochError
| ReplicaUnavailable
| QuorumUnavailable
| ClusterClosedError
| AkashaError
| ValidationError
| CollectionAlreadyOpenError
| CollectionClosedError
| CollectionNotFoundError.

#[export] Instance exn_class_eq_dec : EqDecision exn_class.
Proof. solve_decision. Defined.

(** The direct superclass of each class. *)
Definition superclass (c : exn_class) : option exn_class :=
  match c with
  | BaseException => None
  | Exception => Some BaseException
  | JSONDecodeError | UnicodeDecodeError | UnicodeEncodeError => Some ValueError
  | IndexError | KeyError => Some Exception
  | EOFError | OSError | RuntimeError | ValueError | TypeError
  | AttributeError | OverflowError | AssertionError | StopIteration
  | ZeroDivisionError => Some Exception
  | ConnectionError | FileNotFoundError | FileExistsError => Some OSError
  | ReplicaUnavailable => Some ConnectionError
  | ProtocolError | QuorumUnavailable | ClusterClosedError | AkashaError =>
      Some RuntimeError
  | StaleEpochError => Some ProtocolError
  | ValidationError | CollectionAlreadyOpenError | CollectionClosedError
  | CollectionNotFoundError => Some AkashaError
  end.

(** [issubclass]: the superclass chains above have at most six links. *)
Fixpoint subclass_fuel (n : nat) (c d : exn_class) : bool :=
  bool_decide (c = d) ||
  match n, superclass c with
  | S n, Some c' => subclass_fuel n c' d
  | _, _ => false
  end.

Definition issubclass (c d : exn_class) : bool := subclass_fuel 6 c d.

Record exn : Type := Exn { exn_type : exn_class; exn_message : string }.

#[export] Instance exn_eq_dec : EqDecision exn.
Proof. solve_decision. Defined.

(** The test of an [except (C1, C2, ...)] clause. *)
Definition caught (handlers : list exn_class) (e : exn) : bool :=
  existsb (issubclass (exn_type e)) handlers.

(** * Results: a value or a raised exception *)

Inductive res (A : Type) : Type :=
| Ok (a : A)
| Raise (e : exn).
Arguments Ok {A} a.
Arguments Raise {A} e.

#[export] Instance res_eq_dec {A} `{EqDecision A} : EqDecision (res A).
Proof. solve_decision. Defined.

#[export] Instance res_ret : MRet res := fun A a => Ok a.
#[export] Instance res_bind : MBind res := fun A B f m =>
  match m with Ok a => f a | Raise e => Raise e end.
#[export] Instance res_fmap : FMap res := fun A B f m =>
  match m with Ok a => Ok (f a) | Raise e => Raise e end.

Definition raise {A} (c : exn_class) (message : string) : res A :=
  Raise (Exn c message).

(** [if cond: raise c(message)] *)
Definition raise_if (cond : bool) (c : exn_class) (message : string) : res unit :=
  if cond then raise c message else Ok tt.

(** [try: m  except handlers as error: h error] *)
Definition try_except {A} (m : res A) (handlers : list exn_class)
    (h : exn -> res A) : res A :=
  match m with
  | Ok a => Ok a
  | Raise e => if caught handlers e then h e else Raise e
  end.

Definition is_ok {A} (m : res A) : bool :=
  match m with Ok _ => true | Raise _ => false end.

(** [for x in l: f x], stopping at the first exception. *)
Fixpoint for_each {A} (f : A -> res unit) (l : list A) : res unit :=
  match l with
  | [] => Ok tt
  | x :: l => f x;; for_each f l
  end.

(** The same with an accumulator, the loop-carried local variables. *)
Fixpoint for_fold {A B} (f : B -> A -> res B) (acc : B) (l : list A) : res B :=
  match l with
  | [] => Ok acc
  | x :: l => acc' ← f acc x; for_fold f acc' l
  end.

(** A list comprehension whose element expression may raise. *)
Fixpoint map_res {A B} (f : A -> res B) (l : list A) : res (list B) :=
  match l with
  | [] => Ok []
  | x :: l => y ← f x; ys ← map_res f l; Ok (y :: ys)
  end.

(** * Stateful Python code: the state survives an exception *)

Definition M (S A : Type) : Type := S -> res A * S.

#[export] Instance M_ret {S} : MRet (M S) := fun A a s => (Ok a, s).
#[export] Instance M_bind {S} : MBind (M S) := fun A B f m s =>
  match m s with
  | (Ok a, s') => f a s'
  | (Raise e, s') => (Raise e, s')
  end.

Definition lift {S A} (m : res A) : M S A := fun s => (m, s).
Definition get_state {S} : M S S := fun s => (Ok s, s).
Definition put_state {S} (s : S) : M S unit := fun _ => (Ok tt, s).
Definition modify {S} (f : S -> S) : M S unit := fun s => (Ok tt, f s).

Definition try_catch {S A} (m : M S A) (handlers : list exn_class)
    (h : exn -> M S A) : M S A := fun s =>
  match m s with
  | (Ok a, s') => (Ok a, s')
  | (Raise e, s') => if caught handlers e then h e s' else (Raise e, s')
  end.

(** [try: m  finally: f]; an exception of [f] replaces the outcome. *)
Definition try_finally {S A} (m : M S A) (f : M S unit) : M S A := fun s =>
  let '(r, s') := m s in
  match f s' with
  | (Ok _, s'') => (r, s'')
  | (Raise e, s'') => (Raise e, s'')
  end.

Fixpoint for_each_M {S A} (f : A -> M S unit) (l : list A) : M S unit :=
  match l with
  | [] => mret tt
  | x :: l => f x;; for_each_M f l
  end.

Fixpoint for_fold_M {S A B} (f : B -> A -> M S B) (acc : B) (l : list A) : M S B :=
  match l with
  | [] => mret acc
  | x :: l => acc' ← f acc x; for_fold_M f acc' l
  end.

(** * Lemmas and automation for the two monads *)

Create HintDb py discriminated.

Lemma bind_Ok {A B} (f : A -> res B) (m : res A) b :
  (m ≫= f) = Ok b <-> exists a, m = Ok a /\ f a = Ok b.
Proof.
  destruct m as [a|e]; simpl.
  - split; [eauto | by intros (? & [= <-] & ?)].
  - by split; [|intros (? & ? & ?)].
Qed.

Lemma raise_if_Ok cond c message u :
  raise_if cond c message = Ok u <-> cond = false.
Proof. by destruct cond, u. Qed.

Lemma for_each_Ok {A} (f : A -> res unit) (l : list A) u :
  for_each f l = Ok u <-> Forall (fun x => f x = Ok tt) l.
Proof.
  destruct u. induction l as [|x l IH]; simpl; [naive_solver|].
  rewrite Forall_cons, bind_Ok, <- IH. split.
  - intros ([] & ? & ?); done.
  - intros [? ?]; eexists; done.
Qed.

Lemma for_each_app {A} (f : A -> res unit) (l k : list A) :
  for_each f (l ++ k) = (for_each f l;; for_each f k).
Proof. induction l as [|x l IH]; simpl; [done|]. destruct (f x); simpl; auto. Qed.

Lemma for_fold_app {A B} (f : B -> A -> res B) acc (l k : list A) :
  for_fold f acc (l ++ k) = (acc' ← for_fold f acc l; for_fold f acc' k).
Proof.
  revert acc; induction l as [|x l IH]; intros acc; simpl; [done|].
  destruct (f acc x); simpl; auto.
Qed.

Lemma map_res_Ok {A B} (f : A -> res B) (l : list A) ys :
  map_res f l = Ok ys <-> Forall2 (fun x y => f x = Ok y) l ys.
Proof.
  revert ys; induction l as [|x l IH]; intros ys; simpl.
  - split; [intros [= <-]; constructor | by inversion 1].
  - setoid_rewrite bind_Ok. setoid_rewrite bind_Ok. setoid_rewrite IH. split.
    + intros (y & ? & zs & ? & [= <-]). by constructor.
    + inversion 1; eauto 10.
Qed.

(** Split a successful run into its steps. *)
Ltac inv_ok :=
  repeat match goal with
  | H : (_ ≫= _) = Ok _ |- _ =>
      apply bind_Ok in H; destruct H as (? & ? & H)
  | H : raise_if _ _ _ = Ok _ |- _ => apply raise_if_Ok in H
  | H : Ok _ = Ok _ |- _ => injection H as H; try subst
  | H : Raise _ = Ok _ |- _ => discriminate H
  | H : raise _ _ = Ok _ |- _ => discriminate H
  | H : mret _ = Ok _ |- _ => injection H as H; try subst
  end.

(** ** What a stateful computation does to its state *)

(** Every run relates the state before to the state after, errors included. *)
Definition respects {S A} (R : S -> S -> Prop) (m : M S A) : Prop :=
  forall s, R s (m s).2.

(** [P] is an invariant of the computation. *)
Definition keeps_true {S} (P : S -> Prop) : S -> S -> Prop := fun s s' => P s -> P s'.

#[export] Instance keeps_true_preorder {S} (P : S -> Prop) : PreOrder (keeps_true P).
Proof. split; unfold keeps_true; [by intros ?|by intros ? ? ? ? ?; auto]. Qed.

Section Respects.
Context {S : Type} (R : S -> S -> Prop) `{!PreOrder R}.

Lemma respects_ret {A} (a : A) : respects R (mret a).
Proof. intros s. reflexivity. Qed.

Lemma respects_lift {A} (m : res A) : respects R (lift m).
Proof. intros s. reflexivity. Qed.

Lemma respects_get : respects R get_state.
Proof. intros s. reflexivity. Qed.

Lemma respects_bind {A B} (m : M S A) (f : A -> M S B) :
  respects R m -> (forall a, respects R (f a)) -> respects R (m ≫= f).
Proof.
  intros Hm Hf s. unfold mbind, M_bind. specialize (Hm s).
  destruct (m s) as [[a|e] s']; [|done]. simpl in Hm. etransitivity; [exact Hm|apply Hf].
Qed.

Lemma respects_catch {A} (m : M S A) handlers h :
  respects R m -> (forall e, respects R (h e)) -> respects R (try_catch m handlers h).
Proof.
  intros Hm Hh s. unfold try_catch. specialize (Hm s).
  destruct (m s) as [[a|e] s']; [done|]. simpl in Hm.
  destruct (caught handlers e); [|done]. etransitivity; [exact Hm|apply Hh].
Qed.

Lemma respects_finally {A} (m : M S A) (f : M S unit) :
  respects R m -> respects R f -> respects R (try_finally m f).
Proof.
  intros Hm Hf s. unfold try_finally. specialize (Hm s). destruct (m s) as [r s'].
  specialize (Hf s'). simpl in *. destruct (f s') as [[u|e] s'']; by etransitivity.
Qed.

Lemma respects_each {A} (f : A -> M S unit) l :
  (forall a, respects R (f a)) -> respects R (for_each_M f l).
Proof.
  intros Hf. induction l as [|a l IH]; [apply respects_ret|]. by apply respects_bind.
Qed.

Lemma respects_fold {A B} (f : B -> A -> M S B) acc l :
  (forall b a, respects R (f b a)) -> respects R (for_fold_M f acc l).
Proof.
  intros Hf. revert acc. induction l as [|a l IH]; intros acc; [apply respects_ret|].
  apply respects_bind; [done|]. intros b. apply IH.
Qed.
End Respects.

(** ** One run, step by step *)

Section Run.
Context {S A B : Type}.
Implicit Types (s : S).

Lemma run_bind (R : S -> S -> Prop) `{!PreOrder R} (m : M S A) (f : A -> M S B) s0 s :
  R s0 (m s).2 -> (forall a s', m s = (Ok a, s') -> R s' (f a s').2) -> R s0 ((m ≫= f) s).2.
Proof.
  intros Hm Hf. unfold mbind, M_bind. destruct (m s) as [[a|e] s']; [|done].
  etransitivity; [exact Hm|by apply Hf].
Qed.

Lemma run_get (f : S -> M S B) s : (get_state ≫= f) s = f s s.
Proof. done. Qed.

Lemma run_Ok (m : M S A) (f : A -> M S B) s a s' : m s = (Ok a, s') -> (m ≫= f) s = f a s'.
Proof. unfold mbind, M_bind. by intros ->. Qed.

Lemma run_Raise (m : M S A) (f : A -> M S B) s e s' :
  m s = (Raise e, s') -> (m ≫= f) s = (Raise e, s').
Proof. unfold mbind, M_bind. by intros ->. Qed.

Lemma run_ret_bind (a : A) (f : A -> M S B) s : (mret a ≫= f) s = f a s.
Proof. done. Qed.

Lemma run_lift (r : res A) (f : A -> M S B) s :
  (lift r ≫= f) s = match r with Ok a => f a s | Raise e => (Raise e, s) end.
Proof. by destruct r. Qed.

Lemma run_modify (g : S -> S) (f : unit -> M S B) s : (modify g ≫= f) s = f tt (g s).
Proof. done. Qed.

Lemma bind_ok (m : M S A) (f : A -> M S B) s b s' :
  (m ≫= f) s = (Ok b, s') <-> exists a s1, m s = (Ok a, s1) /\ f a s1 = (Ok b, s').
Proof.
  unfold mbind, M_bind. destruct (m s) as [[a|e] s1]; split.
  - eauto.
  - by intros (? & ? & [= -> ->] & ?).
  - done.
  - by intros (? & ? & ? & ?).
Qed.
End Run.

Lemma lift_ok {S A} (r : res A) (s : S) a s' : lift r s = (Ok a, s') <-> r = Ok a /\ s' = s.
Proof. unfold lift. split; [by intros [= -> ->]|by intros [-> ->]]. Qed.

(** A guard, passed or not. *)
Lemma run_guard {S B} cond c message (f : unit -> M S B) s :
  (lift (raise_if cond c message) ≫= f) s = if cond then (raise c message, s) else f tt s.
Proof. by destruct cond. Qed.

#[export] Hint Resolve respects_ret respects_lift respects_get respects_bind respects_catch
  respects_finally respects_each respects_fold : py.

(** Split a successful run into its steps. *)
Ltac inv_run H :=
  repeat lazymatch type of H with
  | (_ ≫= _) _ = (Ok _, _) =>
      let a := fresh "a" in let s := fresh "st" in let Hm := fresh "Hm" in
      apply bind_ok in H as (a & s & Hm & H);
      try lazymatch type of Hm with
      | lift _ _ = _ => apply lift_ok in Hm as [Hm ->]
      | get_state _ = _ => injection Hm as <- <-
      | modify _ _ = _ => injection Hm as <- <-
      end
  end.

(** Walk through a computation, one bind, branch or loop at a time. *)
Ltac walk_step :=
  match goal with
  | |- respects _ (mret _) => apply respects_ret; apply _
  | |- respects _ (lift _) => apply respects_lift; apply _
  | |- respects _ get_state => apply respects_get; apply _
  | |- respects _ (mbind _ _) => apply respects_bind; [apply _| |intros ?]
  | |- respects _ (try_catch _ _ _) => apply respects_catch; [apply _| |intros ?]
  | |- respects _ (try_finally _ _) => apply respects_finally; [apply _| |]
  | |- respects _ (for_each_M _ _) => apply respects_each; [apply _|intros ?]
  | |- respects _ (for_fold_M _ _ _) => apply respects_fold; [apply _|intros ? ?]
  | |- respects _ (match ?x with _ => _ end) => destruct x
  end.

Ltac walk := repeat walk_step.

(** * Strings *)

Lemma sapp_nil_l (t : string) : "" +:+ t = t.
Proof. reflexivity. Qed.

Lemma sapp_cons c (s t : string) : String c s +:+ t = String c (s +:+ t).
Proof. reflexivity. Qed.

Lemma sapp_nil_r (s : string) : s +:+ "" = s.
Proof. induction s as [|c s IH]; [done|]. rewrite sapp_cons. by f_equal. Qed.

Lemma sapp_assoc (s t u : string) : (s +:+ t) +:+ u = s +:+ (t +:+ u).
Proof. induction s as [|c s IH]; [done|]. rewrite !sapp_cons. by f_equal. Qed.

Lemma slength_app (s t : string) :
  String.length (s +:+ t) = (String.length s + String.length t)%nat.
Proof. induction s as [|c s IH]; [done|]. rewrite sapp_cons. simpl. lia. Qed.

Create Rewrite HintDb str.
#[export] Hint Rewrite sapp_nil_l sapp_cons sapp_nil_r sapp_assoc : str.

(** * Stable sorting *)

(** [sorted] with a boolean order on the sort keys: equal elements keep their
    order.  Python's sort is specified by the same properties. *)
Section Isort.
Context {A : Type} (leb : A -> A -> bool).

Fixpoint insert_sorted (x : A) (l : list A) : list A :=
  match l with
  | [] => [x]
  | y :: l' => if leb x y then x :: l else y :: insert_sorted x l'
  end.

Definition isort (l : list A) : list A := foldr insert_sorted [] l.

Definition sorted_by (l : list A) : Prop := StronglySorted (fun x y => leb x y = true) l.

Lemma isort_cons x l : isort (x :: l) = insert_sorted x (isort l).
Proof. reflexivity. Qed.

Lemma insert_sorted_perm x l : insert_sorted x l ≡ₚ x :: l.
Proof.
  induction l as [|y l IH]; simpl; [done|]. case_match; [done|].
  rewrite IH. apply Permutation_swap.
Qed.

Lemma isort_perm l : isort l ≡ₚ l.
Proof.
  induction l as [|x l IH]; simpl; [done|]. rewrite insert_sorted_perm. by f_equiv.
Qed.

Lemma isort_length l : length (isort l) = length l.
Proof. by rewrite isort_perm. Qed.

Lemma isort_elem_of x l : x ∈ isort l <-> x ∈ l.
Proof. by rewrite isort_perm. Qed.

Lemma isort_id l : sorted_by l -> isort l = l.
Proof.
  unfold sorted_by. induction 1 as [|x l Hl IH Hx]; simpl; [done|]. rewrite IH.
  destruct Hx as [|y l Hxy _]; simpl; [done|]. by rewrite Hxy.
Qed.

(** The order need only be total and transitive on the elements sorted. *)
Variable P : A -> Prop.
Hypothesis leb_total : forall x y, P x -> P y -> leb x y = true \/ leb y x = true.
Hypothesis leb_trans : forall x y z, P x -> P y -> P z ->
  leb x y = true -> leb y z = true -> leb x z = true.

Lemma insert_sorted_sorted x l :
  P x -> Forall P l -> sorted_by l -> sorted_by (insert_sorted x l).
Proof.
  unfold sorted_by. intros Hx Hl Hs. induction Hs as [|y l Hs IH Hy]; simpl.
  - repeat constructor.
  - apply Forall_cons in Hl as [Py Pl]. destruct (leb x y) eqn:Hxy.
    + constructor; [by constructor|]. constructor; [done|].
      rewrite !Forall_forall in *. intros z Hz. apply leb_trans with y; auto.
    + constructor; [auto|]. rewrite insert_sorted_perm. constructor; [|done].
      destruct (leb_total x y); auto; congruence.
Qed.

Lemma isort_sorted l : Forall P l -> sorted_by (isort l).
Proof.
  induction 1 as [|x l Hx Hl IH]; simpl; [constructor|].
  apply insert_sorted_sorted; auto. by rewrite isort_perm.
Qed.

Lemma isort_idemp l : Forall P l -> isort (isort l) = isort l.
Proof. intros. by apply isort_id, isort_sorted. Qed.

(** Sorting forgets the order of a list whose equal keys are equal elements. *)
Lemma isort_unique l k :
  Forall P l -> l ≡ₚ k ->
  (forall x y, x ∈ l -> y ∈ l -> leb x y = true -> leb y x = true -> x = y) ->
  isort l = isort k.
Proof.
  intros Hl Hlk Hanti.
  apply (StronglySorted_unique_strong (fun x y => leb x y = true)).
  - intros x y. rewrite !isort_elem_of, <- Hlk. apply Hanti.
  - by apply isort_sorted.
  - apply isort_sorted. by rewrite <- Hlk.
  - by rewrite !isort_perm.
Qed.
End Isort.
