(* ===== verification/Assoc.v ===== *)
(** Association lists in insertion order: Python dictionaries with keys of a
    decidable type other than strings, or with typed values. *)

From S2P Require Import Prelude.

Lemma sublist_Forall {A} (P : A -> Prop) l k : sublist l k -> Forall P k -> Forall P l.
Proof. induction 1; rewrite ?Forall_cons; naive_solver. Qed.

Section Assoc.
Context {K V : Type} `{EqDecision K}.
Implicit Types (l m : list (K * V)) (k : K) (v : V).

(** [d.get(k)] *)
Fixpoint assoc_get l k : option V :=
  match l with
  | [] => None
  | (k', v) :: l => if bool_decide (k = k') then Some v else assoc_get l k
  end.

(** [d[k] = v]: an existing key keeps its place. *)
Fixpoint assoc_set l k v : list (K * V) :=
  match l with
  | [] => [(k, v)]
  | (k', v') :: l =>
      if bool_decide (k = k') then (k, v) :: l else (k', v') :: assoc_set l k v
  end.

(** [del d[k]] of a present key *)
Fixpoint assoc_delete l k : list (K * V) :=
  match l with
  | [] => []
  | (k', v') :: l => if bool_decide (k = k') then l else (k', v') :: assoc_delete l k
  end.

Definition assoc_has l k : bool :=
  match assoc_get l k with Some _ => true | None => false end.

Lemma assoc_get_set_eq l k v : assoc_get (assoc_set l k v) k = Some v.
Proof.
  induction l as [|[k' v'] l IH]; simpl; [by rewrite bool_decide_eq_true_2|].
  destruct (bool_decide (k = k')) eqn:H; simpl; [by rewrite bool_decide_eq_true_2|].
  by rewrite H.
Qed.

Lemma assoc_get_set_ne l k k' v : k' <> k -> assoc_get (assoc_set l k v) k' = assoc_get l k'.
Proof.
  intros Hne. induction l as [|[k1 v1] l IH]; simpl; [by rewrite bool_decide_eq_false_2|].
  destruct (decide (k = k1)) as [->|H].
  - rewrite (bool_decide_eq_true_2 (k1 = k1)) by done. simpl.
    by rewrite !bool_decide_eq_false_2.
  - rewrite (bool_decide_eq_false_2 (k = k1)) by done. simpl. by rewrite IH.
Qed.

Lemma assoc_get_None l k : assoc_get l k = None <-> k ∉ l.*1.
Proof.
  induction l as [|[k' v] l IH]; simpl; [by split; [intros _; apply not_elem_of_nil|]|].
  rewrite not_elem_of_cons, <- IH. destruct (decide (k = k')) as [->|H].
  - rewrite bool_decide_eq_true_2 by done. split; [done|by intros []].
  - rewrite bool_decide_eq_false_2 by done. split; [done|by intros []].
Qed.

Lemma assoc_get_elem l k v : NoDup l.*1 -> assoc_get l k = Some v <-> (k, v) ∈ l.
Proof.
  intros Hnd. induction l as [|[k' v'] l IH]; simpl; [by split; [|intros ?%elem_of_nil]|].
  simpl in Hnd. apply NoDup_cons in Hnd as [Hk Hnd]. rewrite elem_of_cons.
  destruct (decide (k = k')) as [->|Hne].
  - rewrite bool_decide_eq_true_2 by done. split; [by intros [= ->]; left|].
    intros [[= ->]|H]; [done|]. exfalso. apply Hk, list_elem_of_fmap. by exists (k', v).
  - rewrite bool_decide_eq_false_2, (IH Hnd) by done. split; [by right|].
    intros [[= -> ->]|H]; done.
Qed.

Lemma assoc_get_elem_2 l k v : assoc_get l k = Some v -> (k, v) ∈ l.
Proof.
  induction l as [|[k' v'] l IH]; [done|]. simpl.
  destruct (bool_decide (k = k')) eqn:H; [|intros; right; auto].
  apply bool_decide_eq_true in H. intros [= ->]. subst. left.
Qed.

Lemma assoc_get_perm l m k : NoDup l.*1 -> l ≡ₚ m -> assoc_get l k = assoc_get m k.
Proof.
  intros Hl Hlm. assert (NoDup m.*1) by (by rewrite <- Hlm).
  apply option_eq. intros v. by rewrite !assoc_get_elem, Hlm by done.
Qed.

Lemma assoc_set_fresh l k v : k ∉ l.*1 -> assoc_set l k v = l ++ [(k, v)].
Proof.
  induction l as [|[k' v'] l IH]; simpl; [done|].
  rewrite not_elem_of_cons. intros [Hne Hl]. rewrite bool_decide_eq_false_2 by done.
  by rewrite IH.
Qed.

Lemma assoc_set_keys l k v : k ∈ l.*1 -> (assoc_set l k v).*1 = l.*1.
Proof.
  induction l as [|[k' v'] l IH]; [by intros ?%elem_of_nil|]. simpl.
  destruct (decide (k = k')) as [->|Hne].
  - by rewrite bool_decide_eq_true_2.
  - rewrite bool_decide_eq_false_2, elem_of_cons by done. simpl. intros [?|Hl]; [done|].
    simpl. f_equal. auto.
Qed.

Lemma assoc_set_NoDup l k v : NoDup l.*1 -> NoDup (assoc_set l k v).*1.
Proof.
  intros Hnd. destruct (decide (k ∈ l.*1)) as [Hin|Hn]; [by rewrite assoc_set_keys|].
  rewrite assoc_set_fresh, fmap_app by done. simpl. apply NoDup_app. split_and!; [done| |apply NoDup_singleton].
  intros x Hx ->%list_elem_of_singleton. done.
Qed.

Lemma assoc_set_Forall (P : K * V -> Prop) l k v :
  Forall P l -> P (k, v) -> Forall P (assoc_set l k v).
Proof.
  intros Hl Hp. induction Hl as [|[k' v'] l Hx Hl IH]; simpl; [by repeat constructor|].
  case_bool_decide; by constructor.
Qed.

Lemma assoc_delete_sublist l k : sublist (assoc_delete l k) l.
Proof.
  induction l as [|[k' v'] l IH]; simpl; [constructor|].
  case_bool_decide; [by constructor|by constructor].
Qed.

Lemma assoc_get_delete_ne l k k' : k' <> k -> assoc_get (assoc_delete l k) k' = assoc_get l k'.
Proof.
  intros Hne. induction l as [|[k1 v1] l IH]; simpl; [done|].
  destruct (decide (k = k1)) as [->|H].
  - rewrite (bool_decide_eq_true_2 (k1 = k1)) by done. by rewrite bool_decide_eq_false_2.
  - rewrite (bool_decide_eq_false_2 (k = k1)) by done. simpl. by rewrite IH.
Qed.

Lemma assoc_get_delete_eq l k : NoDup l.*1 -> assoc_get (assoc_delete l k) k = None.
Proof.
  induction l as [|[k1 v1] l IH]; simpl; [done|]. intros [Hk Hnd]%NoDup_cons.
  destruct (decide (k = k1)) as [->|H].
  - rewrite (bool_decide_eq_true_2 (k1 = k1)) by done. by apply assoc_get_None.
  - rewrite (bool_decide_eq_false_2 (k = k1)) by done. simpl.
    rewrite (bool_decide_eq_false_2 (k = k1)) by done. auto.
Qed.

Lemma assoc_get_Forall (P : K * V -> Prop) l k v : Forall P l -> assoc_get l k = Some v -> P (k, v).
Proof. intros Hl Hk. rewrite Forall_forall in Hl. by apply Hl, assoc_get_elem_2. Qed.
End Assoc.
