(* ===== verification/PyFloat.v ===== *)
(** Python's [float]: IEEE 754 binary64, executable.

    Values are the [spec_float]s of the Standard Library at precision 53 and
    maximal exponent 1024.  The file defines what the sources use of [float]:
    conversion from [int] (with [OverflowError]), [math.isfinite], comparison,
    negation, addition and division, and the decimal text of [float.__repr__]
    (shortest digits that read back) with the correctly rounded conversion
    from decimal text that [json.loads] performs. *)

From Stdlib Require Import SpecFloat.
From S2P Require Import Prelude.

Definition float := spec_float.

#[export] Instance float_eq_dec : EqDecision float.
Proof. unfold float. solve_decision. Defined.

Definition prec : Z := 53.
Definition emax : Z := 1024.

(** * Arithmetic *)

Definition fzero : float := S754_zero false.
Definition fopp (x : float) : float := SFopp x.
Definition fadd (x y : float) : float := SFadd prec emax x y.
Definition fdiv (x y : float) : float := SFdiv prec emax x y.

(** [x < y], [x == y] on floats; both false when an operand is a NaN. *)
Definition fltb (x y : float) : bool := SFltb x y.
Definition feqb (x y : float) : bool := SFeqb x y.
Definition fleb (x y : float) : bool := SFleb x y.

Definition is_nan (x : float) : bool :=
  match x with S754_nan => true | _ => false end.

(** [math.isfinite]. *)
Definition isfinite (x : float) : bool :=
  match x with S754_zero _ | S754_finite _ _ _ => true | _ => false end.

(** [float(z)] for an [int]: round to nearest even; [OverflowError] when the
    rounded magnitude is not representable. *)
Definition float_of_int (z : Z) : res float :=
  match binary_normalize prec emax z 0 false with
  | S754_infinity _ =>
      raise OverflowError "int too large to convert to float"
  | x => Ok x
  end.

(** [int == float] compares the exact values. *)
Definition int_eq_float (z : Z) (x : float) : bool :=
  match x with
  | S754_zero _ => z =? 0
  | S754_finite s m e =>
      let v := if s then Z.neg m else Z.pos m in
      if 0 <=? e then z =? v * 2 ^ e else z * 2 ^ (- e) =? v
  | _ => false
  end.

(** * Decimal digits *)

Definition digit_char (d : Z) : ascii := ascii_of_nat (48 + Z.to_nat d).

(** The decimal digits of [z >= 0], put in front of [acc]. *)
Fixpoint digits_fuel (fuel : nat) (z : Z) (acc : string) : string :=
  match fuel with
  | O => acc
  | S fuel =>
      let acc := String (digit_char (z mod 10)) acc in
      if z <? 10 then acc else digits_fuel fuel (z / 10) acc
  end.

(** A number of [b] bits has at most [b] decimal digits. *)
Definition digits (z : Z) : string :=
  digits_fuel (S (Z.to_nat (Z.log2 z))) z "".

(** [str(z)] for an [int]. *)
Definition int_repr (z : Z) : string :=
  if z <? 0 then String "-" (digits (- z)) else digits z.

(** * Correctly rounded decimal to binary64 *)

(** The float nearest to [(-1)^neg * d * 10^e] for [d >= 0]; magnitudes
    outside [10^-330, 10^310] are decided without computing the power. *)
Definition float_of_decimal (neg : bool) (d e : Z) : float :=
  if d =? 0 then S754_zero neg
  else
    let mag := Z.of_nat (String.length (digits d)) + e in
    if 310 <? mag then S754_infinity neg
    else if mag <? -330 then S754_zero neg
    else if 0 <=? e then binary_round prec emax neg (Z.to_pos (d * 10 ^ e)) 0
    else fdiv (S754_finite neg (Z.to_pos d) 0)
              (S754_finite false (Z.to_pos (10 ^ (- e))) 0).

(** * Shortest repr *)

(** [10^p <= num / den]. *)
Definition pow10_le (p num den : Z) : bool :=
  if 0 <=? p then 10 ^ p * den <=? num else den <=? num * 10 ^ (- p).

(** The [p] with [10^(p-1) <= num/den < 10^p], from an estimate that the
    binary logarithm places within two of it. *)
Fixpoint decimal_point_from (fuel : nat) (p num den : Z) : Z :=
  match fuel with
  | O => p
  | S fuel =>
      if pow10_le p num den then decimal_point_from fuel (p + 1) num den
      else if pow10_le (p - 1) num den then p
      else decimal_point_from fuel (p - 1) num den
  end.

Definition decimal_point (num den : Z) : Z :=
  decimal_point_from 6 ((Z.log2 num - Z.log2 den) * 1233 / 4096) num den.

(** Among the two [n]-digit decimals around the positive float [x = num/den]
    those that read back as [x], the nearer one (the even one on a tie). *)
Definition candidate (x : float) (num den p n : Z) : option (Z * Z) :=
  let k := p - n in
  let a := if 0 <=? k then num else num * 10 ^ (- k) in
  let b := if 0 <=? k then den * 10 ^ k else den in
  let lo := a / b in
  let r := 2 * (a mod b) in
  let lo_ok := bool_decide (float_of_decimal false lo k = x) in
  let hi_ok := bool_decide (float_of_decimal false (lo + 1) k = x) in
  match lo_ok, hi_ok with
  | true, true =>
      if (r <? b) || ((r =? b) && Z.even lo) then Some (lo, k)
      else Some (lo + 1, k)
  | true, false => Some (lo, k)
  | false, true => Some (lo + 1, k)
  | false, false => None
  end.

(** The first digit count that reads back; 17 digits always do. *)
Fixpoint shortest_from (fuel : nat) (x : float) (num den p n : Z) : Z * Z :=
  match candidate x num den p n, fuel with
  | Some dk, _ => dk
  | None, S fuel => shortest_from fuel x num den p (n + 1)
  | None, O =>
      let k := p - n in
      (if 0 <=? k then num / (den * 10 ^ k) else num * 10 ^ (- k) / den, k)
  end.

Fixpoint strip_zeros (fuel : nat) (d k : Z) : Z * Z :=
  match fuel with
  | O => (d, k)
  | S fuel =>
      if (d mod 10 =? 0) && negb (d =? 0) then strip_zeros fuel (d / 10) (k + 1)
      else (d, k)
  end.

Definition shortest (m : positive) (e : Z) : Z * Z :=
  let num := if 0 <=? e then Z.pos m * 2 ^ e else Z.pos m in
  let den := if 0 <=? e then 1 else 2 ^ (- e) in
  let '(d, k) :=
    shortest_from 16 (S754_finite false m e) num den (decimal_point num den) 1 in
  strip_zeros 20 d k.

Fixpoint zeros (n : nat) : string :=
  match n with O => "" | S n => String "0" (zeros n) end.

(** The layout of [format_float_short] with format code ['r']: scientific
    notation when the decimal exponent is below -4 or at least 16, otherwise
    positional with at least one fractional digit. *)
Definition layout (d k : Z) : string :=
  let ds := digits d in
  let len := Z.of_nat (String.length ds) in
  let point := len + k in
  if (point <=? -4) || (16 <? point) then
    let exponent := point - 1 in
    let mantissa :=
      match ds with
      | String c EmptyString => String c ""
      | String c rest => String c (String "." rest)
      | EmptyString => ""
      end in
    let edigits := digits (Z.abs exponent) in
    mantissa +:+ "e" +:+ (if exponent <? 0 then "-" else "+") +:+
    (if (String.length edigits <? 2)%nat then "0" else "") +:+ edigits
  else if point <=? 0 then
    "0." +:+ zeros (Z.to_nat (- point)) +:+ ds
  else if len <=? point then
    ds +:+ zeros (Z.to_nat (point - len)) +:+ ".0"
  else
    String.substring 0 (Z.to_nat point) ds +:+ "." +:+
    String.substring (Z.to_nat point) (String.length ds) ds.

(** The text [json.dumps] writes for a float. *)
Definition float_repr (x : float) : string :=
  match x with
  | S754_nan => "NaN"
  | S754_infinity false => "Infinity"
  | S754_infinity true => "-Infinity"
  | S754_zero false => "0.0"
  | S754_zero true => "-0.0"
  | S754_finite s m e =>
      let '(d, k) := shortest m e in
      (if s then "-" else "") +:+ layout d k
  end.

(** * Comparison is a total preorder on the numbers *)

(** The sort key of a float: infinities and signs in order, then exponent and
    mantissa (reversed for negative numbers). *)
Definition fkey (x : float) : Z * Z * Z :=
  match x with
  | S754_infinity true => (0, 0, 0)
  | S754_finite true m e => (1, - e, Z.neg m)
  | S754_zero _ | S754_nan => (2, 0, 0)
  | S754_finite false m e => (3, e, Z.pos m)
  | S754_infinity false => (4, 0, 0)
  end.

Definition lex_compare (a b : Z * Z * Z) : comparison :=
  let '(a1, a2, a3) := a in
  let '(b1, b2, b3) := b in
  match a1 ?= b1 with
  | Eq => match a2 ?= b2 with Eq => a3 ?= b3 | c => c end
  | c => c
  end.

Lemma SFcompare_key x y :
  is_nan x = false -> is_nan y = false ->
  SFcompare x y = Some (lex_compare (fkey x) (fkey y)).
Proof.
  destruct x as [|[]| |[] m e], y as [|[]| |[] m' e']; try done; intros _ _;
    simpl; f_equal.
  - rewrite Z.compare_opp, (Z.compare_antisym e e').
    destruct (e ?= e') eqn:He; simpl; try done.
Qed.

Lemma lex_compare_refl a : lex_compare a a = Eq.
Proof. destruct a as [[? ?] ?]; simpl. by rewrite !Z.compare_refl. Qed.

Lemma lex_compare_antisym a b : lex_compare b a = CompOpp (lex_compare a b).
Proof.
  destruct a as [[a1 a2] a3], b as [[b1 b2] b3]; simpl.
  rewrite (Z.compare_antisym a1 b1), (Z.compare_antisym a2 b2), (Z.compare_antisym a3 b3).
  by destruct (a1 ?= b1), (a2 ?= b2), (a3 ?= b3).
Qed.

(** [lex_compare] as a proposition that [lia] can use. *)
Lemma lex_compare_spec a b :
  let '(a1, a2, a3) := a in
  let '(b1, b2, b3) := b in
  match lex_compare a b with
  | Lt => a1 < b1 \/ (a1 = b1 /\ (a2 < b2 \/ (a2 = b2 /\ a3 < b3)))
  | Eq => a1 = b1 /\ a2 = b2 /\ a3 = b3
  | Gt => b1 < a1 \/ (a1 = b1 /\ (b2 < a2 \/ (a2 = b2 /\ b3 < a3)))
  end.
Proof.
  destruct a as [[a1 a2] a3], b as [[b1 b2] b3]; simpl.
  destruct (Z.compare_spec a1 b1), (Z.compare_spec a2 b2), (Z.compare_spec a3 b3); lia.
Qed.

Lemma fleb_key x y :
  is_nan x = false -> is_nan y = false ->
  fleb x y = match lex_compare (fkey x) (fkey y) with Gt => false | _ => true end.
Proof. intros. unfold fleb, SFleb. by rewrite SFcompare_key. Qed.

Lemma feqb_key x y :
  is_nan x = false -> is_nan y = false ->
  feqb x y = match lex_compare (fkey x) (fkey y) with Eq => true | _ => false end.
Proof. intros. unfold feqb, SFeqb. by rewrite SFcompare_key. Qed.

Lemma fltb_key x y :
  is_nan x = false -> is_nan y = false ->
  fltb x y = match lex_compare (fkey x) (fkey y) with Lt => true | _ => false end.
Proof. intros. unfold fltb, SFltb. by rewrite SFcompare_key. Qed.

Lemma fopp_nan x : is_nan (fopp x) = is_nan x.
Proof. by destruct x. Qed.

(** Negation reverses the order. *)
Lemma fkey_opp x y :
  is_nan x = false -> is_nan y = false ->
  lex_compare (fkey (fopp x)) (fkey (fopp y)) = lex_compare (fkey y) (fkey x).
Proof.
  set (neg := fun '(a1, a2, a3) => (4 - a1, - a2, - a3) : Z * Z * Z).
  assert (forall x, is_nan x = false -> fkey (fopp x) = neg (fkey x)) as Hneg.
  { intros [|[]| |[] m e]; simpl; try done. intros _. f_equal; f_equal; lia. }
  intros Hx Hy. rewrite !Hneg by done.
  destruct (fkey x) as [[a1 a2] a3], (fkey y) as [[b1 b2] b3]; simpl.
  rewrite (Z.compare_opp a2 b2), (Z.compare_opp a3 b3).
  replace (4 - a1 ?= 4 - b1) with (b1 ?= a1); [done|].
  destruct (Z.compare_spec b1 a1), (Z.compare_spec (4 - a1) (4 - b1));
    (done || (exfalso; lia)).
Qed.

(** * Digits read back *)

(** The value of a digit string, from the accumulated prefix value. *)
Fixpoint digits_value (acc : Z) (s : string) : Z :=
  match s with
  | EmptyString => acc
  | String c s => digits_value (acc * 10 + (Z.of_nat (nat_of_ascii c) - 48)) s
  end.

Definition is_digit (c : ascii) : bool :=
  (48 <=? Z.of_nat (nat_of_ascii c)) && (Z.of_nat (nat_of_ascii c) <=? 57).

Fixpoint all_digits (s : string) : bool :=
  match s with
  | EmptyString => true
  | String c s => is_digit c && all_digits s
  end.

Lemma digit_char_code d :
  0 <= d < 10 -> Z.of_nat (nat_of_ascii (digit_char d)) = 48 + d.
Proof.
  intros H. unfold digit_char. rewrite nat_ascii_embedding by lia. lia.
Qed.

Lemma digit_char_is_digit d : 0 <= d < 10 -> is_digit (digit_char d) = true.
Proof. intros H. unfold is_digit. rewrite digit_char_code by lia. lia. Qed.

#[local] Opaque digit_char is_digit.

Lemma digits_value_app a s t :
  digits_value a (s +:+ t) = digits_value (digits_value a s) t.
Proof. revert a; induction s; intros a'; rewrite ?sapp_cons; simpl; auto. Qed.

(** Printing from [acc] puts digits of value [z] in front of it. *)
Lemma digits_fuel_spec fuel z acc :
  0 <= z < 2 ^ Z.of_nat fuel -> (0 < fuel)%nat ->
  exists s, digits_fuel fuel z acc = s +:+ acc /\ all_digits s = true /\
    s <> "" /\ forall a, digits_value a s = a * 10 ^ Z.of_nat (String.length s) + z.
Proof.
  revert z acc; induction fuel as [|fuel IH]; intros z acc Hz Hf; [lia|].
  pose proof (Z.mod_pos_bound z 10 ltac:(lia)) as Hm.
  simpl. destruct (z <? 10) eqn:Hlt.
  - exists (String (digit_char (z mod 10)) ""). simpl.
    rewrite digit_char_is_digit by lia.
    split; [reflexivity|]. split; [reflexivity|]. split; [discriminate|].
    intros a. simpl.
    rewrite digit_char_code by lia. rewrite Z.mod_small by lia.
    change (10 ^ Z.of_nat 1) with 10. lia.
  - assert (0 < fuel)%nat as Hf'.
    { destruct fuel; [|lia]. change (2 ^ Z.of_nat 1) with 2 in Hz. lia. }
    assert (0 <= z / 10 < 2 ^ Z.of_nat fuel) as Hz'.
    { rewrite Nat2Z.inj_succ, Z.pow_succ_r in Hz by lia.
      pose proof (Z.div_mod z 10). lia. }
    destruct (IH (z / 10) (String (digit_char (z mod 10)) acc) Hz' Hf')
      as (s & -> & Hs & Hne & Hv).
    exists (s +:+ String (digit_char (z mod 10)) "").
    split; [|split; [|split]].
    + by rewrite sapp_assoc, sapp_cons, sapp_nil_l.
    + clear -Hs Hm. induction s as [|c s IHs]; rewrite ?sapp_cons; simpl in *.
      * rewrite digit_char_is_digit by done. reflexivity.
      * apply andb_true_iff in Hs as [-> Hs]. by apply IHs.
    + destruct s; discriminate.
    + intros a. rewrite digits_value_app, Hv. simpl.
      rewrite digit_char_code by lia.
      rewrite slength_app, Nat2Z.inj_add, Z.pow_add_r by lia. simpl.
      change (10 ^ Z.of_nat 1) with 10.
      pose proof (Z.div_mod z 10). lia.
Qed.

Lemma digits_spec z :
  0 <= z ->
  all_digits (digits z) = true /\ digits z <> "" /\ digits_value 0 (digits z) = z.
Proof.
  intros Hz. unfold digits.
  destruct (digits_fuel_spec (S (Z.to_nat (Z.log2 z))) z "") as (s & -> & Hs & Hne & Hv).
  - split; [lia|].
    destruct (decide (z = 0)) as [->|]; [simpl; lia|].
    pose proof (Z.log2_nonneg z).
    rewrite Nat2Z.inj_succ, Z2Nat.id by lia. apply Z.log2_spec. lia.
  - lia.
  - rewrite sapp_nil_r. split; [done|]. split; [done|]. rewrite Hv. lia.
Qed.

(** No leading zero: the first digit of a positive number is not ["0"]. *)
Lemma digits_fuel_head fuel z acc :
  0 < z < 2 ^ Z.of_nat fuel ->
  exists c t, digits_fuel fuel z acc = String c t /\ c <> "0"%char.
Proof.
  revert z acc; induction fuel as [|fuel IH]; intros z acc Hz.
  { change (2 ^ Z.of_nat 0) with 1 in Hz. lia. }
  simpl. destruct (z <? 10) eqn:Hlt.
  - eexists _, _. split; [done|]. rewrite Z.mod_small by lia. intros H.
    apply (f_equal (fun c => Z.of_nat (nat_of_ascii c))) in H.
    rewrite digit_char_code in H by lia. change (48 + z = 48) in H. lia.
  - apply IH. rewrite Nat2Z.inj_succ, Z.pow_succ_r in Hz by lia.
    pose proof (Z.div_mod z 10). pose proof (Z.mod_pos_bound z 10). lia.
Qed.

Lemma digits_head z :
  0 <= z -> exists c t, digits z = String c t /\ is_digit c = true /\
    all_digits (String c t) = true /\ (c = "0"%char -> t = "").
Proof.
  intros Hz. destruct (digits_spec z Hz) as (Hd & Hne & _).
  destruct (decide (z = 0)) as [->|Hz0]; [by exists "0"%char, ""|].
  destruct (digits_fuel_head (S (Z.to_nat (Z.log2 z))) z "") as (c & t & Hc & Hc0).
  - pose proof (Z.log2_nonneg z). rewrite Nat2Z.inj_succ, Z2Nat.id by lia.
    pose proof (Z.log2_spec z). lia.
  - fold (digits z) in Hc. exists c, t. rewrite Hc in *. split; [done|].
    simpl in Hd. apply andb_true_iff in Hd as [Hd Ht]. split; [done|].
    split; [by simpl; rewrite Hd|done].
Qed.
