(* ===== verification/PyValue.v ===== *)
(** Python's dynamic values as the sources use them: the JSON types plus
    tuples.  A [dict] is the list of its items in insertion order, with string
    keys (the sources never build one with other keys outside their typed
    records); a [str] is its UTF-8 encoding, whose byte order is the code-point
    order Python compares strings by.  The file has the type tests, the
    [dict] operations, the conversions [int] and [float], truthiness and [==]. *)

From Stdlib Require Import SpecFloat.
From S2P Require Import Prelude PyFloat.

#[warnings="-register-all"]
Inductive pyval : Type :=
| PNone
| PBool (b : bool)
| PInt (z : Z)
| PFloat (x : float)
| PStr (s : string)
| PList (l : list pyval)
| PTuple (l : list pyval)
| PDict (d : list (string * pyval)).

Abbreviation dict := (list (string * pyval)).

(** * Structural induction and decidable equality *)

Section pyval_induction.
Variable P : pyval -> Prop.
Hypothesis HNone : P PNone.
Hypothesis HBool : forall b, P (PBool b).
Hypothesis HInt : forall z, P (PInt z).
Hypothesis HFloat : forall x, P (PFloat x).
Hypothesis HStr : forall s, P (PStr s).
Hypothesis HList : forall l, Forall P l -> P (PList l).
Hypothesis HTuple : forall l, Forall P l -> P (PTuple l).
Hypothesis HDict : forall d, Forall (fun kv => P kv.2) d -> P (PDict d).

Fixpoint pyval_rect' (v : pyval) : P v :=
  let list_rec := fix list_rec (l : list pyval) : Forall P l :=
    match l with
    | [] => List.Forall_nil _
    | x :: l => List.Forall_cons _ _ _ (pyval_rect' x) (list_rec l)
    end in
  let dict_rec := fix dict_rec (d : dict) : Forall (fun kv => P kv.2) d :=
    match d with
    | [] => List.Forall_nil _
    | kv :: d => List.Forall_cons _ kv _ (pyval_rect' kv.2) (dict_rec d)
    end in
  match v with
  | PNone => HNone
  | PBool b => HBool b
  | PInt z => HInt z
  | PFloat x => HFloat x
  | PStr s => HStr s
  | PList l => HList l (list_rec l)
  | PTuple l => HTuple l (list_rec l)
  | PDict d => HDict d (dict_rec d)
  end.
End pyval_induction.

Fixpoint pyval_eqb (v w : pyval) : bool :=
  match v, w with
  | PNone, PNone => true
  | PBool a, PBool b => Bool.eqb a b
  | PInt a, PInt b => a =? b
  | PFloat a, PFloat b => bool_decide (a = b)
  | PStr a, PStr b => bool_decide (a = b)
  | PList l, PList m | PTuple l, PTuple m =>
      (fix go (l m : list pyval) : bool :=
         match l, m with
         | [], [] => true
         | x :: l, y :: m => pyval_eqb x y && go l m
         | _, _ => false
         end) l m
  | PDict d, PDict e =>
      (fix go (d e : dict) : bool :=
         match d, e with
         | [], [] => true
         | (k, x) :: d, (k', y) :: e => bool_decide (k = k') && pyval_eqb x y && go d e
         | _, _ => false
         end) d e
  | _, _ => false
  end.

Lemma pyval_eqb_eq v w : pyval_eqb v w = true <-> v = w.
Proof.
  revert w. induction v as [| | | | |l IH|l IH|d IH] using pyval_rect';
    intros w; destruct w; try (by split); simpl.
  - destruct b, b0; naive_solver.
  - rewrite Z.eqb_eq. naive_solver.
  - rewrite bool_decide_eq_true. naive_solver.
  - rewrite bool_decide_eq_true. naive_solver.
  - transitivity (l = l0); [|naive_solver].
    revert l0. induction IH as [|x l Hx _ IHl]; intros [|y m]; try (split; done).
    rewrite andb_true_iff, Hx, IHl. naive_solver.
  - transitivity (l = l0); [|naive_solver].
    revert l0. induction IH as [|x l Hx _ IHl]; intros [|y m]; try (split; done).
    rewrite andb_true_iff, Hx, IHl. naive_solver.
  - transitivity (d = d0); [|naive_solver].
    revert d0. induction IH as [|[k x] d Hx _ IHd]; intros [|[k' y] e]; try (split; done).
    rewrite !andb_true_iff, bool_decide_eq_true, IHd. simpl in Hx. rewrite Hx.
    naive_solver.
Qed.

#[export] Instance pyval_eq_dec : EqDecision pyval.
Proof.
  intros v w. destruct (pyval_eqb v w) eqn:H.
  - left. by apply pyval_eqb_eq.
  - right. intros Hvw. apply pyval_eqb_eq in Hvw. congruence.
Defined.

(** * Dictionaries *)

(** [d.get(k)] *)
Fixpoint dict_get (d : dict) (k : string) : option pyval :=
  match d with
  | [] => None
  | (k', v) :: d => if bool_decide (k = k') then Some v else dict_get d k
  end.

(** [d[k]] *)
Definition dict_item (d : dict) (k : string) : res pyval :=
  match dict_get d k with
  | Some v => Ok v
  | None => raise KeyError k
  end.

(** [d.get(k, default)] *)
Definition dict_get_or (d : dict) (k : string) (default : pyval) : pyval :=
  match dict_get d k with Some v => v | None => default end.

(** [d[k] = v]: an existing key keeps its place. *)
Fixpoint dict_set (d : dict) (k : string) (v : pyval) : dict :=
  match d with
  | [] => [(k, v)]
  | (k', v') :: d =>
      if bool_decide (k = k') then (k, v) :: d else (k', v') :: dict_set d k v
  end.

(** [d.pop(k, default)] removes the key. *)
Fixpoint dict_delete (d : dict) (k : string) : dict :=
  match d with
  | [] => []
  | (k', v') :: d => if bool_decide (k = k') then d else (k', v') :: dict_delete d k
  end.

Definition dict_has (d : dict) (k : string) : bool :=
  match dict_get d k with Some _ => true | None => false end.

(** [x in l] *)
Definition str_in (x : string) (l : list string) : bool := bool_decide (x ∈ l).

(** [set(d) == fields] *)
Definition keys_are (d : dict) (fields : list string) : bool :=
  forallb (fun kv => str_in kv.1 fields) d && forallb (dict_has d) fields.

(** * Types, truth and conversions *)

(** [type(v) is int] and so on; [bool] is a distinct class here. *)
Definition is_int (v : pyval) : bool := match v with PInt _ => true | _ => false end.
Definition is_bool (v : pyval) : bool := match v with PBool _ => true | _ => false end.
Definition is_float (v : pyval) : bool := match v with PFloat _ => true | _ => false end.
Definition is_str (v : pyval) : bool := match v with PStr _ => true | _ => false end.
Definition is_list (v : pyval) : bool := match v with PList _ => true | _ => false end.
Definition is_tuple (v : pyval) : bool := match v with PTuple _ => true | _ => false end.
Definition is_dict (v : pyval) : bool := match v with PDict _ => true | _ => false end.
Definition is_none (v : pyval) : bool := match v with PNone => true | _ => false end.

(** [bool(v)] *)
Definition truthy (v : pyval) : bool :=
  match v with
  | PNone => false
  | PBool b => b
  | PInt z => negb (z =? 0)
  | PFloat (S754_zero _) => false
  | PFloat _ => true
  | PStr s => negb (bool_decide (s = ""))
  | PList l | PTuple l => negb (bool_decide (l = []))
  | PDict d => negb (bool_decide (d = []))
  end.

Definition is_space (c : ascii) : bool :=
  let n := nat_of_ascii c in
  ((9 <=? n) && (n <=? 13))%nat || ((28 <=? n) && (n <=? 32))%nat.

Fixpoint lstrip (s : string) : string :=
  match s with
  | String c s' => if is_space c then lstrip s' else s
  | EmptyString => ""
  end.

Fixpoint srev_onto (s acc : string) : string :=
  match s with EmptyString => acc | String c s => srev_onto s (String c acc) end.
Definition srev (s : string) : string := srev_onto s "".

Definition strip (s : string) : string := srev (lstrip (srev (lstrip s))).

(** The longest prefix of digits and what follows it. *)
Fixpoint span_digits (s : string) : string * string :=
  match s with
  | String c s' =>
      if is_digit c then let '(a, b) := span_digits s' in (String c a, b) else ("", s)
  | EmptyString => ("", "")
  end.

Definition bad_int {A} : res A := raise ValueError "invalid literal for int() with base 10".
Definition bad_float {A} : res A := raise ValueError "could not convert string to float".

(** The sign of a number and of an exponent. *)
Definition split_minus (s : string) : bool * string :=
  match s with String "-" t => (true, t) | _ => (false, s) end.

Definition split_sign (s : string) : bool * string :=
  match s with
  | String "-" t => (true, t)
  | String "+" t => (false, t)
  | _ => (false, s)
  end.

(** [int(s)] on ASCII text without digit-group underscores; CPython refuses
    literals of more than 4300 digits. *)
Definition int_of_str (s : string) : res Z :=
  let digits_to_int (neg : bool) (t : string) : res Z :=
    match t with
    | EmptyString => bad_int
    | _ =>
        if negb (all_digits t) then bad_int
        else if (4300 <? String.length t)%nat then
          raise ValueError "Exceeds the limit (4300 digits) for integer string conversion"
        else let z := digits_value 0 t in Ok (if neg then - z else z)
    end in
  let '(neg, t) := split_sign (strip s) in digits_to_int neg t.

(** [e[+-]digits], as (exponent, rest). *)
Definition scan_exponent (s : string) : option (Z * string) :=
  match s with
  | String c t =>
      if bool_decide (c = "e"%char) || bool_decide (c = "E"%char) then
        let '(neg, u) := split_sign t in
        let '(ds, rest) := span_digits u in
        match ds with
        | EmptyString => None
        | _ => let e := digits_value 0 ds in Some (if neg then - e else e, rest)
        end
      else None
  | EmptyString => None
  end.

Definition float_of_str (s : string) : res float :=
  let number (neg : bool) (t : string) : res float :=
    if bool_decide (t ∈ ["inf"; "infinity"; "Infinity"; "Inf"; "INF"]) then Ok (S754_infinity neg)
    else if bool_decide (t ∈ ["nan"; "NaN"; "NAN"; "Nan"]) then Ok S754_nan
    else
      let '(ip, r) := span_digits t in
      let '(fp, r) :=
        match r with String "." r => span_digits r | _ => ("", r) end in
      let '(e, r) :=
        match scan_exponent r with Some (e, r) => (e, r) | None => (0, r) end in
      match ip +:+ fp, r with
      | EmptyString, _ => bad_float
      | ds, EmptyString =>
          Ok (float_of_decimal neg (digits_value 0 ds) (e - Z.of_nat (String.length fp)))
      | _, _ => bad_float
      end in
  let '(neg, t) := split_sign (strip s) in number neg t.

(** [int(v)] *)
Definition py_int (v : pyval) : res Z :=
  match v with
  | PInt z => Ok z
  | PBool b => Ok (if b then 1 else 0)
  | PFloat (S754_zero _) => Ok 0
  | PFloat (S754_finite s m e) =>
      let a := if 0 <=? e then Z.pos m * 2 ^ e else Z.pos m / 2 ^ (- e) in
      Ok (if s then - a else a)
  | PFloat S754_nan => raise ValueError "cannot convert float NaN to integer"
  | PFloat (S754_infinity _) => raise OverflowError "cannot convert float infinity to integer"
  | PStr s => int_of_str s
  | _ => raise TypeError "int() argument must be a string, a bytes-like object or a real number"
  end.

(** [float(v)] *)
Definition py_float (v : pyval) : res float :=
  match v with
  | PFloat x => Ok x
  | PInt z => float_of_int z
  | PBool b => float_of_int (if b then 1 else 0)
  | PStr s => float_of_str s
  | _ => raise TypeError "float() argument must be a string or a real number"
  end.

(** [str(v)] of the scalars; the text of a container is never asked for. *)
Definition py_str (v : pyval) : option string :=
  match v with
  | PStr s => Some s
  | PInt z => Some (int_repr z)
  | PBool b => Some (if b then "True" else "False")
  | PFloat S754_nan => Some "nan"
  | PFloat (S754_infinity s) => Some (if s then "-inf" else "inf")
  | PFloat x => Some (float_repr x)
  | PNone => Some "None"
  | PList _ | PTuple _ | PDict _ => None
  end.

(** * Equality [v == w]: numbers by value across their types, dictionaries
    without regard to order *)

Definition num_eq (v w : pyval) : option bool :=
  let int_of v := match v with
    | PInt z => Some z | PBool b => Some (if b : bool then 1 else 0) | _ => None end in
  match int_of v, int_of w, v, w with
  | Some a, Some b, _, _ => Some (a =? b)
  | Some a, _, _, PFloat y => Some (int_eq_float a y)
  | _, Some b, PFloat x, _ => Some (int_eq_float b x)
  | _, _, PFloat x, PFloat y => Some (feqb x y)
  | _, _, _, _ => None
  end.

Fixpoint py_eq (v w : pyval) : bool :=
  match num_eq v w with
  | Some b => b
  | None =>
    match v, w with
    | PNone, PNone => true
    | PStr a, PStr b => bool_decide (a = b)
    | PList l, PList m | PTuple l, PTuple m =>
        (fix go (l m : list pyval) : bool :=
           match l, m with
           | [], [] => true
           | x :: l, y :: m => py_eq x y && go l m
           | _, _ => false
           end) l m
    | PDict d, PDict e =>
        (length d =? length e)%nat &&
        (fix go (d : dict) : bool :=
           match d with
           | [] => true
           | (k, x) :: d =>
               match dict_get e k with Some y => py_eq x y | None => false end && go d
           end) d
    | _, _ => false
    end
  end.
