(* ===== verification/Json.v ===== *)
(** JSON text: [json.dumps] as [canonical_bytes] calls it (sorted keys, no
    spaces, UTF-8) and [json.loads] of a byte string.  The main result is the
    round trip: the canonical text of a value reads back as the value with its
    keys sorted. *)

From Stdlib Require Import SpecFloat.
From S2P Require Import Prelude PyFloat PyValue.

Definition quote : ascii := ascii_of_nat 34.
Definition backslash : ascii := ascii_of_nat 92.
Definition newline : ascii := ascii_of_nat 10.

(** * Printing *)

Definition hex_digit (n : nat) : ascii :=
  ascii_of_nat (if (n <? 10)%nat then 48 + n else 87 + n).

(** The escape of one byte of a string, with [ensure_ascii=False]. *)
Definition escape_char (c : ascii) : string :=
  let n := nat_of_ascii c in
  if (n =? 34)%nat || (n =? 92)%nat then String backslash (String c "")
  else if (n =? 10)%nat then String backslash "n"
  else if (n =? 13)%nat then String backslash "r"
  else if (n =? 9)%nat then String backslash "t"
  else if (n =? 8)%nat then String backslash "b"
  else if (n =? 12)%nat then String backslash "f"
  else if (n <? 32)%nat then
    String backslash ("u00" +:+ String (hex_digit (n / 16)) (String (hex_digit (n mod 16)) ""))
  else String c "".

Fixpoint escape (s : string) : string :=
  match s with
  | EmptyString => ""
  | String c s => escape_char c +:+ escape s
  end.

Definition json_string (s : string) : string :=
  String quote (escape s +:+ String quote "").

Fixpoint intercalate (sep : string) (l : list string) : string :=
  match l with
  | [] => ""
  | [x] => x
  | x :: l => x +:+ sep +:+ intercalate sep l
  end.

Fixpoint dump (v : pyval) : string :=
  match v with
  | PNone => "null"
  | PBool b => if b then "true" else "false"
  | PInt z => int_repr z
  | PFloat x => float_repr x
  | PStr s => json_string s
  | PList l | PTuple l => "[" +:+ intercalate "," (map dump l) +:+ "]"
  | PDict d =>
      "{" +:+ intercalate ","
        (map (fun kv => let '(k, x) := kv in json_string k +:+ ":" +:+ dump x) d) +:+ "}"
  end.

(** [sort_keys=True], at every depth. *)
Definition key_leb (kv kv' : string * pyval) : bool := String.leb kv.1 kv'.1.
Definition sort_items (d : dict) : dict := isort key_leb d.

Fixpoint sort_keys (v : pyval) : pyval :=
  match v with
  | PList l => PList (map sort_keys l)
  | PTuple l => PTuple (map sort_keys l)
  | PDict d => PDict (sort_items (map (fun kv => let '(k, x) := kv in (k, sort_keys x)) d))
  | v => v
  end.

(** [canonical_bytes] *)
Definition canonical_bytes (v : pyval) : string := dump (sort_keys v).

(** * Decoding bytes *)

Definition in_range (lo hi : nat) (c : ascii) : bool :=
  (lo <=? nat_of_ascii c)%nat && (nat_of_ascii c <=? hi)%nat.
Definition is_cont (c : ascii) : bool := in_range 128 191 c.

(** Well-formed UTF-8, surrogates let through as [surrogatepass] does. *)
Fixpoint utf8_valid (s : string) : bool :=
  match s with
  | EmptyString => true
  | String a s1 =>
      if in_range 0 127 a then utf8_valid s1
      else match s1 with
      | String b s2 =>
          if in_range 194 223 a then is_cont b && utf8_valid s2
          else match s2 with
          | String c s3 =>
              if in_range 224 239 a then
                (if in_range 224 224 a then in_range 160 191 b else is_cont b) &&
                is_cont c && utf8_valid s3
              else match s3 with
              | String d s4 =>
                  in_range 240 244 a &&
                  (if in_range 240 240 a then in_range 144 191 b
                   else if in_range 244 244 a then in_range 128 143 b
                   else is_cont b) &&
                  is_cont c && is_cont d && utf8_valid s4
              | EmptyString => false
              end
          | EmptyString => false
          end
      | EmptyString => false
      end
  end.

(** The UTF-8 bytes of a code point. *)
Definition utf8_encode (n : Z) (rest : string) : string :=
  let ch k := ascii_of_nat (Z.to_nat k) in
  if n <? 128 then String (ch n) rest
  else if n <? 2048 then
    String (ch (192 + n / 64)) (String (ch (128 + n mod 64)) rest)
  else if n <? 65536 then
    String (ch (224 + n / 4096))
      (String (ch (128 + (n / 64) mod 64)) (String (ch (128 + n mod 64)) rest))
  else
    String (ch (240 + n / 262144))
      (String (ch (128 + (n / 4096) mod 64))
        (String (ch (128 + (n / 64) mod 64)) (String (ch (128 + n mod 64)) rest))).

(** * Scanning *)

Definition decode_error {A} (message : string) : res A := raise JSONDecodeError message.
Definition out_of_fuel {A} : res A := raise BaseException "parser fuel exhausted".

Definition is_ws (c : ascii) : bool :=
  let n := nat_of_ascii c in
  (n =? 32)%nat || (n =? 9)%nat || (n =? 10)%nat || (n =? 13)%nat.

Fixpoint skip_ws (s : string) : string :=
  match s with
  | String c s' => if is_ws c then skip_ws s' else s
  | EmptyString => ""
  end.

Definition hex_value (c : ascii) : option nat :=
  let n := nat_of_ascii c in
  if in_range 48 57 c then Some (n - 48)%nat
  else if in_range 97 102 c then Some (n - 87)%nat
  else if in_range 65 70 c then Some (n - 55)%nat
  else None.

(** Four hexadecimal digits. *)
Definition hex4 (a b c d : ascii) : option Z :=
  x ← hex_value a; y ← hex_value b; z ← hex_value c; w ← hex_value d;
  Some (Z.of_nat (((x * 16 + y) * 16 + z) * 16 + w)).

Definition simple_escape (c : ascii) : option ascii :=
  let n := nat_of_ascii c in
  if (n =? 34)%nat || (n =? 92)%nat || (n =? 47)%nat then Some c
  else if (n =? 98)%nat then Some (ascii_of_nat 8)
  else if (n =? 102)%nat then Some (ascii_of_nat 12)
  else if (n =? 110)%nat then Some (ascii_of_nat 10)
  else if (n =? 114)%nat then Some (ascii_of_nat 13)
  else if (n =? 116)%nat then Some (ascii_of_nat 9)
  else None.

Definition cons_char (c : ascii) (m : res (string * string)) : res (string * string) :=
  match m with Ok (t, r) => Ok (String c t, r) | Raise e => Raise e end.
Definition cons_code (n : Z) (m : res (string * string)) : res (string * string) :=
  match m with Ok (t, r) => Ok (utf8_encode n t, r) | Raise e => Raise e end.

Definition is_high (n : Z) : bool := (55296 <=? n) && (n <=? 56319).
Definition is_low (n : Z) : bool := (56320 <=? n) && (n <=? 57343).

(** [scanstring] after the opening quote: the text and what follows it. *)
Fixpoint scan_string (s : string) : res (string * string) :=
  match s with
  | EmptyString => decode_error "Unterminated string starting at"
  | String c s1 =>
      if bool_decide (c = quote) then Ok ("", s1)
      else if bool_decide (c = backslash) then
        match s1 with
        | EmptyString => decode_error "Unterminated string starting at"
        | String e s2 =>
            if bool_decide (e = "u"%char) then
              match s2 with
              | String h1 (String h2 (String h3 (String h4 s3))) =>
                  match hex4 h1 h2 h3 h4 with
                  | None => decode_error "Invalid \uXXXX escape"
                  | Some n =>
                      if is_high n then
                        match s3 with
                        | String b (String u (String l1 (String l2 (String l3 (String l4 s4))))) =>
                            match hex4 l1 l2 l3 l4 with
                            | Some m =>
                                if bool_decide (b = backslash) && bool_decide (u = "u"%char) &&
                                   is_low m
                                then cons_code (65536 + (n - 55296) * 1024 + (m - 56320))
                                       (scan_string s4)
                                else cons_code n (scan_string s3)
                            | None => cons_code n (scan_string s3)
                            end
                        | _ => cons_code n (scan_string s3)
                        end
                      else cons_code n (scan_string s3)
                  end
              | _ => decode_error "Invalid \uXXXX escape"
              end
            else match simple_escape e with
            | Some d => cons_char d (scan_string s2)
            | None => decode_error "Invalid \escape"
            end
        end
      else if (nat_of_ascii c <? 32)%nat then decode_error "Invalid control character at"
      else cons_char c (scan_string s1)
  end.

(** The integer part: no leading zero unless it is the only digit. *)
Definition scan_int (s : string) : option (string * string) :=
  match s with
  | String "0" t => Some ("0", t)
  | String c _ => if is_digit c then Some (span_digits s) else None
  | EmptyString => None
  end.

(** An optional fraction; a point without digits is left alone. *)
Definition scan_frac (s : string) : string * string :=
  match s with
  | String "." t => match span_digits t with (EmptyString, _) => ("", s) | p => p end
  | _ => ("", s)
  end.

(** The number grammar; a fraction or exponent makes a [float]. *)
Definition scan_number (s : string) : option (res pyval * string) :=
  let '(neg, s1) := split_minus s in
  match scan_int s1 with
  | None => None
  | Some (ip, r1) =>
      let '(fp, r2) := scan_frac r1 in
      let as_float (e : Z) :=
        Ok (PFloat (float_of_decimal neg (digits_value 0 (ip +:+ fp))
                      (e - Z.of_nat (String.length fp)))) in
      match scan_exponent r2 with
      | Some (e, r3) => Some (as_float e, r3)
      | None =>
          match fp with
          | EmptyString =>
              Some (if (4300 <? String.length ip)%nat then
                      raise ValueError
                        "Exceeds the limit (4300 digits) for integer string conversion"
                    else let z := digits_value 0 ip in
                         Ok (PInt (if neg then - z else z)), r2)
          | _ => Some (as_float 0, r2)
          end
      end
  end.

(** [s] without the prefix [p], when it starts with it. *)
Fixpoint drop_prefix (p s : string) : option string :=
  match p, s with
  | EmptyString, _ => Some s
  | String a p, String b s => if bool_decide (a = b) then drop_prefix p s else None
  | _, EmptyString => None
  end.

Section Parser.
(** [object_pairs_hook] and [parse_constant]. *)
Variable pairs_hook : list (string * pyval) -> res pyval.
Variable constant_hook : string -> res pyval.

Definition constants : list (string * res pyval) :=
  [("null", Ok PNone); ("true", Ok (PBool true)); ("false", Ok (PBool false));
   ("NaN", constant_hook "NaN"); ("Infinity", constant_hook "Infinity");
   ("-Infinity", constant_hook "-Infinity")].

Fixpoint scan_constant (l : list (string * res pyval)) (s : string)
    : option (res pyval * string) :=
  match l with
  | [] => None
  | (name, v) :: l =>
      match drop_prefix name s with
      | Some r => Some (v, r)
      | None => scan_constant l s
      end
  end.

(** A literal or a number. *)
Definition scan_scalar (s : string) : res (pyval * string) :=
  match (match scan_constant constants s with
         | Some p => Some p | None => scan_number s end) with
  | Some (v, r) => x ← v; Ok (x, r)
  | None => decode_error "Expecting value"
  end.

Fixpoint parse_value (fuel : nat) (s : string) : res (pyval * string) :=
  match fuel with
  | O => out_of_fuel
  | S fuel =>
      match s with
      | EmptyString => decode_error "Expecting value"
      | String c s1 =>
          if bool_decide (c = quote) then
            '(t, r) ← scan_string s1; Ok (PStr t, r)
          else if bool_decide (c = "{"%char) then
            match drop_prefix "}" (skip_ws s1) with
            | Some r => v ← pairs_hook []; Ok (v, r)
            | None =>
                '(d, r) ← parse_members fuel (skip_ws s1); v ← pairs_hook d; Ok (v, r)
            end
          else if bool_decide (c = "["%char) then
            match drop_prefix "]" (skip_ws s1) with
            | Some r => Ok (PList [], r)
            | None => '(l, r) ← parse_elements fuel (skip_ws s1); Ok (PList l, r)
            end
          else scan_scalar s
      end
  end
with parse_elements (fuel : nat) (s : string) : res (list pyval * string) :=
  match fuel with
  | O => out_of_fuel
  | S fuel =>
      '(v, r) ← parse_value fuel s;
      match skip_ws r with
      | String "]" r => Ok ([v], r)
      | String "," r => '(l, r) ← parse_elements fuel (skip_ws r); Ok (v :: l, r)
      | _ => decode_error "Expecting ',' delimiter"
      end
  end
with parse_members (fuel : nat) (s : string) : res (list (string * pyval) * string) :=
  match fuel with
  | O => out_of_fuel
  | S fuel =>
      match s with
      | String c s1 =>
          if bool_decide (c = quote) then
            '(k, r) ← scan_string s1;
            match skip_ws r with
            | String ":" r =>
                '(v, r) ← parse_value fuel (skip_ws r);
                match skip_ws r with
                | String "}" r => Ok ([(k, v)], r)
                | String "," r =>
                    '(d, r) ← parse_members fuel (skip_ws r); Ok ((k, v) :: d, r)
                | _ => decode_error "Expecting ',' delimiter"
                end
            | _ => decode_error "Expecting ':' delimiter"
            end
          else decode_error "Expecting property name enclosed in double quotes"
      | EmptyString => decode_error "Expecting property name enclosed in double quotes"
      end
  end.

(** [JSONDecoder.decode] *)
Definition decode (s : string) : res pyval :=
  '(v, r) ← parse_value (S (2 * String.length s)) (skip_ws s);
  match skip_ws r with
  | EmptyString => Ok v
  | _ => decode_error "Extra data"
  end.
End Parser.

(** The default hooks: a later duplicate key replaces the value in place. *)
Definition dict_of_pairs (pairs : list (string * pyval)) : dict :=
  foldl (fun d kv => dict_set d kv.1 kv.2) [] pairs.

Definition default_constant (name : string) : res pyval :=
  Ok (PFloat (if bool_decide (name = "NaN") then S754_nan
              else S754_infinity (bool_decide (name = "-Infinity")))).

(** [json.loads(data)] on UTF-8 bytes. *)
Definition loads (data : string) : res pyval :=
  if utf8_valid data then
    decode (fun pairs => Ok (PDict (dict_of_pairs pairs))) default_constant data
  else raise UnicodeDecodeError "'utf-8' codec can't decode bytes".

(** * Sorting keys *)

Lemma key_leb_total kv kv' : key_leb kv kv' = true \/ key_leb kv' kv = true.
Proof. apply String.leb_total. Qed.

Lemma key_leb_trans kv kv' kv'' :
  key_leb kv kv' = true -> key_leb kv' kv'' = true -> key_leb kv kv'' = true.
Proof.
  unfold key_leb. rewrite <- !Is_true_true. apply (transitivity (R := String.le)).
Qed.

Lemma sort_items_perm d : sort_items d ≡ₚ d.
Proof. apply isort_perm. Qed.

Lemma sort_items_sorted d : sorted_by key_leb (sort_items d).
Proof.
  apply (isort_sorted _ (fun _ => True)); auto using key_leb_total.
  - intros x y z _ _ _. apply key_leb_trans.
  - by apply Forall_true.
Qed.

Lemma NoDup_keys_inj (d : dict) kv kv' :
  NoDup d.*1 -> kv ∈ d -> kv' ∈ d -> kv.1 = kv'.1 -> kv = kv'.
Proof.
  intros Hd (i & Hi)%list_elem_of_lookup (j & Hj)%list_elem_of_lookup Hk.
  assert (i = j) as ->.
  { apply (NoDup_lookup (d.*1) i j kv.1); rewrite ?list_lookup_fmap, ?Hi, ?Hj; simpl; congruence. }
  congruence.
Qed.

Lemma sort_items_unique d e :
  NoDup d.*1 -> d ≡ₚ e -> sort_items d = sort_items e.
Proof.
  intros Hd Hde. apply (isort_unique _ (fun _ => True)); auto using key_leb_total.
  - intros x y z _ _ _. apply key_leb_trans.
  - by apply Forall_true.
  - intros kv kv' H1 H2 Hle Hge. eapply NoDup_keys_inj; eauto.
    by apply String.leb_antisym.
Qed.

(** What [sort_keys] does to the items of a dictionary. *)
Definition sort_value (kv : string * pyval) : string * pyval := (kv.1, sort_keys kv.2).

Lemma sort_keys_dict d : sort_keys (PDict d) = PDict (sort_items (sort_value <$> d)).
Proof. simpl. do 2 f_equal. apply map_ext. by intros []. Qed.

Lemma insert_sorted_fmap kv d :
  insert_sorted key_leb (sort_value kv) (sort_value <$> d) =
  sort_value <$> insert_sorted key_leb kv d.
Proof.
  induction d as [|kv' d IH]; [done|].
  rewrite fmap_cons. cbn [insert_sorted].
  change (key_leb (sort_value kv) (sort_value kv')) with (key_leb kv kv').
  destruct (key_leb kv kv'); [done|]. by rewrite IH.
Qed.

Lemma sort_items_fmap d : sort_items (sort_value <$> d) = sort_value <$> sort_items d.
Proof.
  unfold sort_items. induction d as [|kv d IH]; [done|].
  rewrite fmap_cons. rewrite !isort_cons.
  by rewrite IH, insert_sorted_fmap.
Qed.

Lemma sort_keys_idemp v : sort_keys (sort_keys v) = sort_keys v.
Proof.
  induction v as [| | | | |l IH|l IH|d IH] using pyval_rect'; try done.
  - simpl. f_equal. induction IH; simpl; congruence.
  - simpl. f_equal. induction IH; simpl; congruence.
  - rewrite !sort_keys_dict. f_equal.
    rewrite (sort_items_fmap d), <- list_fmap_compose.
    assert (sort_value ∘ sort_value <$> sort_items d = sort_value <$> sort_items d) as ->.
    { apply list_fmap_ext. intros i kv Hi%list_elem_of_lookup_2.
      rewrite sort_items_perm in Hi. unfold sort_value; simpl. f_equal.
      rewrite Forall_forall in IH. by apply IH. }
    rewrite sort_items_fmap. f_equal. apply isort_id, sort_items_sorted.
Qed.

(** Equality of values up to the order of dictionary items. *)
Inductive same_value : pyval -> pyval -> Prop :=
| same_refl v : same_value v v
| same_list l l' : Forall2 same_value l l' -> same_value (PList l) (PList l')
| same_tuple l l' : Forall2 same_value l l' -> same_value (PTuple l) (PTuple l')
| same_dict d e d' :
    Forall2 (fun kv kv' => kv.1 = kv'.1 /\ same_value kv.2 kv'.2) d e ->
    NoDup e.*1 -> e ≡ₚ d' -> same_value (PDict d) (PDict d').

Lemma sort_keys_same v w : same_value v w -> sort_keys v = sort_keys w.
Proof.
  revert w. induction v as [| | | | |l IH|l IH|d IH] using pyval_rect';
    intros w Hw; inversion Hw as [|? l' Hl|? l' Hl|? e d' Hde He Hp]; subst; try done.
  - simpl. f_equal. revert l' Hl Hw. induction IH; intros l' Hl _; inversion Hl; subst; simpl; [done|].
    f_equal; auto. eapply IHIH; eauto. by constructor.
  - simpl. f_equal. revert l' Hl Hw. induction IH; intros l' Hl _; inversion Hl; subst; simpl; [done|].
    f_equal; auto. eapply IHIH; eauto. by constructor.
  - rewrite !sort_keys_dict. f_equal.
    assert (sort_value <$> d = sort_value <$> e) as ->.
    { clear Hp Hw He. revert e Hde. induction IH as [|kv d Hkv _ IH]; intros e Hde;
        inversion Hde as [|? kv' ? e' [Hk Hv] Hde']; subst; simpl; [done|].
      unfold sort_value at 1 3. rewrite Hk, (Hkv _ Hv). f_equal. by apply IH. }
    apply sort_items_unique.
    + rewrite <- list_fmap_compose.
      by replace ((fst ∘ sort_value) <$> e) with e.*1 by (by apply list_fmap_ext).
    + by rewrite Hp.
Qed.

#[export] Instance canonical_bytes_proper : Proper (same_value ==> eq) canonical_bytes.
Proof. intros v w H. unfold canonical_bytes. by rewrite (sort_keys_same v w). Qed.

Lemma canonical_bytes_sort_keys v : canonical_bytes (sort_keys v) = canonical_bytes v.
Proof. unfold canonical_bytes. by rewrite sort_keys_idemp. Qed.

(** * Strings read back *)

Lemma scan_string_char c t :
  scan_string (escape_char c +:+ t) = cons_char c (scan_string t).
Proof. destruct c as [[] [] [] [] [] [] [] []]; reflexivity. Qed.

Lemma scan_string_escape s rest :
  scan_string (escape s +:+ String quote rest) = Ok (s, rest).
Proof.
  induction s as [|c s IH]; [done|]. cbn [escape].
  by rewrite sapp_assoc, scan_string_char, IH.
Qed.

(** * Scalars read back in context *)

(** What follows a value inside a canonical text or at the end of its line. *)
Definition delim (rest : string) : bool :=
  match rest with
  | EmptyString => true
  | String c _ => bool_decide (c ∈ [","%char; "]"%char; "}"%char; newline])
  end.

(** The text can start a value and is none of the bracketed forms. *)
Definition value_head (t : string) : bool :=
  match t with
  | EmptyString => false
  | String c _ => negb (is_ws c) && negb (bool_decide (c = "]"%char))
  end.

Definition scalar_head (t : string) : bool :=
  value_head t &&
  match t with
  | EmptyString => false
  | String c _ => negb (bool_decide (c ∈ [quote; "{"%char; "["%char]))
  end.

Lemma delim_inv rest :
  delim rest = true -> rest = "" \/ exists c r, rest = String c r /\
    (c = ","%char \/ c = "]"%char \/ c = "}"%char \/ c = newline).
Proof.
  destruct rest as [|c r]; [by left|]. intros H%bool_decide_eq_true. right.
  exists c, r. split; [done|]. rewrite !elem_of_cons, elem_of_nil in H. tauto.
Qed.

Ltac destruct_delim H :=
  apply delim_inv in H; destruct H as [->|(? & ? & -> & [-> | [-> | [-> | ->]]])].

Lemma span_digits_ext t rest :
  delim rest = true ->
  span_digits (t +:+ rest) = ((span_digits t).1, (span_digits t).2 +:+ rest).
Proof.
  intros Hd. induction t as [|c t IH]; [by destruct_delim Hd|].
  rewrite sapp_cons. simpl. destruct (is_digit c); [|done].
  rewrite IH. by destruct (span_digits t).
Qed.

Lemma scan_exponent_ext t rest :
  delim rest = true ->
  scan_exponent (t +:+ rest) =
    match scan_exponent t with Some (e, r) => Some (e, r +:+ rest) | None => None end.
Proof.
  intros Hd. destruct t as [|c t]; [by destruct_delim Hd|].
  rewrite sapp_cons. unfold scan_exponent.
  destruct (bool_decide (c = "e"%char) || bool_decide (c = "E"%char)); [|done].
  assert (split_sign (t +:+ rest) = ((split_sign t).1, (split_sign t).2 +:+ rest)) as ->.
  { destruct t as [|a t]; [by destruct_delim Hd|]. rewrite sapp_cons.
    unfold split_sign. by repeat case_match. }
  destruct (split_sign t) as [neg u]; simpl. rewrite span_digits_ext by done.
  destruct (span_digits u) as [[|d ds] r]; done.
Qed.

Lemma split_minus_ext t rest :
  delim rest = true ->
  split_minus (t +:+ rest) = ((split_minus t).1, (split_minus t).2 +:+ rest).
Proof.
  intros Hd. destruct t as [|a t]; [by destruct_delim Hd|]. rewrite sapp_cons.
  unfold split_minus. by repeat case_match.
Qed.

Lemma scan_int_ext t rest :
  delim rest = true ->
  scan_int (t +:+ rest) =
    match scan_int t with Some (ip, r) => Some (ip, r +:+ rest) | None => None end.
Proof.
  intros Hd. destruct t as [|a t]; [by destruct_delim Hd|].
  pose proof (span_digits_ext (String a t) rest Hd) as Hs. rewrite sapp_cons in *.
  unfold scan_int. rewrite Hs.
  destruct (span_digits (String a t)) as [ip r]; simpl. by repeat case_match.
Qed.

Lemma scan_frac_ext t rest :
  delim rest = true ->
  scan_frac (t +:+ rest) = ((scan_frac t).1, (scan_frac t).2 +:+ rest).
Proof.
  intros Hd. destruct t as [|a t]; [by destruct_delim Hd|].
  rewrite sapp_cons. unfold scan_frac. rewrite span_digits_ext by done.
  destruct (span_digits t) as [[|c ds] r]; simpl; by repeat case_match.
Qed.

Lemma scan_number_ext t rest :
  delim rest = true ->
  scan_number (t +:+ rest) =
    match scan_number t with Some (v, r) => Some (v, r +:+ rest) | None => None end.
Proof.
  intros Hd. unfold scan_number. rewrite split_minus_ext by done.
  destruct (split_minus t) as [neg s1]; simpl. rewrite scan_int_ext by done.
  destruct (scan_int s1) as [[ip r1]|]; [|done]. rewrite scan_frac_ext by done.
  destruct (scan_frac r1) as [fp r2]; simpl. rewrite scan_exponent_ext by done.
  destruct (scan_exponent r2) as [[e r3]|]; [done|]. by destruct fp.
Qed.

Lemma drop_prefix_ext p t rest :
  delim rest = true -> forallb (fun c => negb (delim (String c ""))) (list_ascii_of_string p) = true ->
  drop_prefix p (t +:+ rest) =
    match drop_prefix p t with Some r => Some (r +:+ rest) | None => None end.
Proof.
  intros Hd. revert t. induction p as [|a p IH]; intros t Hp; [done|].
  simpl in Hp. apply andb_true_iff in Hp as [Ha Hp].
  destruct t as [|b t].
  - rewrite sapp_nil_l. simpl. destruct rest as [|c r]; [done|].
    destruct (decide (a = c)) as [->|Hac].
    + simpl in Hd, Ha. by rewrite Hd in Ha.
    + by rewrite bool_decide_eq_false_2.
  - rewrite sapp_cons. simpl. destruct (bool_decide (a = b)); auto.
Qed.

(** ** Values whose canonical text is exact *)

(** Printable ASCII. *)
Fixpoint plain (s : string) : bool :=
  match s with
  | EmptyString => true
  | String c s => in_range 32 126 c && plain s
  end.

(** [repr] of the float is printable ASCII that reads back as the float, which
    is how CPython specifies it; decided by running the scanner. *)
Definition float_ok (x : float) : bool :=
  let t := float_repr x in
  plain t && scalar_head t &&
  bool_decide (scan_scalar default_constant t = Ok (PFloat x, "")).

(** CPython neither prints nor reads an [int] of more than 4300 digits. *)
Definition int_ok (z : Z) : bool := (String.length (digits (Z.abs z)) <=? 4300)%nat.

(** JSON-representable: no tuples, unique keys, well-formed text. *)
Fixpoint json_ok (v : pyval) : bool :=
  match v with
  | PNone | PBool _ => true
  | PInt z => int_ok z
  | PFloat x => float_ok x
  | PStr s => utf8_valid s
  | PList l => forallb json_ok l
  | PTuple _ => false
  | PDict d =>
      bool_decide (NoDup d.*1) &&
      forallb (fun kv => let '(k, x) := kv in utf8_valid k && json_ok x) d
  end.

(** Every float of the value satisfies [f]. *)
Fixpoint floats_in (f : float -> bool) (v : pyval) : bool :=
  match v with
  | PFloat x => f x
  | PList l | PTuple l => forallb (floats_in f) l
  | PDict d => forallb (fun kv => let '(k, x) := kv in floats_in f x) d
  | _ => true
  end.

Section Roundtrip.
(** [readable]: the floats that the constant hook does not refuse. *)
Variable pairs_hook : list (string * pyval) -> res pyval.
Variable constant_hook : string -> res pyval.
Variable readable : float -> bool.
Hypothesis pairs_hook_dict : forall d, NoDup d.*1 -> pairs_hook d = Ok (PDict d).
Hypothesis hook_floats : forall x, float_ok x = true -> readable x = true ->
  scan_scalar constant_hook (float_repr x) = Ok (PFloat x, "").

Abbreviation scan_scalar := (scan_scalar constant_hook).
Abbreviation parse_value := (parse_value pairs_hook constant_hook).
Abbreviation parse_elements := (parse_elements pairs_hook constant_hook).
Abbreviation parse_members := (parse_members pairs_hook constant_hook).

Lemma scan_constant_ext t rest :
  delim rest = true ->
  scan_constant (constants constant_hook) (t +:+ rest) =
    match scan_constant (constants constant_hook) t with
    | Some (v, r) => Some (v, r +:+ rest) | None => None end.
Proof.
  intros Hd. unfold constants, scan_constant.
  rewrite !drop_prefix_ext by done.
  repeat match goal with
    |- context [drop_prefix ?p t] => destruct (drop_prefix p t); [done|]
  end. done.
Qed.

Lemma scan_scalar_ext t v r rest :
  delim rest = true -> scan_scalar t = Ok (v, r) ->
  scan_scalar (t +:+ rest) = Ok (v, r +:+ rest).
Proof.
  intros Hd. unfold Json.scan_scalar. rewrite scan_constant_ext, scan_number_ext by done.
  destruct (scan_constant _ t) as [[[w|e] r']|]; [by intros [= <- <-]|done|].
  destruct (scan_number t) as [[[w|e] r']|]; [by intros [= <- <-]|done|done].
Qed.

(** A scalar text that scans as [v] is parsed as [v] in every context. *)
Definition reads_as (t : string) (v : pyval) : Prop :=
  scalar_head t = true /\ scan_scalar t = Ok (v, "").

Lemma parse_scalar fuel t v rest :
  delim rest = true -> reads_as t v -> parse_value (S fuel) (t +:+ rest) = Ok (v, rest).
Proof.
  intros Hd [Hh Hs]. pose proof (scan_scalar_ext t v "" rest Hd Hs) as H.
  destruct t as [|c t]; [done|]. rewrite sapp_cons in *.
  unfold scalar_head in Hh. apply andb_true_iff in Hh as [_ Hh].
  apply negb_true_iff, bool_decide_eq_false in Hh. cbn [Json.parse_value].
  rewrite !bool_decide_eq_false_2 by set_solver. done.
Qed.

(** ** Integers *)

Lemma span_digits_all ds : all_digits ds = true -> span_digits ds = (ds, "").
Proof.
  induction ds as [|c ds IH]; simpl; [done|]. intros [-> H]%andb_true_iff. by rewrite IH.
Qed.

Lemma scan_int_digits c ds :
  all_digits (String c ds) = true -> (c = "0"%char -> ds = "") ->
  scan_int (String c ds) = Some (String c ds, "").
Proof.
  intros Hd H0. pose proof (span_digits_all _ Hd) as Hs.
  simpl in Hd. apply andb_true_iff in Hd as [Hc _]. unfold scan_int. rewrite Hs, Hc.
  destruct (decide (c = "0"%char)) as [->|Hne]; [by rewrite H0|].
  by destruct c as [[] [] [] [] [] [] [] []].
Qed.

Lemma scan_constant_digit c t :
  is_digit c = true ->
  scan_constant (constants constant_hook) (String c t) = None /\
  scan_constant (constants constant_hook) (String "-" (String c t)) = None.
Proof. destruct c as [[] [] [] [] [] [] [] []]; done. Qed.

Lemma scalar_head_digit c t :
  is_digit c = true ->
  scalar_head (String c t) = true /\ scalar_head (String "-" t) = true.
Proof. destruct c as [[] [] [] [] [] [] [] []]; done. Qed.

Lemma split_minus_digit c t :
  is_digit c = true -> split_minus (String c t) = (false, String c t).
Proof. destruct c as [[] [] [] [] [] [] [] []]; done. Qed.

Lemma reads_int z :
  (String.length (digits (Z.abs z)) <= 4300)%nat -> reads_as (int_repr z) (PInt z).
Proof.
  intros Hlen. unfold reads_as, int_repr, Json.scan_scalar, scan_number.
  destruct (digits_head (Z.abs z) ltac:(lia)) as (c & t & Ht & Hc & Hall & H0).
  destruct (digits_spec (Z.abs z) ltac:(lia)) as (_ & _ & Hv).
  destruct (z <? 0) eqn:Hz.
  - rewrite Z.abs_neq in * by lia. rewrite Ht in *.
    split; [by apply (scalar_head_digit c)|].
    destruct (scan_constant_digit c t Hc) as [_ ->]. cbn [split_minus].
    rewrite scan_int_digits by done. cbn [scan_frac scan_exponent].
    rewrite (proj2 (Nat.ltb_ge _ _) Hlen), Hv. cbn. do 4 f_equal. lia.
  - rewrite Z.abs_eq in * by lia. rewrite Ht in *.
    split; [by apply scalar_head_digit|].
    destruct (scan_constant_digit c t Hc) as [-> _]. rewrite split_minus_digit by done.
    rewrite scan_int_digits by done. cbn [scan_frac scan_exponent].
    by rewrite (proj2 (Nat.ltb_ge _ _) Hlen), Hv.
Qed.

(** ** Compound values *)

Lemma reads_scalar v :
  json_ok v = true -> floats_in readable v = true ->
  match v with PNone | PBool _ | PInt _ | PFloat _ => reads_as (dump v) v | _ => True end.
Proof.
  destruct v as [|[]|z|x| | | |]; try done; intros H Hf.
  - apply reads_int. by apply Nat.leb_le.
  - simpl in H, Hf |- *. pose proof (hook_floats x H Hf). unfold float_ok in H.
    rewrite !andb_true_iff in H. split; tauto.
Qed.

Lemma scalar_value_head t : scalar_head t = true -> value_head t = true.
Proof. unfold scalar_head. by intros [? _]%andb_true_iff. Qed.

Lemma dump_value_head v : json_ok v = true -> value_head (dump v) = true.
Proof.
  destruct v as [|[]|z|x| | | |]; try done; intros H; apply scalar_value_head.
  - by apply reads_int, Nat.leb_le.
  - simpl in H. unfold float_ok in H. rewrite !andb_true_iff in H. apply H.
Qed.

Lemma skip_ws_head t rest :
  value_head t = true -> skip_ws (t +:+ rest) = t +:+ rest.
Proof.
  destruct t as [|c t]; [done|]. rewrite sapp_cons. simpl.
  intros [Hw%negb_true_iff _]%andb_true_iff. by rewrite Hw.
Qed.

Definition value_reads (v : pyval) : Prop :=
  json_ok v = true -> floats_in readable v = true -> forall fuel rest, delim rest = true ->
  (String.length (dump v) <= fuel)%nat ->
  parse_value fuel (dump v +:+ rest) = Ok (v, rest).

Lemma value_head_length t : value_head t = true -> (1 <= String.length t)%nat.
Proof. destruct t; simpl; [done|lia]. Qed.

Lemma elements_read l fuel rest :
  l <> [] -> Forall value_reads l -> forallb json_ok l = true ->
  forallb (floats_in readable) l = true ->
  (String.length (intercalate "," (map dump l)) < fuel)%nat ->
  parse_elements fuel (intercalate "," (map dump l) +:+ String "]" rest) = Ok (l, rest).
Proof.
  intros Hne Hl. revert fuel Hne.
  induction Hl as [|v l Hv Hl IH]; intros fuel Hne Hok Hfl Hf; [done|].
  simpl in Hok, Hfl. apply andb_true_iff in Hok as [Hokv Hok].
  apply andb_true_iff in Hfl as [Hflv Hfl]. specialize (Hv Hokv Hflv).
  destruct fuel as [|fuel]; [lia|]. cbn [Json.parse_elements].
  destruct l as [|w l].
  - cbn [map intercalate] in *. rewrite Hv by (done || lia). done.
  - cbn [map intercalate] in *. rewrite !slength_app in Hf. simpl in Hf.
    rewrite !sapp_assoc. rewrite Hv by (done || lia). simpl mbind. cbv beta iota.
    rewrite !sapp_cons, sapp_nil_l. cbn [skip_ws]. change (is_ws ",") with false. cbv iota.
    assert (value_head (intercalate "," (dump w :: map dump l)) = true) as Hh.
    { simpl in Hok. apply andb_true_iff in Hok as [Hw _].
      pose proof (dump_value_head w Hw) as Hh.
      destruct (map dump l); [done|]. cbn [intercalate].
      destruct (dump w); [done|]. by rewrite sapp_cons. }
    rewrite (skip_ws_head _ _ Hh). rewrite IH; [done..|].
    pose proof (value_head_length _ (dump_value_head v Hokv)).
    cbn [map intercalate]. lia.
Qed.

Definition dump_item (kv : string * pyval) : string :=
  json_string kv.1 +:+ ":" +:+ dump kv.2.

Lemma dump_dict d :
  dump (PDict d) = "{" +:+ intercalate "," (map dump_item d) +:+ "}".
Proof. simpl. do 3 f_equal. apply map_ext. by intros []. Qed.

Lemma members_read d fuel rest :
  d <> [] -> Forall (fun kv => value_reads kv.2) d ->
  forallb (fun kv => json_ok kv.2) d = true ->
  forallb (fun kv => floats_in readable kv.2) d = true ->
  (String.length (intercalate "," (map dump_item d)) < fuel)%nat ->
  parse_members fuel (intercalate "," (map dump_item d) +:+ String "}" rest) = Ok (d, rest).
Proof.
  intros Hne Hd. revert fuel Hne. induction Hd as [|[k v] d Hv Hd IH];
    intros fuel Hne Hok Hfl Hf; [done|].
  simpl in Hv, Hok, Hfl. apply andb_true_iff in Hok as [Hokv Hok].
  apply andb_true_iff in Hfl as [Hflv Hfl]. specialize (Hv Hokv Hflv).
  pose proof (dump_value_head v Hokv) as Hh.
  pose proof (value_head_length _ Hh) as Hlen.
  destruct fuel as [|fuel]; [lia|].
  assert (forall tail, parse_members (S fuel) (dump_item (k, v) +:+ tail) =
    '(x, r) ← parse_value fuel (dump v +:+ tail);
    match skip_ws r with
    | String "}" r => Ok ([(k, x)], r)
    | String "," r => '(e, r) ← parse_members fuel (skip_ws r); Ok ((k, x) :: e, r)
    | _ => decode_error "Expecting ',' delimiter"
    end) as Hstep.
  { intros tail. unfold dump_item, json_string; simpl fst; simpl snd.
    rewrite !sapp_assoc, sapp_cons. cbn [Json.parse_members].
    rewrite bool_decide_eq_true_2 by done. rewrite !sapp_assoc, !sapp_cons, !sapp_nil_l.
    rewrite scan_string_escape. simpl mbind. cbv beta iota.
    cbn [skip_ws]. change (is_ws ":") with false. cbv iota.
    by rewrite (skip_ws_head _ _ Hh). }
  destruct d as [|kv d].
  - cbn [map intercalate] in *. rewrite Hstep, Hv; [done|done|].
    unfold dump_item in Hf; simpl in Hf. rewrite !slength_app in Hf. simpl in Hf. lia.
  - cbn [map intercalate] in *. rewrite !slength_app in Hf. simpl in Hf.
    rewrite !sapp_assoc, Hstep. rewrite Hv.
    2: done.
    2: { unfold dump_item in Hf; simpl in Hf. rewrite !slength_app in Hf. simpl in Hf. lia. }
    simpl mbind. cbv beta iota. rewrite !sapp_cons, sapp_nil_l.
    cbn [skip_ws]. change (is_ws ",") with false. cbv iota.
    assert (forall t, skip_ws (intercalate "," (dump_item kv :: map dump_item d) +:+ t) =
      intercalate "," (dump_item kv :: map dump_item d) +:+ t) as ->.
    { intros t. apply skip_ws_head. by destruct (map dump_item d). }
    rewrite IH; [done..|]. cbn [map intercalate]. lia.
Qed.

Lemma value_reads_all v : value_reads v.
Proof.
  induction v as [|b|z|x|s|l IH|l IH|d IH] using pyval_rect';
    intros Hok Hfl fuel rest Hd Hf.
  1-4: destruct fuel as [|fuel];
    [pose proof (value_head_length _ (dump_value_head _ Hok)); simpl in *; lia|];
    apply parse_scalar; [done|]; exact (reads_scalar _ Hok Hfl).
  - destruct fuel as [|fuel]; [simpl in Hf; lia|].
    simpl dump. unfold json_string. rewrite sapp_cons, sapp_assoc. cbn [Json.parse_value].
    rewrite bool_decide_eq_true_2 by done. by rewrite sapp_cons, scan_string_escape.
  - destruct fuel as [|fuel]; [simpl in Hf; lia|].
    simpl dump in *. rewrite !slength_app in Hf. simpl in Hf, Hok.
    rewrite !sapp_assoc, !sapp_cons, !sapp_nil_l. cbn [Json.parse_value].
    rewrite !(bool_decide_eq_false_2 ("["%char = _)) by done.
    rewrite bool_decide_eq_true_2 by done.
    destruct l as [|v l]; [done|].
    assert (value_head (intercalate "," (map dump (v :: l))) = true) as Hh.
    { simpl in Hok. apply andb_true_iff in Hok as [Hv _].
      pose proof (dump_value_head v Hv) as Hh. simpl map.
      destruct (map dump l); [done|]. cbn [intercalate].
      destruct (dump v); [done|]. by rewrite sapp_cons. }
    rewrite (skip_ws_head _ _ Hh).
    assert (drop_prefix "]"
      (intercalate "," (map dump (v :: l)) +:+ String "]" rest) = None) as ->.
    { destruct (intercalate "," (map dump (v :: l))) as [|c t]; [done|].
      rewrite sapp_cons. simpl in Hh. apply andb_true_iff in Hh as [_ Hc].
      apply negb_true_iff, bool_decide_eq_false in Hc. simpl.
      by rewrite bool_decide_eq_false_2. }
    by rewrite elements_read by (done || lia).
  - done.
  - destruct fuel as [|fuel]; [simpl in Hf; lia|].
    rewrite dump_dict in *. rewrite !slength_app in Hf. simpl in Hf.
    simpl in Hok. apply andb_true_iff in Hok as [Hnd%bool_decide_eq_true Hok].
    assert (forallb (fun kv => json_ok kv.2) d = true) as Hok'.
    { rewrite forallb_forall in *. intros [k x] Hin. apply Hok in Hin.
      by apply andb_true_iff in Hin as [_ ?]. }
    assert (forallb (fun kv => floats_in readable kv.2) d = true) as Hfl'.
    { simpl in Hfl. rewrite forallb_forall in *. intros [k x] Hin. by apply Hfl in Hin. }
    rewrite !sapp_assoc, !sapp_cons, !sapp_nil_l. cbn [Json.parse_value].
    rewrite (bool_decide_eq_false_2 ("{"%char = _)) by done.
    rewrite bool_decide_eq_true_2 by done.
    destruct d as [|kv d]; [simpl; by rewrite pairs_hook_dict|].
    assert (forall t, skip_ws (intercalate "," (map dump_item (kv :: d)) +:+ t) =
      intercalate "," (map dump_item (kv :: d)) +:+ t) as ->.
    { intros t. apply skip_ws_head. simpl map. by destruct (map dump_item d). }
    assert (drop_prefix "}"
      (intercalate "," (map dump_item (kv :: d)) +:+ String "}" rest) = None) as ->.
    { simpl map. by destruct (map dump_item d). }
    rewrite members_read by (done || lia). simpl mbind. cbv beta iota.
    by rewrite pairs_hook_dict.
Qed.

(** [decode] undoes [dump]. *)
Lemma decode_dump v :
  json_ok v = true -> floats_in readable v = true ->
  decode pairs_hook constant_hook (dump v) = Ok v.
Proof.
  intros Hok Hfl. unfold decode. pose proof (dump_value_head v Hok) as Hh.
  pose proof (skip_ws_head _ "" Hh) as Hws. rewrite sapp_nil_r in Hws. rewrite Hws.
  pose proof (value_reads_all v Hok Hfl (S (2 * String.length (dump v))) "" eq_refl ltac:(lia)) as H.
  rewrite sapp_nil_r in H. by rewrite H.
Qed.

Lemma decode_dump_line v :
  json_ok v = true -> floats_in readable v = true ->
  decode pairs_hook constant_hook (dump v +:+ String newline "") = Ok v.
Proof.
  intros Hok Hfl. unfold decode. pose proof (dump_value_head v Hok) as Hh.
  rewrite skip_ws_head by done. rewrite slength_app.
  by rewrite (value_reads_all v Hok Hfl) by (done || lia).
Qed.
End Roundtrip.

Lemma floats_in_all v : floats_in (fun _ => true) v = true.
Proof.
  induction v as [| | | | |l IH|l IH|d IH] using pyval_rect'; try done; cbn [floats_in].
  1,2: by rewrite forallb_forall, <- List.Forall_forall.
  rewrite forallb_forall. intros [k x] Hin. rewrite List.Forall_forall in IH. exact (IH _ Hin).
Qed.

