(* ===== verification/JsonFacts.v ===== *)
(** Facts about the JSON text of values: the parser always has enough fuel, and
    a canonical text is well-formed UTF-8 without control characters, so that
    [loads] undoes [canonical_bytes] and one record is one line of a file. *)

From Stdlib Require Import SpecFloat Wf_nat.
From S2P Require Import Prelude PyFloat PyValue Json.

(** * The parser's fuel suffices *)

(** The outcome of a scan of [s]: a proper suffix is left, or an error that is
    not fuel exhaustion. *)
Definition consumes {A} (s : string) (m : res (A * string)) : Prop :=
  match m with
  | Ok (_, r) => (String.length r < String.length s)%nat
  | Raise e => exn_type e <> BaseException
  end.

Lemma consumes_weaken {A} s s' (m : res (A * string)) :
  consumes s m -> (String.length s <= String.length s')%nat -> consumes s' m.
Proof. destruct m as [[a r]|e]; simpl; [lia|done]. Qed.

Lemma consumes_char c s s' m :
  consumes s m -> (String.length s <= String.length s')%nat -> consumes s' (cons_char c m).
Proof. destruct m as [[a r]|e]; simpl; [lia|done]. Qed.

Lemma consumes_code n s s' m :
  consumes s m -> (String.length s <= String.length s')%nat -> consumes s' (cons_code n m).
Proof. destruct m as [[a r]|e]; simpl; [lia|done]. Qed.

Lemma scan_string_consumes s : consumes s (scan_string s).
Proof.
  induction s as [s IH] using (induction_ltof1 _ String.length). unfold ltof in IH.
  destruct s as [|c s1]; [done|]. cbn [scan_string].
  destruct (bool_decide (c = quote)); [simpl; lia|].
  destruct (bool_decide (c = backslash)).
  - destruct s1 as [|e s2]; [done|]. destruct (bool_decide (e = "u"%char)).
    + destruct s2 as [|h1 [|h2 [|h3 [|h4 s3]]]]; try done.
      destruct (hex4 h1 h2 h3 h4) as [n|]; [|done].
      assert (consumes (String c (String e (String h1 (String h2 (String h3 (String h4 s3))))))
        (cons_code n (scan_string s3))) as Hdef.
      { apply (consumes_code _ s3); [apply IH|]; simpl; lia. }
      destruct (is_high n); [|done].
      destruct s3 as [|b [|u [|l1 [|l2 [|l3 [|l4 s4]]]]]]; try done.
      destruct (hex4 l1 l2 l3 l4) as [m|]; [|done].
      destruct (bool_decide (b = backslash) && bool_decide (u = "u"%char) && is_low m); [|done].
      apply (consumes_code _ s4); [apply IH|]; simpl; lia.
    + destruct (simple_escape e); [|done].
      apply (consumes_char _ s2); [apply IH|]; simpl; lia.
  - destruct (nat_of_ascii c <? 32)%nat; [done|].
    apply (consumes_char _ s1); [apply IH|]; simpl; lia.
Qed.

Lemma skip_ws_length s : (String.length (skip_ws s) <= String.length s)%nat.
Proof. induction s as [|c s IH]; simpl; [lia|]. case_match; simpl; lia. Qed.

Lemma drop_prefix_length p s r :
  drop_prefix p s = Some r -> String.length s = (String.length p + String.length r)%nat.
Proof.
  revert s; induction p as [|a p IH]; intros s; simpl; [by intros [= ->]|].
  destruct s as [|b s]; [done|]. case_match; [|done]. intros Hr%IH. simpl. lia.
Qed.

Lemma span_digits_length s : (String.length (span_digits s).2 <= String.length s)%nat.
Proof.
  induction s as [|c s IH]; simpl; [lia|]. destruct (is_digit c); [|simpl; lia].
  destruct (span_digits s); simpl in *; lia.
Qed.

Lemma scan_exponent_length s e r :
  scan_exponent s = Some (e, r) -> (String.length r <= String.length s)%nat.
Proof.
  destruct s as [|c t]; [done|]. unfold scan_exponent. case_match; [|done].
  assert (String.length (split_sign t).2 <= String.length t)%nat as Ht.
  { unfold split_sign. repeat case_match; simpl; lia. }
  destruct (split_sign t) as [neg u]. pose proof (span_digits_length u).
  destruct (span_digits u) as [[|d ds] r']; [done|]. intros [= _ ->]. simpl in *. lia.
Qed.

Lemma scan_frac_length s : (String.length (scan_frac s).2 <= String.length s)%nat.
Proof.
  destruct s as [|c t]; [done|]. unfold scan_frac.
  pose proof (span_digits_length t). destruct (span_digits t) as [[|d ds] r];
    repeat case_match; simpl in *; simplify_eq; simpl in *; lia.
Qed.

Lemma scan_int_length s ip r :
  scan_int s = Some (ip, r) -> (String.length r < String.length s)%nat.
Proof.
  destruct s as [|c t]; [done|]. destruct (decide (c = "0"%char)) as [->|Hne].
  { intros [= _ ->]. simpl. lia. }
  assert (scan_int (String c t) =
    if is_digit c then Some (span_digits (String c t)) else None) as ->.
  { by destruct c as [[] [] [] [] [] [] [] []]. }
  destruct (is_digit c) eqn:Hc; [|done]. simpl. rewrite Hc.
  pose proof (span_digits_length t). destruct (span_digits t).
  intros [= _ <-]. simpl in *. lia.
Qed.

Lemma scan_number_length s v r :
  scan_number s = Some (v, r) ->
  (String.length r < String.length s)%nat /\
  match v with Ok _ => True | Raise e => exn_type e <> BaseException end.
Proof.
  unfold scan_number.
  assert (String.length (split_minus s).2 <= String.length s)%nat as Hs.
  { unfold split_minus. repeat case_match; simpl; lia. }
  destruct (split_minus s) as [neg s1]; simpl in Hs.
  destruct (scan_int s1) as [[ip r1]|] eqn:Hi; [|done]. apply scan_int_length in Hi.
  pose proof (scan_frac_length r1) as Hf. destruct (scan_frac r1) as [fp r2]; simpl in Hf.
  destruct (scan_exponent r2) as [[e r3]|] eqn:He.
  - apply scan_exponent_length in He. intros [= <- <-]. split; [lia|done].
  - destruct fp; intros [= <- <-]; (split; [lia|]); [by destruct (4300 <? _)%nat|done].
Qed.

Section Fuel.
Variable pairs_hook : list (string * pyval) -> res pyval.
Variable constant_hook : string -> res pyval.
Definition no_fuel_error {A} (m : res A) : Prop :=
  match m with Ok _ => True | Raise e => exn_type e <> BaseException end.
Hypothesis pairs_hook_fuel : forall d, no_fuel_error (pairs_hook d).
Hypothesis constant_hook_fuel : forall s, no_fuel_error (constant_hook s).

Lemma scan_scalar_consumes s : consumes s (scan_scalar constant_hook s).
Proof.
  unfold scan_scalar.
  destruct (scan_constant (constants constant_hook) s) as [[v r]|] eqn:Hc.
  - assert ((String.length r < String.length s)%nat /\ no_fuel_error v) as [Hr Hv];
      [|by destruct v].
    assert (forall l, Forall (fun nv => (0 < String.length nv.1)%nat /\ no_fuel_error nv.2) l ->
      scan_constant l s = Some (v, r) ->
      (String.length r < String.length s)%nat /\ no_fuel_error v) as Hl.
    { clear. induction 1 as [|[name w] l [Hn Hw] _ IH]; simpl; [done|].
      destruct (drop_prefix name s) eqn:Hd; [|done].
      apply drop_prefix_length in Hd. intros [= -> ->]. simpl in *. split; [lia|done]. }
    apply (Hl (constants constant_hook)); [|done].
    repeat constructor; simpl; try lia; apply constant_hook_fuel.
  - destruct (scan_number s) as [[v r]|] eqn:Hn; [|done].
    apply scan_number_length in Hn as [Hr Hv]. by destruct v.
Qed.

Lemma consumes_bind {A B} s s' (m : res (A * string)) (f : A * string -> res (B * string)) :
  consumes s m -> (String.length s <= String.length s')%nat ->
  (forall a r, (String.length r < String.length s)%nat -> consumes s' (f (a, r))) ->
  consumes s' (m ≫= f).
Proof. destruct m as [[a r]|e]; simpl; auto. Qed.

Lemma parse_consumes fuel :
  (forall s, (2 * String.length s < fuel)%nat ->
     consumes s (parse_value pairs_hook constant_hook fuel s)) /\
  (forall s, (S (2 * String.length s) < fuel)%nat ->
     consumes s (parse_elements pairs_hook constant_hook fuel s)) /\
  (forall s, (S (2 * String.length s) < fuel)%nat ->
     consumes s (parse_members pairs_hook constant_hook fuel s)).
Proof.
  induction fuel as [|fuel (IHv & IHe & IHm)]; [repeat split; intros; lia|].
  split; [|split]; intros s Hs.
  - cbn [parse_value]. destruct s as [|c s1]; [done|].
    pose proof (skip_ws_length s1) as Hw. simpl in Hs.
    destruct (bool_decide (c = quote)).
    { eapply consumes_bind; [apply scan_string_consumes|simpl; lia|simpl; intros; lia]. }
    destruct (bool_decide (c = "{"%char)).
    { destruct (drop_prefix "}" (skip_ws s1)) eqn:Hd.
      - apply drop_prefix_length in Hd. pose proof (pairs_hook_fuel []).
        destruct (pairs_hook []); simpl in *; [lia|done].
      - eapply consumes_bind; [apply IHm; lia|simpl; lia|].
        intros d r Hr. pose proof (pairs_hook_fuel d).
        destruct (pairs_hook d); simpl in *; [lia|done]. }
    destruct (bool_decide (c = "["%char)).
    { destruct (drop_prefix "]" (skip_ws s1)) eqn:Hd.
      - apply drop_prefix_length in Hd. simpl in *. lia.
      - eapply consumes_bind; [apply IHe; lia|simpl; lia|]. simpl; intros; lia. }
    apply scan_scalar_consumes.
  - cbn [parse_elements].
    eapply consumes_bind; [apply IHv; lia|lia|]. intros v r Hr.
    pose proof (skip_ws_length r) as Hw. destruct (skip_ws r) as [|c r1]; [done|].
    pose proof (skip_ws_length r1) as Hw1. simpl in Hw.
    assert (consumes s ('(l, r) ← parse_elements pairs_hook constant_hook fuel (skip_ws r1);
      Ok (v :: l, r))) as Htail.
    { eapply consumes_bind; [apply IHe; lia|lia|]. simpl; intros; lia. }
    repeat case_match; try done; simpl; lia.
  - cbn [parse_members]. destruct s as [|c s1]; [done|].
    destruct (bool_decide (c = quote)); [|done]. simpl in Hs.
    eapply consumes_bind; [apply scan_string_consumes|simpl; lia|]. intros k r Hr.
    pose proof (skip_ws_length r) as Hw. destruct (skip_ws r) as [|a r1]; [done|].
    pose proof (skip_ws_length r1) as Hw1. simpl in Hw.
    assert (consumes (String c s1)
      ('(v, r) ← parse_value pairs_hook constant_hook fuel (skip_ws r1);
       match skip_ws r with
       | String "}" r => Ok ([(k, v)], r)
       | String "," r =>
           '(d, r) ← parse_members pairs_hook constant_hook fuel (skip_ws r);
           Ok ((k, v) :: d, r)
       | _ => decode_error "Expecting ',' delimiter"
       end)) as Htail.
    { eapply consumes_bind; [apply IHv; lia|simpl; lia|]. intros v r2 Hr2.
      pose proof (skip_ws_length r2) as Hw2. destruct (skip_ws r2) as [|b r3]; [done|].
      pose proof (skip_ws_length r3) as Hw3. simpl in Hw2.
      assert (consumes (String c s1)
        ('(d, r) ← parse_members pairs_hook constant_hook fuel (skip_ws r3);
         Ok ((k, v) :: d, r))) as Htail'.
      { eapply consumes_bind; [apply IHm; lia|simpl; lia|]. simpl; intros; lia. }
      repeat case_match; try done; simpl; lia. }
    repeat case_match; done.
Qed.

(** Decoding never stops for want of fuel. *)
Lemma decode_no_fuel_error s : no_fuel_error (decode pairs_hook constant_hook s).
Proof.
  unfold decode. pose proof (skip_ws_length s).
  destruct (parse_consumes (S (2 * String.length s))) as [Hv _].
  specialize (Hv (skip_ws s) ltac:(lia)).
  destruct (parse_value _ _ _ _) as [[v r]|e]; [|done].
  simpl. by case_match.
Qed.
End Fuel.

(** * A canonical text is one line of well-formed UTF-8 *)

Lemma utf8_valid_app a b :
  utf8_valid a = true -> utf8_valid (a +:+ b) = utf8_valid b.
Proof.
  induction a as [a IH] using (induction_ltof1 _ String.length). unfold ltof in IH.
  destruct a as [|c1 s1]; [done|]. rewrite sapp_cons. cbn [utf8_valid].
  destruct (in_range 0 127 c1); [apply IH; simpl; lia|].
  destruct s1 as [|c2 s2]; [done|]. rewrite sapp_cons.
  destruct (in_range 194 223 c1).
  { intros [-> H]%andb_true_iff. apply IH; [simpl; lia|done]. }
  destruct s2 as [|c3 s3]; [done|]. rewrite sapp_cons.
  destruct (in_range 224 239 c1).
  { rewrite !andb_true_iff. intros [[-> ->] H]. apply IH; [simpl; lia|done]. }
  destruct s3 as [|c4 s4]; [done|]. rewrite sapp_cons.
  rewrite !andb_true_iff. intros [[[[-> ->] ->] ->] H]. apply IH; [simpl; lia|done].
Qed.

Lemma utf8_valid_app_true a b :
  utf8_valid a = true -> utf8_valid b = true -> utf8_valid (a +:+ b) = true.
Proof. intros. by rewrite utf8_valid_app. Qed.

Lemma escape_char_ascii c :
  in_range 0 127 c = true -> utf8_valid (escape_char c) = true.
Proof. destruct c as [[] [] [] [] [] [] [] []]; done. Qed.

Lemma escape_char_high c :
  in_range 0 127 c = false -> escape_char c = String c "".
Proof. destruct c as [[] [] [] [] [] [] [] []]; done. Qed.

Lemma cont_high lo c :
  (128 <= lo)%nat -> in_range lo 191 c = true -> escape_char c = String c "".
Proof.
  intros Hlo H. apply escape_char_high. unfold in_range in *.
  rewrite andb_true_iff, !Nat.leb_le in H. rewrite andb_false_iff, !Nat.leb_gt. lia.
Qed.

Lemma utf8_valid_escape s : utf8_valid s = true -> utf8_valid (escape s) = true.
Proof.
  induction s as [s IH] using (induction_ltof1 _ String.length). unfold ltof in IH.
  assert (forall b, (is_cont b = true \/ in_range 160 191 b = true \/
    in_range 144 191 b = true \/ in_range 128 143 b = true) -> escape_char b = String b "") as Hc.
  { intros b [H|[H|[H|H]]]; [apply (cont_high 128); [lia|done]|apply (cont_high 160); [lia|done]|
      apply (cont_high 144); [lia|done]|].
    apply (cont_high 128); [lia|]. unfold in_range in *.
    rewrite andb_true_iff, !Nat.leb_le in *. lia. }
  destruct s as [|c1 s1]; [done|]. cbn [utf8_valid escape].
  destruct (in_range 0 127 c1) eqn:H1.
  { intros H. apply utf8_valid_app_true; [by apply escape_char_ascii|].
    apply IH; [simpl; lia|done]. }
  rewrite (escape_char_high c1), sapp_cons, sapp_nil_l by done.
  destruct s1 as [|c2 s2]; [done|]. cbn [escape].
  destruct (in_range 194 223 c1) eqn:H2.
  { intros [Hb H]%andb_true_iff. rewrite Hc, sapp_cons, sapp_nil_l by auto.
    cbn [utf8_valid]. rewrite H1, H2, Hb. apply IH; [simpl; lia|done]. }
  destruct s2 as [|c3 s3]; [done|]. cbn [escape].
  destruct (in_range 224 239 c1) eqn:H3.
  { rewrite !andb_true_iff. intros [[Hb Hd] H].
    rewrite (Hc c2), (Hc c3), !sapp_cons, !sapp_nil_l
      by (destruct (in_range 224 224 c1); auto).
    cbn [utf8_valid]. rewrite H1, H2, H3, Hb, Hd. apply IH; [simpl; lia|done]. }
  destruct s3 as [|c4 s4]; [done|]. cbn [escape].
  rewrite !andb_true_iff. intros [[[[Ha Hb] Hd] He] H].
  rewrite (Hc c2), (Hc c3), (Hc c4), !sapp_cons, !sapp_nil_l
    by (destruct (in_range 240 240 c1), (in_range 244 244 c1); auto).
  cbn [utf8_valid]. rewrite H1, H2, H3, Ha, Hb, Hd, He. apply IH; [simpl; lia|done].
Qed.

Lemma plain_utf8 s : plain s = true -> utf8_valid s = true.
Proof.
  induction s as [|c s IH]; [done|]. cbn [plain utf8_valid]. intros [Hc Hs]%andb_true_iff.
  assert (in_range 0 127 c = true) as ->; [|auto].
  unfold in_range in *. rewrite andb_true_iff, !Nat.leb_le in *. lia.
Qed.

(** No byte below the space: in particular no line break. *)
Fixpoint no_ctl (s : string) : bool :=
  match s with
  | EmptyString => true
  | String c s => negb (nat_of_ascii c <? 32)%nat && no_ctl s
  end.

Lemma no_ctl_app a b : no_ctl (a +:+ b) = no_ctl a && no_ctl b.
Proof.
  induction a as [|c a IH]; [done|]. rewrite sapp_cons. simpl. by rewrite IH, andb_assoc.
Qed.

Lemma no_ctl_escape s : no_ctl (escape s) = true.
Proof.
  induction s as [|c s IH]; [done|]. cbn [escape]. rewrite no_ctl_app, IH.
  by destruct c as [[] [] [] [] [] [] [] []].
Qed.

Lemma plain_no_ctl s : plain s = true -> no_ctl s = true.
Proof.
  induction s as [|c s IH]; [done|]. simpl. intros [Hc Hs]%andb_true_iff.
  rewrite IH by done. unfold in_range in Hc. rewrite andb_true_iff, !Nat.leb_le in Hc.
  rewrite andb_true_iff, negb_true_iff, Nat.ltb_ge. lia.
Qed.

Lemma digits_plain s : all_digits s = true -> plain s = true.
Proof.
  induction s as [|c s IH]; [done|]. simpl. intros [Hc Hs]%andb_true_iff.
  rewrite IH by done. by destruct c as [[] [] [] [] [] [] [] []].
Qed.

Lemma int_repr_plain z : plain (int_repr z) = true.
Proof.
  unfold int_repr. destruct (z <? 0) eqn:Hz; [simpl|];
    apply digits_plain, digits_spec; lia.
Qed.

(** Both properties at once: every text [dump] concatenates has them. *)
Definition line_text (s : string) : Prop := utf8_valid s = true /\ no_ctl s = true.

Lemma line_text_app a b : line_text a -> line_text b -> line_text (a +:+ b).
Proof.
  intros [Ha Ha'] [Hb Hb']. split; [by apply utf8_valid_app_true|].
  by rewrite no_ctl_app, Ha', Hb'.
Qed.

Lemma line_text_plain s : plain s = true -> line_text s.
Proof. split; [by apply plain_utf8|by apply plain_no_ctl]. Qed.

Lemma line_text_intercalate sep l :
  line_text sep -> Forall line_text l -> line_text (intercalate sep l).
Proof.
  intros Hsep. induction 1 as [|x l Hx Hl IH]; [done|]. destruct l; [done|].
  cbn [intercalate] in *. auto using line_text_app.
Qed.

Lemma line_text_string s : utf8_valid s = true -> line_text (json_string s).
Proof.
  intros Hs. unfold json_string. apply (line_text_app (String quote "")); [done|].
  apply line_text_app; [|done]. split; [by apply utf8_valid_escape|apply no_ctl_escape].
Qed.

Lemma dump_line_text v : json_ok v = true -> line_text (dump v).
Proof.
  induction v as [|b|z|x|s|l IH|l IH|d IH] using pyval_rect'; intros H.
  - by apply line_text_plain.
  - apply line_text_plain. by destruct b.
  - apply line_text_plain, int_repr_plain.
  - apply line_text_plain. simpl in H |- *. unfold float_ok in H.
    rewrite !andb_true_iff in H. tauto.
  - by apply line_text_string.
  - simpl in *. apply (line_text_app "["); [done|]. apply line_text_app; [|done].
    apply line_text_intercalate; [done|]. apply Forall_fmap. rewrite Forall_forall in *.
    intros x Hx. apply IH; [done|]. rewrite forallb_forall in H. by apply H, list_elem_of_In.
  - done.
  - rewrite dump_dict. apply (line_text_app "{"); [done|]. apply line_text_app; [|done].
    apply line_text_intercalate; [done|]. apply Forall_fmap. rewrite Forall_forall in *.
    simpl in H. apply andb_true_iff in H as [_ H]. rewrite forallb_forall in H.
    intros [k x] Hx. pose proof (H _ (proj1 (list_elem_of_In _ _) Hx)) as Hkx.
    apply andb_true_iff in Hkx as [Hk Hv]. unfold dump_item; simpl.
    apply line_text_app; [by apply line_text_string|].
    apply (line_text_app ":"); [done|]. by apply (IH (k, x)).
Qed.

(** * The round trip *)

Lemma json_ok_sort_keys v : json_ok v = true -> json_ok (sort_keys v) = true.
Proof.
  induction v as [|b|z|x|s|l IH|l IH|d IH] using pyval_rect'; intros H; try done.
  - simpl in *. rewrite forallb_forall in *. intros y (x & <- & Hx)%in_map_iff.
    rewrite Forall_forall in IH. apply IH; [by apply list_elem_of_In|by apply H].
  - rewrite sort_keys_dict. simpl in *. rewrite andb_true_iff, bool_decide_eq_true in *.
    destruct H as [Hnd H]. split.
    + rewrite sort_items_perm, <- list_fmap_compose.
      by replace ((fst ∘ sort_value) <$> d) with d.*1 by (by apply list_fmap_ext).
    + rewrite forallb_forall in *. intros kv Hkv%list_elem_of_In.
      rewrite sort_items_perm in Hkv. apply list_elem_of_fmap in Hkv as ([k x] & -> & Hkx).
      pose proof (H _ (proj1 (list_elem_of_In _ _) Hkx)) as Hok.
      apply andb_true_iff in Hok as [Hk Hx]. simpl. rewrite Hk.
      rewrite Forall_forall in IH. by apply (IH (k, x)).
Qed.

Lemma dict_get_app_None d e k :
  dict_get d k = None -> dict_get (d ++ e) k = dict_get e k.
Proof. induction d as [|[k' v] d IH]; simpl; [done|]. by case_match. Qed.

Lemma dict_get_None d k : dict_get d k = None <-> k ∉ d.*1.
Proof.
  induction d as [|[k' v] d IH]; simpl; [set_solver|].
  destruct (decide (k = k')) as [->|].
  - rewrite bool_decide_eq_true_2 by done. set_solver.
  - rewrite bool_decide_eq_false_2, IH by done. set_solver.
Qed.

Lemma dict_set_fresh d k v : k ∉ d.*1 -> dict_set d k v = d ++ [(k, v)].
Proof.
  induction d as [|[k' v'] d IH]; simpl; [done|]. intros Hk.
  rewrite bool_decide_eq_false_2 by set_solver. by rewrite IH by set_solver.
Qed.

Lemma dict_of_pairs_id d : NoDup d.*1 -> dict_of_pairs d = d.
Proof.
  unfold dict_of_pairs. change d with ([] ++ d) at 2.
  assert (forall e, NoDup (e ++ d).*1 ->
    foldl (fun d kv => dict_set d kv.1 kv.2) e d = e ++ d) as H; [|by intros ?; apply H].
  induction d as [|[k v] d IH]; intros e Hnd; simpl; [by rewrite app_nil_r|].
  rewrite fmap_app in Hnd. simpl in Hnd.
  rewrite dict_set_fresh by (apply NoDup_app in Hnd; set_solver).
  rewrite IH; rewrite <- ?app_assoc; [done|]. by rewrite fmap_app.
Qed.

(** Any value [loads] accepts as a dump is read back exactly. *)
Lemma loads_dump v : json_ok v = true -> loads (dump v) = Ok v.
Proof.
  intros Hok. unfold loads. rewrite (proj1 (dump_line_text v Hok)).
  apply (decode_dump _ _ (fun _ => true)); [|..|done|apply floats_in_all].
  - intros d Hd. by rewrite dict_of_pairs_id.
  - intros x. unfold float_ok. rewrite !andb_true_iff, bool_decide_eq_true. tauto.
Qed.

Lemma loads_dump_line v : json_ok v = true -> loads (dump v +:+ String newline "") = Ok v.
Proof.
  intros Hok. unfold loads.
  rewrite utf8_valid_app_true; [|by apply dump_line_text|done].
  apply (decode_dump_line _ _ (fun _ => true)); [|..|done|apply floats_in_all].
  - intros d Hd. by rewrite dict_of_pairs_id.
  - intros x. unfold float_ok. rewrite !andb_true_iff, bool_decide_eq_true. tauto.
Qed.

Lemma loads_canonical_line v :
  json_ok v = true -> loads (canonical_bytes v +:+ String newline "") = Ok (sort_keys v).
Proof. intros H. by apply loads_dump_line, json_ok_sort_keys. Qed.

Lemma loads_canonical v : json_ok v = true -> loads (canonical_bytes v) = Ok (sort_keys v).
Proof. intros H. by apply loads_dump, json_ok_sort_keys. Qed.

Lemma canonical_bytes_line v : json_ok v = true -> line_text (canonical_bytes v).
Proof. intros H. by apply dump_line_text, json_ok_sort_keys. Qed.

(** [loads] always decides: its value, or a [ValueError] of one of two kinds. *)
Lemma loads_no_fuel_error data : no_fuel_error (loads data).
Proof.
  unfold loads. destruct (utf8_valid data); [|done]. by apply decode_no_fuel_error.
Qed.

(** * The size of the integers that are read *)

Section Ints.
#[local] Opaque Z.pow.

Lemma digits_fuel_short fuel z n acc :
  0 <= z < 10 ^ Z.of_nat (S n) ->
  (String.length (digits_fuel fuel z acc) <= S n + String.length acc)%nat.
Proof.
  revert z n acc. induction fuel as [|fuel IH]; intros z n acc Hz; [simpl; lia|].
  cbn [digits_fuel]. destruct (z <? 10) eqn:Hlt; [simpl; lia|].
  destruct n as [|n].
  { change (10 ^ Z.of_nat 1) with 10 in Hz. lia. }
  rewrite Nat2Z.inj_succ, Z.pow_succ_r in Hz by lia.
  etransitivity; [apply (IH _ n)|simpl; lia].
  split; [apply Z.div_pos; lia|]. apply Z.div_lt_upper_bound; lia.
Qed.

Lemma digits_value_bound s a :
  all_digits s = true -> 0 <= a ->
  0 <= digits_value a s < (a + 1) * 10 ^ Z.of_nat (String.length s).
Proof.
  revert a. induction s as [|c s IH]; intros a Hs Ha; [simpl; lia|].
  cbn [all_digits] in Hs. apply andb_true_iff in Hs as [Hc Hs]. unfold is_digit in Hc.
  apply andb_true_iff in Hc as [H0 H9]. cbn [digits_value String.length].
  specialize (IH (a * 10 + (Z.of_nat (nat_of_ascii c) - 48)) Hs ltac:(lia)).
  rewrite Nat2Z.inj_succ, Z.pow_succ_r by lia.
  pose proof (Z.pow_nonneg 10 (Z.of_nat (String.length s)) ltac:(lia)). nia.
Qed.

Lemma digits_value_int_ok s :
  all_digits s = true -> s <> "" -> (String.length s <= 4300)%nat ->
  int_ok (digits_value 0 s) = true /\ int_ok (- digits_value 0 s) = true.
Proof.
  intros Hs Hne Hl. pose proof (digits_value_bound s 0 Hs ltac:(lia)) as Hb.
  unfold int_ok. rewrite Z.abs_opp, Z.abs_eq by lia.
  assert (String.length (digits (digits_value 0 s)) <= 4300)%nat as H%Nat.leb_le; [|done].
  destruct s as [|c s]; [done|]. unfold digits.
  etransitivity; [apply (digits_fuel_short _ _ (String.length s))|].
  - change (String.length (String c s)) with (S (String.length s)) in Hb. lia.
  - simpl in *. lia.
Qed.

Lemma span_all_digits s : all_digits (span_digits s).1 = true.
Proof.
  induction s as [|c s IH]; [done|]. cbn [span_digits].
  destruct (is_digit c) eqn:Hc; [|done]. destruct (span_digits s). cbn in *. by rewrite Hc.
Qed.

Lemma scan_int_shape s ip r : scan_int s = Some (ip, r) -> all_digits ip = true /\ ip <> "".
Proof.
  destruct s as [|c t]; [done|]. destruct (decide (c = "0"%char)) as [->|Hne].
  { by intros [= <- _]. }
  assert (scan_int (String c t) =
    if is_digit c then Some (span_digits (String c t)) else None) as ->.
  { by destruct c as [[] [] [] [] [] [] [] []]. }
  destruct (is_digit c) eqn:Hc; [|done]. intros H. apply (inj Some) in H.
  pose proof (span_all_digits (String c t)) as Ha. rewrite H in Ha. split; [done|].
  cbn [span_digits] in H. rewrite Hc in H. destruct (span_digits t). by injection H as <- _.
Qed.

(** Every integer in the value has at most 4300 digits. *)
Fixpoint ints_small (v : pyval) : bool :=
  match v with
  | PInt z => int_ok z
  | PList l | PTuple l => forallb ints_small l
  | PDict d => forallb (fun kv => let '(_, x) := kv in ints_small x) d
  | _ => true
  end.

Lemma scan_number_small s v r : scan_number s = Some (Ok v, r) -> ints_small v = true.
Proof.
  unfold scan_number. destruct (split_minus s) as [neg s1].
  destruct (scan_int s1) as [[ip r1]|] eqn:Hi; [|done]. apply scan_int_shape in Hi as [Ha Hne].
  destruct (scan_frac r1) as [fp r2]. destruct (scan_exponent r2) as [[e r3]|].
  - by intros [= <- _].
  - destruct fp; [|by intros [= <- _]].
    destruct (4300 <? String.length ip)%nat eqn:Hl; [done|]. apply Nat.ltb_ge in Hl.
    destruct (digits_value_int_ok ip Ha Hne Hl). by intros [= <- _]; destruct neg.
Qed.

Variable pairs_hook : list (string * pyval) -> res pyval.
Variable constant_hook : string -> res pyval.
Hypothesis pairs_hook_small : forall d v,
  forallb (fun kv => ints_small kv.2) d = true -> pairs_hook d = Ok v -> ints_small v = true.
Hypothesis constant_hook_small : forall s v, constant_hook s = Ok v -> ints_small v = true.

Lemma scan_scalar_small s v r : scan_scalar constant_hook s = Ok (v, r) -> ints_small v = true.
Proof.
  unfold scan_scalar. destruct (scan_constant _ _) as [[w r']|] eqn:Hc.
  - intros H. inv_ok. revert Hc. unfold constants. cbn [scan_constant].
    repeat (destruct (drop_prefix _ _); [intros; simplify_eq; eauto|]). done.
  - destruct (scan_number s) as [[[w|e] r']|] eqn:Hn; [|done|done].
    intros H. inv_ok. by eapply scan_number_small.
Qed.

Lemma parse_small fuel :
  (forall s v r, parse_value pairs_hook constant_hook fuel s = Ok (v, r) -> ints_small v = true) /\
  (forall s l r, parse_elements pairs_hook constant_hook fuel s = Ok (l, r) ->
     forallb ints_small l = true) /\
  (forall s d r, parse_members pairs_hook constant_hook fuel s = Ok (d, r) ->
     forallb (fun kv => ints_small kv.2) d = true).
Proof.
  induction fuel as [|fuel (IHv & IHe & IHm)]; [done|].
  split; [|split]; intros s x r H.
  - cbn [parse_value] in H. destruct s as [|c s1]; [done|].
    destruct (bool_decide (c = quote)); [inv_ok; by case_match; inv_ok|].
    destruct (bool_decide (c = "{"%char)).
    { destruct (drop_prefix "}" (skip_ws s1)).
      - apply bind_Ok in H as (v & Hv & H). inv_ok. by eapply (pairs_hook_small []).
      - apply bind_Ok in H as ([d r'] & Hd & H). apply bind_Ok in H as (v & Hv & H). inv_ok.
        eapply pairs_hook_small; [|done]. by eapply IHm. }
    destruct (bool_decide (c = "["%char)).
    { destruct (drop_prefix "]" (skip_ws s1)); [by inv_ok|].
      apply bind_Ok in H as ([l r'] & Hl & H). inv_ok. by eapply IHe. }
    by eapply scan_scalar_small.
  - cbn [parse_elements] in H. apply bind_Ok in H as ([v r1] & Hv%IHv & H).
    assert (forall r2, ('(l, r) ← parse_elements pairs_hook constant_hook fuel (skip_ws r2);
      Ok (v :: l, r)) = Ok (x, r) -> forallb ints_small x = true) as Htail.
    { intros r2 Ht. apply bind_Ok in Ht as ([l r'] & Hl%IHe & Ht). simplify_eq/=. by rewrite Hv, Hl. }
    repeat case_match; try done; try (by eapply Htail); simplify_eq/=; by rewrite Hv.
  - cbn [parse_members] in H. destruct s as [|c s1]; [done|].
    destruct (bool_decide (c = quote)); [|done]. apply bind_Ok in H as ([k r1] & _ & H).
    assert (forall r2, ('(v, r) ← parse_value pairs_hook constant_hook fuel (skip_ws r2);
       match skip_ws r with
       | String "}" r => Ok ([(k, v)], r)
       | String "," r =>
           '(d, r) ← parse_members pairs_hook constant_hook fuel (skip_ws r);
           Ok ((k, v) :: d, r)
       | _ => decode_error "Expecting ',' delimiter"
       end) = Ok (x, r) -> forallb (fun kv => ints_small kv.2) x = true) as Htail.
    { intros r2 Ht. apply bind_Ok in Ht as ([v r3] & Hv%IHv & Ht).
      assert (forall r4, ('(d, r) ← parse_members pairs_hook constant_hook fuel (skip_ws r4);
        Ok ((k, v) :: d, r)) = Ok (x, r) -> forallb (fun kv => ints_small kv.2) x = true) as Hd.
      { intros r4 Ht'. apply bind_Ok in Ht' as ([d r'] & Hd%IHm & Ht'). simplify_eq/=. by rewrite Hv, Hd. }
      repeat case_match; try done; try (by eapply Hd); simplify_eq/=; by rewrite Hv. }
    repeat case_match; try done. by eapply Htail.
Qed.

Lemma decode_small s v : decode pairs_hook constant_hook s = Ok v -> ints_small v = true.
Proof.
  unfold decode. intros H. apply bind_Ok in H as ([w r] & Hw & H).
  apply (proj1 (parse_small _)) in Hw. by case_match; inv_ok.
Qed.
End Ints.

Lemma dict_set_small d k v :
  forallb (fun kv => ints_small kv.2) d = true -> ints_small v = true ->
  forallb (fun kv => ints_small kv.2) (dict_set d k v) = true.
Proof.
  intros Hd Hv. induction d as [|[k' w] d IH]; cbn in *; [by rewrite Hv|].
  apply andb_true_iff in Hd as [Hw Hd]. case_match; cbn; [by rewrite Hv|]. by rewrite Hw, IH.
Qed.

Lemma dict_small d :
  ints_small (PDict d) = true <-> forallb (fun kv : string * pyval => ints_small kv.2) d = true.
Proof. cbn [ints_small]. induction d as [|[k v] d IH]; [done|]. cbn. by rewrite !andb_true_iff, IH. Qed.

(** Whatever text is loaded, its integers have at most 4300 digits. *)
Lemma loads_small data v : loads data = Ok v -> ints_small v = true.
Proof.
  unfold loads. destruct (utf8_valid data); [|done]. apply decode_small.
  - intros d w Hd [= <-]. apply dict_small. unfold dict_of_pairs.
    assert (forall acc, forallb (fun kv : string * pyval => ints_small kv.2) acc = true ->
      forallb (fun kv => ints_small kv.2)
        (foldl (fun d kv => dict_set d kv.1 kv.2) acc d) = true) as Hf; [|by apply Hf].
    induction d as [|[k x] d IH]; intros acc Hacc; [done|]. cbn in *.
    apply andb_true_iff in Hd as [Hx Hd]. apply IH; [done|]. by apply dict_set_small.
  - by intros s w [= <-].
Qed.

Lemma dict_get_small d k v :
  ints_small (PDict d) = true -> dict_get d k = Some v -> ints_small v = true.
Proof.
  rewrite dict_small. induction d as [|[k' w] d IH]; [done|]. cbn.
  intros [Hw Hd]%andb_true_iff. case_match; [by intros [= <-]|auto].
Qed.
