(* ===== verification/Checksum.v ===== *)
(** [zlib.crc32] and the payload checksum of the distributed protocol.

    The CRC register is the reflected CRC-32/ISO-HDLC one that [zlib] computes.
    One step of the register is injective, so two texts of equal length that
    differ in a single byte never share a checksum. *)

From S2P Require Import Prelude PyFloat PyValue Json.

Definition byte_code (c : ascii) : Z := Z.of_nat (nat_of_ascii c).

Definition crc_poly : Z := 0xEDB88320.

(** One bit of the register. *)
Definition crc_bit (r : Z) : Z :=
  if Z.odd r then Z.lxor (Z.shiftr r 1) crc_poly else Z.shiftr r 1.

Definition crc_byte (r : Z) (c : ascii) : Z :=
  Nat.iter 8 crc_bit (Z.lxor r (byte_code c)).

Fixpoint crc_register (r : Z) (s : string) : Z :=
  match s with
  | EmptyString => r
  | String c s => crc_register (crc_byte r c) s
  end.

(** [zlib.crc32(data)] *)
Definition crc32 (data : string) : Z :=
  Z.lxor (crc_register 0xFFFFFFFF data) 0xFFFFFFFF.

(** [payload_checksum] *)
Definition payload_checksum (value : pyval) : Z :=
  Z.land (crc32 (canonical_bytes value)) 0xFFFFFFFF.

(** * Width *)

Definition word32 (r : Z) : Prop := 0 <= r < 2 ^ 32.

Lemma word32_lxor a b : word32 a -> word32 b -> word32 (Z.lxor a b).
Proof.
  unfold word32. intros Ha Hb.
  assert (0 <= Z.lxor a b) as H0 by (apply Z.lxor_nonneg; lia).
  split; [done|].
  destruct (decide (Z.lxor a b = 0)) as [->|Hne]; [lia|].
  apply Z.log2_lt_pow2; [lia|].
  pose proof (Z.log2_lxor a b ltac:(lia) ltac:(lia)) as Hl.
  assert (forall x, 0 <= x < 2 ^ 32 -> Z.log2 x < 32) as Hx.
  { intros x Hx. destruct (decide (x = 0)) as [->|]; [done|]. apply Z.log2_lt_pow2; lia. }
  pose proof (Hx a Ha). pose proof (Hx b Hb). lia.
Qed.

Lemma byte_code_range c : 0 <= byte_code c < 256.
Proof. unfold byte_code. pose proof (nat_ascii_bounded c). lia. Qed.

Lemma byte_code_inj c d : byte_code c = byte_code d -> c = d.
Proof.
  unfold byte_code. intros H%Nat2Z.inj.
  by rewrite <- (ascii_nat_embedding c), <- (ascii_nat_embedding d), H.
Qed.

Lemma byte_code_word32 c : word32 (byte_code c).
Proof. unfold word32. pose proof (byte_code_range c). lia. Qed.

Lemma shiftr_1_range r : word32 r -> 0 <= Z.shiftr r 1 < 2 ^ 31.
Proof.
  unfold word32. rewrite Z.shiftr_div_pow2 by lia. change (2 ^ 1) with 2.
  intros H. pose proof (Z.div_mod r 2). pose proof (Z.mod_pos_bound r 2). lia.
Qed.

Lemma crc_bit_word32 r : word32 r -> word32 (crc_bit r).
Proof.
  intros H. pose proof (shiftr_1_range r H). unfold crc_bit.
  case_match; [apply word32_lxor|]; unfold word32, crc_poly; lia.
Qed.

Lemma iter_crc_bit_word32 n r : word32 r -> word32 (Nat.iter n crc_bit r).
Proof. intros H. induction n; simpl; auto using crc_bit_word32. Qed.

Lemma crc_byte_word32 r c : word32 r -> word32 (crc_byte r c).
Proof.
  intros H. apply iter_crc_bit_word32, word32_lxor; auto using byte_code_word32.
Qed.

Lemma crc_register_word32 r s : word32 r -> word32 (crc_register r s).
Proof. revert r; induction s; simpl; auto using crc_byte_word32. Qed.

Lemma crc32_word32 s : word32 (crc32 s).
Proof. apply word32_lxor; [apply crc_register_word32|]; unfold word32; lia. Qed.

Lemma payload_checksum_crc v : payload_checksum v = crc32 (canonical_bytes v).
Proof.
  unfold payload_checksum. change 0xFFFFFFFF with (Z.ones 32).
  rewrite Z.land_ones by lia. apply Z.mod_small, crc32_word32.
Qed.

(** * Injectivity of a step *)

(** The top bit of the result tells which branch was taken. *)
Lemma crc_bit_inj r r' : word32 r -> word32 r' -> crc_bit r = crc_bit r' -> r = r'.
Proof.
  intros Hr Hr' H.
  assert (forall x, word32 x -> Z.testbit (crc_bit x) 31 = Z.odd x) as Htop.
  { intros x Hx. pose proof (shiftr_1_range x Hx) as Hs. unfold crc_bit.
    assert (Z.testbit (Z.shiftr x 1) 31 = false) as H31.
    { destruct (decide (Z.shiftr x 1 = 0)) as [->|]; [done|].
      apply Z.bits_above_log2; [lia|]. apply Z.log2_lt_pow2; lia. }
    destruct (Z.odd x); [|done]. rewrite Z.lxor_spec, H31. done. }
  assert (Z.odd r = Z.odd r') as Hodd by (rewrite <- !Htop, H by done; done).
  unfold crc_bit in H. rewrite Hodd in H.
  assert (Z.shiftr r 1 = Z.shiftr r' 1) as Hs.
  { destruct (Z.odd r'); [|done].
    rewrite <- (Z.lxor_0_r (Z.shiftr r 1)), <- (Z.lxor_0_r (Z.shiftr r' 1)).
    rewrite <- (Z.lxor_nilpotent crc_poly), <- !Z.lxor_assoc. by rewrite H. }
  rewrite <- !Z.div2_spec in Hs.
  by rewrite (Z.div2_odd r), (Z.div2_odd r'), Hs, Hodd.
Qed.

Lemma iter_crc_bit_inj n r r' :
  word32 r -> word32 r' -> Nat.iter n crc_bit r = Nat.iter n crc_bit r' -> r = r'.
Proof.
  intros Hr Hr'. induction n as [|n IH]; simpl; [done|]. intros H.
  apply IH, crc_bit_inj; auto using iter_crc_bit_word32.
Qed.

Lemma lxor_inj_r a b c : Z.lxor a c = Z.lxor b c -> a = b.
Proof.
  intros H. rewrite <- (Z.lxor_0_r a), <- (Z.lxor_0_r b).
  rewrite <- (Z.lxor_nilpotent c), <- !Z.lxor_assoc. by rewrite H.
Qed.

Lemma crc_byte_inj r r' c :
  word32 r -> word32 r' -> crc_byte r c = crc_byte r' c -> r = r'.
Proof.
  intros Hr Hr' H. apply iter_crc_bit_inj in H;
    auto using word32_lxor, byte_code_word32. by apply lxor_inj_r in H.
Qed.

Lemma crc_byte_inj_byte r c d : word32 r -> crc_byte r c = crc_byte r d -> c = d.
Proof.
  intros Hr H. apply iter_crc_bit_inj in H; auto using word32_lxor, byte_code_word32.
  rewrite !(Z.lxor_comm r) in H. by apply byte_code_inj, lxor_inj_r with r.
Qed.

Lemma crc_register_inj r r' s :
  word32 r -> word32 r' -> crc_register r s = crc_register r' s -> r = r'.
Proof.
  revert r r'; induction s as [|c s IH]; simpl; [done|]. intros r r' Hr Hr' H.
  apply IH in H; auto using crc_byte_word32. by apply crc_byte_inj in H.
Qed.

Lemma crc_register_app r s t : crc_register r (s +:+ t) = crc_register (crc_register r s) t.
Proof. revert r; induction s as [|c s IH]; intros r; [done|]. rewrite sapp_cons. simpl. auto. Qed.

(** A changed byte changes the checksum. *)
Lemma crc32_one_byte s c d t :
  crc32 (s +:+ String c t) = crc32 (s +:+ String d t) -> c = d.
Proof.
  intros H. apply lxor_inj_r in H. rewrite !crc_register_app in H. simpl in H.
  assert (word32 (crc_register 0xFFFFFFFF s)) as Hs
    by (apply crc_register_word32; unfold word32; lia).
  apply crc_register_inj in H; auto using crc_byte_word32.
  by apply crc_byte_inj_byte in H.
Qed.

Example crc32_check_value : crc32 "123456789" = 0xCBF43926.
Proof. reflexivity. Qed.
