(* ===== verification/Envelope.v ===== *)
(** The checksummed envelope of the distributed formats
    ([python/akashadb/distributed/protocol.py]): version, payload and CRC of the
    canonical text of the payload. *)

From S2P Require Import Prelude PyFloat PyValue Json JsonFacts Checksum.

Definition PROTOCOL_VERSION : Z := 2.
Definition LEGACY_PROTOCOL_VERSION : Z := 1.
Definition ENVELOPE_FIELDS : list string := ["version"; "payload"; "checksum"].

(** * Type guards shared by the decoders *)

Definition _exact_int (value : pyval) (name : string) : res Z :=
  match value with
  | PInt z => Ok z
  | _ => raise ProtocolError (name +:+ " must be an integer")
  end.

(** [float(value)] of a number; only [OverflowError] can come out of it. *)
Definition _finite_number (value : pyval) : bool :=
  match value with
  | PInt z => is_ok (float_of_int z)
  | PFloat x => isfinite x
  | _ => false
  end.

(** [if type(value) is not dict or set(value) != fields: raise] *)
Definition dict_with_fields (value : pyval) (fields : list string) (message : string)
    : res dict :=
  match value with
  | PDict d => if keys_are d fields then Ok d else raise ProtocolError message
  | _ => raise ProtocolError message
  end.

(** [if type(value) is not dict: raise] and the like for lists and strings. *)
Definition as_dict (value : pyval) (message : string) : res dict :=
  match value with PDict d => Ok d | _ => raise ProtocolError message end.
Definition as_list (value : pyval) (message : string) : res (list pyval) :=
  match value with PList l => Ok l | _ => raise ProtocolError message end.
Definition as_str (value : pyval) (message : string) : res string :=
  match value with PStr s => Ok s | _ => raise ProtocolError message end.

(** * The envelope *)

Definition checked_envelope (payload : dict) : pyval :=
  PDict [("version", PInt PROTOCOL_VERSION);
         ("payload", PDict payload);
         ("checksum", PInt (payload_checksum (PDict payload)))].

Definition _decode_envelope_versioned (value : pyval) : res (Z * dict) :=
  d ← dict_with_fields value ENVELOPE_FIELDS "distributed envelope fields mismatch";
  v ← dict_item d "version";
  version ← _exact_int v "distributed format version";
  _ ← raise_if (negb (bool_decide (version ∈ [LEGACY_PROTOCOL_VERSION; PROTOCOL_VERSION])))
        ProtocolError "unsupported distributed format version";
  p ← dict_item d "payload";
  payload ← as_dict p "distributed envelope payload must be an object";
  c ← dict_item d "checksum";
  checksum ← _exact_int c "distributed envelope checksum";
  _ ← raise_if (negb (checksum =? payload_checksum (PDict payload)))
        ProtocolError "distributed envelope checksum mismatch";
  Ok (version, payload).

Definition decode_envelope (value : pyval) : res dict :=
  '(_, payload) ← _decode_envelope_versioned value; Ok payload.

(** A record as it is stored: the canonical text of its envelope. *)
Definition envelope_text (payload : dict) : string :=
  canonical_bytes (checked_envelope payload).

(** * Lemmas *)

Lemma keys_are_spec d fields :
  keys_are d fields = true <-> (forall k, k ∈ d.*1 <-> k ∈ fields).
Proof.
  unfold keys_are, str_in, dict_has. rewrite andb_true_iff, !forallb_forall. split.
  - intros [H1 H2] k. split.
    + intros ([k' v] & -> & Hkv)%list_elem_of_fmap. apply list_elem_of_In in Hkv.
      apply H1 in Hkv. by apply bool_decide_eq_true in Hkv.
    + intros Hk%list_elem_of_In%H2. destruct (dict_get d k) eqn:Hg; [|done].
      destruct (decide (k ∈ d.*1)) as [|Hn]; [done|]. apply dict_get_None in Hn. congruence.
  - intros H. split.
    + intros [k v] Hkv%list_elem_of_In. apply bool_decide_eq_true, H.
      apply list_elem_of_fmap. by exists (k, v).
    + intros k Hk%list_elem_of_In%H. destruct (dict_get d k) eqn:Hg; [done|].
      by apply dict_get_None in Hg.
Qed.

#[export] Instance keys_are_proper : Proper (Permutation ==> eq ==> eq) keys_are.
Proof.
  intros d e Hde fields ? <-. apply eq_bool_prop_intro.
  rewrite !Is_true_true, !keys_are_spec. by setoid_rewrite Hde.
Qed.

(** Lookup does not see the order of a dictionary with unique keys. *)
Lemma dict_get_elem d k v : NoDup d.*1 -> dict_get d k = Some v <-> (k, v) ∈ d.
Proof.
  intros Hnd. induction d as [|[k' v'] d IH]; simpl; [set_solver|].
  simpl in Hnd. apply NoDup_cons in Hnd as [Hk Hnd]. rewrite elem_of_cons.
  destruct (decide (k = k')) as [->|Hne].
  - rewrite bool_decide_eq_true_2 by done. split; [by intros [= ->]; left|].
    intros [[= ->]|H]; [done|]. exfalso. apply Hk, list_elem_of_fmap. by exists (k', v).
  - rewrite bool_decide_eq_false_2, (IH Hnd) by done. split; [by right|].
    intros [[= -> ->]|H]; done.
Qed.

Lemma dict_get_perm d e k : NoDup d.*1 -> d ≡ₚ e -> dict_get d k = dict_get e k.
Proof.
  intros Hd Hde. assert (NoDup e.*1) as He by (by rewrite <- Hde).
  apply option_eq. intros v. by rewrite !dict_get_elem, Hde by done.
Qed.

Lemma dict_get_fmap d k :
  dict_get (sort_value <$> d) k = sort_keys <$> dict_get d k.
Proof. induction d as [|[k' v] d IH]; simpl; [done|]. by case_bool_decide. Qed.

(** Reading a record back: lookups commute with key sorting. *)
Lemma dict_get_sorted d k :
  NoDup d.*1 -> dict_get (sort_items (sort_value <$> d)) k = sort_keys <$> dict_get d k.
Proof.
  intros Hd. rewrite <- dict_get_fmap. symmetry. apply dict_get_perm; [|by rewrite sort_items_perm].
  rewrite <- list_fmap_compose.
  by replace ((fst ∘ sort_value) <$> d) with d.*1 by (by apply list_fmap_ext).
Qed.

Lemma keys_are_sorted d fields :
  keys_are (sort_items (sort_value <$> d)) fields = keys_are d fields.
Proof.
  rewrite sort_items_perm. apply eq_bool_prop_intro. rewrite !Is_true_true, !keys_are_spec.
  rewrite <- list_fmap_compose.
  by replace ((fst ∘ sort_value) <$> d) with d.*1 by (by apply list_fmap_ext).
Qed.

Lemma payload_checksum_sort_keys v : payload_checksum (sort_keys v) = payload_checksum v.
Proof. unfold payload_checksum. by rewrite canonical_bytes_sort_keys. Qed.

#[export] Instance payload_checksum_proper : Proper (same_value ==> eq) payload_checksum.
Proof. intros v w H. unfold payload_checksum. by rewrite H. Qed.

(** The payload a stored record decodes to: the same items, keys sorted. *)
Definition sorted_payload (payload : dict) : dict := sort_items (sort_value <$> payload).

Lemma sort_keys_envelope payload :
  sort_keys (checked_envelope payload) =
  PDict [("checksum", PInt (payload_checksum (PDict payload)));
         ("payload", PDict (sorted_payload payload));
         ("version", PInt PROTOCOL_VERSION)].
Proof.
  unfold checked_envelope. rewrite sort_keys_dict. cbn [fmap list_fmap].
  unfold sort_value at 2; cbn [fst snd]. rewrite sort_keys_dict. done.
Qed.

Lemma checksum_int_ok v : int_ok (payload_checksum v) = true.
Proof.
  rewrite payload_checksum_crc. pose proof (crc32_word32 (canonical_bytes v)) as [H0 H1].
  unfold int_ok. apply Nat.leb_le. rewrite Z.abs_eq by lia.
  unfold digits. set (z := crc32 _) in *.
  assert (forall fuel z acc,
    (String.length (digits_fuel fuel z acc) <= fuel + String.length acc)%nat) as Hlen.
  { induction fuel as [|fuel IH]; intros y acc; simpl; [lia|]. case_match; simpl; [lia|].
    etransitivity; [apply IH|]. simpl. lia. }
  etransitivity; [apply Hlen|]. simpl.
  assert (Z.log2 z < 32); [|lia].
  destruct (decide (z = 0)) as [->|]; [done|]. apply Z.log2_lt_pow2; lia.
Qed.

Lemma checked_envelope_ok payload :
  json_ok (PDict payload) = true -> json_ok (checked_envelope payload) = true.
Proof.
  intros H. unfold checked_envelope. cbn [json_ok forallb].
  rewrite checksum_int_ok. cbn [json_ok] in H. rewrite H. done.
Qed.

(** ** What each guard lets through *)

Lemma dict_item_Ok d k v : dict_item d k = Ok v <-> dict_get d k = Some v.
Proof. unfold dict_item. destruct (dict_get d k); split; intros H; try discriminate H; by injection H as ->. Qed.

Lemma exact_int_Ok v name z : _exact_int v name = Ok z <-> v = PInt z.
Proof. destruct v; split; intros H; try discriminate H; by injection H as ->. Qed.

Lemma as_dict_Ok v message d : as_dict v message = Ok d <-> v = PDict d.
Proof. destruct v; split; intros H; try discriminate H; by injection H as ->. Qed.

Lemma as_list_Ok v message l : as_list v message = Ok l <-> v = PList l.
Proof. destruct v; split; intros H; try discriminate H; by injection H as ->. Qed.

Lemma as_str_Ok v message s : as_str v message = Ok s <-> v = PStr s.
Proof. destruct v; split; intros H; try discriminate H; by injection H as ->. Qed.

Lemma dict_with_fields_Ok v fields message d :
  dict_with_fields v fields message = Ok d <-> v = PDict d /\ keys_are d fields = true.
Proof.
  split.
  - destruct v as [| | | | | | |e]; simpl; try done.
    destruct (keys_are e fields) eqn:?; [|done]. by intros [= ->].
  - intros [-> H]. simpl. by rewrite H.
Qed.

(** Take a successful decoder apart, guard by guard. *)
Ltac inv_py :=
  repeat match goal with
  | H : dict_item _ _ = Ok _ |- _ => apply dict_item_Ok in H
  | H : _exact_int _ _ = Ok _ |- _ => apply exact_int_Ok in H; subst
  | H : as_dict _ _ = Ok _ |- _ => apply as_dict_Ok in H; subst
  | H : as_list _ _ = Ok _ |- _ => apply as_list_Ok in H; subst
  | H : as_str _ _ = Ok _ |- _ => apply as_str_Ok in H; subst
  | H : dict_with_fields _ _ _ = Ok _ |- _ => apply dict_with_fields_Ok in H as [-> H]
  | H : negb _ = false |- _ => apply negb_false_iff in H
  | H : negb _ = true |- _ => apply negb_true_iff in H
  | H : bool_decide _ = true |- _ => apply bool_decide_eq_true in H
  | H : bool_decide _ = false |- _ => apply bool_decide_eq_false in H
  | H : (_ =? _) = true |- _ => apply Z.eqb_eq in H
  | H : (_ =? _) = false |- _ => apply Z.eqb_neq in H
  | H : (_ <=? _) = true |- _ => apply Z.leb_le in H
  | H : (_ <=? _) = false |- _ => apply Z.leb_gt in H
  | H : (_ <? _) = true |- _ => apply Z.ltb_lt in H
  | H : (_ <? _) = false |- _ => apply Z.ltb_ge in H
  | H : _ && _ = true |- _ => apply andb_true_iff in H as [? H]
  | H : _ || _ = false |- _ => apply orb_false_iff in H as [? H]
  | _ => progress inv_ok
  end.

(** ** Properties *)

(** An envelope decodes exactly when it has its three fields, a known version
    and the CRC of its payload. *)
Lemma decode_envelope_spec value version payload :
  _decode_envelope_versioned value = Ok (version, payload) <->
  exists d, value = PDict d /\ keys_are d ENVELOPE_FIELDS = true /\
    version ∈ [LEGACY_PROTOCOL_VERSION; PROTOCOL_VERSION] /\
    dict_get d "version" = Some (PInt version) /\
    dict_get d "payload" = Some (PDict payload) /\
    dict_get d "checksum" = Some (PInt (payload_checksum (PDict payload))).
Proof.
  unfold _decode_envelope_versioned. split.
  - intros H. inv_py. subst. eexists. repeat split; eassumption.
  - intros (d & -> & Hk & Hv & Hver & Hp & Hc).
    simpl. rewrite Hk. simpl. unfold dict_item. rewrite Hver. simpl.
    rewrite bool_decide_eq_true_2 by done. simpl. rewrite Hp. simpl. rewrite Hc. simpl.
    by rewrite Z.eqb_refl.
Qed.

(** What [checked_envelope] builds decodes to the same payload at the current
    version. *)
Lemma decode_checked_envelope payload :
  _decode_envelope_versioned (checked_envelope payload) = Ok (PROTOCOL_VERSION, payload).
Proof. apply decode_envelope_spec. eexists. split; [done|]. repeat split; set_solver. Qed.

(** Through the file: writing and re-reading a record gives the payload with
    sorted keys. *)
Lemma loads_envelope payload :
  json_ok (PDict payload) = true ->
  exists value, loads (envelope_text payload) = Ok value /\
    _decode_envelope_versioned value = Ok (PROTOCOL_VERSION, sorted_payload payload).
Proof.
  intros H. eexists. split.
  - unfold envelope_text. by rewrite loads_canonical by (by apply checked_envelope_ok).
  - rewrite sort_keys_envelope. apply decode_envelope_spec. eexists. split; [done|].
    rewrite <- (payload_checksum_sort_keys (PDict payload)), sort_keys_dict.
    repeat split; set_solver.
Qed.
