(* ===== verification/Files.v ===== *)
(** Files as the durable parts of the code use them: bytes written and bytes
    known to be on the disk.  A crash keeps the synced bytes of every file and
    any part of the others; renaming is atomic. *)

From S2P Require Import Prelude.

Record file : Type := File { content : string; synced : nat }.

#[export] Instance file_eq_dec : EqDecision file.
Proof. solve_decision. Defined.

(** [data[:n]] *)
Fixpoint stake (n : nat) (s : string) : string :=
  match n, s with
  | S n, String c s => String c (stake n s)
  | _, _ => ""
  end.

(** [path.exists()] and [path.read_bytes()] *)
Definition exists_file (f : option file) : bool :=
  match f with Some _ => true | None => false end.
Definition read_bytes (f : option file) : res string :=
  match f with
  | Some f => Ok (content f)
  | None => raise FileNotFoundError "No such file or directory"
  end.

(** [open("ab")], [open("wb")], [write], [flush] and [fsync], [truncate] *)
Definition open_append (f : option file) : file := default (File "" 0) f.
Definition open_write (f : option file) : file := File "" 0.
Definition write (data : string) (f : file) : file := File (content f +:+ data) (synced f).
Definition fsync (f : file) : file := File (content f) (String.length (content f)).
Definition truncate (n : nat) (f : file) : file :=
  File (stake n (content f)) (Nat.min n (synced f)).

(** Nothing of the file is waiting to be written. *)
Definition durable (f : option file) : Prop :=
  match f with Some f => synced f = String.length (content f) | None => True end.

(** What a crash leaves of a file. *)
Definition crash_file (f f' : file) : Prop :=
  synced f' = String.length (content f') /\ (synced f <= synced f')%nat /\
  exists lost, content f = content f' +:+ lost.

Definition crash (f f' : option file) : Prop := option_Forall2 crash_file f f'.

(** * Lemmas *)

Lemma stake_length n s : (String.length (stake n s) <= n)%nat.
Proof. revert s; induction n as [|n IH]; intros [|c s]; simpl; try lia. specialize (IH s). lia. Qed.

Lemma stake_app s t : stake (String.length s) (s +:+ t) = s.
Proof. induction s as [|c s IH]; [done|]. rewrite sapp_cons. simpl. by f_equal. Qed.

Lemma stake_all s : stake (String.length s) s = s.
Proof. rewrite <- (sapp_nil_r s) at 2. apply stake_app. Qed.

Lemma sapp_inj_l (a b c : string) : a +:+ b = a +:+ c -> b = c.
Proof. induction a as [|x a IH]; [done|]. rewrite !sapp_cons. intros [= H]. auto. Qed.

(** Two ways to cut the same text: one cut is no later than the other. *)
Lemma sapp_split (a b c d : string) :
  a +:+ b = c +:+ d -> (String.length a <= String.length c)%nat ->
  exists e, c = a +:+ e /\ b = e +:+ d.
Proof.
  revert c; induction a as [|x a IH]; intros c H Hlen; [by exists c|].
  destruct c as [|y c]; [simpl in Hlen; lia|]. rewrite !sapp_cons in H.
  injection H as -> H. simpl in Hlen. destruct (IH c H) as (e & -> & ->); [lia|].
  by exists e.
Qed.

Lemma crash_durable f f' : durable f -> crash f f' -> f' = f.
Proof.
  intros Hd Hc. destruct Hc as [f f' (Hs & Hle & lost & Hl)|]; [|done]. simpl in Hd.
  destruct f as [cf sf], f' as [cf' sf']; simpl in *. subst cf sf'.
  rewrite slength_app in Hd. destruct lost; [|simpl in Hd; lia].
  rewrite sapp_nil_r in *. do 2 f_equal. lia.
Qed.

(** A crash during an append keeps what was there and a part of the new data. *)
Lemma crash_append f data f' :
  durable (Some f) -> crash (Some (write data f)) (Some f') ->
  exists part lost, data = part +:+ lost /\ content f' = content f +:+ part /\
    durable (Some f').
Proof.
  intros Hd Hc. inversion Hc as [? ? (Hs & Hle & lost & Hl)|]; subst. simpl in *.
  destruct (sapp_split (content f) data (content f') lost) as (part & Hp & ->);
    [done|lia|]. by exists part, lost.
Qed.
