(* ===== verification/Models.v ===== *)
(** The typed request and result values of [python/akashadb/models.py].  Each
    dataclass is a record in a module of its own; a class whose [__post_init__]
    checks its arguments is built by [init], which is given the arguments as
    dynamic values and returns the typed record. *)

From S2P Require Import Prelude PyFloat PyValue Json Envelope.

(** * Dynamic values as arguments *)

(** [hash(v)] exists: only lists, dicts and tuples of them have none. *)
Fixpoint hashable (v : pyval) : bool :=
  match v with
  | PList _ | PDict _ => false
  | PTuple l => forallb hashable l
  | _ => true
  end.

(** [if v not in {names...}: raise ValueError(message)] *)
Definition one_of (v : pyval) (names : list string) (message : string) : res string :=
  match v with
  | PStr s => if str_in s names then Ok s else raise ValueError message
  | _ => if hashable v then raise ValueError message else raise TypeError "unhashable type"
  end.

(** The keyword arguments of a call, over the default of each parameter. *)
Definition keyword (kwargs defaults : dict) (name : string) : pyval :=
  match dict_get kwargs name with
  | Some v => v
  | None => dict_get_or defaults name PNone
  end.

(** A call with a keyword the signature does not have. *)
Definition check_keywords (kwargs : dict) (names : list string) : res unit :=
  raise_if (negb (forallb (fun kv => str_in kv.1 names) kwargs))
    TypeError "got an unexpected keyword argument".

(** A keyword without a default. *)
Definition required (kwargs : dict) (name : string) : res pyval :=
  match dict_get kwargs name with
  | Some v => Ok v
  | None => raise TypeError ("missing required argument: " +:+ name)
  end.

(** [value[name]] of a dynamic value: only dictionaries take string keys. *)
Definition subscriptable (value : pyval) : res dict :=
  match value with
  | PDict d => Ok d
  | _ => raise TypeError "object is not subscriptable by a string"
  end.

(** [v in {names...}]: looking up an unhashable value raises. *)
Definition in_set (v : pyval) (names : list string) : res bool :=
  match v with
  | PStr s => Ok (str_in s names)
  | _ => if hashable v then Ok false else raise TypeError "unhashable type"
  end.

Module CollectionConfig.
Record t : Type := Mk {
  dimension : Z;
  ann_metric : string;
  scalar_kind : string;
  m : Z;
  m0 : Z;
  ef_construction : Z;
  default_ef_search : Z;
  max_ef_search : Z;
  max_level : Z;
  rebuild_inactive_percent : Z;
  delta_max_points : Z;
  level_seed : Z;
  fingerprint : option Z }.

#[global] Instance t_eq_dec : EqDecision t.
Proof. solve_decision. Defined.

Definition FIELDS : list string :=
  ["dimension"; "ann_metric"; "scalar_kind"; "m"; "m0"; "ef_construction";
   "default_ef_search"; "max_ef_search"; "max_level"; "rebuild_inactive_percent";
   "delta_max_points"; "level_seed"; "fingerprint"].

(** The defaults of the dataclass fields; [dimension] has none. *)
Definition DEFAULTS : dict :=
  [("ann_metric", PStr "l2"); ("scalar_kind", PStr "f32"); ("m", PInt 16);
   ("m0", PInt 32); ("ef_construction", PInt 128); ("default_ef_search", PInt 64);
   ("max_ef_search", PInt 512); ("max_level", PInt 32);
   ("rebuild_inactive_percent", PInt 25); ("delta_max_points", PInt 10000);
   ("level_seed", PInt 0xA5A5A5A5A5A5A5A5); ("fingerprint", PNone)].

(** One turn of the loop over the integer fields. *)
Definition int_field (self : string -> pyval) (name : string) : res Z :=
  match self name with
  | PInt z => Ok z
  | _ => raise ValueError ("collection " +:+ name +:+ " must be an integer")
  end.

Definition exact_dimension (v : pyval) : res Z :=
  match v with
  | PInt z => Ok z
  | _ => raise ValueError "collection dimension must be an integer"
  end.

Definition optional_fingerprint (v : pyval) : res (option Z) :=
  match v with
  | PNone => Ok None
  | PInt z => Ok (Some z)
  | _ => raise ValueError "collection fingerprint must be an integer"
  end.

(** [__init__] followed by [__post_init__] *)
Definition init (self : string -> pyval) : res t :=
  dimension ← exact_dimension (self "dimension");
  raise_if (dimension <=? 0) ValueError "collection dimension must be positive";;
  ann_metric ← one_of (self "ann_metric") ["dot"; "l2"; "cosine"] "unknown ann_metric";
  scalar_kind ← one_of (self "scalar_kind") ["f32"; "bf16"; "f16"; "i8"]
                  "unknown scalar_kind";
  m ← int_field self "m";
  m0 ← int_field self "m0";
  ef_construction ← int_field self "ef_construction";
  default_ef_search ← int_field self "default_ef_search";
  max_ef_search ← int_field self "max_ef_search";
  max_level ← int_field self "max_level";
  rebuild_inactive_percent ← int_field self "rebuild_inactive_percent";
  delta_max_points ← int_field self "delta_max_points";
  level_seed ← int_field self "level_seed";
  raise_if ((level_seed <? 0) || (0xFFFFFFFFFFFFFFFF <? level_seed))
    ValueError "collection level_seed must fit unsigned 64-bit";;
  fingerprint ← optional_fingerprint (self "fingerprint");
  Ok (Mk dimension ann_metric scalar_kind m m0 ef_construction default_ef_search
        max_ef_search max_level rebuild_inactive_percent delta_max_points level_seed
        fingerprint).

(** [replace(cls(dimension=dimension), **overrides)] *)
Definition defaults (dim : Z) (overrides : dict) : res t :=
  let base := ("dimension", PInt dim) :: DEFAULTS in
  init (keyword [] base);;
  check_keywords overrides FIELDS;;
  init (keyword overrides base).

(** The [config] argument: a [CollectionConfig], or any other value. *)
Inductive option_value : Type :=
| Config (c : t)
| Value (v : pyval).

Definition from_options (dim : Z) (value : option_value) : res t :=
  match value with
  | Value PNone => defaults dim []
  | Config c =>
      raise_if (negb (dimension c =? dim)) ValueError "collection config dimension mismatch";;
      Ok c
  | Value (PDict value) =>
      configured_dimension ←
        exact_dimension (dict_get_or value "dimension" (PInt dim));
      raise_if (negb (configured_dimension =? dim))
        ValueError "collection config dimension mismatch";;
      defaults dim (dict_delete value "dimension")
  | Value _ => raise ValueError "collection config must be a dict or CollectionConfig"
  end.

Definition from_kernel (value : dict) : res t :=
  for_each (fun name => _ ← dict_item value name; Ok tt) FIELDS;;
  init (fun name => dict_get_or value name PNone).

Definition to_kernel (c : t) : dict :=
  let kernel_seed :=
    if 0x7FFFFFFFFFFFFFFF <? level_seed c
    then level_seed c - Z.shiftl 1 64 else level_seed c in
  [("dimension", PInt (dimension c));
   ("ann_metric", PStr (ann_metric c));
   ("scalar_kind", PStr (scalar_kind c));
   ("m", PInt (m c));
   ("m0", PInt (m0 c));
   ("ef_construction", PInt (ef_construction c));
   ("default_ef_search", PInt (default_ef_search c));
   ("max_ef_search", PInt (max_ef_search c));
   ("max_level", PInt (max_level c));
   ("rebuild_inactive_percent", PInt (rebuild_inactive_percent c));
   ("delta_max_points", PInt (delta_max_points c));
   ("level_seed", PInt kernel_seed)].

Definition set_fingerprint (c : t) (f : option Z) : t :=
  Mk (dimension c) (ann_metric c) (scalar_kind c) (m c) (m0 c) (ef_construction c)
    (default_ef_search c) (max_ef_search c) (max_level c) (rebuild_inactive_percent c)
    (delta_max_points c) (level_seed c) f.

(** [==]: the fingerprint is declared with [compare=False]. *)
Definition eqb (c d : t) : bool :=
  bool_decide (set_fingerprint c None = set_fingerprint d None).

(** The values [init] accepts. *)
Definition well_formed (c : t) : Prop :=
  0 < dimension c /\ ann_metric c ∈ ["dot"; "l2"; "cosine"] /\
  scalar_kind c ∈ ["f32"; "bf16"; "f16"; "i8"] /\ 0 <= level_seed c < 2 ^ 64.

Definition opt_int (f : option Z) : pyval :=
  match f with Some z => PInt z | None => PNone end.

Definition fields_of (c : t) : string -> pyval := fun name =>
  dict_get_or
    [("dimension", PInt (dimension c)); ("ann_metric", PStr (ann_metric c));
     ("scalar_kind", PStr (scalar_kind c)); ("m", PInt (m c)); ("m0", PInt (m0 c));
     ("ef_construction", PInt (ef_construction c));
     ("default_ef_search", PInt (default_ef_search c));
     ("max_ef_search", PInt (max_ef_search c)); ("max_level", PInt (max_level c));
     ("rebuild_inactive_percent", PInt (rebuild_inactive_percent c));
     ("delta_max_points", PInt (delta_max_points c)); ("level_seed", PInt (level_seed c));
     ("fingerprint", opt_int (fingerprint c))] name PNone.

(** [asdict(config)] *)
Definition asdict (c : t) : dict := (fun name => (name, fields_of c name)) <$> FIELDS.

Lemma one_of_Ok v names message s :
  one_of v names message = Ok s <-> v = PStr s /\ s ∈ names.
Proof.
  unfold one_of, str_in. split.
  - destruct v; try (by destruct (hashable _)). destruct (bool_decide _) eqn:Hb; [|done].
    intros [= ->]. by apply bool_decide_eq_true in Hb.
  - intros [-> H]. by rewrite bool_decide_eq_true_2.
Qed.

Lemma int_field_Ok self name z : int_field self name = Ok z <-> self name = PInt z.
Proof. unfold int_field. destruct (self name); split; intros H; try done; by injection H as ->. Qed.

Lemma exact_dimension_Ok v z : exact_dimension v = Ok z <-> v = PInt z.
Proof. destruct v; split; intros H; try done; by injection H as ->. Qed.

Lemma optional_fingerprint_Ok v f : optional_fingerprint v = Ok f <-> v = opt_int f.
Proof. destruct v, f; split; intros H; try done; by injection H as ->. Qed.

(** [init] succeeds exactly on the arguments of a well-formed record. *)
Lemma init_Ok self c :
  init self = Ok c <->
  well_formed c /\ Forall (fun name => self name = fields_of c name) FIELDS.
Proof.
  unfold init, FIELDS. split.
  - intros H. repeat (apply bind_Ok in H as (? & ? & H)). injection H as <-.
    repeat match goal with
      | H : int_field _ _ = Ok _ |- _ => apply int_field_Ok in H
      | H : one_of _ _ _ = Ok _ |- _ => apply one_of_Ok in H as [? ?]
      | H : exact_dimension _ = Ok _ |- _ => apply exact_dimension_Ok in H
      | H : optional_fingerprint _ = Ok _ |- _ => apply optional_fingerprint_Ok in H
      end.
    inv_py. split; [unfold well_formed; simpl; split_and!; done || lia|].
    repeat constructor; done.
  - intros [(Hd & Hm & Hs & Hl0 & Hl1) H].
    repeat (apply Forall_cons in H as [? H]). destruct c as [? ? ? ? ? ? ? ? ? ? ? ? f].
    simpl in Hd, Hm, Hs, Hl0, Hl1.
    repeat match goal with
      | H : self _ = ?v |- _ => let w := eval vm_compute in v in progress change v with w in H
      end.
    repeat (apply bind_Ok; eexists; split; [
      first [ apply exact_dimension_Ok; eassumption
            | apply one_of_Ok; split; eassumption
            | apply int_field_Ok; eassumption
            | apply (raise_if_Ok _ _ _ tt); rewrite ?orb_false_iff, ?Z.leb_gt, ?Z.ltb_ge; lia
            | apply optional_fingerprint_Ok; eassumption ] | ]).
    done.
Qed.
End CollectionConfig.

(** * Payload fields, sparse elements, results *)

Module PayloadField.
Record t : Type := Mk { name : pyval; type : pyval; value : pyval }.

Definition to_kernel (f : t) : pyval :=
  PDict [("name", name f); ("type", type f); ("value", value f)].

(** [PayloadField( **item)] *)
Definition of_item (item : pyval) : res t :=
  match item with
  | PDict d =>
      check_keywords d ["name"; "type"; "value"];;
      name ← required d "name";
      type ← required d "type";
      value ← required d "value";
      Ok (Mk name type value)
  | _ => raise TypeError "argument after ** must be a mapping"
  end.
End PayloadField.

Module SparseElement.
Record t : Type := Mk { term_id : pyval; weight : pyval }.

Definition to_kernel (e : t) : pyval :=
  PDict [("term_id", term_id e); ("weight", weight e)].

Definition of_item (item : pyval) : res t :=
  match item with
  | PDict d =>
      check_keywords d ["term_id"; "weight"];;
      term_id ← required d "term_id";
      weight ← required d "weight";
      Ok (Mk term_id weight)
  | _ => raise TypeError "argument after ** must be a mapping"
  end.
End SparseElement.

Module SearchStats.
(** The fields of the dataclass, in order. *)
Definition FIELDS : list string :=
  ["planner_reason"; "backend_name"; "metric_name"; "scalar_name"; "storage_name";
   "fallback_reason"; "requested_ef"; "effective_ef"; "widening_rounds"; "upper_visited";
   "base_visited"; "visited"; "distance_evaluations"; "retained_candidates";
   "reranked_candidates"; "filtered_rejections"; "inactive_rejections"; "base_candidates";
   "delta_candidates"; "ivf_partitions"; "ivf_probed_partitions"].

(** The record as the dictionary of its fields, which is what [asdict] gives. *)
Definition from_kernel (value : dict) : res dict :=
  map_res (fun name => v ← dict_item value name; Ok (name, v)) FIELDS.
End SearchStats.

Module SearchResult.
Record t : Type := Mk { id : Z; score : float }.

#[global] Instance t_eq_dec : EqDecision t.
Proof. solve_decision. Defined.

(** [SearchResult(id=int(item["id"]), score=float(item["score"]))] *)
Definition of_item (item : pyval) : res t :=
  item ← subscriptable item;
  id ← dict_item item "id"; id ← py_int id;
  score ← dict_item item "score"; score ← py_float score;
  Ok (Mk id score).
End SearchResult.

Module Document.
Record t : Type := Mk {
  id : Z; sequence : Z; vector : list float; fields : list PayloadField.t }.
End Document.

Module Projection.
Record t : Type := Mk { include_vector : bool; fields : option (list string) }.

Definition to_kernel (p : t) : res pyval :=
  match fields p with
  | Some names =>
      raise_if (existsb (fun name => bool_decide (name = "")) names)
        ValueError "projection field name cannot be empty";;
      raise_if (negb (bool_decide (NoDup names)))
        ValueError "projection field names must be unique"
  | None => Ok tt
  end;;
  Ok (PDict [("include_vector", PBool (include_vector p));
             ("all_fields", PBool (match fields p with None => true | Some _ => false end));
             ("fields", PList (match fields p with
                               | None => []
                               | Some names => PStr <$> names
                               end))]).
End Projection.

Module BatchMutation.
Record t : Type := Mk {
  operation : string; id : Z; vector : option (list pyval); fields : list PayloadField.t }.

Definition upsert (id : Z) (vector : list pyval) (fields : option (list PayloadField.t)) : t :=
  Mk "upsert" id (Some vector) (default [] fields).

Definition delete (id : Z) : t := Mk "delete" id None [].

Definition to_kernel (m : t) : pyval :=
  PDict [("operation", PStr (operation m));
         ("id", PInt (id m));
         ("vector", PList (default [] (vector m)));
         ("fields", PList (PayloadField.to_kernel <$> fields m))].
End BatchMutation.

Module BatchWriteResult.
Record t : Type := Mk { first_sequence : pyval; last_sequence : pyval; count : pyval }.
End BatchWriteResult.

Module SearchRequest.
Record t : Type := Mk {
  metric : pyval;
  k : Z;
  vector : pyval;
  sparse : list SparseElement.t;
  mode : pyval;
  ef_search : Z;
  fetch_k : Z;
  rank_constant : Z;
  filter : pyval }.

(** [SearchRequest(metric, k, ...)] with the defaults of the dataclass. *)
Definition make (metric : pyval) (k : Z) (vector : pyval) (sparse : list SparseElement.t)
    (mode : string) (filter : pyval) : t :=
  Mk metric k vector sparse (PStr mode) 64 50 60 filter.
End SearchRequest.

Module ResourceLimits.
Record t : Type := Mk {
  max_batch_rows : Z; max_query_batch : Z; max_k : Z; max_candidates : Z }.

(** [__post_init__] *)
Definition init (l : t) : res t :=
  raise_if (Z.min (Z.min (max_batch_rows l) (max_query_batch l))
              (Z.min (max_k l) (max_candidates l)) <=? 0)
    ValueError "resource limits must be positive";;
  Ok l.

Definition defaults : t := Mk 65536 1024 10000 10000000.
End ResourceLimits.

Module MetricsSnapshot.
Record t : Type := Mk {
  operations : Z; writes : Z; queries : Z; failures : Z; cancellations : Z;
  total_duration_ns : Z }.

#[global] Instance t_eq_dec : EqDecision t.
Proof. solve_decision. Defined.
End MetricsSnapshot.

Module TraceRecord.
Record t : Type := Mk {
  operation : string; duration_ns : Z; status : string; sequence : option Z }.

#[global] Instance t_eq_dec : EqDecision t.
Proof. solve_decision. Defined.
End TraceRecord.
