(* ===== verification/KernelConfig.v ===== *)
(** The kernel's view of a collection configuration: the conversion from and to
    Python in [src/bindings/python_module.mojo] and the record of
    [src/akasha/common/config.mojo] with its validation and its FNV-1a
    fingerprint.  A Mojo [Error] reaches Python as an [Exception]. *)

From S2P Require Import Prelude PyFloat PyValue Json Envelope Models.

Definition U64 : Z := 2 ^ 64.

(** The conversions of a Python integer to [Int] and [Int64] (both signed, 64
    bits) fail out of range. *)
Definition to_int64 (z : Z) : res Z :=
  if (- 2 ^ 63 <=? z) && (z <? 2 ^ 63) then Ok z
  else raise Exception "Python int too large to convert".

Definition _exact_python_int (value : pyval) (name : string) : res Z :=
  match value with
  | PInt z => to_int64 z
  | _ => raise Exception (name +:+ " must be an integer")
  end.

Definition _exact_python_string (value : pyval) (name : string) : res string :=
  match value with
  | PStr s => Ok s
  | _ => raise Exception (name +:+ " must be a string")
  end.

(** * Metrics and scalar kinds: the durable codec tags *)

Definition metric_names : list (string * Z) := [("dot", 0); ("l2", 1); ("cosine", 2)].
Definition scalar_names : list (string * Z) := [("f32", 0); ("bf16", 1); ("f16", 2); ("i8", 3)].

Fixpoint tag_of (names : list (string * Z)) (name : string) : option Z :=
  match names with
  | [] => None
  | (n, t) :: names => if bool_decide (name = n) then Some t else tag_of names name
  end.

Fixpoint name_of (names : list (string * Z)) (tag : Z) : string :=
  match names with
  | [] => "unknown"
  | (n, t) :: names => if tag =? t then n else name_of names tag
  end.

Definition valid_tag (names : list (string * Z)) (tag : Z) : bool :=
  existsb (fun nt => tag =? nt.2) names.

Definition _metric_kind_from_python (value : pyval) : res Z :=
  name ← _exact_python_string value "ann_metric";
  match tag_of metric_names name with
  | Some t => Ok t
  | None => raise Exception "unknown ann_metric"
  end.

Definition _scalar_kind_from_python (value : pyval) : res Z :=
  name ← _exact_python_string value "scalar_kind";
  match tag_of scalar_names name with
  | Some t => Ok t
  | None => raise Exception "unknown scalar_kind"
  end.

Module Kernel.
Record config : Type := Mk {
  dimension : Z;
  ann_metric : Z;
  scalar_kind : Z;
  m : Z;
  m0 : Z;
  ef_construction : Z;
  default_ef_search : Z;
  max_ef_search : Z;
  max_level : Z;
  rebuild_inactive_percent : Z;
  delta_max_points : Z;
  level_seed : Z }.

Definition defaults (dimension : Z) : config :=
  Mk dimension 1 0 16 32 128 64 512 32 25 10000 0xA5A5A5A5A5A5A5A5.

Definition UINT16_MAX : Z := 65535.
Definition UINT32_MAX : Z := 4294967295.
Definition I8_MAX_SAFE_DIMENSION : Z := 133144.

(** The chain of [if ...: raise Error(...)] of [validate], in its order. *)
Definition checks (c : config) : list (bool * string) :=
  [(dimension c <=? 0, "dimension must be positive");
   (UINT32_MAX <? dimension c, "dimension must fit UInt32");
   (negb (valid_tag metric_names (ann_metric c)), "ann_metric has an unknown tag");
   (negb (valid_tag scalar_names (scalar_kind c)), "scalar_kind has an unknown tag");
   (m c <? 2, "m must be at least 2");
   (UINT16_MAX <? m c, "m must fit UInt16");
   (m0 c <? m c, "m0 must be greater than or equal to m");
   (UINT16_MAX <? m0 c, "m0 must fit UInt16");
   (ef_construction c <? m0 c, "ef_construction must be greater than or equal to m0");
   (UINT32_MAX <? ef_construction c, "ef_construction must fit UInt32");
   (default_ef_search c <? 1, "default_ef_search must be at least 1");
   (UINT32_MAX <? default_ef_search c, "default_ef_search must fit UInt32");
   (max_ef_search c <? default_ef_search c,
     "max_ef_search must be greater than or equal to default_ef_search");
   (UINT32_MAX <? max_ef_search c, "max_ef_search must fit UInt32");
   ((max_level c <? 1) || (63 <? max_level c), "max_level must be between 1 and 63");
   ((rebuild_inactive_percent c <? 1) || (90 <? rebuild_inactive_percent c),
     "rebuild_inactive_percent must be between 1 and 90");
   (delta_max_points c <=? 0, "delta_max_points must be positive");
   (UINT32_MAX <? delta_max_points c, "delta_max_points must fit UInt32");
   ((scalar_kind c =? 3) && (ann_metric c =? 1),
     "scalar_kind i8 is not compatible with ann_metric l2");
   ((scalar_kind c =? 3) && (I8_MAX_SAFE_DIMENSION <? dimension c),
     "i8 dimension exceeds the Int32 accumulator bound")].

Definition validate (c : config) : res unit :=
  for_each (fun '(cond, message) => raise_if cond Exception message) (checks c).

(** FNV-1a over 64-bit words; UInt64 arithmetic wraps. *)
Definition FNV_OFFSET_BASIS : Z := 14695981039346656037.
Definition FNV_PRIME : Z := 1099511628211.

Definition mix_u8 (value byte : Z) : Z := (Z.lxor value byte * FNV_PRIME) mod U64.

Definition mix_u64 (value field : Z) : Z :=
  foldl (fun mixed i => mix_u8 mixed (Z.land (Z.shiftr field (i * 8)) 255))
    value [0; 1; 2; 3; 4; 5; 6; 7].

Definition fingerprint (c : config) : Z :=
  let value := FNV_OFFSET_BASIS in
  let value := mix_u64 value (dimension c mod U64) in
  let value := mix_u8 value (ann_metric c) in
  let value := mix_u8 value (scalar_kind c) in
  let value := mix_u64 value (m c mod U64) in
  let value := mix_u64 value (m0 c mod U64) in
  let value := mix_u64 value (ef_construction c mod U64) in
  let value := mix_u64 value (default_ef_search c mod U64) in
  let value := mix_u64 value (max_ef_search c mod U64) in
  let value := mix_u64 value (max_level c mod U64) in
  let value := mix_u64 value (rebuild_inactive_percent c mod U64) in
  let value := mix_u64 value (delta_max_points c mod U64) in
  mix_u64 value (level_seed c).

(** The option names [_collection_config_from_python] knows. *)
Definition OPTIONS : list string :=
  ["dimension"; "ann_metric"; "scalar_kind"; "m"; "m0"; "ef_construction";
   "default_ef_search"; "max_ef_search"; "max_level"; "rebuild_inactive_percent";
   "delta_max_points"; "level_seed"].

(** [_exact_python_int(value.get(name, default), name)] *)
Definition int_option (value : dict) (name : string) (default : Z) : res Z :=
  _exact_python_int (dict_get_or value name (PInt default)) name.

(** [_collection_config_from_python] *)
Definition from_python (dim : Z) (value : pyval) : res config :=
  value ← match value with
          | PDict d => Ok d
          | _ => raise Exception "collection config must be a dict or None"
          end;
  for_each (fun kv => raise_if (negb (str_in kv.1 OPTIONS)) Exception
                        ("unknown collection config option: " +:+ kv.1)) value;;
  let d := defaults dim in
  dimension' ← int_option value "dimension" dim;
  raise_if (negb (dimension' =? dim)) Exception "collection config dimension mismatch";;
  ann_metric ← _metric_kind_from_python
    (dict_get_or value "ann_metric" (PStr (name_of metric_names (ann_metric d))));
  scalar_kind ← _scalar_kind_from_python
    (dict_get_or value "scalar_kind" (PStr (name_of scalar_names (scalar_kind d))));
  m ← int_option value "m" (m d);
  m0 ← int_option value "m0" (m0 d);
  ef_construction ← int_option value "ef_construction" (ef_construction d);
  default_ef_search ← int_option value "default_ef_search" (default_ef_search d);
  max_ef_search ← int_option value "max_ef_search" (max_ef_search d);
  max_level ← int_option value "max_level" (max_level d);
  rebuild_inactive_percent ←
    int_option value "rebuild_inactive_percent" (rebuild_inactive_percent d);
  delta_max_points ← int_option value "delta_max_points" (delta_max_points d);
  level_seed ← match dict_get_or value "level_seed" PNone with
               | PNone => Ok (level_seed d)
               | seed => s ← _exact_python_int seed "level_seed"; Ok (s mod U64)
               end;
  Ok (Mk dim ann_metric scalar_kind m m0 ef_construction default_ef_search
        max_ef_search max_level rebuild_inactive_percent delta_max_points level_seed).

(** [_collection_config_to_python] *)
Definition to_python (c : config) : dict :=
  [("dimension", PInt (dimension c));
   ("ann_metric", PStr (name_of metric_names (ann_metric c)));
   ("scalar_kind", PStr (name_of scalar_names (scalar_kind c)));
   ("m", PInt (m c));
   ("m0", PInt (m0 c));
   ("ef_construction", PInt (ef_construction c));
   ("default_ef_search", PInt (default_ef_search c));
   ("max_ef_search", PInt (max_ef_search c));
   ("max_level", PInt (max_level c));
   ("rebuild_inactive_percent", PInt (rebuild_inactive_percent c));
   ("delta_max_points", PInt (delta_max_points c));
   ("level_seed", PInt (level_seed c));
   ("fingerprint", PInt (fingerprint c))].
End Kernel.

Definition validate_collection_config (dimension : Z) (value : pyval) : res dict :=
  native_dimension ← to_int64 dimension;
  config ← match value with
           | PNone => Ok (Kernel.defaults native_dimension)
           | value => Kernel.from_python native_dimension value
           end;
  Kernel.validate config;;
  Ok (Kernel.to_python config).

(** * Lemmas *)

Module KernelFacts.
Import Kernel.
#[local] Arguments tag_of : simpl never.
#[local] Arguments name_of : simpl never.

(** The kernel's record of a typed configuration. *)
Definition of_config (c : CollectionConfig.t) : config :=
  Mk (CollectionConfig.dimension c)
    (default 0 (tag_of metric_names (CollectionConfig.ann_metric c)))
    (default 0 (tag_of scalar_names (CollectionConfig.scalar_kind c)))
    (CollectionConfig.m c) (CollectionConfig.m0 c) (CollectionConfig.ef_construction c)
    (CollectionConfig.default_ef_search c) (CollectionConfig.max_ef_search c)
    (CollectionConfig.max_level c) (CollectionConfig.rebuild_inactive_percent c)
    (CollectionConfig.delta_max_points c) (CollectionConfig.level_seed c).

(** And back, with the kernel's fingerprint. *)
Definition to_config (k : config) : CollectionConfig.t :=
  CollectionConfig.Mk (dimension k) (name_of metric_names (ann_metric k))
    (name_of scalar_names (scalar_kind k)) (m k) (m0 k) (ef_construction k)
    (default_ef_search k) (max_ef_search k) (max_level k) (rebuild_inactive_percent k)
    (delta_max_points k) (level_seed k) (Some (fingerprint k)).

(** A configuration the kernel accepts, with a 64-bit seed. *)
Definition valid (k : config) : Prop :=
  validate k = Ok tt /\ 0 <= level_seed k < U64.

Definition int64 (z : Z) : Prop := - 2 ^ 63 <= z < 2 ^ 63.

Definition ints_fit (c : CollectionConfig.t) : Prop :=
  Forall int64
    [CollectionConfig.dimension c; CollectionConfig.m c; CollectionConfig.m0 c;
     CollectionConfig.ef_construction c; CollectionConfig.default_ef_search c;
     CollectionConfig.max_ef_search c; CollectionConfig.max_level c;
     CollectionConfig.rebuild_inactive_percent c; CollectionConfig.delta_max_points c].

Lemma to_int64_Ok z w : to_int64 z = Ok w <-> w = z /\ int64 z.
Proof.
  unfold to_int64, int64. split.
  - destruct (_ && _) eqn:H; [|done]. intros [= <-]. inv_py. lia.
  - intros [-> H]. rewrite (proj2 (Z.leb_le _ _)), (proj2 (Z.ltb_lt _ _)) by lia. done.
Qed.

Lemma exact_python_int_Ok v name z :
  _exact_python_int v name = Ok z <-> v = PInt z /\ int64 z.
Proof.
  destruct v; try (split; [done|]; by intros [? _]). cbn [_exact_python_int].
  rewrite to_int64_Ok. split.
  - by intros [-> ?].
  - by intros [[= ->] ?].
Qed.

(** The bits of the seed survive the signed crossing. *)
Lemma seed_crossing s :
  0 <= s < U64 ->
  let kernel_seed := if 0x7FFFFFFFFFFFFFFF <? s then s - Z.shiftl 1 64 else s in
  int64 kernel_seed /\ kernel_seed mod U64 = s.
Proof.
  unfold U64, int64. intros Hs. change (Z.shiftl 1 64) with (2 ^ 64).
  destruct (0x7FFFFFFFFFFFFFFF <? s) eqn:H; inv_py; split; try lia.
  - rewrite <- (Z.mod_add _ 1) by lia. rewrite Z.mod_small by lia. lia.
  - by rewrite Z.mod_small by lia.
Qed.

(** The bounds [validate] leaves. *)
Lemma validate_bounds k :
  validate k = Ok tt ->
  0 < dimension k <= UINT32_MAX /\
  valid_tag metric_names (ann_metric k) = true /\
  valid_tag scalar_names (scalar_kind k) = true /\
  2 <= m k <= UINT16_MAX /\ m k <= m0 k <= UINT16_MAX /\
  m0 k <= ef_construction k <= UINT32_MAX /\
  1 <= default_ef_search k <= UINT32_MAX /\
  default_ef_search k <= max_ef_search k <= UINT32_MAX /\
  1 <= max_level k <= 63 /\ 1 <= rebuild_inactive_percent k <= 90 /\
  0 < delta_max_points k <= UINT32_MAX /\
  (scalar_kind k = 3 -> ann_metric k <> 1 /\ dimension k <= I8_MAX_SAFE_DIMENSION).
Proof.
  unfold validate, checks. rewrite for_each_Ok. intros H.
  repeat (apply Forall_cons in H as [?%raise_if_Ok H]).
  repeat match goal with
    | H : negb _ = false |- _ => apply negb_false_iff in H
    | H : (_ || _) = false |- _ => apply orb_false_iff in H as [? ?]
    | H : (_ && _) = false |- _ => apply andb_false_iff in H
    end.
  split_and!; try lia; done || (intros; split; [intros ?|]; lia).
Qed.

Lemma valid_ints_fit k : validate k = Ok tt -> ints_fit (to_config k).
Proof.
  intros H%validate_bounds. unfold ints_fit, int64, UINT16_MAX, UINT32_MAX in *.
  repeat constructor; simpl; lia.
Qed.

Lemma metric_tag_name t :
  valid_tag metric_names t = true -> tag_of metric_names (name_of metric_names t) = Some t.
Proof.
  unfold valid_tag, metric_names; simpl. intros H.
  repeat (apply orb_true_iff in H as [->%Z.eqb_eq|H]; [done|]). done.
Qed.

Lemma scalar_tag_name t :
  valid_tag scalar_names t = true -> tag_of scalar_names (name_of scalar_names t) = Some t.
Proof.
  unfold valid_tag, scalar_names; simpl. intros H.
  repeat (apply orb_true_iff in H as [->%Z.eqb_eq|H]; [done|]). done.
Qed.

Lemma of_to_config k : validate k = Ok tt -> of_config (to_config k) = k.
Proof.
  intros H%validate_bounds. destruct k; unfold of_config, to_config; simpl in *.
  by rewrite metric_tag_name, scalar_tag_name by tauto.
Qed.

Lemma metric_name_tag s :
  s ∈ ["dot"; "l2"; "cosine"] ->
  exists t, tag_of metric_names s = Some t /\ name_of metric_names t = s.
Proof. rewrite !elem_of_cons, elem_of_nil. intros [->|[->|[->|[]]]]; eexists; by split. Qed.

Lemma scalar_name_tag s :
  s ∈ ["f32"; "bf16"; "f16"; "i8"] ->
  exists t, tag_of scalar_names s = Some t /\ name_of scalar_names t = s.
Proof. rewrite !elem_of_cons, elem_of_nil. intros [->|[->|[->|[->|[]]]]]; eexists; by split. Qed.

Lemma to_of_config c :
  CollectionConfig.well_formed c ->
  to_config (of_config c) =
    CollectionConfig.set_fingerprint c (Some (fingerprint (of_config c))).
Proof.
  intros (_ & (t & Ht & Hn)%metric_name_tag & (u & Hu & Hn')%scalar_name_tag & _).
  destruct c; unfold to_config, CollectionConfig.set_fingerprint; simpl in *.
  rewrite Ht, Hu; simpl. by rewrite Hn, Hn'.
Qed.

Lemma well_formed_to_config k : valid k -> CollectionConfig.well_formed (to_config k).
Proof.
  intros [(? & Hm & Hs & _)%validate_bounds Hl]. unfold CollectionConfig.well_formed; simpl.
  split_and!; [lia| | |unfold U64 in *; lia|unfold U64 in *; lia].
  - unfold valid_tag, metric_names in *; simpl in *.
    repeat (apply orb_true_iff in Hm as [->%Z.eqb_eq|Hm]; [clear; set_solver|]). done.
  - unfold valid_tag, scalar_names in *; simpl in *.
    repeat (apply orb_true_iff in Hs as [->%Z.eqb_eq|Hs]; [clear; set_solver|]). done.
Qed.

(** Evaluate the next lookup in a literal dictionary. *)
Ltac lookup_step :=
  match goal with
  | |- context [dict_get_or ?d ?k ?x] =>
      let v := eval vm_compute in (dict_get_or d k x) in
      change (dict_get_or d k x) with v
  end.

(** What [from_python] makes of the dictionary [to_kernel] builds. *)
Lemma from_python_to_kernel c :
  CollectionConfig.well_formed c -> ints_fit c ->
  from_python (CollectionConfig.dimension c) (PDict (CollectionConfig.to_kernel c)) =
    Ok (of_config c).
Proof.
  intros (_ & (t & Ht & _)%metric_name_tag & (u & Hu & _)%scalar_name_tag & Hseed) Hfit.
  unfold ints_fit in Hfit. repeat (apply Forall_cons in Hfit as [? Hfit]).
  pose proof (seed_crossing _ Hseed) as [Hs1 Hs2].
  assert (forall z name, int64 z -> _exact_python_int (PInt z) name = Ok z) as Hint.
  { intros. by apply exact_python_int_Ok. }
  unfold from_python. cbn [mbind res_bind].
  replace (for_each _ _) with (Ok tt) by (symmetry; apply for_each_Ok; by repeat constructor).
  unfold CollectionConfig.to_kernel, int_option, of_config.
  set (seed := if _ <? _ then _ else _) in *. clearbody seed.
  destruct c; simpl in *. rewrite Ht, Hu. repeat lookup_step.
  repeat (apply bind_Ok; eexists; split; [
    first [ apply Hint; done
          | apply (raise_if_Ok _ _ _ tt); apply negb_false_iff, Z.eqb_refl
          | unfold _metric_kind_from_python; simpl; by rewrite Ht
          | unfold _scalar_kind_from_python; simpl; by rewrite Hu
          | apply bind_Ok; eexists; split; [apply Hint; done|by rewrite Hs2] ] | ]).
  done.
Qed.

(** A dictionary [from_python] accepts has machine integers. *)
Lemma from_python_ints_fit dim c k :
  from_python dim (PDict (CollectionConfig.to_kernel c)) = Ok k -> ints_fit c.
Proof.
  unfold from_python, CollectionConfig.to_kernel, int_option.
  set (seed := if _ <? _ then _ else _). clearbody seed. destruct c; cbn [CollectionConfig.dimension
    CollectionConfig.ann_metric CollectionConfig.scalar_kind CollectionConfig.m
    CollectionConfig.m0 CollectionConfig.ef_construction CollectionConfig.default_ef_search
    CollectionConfig.max_ef_search CollectionConfig.max_level
    CollectionConfig.rebuild_inactive_percent CollectionConfig.delta_max_points].
  cbn [mbind res_bind]. repeat lookup_step. intros H. repeat (apply bind_Ok in H as (? & ? & H)).
  repeat match goal with
    | H : _exact_python_int _ _ = Ok _ |- _ => apply exact_python_int_Ok in H as [[= ->] ?]
    end.
  unfold ints_fit. rewrite !Forall_cons. split_and!; done.
Qed.

(** ** Properties *)

Lemma mix_u8_range value byte : 0 <= mix_u8 value byte < U64.
Proof. apply Z.mod_pos_bound. reflexivity. Qed.

(** The fingerprint is an unsigned 64-bit word. *)
Lemma fingerprint_range c : 0 <= fingerprint c < U64.
Proof. apply mix_u8_range. Qed.

(** The kernel's answer for a well-formed configuration: the record it stands
    for, checked and rendered with its fingerprint. *)
Lemma validate_to_kernel c :
  CollectionConfig.well_formed c -> ints_fit c ->
  validate_collection_config (CollectionConfig.dimension c)
    (PDict (CollectionConfig.to_kernel c)) =
  (validate (of_config c);; Ok (to_python (of_config c))).
Proof.
  intros Hc Hfit. unfold validate_collection_config.
  assert (to_int64 (CollectionConfig.dimension c) = Ok (CollectionConfig.dimension c)) as ->.
  { apply to_int64_Ok. split; [done|]. by apply Forall_cons in Hfit as [? _]. }
  cbn [mbind res_bind]. by rewrite from_python_to_kernel.
Qed.

(** [from_kernel] of a rendered configuration, whatever the order of its keys. *)
Lemma from_kernel_lookup d k :
  valid k -> (forall name, dict_get d name = dict_get (to_python k) name) ->
  CollectionConfig.from_kernel d = Ok (to_config k).
Proof.
  intros Hk Hget. unfold CollectionConfig.from_kernel, dict_item, dict_get_or.
  replace (for_each _ _) with (Ok tt).
  2:{ symmetry. apply for_each_Ok. setoid_rewrite Hget. by repeat constructor. }
  cbn [mbind res_bind]. apply CollectionConfig.init_Ok.
  split; [by apply well_formed_to_config|]. setoid_rewrite Hget. by repeat constructor.
Qed.
End KernelFacts.
