(* ===== verification/KernelInterface.v ===== *)
(** The compiled kernel as the Python sources see it: the interface of a
    collection ([KernelCollection] of [python/akashadb/database.py]) and the
    mapping of its errors ([python/akashadb/exceptions.py]).  The collection
    itself is the Mojo code; its state is a parameter. *)

From S2P Require Import Prelude PyFloat PyValue Json Envelope Models.

(** A kernel collection: opening what a directory holds ([None]: nothing yet),
    and calling a method by name.  A method may change the state even when it
    raises. *)
Class Kernel (K : Type) := {
  kernel_open : option K -> Z -> pyval -> pyval -> res K;
  kernel_call : string -> list pyval -> K -> res pyval * K }.

(** What the Python sources rely on: the errors of the compiled module are
    ordinary exceptions ([Exception], never an interpreter exit). *)
Class OrdinaryErrors (K : Type) `{!Kernel K} : Prop :=
  kernel_call_errors method args k e k' :
    kernel_call method args k = (Raise e, k') -> issubclass (exn_type e) Exception = true.

(** [sub in s] *)
Fixpoint contains (sub s : string) : bool :=
  String.prefix sub s ||
  match s with EmptyString => false | String _ s => contains sub s end.

(** [s.startswith((p, q, ...))] *)
Definition starts_with (prefixes : list string) (s : string) : bool :=
  existsb (fun p => String.prefix p s) prefixes.

(** [s.lower()] on ASCII *)
Definition lower_char (c : ascii) : ascii :=
  let n := nat_of_ascii c in
  if (65 <=? n)%nat && (n <=? 90)%nat then ascii_of_nat (n + 32) else c.

Fixpoint lower (s : string) : string :=
  match s with EmptyString => "" | String c s => String (lower_char c) (lower s) end.

Definition map_kernel_error (error : exn) : exn :=
  let message := exn_message error in
  if contains "already open" message then Exn CollectionAlreadyOpenError message
  else if contains "closed" message then Exn CollectionClosedError message
  else Exn ValidationError message.

(** Only the three adapter errors come out of the mapping. *)
Lemma map_kernel_error_class e :
  issubclass (exn_type (map_kernel_error e)) AkashaError = true.
Proof. unfold map_kernel_error. by destruct (contains _ _); [|destruct (contains _ _)]. Qed.

Lemma map_kernel_error_message e : exn_message (map_kernel_error e) = exn_message e.
Proof. unfold map_kernel_error. by destruct (contains _ _); [|destruct (contains _ _)]. Qed.
