(* ===== verification/Vectors.v ===== *)
(** The schemas and point requests of [python/akashadb/vectors.py]. *)

From S2P Require Import Prelude PyFloat PyValue Json Envelope Models KernelInterface.

Definition nul : string := String "000"%char "".

(** A vector argument: any value, or a nonempty list or tuple of [SparseElement]
    objects. *)
Inductive vector_value : Type :=
| VValue (v : pyval)
| VSparse (l : list SparseElement.t).

Definition _vector_value (value : vector_value) : pyval :=
  match value with
  | VSparse l => PList (SparseElement.to_kernel <$> l)
  | VValue v => v
  end.

Module VectorField.
Record t : Type := Mk {
  dimension : Z; dtype : string; kind : string; metric : string;
  hnsw : option CollectionConfig.t }.

#[global] Instance t_eq_dec : EqDecision t.
Proof. solve_decision. Defined.

(** [==] of two fields: the fingerprints of their configurations do not count. *)
Definition eqb (f g : t) : bool :=
  (dimension f =? dimension g) && bool_decide (dtype f = dtype g) &&
  bool_decide (kind f = kind g) && bool_decide (metric f = metric g) &&
  match hnsw f, hnsw g with
  | Some c, Some d => CollectionConfig.eqb c d
  | None, None => true
  | _, _ => false
  end.

(** The branches of [__post_init__] on the kind. *)
Definition check_kind (dimension : Z) (dtype kind : string) (metric : pyval) : res unit :=
  if str_in kind ["dense"; "multivector"] then
    raise_if ((dimension =? 0) || bool_decide (dtype = "binary"))
      ValueError "invalid numeric vector schema";;
    numeric ← in_set metric ["dot"; "l2"; "cosine"];
    raise_if (negb numeric) ValueError "invalid numeric vector schema"
  else if bool_decide (kind = "sparse") then
    raise_if (negb (dimension =? 0) || negb (bool_decide (dtype = "f32")) ||
              negb (py_eq metric (PStr "dot")))
      ValueError "sparse fields require dimension 0, f32 and dot"
  else if bool_decide (kind = "binary") then
    raise_if ((dimension =? 0) || negb (bool_decide (dtype = "binary")))
      ValueError "invalid packed binary schema";;
    packed ← in_set metric ["hamming"; "jaccard"];
    raise_if (negb packed) ValueError "invalid packed binary schema"
  else raise ValueError "unknown vector kind".

(** [__init__] and [__post_init__] *)
Definition init (dimension dtype kind metric : pyval) (hnsw : option CollectionConfig.t)
    : res t :=
  dimension ← match dimension with
              | PInt z => if (0 <=? z) && (z <=? 0xFFFFFFFF) then Ok z
                          else raise ValueError "vector dimension must fit UInt32"
              | _ => raise ValueError "vector dimension must fit UInt32"
              end;
  dtype ← one_of dtype ["f32"; "bf16"; "f16"; "i8"; "u8"; "binary"] "unknown vector dtype";
  kind ← one_of kind ["dense"; "multivector"; "sparse"; "binary"] "unknown vector kind";
  check_kind dimension dtype kind metric;;
  metric ← match metric with
           | PStr s => Ok s
           | _ => raise ValueError "invalid numeric vector schema"
           end;
  raise_if (match hnsw with
            | Some c =>
                negb (bool_decide (kind = "dense")) ||
                negb (CollectionConfig.dimension c =? dimension) ||
                negb (bool_decide (CollectionConfig.ann_metric c = metric))
            | None => false
            end) ValueError "HNSW configuration must match its dense field";;
  Ok (Mk dimension dtype kind metric hnsw).

Definition to_kernel (f : t) (name : string) (field_id : Z) : res pyval :=
  raise_if (bool_decide (name = "") || contains nul name)
    ValueError "named vector fields require a nonempty name without NUL";;
  Ok (PDict [("id", PInt field_id); ("name", PStr name); ("dimension", PInt (dimension f));
             ("dtype", PStr (dtype f)); ("kind", PStr (kind f)); ("metric", PStr (metric f));
             ("hnsw", match hnsw f with
                      | None => PNone
                      | Some c => PDict (CollectionConfig.to_kernel c)
                      end)]).

Definition from_kernel (value : dict) : res t :=
  hnsw ← dict_item value "hnsw";
  dimension ← dict_item value "dimension";
  dtype ← dict_item value "dtype";
  kind ← dict_item value "kind";
  metric ← dict_item value "metric";
  hnsw ← match hnsw with
         | PNone => Ok None
         | v => d ← subscriptable v; c ← CollectionConfig.from_kernel d; Ok (Some c)
         end;
  init dimension dtype kind metric hnsw.
End VectorField.

Module IvfOptions.
Record t : Type := Mk { nlist : Z; nprobe : Z; iterations : Z }.

Definition defaults : t := Mk 32 4 8.

(** [__post_init__] *)
Definition init (o : t) : res t :=
  raise_if (negb ((1 <=? nlist o) && (nlist o <=? 256)) ||
            negb ((1 <=? nprobe o) && (nprobe o <=? nlist o)) || (iterations o <=? 0))
    ValueError "IVF requires 1..256 lists, 1..nlist probes and positive iterations";;
  Ok o.

Definition to_kernel (o : t) : pyval :=
  PDict [("nlist", PInt (nlist o)); ("nprobe", PInt (nprobe o));
         ("iterations", PInt (iterations o))].
End IvfOptions.

Module FieldQuery.
Record t : Type := Mk {
  name : string; vector : vector_value; mode : string; ef_search : option Z;
  rerank_k : Z; ivf : option IvfOptions.t }.

(** [__post_init__] *)
Definition init (q : t) : res t :=
  raise_if (bool_decide (name q = "") || contains nul (name q))
    ValueError "field query requires a nonempty name without NUL";;
  raise_if (negb (str_in (mode q) ["exact"; "approx"; "ivf"]))
    ValueError "field query mode must be exact, approx or ivf";;
  raise_if (match ef_search q with Some ef => ef <=? 0 | None => false end)
    ValueError "ef_search must be a positive integer";;
  raise_if (rerank_k q <? 0) ValueError "rerank_k must be a nonnegative integer";;
  raise_if (negb (bool_decide (mode q = "approx")) &&
            (match ef_search q with Some _ => true | None => false end ||
             negb (rerank_k q =? 0)))
    ValueError "ef_search and rerank_k require approximate field search";;
  raise_if (match ivf q with
            | Some _ => negb (bool_decide (mode q = "ivf"))
            | None => false
            end) ValueError "IvfOptions require ivf mode";;
  Ok q.

Definition to_kernel (q : t) : pyval :=
  PDict [("name", PStr (name q)); ("vector", _vector_value (vector q));
         ("mode", PStr (mode q));
         ("ef_search", PInt (default (-1) (ef_search q)));
         ("rerank_k", PInt (rerank_k q));
         ("ivf", if bool_decide (mode q = "ivf")
                 then IvfOptions.to_kernel (default IvfOptions.defaults (ivf q)) else PNone)].
End FieldQuery.

Module PointMutation.
(** [None] in [vector] and [sparse] is the [_UNSET] marker. *)
Record t : Type := Mk {
  operation : string; id : Z; vectors : list (string * vector_value);
  vector : option pyval; sparse : option vector_value;
  fields : option (list PayloadField.t) }.

Definition upsert (id : Z) (vectors : option (list (string * vector_value)))
    (vector : option pyval) (sparse : option vector_value)
    (fields : option (list PayloadField.t)) : t :=
  Mk "upsert" id (default [] vectors) vector sparse fields.

Definition update (id : Z) (vectors : option (list (string * vector_value)))
    (vector : option pyval) (sparse : option vector_value)
    (fields : option (list PayloadField.t)) : t :=
  Mk "update" id (default [] vectors) vector sparse fields.

Definition delete (id : Z) : t := Mk "delete" id [] None None None.

Definition to_kernel (m : t) : pyval :=
  let updates :=
    match vector m with
    | Some v => [PDict [("id", PInt 0); ("value", v)]]
    | None => []
    end ++
    match sparse m with
    | Some v => [PDict [("id", PInt 1); ("value", _vector_value v)]]
    | None => []
    end ++
    ((fun '(name, value) => PDict [("name", PStr name); ("value", _vector_value value)])
       <$> vectors m) in
  PDict [("operation", PStr (operation m)); ("id", PInt (id m)); ("updates", PList updates);
         ("fields", match fields m with
                    | None => PNone
                    | Some l => PList (PayloadField.to_kernel <$> l)
                    end)].
End PointMutation.

Module Point.
Record t : Type := Mk {
  id : pyval; sequence : pyval; document_sequence : pyval; vector : pyval;
  sparse : option (list SparseElement.t); vectors : list (string * vector_value);
  fields : list PayloadField.t }.

(** [isinstance(data, list) and data and isinstance(data[0], dict)] *)
Definition parse_vector (data : pyval) : res vector_value :=
  match data with
  | PList (PDict d :: l) => items ← map_res SparseElement.of_item (PDict d :: l); Ok (VSparse items)
  | _ => Ok (VValue data)
  end.

Definition iterable (v : pyval) : res (list pyval) :=
  match v with
  | PList l | PTuple l => Ok l
  | PDict d => Ok ((fun kv => PStr kv.1) <$> d)
  | PStr s => Ok ((fun c => PStr (String c "")) <$> list_ascii_of_string s)
  | _ => raise TypeError "object is not iterable"
  end.

Definition from_kernel (value : dict) : res t :=
  raw ← dict_item value "vectors";
  raw ← match raw with
        | PDict d => Ok d
        | _ => raise AttributeError "object has no attribute 'items'"
        end;
  vectors ← map_res (fun '(name, data) => v ← parse_vector data; Ok (name, v)) raw;
  id ← dict_item value "id";
  sequence ← dict_item value "sequence";
  document_sequence ← dict_item value "document_sequence";
  vector ← dict_item value "vector";
  raw_sparse ← dict_item value "sparse";
  sparse ← match raw_sparse with
           | PNone => Ok None
           | v => l ← iterable v; l ← map_res SparseElement.of_item l; Ok (Some l)
           end;
  raw_fields ← dict_item value "fields";
  raw_fields ← iterable raw_fields;
  fields ← map_res PayloadField.of_item raw_fields;
  Ok (Mk id sequence document_sequence vector sparse vectors fields).
End Point.
