(* ===== verification/ArrowInterface.v ===== *)
(** What [python/akashadb/arrow.py] and [arrow_points.py] use of NumPy and of
    PyArrow, as classes of operations; their laws are the documented behaviour
    the theorems rely on.  Neither library is in the repository. *)

From S2P Require Import Prelude PyFloat PyValue.

(** * Sequences, as the language indexes them *)

(** [l[i]]: a negative index counts from the end. *)
Definition py_index {A} (i : Z) (l : list A) : option A :=
  let i := if i <? 0 then i + Z.of_nat (length l) else i in
  if i <? 0 then None else l !! Z.to_nat i.

(** A bound of a slice, clipped to [0 .. n]. *)
Definition slice_bound (n : Z) (i : Z) : Z :=
  Z.max 0 (Z.min n (if i <? 0 then i + n else i)).

(** [l[start:stop]] *)
Definition py_slice {A} (start stop : option Z) (l : list A) : list A :=
  let n := Z.of_nat (length l) in
  let start := slice_bound n (default 0 start) in
  let stop := slice_bound n (default n stop) in
  take (Z.to_nat (stop - start)) (drop (Z.to_nat start) l).

(** [l[a:b]] of bounds in range *)
Definition segment {A} (a b : Z) (l : list A) : list A :=
  take (Z.to_nat (b - a)) (drop (Z.to_nat a) l).

(** The rows between consecutive offsets. *)
Fixpoint rows_between {A} (offsets : list Z) (l : list A) : list (list A) :=
  match offsets with
  | a :: (b :: _) as rest => segment a b l :: rows_between rest l
  | _ => []
  end.

(** * NumPy *)

(** The element types of the arrays, and Python's values of each. *)
Inductive dtype : Type :=
| int8 | uint8 | uint16 | int32 | int64 | float16 | float32.

#[export] Instance dtype_eq_dec : EqDecision dtype.
Proof. solve_decision. Defined.

Definition element (d : dtype) : Type :=
  match d with float16 | float32 => float | _ => Z end.

(** An element as [tolist] and [to_pylist] give it. *)
Definition scalar (d : dtype) : element d -> pyval :=
  match d with
  | float16 => PFloat | float32 => PFloat
  | int8 => PInt | uint8 => PInt | uint16 => PInt | int32 => PInt | int64 => PInt
  end.

(** [dtype.itemsize] *)
Definition itemsize (d : dtype) : Z :=
  match d with
  | int8 | uint8 => 1
  | uint16 | float16 => 2
  | int32 | float32 => 4
  | int64 => 8
  end.

(** Arrays of one dimension by the values of their elements.  Assignment to
    elements gives the array after it. *)
Class NumPy := {
  ndarray : Type -> Type;
  tolist {A} : ndarray A -> list A;
  np_empty d : ndarray (element d);
  np_slice {A} : option Z -> option Z -> ndarray A -> ndarray A;
  np_item {A} : Z -> ndarray A -> res A;
  np_less_equal : ndarray Z -> ndarray Z -> res (ndarray bool);
  np_less_scalar : ndarray Z -> Z -> ndarray bool;
  np_equal_scalar : ndarray float -> float -> ndarray bool;
  np_subtract_scalar : ndarray Z -> Z -> ndarray Z;
  np_isfinite : ndarray float -> ndarray bool;
  np_assign {A} : ndarray A -> ndarray Z -> A -> res (ndarray A);
  np_any : ndarray bool -> bool;
  np_all : ndarray bool -> bool }.

(** [len(a)] *)
Definition np_len `{NumPy} {A} (a : ndarray A) : Z := Z.of_nat (length (tolist a)).

(** Elements written one after the other. *)
Definition assigned {A} (x : A) (l : list A) (indices : list Z) : list A :=
  foldl (fun l i => <[Z.to_nat i := x]> l) l indices.

(** The reference manual of NumPy: indexing, elementwise operations on arrays of
    one length, integer subtraction whose result lies between zero and the
    minuend (so in the range of the element type), assignment at indices that
    are in range, and the reductions. *)
Class NumPyLaws `{NumPy} : Prop := {
  tolist_empty d : tolist (np_empty d) = [];
  tolist_slice {A} start stop (a : ndarray A) :
    tolist (np_slice start stop a) = py_slice start stop (tolist a);
  item_found {A} i (a : ndarray A) x : py_index i (tolist a) = Some x -> np_item i a = Ok x;
  tolist_less_equal a b : length (tolist a) = length (tolist b) ->
    exists c, np_less_equal a b = Ok c /\ tolist c = zip_with Z.leb (tolist a) (tolist b);
  tolist_less_scalar a z : tolist (np_less_scalar a z) = (fun x => x <? z) <$> tolist a;
  tolist_equal_scalar a z : tolist (np_equal_scalar a z) = (fun x => feqb x z) <$> tolist a;
  tolist_subtract a z : Forall (fun x => 0 <= x - z <= x) (tolist a) ->
    tolist (np_subtract_scalar a z) = (fun x => x - z) <$> tolist a;
  tolist_isfinite a : tolist (np_isfinite a) = isfinite <$> tolist a;
  tolist_assign {A} (a : ndarray A) indices x :
    Forall (fun i => 0 <= i < np_len a) (tolist indices) ->
    exists c, np_assign a indices x = Ok c /\ tolist c = assigned x (tolist a) (tolist indices);
  any_spec a : np_any a = existsb id (tolist a);
  all_spec a : np_all a = forallb id (tolist a) }.

(** * PyArrow *)

(** The types without parameters the sources name. *)
Inductive simple_type : Type :=
| pa_int8 | pa_uint8 | pa_uint16 | pa_int32 | pa_int64 | pa_float16 | pa_float32 | pa_float64
| pa_string | pa_bool.

#[export] Instance simple_type_eq_dec : EqDecision simple_type.
Proof. solve_decision. Defined.

(** Types, arrays, record batches, and the objects given by a producer. *)
Class PyArrow `{NumPy} := {
  data_type : Type;
  type_eqb : data_type -> data_type -> bool;
  pa : simple_type -> data_type;
  pa_binary : Z -> data_type;
  pa_list : data_type -> data_type;
  pa_list_size : data_type -> Z -> data_type;
  is_list : data_type -> bool;
  is_struct : data_type -> bool;
  value_type : data_type -> data_type;
  struct_fields : data_type -> list (string * data_type);
  type_text : data_type -> string;

  array : Type;
  array_type : array -> data_type;
  array_len : array -> Z;
  array_offset : array -> Z;
  null_count : array -> Z;
  array_values : array -> array;
  array_offsets : array -> array;
  array_equals : array -> array -> bool;
  array_field : array -> nat -> array;
  array_slice : array -> Z -> Z -> array;
  to_numpy d : array -> res (ndarray (element d));
  to_pylist : array -> list pyval;
  buffer : Type;
  array_buffer : array -> nat -> option buffer;
  (** [np.frombuffer(buffer, dtype, count, offset)] *)
  frombuffer d : buffer -> Z -> Z -> res (ndarray (element d));

  batch : Type;
  validate : batch -> res unit;
  num_rows : batch -> Z;
  column_names : batch -> list string;
  column : batch -> string -> res array;
  (** [batch.schema.field(name).metadata], with its keys and values as text *)
  field_metadata : batch -> string -> list (string * string);
  pa_array : pyval -> simple_type -> res array;
  record_batch : list array -> list string -> res batch;

  object : Type;
  (** [isinstance(o, pa.RecordBatch)] *)
  as_record_batch : object -> option batch;
  has_c_array : object -> bool;
  capsules : Type;
  c_array : object -> res capsules;
  import_from_c_capsule : capsules -> res object }.

Definition pa_type_eqb `{PyArrow} (a : array) (t : data_type) : bool := type_eqb (array_type a) t.

(** The entry of a dictionary whose keys are types. *)
Definition type_item `{PyArrow} {A} (table : list (simple_type * A)) (t : data_type) : option A :=
  snd <$> List.find (fun kv => type_eqb t (pa kv.1)) table.

(** The reference of PyArrow: slices of arrays, conversion without a copy, and
    how the arrays of lists are laid out over their child.  The child is not
    sliced with its parent; the offsets of lists are. *)
Class PyArrowLaws `{PyArrow} : Prop := {
  pylist_length a : Z.of_nat (length (to_pylist a)) = array_len a;
  pylist_slice a start count : 0 <= start -> 0 <= count -> start + count <= array_len a ->
    to_pylist (array_slice a start count) = segment start (start + count) (to_pylist a);
  numpy_values d a v : to_numpy d a = Ok v -> to_pylist a = scalar d <$> tolist v;
  no_nulls a : null_count a = 0 -> Forall (fun v => v <> PNone) (to_pylist a);
  (** a row is null or the window of the child *)
  fixed_list_rows a t n i v : pa_type_eqb a (pa_list_size t n) = true -> 0 <= n -> 0 <= i ->
    to_pylist a !! Z.to_nat i = Some v -> v <> PNone ->
    v = PList (segment ((array_offset a + i) * n) ((array_offset a + i + 1) * n)
                 (to_pylist (array_values a)));
  list_rows a t offsets : pa_type_eqb a (pa_list t) = true -> null_count a = 0 ->
    PInt <$> offsets = segment 0 (array_len a + 1) (to_pylist (array_offsets a)) ->
    to_pylist a = PList <$> rows_between offsets (to_pylist (array_values a));
  equal_arrays a b : array_equals a b = true -> to_pylist a = to_pylist b;
  valid_column b name a : validate b = Ok tt -> column b name = Ok a -> array_len a = num_rows b;
  valid_fixed_list b name a t n : validate b = Ok tt -> column b name = Ok a ->
    pa_type_eqb a (pa_list_size t n) = true -> 0 <= n ->
    0 <= array_offset a /\ (array_offset a + array_len a) * n <= array_len (array_values a);
  (** the data buffer of a primitive array, from its offset on: any value where it is null *)
  buffer_values a t d v data : pa_type_eqb a (pa t) = true -> array_buffer a 1 = Some data ->
    frombuffer d data (array_len a) (array_offset a * itemsize d) = Ok v ->
    Forall2 (fun x y => x = PNone \/ x = scalar d y) (to_pylist a) (tolist v);
  no_buffer a t : pa_type_eqb a (pa t) = true -> array_buffer a 1 = None -> array_len a = 0 }.
