(* ===== verification/Database.v ===== *)
(** The in-process adapter of [python/akashadb/database.py]: the [Collection]
    facade over a kernel collection, with its metrics and traces, and the
    [LocalDatabase] registry. *)

From S2P Require Import Prelude Assoc PyFloat PyValue Json Envelope Models KernelConfig KernelInterface Vectors.

(** The argument [cancellation] of a controlled query: no token, or the state of
    its event. *)
Definition cancelled (cancellation : option bool) : bool := default false cancellation.

Definition opt_filter (filter : option dict) : pyval :=
  match filter with None => PNone | Some d => PDict d end.

Section Collection.
Context {K : Type} `{!Kernel K}.
(** The readings of [perf_counter_ns] and [monotonic_ns]. *)
Variables perf_counter_ns monotonic_ns : nat -> Z.

Record Collection : Type := MkCollection {
  _kernel : K;
  dimension : Z;
  _config : CollectionConfig.t;
  limits : ResourceLimits.t;
  _operations : Z;
  _writes : Z;
  _queries : Z;
  _failures : Z;
  _cancellations : Z;
  _total_duration_ns : Z;
  _traces : list TraceRecord.t;
  ticks : nat }.

Definition set_kernel (k : K) (c : Collection) : Collection :=
  MkCollection k (dimension c) (_config c) (limits c) (_operations c) (_writes c) (_queries c)
    (_failures c) (_cancellations c) (_total_duration_ns c) (_traces c) (ticks c).
Definition tick (c : Collection) : Collection :=
  MkCollection (_kernel c) (dimension c) (_config c) (limits c) (_operations c) (_writes c)
    (_queries c) (_failures c) (_cancellations c) (_total_duration_ns c) (_traces c) (S (ticks c)).
Definition set_counters (operations writes queries failures cancellations total : Z)
    (traces : list TraceRecord.t) (c : Collection) : Collection :=
  MkCollection (_kernel c) (dimension c) (_config c) (limits c) operations writes queries
    failures cancellations total traces (ticks c).

Definition read_perf_counter : M Collection Z := fun c => (Ok (perf_counter_ns (ticks c)), tick c).
Definition read_monotonic : M Collection Z := fun c => (Ok (monotonic_ns (ticks c)), tick c).

(** [self._kernel.method( *args)]: any method, and those of the interface that
    take and give Python's values. *)
Definition kernel_action {A} (m : K -> res A * K) : M Collection A := fun c =>
  let '(r, k) := m (_kernel c) in (r, set_kernel k c).

Definition kernel_method (method : string) (args : list pyval) : M Collection pyval :=
  kernel_action (kernel_call method args).

Definition write_methods : list string := ["upsert"; "delete"; "apply"].
Definition query_methods : list string := ["search"; "get"].

Definition _record_operation (method : string) (duration_ns : Z) (status : string)
    (error : option string) : M Collection unit :=
  let ok_write := bool_decide (status = "ok") && starts_with write_methods method in
  let failed := bool_decide (status = "error") in
  let cancelled := match error with Some e => contains "cancel" (lower e) | None => false end in
  modify (fun c => set_counters
    (_operations c + 1)
    (if ok_write then _writes c + 1 else _writes c)
    (if starts_with query_methods method then _queries c + 1 else _queries c)
    (if failed then _failures c + 1 else _failures c)
    (if failed && cancelled then _cancellations c + 1 else _cancellations c)
    (_total_duration_ns c + duration_ns) (_traces c) c);;
  sequence ← (if ok_write then
                try_catch (v ← kernel_method "last_sequence" []; z ← lift (py_int v); mret (Some z))
                  [Exception] (fun _ => mret None)
              else mret None);
  modify (fun c =>
    let traces := _traces c ++ [TraceRecord.Mk method duration_ns status sequence] in
    let traces := if (256 <? length traces)%nat then tail traces else traces in
    set_counters (_operations c) (_writes c) (_queries c) (_failures c) (_cancellations c)
      (_total_duration_ns c) traces c).

Definition _call_method {A} (method : string) (m : K -> res A * K) : M Collection A :=
  started ← read_perf_counter;
  result ← try_catch (kernel_action m) [Exception] (fun error =>
    now ← read_perf_counter;
    _record_operation method (now - started) "error" (Some (exn_message error));;
    lift (Raise (map_kernel_error error)));
  now ← read_perf_counter;
  _record_operation method (now - started) "ok" None;;
  mret result.

Definition _call (method : string) (args : list pyval) : M Collection pyval :=
  _call_method method (kernel_call method args).

(** [sorted(vectors.items())] of distinct names *)
Definition sorted_fields (vectors : list (string * VectorField.t)) : list (string * VectorField.t) :=
  isort (fun a b => String.leb a.1 b.1) vectors.

Fixpoint schema_items (index : Z) (vectors : list (string * VectorField.t)) : res (list pyval) :=
  match vectors with
  | [] => Ok []
  | (name, value) :: vectors =>
      v ← VectorField.to_kernel value name (index + 2);
      l ← schema_items (index + 1) vectors;
      Ok (v :: l)
  end.

(** [__init__]: [dir] is what the directory holds, [kernel] an injected one. *)
Definition open_collection (dir : option K) (dim : Z)
    (config : CollectionConfig.option_value) (vectors : option (list (string * VectorField.t)))
    (kernel : option K) (lim : option ResourceLimits.t) : res Collection :=
  '(requested, schema) ← try_except
    (requested ← match config with
                 | CollectionConfig.Value PNone => Ok None
                 | config => c ← CollectionConfig.from_options dim config; Ok (Some c)
                 end;
     schema ← match vectors with
              | None => Ok None
              | Some vectors => l ← schema_items 0 (sorted_fields vectors); Ok (Some l)
              end;
     Ok (requested, schema))
    [TypeError; ValueError] (fun error => raise ValidationError (exn_message error));
  let config_arg := match requested with
                    | None => PNone
                    | Some c => PDict (CollectionConfig.to_kernel c)
                    end in
  let schema_arg := match schema with None => PNone | Some l => PList l end in
  k ← try_except
    (match kernel with Some k => Ok k | None => kernel_open dir dim config_arg schema_arg end)
    [Exception] (fun error => Raise (map_kernel_error error));
  let '(r, k) := kernel_call "collection_config" [] k in
  raw ← r;
  raw ← subscriptable raw;
  c ← CollectionConfig.from_kernel raw;
  Ok (MkCollection k dim c (default ResourceLimits.defaults lim) 0 0 0 0 0 0 [] 0).

Definition metrics (c : Collection) : MetricsSnapshot.t :=
  MetricsSnapshot.Mk (_operations c) (_writes c) (_queries c) (_failures c) (_cancellations c)
    (_total_duration_ns c).

Definition traces (c : Collection) : list TraceRecord.t := _traces c.

Definition close : M Collection unit := _call "close" [];; mret tt.

Definition last_sequence : M Collection Z := v ← _call "last_sequence" []; lift (py_int v).

(** [dict(value)] of a dictionary; anything else raises. *)
Definition as_mapping (v : pyval) : res dict :=
  match v with
  | PDict d => Ok d
  | _ => raise TypeError "cannot convert to a dictionary"
  end.

Definition collection_config : M Collection CollectionConfig.t :=
  v ← _call "collection_config" [];
  d ← lift (as_mapping v);
  lift (CollectionConfig.from_kernel d).

Definition last_search_stats : M Collection dict :=
  v ← _call "last_search_stats" [];
  d ← lift (as_mapping v);
  lift (SearchStats.from_kernel d).

Definition upsert (id : pyval) (vector : pyval) (fields : option (list PayloadField.t))
    : M Collection unit :=
  match fields with
  | None => _call "upsert" [id; vector];; mret tt
  | Some fields =>
      _call "upsert_document" [id; vector; PList (PayloadField.to_kernel <$> fields)];; mret tt
  end.

(** [v >= 2] *)
Definition at_least_two (v : pyval) : res bool :=
  match v with
  | PInt z => Ok (2 <=? z)
  | PBool _ => Ok false
  | PFloat x => t ← float_of_int 2; Ok (fleb t x)
  | _ => raise TypeError "'>=' not supported"
  end.

(** [{item["name"]: VectorField.from_kernel(item) for item in items if item["id"] >= 2}] *)
Definition schema_fields (items : list pyval) : res (list (string * VectorField.t)) :=
  for_fold (fun fields item =>
    d ← subscriptable item;
    id ← dict_item d "id";
    named ← at_least_two id;
    if named : bool then
      name ← dict_item d "name";
      match name with
      | PStr name => f ← VectorField.from_kernel d; Ok (assoc_set fields name f)
      | _ => raise TypeError "vector field names are strings"
      end
    else Ok fields) [] items.

Definition vector_fields : M Collection (list (string * VectorField.t)) :=
  raw ← _call "vector_fields" [];
  items ← lift (Point.iterable raw);
  lift (schema_fields items).

(** [BatchWriteResult( **raw)] *)
Definition keyword_write_result (raw : dict) : res BatchWriteResult.t :=
  check_keywords raw ["first_sequence"; "last_sequence"; "count"];;
  first ← required raw "first_sequence";
  last ← required raw "last_sequence";
  count ← required raw "count";
  Ok (BatchWriteResult.Mk first last count).

(** [BatchWriteResult(first_sequence=int(raw["first_sequence"]), ...)] *)
Definition int_write_result (raw : dict) : res BatchWriteResult.t :=
  first ← dict_item raw "first_sequence"; first ← py_int first;
  last ← dict_item raw "last_sequence"; last ← py_int last;
  count ← dict_item raw "count"; count ← py_int count;
  Ok (BatchWriteResult.Mk (PInt first) (PInt last) (PInt count)).

Definition apply_point_batch (mutations : list PointMutation.t) : M Collection BatchWriteResult.t :=
  c ← get_state;
  lift (raise_if (ResourceLimits.max_batch_rows (limits c) <? Z.of_nat (length mutations))
          ValidationError "mutation batch resource limit exceeded");;
  raw ← _call "apply_point_batch" [PList (PointMutation.to_kernel <$> mutations)];
  raw ← lift (as_mapping raw);
  lift (keyword_write_result raw).

Definition get_point (id : pyval) : M Collection (option Point.t) :=
  raw ← _call "get_point" [id];
  match raw with
  | PNone => mret None
  | raw => d ← lift (subscriptable raw); p ← lift (Point.from_kernel d); mret (Some p)
  end.

(** The deadline of a query: [0] without a timeout. *)
Definition read_deadline (timeout_ns : option Z) : M Collection Z :=
  match timeout_ns with
  | None => mret 0
  | Some timeout_ns => now ← read_monotonic; mret (now + timeout_ns)
  end.

Definition _search_field_raw (name : string) (vector : vector_value) (k : Z)
    (filter : option dict) (mode : string) (ef_search : option Z) (rerank_k : Z)
    (columns : bool) (ivf : option IvfOptions.t) (cancellation : option bool)
    (timeout_ns : option Z) : M Collection pyval :=
  c ← get_state;
  lift (raise_if (negb ((0 <? k) && (k <=? ResourceLimits.max_k (limits c))))
          ValidationError "named search k exceeds resource limit");;
  lift (raise_if (negb (str_in mode ["exact"; "approx"; "ivf"]))
          ValidationError "named search mode must be exact, approx or ivf");;
  lift (raise_if (match ef_search with Some ef => ef <=? 0 | None => false end)
          ValidationError "ef_search must be a positive integer");;
  lift (raise_if ((rerank_k <? 0) || (negb (rerank_k =? 0) && (rerank_k <? k)))
          ValidationError "rerank_k must be zero or at least k");;
  lift (raise_if (negb (bool_decide (mode = "approx")) &&
                  (match ef_search with Some _ => true | None => false end ||
                   negb (rerank_k =? 0)))
          ValidationError "ef_search and rerank_k require approximate field search");;
  lift (raise_if (match ivf with Some _ => negb (bool_decide (mode = "ivf")) | None => false end)
          ValidationError "IvfOptions require ivf mode");;
  lift (raise_if (match timeout_ns with Some t => t <=? 0 | None => false end)
          ValidationError "query timeout must be a positive integer");;
  deadline ← read_deadline timeout_ns;
  _call (if columns then "search_field_columns" else "search_field")
    [PStr name; _vector_value vector; PInt k;
     PDict [("filter", opt_filter filter); ("mode", PStr mode);
            ("ef_search", PInt (default (-1) ef_search)); ("rerank_k", PInt rerank_k);
            ("ivf", if bool_decide (mode = "ivf")
                    then IvfOptions.to_kernel (default IvfOptions.defaults ivf) else PNone);
            ("cancelled", PBool (cancelled cancellation)); ("deadline_ns", PInt deadline);
            ("max_candidates", PInt (ResourceLimits.max_candidates (limits c)))]].

(** [SearchResult( **item)], the fields as they are *)
Definition keyword_result (item : pyval) : res (pyval * pyval) :=
  match item with
  | PDict d =>
      check_keywords d ["id"; "score"];;
      id ← required d "id";
      score ← required d "score";
      Ok (id, score)
  | _ => raise TypeError "argument after ** must be a mapping"
  end.

Definition search_field (name : string) (vector : vector_value) (k : Z)
    (filter : option dict) (mode : string) (ef_search : option Z) (rerank_k : Z)
    (ivf : option IvfOptions.t) (cancellation : option bool) (timeout_ns : option Z)
    : M Collection (list (pyval * pyval)) :=
  raw ← _search_field_raw name vector k filter mode ef_search rerank_k false ivf cancellation
          timeout_ns;
  items ← lift (Point.iterable raw);
  lift (map_res keyword_result items).

Definition _search_fields_raw (queries : list FieldQuery.t) (k fetch_k rank_constant : Z)
    (filter : option dict) (rerank : option FieldQuery.t) (cancellation : option bool)
    (timeout_ns : option Z) (columns : bool) : M Collection pyval :=
  c ← get_state;
  lift (raise_if (negb ((0 <? k) && (k <=? ResourceLimits.max_k (limits c))))
          ValidationError "named fusion k exceeds resource limit");;
  lift (raise_if (negb ((k <=? fetch_k) && (fetch_k <=? ResourceLimits.max_k (limits c))))
          ValidationError "fetch_k must be at least k and fit the resource limit");;
  lift (raise_if (rank_constant <=? 0)
          ValidationError "RRF rank constant must be a positive integer");;
  let n := Z.of_nat (length queries) in
  lift (raise_if (negb ((0 <? n) && (n <=? ResourceLimits.max_query_batch (limits c))))
          ValidationError "field fusion branch count exceeds resource limit");;
  lift (raise_if (match rerank with
                  | Some q => negb (bool_decide (FieldQuery.mode q = "exact"))
                  | None => false
                  end) ValidationError "final field reranking requires an exact FieldQuery");;
  lift (raise_if (match timeout_ns with Some t => t <=? 0 | None => false end)
          ValidationError "query timeout must be a positive integer");;
  deadline ← read_deadline timeout_ns;
  _call (if columns then "search_fields_columns" else "search_fields")
    [PList (FieldQuery.to_kernel <$> queries);
     PDict [("k", PInt k); ("fetch_k", PInt fetch_k); ("rank_constant", PInt rank_constant);
            ("rerank", match rerank with None => PNone | Some q => FieldQuery.to_kernel q end);
            ("filter", opt_filter filter);
            ("cancelled", PBool (cancelled cancellation)); ("deadline_ns", PInt deadline);
            ("max_candidates", PInt (ResourceLimits.max_candidates (limits c)))]].

Definition search_fields (queries : list FieldQuery.t) (k fetch_k rank_constant : Z)
    (filter : option dict) (rerank : option FieldQuery.t) (cancellation : option bool)
    (timeout_ns : option Z) : M Collection (list (pyval * pyval)) :=
  raw ← _search_fields_raw queries k fetch_k rank_constant filter rerank cancellation timeout_ns
          false;
  items ← lift (Point.iterable raw);
  lift (map_res keyword_result items).

Definition upsert_sparse (id : pyval) (elements : list SparseElement.t) : M Collection unit :=
  _call "upsert_sparse" [id; PList (SparseElement.to_kernel <$> elements)];; mret tt.

Definition apply_batch (mutations : list BatchMutation.t) : M Collection BatchWriteResult.t :=
  c ← get_state;
  lift (raise_if (ResourceLimits.max_batch_rows (limits c) <? Z.of_nat (length mutations))
          ValidationError "mutation batch resource limit exceeded");;
  raw ← _call "apply_batch" [PList (BatchMutation.to_kernel <$> mutations)];
  raw ← lift (subscriptable raw);
  lift (int_write_result raw).

Definition delete (id : pyval) : M Collection unit := _call "delete" [id];; mret tt.

Definition flush : M Collection unit := _call "flush" [];; mret tt.

Definition backup (target : string) : M Collection dict :=
  v ← _call "backup_to" [PStr target]; lift (as_mapping v).

Definition _export_records : M Collection (list pyval) :=
  v ← _call "export_records" []; lift (Point.iterable v).

Definition _export_points : M Collection (option dict) :=
  v ← _call "export_points" [];
  match v with
  | PNone => mret None
  | v => d ← lift (as_mapping v); mret (Some d)
  end.

Definition _is_point_collection : M Collection bool :=
  v ← _call "is_point_collection" []; mret (truthy v).

Definition document_of (raw : dict) : res Document.t :=
  id ← dict_item raw "id"; id ← py_int id;
  sequence ← dict_item raw "sequence"; sequence ← py_int sequence;
  vector ← dict_item raw "vector"; vector ← Point.iterable vector;
  vector ← map_res py_float vector;
  fields ← dict_item raw "fields"; fields ← Point.iterable fields;
  fields ← map_res PayloadField.of_item fields;
  Ok (Document.Mk id sequence vector fields).

Definition get (id : pyval) (projection : option Projection.t) : M Collection (option Document.t) :=
  raw ← match projection with
        | None => _call "get" [id]
        | Some p => p ← lift (Projection.to_kernel p); _call "get_projected" [id; p]
        end;
  match raw with
  | PNone => mret None
  | raw => d ← lift (subscriptable raw); doc ← lift (document_of d); mret (Some doc)
  end.

(** [{"dot": "search_dot", ...}[metric]] *)
Definition exact_method (metric : pyval) : res string :=
  match metric with
  | PStr "dot" => Ok "search_dot"
  | PStr "l2" => Ok "search_l2"
  | PStr "cosine" => Ok "search_cosine"
  | metric => if hashable metric then raise KeyError "unknown metric"
              else raise TypeError "unhashable type"
  end.

Definition _search_raw (request : SearchRequest.t) (columns : bool) : M Collection pyval :=
  let suffix := if columns then "_columns" else "" in
  c ← get_state;
  lift (raise_if (ResourceLimits.max_k (limits c) <? SearchRequest.k request)
          ValidationError "query k resource limit exceeded");;
  let vector := SearchRequest.vector request in
  let sparse := PList (SparseElement.to_kernel <$> SearchRequest.sparse request) in
  let metric := SearchRequest.metric request in
  let filter := SearchRequest.filter request in
  let k := PInt (SearchRequest.k request) in
  let fetch_k := PInt (SearchRequest.fetch_k request) in
  let rank_constant := PInt (SearchRequest.rank_constant request) in
  let ef_search := PInt (SearchRequest.ef_search request) in
  let mode name := py_eq (SearchRequest.mode request) (PStr name) in
  if negb (is_none filter) && mode "sparse" then
    _call ("search_sparse_where" +:+ suffix) [sparse; PDict [("k", k); ("filter", filter)]]
  else if negb (is_none filter) && mode "hybrid" then
    lift (raise_if (is_none vector) ValidationError "hybrid search requires a dense vector");;
    _call ("search_hybrid_where" +:+ suffix)
      [metric; vector; sparse;
       PDict [("k", k); ("fetch_k", fetch_k); ("rank_constant", rank_constant);
              ("filter", filter)]]
  else if negb (is_none filter) then
    lift (raise_if (is_none vector) ValidationError "dense search requires a vector");;
    _call ("search_dense_where" +:+ suffix)
      [metric; vector;
       PDict [("k", k); ("approximate", PBool (mode "approx")); ("ef_search", ef_search);
              ("filter", filter)]]
  else if mode "sparse" then _call ("search_sparse" +:+ suffix) [sparse; k]
  else if mode "hybrid" then
    lift (raise_if (is_none vector) ValidationError "hybrid search requires a dense vector");;
    _call ("search_hybrid" +:+ suffix)
      [metric; vector; sparse;
       PDict [("k", k); ("fetch_k", fetch_k); ("rank_constant", rank_constant)]]
  else if mode "approx" then
    lift (raise_if (is_none vector) ValidationError "approximate search requires a dense vector");;
    _call ("search_approx" +:+ suffix) [metric; vector; k; ef_search]
  else
    lift (raise_if (is_none vector) ValidationError "exact search requires a dense vector");;
    method ← lift (exact_method metric);
    _call (method +:+ suffix) [vector; k].

Definition search (request : SearchRequest.t) : M Collection (list SearchResult.t) :=
  raw ← _search_raw request false;
  items ← lift (Point.iterable raw);
  lift (map_res SearchResult.of_item items).

Definition search_batch (metric : pyval) (vectors : list pyval) (k num_workers : Z)
    (filters : option (list pyval)) : M Collection (list (list SearchResult.t)) :=
  c ← get_state;
  lift (raise_if (ResourceLimits.max_query_batch (limits c) <? Z.of_nat (length vectors))
          ValidationError "query batch resource limit exceeded");;
  lift (raise_if (ResourceLimits.max_k (limits c) <? k)
          ValidationError "query k resource limit exceeded");;
  raw ← match filters with
        | None => _call "search_batch" [metric; PList vectors; PInt k; PInt num_workers]
        | Some filters =>
            _call "search_batch_where"
              [metric; PList vectors; PList filters; PInt k; PInt num_workers]
        end;
  raw ← lift (Point.iterable raw);
  lift (map_res (fun query_results =>
    items ← Point.iterable query_results; map_res SearchResult.of_item items) raw).

Definition search_controlled (metric : pyval) (vector : pyval) (k : Z)
    (cancellation : option bool) (timeout_ns : option Z) : M Collection (list SearchResult.t) :=
  c ← get_state;
  lift (raise_if (ResourceLimits.max_k (limits c) <? k)
          ValidationError "query k resource limit exceeded");;
  lift (raise_if (match timeout_ns with Some t => t <=? 0 | None => false end)
          ValidationError "query timeout must be positive");;
  deadline ← read_deadline timeout_ns;
  raw ← _call "search_controlled"
          [metric; vector; PInt k;
           PDict [("cancelled", PBool (cancelled cancellation)); ("deadline_ns", PInt deadline);
                  ("max_candidates", PInt (ResourceLimits.max_candidates (limits c)))]];
  items ← lift (Point.iterable raw);
  lift (map_res SearchResult.of_item items).

(** * The registry *)

(** Open collections by name, and what the directories of the others hold. *)
Record LocalDatabase : Type := MkDatabase {
  _collections : list (string * Collection);
  directories : list (string * K) }.

Definition safe_name (name : string) : bool :=
  negb (bool_decide (name = "") || contains "/" name || contains "\" name ||
        str_in name ["."; ".."]).

(** Run a method of the open collection [name]. *)
Definition with_collection {A} (name : string) (m : M Collection A) (fallback : res A)
    : M LocalDatabase A := fun db =>
  match assoc_get (_collections db) name with
  | None => (fallback, db)
  | Some c =>
      let '(r, c') := m c in
      (r, MkDatabase (assoc_set (_collections db) name c') (directories db))
  end.

Definition not_open {A} (name : string) : res A :=
  raise CollectionNotFoundError ("collection is not open: " +:+ name).

(** [collection.vector_fields() != vectors], of dictionaries *)
Definition fields_eqb (a b : list (string * VectorField.t)) : bool :=
  (length a =? length b)%nat &&
  forallb (fun '(name, f) =>
    match assoc_get b name with Some g => VectorField.eqb f g | None => false end) a.

Definition db_open (name : string) (dim : Z) (config : CollectionConfig.option_value)
    (vectors : option (list (string * VectorField.t))) : M LocalDatabase unit :=
  lift (raise_if (negb (safe_name name))
          ValidationError "collection name must be one safe path component");;
  db ← get_state;
  match assoc_get (_collections db) name with
  | Some collection =>
      lift (raise_if (negb (dimension collection =? dim))
              ValidationError "open collection dimension mismatch");;
      requested ← lift (try_except (CollectionConfig.from_options dim config)
        [TypeError; ValueError] (fun error => raise ValidationError (exn_message error)));
      current ← with_collection name collection_config (not_open name);
      lift (raise_if (negb (CollectionConfig.eqb current requested))
              ValidationError "open collection configuration mismatch");;
      match vectors with
      | None => mret tt
      | Some vectors =>
          fields ← with_collection name vector_fields (not_open name);
          lift (raise_if (negb (fields_eqb fields vectors))
                  ValidationError "open collection vector schema mismatch")
      end
  | None =>
      collection ← lift (open_collection (assoc_get (directories db) name) dim config vectors None None);
      modify (fun db => MkDatabase (assoc_set (_collections db) name collection) (directories db))
  end.

(** [collection(name)] *)
Definition db_collection (name : string) : M LocalDatabase Collection :=
  db ← get_state;
  match assoc_get (_collections db) name with
  | Some c => mret c
  | None => lift (not_open name)
  end.

Definition db_close (name : string) : M LocalDatabase unit :=
  db_collection name;;
  with_collection name close (not_open name);;
  modify (fun db =>
    match assoc_get (_collections db) name with
    | Some c => MkDatabase (assoc_delete (_collections db) name)
                  (assoc_set (directories db) name (_kernel c))
    | None => db
    end).

Definition db_close_all : M LocalDatabase unit :=
  db ← get_state;
  for_each_M db_close (_collections db).*1.

Definition db_metrics (db : LocalDatabase) : Z * list (string * MetricsSnapshot.t) :=
  (Z.of_nat (length (_collections db)),
   (fun '(name, c) => (name, metrics c)) <$> _collections db).
End Collection.
