(* ===== verification/Arrow.v ===== *)
(** [python/akashadb/arrow.py]: leases of imported record batches, the check of
    a batch before ingestion, searches into record batches, and the scanner. *)

From S2P Require Import Prelude PyFloat PyValue Json Envelope Models KernelConfig KernelInterface Vectors Database ArrowInterface.

(** * Leases *)

Section Lease.
Context `{PyArrow}.

Record ArrowBatchLease : Type := MkLease { _batch : option object; _released : bool }.

Definition from_producer (producer : object) : res ArrowBatchLease :=
  raise_if (negb (has_c_array producer))
    TypeError "producer does not implement Arrow C Data protocol";;
  capsules ← c_array producer;
  batch ← import_from_c_capsule capsules;
  Ok (MkLease (Some batch) false).

Definition lease_batch (l : ArrowBatchLease) : res object :=
  match _released l, _batch l with
  | false, Some batch => Ok batch
  | _, _ => raise RuntimeError "Arrow batch lease has been released"
  end.

Definition release : M ArrowBatchLease unit :=
  l ← get_state;
  lift (raise_if (_released l) RuntimeError "Arrow batch lease must be released exactly once");;
  put_state (MkLease None true).

Definition lease_enter : M ArrowBatchLease unit :=
  l ← get_state; lift (lease_batch l);; mret tt.
Definition lease_exit : M ArrowBatchLease unit := release.
End Lease.
Arguments ArrowBatchLease {_ _}.

(** * The descriptor of a batch *)

Section Data.
Context `{PyArrow}.

Record payload_column : Type := PayloadColumn {
  payload_name : string; payload_kind : string; payload_values : array }.

Record descriptor : Type := Descriptor {
  row_count : Z;
  ids : ndarray Z;
  vectors : ndarray float;
  has_sparse : bool;
  sparse_offsets : ndarray Z;
  sparse_terms : ndarray Z;
  sparse_weights : ndarray float;
  payloads : list payload_column;
  owners : batch }.
End Data.
Arguments payload_column {_ _}.
Arguments descriptor {_ _}.

(** The type [d] is that of the array, which the callers have tested. *)
Definition _primitive_view `{PyArrow} (d : dtype) (a : array) (start count : Z)
    : res (ndarray (element d)) :=
  raise_if ((start <? 0) || (count <? 0) || (array_len a <? start + count))
    ValueError "Arrow primitive buffer bounds are invalid";;
  to_numpy d (array_slice a start count).

Section Descriptor.
Context `{PyArrow}.
(** [repr] of a value *)
Variable repr : pyval -> string.

Definition type_names : list (simple_type * string) :=
  [(pa_string, "string"); (pa_int64, "int"); (pa_float64, "float"); (pa_bool, "bool")].

(** The test of the sparse values, on whole arrays. *)
Definition check_sparse (offsets terms : ndarray Z) (weights : ndarray float) : res unit :=
  first ← np_item 0 offsets;
  last ← np_item (-1) offsets;
  empty_rows ← np_less_equal (np_slice (Some 1) None offsets) (np_slice None (Some (-1)) offsets);
  raise_if (negb (np_len terms =? np_len weights) || (first <? 0) || (np_len terms <? last) ||
            np_any empty_rows)
    ValueError "sparse offsets must identify non-empty bounded rows";;
  let active_terms := np_slice (Some first) (Some last) terms in
  let active_weights := np_slice (Some first) (Some last) weights in
  invalid_order ← np_less_equal (np_slice (Some 1) None active_terms)
                    (np_slice None (Some (-1)) active_terms);
  invalid_order ← np_assign invalid_order
    (np_subtract_scalar (np_subtract_scalar (np_slice (Some 1) (Some (-1)) offsets) first) 1) false;
  raise_if (np_any (np_less_scalar active_terms 0) || np_any invalid_order)
    ValueError "sparse term IDs must be non-negative and ascending";;
  raise_if (negb (np_all (np_isfinite active_weights)) ||
            np_any (np_equal_scalar active_weights fzero))
    ValueError "sparse weights must be finite and non-zero".

(** The sparse columns of a batch: offsets, identifiers and weights. *)
Definition sparse_columns (b : batch) : res (ndarray Z * ndarray Z * ndarray float) :=
  terms ← column b "sparse_term_ids";
  weights ← column b "sparse_weights";
  raise_if (negb (pa_type_eqb terms (pa_list (pa pa_int64))) ||
            negb (pa_type_eqb weights (pa_list (pa pa_float32))))
    ValueError "sparse columns must be list<int64> and list<float32>";;
  raise_if (negb (null_count terms =? 0) || negb (null_count weights =? 0) ||
            negb (null_count (array_values terms) =? 0) ||
            negb (null_count (array_values weights) =? 0))
    ValueError "sparse columns cannot contain nulls";;
  let term_offsets := array_offsets terms in
  let weight_offsets := array_offsets weights in
  raise_if (negb (array_equals term_offsets weight_offsets))
    ValueError "sparse term and weight offsets must match";;
  offsets ← _primitive_view int32 term_offsets 0 (num_rows b + 1);
  sparse_terms ← _primitive_view int64 (array_values terms) 0 (array_len (array_values terms));
  sparse_weights ← _primitive_view float32 (array_values weights) 0
                     (array_len (array_values weights));
  check_sparse offsets sparse_terms sparse_weights;;
  Ok (offsets, sparse_terms, sparse_weights).

(** [name.startswith(prefix)] and [name.removeprefix(prefix)] of such a name *)
Definition removeprefix (prefix name : string) : string :=
  String.substring (String.length prefix) (String.length name - String.length prefix) name.

Definition is_payload (name : string) : bool := String.prefix "payload." name.

Definition payload_of (b : batch) (name : string) : res payload_column :=
  let field_name := removeprefix "payload." name in
  raise_if (bool_decide (field_name = "") || contains nul field_name)
    ValueError "payload field name is invalid";;
  array ← column b name;
  match type_item type_names (array_type array) with
  | None => raise ValueError ("unsupported payload Arrow type for " +:+ name +:+ ": " +:+
                             type_text (array_type array))
  | Some kind => Ok (PayloadColumn field_name kind array)
  end.

Definition known_columns : list string := ["id"; "vector"; "sparse_term_ids"; "sparse_weights"].

(** The columns a batch of points has, before their values are looked at. *)
Definition check_names (names : list string) : res unit :=
  raise_if (negb (bool_decide (NoDup names))) ValueError "Arrow column names must be unique";;
  raise_if (negb (str_in "id" names) || negb (str_in "vector" names))
    ValueError "Arrow batch requires id and vector columns";;
  let unknown := List.filter (fun name => negb (str_in name known_columns) && negb (is_payload name))
                   names in
  raise_if (negb (bool_decide (unknown = [])))
    ValueError ("unknown Arrow columns: " +:+ repr (PList (PStr <$> unknown))).

Definition _validated_descriptor (dimension : Z) (o : object) : res descriptor :=
  b ← match as_record_batch o with
      | Some b => Ok b
      | None => raise TypeError "Arrow producer must yield one RecordBatch"
      end;
  validate b;;
  raise_if (num_rows b <=? 0) ValueError "Arrow record batch cannot be empty";;
  let names := column_names b in
  check_names names;;
  ids ← column b "id";
  vectors ← column b "vector";
  raise_if (negb (pa_type_eqb ids (pa pa_int64)) || negb (null_count ids =? 0))
    ValueError "id must be non-null int64";;
  raise_if (negb (pa_type_eqb vectors (pa_list_size (pa pa_float32) dimension)) ||
            negb (null_count vectors =? 0) || negb (null_count (array_values vectors) =? 0))
    ValueError "vector must be non-null fixed-size float32 list matching collection dimension";;
  id_view ← _primitive_view int64 ids 0 (num_rows b);
  vector_view ← _primitive_view float32 (array_values vectors) (array_offset vectors * dimension)
                  (num_rows b * dimension);
  let has_terms := str_in "sparse_term_ids" names in
  let has_weights := str_in "sparse_weights" names in
  raise_if (negb (Bool.eqb has_terms has_weights))
    ValueError "sparse term and weight columns must appear together";;
  '(offsets, terms, weights) ←
    (if has_terms then sparse_columns b
     else Ok (np_empty int32, np_empty int64, np_empty float32));
  payloads ← map_res (payload_of b) (List.filter is_payload names);
  Ok (Descriptor (num_rows b) id_view vector_view has_terms offsets terms weights payloads b).
End Descriptor.
