(* ===== verification/ArrowPoints.v ===== *)
(** [python/akashadb/arrow_points.py]: the descriptor of a batch of points with
    named vectors, as views of the buffers of the batch. *)

From S2P Require Import Prelude Assoc PyFloat PyValue Json Envelope Models KernelConfig KernelInterface Vectors Database ArrowInterface Arrow.

Section Data.
Context `{PyArrow}.

(** A borrowed array with its element type. *)
Record view : Type := View { view_dtype : dtype; view_values : ndarray (element view_dtype) }.

(** The entries [validity] and [validity_offset]. *)
Record validity : Type := Validity { validity_bits : ndarray Z; validity_offset : Z }.

Record primitive : Type := Primitive { values : view; primitive_validity : validity }.

(** The entries of a descriptor that depend on the kind of the field. *)
Inductive vector_body : Type :=
| BinaryBody (packed : ndarray Z)
| SparseBody (offsets : view) (elements : validity) (terms weights : primitive)
| DenseBody (components : primitive)
| MultiBody (offsets : view) (elements : validity) (components : primitive).

Record vector_descriptor : Type := VectorDescriptor {
  vector_validity : validity; vector_rows : Z; vector_parts : vector_body }.

(** Which field a column updates: [{"id": 0}], [{"id": 1}] or [{"name": key}]. *)
Inductive identity : Type :=
| FieldId (id : Z)
| FieldName (name : string).

Record point_batch : Type := PointBatch {
  point_rows : Z;
  point_ids : view;
  updates : list (identity * vector_descriptor);
  point_payloads : list payload_column;
  point_owners : batch }.
End Data.
Arguments view {_}.
Arguments validity {_}.
Arguments primitive {_}.
Arguments vector_body {_}.
Arguments vector_descriptor {_}.
Arguments point_batch {_ _}.

#[export] Instance identity_eq_dec : EqDecision identity.
Proof. solve_decision. Defined.

Section Points.
Context `{PyArrow}.

Definition _validity (a : array) : res validity :=
  bits ← match array_buffer a 0 with
         | None => Ok (np_empty uint8)
         | Some buffer => frombuffer uint8 buffer (-1) 0
         end;
  Ok (Validity bits (array_offset a)).

Definition primitive_types : list (simple_type * dtype) :=
  [(pa_int8, int8); (pa_uint8, uint8); (pa_uint16, uint16); (pa_int32, int32);
   (pa_int64, int64); (pa_float16, float16); (pa_float32, float32)].

Definition _primitive (a : array) : res primitive :=
  match type_item primitive_types (array_type a) with
  | None => raise KeyError (type_text (array_type a))
  | Some d =>
      v ← match array_buffer a 1 with
          | None => Ok (np_empty d)
          | Some buffer => frombuffer d buffer (array_len a) (array_offset a * itemsize d)
          end;
      bits ← _validity a;
      Ok (Primitive (View d v) bits)
  end.

Definition scalar_types : list (string * simple_type) :=
  [("f32", pa_float32); ("f16", pa_float16); ("bf16", pa_uint16); ("i8", pa_int8);
   ("u8", pa_uint8)].

Definition binary_parts (a : array) (spec : VectorField.t) : res vector_body :=
  let width := (VectorField.dimension spec + 7) / 8 in
  raise_if (negb (pa_type_eqb a (pa_binary width)))
    ValueError "binary field requires fixed-size bytes matching its bit dimension";;
  match array_buffer a 1 with
  | None => raise TypeError "a bytes-like object is required"
  | Some buffer =>
      packed ← frombuffer uint8 buffer (array_len a * width) (array_offset a * width);
      Ok (BinaryBody packed)
  end.

Definition sparse_parts (a : array) : res vector_body :=
  raise_if (negb (is_list (array_type a)) || negb (is_struct (value_type (array_type a))))
    ValueError "sparse field requires list<struct<term_id: int64, weight: float32>>";;
  let inner := array_values a in
  match struct_fields (array_type inner) with
  | [("term_id", t); ("weight", w)] =>
      raise_if (negb (type_eqb t (pa pa_int64)) || negb (type_eqb w (pa pa_float32)))
        ValueError "sparse element types must be int64 term_id and float32 weight"
  | _ => raise ValueError "sparse element types must be int64 term_id and float32 weight"
  end;;
  offsets ← _primitive (array_offsets a);
  elements ← _validity inner;
  terms ← _primitive (array_field inner 0);
  weights ← _primitive (array_field inner 1);
  Ok (SparseBody (values offsets) elements terms weights).

(** The components of the fixed-size lists [inner]: the window of their child. *)
Definition components (inner : array) (dimension : Z) : res primitive :=
  _primitive (array_slice (array_values inner) (array_offset inner * dimension)
                (array_len inner * dimension)).

Definition numeric_parts (a : array) (spec : VectorField.t) (metadata : list (string * string))
    : res vector_body :=
  let dimension := VectorField.dimension spec in
  let multi := bool_decide (VectorField.kind spec = "multivector") in
  scalar ← match assoc_get scalar_types (VectorField.dtype spec) with
           | Some t => Ok t
           | None => raise KeyError (VectorField.dtype spec)
           end;
  raise_if (bool_decide (VectorField.dtype spec = "bf16") &&
            negb (bool_decide (assoc_get metadata "akashadb.dtype" = Some "bf16")))
    ValueError "BF16 Arrow fields require akashadb.dtype=bf16 metadata for UInt16 bits";;
  let vector_type := pa_list_size (pa scalar) dimension in
  let expected := if multi then pa_list vector_type else vector_type in
  raise_if (negb (pa_type_eqb a expected))
    ValueError ("vector Arrow type must match " +:+ type_text expected);;
  if multi then
    let inner := array_values a in
    offsets ← _primitive (array_offsets a);
    elements ← _validity inner;
    c ← components inner dimension;
    Ok (MultiBody (values offsets) elements c)
  else
    c ← components a dimension;
    Ok (DenseBody c).

Definition _vector_descriptor (a : array) (spec : VectorField.t)
    (metadata : list (string * string)) : res vector_descriptor :=
  bits ← _validity a;
  parts ← (if bool_decide (VectorField.kind spec = "binary") then binary_parts a spec
           else if bool_decide (VectorField.kind spec = "sparse") then sparse_parts a
           else numeric_parts a spec metadata);
  Ok (VectorDescriptor bits (array_len a) parts).

(** The field a column names, with its schema. *)
Definition column_field (dimension : Z) (schema : list (string * VectorField.t)) (name : string)
    : res (identity * VectorField.t) :=
  let unknown := raise ValueError ("unknown point Arrow column: " +:+ name) in
  if bool_decide (name = "vector") then
    spec ← VectorField.init (PInt dimension) (PStr "f32") (PStr "dense") (PStr "l2") None;
    Ok (FieldId 0, spec)
  else if bool_decide (name = "sparse") then
    spec ← VectorField.init (PInt 0) (PStr "f32") (PStr "sparse") (PStr "dot") None;
    Ok (FieldId 1, spec)
  else if String.prefix "vectors." name then
    let key := removeprefix "vectors." name in
    match assoc_get schema key with
    | Some spec => Ok (FieldName key, spec)
    | None => unknown
    end
  else unknown.

Definition point_payload (name : string) (a : array) : res payload_column :=
  let key := removeprefix "payload." name in
  match type_item type_names (array_type a) with
  | Some kind =>
      raise_if (bool_decide (key = "") || contains nul key)
        ValueError "invalid Arrow payload name or type";;
      Ok (PayloadColumn key kind a)
  | None => raise ValueError "invalid Arrow payload name or type"
  end.

(** One column other than [id]. *)
Definition point_column (b : batch) (dimension : Z) (schema : list (string * VectorField.t))
    (acc : list (identity * vector_descriptor) * list payload_column) (name : string)
    : res (list (identity * vector_descriptor) * list payload_column) :=
  a ← column b name;
  if is_payload name then
    p ← point_payload name a;
    Ok (acc.1, acc.2 ++ [p])
  else
    '(field, spec) ← column_field dimension schema name;
    u ← _vector_descriptor a spec (field_metadata b name);
    Ok (acc.1 ++ [(field, u)], acc.2).

Definition other_columns (names : list string) : list string :=
  List.filter (fun name => negb (bool_decide (name = "id"))) names.

Context {K : Type} `{!Kernel K}.
Variable perf_counter_ns : nat -> Z.

Definition point_descriptor (o : object) : M (@Collection K) point_batch :=
  b ← lift (match as_record_batch o with
            | Some b => Ok b
            | None => raise TypeError "Arrow producer must yield one RecordBatch"
            end);
  lift (validate b);;
  c ← get_state;
  lift (raise_if (negb ((0 <? num_rows b) &&
                        (num_rows b <=? Z.min (ResourceLimits.max_batch_rows (limits c)) 65536)))
          ValueError "point Arrow batch row count exceeds resource limit");;
  let names := column_names b in
  lift (raise_if (negb (bool_decide (NoDup names)) || negb (str_in "id" names))
          ValueError "point Arrow batch requires unique column names and id");;
  ids ← lift (column b "id");
  lift (raise_if (negb (pa_type_eqb ids (pa pa_int64)) || negb (null_count ids =? 0))
          ValueError "id must be non-null int64");;
  schema ← vector_fields perf_counter_ns;
  '(updates, payloads) ←
    lift (for_fold (point_column b (dimension c) schema) ([], []) (other_columns names));
  ids ← lift (_primitive ids);
  mret (PointBatch (num_rows b) (values ids) updates payloads b).
End Points.
