(* ===== verification/ArrowStreams.v ===== *)
(** [python/akashadb/arrow.py], over a collection: ingestion of record batches,
    searches into record batches, the scanner, and the copying helpers. *)

From S2P Require Import Prelude Assoc PyFloat PyValue Json Envelope Models KernelConfig KernelInterface Vectors Database ArrowInterface Arrow ArrowPoints.

Section Data.
Context `{PyArrow}.

(** What a native scanner gives for a batch. *)
Record scan_result : Type := ScanResult {
  result_batch : option batch;
  visited_slots : Z;
  materialized_bytes : Z;
  borrowed_bytes : Z }.

(** An argument [producer]: one of the caller's leases, or another object. *)
Inductive producer : Type :=
| Lease (i : nat)
| Producer (o : object).
End Data.
Arguments scan_result {_ _}.
Arguments producer {_ _}.

(** The methods of the compiled module that take or give buffers: those of a
    collection, and those of its scanners. *)
Class ArrowKernel (K : Type) `{PyArrow, !Kernel K} := {
  apply_arrow_batch : descriptor -> K -> res pyval * K;
  apply_point_arrow_batch : point_batch -> K -> res pyval * K;
  native : Type;
  schema_value : Type;
  scanner : pyval -> K -> res native * K;
  native_schema : native -> res schema_value;
  next_batch : bool -> native -> res scan_result * native;
  native_close : native -> res unit * native }.

(** The errors of these methods are ordinary exceptions too. *)
Class OrdinaryArrowErrors (K : Type) `{ArrowKernel K} : Prop := {
  apply_arrow_errors d k e k' :
    apply_arrow_batch d k = (Raise e, k') -> issubclass (exn_type e) Exception = true;
  apply_point_arrow_errors d k e k' :
    apply_point_arrow_batch d k = (Raise e, k') -> issubclass (exn_type e) Exception = true;
  scanner_errors o k e k' :
    scanner o k = (Raise e, k') -> issubclass (exn_type e) Exception = true }.

(** * Ingestion *)

Section Ingestion.
Context {K : Type} `{PyArrow, !Kernel K, !ArrowKernel K}.
Variable perf_counter_ns : nat -> Z.
Variable repr : pyval -> string.

(** The collection and the leases there are. *)
Record session : Type := Session { collection : @Collection K; leases : list ArrowBatchLease }.

Definition on_collection {A} (m : M (@Collection K) A) : M session A := fun s =>
  let '(r, c) := m (collection s) in (r, Session c (leases s)).

(** A method of the lease [i]. *)
Definition on_lease {A} (i : nat) (m : M ArrowBatchLease A) : M session A := fun s =>
  match leases s !! i with
  | Some l => let '(r, l) := m l in (r, Session (collection s) (<[i := l]> (leases s)))
  | None => (raise AttributeError "no such lease", s)
  end.

(** The lease of a call: the caller's, or a new one. *)
Definition the_lease (p : producer) : M session nat :=
  match p with
  | Lease i => mret i
  | Producer o =>
      l ← lift (from_producer o);
      s ← get_state;
      put_state (Session (collection s) (leases s ++ [l]));;
      mret (length (leases s))
  end.

Definition owns_lease (p : producer) : bool :=
  match p with Lease _ => false | Producer _ => true end.

(** [lease = ...; try: m(lease.batch)  finally: if owns_lease: lease.release()] *)
Definition with_lease {A} (p : producer) (m : object -> M (@Collection K) A) : M session A :=
  i ← the_lease p;
  try_finally
    (o ← on_lease i (l ← get_state; lift (lease_batch l)); on_collection (m o))
    (if owns_lease p then on_lease i release else mret tt).

Definition ingest (o : object) : M (@Collection K) Z :=
  c ← get_state;
  d ← lift (_validated_descriptor repr (dimension c) o);
  v ← _call_method perf_counter_ns "apply_arrow_batch" (apply_arrow_batch d);
  lift (py_int v).

Definition upsert_record_batch (p : producer) : M session Z := with_lease p ingest.

Definition ingest_points (o : object) : M (@Collection K) BatchWriteResult.t :=
  d ← point_descriptor perf_counter_ns o;
  v ← _call_method perf_counter_ns "apply_point_arrow_batch" (apply_point_arrow_batch d);
  raw ← lift (as_mapping v);
  lift (keyword_write_result raw).

Definition upsert_point_record_batch (p : producer) : M session BatchWriteResult.t :=
  with_lease p ingest_points.
End Ingestion.
Arguments session K {_ _}.

(** * Searches into record batches *)

Section Searches.
Context {K : Type} `{PyArrow, !Kernel K}.
Variables perf_counter_ns monotonic_ns : nat -> Z.

(** [pa.record_batch([pa.array(columns["ids"]), pa.array(columns["scores"])], names)] *)
Definition hits_batch (columns : pyval) (score : simple_type) : res batch :=
  columns ← subscriptable columns;
  ids ← dict_item columns "ids"; ids ← pa_array ids pa_int64;
  scores ← dict_item columns "scores"; scores ← pa_array scores score;
  record_batch [ids; scores] ["id"; "score"].

Definition search_record_batch (request : SearchRequest.t) : M (@Collection K) batch :=
  columns ← _search_raw perf_counter_ns request true;
  lift (hits_batch columns pa_float32).

Definition search_field_record_batch (name : string) (vector : vector_value) (k : Z)
    (filter : option dict) (mode : string) (ef_search : option Z) (rerank_k : Z)
    (ivf : option IvfOptions.t) (cancellation : option bool) (timeout_ns : option Z)
    : M (@Collection K) batch :=
  columns ← _search_field_raw perf_counter_ns monotonic_ns name vector k filter mode ef_search
              rerank_k true ivf cancellation timeout_ns;
  lift (hits_batch columns pa_float64).

Definition search_fields_record_batch (queries : list FieldQuery.t) (k fetch_k rank_constant : Z)
    (filter : option dict) (rerank : option FieldQuery.t) (cancellation : option bool)
    (timeout_ns : option Z) : M (@Collection K) batch :=
  columns ← _search_fields_raw perf_counter_ns monotonic_ns queries k fetch_k rank_constant filter
              rerank cancellation timeout_ns true;
  lift (hits_batch columns pa_float64).

Definition results_to_record_batch (results : list SearchResult.t) : res batch :=
  ids ← pa_array (PList ((fun r => PInt (SearchResult.id r)) <$> results)) pa_int64;
  scores ← pa_array (PList ((fun r => PFloat (SearchResult.score r)) <$> results)) pa_float32;
  record_batch [ids; scores] ["id"; "score"].

(** * The copying helpers *)

Definition results_to_columns (results : list SearchResult.t) : dict :=
  [("id", PList ((fun r => PInt (SearchResult.id r)) <$> results));
   ("score", PList ((fun r => PFloat (SearchResult.score r)) <$> results))].

(** A column: an object by the list its method [to_pylist] or [tolist] gives, or
    any other value. *)
Inductive column_value : Type :=
| ToPylist (l : list pyval)
| ToList (l : list pyval)
| Plain (v : pyval).

Definition _to_list (value : column_value) : res (list pyval) :=
  match value with
  | ToPylist l | ToList l => Ok l
  | Plain v => Point.iterable v
  end.

(** One row of the batch. *)
Definition upsert_row (row : pyval * pyval * pyval) : M (@Collection K) unit :=
  let '(id_value, vector_value, payload_value) := row in
  fields ← lift (match payload_value with
                 | PNone => Ok None
                 | payload_value =>
                     items ← Point.iterable payload_value;
                     l ← map_res (fun item => d ← as_mapping item; PayloadField.of_item (PDict d))
                           items;
                     Ok (Some l)
                 end);
  id ← lift (py_int id_value);
  vector ← lift (items ← Point.iterable vector_value; map_res py_float items);
  upsert perf_counter_ns (PInt id) (PList (PFloat <$> vector)) fields.

Definition column_rows (columns : list (string * column_value)) : res (list (pyval * pyval * pyval)) :=
  match assoc_get columns "id", assoc_get columns "vector" with
  | Some ids, Some vectors =>
      ids ← _to_list ids;
      vectors ← _to_list vectors;
      payloads ← _to_list (default (Plain (PList (replicate (length ids) PNone)))
                             (assoc_get columns "fields"));
      raise_if (negb (length ids =? length vectors)%nat || negb (length ids =? length payloads)%nat)
        ValueError "Arrow-compatible columns must have equal lengths";;
      Ok (zip (zip ids vectors) payloads)
  | _, _ => raise ValueError "column batch requires id and vector columns"
  end.

Definition upsert_columns (columns : list (string * column_value)) : M (@Collection K) Z :=
  rows ← lift (column_rows columns);
  for_each_M upsert_row rows;;
  mret (Z.of_nat (length rows)).
End Searches.

(** * The scanner *)

(** The counters of [stats]. *)
Record scan_stats : Type := ScanStats {
  rows : Z; batches : Z; stat_materialized_bytes : Z; stat_borrowed_bytes : Z;
  stat_visited_slots : Z }.

#[export] Instance scan_stats_eq_dec : EqDecision scan_stats.
Proof. solve_decision. Defined.

Section Scanner.
Context {K : Type} `{PyArrow, !Kernel K, !ArrowKernel K}.

Record ArrowScanner : Type := MkScanner {
  _native : native;
  _cancellation : bool;  (** a token was given *)
  schema : schema_value;
  closed : bool;
  _exhausted : bool;
  _stats : scan_stats }.

Definition scanner_init (n : native) (cancellation : bool) : res ArrowScanner :=
  schema ← native_schema n;
  Ok (MkScanner n cancellation schema false false (ScanStats 0 0 0 0 0)).

Definition set_native (n : native) (s : ArrowScanner) : ArrowScanner :=
  MkScanner n (_cancellation s) (schema s) (closed s) (_exhausted s) (_stats s).
Definition set_closed (s : ArrowScanner) : ArrowScanner :=
  MkScanner (_native s) (_cancellation s) (schema s) true (_exhausted s) (_stats s).
Definition set_exhausted (s : ArrowScanner) : ArrowScanner :=
  MkScanner (_native s) (_cancellation s) (schema s) (closed s) true (_stats s).
Definition set_stats (f : scan_stats -> scan_stats) (s : ArrowScanner) : ArrowScanner :=
  MkScanner (_native s) (_cancellation s) (schema s) (closed s) (_exhausted s) (f (_stats s)).

Definition on_native {A} (m : native -> res A * native) : M ArrowScanner A := fun s =>
  let '(r, n) := m (_native s) in (r, set_native n s).

Definition visited (result : scan_result) (t : scan_stats) : scan_stats :=
  ScanStats (rows t) (batches t) (stat_materialized_bytes t) (stat_borrowed_bytes t)
    (visited_slots result).
Definition returned (result : scan_result) (b : batch) (t : scan_stats) : scan_stats :=
  ScanStats (rows t + num_rows b) (batches t + 1)
    (stat_materialized_bytes t + materialized_bytes result)
    (stat_borrowed_bytes t + borrowed_bytes result) (stat_visited_slots t).

Definition scanner_close : M ArrowScanner unit :=
  s ← get_state;
  if negb (closed s) then on_native native_close;; modify set_closed else mret tt.

(** [__next__], when the event of the token is in the state [cancelled] *)
Definition scanner_next (cancelled : bool) : M ArrowScanner batch :=
  s ← get_state;
  lift (raise_if (closed s) RuntimeError "scanner is closed");;
  lift (raise_if (_exhausted s) StopIteration "");;
  result ← try_catch (on_native (next_batch (_cancellation s && cancelled))) [Exception]
             (fun error => scanner_close;; lift (Raise (map_kernel_error error)));
  modify (set_stats (visited result));;
  match result_batch result with
  | None =>
      modify set_exhausted;;
      on_native native_close;;
      lift (raise StopIteration "")
  | Some b =>
      modify (set_stats (returned result b));;
      mret b
  end.

Definition scanner_enter : M ArrowScanner unit :=
  s ← get_state; lift (raise_if (closed s) RuntimeError "scanner is closed").
Definition scanner_exit : M ArrowScanner unit := scanner_close.

(** ** Opening one *)

Variables perf_counter_ns : nat -> Z.
Variable repr : pyval -> string.

Definition max_int64 : Z := Z.shiftl 1 63 - 1.

(** [type(value) is not int or value <= 0 or value > (1 << 63) - 1] *)
Definition positive_int64 (name : string) (value : pyval) : res Z :=
  match value with
  | PInt z =>
      raise_if ((z <=? 0) || (max_int64 <? z))
        ValueError (name +:+ " must be a positive signed 64-bit integer");;
      Ok z
  | _ => raise ValueError (name +:+ " must be a positive signed 64-bit integer")
  end.

Definition nonnegative_int64 (value : pyval) : res Z :=
  match value with
  | PInt z =>
      raise_if (negb ((0 <=? z) && (z <=? max_int64)))
        ValueError "deadline_ns must be a nonnegative signed 64-bit integer";;
      Ok z
  | _ => raise ValueError "deadline_ns must be a nonnegative signed 64-bit integer"
  end.

Definition column_kinds : list (string * Z) :=
  [("id", 1); ("sequence", 2); ("vector", 3); ("sparse_term_ids", 4); ("sparse_weights", 5);
   ("document_sequence", 11)].
Definition payload_kinds : list (string * Z) :=
  [("string", 6); ("int", 7); ("float", 8); ("bool", 9)].

(** The descriptor of a scanned column. *)
Record column_spec : Type := ColumnSpec {
  spec_name : string; spec_kind : Z; spec_payload_name : string }.

Definition spec_dict (c : column_spec) : pyval :=
  PDict [("name", PStr (spec_name c)); ("kind", PInt (spec_kind c));
         ("payload_name", PStr (spec_payload_name c))].

Definition core_column (name : pyval) : res column_spec :=
  match name with
  | PStr s =>
      match assoc_get column_kinds s with
      | Some kind => Ok (ColumnSpec s kind "")
      | None => raise ValueError ("unknown scanner column: " +:+ repr name)
      end
  | _ => raise ValueError ("unknown scanner column: " +:+ repr name)
  end.

Definition vector_column (name : pyval) : res column_spec :=
  match name with
  | PStr s =>
      raise_if (bool_decide (s = "") || contains nul s)
        ValueError "vector names must be nonempty strings without NUL";;
      Ok (ColumnSpec ("vectors." +:+ s) 10 s)
  | _ => raise ValueError "vector names must be nonempty strings without NUL"
  end.

Definition payload_spec (item : string * pyval) : res column_spec :=
  let '(name, kind) := item in
  raise_if (bool_decide (name = "") || contains nul name)
    ValueError "payload names must be nonempty strings without NUL";;
  match kind with
  | PStr s =>
      match assoc_get payload_kinds s with
      | Some k => Ok (ColumnSpec ("payload." +:+ name) k name)
      | None => raise ValueError ("unsupported scanner payload type: " +:+ repr kind)
      end
  | _ => raise ValueError ("unsupported scanner payload type: " +:+ repr kind)
  end.

(** [isinstance(value, (str, bytes))] raises; the elements otherwise *)
Definition name_sequence (message : string) (value : pyval) : res (list pyval) :=
  raise_if (is_str value) TypeError message;;
  Point.iterable value.

Record scan_arguments : Type := ScanArguments {
  batch_size : pyval;
  columns : pyval;
  vector_names : pyval;
  payload_schema : option dict;
  scan_filter : option dict;
  cancellation : bool;  (** a token is given *)
  max_candidates_arg : pyval;
  deadline_ns : pyval;
  max_batch_bytes : pyval }.

(** The checks, up to the dictionary of options. *)
Definition scan_options (default_candidates : Z) (a : scan_arguments) : res pyval :=
  let max_candidates := match max_candidates_arg a with
                        | PNone => PInt default_candidates
                        | v => v
                        end in
  size ← positive_int64 "batch_size" (batch_size a);
  candidates ← positive_int64 "max_candidates" max_candidates;
  bytes ← positive_int64 "max_batch_bytes" (max_batch_bytes a);
  raise_if (bytes / 8 <? size) ValueError "batch_size selection exceeds max_batch_bytes";;
  deadline ← nonnegative_int64 (deadline_ns a);
  names ← name_sequence "columns must be a sequence of column names" (columns a);
  core ← map_res core_column names;
  names ← name_sequence "vectors must be a sequence of field names" (vector_names a);
  fields ← map_res vector_column names;
  payloads ← map_res payload_spec (default [] (payload_schema a));
  let descriptors := core ++ fields ++ payloads in
  raise_if (negb (bool_decide (NoDup (spec_name <$> descriptors))))
    ValueError "scanner column names must be unique";;
  Ok (PDict [("batch_size", PInt size); ("columns", PList (spec_dict <$> descriptors));
             ("filter", opt_filter (scan_filter a)); ("max_candidates", PInt candidates);
             ("deadline_ns", PInt deadline); ("max_batch_bytes", PInt bytes)]).

Definition scan_record_batches (a : scan_arguments) : M (@Collection K) ArrowScanner :=
  c ← get_state;
  options ← lift (scan_options (ResourceLimits.max_candidates (limits c)) a);
  n ← _call_method perf_counter_ns "scanner" (scanner options);
  lift (scanner_init n (cancellation a)).
End Scanner.
