(* ===== verification/DatabaseFacts.v ===== *)
(** Properties of the [Collection] facade and the registry: the accounting of
    calls, the exceptions it raises and the limits it enforces. *)

From S2P Require Import Prelude Assoc PyFloat PyValue Json Envelope Models KernelConfig KernelInterface Vectors Database.

Section Facts.
Context {K : Type} `{!Kernel K, !OrdinaryErrors K}.
Variables perf_counter_ns monotonic_ns : nat -> Z.
Abbreviation Collection := (@Collection K).
Abbreviation _call := (_call perf_counter_ns).

(** * One call *)

Lemma py_int_errors v e : py_int v = Raise e -> issubclass (exn_type e) Exception = true.
Proof.
  destruct v as [|b|z|x|s|l|l|d]; try done; cbn [py_int].
  all: try (intros [= <-]; reflexivity).
  - by destruct x; intros [= <-].
  - unfold int_of_str. destruct (split_sign _) as [neg t]. destruct t; [by intros [= <-]|].
    destruct (negb _); [by intros [= <-]|]. destruct (_ <? _)%nat; [by intros [= <-]|done].
Qed.

(** The sequence a trace records: a failure to read it is forgotten. *)
Lemma read_sequence (c : Collection) :
  exists sequence,
  try_catch (v ← kernel_method "last_sequence" []; z ← lift (py_int v); mret (Some z))
    [Exception] (fun _ => mret None) c =
  (Ok sequence, set_kernel (kernel_call "last_sequence" [] (_kernel c)).2 c).
Proof.
  unfold try_catch, mbind, M_bind, kernel_method, kernel_action, caught.
  destruct (kernel_call _ _ _) as [[v|e] k] eqn:Hk; cbn [lift].
  - destruct (py_int v) as [z|e] eqn:Hv; [by eexists|]. cbn [existsb].
    rewrite (py_int_errors _ _ Hv). by eexists.
  - cbn [existsb]. rewrite (kernel_call_errors _ _ _ _ _ Hk). by eexists.
Qed.

Definition ok_write (method status : string) : bool :=
  bool_decide (status = "ok") && starts_with write_methods method.

(** [self._traces.append(...)] with the limit of 256. *)
Definition push_trace (t : TraceRecord.t) (l : list TraceRecord.t) : list TraceRecord.t :=
  if (256 <? length (l ++ [t]))%nat then tail (l ++ [t]) else l ++ [t].

(** The collection after one more call. *)
Lemma record_operation_state method duration status error c :
  exists sequence,
  _record_operation method duration status error c =
  (Ok tt, set_counters (_operations c + 1)
    (if ok_write method status then _writes c + 1 else _writes c)
    (if starts_with query_methods method then _queries c + 1 else _queries c)
    (if bool_decide (status = "error") then _failures c + 1 else _failures c)
    (if bool_decide (status = "error") &&
        match error with Some e => contains "cancel" (lower e) | None => false end
     then _cancellations c + 1 else _cancellations c)
    (_total_duration_ns c + duration)
    (push_trace (TraceRecord.Mk method duration status sequence) (_traces c))
    (if ok_write method status
     then set_kernel (kernel_call "last_sequence" [] (_kernel c)).2 c else c)).
Proof.
  unfold _record_operation. fold (ok_write method status).
  destruct (ok_write method status); [|by exists None].
  unfold mbind at 1, M_bind at 1, modify at 1. cbv beta iota.
  unfold mbind at 1, M_bind at 1.
  match goal with |- context [try_catch _ _ _ ?c'] => destruct (read_sequence c') as [seq Hs] end.
  exists seq. rewrite Hs. done.
Qed.

(** The outcome of a method as the client sees it. *)
Definition adapt {A} (r : res A) : res A :=
  match r with Ok v => Ok v | Raise e => Raise (map_kernel_error e) end.

Definition cancels {A} (r : res A) : bool :=
  match r with Ok _ => false | Raise e => contains "cancel" (lower (exn_message e)) end.

Definition status_of {A} (r : res A) : string := if is_ok r then "ok" else "error".

(** The collection after a method [m] that left the kernel in the state [k]. *)
Definition after_call {A} (method : string) (duration : Z) (sequence : option Z) (r : res A) (k : K)
    (c : Collection) : Collection :=
  let wrote := is_ok r && starts_with write_methods method in
  MkCollection
    (if wrote then (kernel_call "last_sequence" [] k).2 else k)
    (dimension c) (_config c) (limits c)
    (_operations c + 1)
    (if wrote then _writes c + 1 else _writes c)
    (if starts_with query_methods method then _queries c + 1 else _queries c)
    (if is_ok r then _failures c else _failures c + 1)
    (if cancels r then _cancellations c + 1 else _cancellations c)
    (_total_duration_ns c + duration)
    (push_trace (TraceRecord.Mk method duration (status_of r) sequence) (_traces c))
    (S (S (ticks c))).

(** [_call] runs the method once, counts it once and traces it. *)
Lemma call_method_state {A} method (m : K -> res A * K) c r k :
  m (_kernel c) = (r, k) ->
  (forall e, r = Raise e -> issubclass (exn_type e) Exception = true) ->
  exists duration sequence, _call_method perf_counter_ns method m c =
    (adapt r, after_call method duration sequence r k c).
Proof.
  intros Hk He.
  unfold _call_method, mbind at 1, M_bind at 1, read_perf_counter at 1. cbv beta iota.
  unfold mbind at 1, M_bind at 1, try_catch, kernel_action at 1. cbn [_kernel tick].
  rewrite Hk. destruct r as [v|e]; cbv beta iota.
  - unfold read_perf_counter at 1, mbind at 1, M_bind at 1. cbv beta iota.
    unfold mbind at 1, M_bind at 1.
    match goal with |- context [_record_operation _ ?d "ok" None ?c'] =>
      destruct (record_operation_state method d "ok" None c') as [seq Hs]; exists d, seq end.
    rewrite Hs. cbv beta iota. unfold ok_write, after_call.
    by destruct (starts_with write_methods method).
  - unfold caught. cbn [existsb]. rewrite (He e eq_refl). cbn [orb].
    unfold read_perf_counter at 1, mbind at 1, M_bind at 1. cbv beta iota.
    unfold mbind at 1, M_bind at 1.
    match goal with |- context [_record_operation _ ?d "error" ?m ?c'] =>
      destruct (record_operation_state method d "error" m c') as [seq Hs]; exists d, seq end.
    rewrite Hs. by cbv beta iota.
Qed.

Lemma call_state method args c :
  exists duration sequence,
  let '(r, k) := kernel_call method args (_kernel c) in
  _call method args c = (adapt r, after_call method duration sequence r k c).
Proof.
  destruct (kernel_call method args (_kernel c)) as [r k] eqn:Hk.
  apply call_method_state; [done|]. intros e ->. by eapply kernel_call_errors.
Qed.

(** Whatever comes out of a call is one of the adapter's errors. *)
Lemma call_errors method args c e c' :
  _call method args c = (Raise e, c') -> issubclass (exn_type e) AkashaError = true.
Proof.
  destruct (call_state method args c) as (d & seq & H).
  destruct (kernel_call _ _ _) as [[v|e'] k]; rewrite H; [done|].
  intros [= <- _]. apply map_kernel_error_class.
Qed.

(** * Accounting *)

(** The counters and the traces agree: every call is counted once, writes and
    failures are disjoint, and the last 256 calls are traced. *)
Record metered (c : Collection) : Prop := {
  metered_cancellations : 0 <= _cancellations c <= _failures c;
  metered_writes : 0 <= _writes c /\ _writes c + _failures c <= _operations c;
  metered_queries : 0 <= _queries c <= _operations c;
  metered_traces : Z.of_nat (length (_traces c)) = Z.min 256 (_operations c) }.

Lemma push_trace_length t l :
  Z.of_nat (length (push_trace t l)) = Z.min 256 (Z.of_nat (length l) + 1) \/
  256 < Z.of_nat (length l).
Proof.
  unfold push_trace. rewrite length_app. cbn [length].
  destruct (_ <? _)%nat eqn:H; [apply Nat.ltb_lt in H|apply Nat.ltb_ge in H].
  - destruct l as [|x l]; cbn [length app tail] in *; [lia|]. rewrite length_app. cbn [length]. lia.
  - rewrite length_app. cbn [length]. lia.
Qed.

Lemma after_call_metered {A} method duration sequence (r : res A) k c :
  metered c -> metered (after_call method duration sequence r k c).
Proof.
  intros [H1 H2 H3 H4]. unfold after_call. set (t := TraceRecord.Mk _ _ _ _).
  pose proof (push_trace_length t (_traces c)).
  split; cbn [_cancellations _failures _writes _operations _queries _traces snd].
  - destruct r; cbn [cancels is_ok]; [|destruct (contains _ _)]; lia.
  - destruct r; cbn [is_ok andb]; [destruct (starts_with _ _)|]; lia.
  - destruct (starts_with _ _); lia.
  - lia.
Qed.

Lemma call_metered method args : respects (keeps_true metered) (_call method args).
Proof.
  intros c Hc. destruct (call_state method args c) as (d & seq & H).
  destruct (kernel_call _ _ _) as [r k]. rewrite H. by apply after_call_metered.
Qed.

(** * The facade as a whole *)

(** The calls a client can make, with their arguments. *)
Inductive op : Type :=
| Close | LastSequence | CollectionConfigOf | LastSearchStats | VectorFields
| ExportRecords | ExportPoints | IsPointCollection | Flush
| Upsert (id vector : pyval) (fields : option (list PayloadField.t))
| UpsertSparse (id : pyval) (elements : list SparseElement.t)
| Delete (id : pyval)
| ApplyBatch (mutations : list BatchMutation.t)
| ApplyPointBatch (mutations : list PointMutation.t)
| Backup (target : string)
| Get (id : pyval) (projection : option Projection.t)
| GetPoint (id : pyval)
| Search (request : SearchRequest.t)
| SearchColumns (request : SearchRequest.t)
| SearchBatch (metric : pyval) (vectors : list pyval) (k num_workers : Z)
    (filters : option (list pyval))
| SearchControlled (metric vector : pyval) (k : Z) (cancellation : option bool)
    (timeout_ns : option Z)
| SearchField (name : string) (vector : vector_value) (k : Z) (filter : option dict)
    (mode : string) (ef_search : option Z) (rerank_k : Z) (ivf : option IvfOptions.t)
    (cancellation : option bool) (timeout_ns : option Z)
| SearchFields (queries : list FieldQuery.t) (k fetch_k rank_constant : Z)
    (filter : option dict) (rerank : option FieldQuery.t) (cancellation : option bool)
    (timeout_ns : option Z).

Definition forget {A} (m : M Collection A) : M Collection unit := m;; mret tt.

Definition run (o : op) : M Collection unit :=
  match o with
  | Close => close perf_counter_ns
  | LastSequence => forget (last_sequence perf_counter_ns)
  | CollectionConfigOf => forget (collection_config perf_counter_ns)
  | LastSearchStats => forget (last_search_stats perf_counter_ns)
  | VectorFields => forget (vector_fields perf_counter_ns)
  | ExportRecords => forget (_export_records perf_counter_ns)
  | ExportPoints => forget (_export_points perf_counter_ns)
  | IsPointCollection => forget (_is_point_collection perf_counter_ns)
  | Flush => flush perf_counter_ns
  | Upsert id vector fields => upsert perf_counter_ns id vector fields
  | UpsertSparse id elements => upsert_sparse perf_counter_ns id elements
  | Delete id => delete perf_counter_ns id
  | ApplyBatch l => forget (apply_batch perf_counter_ns l)
  | ApplyPointBatch l => forget (apply_point_batch perf_counter_ns l)
  | Backup target => forget (backup perf_counter_ns target)
  | Get id p => forget (get perf_counter_ns id p)
  | GetPoint id => forget (get_point perf_counter_ns id)
  | Search r => forget (search perf_counter_ns r)
  | SearchColumns r => forget (_search_raw perf_counter_ns r true)
  | SearchBatch metric vectors k n filters =>
      forget (search_batch perf_counter_ns metric vectors k n filters)
  | SearchControlled metric vector k c t =>
      forget (search_controlled perf_counter_ns monotonic_ns metric vector k c t)
  | SearchField name vector k f mode ef rr ivf c t =>
      forget (search_field perf_counter_ns monotonic_ns name vector k f mode ef rr ivf c t)
  | SearchFields qs k fk rc f rr c t =>
      forget (search_fields perf_counter_ns monotonic_ns qs k fk rc f rr c t)
  end.

(** What the limits of a collection allow. *)
Definition positive (t : option Z) : Prop := match t with Some t => 0 < t | None => True end.

Definition within (l : ResourceLimits.t) (o : op) : Prop :=
  let max_k := ResourceLimits.max_k l in
  match o with
  | ApplyBatch m => Z.of_nat (length m) <= ResourceLimits.max_batch_rows l
  | ApplyPointBatch m => Z.of_nat (length m) <= ResourceLimits.max_batch_rows l
  | Search r | SearchColumns r => SearchRequest.k r <= max_k
  | SearchBatch _ vectors k _ _ =>
      Z.of_nat (length vectors) <= ResourceLimits.max_query_batch l /\ k <= max_k
  | SearchControlled _ _ k _ t => k <= max_k /\ positive t
  | SearchField _ _ k _ mode ef rr ivf _ t =>
      0 < k <= max_k /\ (rr = 0 \/ k <= rr) /\ mode ∈ ["exact"; "approx"; "ivf"] /\
      (mode <> "approx" -> ef = None /\ rr = 0) /\ (ivf <> None -> mode = "ivf") /\
      positive ef /\ positive t
  | SearchFields qs k fk rc _ rr _ t =>
      0 < k /\ k <= fk <= max_k /\ 0 < rc /\
      0 < Z.of_nat (length qs) <= ResourceLimits.max_query_batch l /\
      (forall q, rr = Some q -> FieldQuery.mode q = "exact") /\ positive t
  | _ => True
  end.

(** Every method is built of pure steps, clock readings and kernel calls. *)
Lemma read_deadline_metered t : respects (keeps_true metered) (read_deadline monotonic_ns t).
Proof. destruct t; [|apply respects_ret, _]. intros c [H1 H2 H3 H4]. by split. Qed.

Ltac metered_walk :=
  repeat first [ walk_step | apply call_metered | apply read_deadline_metered ].

Lemma run_metered o : respects (keeps_true metered) (run o).
Proof.
  destruct o; cbn [run]; unfold forget, close, last_sequence, collection_config,
    last_search_stats, vector_fields, _export_records, _export_points, _is_point_collection,
    flush, upsert, upsert_sparse, delete, apply_batch, apply_point_batch, backup, get, get_point,
    search, _search_raw, search_batch, search_controlled, search_field, _search_field_raw,
    search_fields, _search_fields_raw;
  metered_walk.
Qed.

(** ** Limits *)

(** A guard that fails leaves the state as it is. *)
Lemma guard_changes {S A} cond cls message (m : M S A) (s : S) :
  ((lift (raise_if cond cls message);; m) s).2 <> s -> cond = false /\ (m s).2 <> s.
Proof. by destruct cond. Qed.

Lemma bind_changes {S A B} (m : M S A) (f : A -> M S B) s :
  (forall a s', (f a s').2 = s') -> ((m ≫= f) s).2 <> s -> (m s).2 <> s.
Proof.
  intros Hf. unfold mbind, M_bind. destruct (m s) as [[a|e] s']; [|done].
  by rewrite Hf.
Qed.

Lemma get_state_bind {S A} (f : S -> M S A) s : (get_state ≫= f) s = f s s.
Proof. done. Qed.

(** A request that reaches the kernel, or even reads the clock, is within the
    limits. *)
Lemma run_within o c : (run o c).2 <> c -> within (limits c) o.
Proof.
  destruct o; cbn [run within]; try done.
  all: intros H; apply bind_changes in H; [|done].
  all: unfold search_field, search_fields, search, apply_batch, apply_point_batch in H.
  1,2,3,7,8: try (apply bind_changes in H;
    [|intros a s'; unfold mbind, M_bind, lift; repeat case_match; simplify_eq; done]).
  all: unfold _search_raw, search_batch, search_controlled, _search_field_raw, _search_fields_raw
    in H; rewrite get_state_bind in H.
  all: repeat (apply guard_changes in H as [? H]); clear H; inv_py.
  all: unfold positive, str_in in *.
  all: try (split_and?; done || lia).
  - split_and!; try (destruct timeout_ns, ef_search; inv_py; done || lia).
    + intros Hm. rewrite (bool_decide_eq_false_2 _ Hm) in *. cbn [negb andb] in *.
      destruct ef_search; inv_py; simplify_eq; done.
    + intros Hi. destruct ivf; inv_py; done.
  - split_and!; try lia.
    + intros q ->. by inv_py.
    + destruct timeout_ns; inv_py; done || lia.
  - split_and!; [lia|]. destruct timeout_ns; inv_py; done || lia.
Qed.


(** ** Dispatch *)

(** The options a kernel method is given last. *)
Definition options (args : list pyval) : dict :=
  match List.last args PNone with PDict d => d | _ => [] end.

Definition filtered_methods (columns : bool) : list string :=
  (fun name => name +:+ (if columns then "_columns" else "")) <$>
  ["search_sparse_where"; "search_hybrid_where"; "search_dense_where"].

(** A search with a filter either fails before the kernel, or is one call of a
    filtering method that is given the filter. *)
Lemma search_filtered request columns c :
  is_none (SearchRequest.filter request) = false ->
  (exists e, _search_raw perf_counter_ns request columns c = (Raise e, c)) \/
  (exists method args,
    _search_raw perf_counter_ns request columns c = _call method args c /\
    method ∈ filtered_methods columns /\
    dict_get (options args) "filter" = Some (SearchRequest.filter request)).
Proof.
  intros Hf. unfold _search_raw. rewrite get_state_bind, Hf. cbn [negb andb].
  destruct (_ <? _); [by left; eexists|]. cbn [raise_if]. destruct columns;
  destruct (is_none (SearchRequest.vector request));
    repeat match goal with |- context [if ?b then _ else _] => destruct b end.
  all: try (by left; eexists).
  all: right; eexists _, _; split; [reflexivity|]; split; [|reflexivity];
    unfold filtered_methods; cbn; set_solver.
Qed.

(** * The registry *)

Abbreviation LocalDatabase := (@LocalDatabase K).

(** Open collections have distinct names, each one component of a path, and
    their account is right. *)
Record registry (db : LocalDatabase) : Prop := {
  registry_names : NoDup (_collections db).*1;
  registry_safe : Forall (fun name => safe_name name = true) (_collections db).*1;
  registry_metered : Forall (fun kv => metered kv.2) (_collections db) }.

Lemma set_collection_registry db name (c : Collection) dirs :
  registry db -> safe_name name = true -> metered c ->
  registry (MkDatabase (assoc_set (_collections db) name c) dirs).
Proof.
  intros [H1 H2 H3] Hn Hc. split; cbn [_collections].
  - by apply assoc_set_NoDup.
  - rewrite Forall_fmap in *. by apply assoc_set_Forall.
  - by apply assoc_set_Forall.
Qed.

Lemma with_collection_registry {A} name (m : M Collection A) fallback :
  respects (keeps_true metered) m -> respects (keeps_true registry) (with_collection name m fallback).
Proof.
  intros Hm db Hdb. unfold with_collection.
  destruct (assoc_get (_collections db) name) as [c|] eqn:Hc; [|done].
  specialize (Hm c). destruct (m c) as [r c']. cbn [snd] in *. destruct (Hdb) as [H1 H2 H3].
  apply set_collection_registry; [done| |].
  - rewrite Forall_fmap in H2. by apply (assoc_get_Forall _ _ _ _ H2 Hc).
  - apply Hm. by apply (assoc_get_Forall _ _ _ _ H3 Hc).
Qed.

Lemma open_collection_metered dir dim config vectors k lim (c : Collection) :
  open_collection dir dim config vectors k lim = Ok c -> metered c.
Proof.
  unfold open_collection. intros (p & _ & H)%bind_Ok. destruct p as [requested schema].
  apply bind_Ok in H as (k0 & _ & H). destruct (kernel_call _ _ k0) as [r k1]. inv_ok.
  by split; cbn; lia.
Qed.

Lemma db_open_registry name dim config vectors :
  respects (keeps_true registry) (db_open perf_counter_ns name dim config vectors).
Proof.
  unfold db_open. intros db Hdb. unfold mbind at 1, M_bind at 1, lift at 1.
  destruct (safe_name name) eqn:Hn; [|done]. cbn [negb raise_if]. rewrite get_state_bind.
  destruct (assoc_get (_collections db) name) as [c|].
  - match goal with |- context [lift (raise_if ?b ?x ?y) ≫= ?f] =>
      cut (respects (keeps_true registry) (lift (raise_if b x y) ≫= f)); [intros Hm; by apply Hm|] end.
    repeat first [walk_step | apply with_collection_registry].
    + unfold collection_config. metered_walk.
    + unfold vector_fields. metered_walk.
  - unfold mbind at 1, M_bind at 1, lift at 1.
    destruct (open_collection _ _ _ _ _ _) as [c|e] eqn:Hc; [|done].
    apply set_collection_registry; [done|done|]. by eapply open_collection_metered.
Qed.

Lemma delete_registry db name dirs :
  registry db -> registry (MkDatabase (assoc_delete (_collections db) name) dirs).
Proof.
  intros [H1 H2 H3]. pose proof (assoc_delete_sublist (_collections db) name) as Hs.
  pose proof (fmap_sublist fst _ _ Hs) as Hk.
  split; cbn [_collections]; [by eapply sublist_NoDup| |]; by eapply sublist_Forall.
Qed.

Lemma db_close_registry name : respects (keeps_true registry) (db_close perf_counter_ns name).
Proof.
  unfold db_close, db_collection. repeat first [walk_step | apply with_collection_registry].
  - unfold close. metered_walk.
  - intros db Hdb. cbn [modify snd]. destruct (assoc_get _ name); [|done]. by apply delete_registry.
Qed.

Lemma db_close_all_registry : respects (keeps_true registry) (db_close_all perf_counter_ns).
Proof. unfold db_close_all. walk. apply db_close_registry. Qed.

(** Any client of the registry. *)
Inductive db_step : LocalDatabase -> LocalDatabase -> Prop :=
| step_open name dim config vectors db :
    db_step db (db_open perf_counter_ns name dim config vectors db).2
| step_run name o db : db_step db (with_collection name (run o) (not_open name) db).2
| step_close name db : db_step db (db_close perf_counter_ns name db).2
| step_close_all db : db_step db (db_close_all perf_counter_ns db).2.

Lemma db_step_registry db db' : db_step db db' -> registry db -> registry db'.
Proof.
  intros []; [apply db_open_registry| |apply db_close_registry|apply db_close_all_registry].
  apply with_collection_registry, run_metered.
Qed.
End Facts.
