(* ===== verification/MemoryKernel.v ===== *)
(** A collection kept in memory: an instance of the kernel interface that the
    witnesses run.  It stands for no file of the repository. *)

From S2P Require Import Prelude Assoc PyFloat PyValue Json Envelope Models KernelConfig KernelInterface Database.

Record row : Type := Row {
  row_sequence : Z; row_vector : pyval; row_fields : pyval; row_sparse : pyval }.

Record memory : Type := Memory {
  mem_config : dict;
  mem_rows : list (Z * row);
  mem_sequence : Z;
  mem_open : bool }.

Definition set_rows (rows : list (Z * row)) (m : memory) : memory :=
  Memory (mem_config m) rows (mem_sequence m + 1) (mem_open m).

Definition put (id : Z) (vector fields : pyval) (m : memory) : memory :=
  set_rows (assoc_set (mem_rows m) id (Row (mem_sequence m + 1) vector fields (PList []))) m.

Definition put_sparse (id : Z) (sparse : pyval) (m : memory) : memory :=
  match assoc_get (mem_rows m) id with
  | Some r => set_rows (assoc_set (mem_rows m) id
                (Row (mem_sequence m + 1) (row_vector r) (row_fields r) sparse)) m
  | None => m
  end.

Definition export_row (kv : Z * row) : pyval :=
  PDict [("id", PInt kv.1); ("sequence", PInt (row_sequence kv.2));
         ("vector", row_vector kv.2); ("fields", row_fields kv.2); ("sparse", row_sparse kv.2)].

Definition apply_item (m : memory) (item : pyval) : memory :=
  match item with
  | PDict d =>
      match dict_get d "id", dict_get d "vector", dict_get d "fields" with
      | Some (PInt id), Some v, Some f => put id v f m
      | _, _, _ => m
      end
  | _ => m
  end.

(** Every row is a hit, with its identifier for a score. *)
Definition hits (m : memory) : pyval :=
  PList ((fun kv => PDict [("id", PInt kv.1); ("score", PInt kv.1)]) <$> mem_rows m).

Definition stats : pyval :=
  PDict ((fun name => (name, PInt 0)) <$> SearchStats.FIELDS).

Definition memory_step (method : string) (args : list pyval) (m : memory)
    : option (pyval * memory) :=
  match method, args with
  | "close", [] => Some (PNone, Memory (mem_config m) (mem_rows m) (mem_sequence m) false)
  | "last_sequence", [] => Some (PInt (mem_sequence m), m)
  | "collection_config", [] => Some (PDict (mem_config m), m)
  | "last_search_stats", [] => Some (stats, m)
  | "vector_fields", [] => Some (PList [], m)
  | "flush", [] => Some (PNone, m)
  | "export_records", [] => Some (PList (export_row <$> mem_rows m), m)
  | "upsert_document", [PInt id; v; f] => Some (PNone, put id v f m)
  | "upsert_sparse", [PInt id; s] => Some (PNone, put_sparse id s m)
  | "delete", [PInt id] => Some (PNone, set_rows (assoc_delete (mem_rows m) id) m)
  | "apply_batch", [PList l] =>
      Some (PDict [("first_sequence", PInt (mem_sequence m + 1));
                  ("last_sequence", PInt (mem_sequence m + Z.of_nat (length l)));
                  ("count", PInt (Z.of_nat (length l)))], foldl apply_item m l)
  | "get", [PInt id] =>
      Some (match assoc_get (mem_rows m) id with
           | Some r => export_row (id, r)
           | None => PNone
           end, m)
  | "search_dot", _ | "search_dense_where", _ => Some (hits m, m)
  | _, _ => None
  end.

Definition memory_call (method : string) (args : list pyval) (m : memory) : res pyval * memory :=
  if negb (mem_open m) then (raise RuntimeError "collection is closed", m)
  else match memory_step method args m with
       | Some (v, m) => (Ok v, m)
       | None => (raise RuntimeError ("cancelled: " +:+ method), m)
       end.

(** Opening: the stored rows, or an empty collection with the validated
    configuration. *)
Definition memory_open (dir : option memory) (dim : Z) (config schema : pyval) : res memory :=
  match dir with
  | Some m => Ok (Memory (mem_config m) (mem_rows m) (mem_sequence m) true)
  | None =>
      c ← validate_collection_config dim config;
      Ok (Memory c [] 0 true)
  end.

#[export] Instance memory_kernel : Kernel memory :=
  {| kernel_open := memory_open; kernel_call := memory_call |}.

#[export] Instance memory_errors : OrdinaryErrors memory.
Proof.
  intros method args m e m'. cbn [kernel_call memory_kernel]. unfold memory_call.
  destruct (negb _); [by intros [= <- _]|].
  destruct (memory_step method args m) as [[v n]|]; [done|by intros [= <- _]].
Qed.
