(* ===== verification/DatabaseTheorems.v ===== *)
(** What the in-process facade guarantees, over any compiled kernel: the
    properties of [Collection] and [LocalDatabase], each with an instance. *)

From S2P Require Import Prelude Assoc PyFloat PyValue Json Envelope Models KernelConfig KernelInterface Vectors Database DatabaseFacts MemoryKernel.

Section Theorems.
Context {K : Type} `{!Kernel K, !OrdinaryErrors K}.
Variables perf_counter_ns monotonic_ns : nat -> Z.
Abbreviation run := (run perf_counter_ns monotonic_ns).

(** The state after a client's calls. *)
Definition client (ops : list op) (c : @Collection K) : @Collection K :=
  foldl (fun c o => (run o c).2) c ops.

(** Each call of a kernel method runs it exactly once; the caller gets its
    value or its error as one of the adapter's classes with the message kept;
    the call is counted once, as a write only if it succeeded, as a failure only
    if it raised, and traced. *)
Theorem call_accounts method args (c : @Collection K) r k :
  kernel_call method args (_kernel c) = (r, k) ->
  exists c', _call perf_counter_ns method args c = (adapt r, c') /\
    (forall e, adapt r = Raise e -> issubclass (exn_type e) AkashaError = true) /\
    _operations c' = _operations c + 1 /\
    _failures c' = _failures c + (if is_ok r then 0 else 1) /\
    _writes c' = _writes c + (if is_ok r && starts_with write_methods method then 1 else 0) /\
    (starts_with write_methods method = false \/ is_ok r = false -> _kernel c' = k) /\
    exists t, List.last (_traces c') t = t /\
      TraceRecord.operation t = method /\ TraceRecord.status t = status_of r.
Proof.
  intros Hk. destruct (call_state perf_counter_ns method args c) as (d & seq & H).
  rewrite Hk in H. eexists. split; [exact H|]. unfold after_call. cbn [_operations _failures _writes _kernel _traces].
  split_and!.
  - intros e. destruct r; [done|]. intros [= <-]. apply map_kernel_error_class.
  - done.
  - destruct (is_ok r); lia.
  - destruct (_ && _); lia.
  - intros [-> | ->]; [by rewrite andb_false_r|done].
  - exists (TraceRecord.Mk method d (status_of r) seq). split; [|by split].
    unfold push_trace. destruct (_ <? _)%nat; [|apply last_last].
    destruct (_traces c); [done|]. cbn [app tail]. apply last_last.
Qed.

(** Whatever a client does with an opened collection, its account stays
    right: cancellations are failures, no call is both a write and a failure,
    and the traces are those of the last 256 calls. *)
Theorem accounting_invariant dir dim config vectors lim (c : @Collection K) ops :
  open_collection dir dim config vectors None lim = Ok c -> metered (client ops c).
Proof.
  intros Hc%open_collection_metered. revert c Hc.
  induction ops as [|o ops IH]; intros c Hc; [done|]. cbn [client foldl].
  apply IH. by apply run_metered.
Qed.


(** A filter is never dropped: a search with one fails before the kernel or
    is exactly one call of a filtering method that is given the filter. *)
Theorem search_keeps_filter request columns (c : @Collection K) :
  is_none (SearchRequest.filter request) = false ->
  (exists e, _search_raw perf_counter_ns request columns c = (Raise e, c)) \/
  (exists method args,
    _search_raw perf_counter_ns request columns c = _call perf_counter_ns method args c /\
    method ∈ filtered_methods columns /\
    dict_get (options args) "filter" = Some (SearchRequest.filter request)).
Proof. apply search_filtered. Qed.

(** Starting from an empty registry, whatever is opened, used and closed, the
    open collections have distinct names that are single path components, and
    each keeps its account. *)
Theorem registry_invariant dirs (db : @LocalDatabase K) :
  rtc (db_step perf_counter_ns monotonic_ns) (MkDatabase [] dirs) db -> registry db.
Proof.
  assert (registry (@MkDatabase K [] dirs)) as H0 by (by split; constructor).
  revert H0. generalize (@MkDatabase K [] dirs). intros db0 H0 Hs.
  induction Hs as [|db0 db1 db2 H01 _ IH]; [done|]. eauto using db_step_registry.
Qed.
End Theorems.

(** * Instances *)

(** A clock that advances by three. *)
Definition clock (n : nat) : Z := 3 * Z.of_nat n.

Definition sample : Collection := Eval vm_compute in
  match open_collection None 2 (CollectionConfig.Value (PDict [])) None None None with
  | Ok c => c
  | Raise _ => MkCollection (Memory [] [] 0 true) 0 (CollectionConfig.Mk 1 "" "" 0 0 0 0 0 0 0 0 0 None)
                 ResourceLimits.defaults 0 0 0 0 0 0 [] 0
  end.

Definition vector12 : pyval := PList [PInt 1; PInt 2].

Lemma call_accounts_witness :
  kernel_call "delete" [PInt 7] (_kernel sample) =
    (Ok PNone, set_rows [] (_kernel sample)) /\
  exists c', _call clock "delete" [PInt 7] sample = (Ok PNone, c') /\ _writes c' = 1.
Proof.
  assert (kernel_call "delete" [PInt 7] (_kernel sample) =
    (Ok PNone, set_rows [] (_kernel sample))) as Hk by (vm_compute; reflexivity).
  split; [exact Hk|]. destruct (call_accounts clock _ _ sample _ _ Hk) as (c' & Hc & _ & _ & _ & Hw & _).
  exists c'. split; [exact Hc|]. rewrite Hw. vm_compute. reflexivity.
Defined.

Definition session : list op :=
  [Upsert (PInt 1) vector12 (Some []); Delete (PInt 2); Flush;
   Search (SearchRequest.make (PStr "l2") 3 vector12 [] "exact" PNone);
   Search (SearchRequest.make (PStr "dot") 20000 vector12 [] "exact" PNone)].

Lemma accounting_invariant_witness :
  metered (client clock clock session sample) /\
  metrics (client clock clock session sample) = MetricsSnapshot.Mk 4 2 1 1 1 12.
Proof.
  split; [|vm_compute; reflexivity].
  apply (accounting_invariant clock clock None 2 (CollectionConfig.Value (PDict [])) None None
    sample session). vm_compute. reflexivity.
Defined.


Definition filtered_request : SearchRequest.t :=
  SearchRequest.make (PStr "dot") 3 vector12 [] "exact" (PDict [("op", PStr "eq")]).

Lemma search_keeps_filter_witness :
  is_none (SearchRequest.filter filtered_request) = false /\
  ((exists e, _search_raw clock filtered_request false sample = (Raise e, sample)) \/
   (exists method args,
     _search_raw clock filtered_request false sample = _call clock method args sample /\
     method ∈ filtered_methods false /\
     dict_get (options args) "filter" = Some (SearchRequest.filter filtered_request))).
Proof.
  split; [reflexivity|]. exact (search_keeps_filter clock filtered_request false sample eq_refl).
Defined.

Definition opened : LocalDatabase :=
  (db_open clock "docs" 2 (CollectionConfig.Value (PDict [])) None (MkDatabase [] [])).2.

Lemma registry_invariant_witness :
  rtc (db_step clock clock) (MkDatabase [] []) opened /\ registry opened /\
  (_collections opened).*1 = ["docs"].
Proof.
  assert (rtc (db_step (K := memory) clock clock) (MkDatabase [] []) opened) as H.
  { apply rtc_once. apply (step_open clock clock). }
  split; [exact H|]. split; [exact (registry_invariant clock clock [] opened H)|].
  vm_compute. reflexivity.
Defined.
