(* ===== verification/LogicalPoints.v ===== *)
(** The versioned NDJSON form of point states, [python/akashadb/logical_points.py],
    with the parts of [json] and of text files it uses: lines of a file opened
    as text, [json.dumps] without NaN, and [json.loads] with the two hooks.

    A [bytes] object at the kernel's boundary is the tuple of its byte values;
    the kernel gives and takes no other tuples. *)

From S2P Require Import Prelude Assoc PyFloat PyValue Json Envelope Models KernelInterface Vectors Database.

(** * Text files *)

(** Strict UTF-8: no encoded surrogates either. *)
Fixpoint no_surrogates (s : string) : bool :=
  match s with
  | String a s' =>
      match s' with
      | String b _ => negb (in_range 237 237 a && in_range 160 191 b) && no_surrogates s'
      | EmptyString => true
      end
  | EmptyString => true
  end.

Definition utf8_strict (s : string) : bool := utf8_valid s && no_surrogates s.

Definition carriage_return : ascii := ascii_of_nat 13.

(** Universal newlines: CR LF and CR are read as LF. *)
Fixpoint universal_newlines (s : string) : string :=
  match s with
  | String c s' =>
      if bool_decide (c = carriage_return) then
        match s' with
        | String d s'' =>
            String newline (if bool_decide (d = newline) then universal_newlines s''
                            else universal_newlines s')
        | EmptyString => String newline ""
        end
      else String c (universal_newlines s')
  | EmptyString => ""
  end.

(** The lines of a stream, each with its LF; the last one may have none. *)
Fixpoint stream_lines (s : string) : list string :=
  match s with
  | EmptyString => []
  | String c s =>
      if bool_decide (c = newline) then String c "" :: stream_lines s
      else match stream_lines s with
           | [] => [String c ""]
           | line :: lines => String c line :: lines
           end
  end.

(** [open("r", encoding="utf-8")] and its lines.  The file is decoded before its
    first line is handed out; CPython decodes it in chunks. *)
Definition text_lines (data : string) : res (list string) :=
  if utf8_strict data then Ok (stream_lines (universal_newlines data))
  else raise UnicodeDecodeError "'utf-8' codec can't decode bytes".

(** * JSON *)

Fixpoint has_bytes (v : pyval) : bool :=
  match v with
  | PTuple _ => true
  | PList l => existsb has_bytes l
  | PDict d => existsb (fun kv => let '(k, x) := kv in has_bytes x) d
  | _ => false
  end.

(** [json.dumps(v, ensure_ascii=False, separators=(",", ":"), allow_nan=False)] *)
Definition dumps (v : pyval) : res string :=
  raise_if (has_bytes v) TypeError "Object of type bytes is not JSON serializable";;
  raise_if (negb (floats_in isfinite v))
    ValueError "Out of range float values are not JSON compliant";;
  Ok (dump v).

Definition _unique_object (pairs : list (string * pyval)) : res dict :=
  for_fold (fun result kv =>
    raise_if (dict_has result kv.1) ValueError ("duplicate JSON field: " +:+ kv.1);;
    Ok (dict_set result kv.1 kv.2)) [] pairs.

Definition _reject_constant (value : string) : res pyval :=
  raise ValueError ("non-finite JSON number: " +:+ value).

(** [json.loads(line, object_pairs_hook=_unique_object, parse_constant=_reject_constant)] *)
Definition loads_strict (line : string) : res pyval :=
  decode (fun pairs => d ← _unique_object pairs; Ok (PDict d)) _reject_constant line.

Definition decode_line (line : string) (line_number : Z) : res dict :=
  value ← try_except (loads_strict line) [ValueError; TypeError] (fun error =>
    raise ValueError ("invalid NDJSON at line " +:+ int_repr line_number +:+ ": " +:+
                      exn_message error));
  match value with
  | PDict d => Ok d
  | _ => raise ValueError ("NDJSON line " +:+ int_repr line_number +:+ " must be an object")
  end.

(** * Bytes *)

Definition byte_value (c : ascii) : pyval := PInt (Z.of_nat (nat_of_ascii c)).
Definition bytes_value (b : list ascii) : pyval := PTuple (byte_value <$> b).

Definition byte_of (v : pyval) : option ascii :=
  match v with
  | PInt z => if (0 <=? z) && (z <? 256) then Some (ascii_of_nat (Z.to_nat z)) else None
  | _ => None
  end.

Definition bytes_of (v : pyval) : option (list ascii) :=
  match v with PTuple l => mapM byte_of l | _ => None end.

(** [b.hex()] *)
Fixpoint hex (b : list ascii) : string :=
  match b with
  | [] => ""
  | c :: b => String (hex_digit (nat_of_ascii c / 16))
                (String (hex_digit (nat_of_ascii c mod 16)) (hex b))
  end.

(** [bytes.fromhex(s)] of a text without spaces *)
Fixpoint fromhex (s : string) : option (list ascii) :=
  match s with
  | EmptyString => Some []
  | String a (String b s) =>
      x ← hex_value a; y ← hex_value b; l ← fromhex s;
      Some (ascii_of_nat (x * 16 + y) :: l)
  | String _ EmptyString => None
  end.

(** [re.fullmatch(r"[0-9a-fA-F]*", s)] *)
Fixpoint all_hex (s : string) : bool :=
  match s with
  | EmptyString => true
  | String c s => match hex_value c with Some _ => all_hex s | None => false end
  end.

(** * Encoding *)

Definition FORMAT : string := "akashadb.points".
Definition VERSION : Z := 1.
Definition _CONFIG_KEYS : list string :=
  ["dimension"; "ann_metric"; "scalar_kind"; "m"; "m0"; "ef_construction";
   "default_ef_search"; "max_ef_search"; "max_level"; "rebuild_inactive_percent";
   "delta_max_points"; "level_seed"].
Definition _FIELD_KEYS : list string := ["dimension"; "dtype"; "kind"; "metric"; "hnsw"].
Definition _HEADER_KEYS : list string :=
  ["format"; "version"; "config"; "vectors"; "count"; "source_sequence"].
Definition _POINT_KEYS : list string :=
  ["id"; "sequence"; "document_sequence"; "vector"; "sparse"; "vectors"; "fields"].

Definition _config_json (config : CollectionConfig.t) : dict :=
  (fun key => (key, CollectionConfig.fields_of config key)) <$> isort String.leb _CONFIG_KEYS.

(** [asdict(spec)] with its [hnsw] replaced *)
Definition field_json (spec : VectorField.t) : dict :=
  [("dimension", PInt (VectorField.dimension spec)); ("dtype", PStr (VectorField.dtype spec));
   ("kind", PStr (VectorField.kind spec)); ("metric", PStr (VectorField.metric spec));
   ("hnsw", match VectorField.hnsw spec with
            | None => PNone
            | Some config => PDict (_config_json config)
            end)].

(** [d.items()] of a dynamic value *)
Definition items_of (v : pyval) : res dict :=
  match v with
  | PDict d => Ok d
  | _ => raise AttributeError "object has no attribute 'items'"
  end.

Definition encode_vector (schema : list (string * VectorField.t)) (name : string)
    (value : pyval) : res pyval :=
  match assoc_get schema name with
  | None => raise KeyError name
  | Some spec =>
      if bool_decide (VectorField.kind spec = "binary") then
        match bytes_of value with
        | Some b => Ok (PDict [("encoding", PStr "hex"); ("data", PStr (hex b))])
        | None => raise AttributeError "object has no attribute 'hex'"
        end
      else Ok value
  end.

Definition encode_row (schema : list (string * VectorField.t)) (row : pyval) : res pyval :=
  d ← subscriptable row;
  raw ← dict_item d "vectors";
  raw ← items_of raw;
  vectors ← map_res (fun '(name, value) => v ← encode_vector schema name value; Ok (name, v)) raw;
  Ok (PDict (dict_set d "vectors" (PDict vectors))).

Definition encode_export (captured : dict) : res (dict * list pyval) :=
  raw_schema ← dict_item captured "schema";
  raw_schema ← Point.iterable raw_schema;
  schema ← schema_fields raw_schema;
  rows ← dict_item captured "points";
  rows ← Point.iterable rows;
  rows ← map_res (encode_row schema) rows;
  raw_config ← dict_item captured "config";
  raw_config ← subscriptable raw_config;
  config ← CollectionConfig.from_kernel raw_config;
  source_sequence ← dict_item captured "source_sequence";
  Ok ([("format", PStr FORMAT); ("version", PInt VERSION);
       ("config", PDict (_config_json config));
       ("vectors", PDict ((fun '(name, spec) => (name, PDict (field_json spec))) <$> schema));
       ("count", PInt (Z.of_nat (length rows)));
       ("source_sequence", source_sequence)], rows).

(** * Decoding *)

Definition _object (value : pyval) (keys : list string) (label : string) : res dict :=
  match value with
  | PDict d => raise_if (negb (keys_are d keys)) ValueError ("invalid " +:+ label +:+ " fields");;
               Ok d
  | _ => raise ValueError ("invalid " +:+ label +:+ " fields")
  end.

Definition _integer (value : pyval) (low high : Z) (label : string) : res Z :=
  match value with
  | PInt z => raise_if (negb ((low <=? z) && (z <=? high))) ValueError ("invalid " +:+ label);;
              Ok z
  | _ => raise ValueError ("invalid " +:+ label)
  end.

(** [CollectionConfig( **_object(value, _CONFIG_KEYS, label))] *)
Definition decode_config (value : pyval) (label : string) : res CollectionConfig.t :=
  d ← _object value _CONFIG_KEYS label;
  CollectionConfig.init (keyword d CollectionConfig.DEFAULTS).

(** One turn of the loop over the vectors of a header. *)
Definition decode_field (name : string) (raw : pyval) : res VectorField.t :=
  raise_if (bool_decide (name = "") || contains nul name)
    ValueError "invalid named vector field name";;
  value ← _object raw _FIELD_KEYS "vector schema";
  hnsw ← dict_item value "hnsw";
  hnsw ← match hnsw with
         | PNone => Ok None
         | hnsw => c ← decode_config hnsw "field HNSW config"; Ok (Some c)
         end;
  dimension ← dict_item value "dimension";
  dtype ← dict_item value "dtype";
  kind ← dict_item value "kind";
  metric ← dict_item value "metric";
  VectorField.init dimension dtype kind metric hnsw.

Definition decode_header (header : dict)
    : res (CollectionConfig.t * list (string * VectorField.t)) :=
  _object (PDict header) _HEADER_KEYS "point export header";;
  format ← dict_item header "format";
  version ← dict_item header "version";
  raise_if (negb (py_eq format (PStr FORMAT)) || negb (is_int version) ||
            negb (py_eq version (PInt VERSION)))
    ValueError "unsupported logical point export version";;
  count ← dict_item header "count";
  _integer count 0 (2 ^ 63 - 1) "point count";;
  source_sequence ← dict_item header "source_sequence";
  _integer source_sequence 0 (2 ^ 64 - 1) "source sequence";;
  config ← dict_item header "config";
  config ← decode_config config "collection config";
  vectors ← dict_item header "vectors";
  match vectors with
  | PDict vectors =>
      schema ← map_res (fun '(name, raw) => f ← decode_field name raw; Ok (name, f)) vectors;
      Ok (config, schema)
  | _ => raise ValueError "point export vectors must be a schema object"
  end.

Definition is_point_header (value : dict) : bool :=
  dict_has value "format" || dict_has value "version".

Definition import_schema (source : string)
    : res (option (CollectionConfig.t * list (string * VectorField.t))) :=
  lines ← text_lines source;
  match lines with
  | [] => Ok None
  | line :: _ =>
      header ← decode_line line 1;
      if is_point_header header then decoded ← decode_header header; Ok (Some decoded)
      else Ok None
  end.

Definition _sparse (value : pyval) : res pyval :=
  match value with
  | PNone => Ok PNone
  | PList l =>
      for_each (fun item => _object item ["term_id"; "weight"] "sparse element";; Ok tt) l;;
      Ok value
  | _ => raise ValueError "sparse values must be a list"
  end.

(** The [binary] branch of [_vector] *)
Definition binary_vector (value : pyval) (dimension : Z) : res pyval :=
  let invalid := raise ValueError "invalid binary hexadecimal data" in
  d ← _object value ["encoding"; "data"] "binary vector";
  data ← dict_item d "data";
  encoding ← dict_item d "encoding";
  raise_if (negb (py_eq encoding (PStr "hex")))
    ValueError "invalid binary hexadecimal data";;
  match data with
  | PStr data =>
      raise_if (negb (Z.of_nat (String.length data) =? 2 * ((dimension + 7) / 8)) ||
                negb (all_hex data)) ValueError "invalid binary hexadecimal data";;
      match fromhex data with
      | Some b => Ok (bytes_value b)
      | None => invalid
      end
  | _ => invalid
  end.

Definition _vector (value : pyval) (spec : VectorField.t) : res pyval :=
  raise_if (is_none value) ValueError "absent named vectors must be omitted";;
  if bool_decide (VectorField.kind spec = "binary") then
    binary_vector value (VectorField.dimension spec)
  else if bool_decide (VectorField.kind spec = "sparse") then _sparse value
  else
    raise_if (negb (is_list value)) ValueError "numeric vectors must be lists";;
    Ok value.

(** [_object(item, {"name", "type", "value"}, "payload")] and [PayloadField( **item)] *)
Definition decode_payload (item : pyval) : res PayloadField.t :=
  d ← _object item ["name"; "type"; "value"] "payload";
  PayloadField.of_item (PDict d).

(** An integer of the header, which [decode_header] has checked. *)
Definition header_int (header : dict) (name : string) : res Z :=
  v ← dict_item header name;
  match v with
  | PInt z => Ok z
  | _ => raise TypeError "header value is not an integer"
  end.

(** One turn of the loop over the rows, [seen] being the identifiers before. *)
Definition decode_point (source_sequence : Z) (schema : list (string * VectorField.t))
    (seen : list Z) (row : dict) : res PointMutation.t :=
  _object (PDict row) _POINT_KEYS "point record";;
  id ← dict_item row "id";
  point_id ← _integer id (- 2 ^ 63) (2 ^ 63 - 1) "point ID";
  raise_if (bool_decide (point_id ∈ seen)) ValueError "duplicate point ID in logical import";;
  sequence ← dict_item row "sequence";
  sequence ← _integer sequence 1 source_sequence "point sequence";
  document_sequence ← dict_item row "document_sequence";
  _integer document_sequence 0 sequence "document sequence";;
  vectors ← dict_item row "vectors";
  vectors ← match vectors with
            | PDict vectors =>
                raise_if (negb (forallb (fun kv => assoc_has schema kv.1) vectors))
                  ValueError "unknown or invalid named vectors";;
                Ok vectors
            | _ => raise ValueError "unknown or invalid named vectors"
            end;
  updates ← map_res (fun '(name, spec) =>
              match dict_get vectors name with
              | Some value => v ← _vector value spec; Ok (name, VValue v)
              | None => Ok (name, VValue PNone)
              end) schema;
  vector ← dict_item row "vector";
  raise_if (negb (is_none vector) && negb (is_list vector))
    ValueError "default vector must be a list or null";;
  fields ← dict_item row "fields";
  fields ← match fields with
           | PList fields => Ok fields
           | _ => raise ValueError "payload fields must be a list"
           end;
  payload ← map_res decode_payload fields;
  sparse ← dict_item row "sparse";
  sparse ← _sparse sparse;
  Ok (PointMutation.upsert point_id (Some updates) (Some vector) (Some (VValue sparse))
        (Some payload)).

Definition decode_points (header : dict) (rows : list dict)
    (schema : list (string * VectorField.t)) : res (list PointMutation.t) :=
  count ← dict_item header "count";
  raise_if (negb (py_eq (PInt (Z.of_nat (length rows))) count))
    ValueError "point export row count mismatch";;
  source_sequence ← header_int header "source_sequence";
  '(result, _) ← for_fold (fun '(result, seen) row =>
      m ← decode_point source_sequence schema seen row;
      Ok (result ++ [m], seen ++ [PointMutation.id m])) ([], []) rows;
  Ok result.
