(* ===== verification/Operations.v ===== *)
(** Logical export and import, storage reports and the quarantine of orphaned
    files: [python/akashadb/operations.py]. *)

From S2P Require Import Prelude Assoc PyFloat PyValue Json Envelope Files Models KernelInterface Vectors Database LogicalPoints.

Module StorageReport.
Record t : Type := Mk {
  dimension : Z; format_version : Z; generation : Z; last_sequence : Z; segment_count : Z;
  live_points : Z; valid : bool; config_fingerprint : Z;
  segment_names : list string; sparse_names : list string }.
End StorageReport.

Section Texts.
(** [str(v)] of a list, tuple or dictionary: the text Python prints. *)
Variable container_text : pyval -> string.

Definition str_of (v : pyval) : string :=
  match py_str v with Some s => s | None => container_text v end.

(** [int(value[name])] and [tuple(str(x) for x in value[name])] *)
Definition report_int (value : dict) (name : string) : res Z :=
  v ← dict_item value name; py_int v.
Definition report_names (value : dict) (name : string) : res (list string) :=
  v ← dict_item value name; l ← Point.iterable v; Ok (map str_of l).

(** [StorageReport.from_kernel] *)
Definition storage_report (value : dict) : res StorageReport.t :=
  dimension ← report_int value "dimension";
  format_version ← report_int value "format_version";
  generation ← report_int value "generation";
  last_sequence ← report_int value "last_sequence";
  segment_count ← report_int value "segment_count";
  live_points ← report_int value "live_points";
  valid ← dict_item value "valid";
  config_fingerprint ← report_int value "config_fingerprint";
  segment_names ← report_names value "segment_names";
  sparse_names ← report_names value "sparse_names";
  Ok (StorageReport.Mk dimension format_version generation last_sequence segment_count
        live_points (truthy valid) config_fingerprint segment_names sparse_names).

(** * Quarantine *)

Section Storage.
(** What the entries of a directory hold. *)
Context {E : Type}.
(** [inspect_storage] and [restore_storage] of the compiled module: a report, and
    for the second the directory it fills. *)
Variable kernel_inspect : list (string * E) -> Z -> res pyval.
Variable kernel_restore : list (string * E) -> list (string * E) -> Z ->
  res pyval * list (string * E).

Definition inspect_storage (directory : list (string * E)) (dimension : Z)
    : res StorageReport.t :=
  raw ← kernel_inspect directory dimension;
  raw ← subscriptable raw;
  storage_report raw.

(** The state is the target directory. *)
Definition restore_storage (backup : list (string * E)) (dimension : Z)
    : M (list (string * E)) StorageReport.t := fun target =>
  let '(raw, target) := kernel_restore backup target dimension in
  (raw ← raw; raw ← subscriptable raw; storage_report raw, target).

(** [\d+\.bin(?:\.tmp)?], of ASCII digits *)
Definition numbered (s : string) : bool :=
  let '(ds, rest) := span_digits s in
  negb (bool_decide (ds = "")) && str_in rest [".bin"; ".bin.tmp"].

(** [(?:base-|delta-)?\d+\.bin(?:\.tmp)?] *)
Definition generation_file (s : string) : bool :=
  numbered s ||
  match drop_prefix "base-" s with Some r => numbered r | None => false end ||
  match drop_prefix "delta-" s with Some r => numbered r | None => false end.

(** [_ORPHAN_PATTERN.fullmatch(name)] *)
Definition _ORPHAN_PATTERN (name : string) : bool :=
  match drop_prefix "segment-" name with Some r => generation_file r | None => false end ||
  match drop_prefix "sparse-" name with Some r => generation_file r | None => false end ||
  bool_decide (name = "manifest.bin.tmp").

(** The storage directory and the quarantine, another directory; the second may
    not exist yet. *)
Record store : Type := Store {
  directory : list (string * E);
  quarantine : option (list (string * E)) }.

Definition referenced (report : StorageReport.t) : list string :=
  "manifest.bin" :: StorageReport.segment_names report ++ StorageReport.sparse_names report.

(** [target.mkdir(parents=True, exist_ok=True)] *)
Definition make_target (s : store) : store := Store (directory s) (Some (default [] (quarantine s))).

(** [os.replace(candidate, destination)] *)
Definition move_entry (name : string) (s : store) : store :=
  match assoc_get (directory s) name with
  | Some e => Store (assoc_delete (directory s) name)
                (Some (assoc_set (default [] (quarantine s)) name e))
  | None => s
  end.

Definition quarantine_candidate (keep moved : list string) (name : string)
    : M store (list string) :=
  if str_in name keep || negb (_ORPHAN_PATTERN name) then mret moved
  else
    s ← get_state;
    lift (raise_if (assoc_has (default [] (quarantine s)) name)
            FileExistsError ("quarantine target exists: " +:+ name));;
    modify (move_entry name);;
    mret (moved ++ [name]).

Definition quarantine_orphans (dimension : Z) : M store (list string) :=
  s ← get_state;
  report ← lift (inspect_storage (directory s) dimension);
  modify make_target;;
  for_fold_M (quarantine_candidate (referenced report)) []
    (isort String.leb (directory s).*1).
End Storage.

(** * Export and import *)

Section Collections.
Context {K : Type} `{!Kernel K}.
Variable perf_counter_ns : nat -> Z.

Definition backup_collection (target : string) : M (@Collection K) StorageReport.t :=
  raw ← backup perf_counter_ns target;
  lift (storage_report raw).

(** An export: the source, and the target file with its temporary. *)
Record exporting : Type := Exporting {
  source : @Collection K;
  destination : option file;
  temporary : option file }.

Definition with_source {A} (m : M (@Collection K) A) : M exporting A := fun s =>
  let '(r, c) := m (source s) in (r, Exporting c (destination s) (temporary s)).

Definition set_temporary (f : option file) (s : exporting) : exporting :=
  Exporting (source s) (destination s) f.

(** [output.write(json.dumps(value, ...) + "\n")] *)
Definition write_line (value : pyval) : M exporting unit :=
  text ← lift (dumps value);
  lift (raise_if (negb (utf8_strict text)) UnicodeEncodeError "surrogates not allowed");;
  modify (fun s => set_temporary (write (text +:+ String newline "") <$> temporary s) s).

(** [os.replace(temporary, destination)] and [temporary.unlink(missing_ok=True)] *)
Definition replace_destination (s : exporting) : exporting :=
  Exporting (source s) (temporary s) None.

Definition export_ndjson : M exporting Z :=
  captured ← with_source (_export_points perf_counter_ns);
  '(header, rows) ← match captured with
                    | None => rows ← with_source (_export_records perf_counter_ns);
                              mret (None, rows)
                    | Some captured =>
                        '(header, rows) ← lift (encode_export captured);
                        mret (Some header, rows)
                    end;
  try_finally
    (modify (set_temporary (Some (File "" 0)));;
     match header with Some header => write_line (PDict header) | None => mret tt end;;
     for_each_M write_line rows;;
     modify (fun s => set_temporary (fsync <$> temporary s) s);;
     modify replace_destination)
    (modify (set_temporary None));;
  mret (Z.of_nat (length rows)).

(** [_validate_sparse], on the identifiers and the weights *)
Fixpoint validate_from (previous : Z) (elements : list (Z * float)) : res unit :=
  match elements with
  | [] => Ok tt
  | (term_id, weight) :: elements =>
      raise_if ((term_id <? 0) || (term_id <=? previous))
        ValueError "sparse term IDs must be non-negative and ascending";;
      raise_if (negb (isfinite weight) || feqb weight fzero)
        ValueError "sparse weights must be finite and non-zero";;
      validate_from term_id elements
  end.

Definition _validate_sparse (elements : list (Z * float)) : res unit := validate_from (-1) elements.

(** [PayloadField(str(item["name"]), str(item["type"]), item["value"])] *)
Definition legacy_field (item : pyval) : res PayloadField.t :=
  d ← subscriptable item;
  name ← dict_item d "name";
  type ← dict_item d "type";
  value ← dict_item d "value";
  Ok (PayloadField.Mk (PStr (str_of name)) (PStr (str_of type)) value).

Definition legacy_element (item : pyval) : res (Z * float) :=
  d ← subscriptable item;
  term_id ← dict_item d "term_id"; term_id ← py_int term_id;
  weight ← dict_item d "weight"; weight ← py_float weight;
  Ok (term_id, weight).

(** One turn of the loop over the rows of a legacy file: the mutation, and the
    identifier with its sparse elements. *)
Definition legacy_row (row : dict) : res (BatchMutation.t * (Z * list (Z * float))) :=
  id ← dict_item row "id"; point_id ← py_int id;
  raw ← dict_item row "vector"; raw ← Point.iterable raw;
  vector ← map_res py_float raw;
  raw ← Point.iterable (dict_get_or row "fields" (PList []));
  fields ← map_res legacy_field raw;
  raw ← Point.iterable (dict_get_or row "sparse" (PList []));
  elements ← map_res legacy_element raw;
  _validate_sparse elements;;
  Ok (BatchMutation.upsert point_id (PFloat <$> vector) (Some fields), (point_id, elements)).

Definition sparse_element (e : Z * float) : SparseElement.t :=
  SparseElement.Mk (PInt e.1) (PFloat e.2).

(** The loop over the lines: [rows] are those of the lines before. *)
Fixpoint read_rows (max_batch_rows line_number : Z) (rows : list dict) (lines : list string)
    : res (list dict) :=
  match lines with
  | [] => Ok rows
  | line :: lines =>
      row ← decode_line line line_number;
      let rows := rows ++ [row] in
      let header_rows := match rows with
                         | first :: _ => if is_point_header first then 1 else 0
                         | [] => 0
                         end in
      raise_if (max_batch_rows <? Z.of_nat (length rows) - header_rows)
        ValueError "logical import resource limit exceeded";;
      read_rows max_batch_rows (line_number + 1) rows lines
  end.

(** The branch of a file with a header. *)
Definition import_points (header : dict) (rows : list dict) : M (@Collection K) Z :=
  '(config, schema) ← lift (decode_header header);
  field_aware ← _is_point_collection perf_counter_ns;
  lift (raise_if (negb field_aware)
          ValueError "logical point import requires a field-aware target");;
  current ← collection_config perf_counter_ns;
  fields ← if CollectionConfig.eqb config current
           then f ← vector_fields perf_counter_ns; mret (Some f) else mret None;
  lift (raise_if (negb (match fields with Some f => fields_eqb schema f | None => false end))
          ValueError "logical point import schema does not match target");;
  mutations ← lift (decode_points header rows schema);
  (if bool_decide (mutations = []) then mret tt
   else apply_point_batch perf_counter_ns mutations;; mret tt);;
  mret (Z.of_nat (length mutations)).

(** The branch of a file without one. *)
Definition import_legacy (rows : list dict) : M (@Collection K) Z :=
  c ← get_state;
  lift (raise_if (ResourceLimits.max_batch_rows (limits c) <? Z.of_nat (length rows))
          ValueError "logical import resource limit exceeded");;
  decoded ← lift (map_res legacy_row rows);
  apply_batch perf_counter_ns decoded.*1;;
  for_each_M (fun '(point_id, elements) =>
    if bool_decide (elements = []) then mret tt
    else upsert_sparse perf_counter_ns (PInt point_id) (sparse_element <$> elements))
    decoded.*2;;
  mret (Z.of_nat (length rows)).

(** [import_ndjson], of a file with the content [data]. *)
Definition import_ndjson (data : string) : M (@Collection K) Z :=
  lines ← lift (text_lines data);
  c ← get_state;
  rows ← lift (read_rows (ResourceLimits.max_batch_rows (limits c)) 1 [] lines);
  match rows with
  | [] => lift (raise ValueError "logical import cannot be empty")
  | header :: rest =>
      if is_point_header header then import_points header rest
      else import_legacy (header :: rest)
  end.
End Collections.
End Texts.
