(* ===== verification/Admin.v ===== *)
(** The command line of [python/akashadb/admin.py], on the arguments its parser
    gives. *)

From S2P Require Import Prelude Assoc PyFloat PyValue Json Envelope Files Models KernelInterface Vectors Database LogicalPoints Operations.

(** The commands with their arguments but the path and the dimension; a source
    that cannot be opened is [None]. *)
Inductive command : Type :=
| Inspect
| Scan
| Backup (target : string)
| Restore
| ExportTo
| ImportFrom (source : option string)
| QuarantineOrphans.

(** What a command prints: the JSON of a report, a count, or a path. *)
Inductive printed : Type :=
| Report (payload : dict)
| Count (n : Z)
| Path (name : string).

(** [asdict(report)] with its keys sorted, the value [report_json] prints *)
Definition report_json (r : StorageReport.t) : dict :=
  sort_items
    [("dimension", PInt (StorageReport.dimension r));
     ("format_version", PInt (StorageReport.format_version r));
     ("generation", PInt (StorageReport.generation r));
     ("last_sequence", PInt (StorageReport.last_sequence r));
     ("segment_count", PInt (StorageReport.segment_count r));
     ("live_points", PInt (StorageReport.live_points r));
     ("valid", PBool (StorageReport.valid r));
     ("config_fingerprint", PInt (StorageReport.config_fingerprint r));
     ("segment_names", PTuple (PStr <$> StorageReport.segment_names r));
     ("sparse_names", PTuple (PStr <$> StorageReport.sparse_names r))].

Section Admin.
Context {K : Type} `{!Kernel K}.
Context {E : Type}.
Variable perf_counter_ns : nat -> Z.
Variable container_text : pyval -> string.
Variable kernel_inspect : list (string * E) -> Z -> res pyval.
Variable kernel_restore : list (string * E) -> list (string * E) -> Z ->
  res pyval * list (string * E).
(** The compiled module's storage: the collection that the entries of a directory
    hold, and the entries a collection leaves. *)
Variable held_by : list (string * E) -> K.
Variable entries_of : K -> list (string * E).
Abbreviation Collection := (@Collection K).

(** What the arguments name: the directory of the path (of [backup] for a
    restore; no entries when it does not exist), the target as a directory, and as
    a file with its temporary. *)
Record world : Type := World {
  place : list (string * E);
  target_directory : option (list (string * E));
  target_file : option file;
  target_temporary : option file }.

(** [destination.exists() and any(destination.iterdir())] *)
Definition existing (w : world) : bool := match place w with [] => false | _ => true end.

Definition import_target (cmd : command)
    : res (option (CollectionConfig.t * list (string * VectorField.t))) :=
  match cmd with
  | ImportFrom (Some data) => import_schema data
  | ImportFrom None => raise FileNotFoundError "No such file or directory"
  | _ => Ok None
  end.

(** [Collection(args.path, args.dimension, ...)] *)
Definition open_target (dim : Z)
    (schema : option (CollectionConfig.t * list (string * VectorField.t))) (w : world)
    : res Collection :=
  let directory := if existing w then Some (held_by (place w)) else None in
  match schema with
  | Some (config, vectors) =>
      if existing w then
        open_collection directory dim (CollectionConfig.Value PNone) None None None
      else
        raise_if (negb (CollectionConfig.dimension config =? dim))
          ValueError "logical point import dimension does not match target";;
        open_collection directory dim (CollectionConfig.Config config) (Some vectors) None None
  | None => open_collection directory dim (CollectionConfig.Value PNone) None None None
  end.

(** The body of the [try] *)
Definition run_command (cmd : command) : M (@exporting K) (list printed) :=
  match cmd with
  | Backup target =>
      report ← with_source (backup_collection container_text perf_counter_ns target);
      mret [Report (report_json report)]
  | ExportTo => n ← export_ndjson perf_counter_ns; mret [Count n]
  | ImportFrom (Some data) =>
      n ← with_source (import_ndjson container_text perf_counter_ns data); mret [Count n]
  | _ => mret []
  end.

(** The [try] and its [finally] *)
Definition session (cmd : command) : M (@exporting K) (list printed) :=
  try_finally (run_command cmd) (with_source (close perf_counter_ns)).

Definition with_session (cmd : command) (collection : Collection) : M world (list printed) := fun w =>
  let '(r, s) := session cmd (Exporting collection (target_file w) (target_temporary w)) in
  (r, World (entries_of (_kernel (source s))) (target_directory w) (destination s) (temporary s)).

Definition collection_command (cmd : command) (dim : Z) : M world (list printed) :=
  schema ← lift (import_target cmd);
  w ← get_state;
  collection ← lift (open_target dim schema w);
  with_session cmd collection.

Definition inspect_command (dim : Z) : M world (list printed) :=
  w ← get_state;
  report ← lift (inspect_storage container_text kernel_inspect (place w) dim);
  mret [Report (report_json report)].

Definition restore_command (dim : Z) : M world (list printed) := fun w =>
  let '(r, target) := restore_storage container_text kernel_restore (place w) dim
                        (default [] (target_directory w)) in
  (report ← (r : res StorageReport.t); Ok [Report (report_json report)],
   World (place w) (Some target) (target_file w) (target_temporary w)).

Definition quarantine_command (dim : Z) : M world (list printed) := fun w =>
  let '(r, s) := quarantine_orphans container_text kernel_inspect dim
                   (Store (place w) (target_directory w)) in
  (moved ← (r : res (list string)); Ok (map Path moved),
   World (directory s) (quarantine s) (target_file w) (target_temporary w)).

Definition main (cmd : command) (dim : Z) : M world (list printed) :=
  match cmd with
  | Inspect | Scan => inspect_command dim
  | Restore => restore_command dim
  | QuarantineOrphans => quarantine_command dim
  | cmd => collection_command cmd dim
  end.
End Admin.
