(* ===== verification/Server.v ===== *)
(** The HTTP adapter of [apps/server]: the request bodies of [schemas.py], the
    routes of [routes/collections.py] and [routes/points.py], and the application
    of [main.py] with its error handlers.  The framework parses the bodies, calls
    the route and renders its answer; what it refuses by the declared constraints
    is the [valid] of each body. *)

From S2P Require Import Prelude Assoc PyFloat PyValue Json Envelope Models KernelInterface Vectors Database.

(** * Bodies *)

(** [Field(default=None, ge=...)] and the like, of an optional field *)
Definition absent_or {A} (test : A -> bool) (v : option A) : bool :=
  match v with Some a => test a | None => true end.

Definition at_least (n z : Z) : bool := n <=? z.

Module OpenCollectionRequest.
Record t : Type := Mk {
  dimension : Z;
  ann_metric : option string;
  scalar_kind : option string;
  m : option Z;
  m0 : option Z;
  ef_construction : option Z;
  default_ef_search : option Z;
  max_ef_search : option Z;
  max_level : option Z;
  rebuild_inactive_percent : option Z;
  delta_max_points : option Z;
  level_seed : option Z }.

Definition valid (b : t) : bool :=
  (0 <? dimension b) &&
  absent_or (fun s => str_in s ["dot"; "l2"; "cosine"]) (ann_metric b) &&
  absent_or (fun s => str_in s ["f32"; "bf16"; "f16"; "i8"]) (scalar_kind b) &&
  forallb (absent_or (at_least 0))
    [m b; m0 b; ef_construction b; default_ef_search b; max_ef_search b; max_level b;
     rebuild_inactive_percent b; delta_max_points b; level_seed b] &&
  absent_or (fun z => z <=? 0xFFFFFFFFFFFFFFFF) (level_seed b).

(** The optional fields, [dimension] popped *)
Definition options (b : t) : list (string * option pyval) :=
  [("ann_metric", PStr <$> ann_metric b); ("scalar_kind", PStr <$> scalar_kind b);
   ("m", PInt <$> m b); ("m0", PInt <$> m0 b); ("ef_construction", PInt <$> ef_construction b);
   ("default_ef_search", PInt <$> default_ef_search b); ("max_ef_search", PInt <$> max_ef_search b);
   ("max_level", PInt <$> max_level b);
   ("rebuild_inactive_percent", PInt <$> rebuild_inactive_percent b);
   ("delta_max_points", PInt <$> delta_max_points b); ("level_seed", PInt <$> level_seed b)].

(** [model_dump(exclude_none=True)] *)
Definition present (l : list (string * option pyval)) : dict :=
  omap (fun '(name, v) => pair name <$> v) l.

Definition values (b : t) : dict := present (options b).

Definition collection_config (b : t) : res (option CollectionConfig.t) :=
  match values b with
  | [] => Ok None
  | values => c ← CollectionConfig.defaults (dimension b) values; Ok (Some c)
  end.
End OpenCollectionRequest.

Module PayloadFieldRequest.
Record t : Type := Mk { name : string; type : string; value : pyval }.

(** The [value] is a string, an integer, a float or a Boolean. *)
Definition valid (b : t) : bool :=
  negb (bool_decide (name b = "")) && str_in (type b) ["string"; "int"; "float"; "bool"] &&
  (is_str (value b) || is_int (value b) || is_float (value b) || is_bool (value b)).

(** [PayloadField( **item.model_dump())] *)
Definition field (b : t) : PayloadField.t :=
  PayloadField.Mk (PStr (name b)) (PStr (type b)) (value b).
End PayloadFieldRequest.

Module SparseElementRequest.
Record t : Type := Mk { term_id : Z; weight : float }.

Definition valid (b : t) : bool := 0 <=? term_id b.

(** [SparseElement( **item.model_dump())] *)
Definition element (b : t) : SparseElement.t :=
  SparseElement.Mk (PInt (term_id b)) (PFloat (weight b)).
End SparseElementRequest.

Module UpsertRequest.
Record t : Type := Mk {
  id : Z;
  vector : list float;
  fields : option (list PayloadFieldRequest.t);
  sparse : option (list SparseElementRequest.t) }.

Definition valid (b : t) : bool :=
  (0 <? length (vector b))%nat &&
  absent_or (forallb PayloadFieldRequest.valid) (fields b) &&
  absent_or (forallb SparseElementRequest.valid) (sparse b).
End UpsertRequest.

Module SearchRequestBody.
Record t : Type := Mk {
  metric : string;
  mode : string;
  k : Z;
  vector : option (list float);
  sparse : list SparseElementRequest.t;
  ef_search : Z;
  fetch_k : Z;
  rank_constant : Z;
  filter : option dict }.

Definition valid (b : t) : bool :=
  str_in (metric b) ["dot"; "l2"; "cosine"] &&
  str_in (mode b) ["exact"; "approx"; "sparse"; "hybrid"] &&
  (0 <? k b) && forallb SparseElementRequest.valid (sparse b) && (0 <? ef_search b) &&
  (0 <? fetch_k b) && (0 <? rank_constant b).

Definition request (b : t) : SearchRequest.t :=
  SearchRequest.Mk (PStr (metric b)) (k b)
    (match vector b with Some v => PList (PFloat <$> v) | None => PNone end)
    (SparseElementRequest.element <$> sparse b) (PStr (mode b)) (ef_search b) (fetch_k b)
    (rank_constant b) (opt_filter (filter b)).
End SearchRequestBody.

(** * Routes *)

Section Server.
Context {K : Type} `{!Kernel K}.
Variable perf_counter_ns : nat -> Z.
Abbreviation database := (@LocalDatabase K).
Abbreviation Collection := (@Collection K).

(** A route answers with a value, or raises [HTTPException]. *)
Inductive answer : Type :=
| Content (v : pyval)
| HTTPException (status_code : Z) (detail : string).

(** A method of the collection that [database.collection(name)] found *)
Definition of_collection {A} (name : string) (m : M Collection A) : M database A :=
  with_collection name m (not_open name).

Definition open_collection (name : string) (body : OpenCollectionRequest.t) : M database answer :=
  config ← lift (OpenCollectionRequest.collection_config body);
  db_open perf_counter_ns name (OpenCollectionRequest.dimension body)
    (match config with
     | Some c => CollectionConfig.Config c
     | None => CollectionConfig.Value PNone
     end) None;;
  collection ← db_collection name;
  sequence ← of_collection name (last_sequence perf_counter_ns);
  config ← of_collection name (collection_config perf_counter_ns);
  mret (Content (PDict [("name", PStr name); ("dimension", PInt (dimension collection));
                        ("last_sequence", PInt sequence);
                        ("config", PDict (CollectionConfig.asdict config))])).

Definition collection_stats (name : string) : M database answer :=
  db_collection name;;
  config ← of_collection name (collection_config perf_counter_ns);
  stats ← of_collection name (last_search_stats perf_counter_ns);
  mret (Content (PDict [("config", PDict (CollectionConfig.asdict config));
                        ("last_search", PDict stats)])).

Definition close_collection (name : string) : M database answer :=
  db_close perf_counter_ns name;;
  mret (Content (PDict [("closed", PBool true)])).

Definition sequence_of (name : string) : M database answer :=
  sequence ← of_collection name (last_sequence perf_counter_ns);
  mret (Content (PDict [("last_sequence", PInt sequence)])).

Definition flush_collection (name : string) : M database answer :=
  db_collection name;;
  of_collection name (flush perf_counter_ns);;
  sequence_of name.

Definition upsert_point (name : string) (body : UpsertRequest.t) : M database answer :=
  db_collection name;;
  let id := PInt (UpsertRequest.id body) in
  of_collection name (upsert perf_counter_ns id (PList (PFloat <$> UpsertRequest.vector body))
    (option_map (map PayloadFieldRequest.field) (UpsertRequest.fields body)));;
  match UpsertRequest.sparse body with
  | Some elements =>
      of_collection name (upsert_sparse perf_counter_ns id
        (SparseElementRequest.element <$> elements))
  | None => mret tt
  end;;
  sequence_of name.

Definition delete_point (name : string) (point_id : Z) : M database answer :=
  db_collection name;;
  of_collection name (delete perf_counter_ns (PInt point_id));;
  sequence_of name.

Definition get_point (name : string) (point_id : Z) : M database answer :=
  db_collection name;;
  document ← of_collection name (get perf_counter_ns (PInt point_id) None);
  mret match document with
       | None => HTTPException 404 "point not found"
       | Some document =>
           Content (PDict [("id", PInt (Document.id document));
                           ("sequence", PInt (Document.sequence document));
                           ("vector", PList (PFloat <$> Document.vector document));
                           ("fields", PList (PayloadField.to_kernel <$> Document.fields document))])
       end.

Definition search_points (name : string) (body : SearchRequestBody.t) : M database answer :=
  db_collection name;;
  results ← of_collection name (search perf_counter_ns (SearchRequestBody.request body));
  mret (Content (PList ((fun item => PDict [("id", PInt (SearchResult.id item));
                                            ("score", PFloat (SearchResult.score item))]) <$> results))).

Definition health : M database answer :=
  mret (Content (PDict [("status", PStr "ok"); ("kernel", PStr "mojo")])).

(** [LocalDatabase.metrics()] as the dictionaries it builds *)
Definition metrics : M database answer :=
  db ← get_state;
  let '(open, collections) := db_metrics db in
  mret (Content (PDict [("open_collections", PInt open);
    ("collections", PDict ((fun '(name, s) => (name, PDict
      [("operations", PInt (MetricsSnapshot.operations s)); ("writes", PInt (MetricsSnapshot.writes s));
       ("queries", PInt (MetricsSnapshot.queries s)); ("failures", PInt (MetricsSnapshot.failures s));
       ("cancellations", PInt (MetricsSnapshot.cancellations s));
       ("total_duration_ns", PInt (MetricsSnapshot.total_duration_ns s))])) <$> collections))])).

(** * The application *)

Inductive request : Type :=
| OpenCollection (name : string) (body : OpenCollectionRequest.t)
| CollectionStats (name : string)
| CloseCollection (name : string)
| FlushCollection (name : string)
| UpsertPoint (name : string) (body : UpsertRequest.t)
| DeletePoint (name : string) (point_id : Z)
| GetPoint (name : string) (point_id : Z)
| SearchPoints (name : string) (body : SearchRequestBody.t)
| Health
| Metrics.

Definition valid (r : request) : bool :=
  match r with
  | OpenCollection _ body => OpenCollectionRequest.valid body
  | UpsertPoint _ body => UpsertRequest.valid body
  | SearchPoints _ body => SearchRequestBody.valid body
  | _ => true
  end.

Definition route (r : request) : M database answer :=
  match r with
  | OpenCollection name body => open_collection name body
  | CollectionStats name => collection_stats name
  | CloseCollection name => close_collection name
  | FlushCollection name => flush_collection name
  | UpsertPoint name body => upsert_point name body
  | DeletePoint name point_id => delete_point name point_id
  | GetPoint name point_id => get_point name point_id
  | SearchPoints name body => search_points name body
  | Health => health
  | Metrics => metrics
  end.

Record response : Type := Response { status : Z; content : pyval }.

Definition detail (message : string) : pyval := PDict [("detail", PStr message)].

(** The handlers of [create_app]: the one of the nearest class that has one. *)
Definition handle_error (e : exn) : response :=
  if issubclass (exn_type e) CollectionNotFoundError then Response 404 (detail (exn_message e))
  else if issubclass (exn_type e) AkashaError then Response 400 (detail (exn_message e))
  else Response 500 (PStr "Internal Server Error").

(** One request to the application. *)
Definition respond (r : request) (db : database) : response * database :=
  if negb (valid r) then (Response 422 (detail "validation error"), db)
  else match route r db with
       | (Ok (Content v), db) => (Response 200 v, db)
       | (Ok (HTTPException code message), db) => (Response code (detail message), db)
       | (Raise e, db) => (handle_error e, db)
       end.

(** [lifespan]: the requests, then the end of the application. *)
Definition lifespan (requests : list request) (db : database) : list response * database :=
  let '(responses, db) := foldl (fun acc r =>
    let '(out, db) := respond r acc.2 in (acc.1 ++ [out], db)) ([], db) requests in
  (responses, (db_close_all perf_counter_ns db).2).
End Server.
