(* ===== verification/ServerFacts.v ===== *)
(** What the routes of the HTTP adapter can raise, on a kernel whose replies have
    the types the adapter converts. *)

From S2P Require Import Prelude Assoc PyFloat PyValue Json Envelope Models KernelConfig KernelInterface Vectors Database DatabaseFacts Server.

(** * Triples for computations that may only raise refusals *)

(** The errors of the adapter that become a 400 *)
Definition refusal (e : exn) : Prop :=
  exn_type e ∈ [ValidationError; CollectionClosedError; CollectionAlreadyOpenError].

(** From a state with [P], [m] raises a refusal or returns with [Q]. *)
Definition safe {S A} (P : S -> Prop) (m : M S A) (Q : A -> S -> Prop) : Prop := forall s, P s ->
  match m s with
  | (Ok a, s') => Q a s'
  | (Raise e, _) => refusal e
  end.

Section Safe.
Context {S : Type}.

Lemma safe_bind {A B} (P : S -> Prop) (m : M S A) Q (f : A -> M S B) R :
  safe P m Q -> (forall a, safe (Q a) (f a) R) -> safe P (m ≫= f) R.
Proof.
  intros Hm Hf s Hs. specialize (Hm s Hs). unfold mbind, M_bind.
  destruct (m s) as [[a|e] s']; [|done]. exact (Hf a s' Hm).
Qed.

Lemma safe_ret {A} (a : A) (Q : A -> S -> Prop) : safe (Q a) (mret a) Q.
Proof. by intros s Hs. Qed.

Lemma safe_ret_of {A} (P : S -> Prop) (a : A) (Q : A -> S -> Prop) :
  (forall s, P s -> Q a s) -> safe P (mret a) Q.
Proof. intros Hq s Hs. exact (Hq s Hs). Qed.

Lemma safe_lift {A} (P : S -> Prop) (r : res A) :
  (forall e, r = Raise e -> refusal e) -> safe P (lift r) (fun a s => r = Ok a /\ P s).
Proof. intros Hr s Hs. unfold lift. destruct r as [a|e]; [done|]. by apply Hr. Qed.

Lemma safe_Ok {A} (P : S -> Prop) (r : res A) a : r = Ok a -> safe P (lift r) (fun b s => b = a /\ P s).
Proof. by intros -> s Hs. Qed.

Lemma safe_get (P : S -> Prop) : safe P get_state (fun a s => a = s /\ P s).
Proof. by intros s Hs. Qed.

Lemma safe_pre {A} (P P' : S -> Prop) (m : M S A) Q :
  (forall s, P s -> P' s) -> safe P' m Q -> safe P m Q.
Proof. intros Hp Hm s Hs. by apply Hm, Hp. Qed.

Lemma safe_if {A} (P : S -> Prop) (m : M S A) (Q : A -> S -> Prop) : (forall s, P s -> safe (eq s) m Q) -> safe P m Q.
Proof. intros Hm s Hs. by apply (Hm s Hs). Qed.

(** A check that raises a refusal *)
Lemma safe_guard {B} (P : S -> Prop) cond message (m : M S B) Q :
  safe P m Q -> safe P (lift (raise_if cond ValidationError message);; m) Q.
Proof.
  intros Hm s Hs. rewrite run_guard. destruct cond; [|by apply Hm]. unfold refusal. cbn. set_solver.
Qed.
End Safe.

Lemma bind_Raise {A B} (f : A -> res B) (m : res A) e :
  (m ≫= f) = Raise e <-> m = Raise e \/ exists a, m = Ok a /\ f a = Raise e.
Proof.
  destruct m as [a|e']; cbn; split.
  - intros H. right. by exists a.
  - intros [|(a' & [= <-] & H)]; done.
  - intros [= ->]. by left.
  - intros [[= ->]|(a' & ? & _)]; done.
Qed.

Lemma mapped_refusal e : refusal (map_kernel_error e).
Proof.
  unfold refusal, map_kernel_error. destruct (contains _ _); [cbn; set_solver|].
  destruct (contains _ _); cbn; set_solver.
Qed.

(** * The configuration of a body *)

Section Configuration.
Import OpenCollectionRequest.

(** The options of the body over the defaults *)
Definition configured (b : t) : CollectionConfig.t :=
  CollectionConfig.Mk (dimension b) (default "l2" (ann_metric b)) (default "f32" (scalar_kind b))
    (default 16 (m b)) (default 32 (m0 b)) (default 128 (ef_construction b))
    (default 64 (default_ef_search b)) (default 512 (max_ef_search b)) (default 32 (max_level b))
    (default 25 (rebuild_inactive_percent b)) (default 10000 (delta_max_points b))
    (default 0xA5A5A5A5A5A5A5A5 (level_seed b)) None.

Lemma present_get (l : list (string * option pyval)) name :
  NoDup l.*1 -> dict_get (present l) name = default None (assoc_get l name).
Proof.
  unfold present. induction l as [|[other v] l IH]; [done|]. rewrite fmap_cons, NoDup_cons. cbn [fst].
  intros [Hn Hl]. cbn [omap list_omap assoc_get]. case_bool_decide as Hc.
  - subst other. destruct v as [v|]; cbn; [by rewrite bool_decide_eq_true_2|].
    rewrite IH by done. by rewrite (proj2 (assoc_get_None l name) Hn).
  - destruct v as [v|]; cbn; [rewrite bool_decide_eq_false_2 by done|]; by apply IH.
Qed.

Lemma present_known (l : list (string * option pyval)) names :
  l.*1 ⊆ names -> check_keywords (present l) names = Ok tt.
Proof.
  intros Hl. unfold check_keywords.
  assert (forallb (fun kv => str_in kv.1 names) (present l) = true) as ->; [|done].
  apply forallb_forall. intros [k v] Hin%list_elem_of_In. apply list_elem_of_omap in Hin as ([n o] & Hin & Ho).
  destruct o as [o|]; [|done]. cbn in Ho. injection Ho as -> ->. apply bool_decide_eq_true_2, Hl.
  apply list_elem_of_fmap. by exists (k, Some v).
Qed.

Lemma options_names b : NoDup (options b).*1.
Proof.
  change (options b).*1 with (removelast (tail CollectionConfig.FIELDS)).
  apply (bool_decide_eq_true_1 _). vm_compute. reflexivity.
Qed.

Lemma values_get b :
  Forall (fun name => keyword (values b) (("dimension", PInt (dimension b)) :: CollectionConfig.DEFAULTS) name =
    CollectionConfig.fields_of (configured b) name) CollectionConfig.FIELDS.
Proof.
  assert (Forall (fun name => match default None (assoc_get (options b) name) with
    | Some v => v
    | None => dict_get_or (("dimension", PInt (dimension b)) :: CollectionConfig.DEFAULTS) name PNone
    end = CollectionConfig.fields_of (configured b) name) CollectionConfig.FIELDS) as Hg.
  { destruct b. repeat apply Forall_cons_2; try apply Forall_nil_2; vm_compute;
      repeat match goal with |- context [match ?v with Some _ => _ | None => _ end] =>
        is_var v; destruct v end; reflexivity. }
  eapply Forall_impl; [exact Hg|]. cbv beta. intros name Hname. unfold keyword.
  unfold values. rewrite present_get by apply options_names. exact Hname.
Qed.

Lemma values_known b : check_keywords (values b) CollectionConfig.FIELDS = Ok tt.
Proof.
  apply present_known. intros name Hname.
  change CollectionConfig.FIELDS with ("dimension" :: (options b).*1 ++ ["fingerprint"]).
  right. apply elem_of_app. by left.
Qed.

Lemma valid_fields b : valid b = true -> CollectionConfig.well_formed (configured b).
Proof.
  unfold valid, CollectionConfig.well_formed, configured. cbn [forallb CollectionConfig.dimension
    CollectionConfig.ann_metric CollectionConfig.scalar_kind CollectionConfig.level_seed].
  rewrite !andb_true_iff. intros ((((Hd & Ha) & Hs) & Hall) & Hl). split_and!.
  - lia.
  - destruct (ann_metric b) as [s|]; cbn in Ha |- *; [|set_solver]. unfold str_in in Ha. by inv_py.
  - destruct (scalar_kind b) as [s|]; cbn in Hs |- *; [|set_solver]. unfold str_in in Hs. by inv_py.
  - destruct (level_seed b) as [z|]; cbn in *; [|lia]. unfold at_least in Hall. lia.
  - destruct (level_seed b) as [z|]; cbn in *; lia.
Qed.

(** The options go over the defaults, and make a configuration. *)
Lemma defaults_configured b :
  CollectionConfig.well_formed (configured b) ->
  CollectionConfig.defaults (dimension b) (values b) = Ok (configured b).
Proof.
  intros Hw. unfold CollectionConfig.defaults.
  assert (exists c, CollectionConfig.init (keyword []
    (("dimension", PInt (dimension b)) :: CollectionConfig.DEFAULTS)) = Ok c) as [c ->].
  { eexists (CollectionConfig.Mk (dimension b) "l2" "f32" 16 32 128 64 512 32 25 10000
      0xA5A5A5A5A5A5A5A5 None). apply CollectionConfig.init_Ok. split.
    - split; [apply Hw|]. cbn. split_and!; [set_solver|set_solver|lia|lia].
    - by repeat constructor. }
  cbn [mbind res_bind]. rewrite values_known. cbn [mbind res_bind].
  apply CollectionConfig.init_Ok. split; [done|apply values_get].
Qed.

Lemma valid_config b :
  valid b = true ->
  collection_config b = Ok (match values b with [] => None | _ => Some (configured b) end).
Proof.
  intros Hv. pose proof (defaults_configured b (valid_fields b Hv)) as Hd. unfold collection_config.
  destruct (values b); [done|]. by rewrite Hd.
Qed.

Lemma default_config dim : 0 < dim -> exists c, CollectionConfig.defaults dim [] = Ok c.
Proof.
  intros Hd. eexists. apply (defaults_configured (Mk dim None None None None None None None None None None None)).
  split; [exact Hd|]. cbn. split_and!; [set_solver|set_solver|lia|lia].
Qed.
End Configuration.

(** * Replies with the types the adapter expects *)

Definition hit_methods : list string :=
  ["search_dot"; "search_l2"; "search_cosine"; "search_sparse"; "search_hybrid"; "search_approx";
   "search_sparse_where"; "search_hybrid_where"; "search_dense_where"].

(** The signatures of [KernelCollection]: sequences are integers, configurations,
    counters and documents are dictionaries with their fields, and hits have an
    identifier and a score; opening raises ordinary exceptions, and an open
    collection tells its configuration. *)
Class TypedReplies (K : Type) `{!Kernel K} : Prop := {
  reply_sequence (k : K) v k' : kernel_call "last_sequence" [] k = (Ok v, k') -> exists z, v = PInt z;
  reply_config (k : K) v k' : kernel_call "collection_config" [] k = (Ok v, k') ->
    exists d c, v = PDict d /\ CollectionConfig.from_kernel d = Ok c;
  reply_stats (k : K) v k' : kernel_call "last_search_stats" [] k = (Ok v, k') ->
    exists d stats, v = PDict d /\ SearchStats.from_kernel d = Ok stats;
  reply_get id (k : K) v k' : kernel_call "get" [PInt id] k = (Ok v, k') ->
    v = PNone \/ exists d document, v = PDict d /\ document_of d = Ok document;
  reply_hits method args (k : K) v k' : method ∈ hit_methods ->
    kernel_call method args k = (Ok v, k') ->
    exists l hits, v = PList l /\ map_res SearchResult.of_item l = Ok hits;
  open_errors (dir : option K) dim config schema e :
    kernel_open dir dim config schema = Raise e -> issubclass (exn_type e) Exception = true;
  open_config (dir : option K) dim config schema k : kernel_open dir dim config schema = Ok k ->
    exists d c k', kernel_call "collection_config" [] k = (Ok (PDict d), k') /\
      CollectionConfig.from_kernel d = Ok c }.

Section Collections.
Context {K : Type} `{!Kernel K, !OrdinaryErrors K, !TypedReplies K}.
Variable perf_counter_ns : nat -> Z.
Abbreviation Collection := (@Collection K).
Abbreviation calm := (fun _ : Collection => True).
Abbreviation _call := (_call perf_counter_ns).

(** A call gives the reply of the kernel or raises a refusal. *)
Lemma call_safe method args : safe calm (_call method args)
  (fun v _ => exists k k', kernel_call method args k = (Ok v, k')).
Proof.
  intros c _. destruct (call_state perf_counter_ns method args c) as (duration & sequence & H).
  destruct (kernel_call method args (_kernel c)) as [[v|e] k] eqn:Hk; rewrite H; cbn [adapt];
    [by exists (_kernel c), k|]. apply mapped_refusal.
Qed.

Lemma call_then {A} method args (f : pyval -> M Collection A) :
  (forall v k k', kernel_call method args k = (Ok v, k') -> safe calm (f v) (fun _ _ => True)) ->
  safe calm (_call method args ≫= f) (fun _ _ => True).
Proof.
  intros Hf. eapply safe_bind; [apply call_safe|]. intros v c (k & k' & Hk). by apply (Hf v k k' Hk c).
Qed.

Lemma unit_call_safe method args : safe calm (_call method args;; mret tt) (fun _ _ => True).
Proof. apply call_then. by intros. Qed.

Lemma last_sequence_safe : safe calm (last_sequence perf_counter_ns) (fun _ _ => True).
Proof. apply call_then. intros v k k' (z & ->)%reply_sequence. done. Qed.

Lemma collection_config_safe : safe calm (collection_config perf_counter_ns) (fun _ _ => True).
Proof.
  apply call_then. intros v k k' (d & c & -> & Hd)%reply_config s _. rewrite run_lift. cbn [as_mapping].
  unfold lift. by rewrite Hd.
Qed.

Lemma last_search_stats_safe : safe calm (last_search_stats perf_counter_ns) (fun _ _ => True).
Proof.
  apply call_then. intros v k k' (d & c & -> & Hd)%reply_stats s _. rewrite run_lift. cbn [as_mapping].
  unfold lift. by rewrite Hd.
Qed.

Lemma get_safe id : safe calm (get perf_counter_ns (PInt id) None) (fun _ _ => True).
Proof.
  apply call_then. intros v k k' [-> |(d & doc & -> & Hd)]%reply_get s _; [done|].
  rewrite run_lift. cbn [subscriptable]. rewrite run_lift, Hd. done.
Qed.

Lemma upsert_safe id vector fields : safe calm (upsert perf_counter_ns id vector fields) (fun _ _ => True).
Proof. destruct fields; apply unit_call_safe. Qed.

(** What a search gets from the kernel: the reply of a method that finds hits *)
Definition hits_reply (v : pyval) (c : Collection) : Prop :=
  exists method args k k', method ∈ hit_methods /\ kernel_call method args k = (Ok v, k').

Lemma hits_safe method args : method ∈ hit_methods -> safe calm (_call method args) hits_reply.
Proof.
  intros Hm c _. pose proof (call_safe method args c I) as Hc. destruct (_call method args c) as [[v|e] c'];
    [|done]. destruct Hc as (k & k' & Hk). by exists method, args, k, k'.
Qed.

Lemma exact_method_of metric :
  str_in metric ["dot"; "l2"; "cosine"] = true ->
  exists method, exact_method (PStr metric) = Ok method /\ method +:+ "" ∈ hit_methods.
Proof.
  unfold str_in. intros Hm%bool_decide_eq_true. unfold hit_methods.
  rewrite !elem_of_cons in Hm. destruct Hm as [-> | [-> | [-> |[]%elem_of_nil]]];
    (eexists; split; [reflexivity|cbn; set_solver]).
Qed.

Lemma search_raw_safe (body : SearchRequestBody.t) :
  str_in (SearchRequestBody.metric body) ["dot"; "l2"; "cosine"] = true ->
  safe calm (_search_raw perf_counter_ns (SearchRequestBody.request body) false) hits_reply.
Proof.
  intros Hm. unfold _search_raw. eapply safe_bind; [apply safe_get|]. intros c.
  eapply (safe_pre _ calm); [done|]. apply safe_guard.
  destruct (exact_method_of _ Hm) as (method & He & Hmethod).
  repeat match goal with |- safe _ (if ?b then _ else _) _ => destruct b end;
    repeat apply safe_guard;
    try (apply hits_safe, (bool_decide_eq_true_1 _); vm_compute; reflexivity).
  cbn [SearchRequest.metric SearchRequestBody.request]. rewrite He.
  eapply safe_bind; [by apply safe_Ok|]. intros m. eapply safe_if. intros s [-> _].
  eapply (safe_pre _ calm); [done|]. by apply hits_safe.
Qed.

(** A search of a valid body *)
Lemma search_safe (body : SearchRequestBody.t) :
  SearchRequestBody.valid body = true ->
  safe calm (search perf_counter_ns (SearchRequestBody.request body)) (fun _ _ => True).
Proof.
  intros Hv. unfold SearchRequestBody.valid in Hv. eapply safe_bind.
  { apply search_raw_safe. by inv_py. }
  intros v s (method & args & k & k' & Hm & Hk).
  apply (reply_hits method args k v k') in Hk as (l & hits & -> & Hl); [|done].
  rewrite run_lift. cbn [Point.iterable]. unfold lift. by rewrite Hl.
Qed.

(** * Methods of the collection of a name *)

Definition is_open (name : string) (db : @LocalDatabase K) : Prop :=
  is_Some (assoc_get (_collections db) name).

Lemma of_collection_safe {A} name (m : M Collection A) :
  safe calm m (fun _ _ => True) -> safe (is_open name) (of_collection name m) (fun _ => is_open name).
Proof.
  intros Hm db [c Hc]. unfold of_collection, with_collection. rewrite Hc. specialize (Hm c I).
  destruct (m c) as [[a|e] c']; [|done]. eexists. apply assoc_get_set_eq.
Qed.

Lemma db_collection_open name :
  safe (is_open name) (db_collection name) (fun _ => is_open name).
Proof. intros db [c Hc]. unfold db_collection. rewrite run_get, Hc. by exists c. Qed.

Lemma db_collection_not_open {A} name (f : Collection -> M (@LocalDatabase K) A) db :
  ~ is_open name db -> (db_collection name ≫= f) db = (not_open name, db).
Proof.
  unfold is_open, db_collection, mbind, M_bind, get_state, lift. destruct (assoc_get _ name); [|done].
  intros []. by eexists.
Qed.

(** ** Opening *)

Lemma from_options_errors dim config e :
  CollectionConfig.from_options dim (CollectionConfig.Config config) = Raise e -> exn_type e = ValueError.
Proof. cbn. destruct (negb _); [by intros [= <-]|done]. Qed.

(** The configuration a route passes to [open] *)
Definition config_value (config : option CollectionConfig.t) : CollectionConfig.option_value :=
  match config with
  | Some c => CollectionConfig.Config c
  | None => CollectionConfig.Value PNone
  end.

Lemma requested_config dim config e :
  0 < dim -> CollectionConfig.from_options dim (config_value config) = Raise e -> exn_type e = ValueError.
Proof.
  intros Hd. destruct config as [c|]; [apply from_options_errors|]. cbn.
  destruct (default_config dim Hd) as [c ->]. done.
Qed.

(** What [open] does with that error *)
Lemma converted_refusal {A} (m : res A) e :
  (forall e', m = Raise e' -> exn_type e' = ValueError) ->
  try_except m [TypeError; ValueError] (fun error => raise ValidationError (exn_message error)) = Raise e ->
  refusal e.
Proof.
  intros Hm He. unfold try_except in He. destruct m as [a|e']; [done|].
  assert (caught [TypeError; ValueError] e' = true) as Hc
    by (unfold caught; cbn; by rewrite (Hm e' eq_refl)).
  rewrite Hc in He. injection He as <-. unfold refusal. cbn. set_solver.
Qed.

Lemma kernel_open_refusal (dir : option K) dim config schema e :
  try_except (kernel_open dir dim config schema) [Exception] (fun error => Raise (map_kernel_error error)) =
    Raise e -> refusal e.
Proof.
  intros He. unfold try_except in He. destruct (kernel_open _ _ _ _) as [k|e'] eqn:Hk; [done|].
  apply open_errors in Hk. unfold caught in He. cbn [existsb] in He. rewrite Hk in He. cbn in He.
  injection He as <-. apply mapped_refusal.
Qed.

Lemma open_collection_refusal (dir : option K) dim config e :
  0 < dim -> Database.open_collection dir dim (config_value config) None None None = Raise e -> refusal e.
Proof.
  intros Hd He. unfold Database.open_collection in He.
  apply bind_Raise in He as [He|([requested schema] & _ & He)].
  { eapply converted_refusal; [|exact He]. intros e'. destruct config as [c|]; [|done].
    cbn [config_value]. intros [He'|(requested & _ & ?)]%bind_Raise; [|done].
    apply bind_Raise in He' as [He'|(c' & _ & ?)]; [|done]. by eapply from_options_errors. }
  apply bind_Raise in He as [He|(k & Hk & He)]; [by eapply kernel_open_refusal|].
  unfold try_except in Hk. destruct (kernel_open _ _ _ _) as [k0|e0] eqn:Hk0; [|by destruct (caught _ _)].
  injection Hk as ->. destruct (open_config _ _ _ _ _ Hk0) as (d & c & k' & Hc & Hd').
  rewrite Hc in He. cbn [mbind res_bind subscriptable] in He. by rewrite Hd' in He.
Qed.

Lemma db_open_safe name dim config :
  0 < dim ->
  safe (fun _ => True) (db_open perf_counter_ns name dim (config_value config) None) (fun _ => is_open name).
Proof.
  intros Hd. unfold db_open. apply safe_guard. eapply safe_bind; [apply safe_get|]. intros db.
  destruct (assoc_get (_collections db) name) as [c|] eqn:Hc.
  - apply (safe_pre _ (is_open name)); [intros s [-> _]; by exists c|]. apply safe_guard.
    eapply safe_bind.
    { apply safe_lift. intros e. apply converted_refusal. intros e'. by apply requested_config. }
    intros requested. apply (safe_pre _ (is_open name)); [by intros s [_ ?]|].
    eapply safe_bind; [apply of_collection_safe, collection_config_safe|]. intros current.
    apply safe_guard. by apply (safe_ret_of _ tt).
  - eapply safe_bind.
    { apply safe_lift. intros e. by apply open_collection_refusal. }
    intros c s _. cbn. eexists. apply assoc_get_set_eq.
Qed.

(** * Routes *)

Lemma delete_safe id : safe calm (delete perf_counter_ns id) (fun _ _ => True).
Proof. apply unit_call_safe. Qed.
Lemma flush_safe : safe calm (flush perf_counter_ns) (fun _ _ => True).
Proof. apply unit_call_safe. Qed.
Lemma close_safe : safe calm (close perf_counter_ns) (fun _ _ => True).
Proof. apply unit_call_safe. Qed.
Lemma upsert_sparse_safe id elements :
  safe calm (upsert_sparse perf_counter_ns id elements) (fun _ _ => True).
Proof. apply unit_call_safe. Qed.

(** The collection that a route of an open collection is about *)
Definition named (r : request) : option string :=
  match r with
  | CollectionStats name | CloseCollection name | FlushCollection name | UpsertPoint name _
  | DeletePoint name _ | GetPoint name _ | SearchPoints name _ => Some name
  | OpenCollection _ _ | Health | Metrics => None
  end.

(** A route answers with a value; only the lookup of a point answers 404. *)
Definition answers (r : request) (a : answer) (db : @LocalDatabase K) : Prop :=
  match a with
  | Content _ => True
  | HTTPException code message =>
      code = 404 /\ message = "point not found" /\ exists name id, r = GetPoint name id
  end.

Lemma sequence_of_safe r name : safe (is_open name) (sequence_of perf_counter_ns name) (answers r).
Proof.
  eapply safe_bind; [apply of_collection_safe, last_sequence_safe|]. intros z. by apply safe_ret_of.
Qed.

Create HintDb routes discriminated.
#[local] Hint Resolve of_collection_safe last_sequence_safe collection_config_safe last_search_stats_safe
  get_safe upsert_safe upsert_sparse_safe delete_safe flush_safe close_safe search_safe
  db_collection_open sequence_of_safe : routes.

(** The steps of a route: the methods of its collection, then its answer *)
Ltac route_walk :=
  repeat first [by apply safe_ret_of | solve [auto with routes] | eapply safe_bind; [solve [auto with routes]|intros ?]].

Lemma named_route_safe r name :
  valid r = true -> named r = Some name -> safe (is_open name) (route perf_counter_ns r) (answers r).
Proof.
  intros Hv Hn. destruct r as [?|n|n|n|n body|n id|n id|n body| |]; try done; injection Hn as ->; cbn [route].
  - unfold collection_stats. route_walk.
  - unfold close_collection, db_close. eapply (safe_bind _ _ (fun _ _ => True)); [|intros u; by apply safe_ret_of].
    eapply safe_bind; [apply db_collection_open|intros ?].
    eapply safe_bind; [apply (of_collection_safe name _ close_safe)|intros ?]. by intros db _.
  - unfold flush_collection. route_walk.
  - unfold upsert_point. destruct (UpsertRequest.sparse body); route_walk.
    eapply (safe_bind _ _ (fun _ => is_open name)); [by apply safe_ret_of|intros ?]. route_walk.
  - unfold delete_point. route_walk.
  - unfold get_point. eapply safe_bind; [solve [auto with routes]|intros ?].
    eapply safe_bind; [solve [auto with routes]|intros [d|]]; apply safe_ret_of; [done|].
    intros s _. split_and!; [done|done|]. by exists name, id.
  - unfold search_points. cbn [valid] in Hv. route_walk.
Qed.

Lemma open_route_safe name (body : OpenCollectionRequest.t) :
  OpenCollectionRequest.valid body = true ->
  safe (fun _ => True) (open_collection perf_counter_ns name body) (answers (OpenCollection name body)).
Proof.
  intros Hv. unfold open_collection. rewrite (valid_config body Hv).
  eapply safe_bind; [by apply safe_Ok|]. intros config.
  apply (safe_pre _ (fun _ => True)); [done|].
  assert (0 < OpenCollectionRequest.dimension body) as Hd by apply (valid_fields body Hv).
  eapply safe_bind; [exact (db_open_safe name _ config Hd)|intros ?]. route_walk.
Qed.

(** A route of a collection that is not open stops at once. *)
Lemma not_open_route r name (db : @LocalDatabase K) :
  named r = Some name -> ~ is_open name db -> route perf_counter_ns r db = (not_open name, db).
Proof.
  intros Hn Hopen.
  destruct r as [?|n|n|n|n body|n id|n id|n body| |]; try done; injection Hn as ->; cbn [route];
    try by apply db_collection_not_open.
  unfold close_collection, db_close. unfold mbind at 1, M_bind at 1.
  by rewrite (db_collection_not_open name _ db Hopen).
Qed.

(** Every route of an open collection, and of no collection *)
Lemma route_safe r :
  valid r = true ->
  safe (fun db => forall name, named r = Some name -> is_open name db) (route perf_counter_ns r) (answers r).
Proof.
  intros Hv. destruct (named r) as [name|] eqn:Hn.
  - apply (safe_pre _ (is_open name)); [intros db Hdb; by apply Hdb|]. by apply named_route_safe.
  - destruct r; try done; cbn [route].
    apply (safe_pre _ (fun _ => True)); [done|]. by apply open_route_safe.
Qed.

Lemma open_or_not r (db : @LocalDatabase K) :
  (forall name, named r = Some name -> is_open name db) \/
  exists name, named r = Some name /\ ~ is_open name db.
Proof.
  destruct (named r) as [name|]; [|by left].
  destruct (assoc_get (_collections db) name) as [c|] eqn:Hc.
  - left. intros ? [= <-]. by exists c.
  - right. exists name. split; [done|]. intros [c' Hc']. congruence.
Qed.

Lemma refusal_status e : refusal e -> status (handle_error e) = 400.
Proof.
  unfold refusal, handle_error. destruct e as [c m]. cbn [exn_type exn_message].
  rewrite !elem_of_cons. intros [-> | [-> | [-> |[]%elem_of_nil]]]; reflexivity.
Qed.

(** The answer of a route that is not stopped at once *)
Lemma respond_safe r db out db' :
  valid r = true -> (forall name, named r = Some name -> is_open name db) ->
  respond perf_counter_ns r db = (out, db') ->
  status out = 200 \/ status out = 400 \/
  (out = Response 404 (detail "point not found") /\ exists name id, r = GetPoint name id).
Proof.
  intros Hv Hopen. unfold respond. rewrite Hv. cbn [negb]. pose proof (route_safe r Hv db Hopen) as Hs.
  destruct (route perf_counter_ns r db) as [[[v|code message]|e] db1]; intros [= <- _].
  - by left.
  - destruct Hs as (-> & -> & Hr). right; right. by split.
  - right; left. by apply refusal_status.
Qed.
End Collections.
