(* ===== verification/ServerTheorems.v ===== *)
(** What the HTTP adapter answers. *)

From S2P Require Import Prelude Assoc PyFloat PyValue Json Envelope Models KernelConfig KernelInterface Vectors Database DatabaseFacts MemoryKernel DatabaseTheorems Server ServerFacts.

(** * The HTTP adapter *)

(** C26: on a kernel whose replies have the types of its interface, the application
    never answers 500: a body that breaks its constraints is answered 422 with
    nothing touched; anything else is 200, 400 (an error of the library, whatever
    its class but one) or 404; a route of a collection that is not open is
    answered 404 before anything is touched; and 404 is answered for nothing
    else, but a point that is not found. *)
Theorem http_status {K : Type} `{!Kernel K, !OrdinaryErrors K, !TypedReplies K} (clock : nat -> Z)
    (r : request) (db db' : @LocalDatabase K) (out : response)
    (Hout : respond clock r db = (out, db')) :
  (valid r = false -> status out = 422 /\ db' = db) /\
  (valid r = true -> status out ∈ [200; 400; 404]) /\
  (forall name, valid r = true -> named r = Some name -> ~ is_open name db ->
     out = Response 404 (detail ("collection is not open: " +:+ name)) /\ db' = db) /\
  (status out = 404 -> (exists name, named r = Some name /\ ~ is_open name db) \/
     exists name id, r = GetPoint name id /\ content out = detail "point not found").
Proof.
  destruct (valid r) eqn:Hv.
  2:{ unfold respond in Hout. rewrite Hv in Hout. cbn in Hout. injection Hout as <- <-.
      split_and!; [done|done|done|]. by intros [= ]. }
  destruct (open_or_not r db) as [Hopen|(name & Hn & Hclosed)].
  - destruct (respond_safe clock r db out db' Hv Hopen Hout) as [Hs|[Hs|[-> (name & id & Hr)]]];
      (split_and!; [done| |intros name' _ Hn Ho; by destruct (Ho (Hopen name' Hn))|]).
    + intros _. rewrite Hs. set_solver.
    + by rewrite Hs.
    + intros _. rewrite Hs. set_solver.
    + by rewrite Hs.
    + intros _. cbn. set_solver.
    + intros _. right. by exists name, id.
  - unfold respond in Hout. rewrite Hv in Hout. cbn [negb] in Hout.
    rewrite (not_open_route clock r name db Hn Hclosed) in Hout. cbn in Hout. injection Hout as <- <-.
    split_and!; [done| | |].
    + intros _. cbn. set_solver.
    + rewrite Hn. intros ? _ [= <-] _. by split.
    + intros _. left. by exists name.
Qed.

(** A kernel that keeps nothing but a sequence number *)
Definition plain_config : dict := Eval vm_compute in
  match validate_collection_config 2 PNone with Ok d => d | Raise _ => [] end.

Definition plain_reply (method : string) (n : Z) : pyval :=
  if bool_decide (method = "last_sequence") then PInt n
  else if bool_decide (method = "collection_config") then PDict plain_config
  else if bool_decide (method = "last_search_stats") then stats
  else if str_in method hit_methods then PList []
  else PNone.

Definition plain_next (method : string) (n : Z) : Z :=
  if starts_with write_methods method then n + 1 else n.

#[local] Instance plain_kernel : Kernel Z :=
  {| kernel_open dir dim _ _ :=
       if dim =? 2 then Ok (default 0 dir) else raise Exception "dimension mismatch";
     kernel_call method _ n := (Ok (plain_reply method n), plain_next method n) |}.

#[local] Instance plain_errors : OrdinaryErrors Z.
Proof. by intros method args k e k'. Qed.

#[local] Instance plain_replies : TypedReplies Z.
Proof.
  split.
  - intros k v k' [= <- _]. by eexists.
  - intros k v k' [= <- _]. eexists _, _. split; [reflexivity|vm_compute; reflexivity].
  - intros k v k' [= <- _]. eexists _, _. split; [reflexivity|vm_compute; reflexivity].
  - intros id k v k' [= <- _]. by left.
  - intros method args k v k' Hm [= <- _]. unfold plain_reply.
    repeat rewrite bool_decide_eq_false_2 by
      (intros ->; revert Hm; apply (bool_decide_eq_false_1 _); vm_compute; reflexivity).
    unfold str_in. rewrite bool_decide_eq_true_2 by done. by eexists _, _.
  - intros dir dim config schema e. cbn. destruct (dim =? 2); [done|by intros [= <-]].
  - intros dir dim config schema k. cbn. destruct (dim =? 2); [|done]. intros [= <-].
    eexists _, _, _. split; [reflexivity|vm_compute; reflexivity].
Qed.

Definition demo : @LocalDatabase Z :=
  (respond DatabaseTheorems.clock (OpenCollection "demo"
     (OpenCollectionRequest.Mk 2 None None None None None None None None None None None))
     (MkDatabase [] [])).2.

Definition find_two : SearchRequestBody.t :=
  SearchRequestBody.Mk "dot" "hybrid" 2 (Some [fzero; fzero]) [] 64 50 60 None.

Lemma http_status_witness :
  status (respond DatabaseTheorems.clock (SearchPoints "demo" find_two) demo).1 ∈ [200; 400; 404] /\
  (respond DatabaseTheorems.clock (SearchPoints "other" find_two) demo).1 =
    Response 404 (detail "collection is not open: other").
Proof.
  split.
  - destruct (http_status DatabaseTheorems.clock (SearchPoints "demo" find_two) demo
      (respond DatabaseTheorems.clock (SearchPoints "demo" find_two) demo).2
      (respond DatabaseTheorems.clock (SearchPoints "demo" find_two) demo).1) as (_ & Hs & _);
      [vm_compute; reflexivity|]. apply Hs. reflexivity.
  - destruct (http_status DatabaseTheorems.clock (SearchPoints "other" find_two) demo
      (respond DatabaseTheorems.clock (SearchPoints "other" find_two) demo).2
      (respond DatabaseTheorems.clock (SearchPoints "other" find_two) demo).1) as (_ & _ & Hs & _);
      [vm_compute; reflexivity|].
    apply (Hs "other"); [reflexivity|reflexivity|]. intros [c Hc]. vm_compute in Hc. discriminate.
Defined.
