(* ===== verification/LogicalFacts.v ===== *)
(** Properties of the logical export: its lines read back, an exported point
    decodes to the mutation that restores it, and what the decoder accepts. *)

From Stdlib Require Import SpecFloat.
From S2P Require Import Prelude Assoc PyFloat PyValue Json JsonFacts Envelope Files Models KernelConfig KernelInterface Vectors Database LogicalPoints Operations.

(** * Lines *)

Definition line_of (v : pyval) : string := dump v +:+ String newline "".
Definition text_of (l : list pyval) : string := foldr (fun v s => line_of v +:+ s) "" l.

Lemma text_of_cons v l : text_of (v :: l) = line_of v +:+ text_of l.
Proof. done. Qed.

Lemma no_ctl_head c s :
  no_ctl (String c s) = true -> c <> carriage_return /\ c <> newline /\ no_ctl s = true.
Proof.
  cbn [no_ctl]. rewrite andb_true_iff. intros [Hc Hs].
  split_and!; [by intros ->|by intros ->|done].
Qed.

Lemma universal_newlines_line t s :
  no_ctl t = true ->
  universal_newlines (t +:+ String newline s) = t +:+ String newline (universal_newlines s).
Proof.
  induction t as [|c t IH]; [done|]. intros (Hr & _ & Ht)%no_ctl_head. rewrite !sapp_cons.
  cbn [universal_newlines]. rewrite bool_decide_eq_false_2 by done. by rewrite IH.
Qed.

Lemma stream_lines_line t s :
  no_ctl t = true ->
  stream_lines (t +:+ String newline s) = (t +:+ String newline "") :: stream_lines s.
Proof.
  induction t as [|c t IH]; [done|]. intros (_ & Hn & Ht)%no_ctl_head. rewrite !sapp_cons.
  cbn [stream_lines]. rewrite bool_decide_eq_false_2 by done. by rewrite IH.
Qed.

Lemma line_of_app v s : line_of v +:+ s = dump v +:+ String newline s.
Proof. unfold line_of. by rewrite sapp_assoc, sapp_cons, sapp_nil_l. Qed.

(** The lines of an exported text are the lines that were written. *)
Lemma text_lines_of l :
  Forall (fun v => json_ok v = true) l -> utf8_strict (text_of l) = true ->
  text_lines (text_of l) = Ok (line_of <$> l).
Proof.
  intros Hl Hu. unfold text_lines. rewrite Hu. f_equal. clear Hu.
  assert (universal_newlines (text_of l) = text_of l) as ->.
  { induction Hl as [|v l Hv Hl IH]; [done|]. rewrite text_of_cons, line_of_app.
    rewrite universal_newlines_line by apply (dump_line_text v Hv). by rewrite IH. }
  induction Hl as [|v l Hv Hl IH]; [done|]. rewrite text_of_cons, fmap_cons.
  rewrite line_of_app, stream_lines_line by apply (dump_line_text v Hv). by rewrite IH.
Qed.

(** * JSON with the hooks of the importer *)

Lemma unique_object_from d e :
  NoDup (d ++ e).*1 ->
  for_fold (fun result kv =>
    raise_if (dict_has result kv.1) ValueError ("duplicate JSON field: " +:+ kv.1);;
    Ok (dict_set result kv.1 kv.2)) d e = Ok (d ++ e).
Proof.
  revert d. induction e as [|[k v] e IH]; intros d Hnd; [by rewrite app_nil_r|].
  assert (k ∉ d.*1) as Hk.
  { rewrite fmap_app in Hnd. apply NoDup_app in Hnd as (_ & Hd & _). intros Hin.
    apply (Hd k Hin). simpl. left. }
  cbn [for_fold fst snd]. unfold dict_has. rewrite (proj2 (dict_get_None d k) Hk).
  cbn [raise_if mbind res_bind]. rewrite dict_set_fresh by done.
  rewrite IH; rewrite <- app_assoc; done.
Qed.

Lemma unique_object_id d : NoDup d.*1 -> _unique_object d = Ok d.
Proof. intros H. by apply (unique_object_from [] d). Qed.

(** The names of an accepted object are distinct, and all its pairs are kept. *)
Lemma unique_object_Ok pairs d : _unique_object pairs = Ok d -> d = pairs /\ NoDup d.*1.
Proof.
  cut (forall acc, NoDup acc.*1 -> for_fold (fun result kv =>
    raise_if (dict_has result kv.1) ValueError ("duplicate JSON field: " +:+ kv.1);;
    Ok (dict_set result kv.1 kv.2)) acc pairs = Ok d -> d = acc ++ pairs /\ NoDup d.*1).
  { intros H Hd. by apply (H [] (NoDup_nil_2)) in Hd. }
  induction pairs as [|[k v] pairs IH]; intros acc Hacc.
  { intros [= <-]. by rewrite app_nil_r. }
  cbn [for_fold fst snd]. destruct (dict_has acc k) eqn:Hk; [done|]. cbn [raise_if mbind res_bind].
  assert (k ∉ acc.*1) as Hn by (apply dict_get_None; unfold dict_has in Hk; by destruct (dict_get acc k)).
  rewrite dict_set_fresh by done. intros H. apply IH in H as [-> Hnd].
  - by rewrite <- app_assoc in *.
  - rewrite fmap_app. apply NoDup_app. split_and!; [done| |apply NoDup_singleton].
    intros x Hx ->%list_elem_of_singleton. done.
Qed.

Lemma reject_constant_float x :
  float_ok x = true -> isfinite x = true ->
  scan_scalar _reject_constant (float_repr x) = Ok (PFloat x, "").
Proof.
  unfold float_ok. rewrite !andb_true_iff, bool_decide_eq_true. intros [_ H] Hf.
  revert H. unfold scan_scalar, scan_constant, constants.
  destruct (drop_prefix "null" _); [done|]. destruct (drop_prefix "true" _); [done|].
  destruct (drop_prefix "false" _); [done|].
  destruct (drop_prefix "NaN" _); [by intros [= <- _]|].
  destruct (drop_prefix "Infinity" _); [by intros [= <- _]|].
  destruct (drop_prefix "-Infinity" _); [by intros [= <- _]|]. done.
Qed.

Lemma decode_line_of d n :
  json_ok (PDict d) = true -> floats_in isfinite (PDict d) = true ->
  decode_line (line_of (PDict d)) n = Ok d.
Proof.
  intros Hj Hf. unfold decode_line, loads_strict, line_of.
  rewrite (decode_dump_line _ _ isfinite); [done|..|done|done].
  - intros e He. by rewrite unique_object_id.
  - apply reject_constant_float.
Qed.

Lemma dumps_Ok v t :
  dumps v = Ok t <-> has_bytes v = false /\ floats_in isfinite v = true /\ t = dump v.
Proof.
  unfold dumps. destruct (has_bytes v), (floats_in isfinite v); cbn; naive_solver.
Qed.

(** * Bytes *)

Lemma hex_pair c :
  hex_value (hex_digit (nat_of_ascii c / 16)) = Some (nat_of_ascii c / 16)%nat /\
  hex_value (hex_digit (nat_of_ascii c mod 16)) = Some (nat_of_ascii c mod 16)%nat /\
  ascii_of_nat (nat_of_ascii c / 16 * 16 + nat_of_ascii c mod 16) = c.
Proof. by destruct c as [[] [] [] [] [] [] [] []]; vm_compute. Qed.

Lemma fromhex_hex b : fromhex (hex b) = Some b.
Proof.
  induction b as [|c b IH]; [done|]. cbn [hex fromhex].
  destruct (hex_pair c) as (-> & -> & H). cbn [mbind option_bind]. rewrite IH.
  cbn [mbind option_bind]. by rewrite H.
Qed.

Lemma all_hex_hex b : all_hex (hex b) = true.
Proof.
  induction b as [|c b IH]; [done|]. cbn [hex all_hex].
  by destruct (hex_pair c) as (-> & -> & _).
Qed.

Lemma hex_length b : String.length (hex b) = (2 * length b)%nat.
Proof. induction b as [|c b IH]; [done|]. cbn [hex String.length length]. lia. Qed.

Lemma fromhex_length s b : fromhex s = Some b -> String.length s = (2 * length b)%nat.
Proof.
  revert b. induction s as [s IH] using (induction_ltof1 _ String.length). unfold ltof in IH.
  intros b. destruct s as [|x [|y s]]; [by intros [= <-]|done|]. cbn [fromhex].
  destruct (hex_value x), (hex_value y); try done. cbn [mbind option_bind].
  destruct (fromhex s) as [l|] eqn:Hl; [|done]. intros [= <-]. apply IH in Hl; simpl; lia.
Qed.

Lemma bytes_of_value b : bytes_of (bytes_value b) = Some b.
Proof.
  unfold bytes_of, bytes_value. induction b as [|c b IH]; [done|]. cbn [fmap list_fmap mapM].
  assert (byte_of (byte_value c) = Some c) as ->.
  { unfold byte_of, byte_value. pose proof (nat_ascii_bounded c).
    rewrite (proj2 (Z.leb_le _ _)), (proj2 (Z.ltb_lt _ _)) by lia. cbn [andb].
    by rewrite Nat2Z.id, ascii_nat_embedding. }
  cbn [mbind option_bind]. by rewrite IH.
Qed.

(** * What the kernel captures *)

(** A point of [export_points], and the capture: the configuration and the
    schema as the kernel gives them. *)
Record point_state : Type := PointState {
  p_id : Z; p_sequence : Z; p_document_sequence : Z; p_vector : pyval; p_sparse : pyval;
  p_vectors : list (string * pyval); p_fields : list PayloadField.t }.

Record capture : Type := Capture {
  config_value : dict; schema_value : list pyval;
  points : list point_state; source_sequence : Z }.

Definition point_value (p : point_state) : pyval :=
  PDict [("id", PInt (p_id p)); ("sequence", PInt (p_sequence p));
         ("document_sequence", PInt (p_document_sequence p)); ("vector", p_vector p);
         ("sparse", p_sparse p); ("vectors", PDict (p_vectors p));
         ("fields", PList (PayloadField.to_kernel <$> p_fields p))].

Definition captured_value (c : capture) : dict :=
  [("config", PDict (config_value c)); ("schema", PList (schema_value c));
   ("points", PList (point_value <$> points c)); ("source_sequence", PInt (source_sequence c))].

Abbreviation schema_t := (list (string * VectorField.t)).

Definition sparse_item (v : pyval) : Prop :=
  exists t w, v = PDict [("term_id", t); ("weight", w)].

(** The value of a field of each kind. *)
Definition shape (spec : VectorField.t) (v : pyval) : Prop :=
  if bool_decide (VectorField.kind spec = "binary") then
    exists b, v = bytes_value b /\ Z.of_nat (length b) = (VectorField.dimension spec + 7) / 8
  else exists l, v = PList l /\
    (VectorField.kind spec = "sparse" -> Forall sparse_item l).

Record point_ok (schema : schema_t) (last : Z) (p : point_state) : Prop := {
  ok_id : - 2 ^ 63 <= p_id p < 2 ^ 63;
  ok_sequence : 1 <= p_sequence p <= last;
  ok_document : 0 <= p_document_sequence p <= p_sequence p;
  ok_vector : p_vector p = PNone \/ exists l, p_vector p = PList l;
  ok_sparse : p_sparse p = PNone \/ exists l, p_sparse p = PList l /\ Forall sparse_item l;
  ok_vectors : Forall (fun kv => exists spec,
    assoc_get schema kv.1 = Some spec /\ shape spec kv.2) (p_vectors p) }.

(** The exported row. *)
Definition encoded_vectors (schema : schema_t) (p : point_state) : dict :=
  (fun kv => (kv.1, match encode_vector schema kv.1 kv.2 with Ok v => v | Raise _ => kv.2 end))
    <$> p_vectors p.

Definition encoded_point (schema : schema_t) (p : point_state) : dict :=
  [("id", PInt (p_id p)); ("sequence", PInt (p_sequence p));
   ("document_sequence", PInt (p_document_sequence p)); ("vector", p_vector p);
   ("sparse", p_sparse p); ("vectors", PDict (encoded_vectors schema p));
   ("fields", PList (PayloadField.to_kernel <$> p_fields p))].

(** The mutation that puts the point back: every field of the schema is set, or
    removed when the point has no value for it. *)
Definition mutation_of (schema : schema_t) (p : point_state) : PointMutation.t :=
  PointMutation.upsert (p_id p)
    (Some ((fun kv => (kv.1, VValue (default PNone (dict_get (p_vectors p) kv.1)))) <$> schema))
    (Some (p_vector p)) (Some (VValue (p_sparse p))) (Some (p_fields p)).

Lemma map_res_fmap {A B} (f : A -> res B) (g : A -> B) l :
  Forall (fun x => f x = Ok (g x)) l -> map_res f l = Ok (g <$> l).
Proof.
  induction 1 as [|x l Hx Hl IH]; [done|]. cbn [map_res fmap list_fmap]. rewrite Hx.
  cbn [mbind res_bind]. by rewrite IH.
Qed.

Lemma encode_shape schema name spec v :
  assoc_get schema name = Some spec -> shape spec v ->
  exists w, encode_vector schema name v = Ok w /\ _vector w spec = Ok v.
Proof.
  intros Hs Hv. unfold encode_vector, _vector, shape in *. rewrite Hs.
  case_bool_decide as Hb.
  - destruct Hv as (b & -> & Hl). rewrite bytes_of_value. eexists. split; [done|].
    cbn [is_none raise_if mbind res_bind]. unfold binary_vector, _object.
    change (keys_are _ ["encoding"; "data"]) with true.
    cbn [negb raise_if mbind res_bind dict_item dict_get].
    change (dict_item [("encoding", PStr "hex"); ("data", PStr (hex b))] "data") with (Ok (PStr (hex b))).
    change (dict_item [("encoding", PStr "hex"); ("data", PStr (hex b))] "encoding") with (Ok (PStr "hex")).
    cbn [mbind res_bind]. change (py_eq (PStr "hex") (PStr "hex")) with true.
    cbn [negb raise_if]. rewrite hex_length, all_hex_hex, fromhex_hex.
    rewrite (proj2 (Z.eqb_eq _ _)) by lia. done.
  - destruct Hv as (l & -> & Hl). eexists. split; [done|]. cbn [is_none raise_if mbind res_bind].
    case_bool_decide as Hsp; [|done]. cbn [_sparse]. specialize (Hl Hsp).
    assert (for_each (fun item => _object item ["term_id"; "weight"] "sparse element";; Ok tt) l
      = Ok tt) as ->; [|done].
    induction Hl as [|x l (t & w & ->) Hl IH]; [done|]. by cbn.
Qed.

(** * Points go through *)

Section Points.
Context (schema : schema_t) (last : Z).

Lemma encoded_lookup p name :
  dict_get (encoded_vectors schema p) name =
  (fun v => match encode_vector schema name v with Ok w => w | Raise _ => v end)
    <$> dict_get (p_vectors p) name.
Proof.
  unfold encoded_vectors. induction (p_vectors p) as [|[n v] l IH]; [done|].
  cbn [fmap list_fmap dict_get fst snd]. case_bool_decide as H; [by subst|done].
Qed.

Lemma encode_row_ok p :
  point_ok schema last p -> encode_row schema (point_value p) = Ok (PDict (encoded_point schema p)).
Proof.
  intros [_ _ _ _ _ Hv]. unfold encode_row, point_value. cbn [subscriptable mbind res_bind].
  unfold dict_item at 1. cbn [dict_get mbind res_bind].
  rewrite !bool_decide_eq_false_2, bool_decide_eq_true_2 by done.
  cbn [mbind res_bind items_of]. erewrite map_res_fmap; [reflexivity|].
  eapply Forall_impl; [exact Hv|]. intros [n v] (spec & Hs & Hsh). cbn [fst snd] in *.
  destruct (encode_shape _ _ _ _ Hs Hsh) as (w & -> & _). done.
Qed.

Lemma decode_updates p :
  NoDup schema.*1 -> point_ok schema last p ->
  map_res (fun '(name, spec) =>
    match dict_get (encoded_vectors schema p) name with
    | Some value => v ← _vector value spec; Ok (name, VValue v)
    | None => Ok (name, VValue PNone)
    end) schema =
  Ok ((fun kv => (kv.1, VValue (default PNone (dict_get (p_vectors p) kv.1)))) <$> schema).
Proof.
  intros Hnd [_ _ _ _ _ Hv]. apply map_res_fmap, Forall_forall. intros [name spec] Hin.
  cbn [fst]. rewrite encoded_lookup.
  destruct (dict_get (p_vectors p) name) as [v|] eqn:Hg; [|done]. cbn [fmap option_fmap option_map].
  assert (assoc_get (p_vectors p) name = Some v) as Ha.
  { rewrite <- Hg. clear. by induction (p_vectors p) as [|[n w] l IH]; [|simpl; case_bool_decide]. }
  pose proof (assoc_get_Forall _ _ _ _ Hv Ha) as (spec' & Hs & Hsh). cbn [fst snd] in *.
  apply assoc_get_elem in Hin; [|done]. assert (spec' = spec) as -> by congruence.
  destruct (encode_shape _ _ _ _ Hs Hsh) as (w & -> & ->). done.
Qed.

Lemma decode_payload_item f : decode_payload (PayloadField.to_kernel f) = Ok f.
Proof. by destruct f. Qed.

Lemma sparse_value v :
  v = PNone \/ (exists l, v = PList l /\ Forall sparse_item l) -> _sparse v = Ok v.
Proof.
  intros [-> | (l & -> & Hl)]; [done|]. cbn [_sparse].
  assert (for_each (fun item => _object item ["term_id"; "weight"] "sparse element";; Ok tt) l
    = Ok tt) as ->; [|done].
  induction Hl as [|x l (t & w & ->) Hl IH]; [done|]. by cbn.
Qed.

Lemma encoded_keys p :
  point_ok schema last p ->
  forallb (fun kv => assoc_has schema kv.1) (encoded_vectors schema p) = true.
Proof.
  intros [_ _ _ _ _ Hv]. unfold encoded_vectors. rewrite forallb_forall. intros kv.
  rewrite <- list_elem_of_In, list_elem_of_fmap. intros ([n v] & -> & Hin).
  rewrite Forall_forall in Hv. destruct (Hv _ Hin) as (spec & Hs & _). cbn [fst] in *.
  unfold assoc_has. by rewrite Hs.
Qed.

Lemma integer_ok z low high label : low <= z <= high -> _integer (PInt z) low high label = Ok z.
Proof.
  intros H. unfold _integer. rewrite (proj2 (Z.leb_le _ _)), (proj2 (Z.leb_le _ _)) by lia. done.
Qed.

Lemma decode_point_ok seen p :
  NoDup schema.*1 -> point_ok schema last p -> p_id p ∉ seen ->
  decode_point last schema seen (encoded_point schema p) = Ok (mutation_of schema p).
Proof.
  intros Hnd Hp Hseen. pose proof Hp as [Hi Hs Hd Hv Hsp _].
  unfold decode_point, _object. change (keys_are (encoded_point schema p) _POINT_KEYS) with true.
  cbn [negb raise_if mbind res_bind].
  change (dict_item (encoded_point schema p) "id") with (Ok (PInt (p_id p))).
  change (dict_item (encoded_point schema p) "sequence") with (Ok (PInt (p_sequence p))).
  change (dict_item (encoded_point schema p) "document_sequence")
    with (Ok (PInt (p_document_sequence p))).
  change (dict_item (encoded_point schema p) "vectors")
    with (Ok (PDict (encoded_vectors schema p))).
  change (dict_item (encoded_point schema p) "vector") with (Ok (p_vector p)).
  change (dict_item (encoded_point schema p) "sparse") with (Ok (p_sparse p)).
  change (dict_item (encoded_point schema p) "fields")
    with (Ok (PList (PayloadField.to_kernel <$> p_fields p))).
  cbn [mbind res_bind]. rewrite (integer_ok (p_id p)) by lia. cbn [mbind res_bind].
  rewrite bool_decide_eq_false_2 by done. cbn [raise_if mbind res_bind].
  rewrite (integer_ok (p_sequence p)) by lia. cbn [mbind res_bind].
  rewrite (integer_ok (p_document_sequence p)) by lia.
  cbn [mbind res_bind]. rewrite encoded_keys by done. cbn [negb raise_if mbind res_bind].
  rewrite decode_updates by done. cbn [mbind res_bind].
  assert (negb (is_none (p_vector p)) && negb (is_list (p_vector p)) = false) as ->
    by (destruct Hv as [-> | (l & ->)]; done).
  cbn [raise_if mbind res_bind]. erewrite map_res_fmap with (g := fun v =>
    match decode_payload v with Ok f => f | Raise _ => PayloadField.Mk v v v end).
  - cbn [mbind res_bind]. rewrite sparse_value by done. cbn [mbind res_bind].
    rewrite <- list_fmap_compose. unfold mutation_of. do 4 f_equal.
    by rewrite <- (list_fmap_id (p_fields p)) at 2; apply list_fmap_ext; intros ? f _; destruct f.
  - apply Forall_fmap, Forall_forall. intros f _. cbn [compose]. by rewrite decode_payload_item.
Qed.

(** The rows of an export with distinct identifiers, after those in [seen]. *)
Lemma decode_points_from l acc seen :
  NoDup schema.*1 -> Forall (point_ok schema last) l -> NoDup (seen ++ (p_id <$> l)) ->
  for_fold (fun '(result, seen) row =>
    m ← decode_point last schema seen row;
    Ok (result ++ [m], seen ++ [PointMutation.id m])) (acc, seen) (encoded_point schema <$> l) =
  Ok (acc ++ (mutation_of schema <$> l), seen ++ (p_id <$> l)).
Proof.
  intros Hnd Hl. revert acc seen. induction Hl as [|p l Hp Hl IH]; intros acc seen Hs;
    [by rewrite !app_nil_r|].
  cbn [fmap list_fmap for_fold]. rewrite decode_point_ok; [|done..|].
  - cbn [mbind res_bind]. rewrite IH; [by rewrite <- !app_assoc|]. by rewrite <- app_assoc.
  - intros Hin. apply NoDup_app in Hs as (_ & Hd & _). apply (Hd _ Hin). simpl. left.
Qed.
End Points.

(** * Headers go through, but for the fingerprints *)

Definition strip_config (c : CollectionConfig.t) : CollectionConfig.t :=
  CollectionConfig.set_fingerprint c None.
Definition strip_field (f : VectorField.t) : VectorField.t :=
  VectorField.Mk (VectorField.dimension f) (VectorField.dtype f) (VectorField.kind f)
    (VectorField.metric f) (strip_config <$> VectorField.hnsw f).
Definition strip_schema (schema : schema_t) : schema_t :=
  (fun kv => (kv.1, strip_field kv.2)) <$> schema.

Definition header_of (config : CollectionConfig.t) (schema : schema_t) (count last : Z) : dict :=
  [("format", PStr FORMAT); ("version", PInt VERSION); ("config", PDict (_config_json config));
   ("vectors", PDict ((fun '(name, spec) => (name, PDict (field_json spec))) <$> schema));
   ("count", PInt count); ("source_sequence", PInt last)].

Lemma decode_config_json c label :
  CollectionConfig.well_formed c -> decode_config (PDict (_config_json c)) label = Ok (strip_config c).
Proof.
  intros Hc. unfold decode_config, _object.
  change (keys_are (_config_json c) _CONFIG_KEYS) with true. cbn [negb raise_if mbind res_bind].
  apply CollectionConfig.init_Ok. split; [exact Hc|]. by repeat constructor.
Qed.

(** The fields [VectorField] can hold. *)
Definition field_ok (f : VectorField.t) : Prop :=
  VectorField.init (PInt (VectorField.dimension f)) (PStr (VectorField.dtype f))
    (PStr (VectorField.kind f)) (PStr (VectorField.metric f)) (VectorField.hnsw f) = Ok f /\
  forall c, VectorField.hnsw f = Some c -> CollectionConfig.well_formed c.

Lemma init_field dimension dtype kind metric hnsw f :
  VectorField.init dimension dtype kind metric hnsw = Ok f ->
  VectorField.init (PInt (VectorField.dimension f)) (PStr (VectorField.dtype f))
    (PStr (VectorField.kind f)) (PStr (VectorField.metric f)) hnsw = Ok f /\
  VectorField.hnsw f = hnsw.
Proof.
  intros H. pose proof H as H0. unfold VectorField.init in H.
  apply bind_Ok in H as (d & Hd & H). apply bind_Ok in H as (t & Ht & H).
  apply bind_Ok in H as (k & Hk & H). apply bind_Ok in H as ([] & _ & H).
  apply bind_Ok in H as (m & Hm & H). apply bind_Ok in H as ([] & _ & H).
  injection H as <-. cbn [VectorField.dimension VectorField.dtype VectorField.kind
    VectorField.metric VectorField.hnsw].
  apply CollectionConfig.one_of_Ok in Ht as [-> _], Hk as [-> _].
  destruct metric; try done. injection Hm as ->. destruct dimension; try done.
  destruct (_ && _); [|done]. by injection Hd as ->.
Qed.

Lemma config_from_kernel_ok d c :
  CollectionConfig.from_kernel d = Ok c -> CollectionConfig.well_formed c.
Proof.
  unfold CollectionConfig.from_kernel. intros (? & _ & H)%bind_Ok.
  by apply CollectionConfig.init_Ok in H as [H _].
Qed.

Lemma field_from_kernel_ok d f : VectorField.from_kernel d = Ok f -> field_ok f.
Proof.
  unfold VectorField.from_kernel. intros H.
  do 5 apply bind_Ok in H as (? & _ & H). apply bind_Ok in H as (hnsw & Hh & H).
  apply init_field in H as [H Hf]. split; [by rewrite Hf|]. rewrite Hf. intros c ->.
  repeat case_match; try done; apply bind_Ok in Hh as (? & _ & Hh);
    apply bind_Ok in Hh as (c' & Hc & [= <-]); by eapply config_from_kernel_ok.
Qed.

Lemma field_ok_strip f :
  field_ok f ->
  VectorField.init (PInt (VectorField.dimension f)) (PStr (VectorField.dtype f))
    (PStr (VectorField.kind f)) (PStr (VectorField.metric f)) (strip_config <$> VectorField.hnsw f) =
  Ok (strip_field f).
Proof.
  intros [H _]. revert H. unfold VectorField.init, strip_field.
  destruct f as [d t k m h]. cbn [VectorField.dimension VectorField.dtype VectorField.kind
    VectorField.metric VectorField.hnsw]. destruct (_ && _); [|done]. cbn [mbind res_bind].
  destruct (one_of (PStr t) _ _); [|done]. cbn [mbind res_bind].
  destruct (one_of (PStr k) _ _); [|done]. cbn [mbind res_bind].
  destruct (VectorField.check_kind _ _ _ _) as [[]|]; [|done]. cbn [mbind res_bind].
  destruct h as [c|]; cbn [fmap option_fmap option_map]; [|naive_solver].
  cbn [strip_config CollectionConfig.set_fingerprint CollectionConfig.dimension CollectionConfig.ann_metric].
  destruct (_ || _); naive_solver.
Qed.

Lemma decode_field_json name f :
  name <> "" -> contains nul name = false -> field_ok f ->
  decode_field name (PDict (field_json f)) = Ok (strip_field f).
Proof.
  intros Hn Hc Hf. unfold decode_field. rewrite bool_decide_eq_false_2, Hc by done.
  cbn [orb raise_if mbind res_bind]. unfold _object.
  change (keys_are (field_json f) _FIELD_KEYS) with true. cbn [negb raise_if mbind res_bind].
  change (dict_item (field_json f) "dimension") with (Ok (PInt (VectorField.dimension f))).
  change (dict_item (field_json f) "dtype") with (Ok (PStr (VectorField.dtype f))).
  change (dict_item (field_json f) "kind") with (Ok (PStr (VectorField.kind f))).
  change (dict_item (field_json f) "metric") with (Ok (PStr (VectorField.metric f))).
  change (dict_item (field_json f) "hnsw") with (Ok (match VectorField.hnsw f with
    | None => PNone | Some config => PDict (_config_json config) end)).
  cbn [mbind res_bind]. pose proof (field_ok_strip f Hf) as Hs. destruct Hf as [_ Hw].
  destruct (VectorField.hnsw f) as [c|]; [|exact Hs].
  rewrite decode_config_json by auto. exact Hs.
Qed.

(** The schema of a capture: distinct names, fields that [VectorField] accepts. *)
Lemma schema_fields_from items acc schema :
  for_fold (fun fields item =>
    d ← subscriptable item;
    id ← dict_item d "id";
    named ← at_least_two id;
    if named : bool then
      name ← dict_item d "name";
      match name with
      | PStr name => f ← VectorField.from_kernel d; Ok (assoc_set fields name f)
      | _ => raise TypeError "vector field names are strings"
      end
    else Ok fields) acc items = Ok schema ->
  NoDup acc.*1 -> Forall (fun kv => field_ok kv.2) acc ->
  NoDup schema.*1 /\ Forall (fun kv => field_ok kv.2) schema.
Proof.
  revert acc. induction items as [|item items IH]; intros acc; [by intros [= <-]|].
  cbn [for_fold]. intros (acc' & Ha & H)%bind_Ok Hnd Hok. apply IH in H; [done|..].
  all: apply bind_Ok in Ha as (d & _ & Ha); apply bind_Ok in Ha as (i & _ & Ha);
    apply bind_Ok in Ha as ([] & _ & Ha); [|by injection Ha as <-];
    apply bind_Ok in Ha as ([] & _ & Ha); try done;
    apply bind_Ok in Ha as (f & Hf & [= <-]).
  - by apply assoc_set_NoDup.
  - apply assoc_set_Forall; [done|]. by eapply field_from_kernel_ok.
Qed.

Lemma schema_fields_ok items schema :
  schema_fields items = Ok schema ->
  NoDup schema.*1 /\ Forall (fun kv => field_ok kv.2) schema.
Proof. intros H. eapply schema_fields_from; [exact H|constructor..]. Qed.

Lemma decode_header_of config schema count last :
  CollectionConfig.well_formed config ->
  Forall (fun kv => kv.1 <> "" /\ contains nul kv.1 = false /\ field_ok kv.2) schema ->
  0 <= count < 2 ^ 63 -> 0 <= last < 2 ^ 64 ->
  decode_header (header_of config schema count last) = Ok (strip_config config, strip_schema schema).
Proof.
  intros Hc Hs Hcount Hlast. unfold decode_header, _object.
  change (keys_are (header_of config schema count last) _HEADER_KEYS) with true.
  cbn [negb raise_if mbind res_bind].
  set (h := header_of _ _ _ _).
  change (dict_item h "format") with (Ok (PStr FORMAT)).
  change (dict_item h "version") with (Ok (PInt VERSION)).
  change (dict_item h "count") with (Ok (PInt count)).
  change (dict_item h "source_sequence") with (Ok (PInt last)).
  change (dict_item h "config") with (Ok (PDict (_config_json config))).
  change (dict_item h "vectors") with
    (Ok (PDict ((fun '(name, spec) => (name, PDict (field_json spec))) <$> schema))).
  cbn [mbind res_bind]. change (negb (py_eq _ _) || _ || _) with false.
  cbn [raise_if mbind res_bind]. rewrite (integer_ok count), (integer_ok last) by lia.
  cbn [mbind res_bind]. rewrite decode_config_json by done. cbn [mbind res_bind].
  assert (map_res (fun '(name, raw) => f ← decode_field name raw; Ok (name, f))
    ((fun '(name, spec) => (name, PDict (field_json spec))) <$> schema) =
    Ok (strip_schema schema)) as ->; [|done].
  clear h. induction Hs as [|[name f] schema (Hn & Hz & Hf) Hs IH]; [done|].
  cbn [fmap list_fmap map_res fst snd]. rewrite decode_field_json by done.
  cbn [mbind res_bind]. change (list_fmap _ _ ?f ?l) with (f <$> l). rewrite IH. done.
Qed.

(** Comparing does not see the fingerprints. *)
Lemma eqb_strip c d : CollectionConfig.eqb (strip_config c) d = CollectionConfig.eqb c d.
Proof. done. Qed.

Lemma field_eqb_strip f g : VectorField.eqb (strip_field f) g = VectorField.eqb f g.
Proof. by destruct f as [? ? ? ? []]. Qed.

Lemma fields_eqb_strip schema fields : fields_eqb (strip_schema schema) fields = fields_eqb schema fields.
Proof.
  unfold fields_eqb, strip_schema. rewrite length_fmap. f_equal.
  induction schema as [|[n f] schema IH]; [done|]. cbn [fmap list_fmap forallb fst snd].
  rewrite <- IH. f_equal. destruct (assoc_get fields n); [apply field_eqb_strip|done].
Qed.

(** * What the decoder accepts *)

(** The value of a field of each kind, as it comes out of a file. *)
Definition decoded_shape (spec : VectorField.t) (v : pyval) : Prop :=
  if bool_decide (VectorField.kind spec = "binary") then
    exists b, v = bytes_value b /\ Z.of_nat (length b) = (VectorField.dimension spec + 7) / 8
  else exists l, v = PList l /\
    (VectorField.kind spec = "sparse" ->
     Forall (fun x => exists d, x = PDict d /\ keys_are d ["term_id"; "weight"] = true) l).

(** A mutation that replaces a point in whole: each field of the schema is set or
    removed, and the default vector, the sparse vector and the payload are set. *)
Record replaces (schema : schema_t) (m : PointMutation.t) : Prop := {
  replaces_operation : PointMutation.operation m = "upsert";
  replaces_id : - 2 ^ 63 <= PointMutation.id m < 2 ^ 63;
  replaces_fields : Forall2 (fun kv nv => nv.1 = kv.1 /\
    (nv.2 = VValue PNone \/ exists v, nv.2 = VValue v /\ decoded_shape kv.2 v))
    schema (PointMutation.vectors m);
  replaces_vector : exists v, PointMutation.vector m = Some v /\
    (v = PNone \/ exists l, v = PList l);
  replaces_sparse : exists v, PointMutation.sparse m = Some (VValue v) /\
    (v = PNone \/ exists l, v = PList l);
  replaces_payload : exists l, PointMutation.fields m = Some l }.

Lemma object_Ok v keys label d : _object v keys label = Ok d -> v = PDict d /\ keys_are d keys = true.
Proof.
  unfold _object. destruct v; try done. destruct (keys_are d0 keys) eqn:Hk; [|done]. by intros [= ->].
Qed.

Lemma integer_Ok v low high label z :
  _integer v low high label = Ok z -> v = PInt z /\ low <= z <= high.
Proof.
  unfold _integer. destruct v; try done. destruct (_ && _) eqn:H; [|done]. intros [= ->].
  apply andb_true_iff in H as [?%Z.leb_le ?%Z.leb_le]. done.
Qed.

Lemma sparse_Ok v w :
  _sparse v = Ok w -> w = v /\ (v = PNone \/ exists l, v = PList l /\
    Forall (fun x => exists d, x = PDict d /\ keys_are d ["term_id"; "weight"] = true) l).
Proof.
  unfold _sparse. destruct v as [| | | | |l| |]; try done; [by intros [= <-]; auto|].
  intros H. inv_ok. split; [done|]. right. exists l. split; [done|].
  match goal with H : for_each _ _ = _ |- _ => rename H into Hl end.
  apply for_each_Ok in Hl. eapply Forall_impl; [exact Hl|]. intros y Hy. cbv beta in Hy. inv_ok.
  match goal with H : _object _ _ _ = _ |- _ => apply object_Ok in H as [-> ?] end. by eexists.
Qed.

Lemma vector_shape v spec w : _vector v spec = Ok w -> decoded_shape spec w.
Proof.
  unfold _vector, decoded_shape. intros ([] & Hn & H)%bind_Ok. apply raise_if_Ok in Hn.
  case_bool_decide as Hb.
  - unfold binary_vector in H. apply bind_Ok in H as (d & _ & H).
    apply bind_Ok in H as (data & _ & H). apply bind_Ok in H as (enc & _ & H).
    apply bind_Ok in H as ([] & _ & H). destruct data as [| | | |s| | |]; try done.
    apply bind_Ok in H as ([] & Hl & H). apply raise_if_Ok, orb_false_iff in Hl as [Hl _].
    apply negb_false_iff, Z.eqb_eq in Hl. destruct (fromhex s) as [b|] eqn:Hx; [|done].
    injection H as <-. exists b. split; [done|]. apply fromhex_length in Hx. lia.
  - case_bool_decide as Hs.
    + apply sparse_Ok in H as [-> [-> | (l & -> & Hl)]]; [done|]. by exists l.
    + apply bind_Ok in H as ([] & Hv & [= <-]). apply raise_if_Ok, negb_false_iff in Hv.
      destruct v; try done. by eexists.
Qed.

Lemma decode_point_replaces last schema seen row m :
  decode_point last schema seen row = Ok m -> replaces schema m /\ PointMutation.id m ∉ seen.
Proof.
  unfold decode_point. intros H.
  do 2 apply bind_Ok in H as (? & _ & H). apply bind_Ok in H as (id & Hid & H).
  apply integer_Ok in Hid as [_ Hid]. apply bind_Ok in H as ([] & Hs & H).
  apply raise_if_Ok, bool_decide_eq_false in Hs.
  do 6 apply bind_Ok in H as (? & _ & H). apply bind_Ok in H as (updates & Hu & H).
  apply bind_Ok in H as (v & _ & H). apply bind_Ok in H as ([] & Hv & H).
  apply raise_if_Ok in Hv. do 2 apply bind_Ok in H as (? & _ & H).
  apply bind_Ok in H as (payload & _ & H). apply bind_Ok in H as (raw & _ & H).
  apply bind_Ok in H as (sp & Hsp & [= <-]). split; [|done].
  split; cbn [PointMutation.upsert PointMutation.operation PointMutation.id PointMutation.vectors
    PointMutation.vector PointMutation.sparse PointMutation.fields default]; [done|lia|..].
  - apply map_res_Ok in Hu. eapply Forall2_impl; [exact Hu|]. intros [name spec] [name' w].
    destruct (dict_get _ name) as [w0|]; cbn [fst snd].
    + intros (y & Hy & [= <- <-])%bind_Ok. split; [done|]. right. exists y. split; [done|].
      by eapply vector_shape.
    + intros [= <- <-]. by split; [|left].
  - exists v. split; [done|]. destruct v; try done; eauto.
  - exists sp. split; [done|]. apply sparse_Ok in Hsp as [-> [?|(l & ? & _)]]; eauto.
  - by eexists.
Qed.

Lemma decode_points_replace header rows schema ms :
  decode_points header rows schema = Ok ms ->
  length ms = length rows /\ NoDup (PointMutation.id <$> ms) /\ Forall (replaces schema) ms.
Proof.
  unfold decode_points. intros H. do 2 apply bind_Ok in H as (? & _ & H).
  apply bind_Ok in H as (last & _ & H). apply bind_Ok in H as ([ms' seen] & H & [= ->]).
  cut (forall acc acc' seen,
    for_fold (fun '(result, seen) row =>
      m ← decode_point last schema seen row;
      Ok (result ++ [m], seen ++ [PointMutation.id m])) (acc, PointMutation.id <$> acc) rows =
      Ok (acc', seen) -> NoDup (PointMutation.id <$> acc) -> Forall (replaces schema) acc ->
    length acc' = (length acc + length rows)%nat /\ NoDup (PointMutation.id <$> acc') /\
    Forall (replaces schema) acc').
  { intros Hcut. apply (Hcut [] ms seen H); constructor. }
  clear. induction rows as [|row rows IH]; intros acc acc' seen.
  { intros [= <- _] ? ?. by rewrite Nat.add_0_r. }
  cbn [for_fold]. intros (p & Hp & H)%bind_Ok Hnd Hok.
  apply bind_Ok in Hp as (m & Hm & [= <-]). apply decode_point_replaces in Hm as [Hr Hn].
  specialize (IH (acc ++ [m]) acc' seen). rewrite fmap_app, length_app in IH. cbn [fmap list_fmap length] in *.
  apply IH in H as (Hl & ? & ?); [split; [lia|done]| |by apply Forall_app; split; [|constructor]].
  apply NoDup_app. split_and!; [done| |apply NoDup_singleton].
  intros x Hx ->%list_elem_of_singleton. done.
Qed.

(** * Texts whose lines are encodable *)

Lemma no_surrogates_line a b :
  no_surrogates a = true -> no_surrogates b = true -> no_surrogates (a +:+ String newline b) = true.
Proof.
  intros Ha Hb. induction a as [|c a IH].
  { rewrite sapp_nil_l. cbn [no_surrogates]. by destruct b. }
  rewrite sapp_cons. destruct a as [|d a].
  - rewrite sapp_nil_l in *. cbn [no_surrogates]. rewrite andb_true_iff. split; [|by apply IH].
    by rewrite andb_false_r.
  - rewrite sapp_cons in *. cbn [no_surrogates] in *. apply andb_true_iff in Ha as [-> Ha]. auto.
Qed.

Lemma text_of_strict l :
  Forall (fun v => utf8_strict (dump v) = true) l -> utf8_strict (text_of l) = true.
Proof.
  induction 1 as [|v l Hv Hl IH]; [done|]. rewrite text_of_cons, line_of_app.
  unfold utf8_strict in *. apply andb_true_iff in Hv as [Hv Hs], IH as [IHv IHs].
  rewrite no_surrogates_line, andb_true_r by done. by apply utf8_valid_app_true.
Qed.
