(* ===== verification/OperationsFacts.v ===== *)
(** Properties of the operations on collections: what an export publishes, what
    an import may change, and what a quarantine moves. *)

From S2P Require Import Prelude Assoc PyFloat PyValue Json JsonFacts Envelope Files Models KernelConfig KernelInterface Vectors Database DatabaseFacts LogicalPoints Operations LogicalFacts.

(** * Export *)

Section Exporting.
Context {K : Type} `{!Kernel K}.
Variable perf_counter_ns : nat -> Z.
Abbreviation exporting := (@exporting K).

(** A value that can be written. *)
Definition writable (v : pyval) : Prop := dumps v = Ok (dump v) /\ utf8_strict (dump v) = true.

Lemma write_line_run (v : pyval) (s : exporting) f :
  temporary s = Some f ->
  (writable v /\ write_line v s = (Ok tt, set_temporary (Some (write (line_of v) f)) s)) \/
  exists e, write_line v s = (Raise e, s).
Proof.
  intros Hf. unfold write_line. rewrite run_lift. destruct (dumps v) as [t|e] eqn:Hd; [|by right; eexists].
  pose proof (proj1 (dumps_Ok _ _) Hd) as (_ & _ & ->).
  rewrite run_guard. destruct (utf8_strict (dump v)) eqn:Hu; [left|right; by eexists].
  split; [by split|]. cbn [negb]. unfold modify. by rewrite Hf.
Qed.

(** Writing lines appends them all, or stops with the destination as it was. *)
Lemma write_lines_run l (s : exporting) f :
  temporary s = Some f ->
  (Forall writable l /\
   for_each_M write_line l s =
     (Ok tt, set_temporary (Some (File (content f +:+ text_of l) (synced f))) s)) \/
  exists e f', for_each_M write_line l s = (Raise e, set_temporary f' s).
Proof.
  revert s f. induction l as [|v l IH]; intros s f Hf.
  { left. split; [constructor|]. cbn. rewrite sapp_nil_r. destruct s, f; simpl in *. by rewrite Hf. }
  cbn [for_each_M]. destruct (write_line_run v s f Hf) as [[Hv Hw]|[e He]].
  - rewrite (run_Ok _ _ _ _ _ Hw).
    destruct (IH (set_temporary (Some (write (line_of v) f)) s) (write (line_of v) f))
      as [[Hl ->]|(e & f' & ->)]; [done| |right; by exists e, f'].
    left. split; [by constructor|]. cbn [write content synced set_temporary source destination].
    by rewrite text_of_cons, sapp_assoc.
  - rewrite (run_Raise _ _ _ _ _ He). right. exists e, (temporary s). by destruct s.
Qed.

Definition lines_of (header : option dict) (rows : list pyval) : list pyval :=
  match header with Some header => PDict header :: rows | None => rows end.

(** The block under [try] of [export_ndjson]. *)
Definition publish_lines (header : option dict) (rows : list pyval) : M exporting unit :=
  try_finally
    (modify (set_temporary (Some (File "" 0)));;
     match header with Some header => write_line (PDict header) | None => mret tt end;;
     for_each_M write_line rows;;
     modify (fun s => set_temporary (fsync <$> temporary s) s);;
     modify replace_destination)
    (modify (set_temporary None)).

Lemma publish_lines_run header rows (s : exporting) :
  let text := text_of (lines_of header rows) in
  (Forall writable (lines_of header rows) /\ publish_lines header rows s =
     (Ok tt, Exporting (source s) (Some (File text (String.length text))) None)) \/
  exists e, publish_lines header rows s = (Raise e, Exporting (source s) (destination s) None).
Proof.
  intros text. unfold publish_lines, try_finally. rewrite run_modify.
  set (s0 := set_temporary (Some (File "" 0)) s).
  set (rest := fun _ : unit => modify (fun s => set_temporary (fsync <$> temporary s) s);;
                               modify replace_destination : M exporting unit).
  match goal with |- context [let '(_, _) := ?m s0 in _] => assert (m s0 =
    (for_each_M write_line (lines_of header rows) ≫= rest) s0) as -> end.
  { destruct header as [h|]; [|done]. cbn [lines_of for_each_M].
    unfold mbind, M_bind. by destruct (write_line (PDict h) s0) as [[]]. }
  destruct (write_lines_run (lines_of header rows) s0 (File "" 0) eq_refl) as [[Hw H]|(e & f & H)].
  - rewrite (run_Ok _ _ _ _ _ H). left. split; [done|]. done.
  - rewrite (run_Raise _ _ _ _ _ H). right. by exists e.
Qed.

(** What is captured, and the source after it. *)
Definition capture_lines : M exporting (option dict * list pyval) :=
  captured ← with_source (_export_points perf_counter_ns);
  match captured with
  | None => rows ← with_source (_export_records perf_counter_ns); mret (None, rows)
  | Some captured => '(header, rows) ← lift (encode_export captured); mret (Some header, rows)
  end.

Lemma export_split (s : exporting) :
  export_ndjson perf_counter_ns s =
  ('(header, rows) ← capture_lines; publish_lines header rows;; mret (Z.of_nat (length rows))) s.
Proof.
  unfold export_ndjson, capture_lines, mbind, M_bind.
  destruct (with_source _ s) as [[[captured|]|e] s1]; [| |done].
  - by destruct (lift (encode_export captured) s1) as [[[]|]].
  - by destruct (with_source _ s1) as [[]].
Qed.

Lemma with_source_destination {A} (m : M (@Collection K) A) :
  respects (fun s s' : exporting => destination s' = destination s /\ temporary s' = temporary s)
    (with_source m).
Proof. intros s. unfold with_source. by destruct (m (source s)). Qed.

#[local] Instance untouched_preorder :
  PreOrder (fun s s' : exporting => destination s' = destination s /\ temporary s' = temporary s).
Proof. split; [by intros s|]. intros s1 s2 s3 [-> ->] [-> ->]. done. Qed.

Lemma capture_lines_destination s :
  destination (capture_lines s).2 = destination s /\ temporary (capture_lines s).2 = temporary s.
Proof.
  revert s. change (respects
    (fun s s' : exporting => destination s' = destination s /\ temporary s' = temporary s)
    capture_lines).
  unfold capture_lines. walk; apply with_source_destination.
Qed.

Lemma export_outcome (s : exporting) r s' :
  temporary s = None -> export_ndjson perf_counter_ns s = (r, s') ->
  temporary s' = None /\
  match r with
  | Ok n => exists header rows s1, capture_lines s = (Ok (header, rows), s1) /\
      source s' = source s1 /\ n = Z.of_nat (length rows) /\
      Forall writable (lines_of header rows) /\
      let text := text_of (lines_of header rows) in
      destination s' = Some (File text (String.length text))
  | Raise _ => destination s' = destination s
  end.
Proof.
  intros Ht. rewrite export_split. pose proof (capture_lines_destination s) as [Hd Ht'].
  unfold mbind at 1, M_bind at 1.
  destruct (capture_lines s) as [[[header rows]|e] s1] eqn:Hc; cbn [snd] in *;
    [|intros [= <- <-]; by rewrite Ht', Hd].
  unfold mbind at 1, M_bind at 1.
  destruct (publish_lines_run header rows s1) as [[Hw ->]|[e ->]]; intros [= <- <-];
    (split; [done|]); [|done].
  by exists header, rows, s1.
Qed.
End Exporting.

(** * Import *)

(** The kernel methods that only read. *)
Definition read_methods : list string :=
  ["is_point_collection"; "collection_config"; "vector_fields"; "last_sequence"].

Class ReadOnly (K : Type) `{!Kernel K} : Prop :=
  read_only method args (k : K) : method ∈ read_methods -> (kernel_call method args k).2 = k.

Section Importing.
Context {K : Type} `{!Kernel K, !OrdinaryErrors K, !ReadOnly K}.
Variable perf_counter_ns : nat -> Z.
Variable container_text : pyval -> string.
Abbreviation Collection := (@Collection K).
Abbreviation _call := (_call perf_counter_ns).

Lemma call_kernel method args (c : Collection) :
  _kernel (_call method args c).2 = (kernel_call method args (_kernel c)).2.
Proof.
  destruct (call_state perf_counter_ns method args c) as (d & seq & H).
  destruct (kernel_call method args (_kernel c)) as [r k]. rewrite H. cbn [after_call _kernel snd].
  destruct (_ && _); [|done]. apply read_only. unfold read_methods. set_solver.
Qed.

Definition same_kernel (c c' : Collection) : Prop := _kernel c' = _kernel c.

#[local] Instance same_kernel_preorder : PreOrder same_kernel.
Proof. split; unfold same_kernel; [by intros c|by intros c1 c2 c3 -> ->]. Qed.

Lemma call_reads method args : method ∈ read_methods -> respects same_kernel (_call method args).
Proof. intros Hm c. unfold same_kernel. rewrite call_kernel. by apply read_only. Qed.

Ltac reads := first [ walk_step | apply call_reads; unfold read_methods; set_solver ].

Lemma is_point_reads : respects same_kernel (_is_point_collection perf_counter_ns).
Proof. unfold _is_point_collection. repeat reads. Qed.
Lemma config_reads : respects same_kernel (collection_config perf_counter_ns).
Proof. unfold collection_config. repeat reads. Qed.
Lemma fields_reads : respects same_kernel (vector_fields perf_counter_ns).
Proof. unfold vector_fields. repeat reads. Qed.

(** The parts of [import_points] before its write. *)
Definition check_points (header : dict) (rows : list dict) : M Collection (list PointMutation.t) :=
  '(config, schema) ← lift (decode_header header);
  field_aware ← _is_point_collection perf_counter_ns;
  lift (raise_if (negb field_aware)
          ValueError "logical point import requires a field-aware target");;
  current ← collection_config perf_counter_ns;
  fields ← if CollectionConfig.eqb config current
           then f ← vector_fields perf_counter_ns; mret (Some f) else mret None;
  lift (raise_if (negb (match fields with Some f => fields_eqb schema f | None => false end))
          ValueError "logical point import schema does not match target");;
  lift (decode_points header rows schema).

Definition write_points (mutations : list PointMutation.t) : M Collection Z :=
  (if bool_decide (mutations = []) then mret tt
   else apply_point_batch perf_counter_ns mutations;; mret tt);;
  mret (Z.of_nat (length mutations)).

Lemma import_points_split header rows c :
  import_points perf_counter_ns header rows c = (check_points header rows ≫= write_points) c.
Proof.
  unfold import_points, check_points, write_points, mbind, M_bind, lift.
  repeat case_match; simplify_eq; done.
Qed.

Lemma check_points_reads header rows : respects same_kernel (check_points header rows).
Proof.
  unfold check_points.
  repeat first [ walk_step | apply is_point_reads | apply config_reads | apply fields_reads ].
Qed.

Lemma check_points_Ok header rows c mutations c' :
  check_points header rows c = (Ok mutations, c') ->
  exists config schema, decode_header header = Ok (config, schema) /\
    decode_points header rows schema = Ok mutations.
Proof.
  unfold check_points. rewrite run_lift.
  destruct (decode_header header) as [[config schema]|e]; [|done]. intros H. exists config, schema.
  split; [done|]. apply bind_ok in H as (? & ? & _ & H). rewrite run_guard in H.
  case_match; [done|]. apply bind_ok in H as (? & ? & _ & H). apply bind_ok in H as (? & ? & _ & H).
  rewrite run_guard in H. case_match; [done|]. by apply lift_ok in H as [H _].
Qed.

(** The kernel after the batch of a point import: untouched, or given the batch. *)
Definition point_batch (mutations : list PointMutation.t) (k : K) : K :=
  (kernel_call "apply_point_batch" [PList (PointMutation.to_kernel <$> mutations)] k).2.

Lemma bind_kernel {A B} (m : M Collection A) (f : A -> M Collection B) c :
  (forall a, respects same_kernel (f a)) -> _kernel ((m ≫= f) c).2 = _kernel (m c).2.
Proof.
  intros Hf. unfold mbind, M_bind. destruct (m c) as [[a|e] c1]; [|done]. apply Hf.
Qed.

Lemma write_points_kernel mutations c :
  _kernel (write_points mutations c).2 = _kernel c \/
  _kernel (write_points mutations c).2 = point_batch mutations (_kernel c).
Proof.
  unfold write_points. rewrite bind_kernel by (intros; repeat walk_step).
  case_bool_decide; [by left|]. rewrite bind_kernel by (intros; repeat walk_step).
  unfold apply_point_batch. rewrite run_get, run_guard. case_match; [by left|]. right.
  rewrite bind_kernel by (intros; repeat walk_step). apply call_kernel.
Qed.

(** ** Files without a header *)

Definition sparse_args (e : Z * list (Z * float)) : list pyval :=
  [PInt e.1; PList (SparseElement.to_kernel <$> (sparse_element <$> e.2))].

(** The kernel after the sparse elements of these rows; a row without any is
    skipped. *)
Definition sparse_upserts (l : list (Z * list (Z * float))) (k : K) : K :=
  foldl (fun k e => if bool_decide (e.2 = []) then k
                    else (kernel_call "upsert_sparse" (sparse_args e) k).2) k l.

Lemma sparse_loop_kernel l c :
  exists n, _kernel (for_each_M (fun '(point_id, elements) =>
    if bool_decide (elements = []) then mret tt
    else upsert_sparse perf_counter_ns (PInt point_id) (sparse_element <$> elements)) l c).2 =
  sparse_upserts (take n l) (_kernel c).
Proof.
  revert c. induction l as [|[i elements] l IH]; intros c; [by exists 0%nat|]. cbn [for_each_M].
  set (f := if bool_decide (elements = []) then _ else _).
  assert (_kernel (f c).2 = if bool_decide (elements = []) then _kernel c
    else (kernel_call "upsert_sparse" (sparse_args (i, elements)) (_kernel c)).2) as Hk.
  { subst f. case_bool_decide; [done|]. unfold upsert_sparse.
    rewrite bind_kernel by (intros; repeat walk_step). apply call_kernel. }
  unfold mbind, M_bind. destruct (f c) as [[[]|e] c1]; cbn [snd] in *.
  - destruct (IH c1) as [n Hn]. exists (S n). rewrite Hn, Hk. done.
  - exists 1%nat. cbn [take]. by rewrite Hk.
Qed.

Definition legacy_batch (mutations : list BatchMutation.t) (k : K) : K :=
  (kernel_call "apply_batch" [PList (BatchMutation.to_kernel <$> mutations)] k).2.

Lemma apply_batch_kernel mutations c :
  _kernel (apply_batch perf_counter_ns mutations c).2 = _kernel c \/
  _kernel (apply_batch perf_counter_ns mutations c).2 = legacy_batch mutations (_kernel c).
Proof.
  unfold apply_batch. rewrite run_get, run_guard. case_match; [by left|]. right.
  rewrite bind_kernel by (intros; repeat walk_step). apply call_kernel.
Qed.

(** A batch that is refused before the kernel raises. *)
Lemma apply_batch_Ok mutations c v c' :
  apply_batch perf_counter_ns mutations c = (Ok v, c') ->
  _kernel c' = legacy_batch mutations (_kernel c).
Proof.
  unfold apply_batch. rewrite run_get, run_guard. case_match; [done|]. intros Hr.
  unfold legacy_batch. rewrite <- call_kernel. match type of Hr with (?m ≫= ?f) c = _ =>
    rewrite <- (bind_kernel m f) by (intros; repeat walk_step) end. by rewrite Hr.
Qed.

Lemma import_legacy_kernel rows c :
  let c' := (import_legacy container_text perf_counter_ns rows c).2 in
  _kernel c' = _kernel c \/
  exists decoded n, map_res (legacy_row container_text) rows = Ok decoded /\
    _kernel c' = sparse_upserts (take n decoded.*2) (legacy_batch decoded.*1 (_kernel c)).
Proof.
  unfold import_legacy. rewrite run_get, run_guard. case_match; [by left|]. rewrite run_lift.
  destruct (map_res _ rows) as [decoded|e]; [|by left].
  pose proof (apply_batch_kernel decoded.*1 c) as Hb.
  destruct (apply_batch perf_counter_ns decoded.*1 c) as [[v|e] c1] eqn:Ha; cbn [snd] in *.
  - right. rewrite (run_Ok _ _ _ _ _ Ha). apply apply_batch_Ok in Ha.
    destruct (sparse_loop_kernel decoded.*2 c1) as [n Hn].
    exists decoded, n. split; [done|]. rewrite bind_kernel by (intros; repeat walk_step).
    rewrite <- Ha. exact Hn.
  - rewrite (run_Raise _ _ _ _ _ Ha). destruct Hb as [Hb|Hb]; [by left|]. right.
    exists decoded, 0%nat. by rewrite take_0.
Qed.
End Importing.

(** * An exported capture is imported whole *)

(** What the kernel promises of a capture, with its configuration and schema. *)
Record capture_ok (c : capture) (config : CollectionConfig.t) (schema : schema_t) : Prop := {
  capture_config : CollectionConfig.from_kernel (config_value c) = Ok config;
  capture_schema : schema_fields (schema_value c) = Ok schema;
  capture_names : Forall (fun kv => kv.1 <> "" /\ contains nul kv.1 = false) schema;
  capture_count : Z.of_nat (length (points c)) < 2 ^ 63;
  capture_last : 0 <= source_sequence c < 2 ^ 64;
  capture_points : Forall (point_ok schema (source_sequence c)) (points c);
  capture_ids : NoDup (p_id <$> points c) }.

Definition exported_header (c : capture) (config : CollectionConfig.t) (schema : schema_t) : dict :=
  header_of config schema (Z.of_nat (length (points c))) (source_sequence c).
Definition exported_rows (c : capture) (schema : schema_t) : list dict :=
  encoded_point schema <$> points c.

Section Capture.
Context (c : capture) (config : CollectionConfig.t) (schema : schema_t).
Hypothesis Hc : capture_ok c config schema.

Lemma capture_fields :
  NoDup schema.*1 /\
  Forall (fun kv => kv.1 <> "" /\ contains nul kv.1 = false /\ field_ok kv.2) schema.
Proof.
  destruct (schema_fields_ok _ _ (capture_schema _ _ _ Hc)) as [Hnd Hf]. split; [done|].
  pose proof (capture_names _ _ _ Hc) as Hn. rewrite !Forall_forall in *. intros kv Hin.
  destruct (Hn kv Hin) as [? ?]. by split_and!; [..|apply Hf].
Qed.

Lemma encode_export_ok :
  encode_export (captured_value c) =
  Ok (exported_header c config schema, PDict <$> exported_rows c schema).
Proof.
  unfold encode_export.
  change (dict_item (captured_value c) "schema") with (Ok (PList (schema_value c))).
  change (dict_item (captured_value c) "points") with (Ok (PList (point_value <$> points c))).
  change (dict_item (captured_value c) "config") with (Ok (PDict (config_value c))).
  change (dict_item (captured_value c) "source_sequence") with (Ok (PInt (source_sequence c))).
  cbn [mbind res_bind Point.iterable subscriptable].
  rewrite (capture_schema _ _ _ Hc). cbn [mbind res_bind].
  assert (map_res (encode_row schema) (point_value <$> points c) =
    Ok (PDict <$> exported_rows c schema)) as ->.
  { unfold exported_rows. pose proof (capture_points _ _ _ Hc) as Hp.
    induction Hp as [|p l Hp Hl IH]; [done|]. cbn [fmap list_fmap map_res].
    rewrite (encode_row_ok _ _ _ Hp). cbn [mbind res_bind].
    change (list_fmap _ _ ?f ?l) with (f <$> l). by rewrite IH. }
  cbn [mbind res_bind]. rewrite (capture_config _ _ _ Hc). cbn [mbind res_bind].
  unfold exported_header, exported_rows, header_of. by rewrite !length_fmap.
Qed.

Lemma decode_exported_header :
  decode_header (exported_header c config schema) = Ok (strip_config config, strip_schema schema).
Proof.
  apply decode_header_of.
  - by eapply config_from_kernel_ok, Hc.
  - apply capture_fields.
  - pose proof (capture_count _ _ _ Hc). lia.
  - apply Hc.
Qed.

Lemma assoc_strip name : assoc_get (strip_schema schema) name = strip_field <$> assoc_get schema name.
Proof.
  unfold strip_schema. clear Hc. induction schema as [|[n f] l IH]; [done|].
  cbn [fmap list_fmap assoc_get fst snd]. by case_bool_decide.
Qed.

Lemma strip_names : (strip_schema schema).*1 = schema.*1.
Proof. unfold strip_schema. rewrite <- list_fmap_compose. by apply list_fmap_ext. Qed.

Lemma encoded_strip p : encoded_point (strip_schema schema) p = encoded_point schema p.
Proof.
  unfold encoded_point, encoded_vectors. do 7 f_equal. f_equal. apply list_fmap_ext.
  intros _ kv _. f_equal. unfold encode_vector. rewrite assoc_strip.
  by destruct (assoc_get schema kv.1) as [[]|].
Qed.

Lemma mutation_strip p : mutation_of (strip_schema schema) p = mutation_of schema p.
Proof.
  unfold mutation_of, strip_schema. do 2 f_equal. rewrite <- list_fmap_compose. done.
Qed.

Lemma point_ok_strip last p : point_ok schema last p -> point_ok (strip_schema schema) last p.
Proof.
  intros [? ? ? ? ? Hv]. split; try done. eapply Forall_impl; [exact Hv|].
  intros kv (spec & Hs & Hsh). exists (strip_field spec). rewrite assoc_strip, Hs. by split.
Qed.

Lemma decode_exported_points :
  decode_points (exported_header c config schema) (exported_rows c schema) (strip_schema schema) =
  Ok (mutation_of schema <$> points c).
Proof.
  unfold decode_points, header_int.
  change (dict_item (exported_header c config schema) "count")
    with (Ok (PInt (Z.of_nat (length (points c))))).
  change (dict_item (exported_header c config schema) "source_sequence")
    with (Ok (PInt (source_sequence c))).
  cbn [mbind res_bind]. unfold exported_rows. rewrite length_fmap.
  change (py_eq (PInt ?a) (PInt ?b)) with (a =? b). rewrite Z.eqb_refl.
  cbn [negb raise_if mbind res_bind].
  pose proof (decode_points_from (strip_schema schema) (source_sequence c) (points c) [] []) as H.
  replace (encoded_point schema <$> points c) with (encoded_point (strip_schema schema) <$> points c)
    by (apply list_fmap_ext; intros; apply encoded_strip).
  rewrite H; [..|apply Hc].
  - cbn [mbind res_bind app]. f_equal. apply list_fmap_ext. intros. apply mutation_strip.
  - rewrite strip_names. apply capture_fields.
  - eapply Forall_impl; [apply Hc|]. apply point_ok_strip.
Qed.
End Capture.

(** Rows that were written are read back, within the limit. *)
Lemma read_rows_of limit n rows header rest ds :
  is_point_header header = true -> rows ++ ds = header :: rest ->
  Z.of_nat (length rest) <= limit ->
  Forall (fun d => json_ok (PDict d) = true /\ floats_in isfinite (PDict d) = true) ds ->
  read_rows limit n rows (line_of <$> (PDict <$> ds)) = Ok (header :: rest).
Proof.
  intros Hh Heq Hlen Hds. revert n rows Heq.
  induction Hds as [|d ds [Hj Hf] Hds IH]; intros n rows Heq; [by rewrite app_nil_r in Heq; subst|].
  cbn [fmap list_fmap read_rows]. rewrite decode_line_of by done. cbn [mbind res_bind].
  assert (exists t, rows ++ [d] = header :: t /\ (length t <= length rest)%nat) as (t & Ht & Hlt).
  { destruct rows as [|r rows]; injection Heq as -> Heq; [exists []|exists (rows ++ [d])];
      (split; [done|]); subst; rewrite ?length_app; simpl; lia. }
  rewrite Ht, Hh. cbn [length]. rewrite (proj2 (Z.ltb_ge _ _)) by lia.
  cbn [raise_if mbind res_bind]. rewrite <- Ht. apply IH. by rewrite <- app_assoc.
Qed.

Lemma exported_header_is_header c config schema :
  is_point_header (exported_header c config schema) = true.
Proof. done. Qed.

(** ** A written text read back *)

Section Text.
Context (header : dict) (ds : list dict) (config : CollectionConfig.t) (schema : schema_t).
Hypothesis Hw : Forall writable (PDict header :: (PDict <$> ds)).
Hypothesis Hj : Forall (fun v => json_ok v = true) (PDict header :: (PDict <$> ds)).
Hypothesis Hheader : is_point_header header = true.
Hypothesis Hdecode : decode_header header = Ok (strip_config config, strip_schema schema).

Lemma written_lines :
  text_lines (text_of (PDict header :: (PDict <$> ds))) =
  Ok (line_of <$> (PDict <$> (header :: ds))).
Proof.
  apply text_lines_of; [exact Hj|]. apply text_of_strict. eapply Forall_impl; [exact Hw|].
  by intros v [].
Qed.

Lemma written_readable :
  Forall (fun d => json_ok (PDict d) = true /\ floats_in isfinite (PDict d) = true) (header :: ds).
Proof.
  apply Forall_and. split.
  - exact (proj1 (Forall_fmap PDict (fun v => json_ok v = true) (header :: ds)) Hj).
  - pose proof (proj1 (Forall_fmap PDict writable (header :: ds)) Hw) as H.
    eapply Forall_impl; [exact H|]. intros d [Hd _]. by apply dumps_Ok in Hd as (_ & ? & _).
Qed.

Lemma import_schema_text :
  import_schema (text_of (PDict header :: (PDict <$> ds))) =
  Ok (Some (strip_config config, strip_schema schema)).
Proof.
  unfold import_schema. rewrite written_lines. cbn [mbind res_bind fmap list_fmap].
  pose proof written_readable as H. apply Forall_cons in H as [[? ?] _].
  rewrite decode_line_of by done. cbn [mbind res_bind]. by rewrite Hheader, Hdecode.
Qed.

(** The import of the text into a collection whose configuration and schema are
    those of the header. *)
Lemma import_text {K} `{!Kernel K} clock texts (t t1 t2 t3 : @Collection K) current fields :
  Z.of_nat (length ds) <= ResourceLimits.max_batch_rows (limits t) ->
  _is_point_collection clock t = (Ok true, t1) ->
  collection_config clock t1 = (Ok current, t2) ->
  CollectionConfig.eqb config current = true ->
  vector_fields clock t2 = (Ok fields, t3) ->
  fields_eqb schema fields = true ->
  import_ndjson texts clock (text_of (PDict header :: (PDict <$> ds))) t =
  match decode_points header ds (strip_schema schema) with
  | Ok mutations => write_points clock mutations t3
  | Raise e => (Raise e, t3)
  end.
Proof.
  intros Hlimit H1 H2 Hc H3 Hf. unfold import_ndjson. rewrite run_lift, written_lines, run_get, run_lift.
  rewrite (read_rows_of _ _ [] header ds (header :: ds)); [|done|done|done|exact written_readable].
  rewrite Hheader. unfold import_points. rewrite run_lift, Hdecode.
  rewrite (run_Ok _ _ _ _ _ H1), run_guard. cbn [negb].
  rewrite (run_Ok _ _ _ _ _ H2), eqb_strip, Hc.
  assert ((f ← vector_fields clock; mret (Some f)) t2 = (Ok (Some fields), t3)) as H3'
    by (by rewrite (run_Ok _ _ _ _ _ H3)).
  rewrite (run_Ok _ _ _ _ _ H3'), run_guard, fields_eqb_strip, Hf. cbn [negb].
  rewrite run_lift. by destruct (decode_points _ _ _).
Qed.
End Text.

(** * Quarantine *)

Section Quarantine.
Context {E : Type}.
Implicit Types (s : @store E) (l moved : list string).

Definition held s : list (string * E) := default [] (quarantine s).

(** [s'] is [s] with the entries [moved] taken from the directory to the
    quarantine, which had none of their names. *)
Record moved_to (moved : list string) s s' : Prop := {
  moved_directory : forall name, assoc_get (directory s') name =
    if bool_decide (name ∈ moved) then None else assoc_get (directory s) name;
  moved_quarantine : forall name, assoc_get (held s') name =
    if bool_decide (name ∈ moved) then assoc_get (directory s) name else assoc_get (held s) name;
  moved_present : Forall (fun name => name ∈ (directory s).*1) moved;
  moved_fresh : Forall (fun name => name ∉ (held s).*1) moved;
  moved_names : NoDup (directory s').*1 }.

Definition is_orphan (keep : list string) (name : string) : bool :=
  negb (str_in name keep) && _ORPHAN_PATTERN name.

Lemma moved_to_nil s : NoDup (directory s).*1 -> moved_to [] s s.
Proof. intros H. by split; try constructor; intros; rewrite ?bool_decide_eq_false_2 by set_solver. Qed.

Lemma if_ext {A} (P Q : Prop) `{Decision P, Decision Q} (a b : A) :
  (P <-> Q) -> (if bool_decide P then a else b) = (if bool_decide Q then a else b).
Proof. intros HPQ. by rewrite (bool_decide_ext P Q HPQ). Qed.

Lemma moved_to_one moved s s1 name :
  moved_to moved s s1 -> name ∈ (directory s).*1 -> name ∉ moved -> name ∉ (held s1).*1 ->
  moved_to (moved ++ [name]) s (move_entry name s1).
Proof.
  intros [Hd Hq Hp Hf Hn] Hin Hm Hh.
  assert (exists e, assoc_get (directory s1) name = Some e) as [e He].
  { rewrite Hd, bool_decide_eq_false_2 by done.
    destruct (assoc_get (directory s) name) eqn:H; [by eexists|]. by apply assoc_get_None in H. }
  assert (assoc_get (directory s) name = Some e) as He0.
  { by rewrite Hd, bool_decide_eq_false_2 in He. }
  unfold move_entry. rewrite He. split; cbn [directory held quarantine default id].
  - intros x. destruct (decide (x = name)) as [->|Hne].
    + rewrite assoc_get_delete_eq, bool_decide_eq_true_2 by (done || set_solver). done.
    + rewrite assoc_get_delete_ne, Hd by done. apply if_ext. set_solver.
  - intros x. fold (held s1). destruct (decide (x = name)) as [->|Hne].
    + by rewrite assoc_get_set_eq, bool_decide_eq_true_2 by set_solver.
    + rewrite assoc_get_set_ne, Hq by done. apply if_ext. set_solver.
  - apply Forall_app. by split; [|constructor].
  - apply Forall_app. split; [done|]. constructor; [|done]. apply assoc_get_None.
    rewrite <- assoc_get_None, Hq, bool_decide_eq_false_2 in Hh by done. done.
  - eapply sublist_NoDup; [exact Hn|]. apply fmap_sublist, assoc_delete_sublist.
Qed.

Lemma candidate_run keep moved name s :
  quarantine_candidate keep moved name s =
  if is_orphan keep name then
    if assoc_has (held s) name
    then (raise FileExistsError ("quarantine target exists: " +:+ name), s)
    else (Ok (moved ++ [name]), move_entry name s)
  else (Ok moved, s).
Proof.
  unfold quarantine_candidate, is_orphan.
  destruct (str_in name keep); [done|]. destruct (_ORPHAN_PATTERN name); [|done]. cbn [negb orb andb].
  rewrite run_get, run_guard. fold (held s). by destruct (assoc_has (held s) name).
Qed.

Lemma has_keys {V} (l : list (string * V)) name : assoc_has l name = true <-> name ∈ l.*1.
Proof.
  unfold assoc_has. pose proof (assoc_get_None l name). destruct (assoc_get l name).
  - split; [|done]. intros _. destruct (decide (name ∈ l.*1)); naive_solver.
  - naive_solver.
Qed.

Lemma moved_held moved s s1 name :
  moved_to moved s s1 -> name ∉ moved -> assoc_has (held s1) name = assoc_has (held s) name.
Proof.
  intros Hm Hn. unfold assoc_has. rewrite (moved_quarantine _ _ _ Hm).
  by rewrite bool_decide_eq_false_2.
Qed.

(** The loop over the candidates [l]. *)
Lemma quarantine_loop keep s l moved s1 r s' :
  NoDup l -> (forall x, x ∈ l -> x ∈ (directory s).*1 /\ x ∉ moved) -> moved_to moved s s1 ->
  for_fold_M (quarantine_candidate keep) moved l s1 = (r, s') ->
  exists new, moved_to (moved ++ new) s s' /\
    match r with
    | Ok result => result = moved ++ new /\ new = List.filter (is_orphan keep) l
    | Raise e => exn_type e = FileExistsError /\
        exists name rest, List.filter (is_orphan keep) l = new ++ name :: rest /\
          name ∈ (held s).*1
    end.
Proof.
  intros Hnd. revert moved s1. induction Hnd as [|x l Hx Hnd IH]; intros moved s1 Hl Hm.
  { intros [= <- <-]. exists []. by rewrite app_nil_r. }
  destruct (Hl x) as [Hin Hnm]; [set_solver|].
  cbn [for_fold_M List.filter]. unfold mbind, M_bind. rewrite candidate_run.
  destruct (is_orphan keep x) eqn:Ho; [|intros H; apply (IH moved s1) in H; [done|set_solver|done]].
  destruct (assoc_has (held s1) x) eqn:Hh.
  - intros [= <- <-]. exists []. rewrite app_nil_r. split; [done|]. split; [done|].
    exists x, (List.filter (is_orphan keep) l). split; [done|]. apply has_keys.
    by rewrite <- Hh, (moved_held _ _ _ _ Hm).
  - intros H. apply (IH (moved ++ [x]) (move_entry x s1)) in H as (new & Hm' & Hr); [| |].
    + exists (x :: new). rewrite <- app_assoc in *. split; [done|]. destruct r as [result|e].
      * by destruct Hr as [-> ->].
      * destruct Hr as (He & name & rest & -> & Hk). split; [done|]. by exists name, rest.
    + intros y Hy. split; [apply Hl; set_solver|]. rewrite not_elem_of_app. split; [apply Hl; set_solver|].
      intros ->%list_elem_of_singleton. done.
    + apply moved_to_one; [done..|]. intros Hk%has_keys. congruence.
Qed.
End Quarantine.
