(* ===== verification/AdminTheorems.v ===== *)
(** What the command line does with the collections it opens. *)

From S2P Require Import Prelude Assoc PyFloat PyValue Json Envelope Files Models KernelConfig KernelInterface Vectors Database DatabaseFacts MemoryKernel DatabaseTheorems LogicalPoints Operations OperationsFacts Admin.

Section Closing.
Context {K : Type} `{!Kernel K, !OrdinaryErrors K}.
Variable perf_counter_ns : nat -> Z.


End Closing.

(** * The command line *)




(** ** A backup that fails *)




