(* ===== verification/ArrowFacts.v ===== *)
(** The check of the sparse columns row by row, what a descriptor is a view of,
    and the leases. *)

From S2P Require Import Prelude PyFloat PyValue Json Envelope Models KernelInterface Vectors Database DatabaseFacts Operations ArrowInterface Arrow.

(** * Slices *)

Section Slices.
Context {A : Type}.
Implicit Types l : list A.

Lemma slice_range a b l :
  0 <= a <= b -> b <= Z.of_nat (length l) -> py_slice (Some a) (Some b) l = segment a b l.
Proof.
  intros Ha Hb. unfold py_slice, segment, slice_bound, default. cbv beta iota zeta delta [id].
  rewrite (proj2 (Z.ltb_ge a 0)), (proj2 (Z.ltb_ge b 0)) by lia. repeat f_equal; lia.
Qed.

Lemma slice_tail l : py_slice (Some 1) None l = tail l.
Proof.
  unfold py_slice, slice_bound, default. cbv beta iota zeta delta [id].
  rewrite (proj2 (Z.ltb_ge _ 0)) by lia. cbn [Z.ltb Z.compare].
  destruct l as [|x l]; [done|]. cbn [length tail].
  replace (Z.to_nat (Z.max 0 (Z.min (Z.of_nat (S (length l))) 1))) with 1%nat by lia.
  cbn [drop]. rewrite skipn_0. apply firstn_all2. lia.
Qed.

Lemma slice_init l : py_slice None (Some (-1)) l = take (length l - 1) l.
Proof.
  unfold py_slice, slice_bound, default. cbv beta iota zeta delta [id]. cbn [Z.ltb Z.compare].
  replace (Z.to_nat (Z.max 0 (Z.min (Z.of_nat (length l)) 0))) with 0%nat by lia.
  rewrite skipn_0. f_equal. lia.
Qed.

Lemma slice_inner l : py_slice (Some 1) (Some (-1)) l = take (length l - 2) (tail l).
Proof.
  unfold py_slice, slice_bound, default. cbv beta iota zeta delta [id]. cbn [Z.ltb Z.compare].
  destruct l as [|x l]; [done|]. cbn [length tail].
  replace (Z.to_nat (Z.max 0 (Z.min (Z.of_nat (S (length l))) 1))) with 1%nat by lia.
  cbn [drop]. rewrite skipn_0. f_equal. lia.
Qed.

Lemma segment_length a b l :
  0 <= a <= b -> b <= Z.of_nat (length l) -> Z.of_nat (length (segment a b l)) = b - a.
Proof. intros Ha Hb. unfold segment. rewrite length_take, length_drop. lia. Qed.

Lemma segment_app a b c l : 0 <= a <= b -> b <= c -> segment a b l ++ segment b c l = segment a c l.
Proof.
  intros Ha Hb. unfold segment.
  replace (Z.to_nat (c - a)) with (Z.to_nat (b - a) + Z.to_nat (c - b))%nat by lia.
  rewrite <- take_take_drop, drop_drop. repeat f_equal. lia.
Qed.

Lemma rows_cons a b rest l :
  rows_between (a :: b :: rest) l = segment a b l :: rows_between (b :: rest) l.
Proof. done. Qed.
End Slices.

Lemma segment_fmap {A B} (f : A -> B) a b l : f <$> segment a b l = segment a b (f <$> l).
Proof. unfold segment. by rewrite fmap_take, fmap_drop. Qed.

(** * Neighbours out of order *)

(** [l[1:] <= l[:-1]] *)
Fixpoint descents (l : list Z) : list bool :=
  match l with
  | a :: (b :: _) as rest => (b <=? a) :: descents rest
  | _ => []
  end.

Lemma descents_zip l : zip_with Z.leb (tail l) (take (length l - 1) l) = descents l.
Proof.
  induction l as [|a [|b l] IH]; [done..|]. cbn [descents tail length] in *.
  replace (S (S (length l)) - 1)%nat with (S (S (length l) - 1)) by lia.
  cbn [firstn zip_with]. by rewrite IH.
Qed.

Lemma descents_length l : length (descents l) = (length l - 1)%nat.
Proof. induction l as [|a [|b l] IH]; [done..|]. cbn [descents length] in *. rewrite IH. lia. Qed.

Lemma descents_app x l y k :
  exists b, descents ((x :: l) ++ y :: k) = descents (x :: l) ++ b :: descents (y :: k).
Proof.
  revert x. induction l as [|z l IH]; intros x; [by exists (y <=? x)|].
  destruct (IH z) as [b Hb]. exists b. cbn [app descents] in *. by rewrite Hb.
Qed.

Lemma assigned_shift {A} (x : A) (l k : list A) indices :
  Forall (fun i => 0 <= i) indices ->
  assigned x (l ++ k) ((fun i => i + Z.of_nat (length l)) <$> indices) = l ++ assigned x k indices.
Proof.
  intros Hi. unfold assigned. revert k. induction Hi as [|i indices Hi _ IH]; intros k; [done|].
  rewrite fmap_cons. cbn [foldl]. rewrite <- IH. f_equal.
  rewrite insert_app_r_alt by lia. repeat f_equal. lia.
Qed.

Lemma assigned_middle {A} (x y : A) (l k : list A) indices :
  Forall (fun i => 0 <= i) indices ->
  assigned x (l ++ y :: k)
    (Z.of_nat (length l) :: ((fun i => i + (Z.of_nat (length l) + 1)) <$> indices)) =
  l ++ x :: assigned x k indices.
Proof.
  intros Hi. unfold assigned at 1. cbn [foldl].
  replace (<[Z.to_nat (Z.of_nat (length l)) := x]> (l ++ y :: k)) with ((l ++ [x]) ++ k).
  2:{ rewrite Nat2Z.id, <- app_assoc. by rewrite insert_app_r_alt, Nat.sub_diag by lia. }
  fold (assigned x ((l ++ [x]) ++ k)).
  replace (Z.of_nat (length l) + 1) with (Z.of_nat (length (l ++ [x])))
    by (rewrite length_app; cbn [length]; lia).
  change (assigned x ((l ++ [x]) ++ k) ((fun i => i + Z.of_nat (length (l ++ [x]))) <$> indices) =
    l ++ x :: assigned x k indices).
  rewrite assigned_shift by done. by rewrite <- app_assoc.
Qed.

(** * The mask over the neighbours in different rows *)

Definition descending (l : list Z) : bool := existsb id (descents l).

(** [offsets[1:-1] - base - 1] *)
Definition joins (base : Z) (offsets : list Z) : list Z :=
  (fun x => x - base - 1) <$> take (length offsets - 2) (tail offsets).

(** Offsets that increase from the first, and end within [n]. *)
Fixpoint increasing (a : Z) (rest : list Z) (n : Z) : Prop :=
  match rest with
  | [] => a <= n
  | b :: rest => a < b /\ increasing b rest n
  end.

Fixpoint last_of (a : Z) (rest : list Z) : Z :=
  match rest with [] => a | b :: rest => last_of b rest end.

Lemma increasing_last a rest n : increasing a rest n -> a <= last_of a rest <= n.
Proof.
  revert a. induction rest as [|b rest IH]; intros a; cbn [increasing last_of]; [lia|].
  intros [Hab H%IH]. lia.
Qed.

Lemma joins_cons base a b c rest :
  joins base (a :: b :: c :: rest) = (b - base - 1) :: joins base (b :: c :: rest).
Proof.
  unfold joins. cbn [length tail].
  replace (S (S (S (length rest))) - 2)%nat with (S (S (S (length rest)) - 2)) by lia.
  by cbn [firstn fmap list_fmap].
Qed.

(** The masked comparison of the active values sees the rows one by one. *)
Lemma masked_descents l a b rest :
  0 <= a -> increasing a (b :: rest) (Z.of_nat (length l)) ->
  existsb id (assigned false (descents (segment a (last_of b rest) l)) (joins a (a :: b :: rest))) =
    existsb descending (rows_between (a :: b :: rest) l) /\
  Forall (fun i => 0 <= i < last_of b rest - a - 1) (joins a (a :: b :: rest)).
Proof.
  revert a b. induction rest as [|c rest IH]; intros a b Ha [Hab Hinc].
  { split; [|done]. cbn [last_of rows_between existsb]. by rewrite orb_false_r. }
  pose proof (increasing_last _ _ _ Hinc) as Hlast.
  destruct (IH b c ltac:(lia) Hinc) as [IHe IHj]. clear IH. destruct Hinc as [Hbc Hinc].
  pose proof (increasing_last _ _ _ Hinc) as Hlast'. cbn [last_of] in *.
  set (z := last_of c rest) in *. rewrite joins_cons.
  assert (joins a (b :: c :: rest) = (fun i => i + (b - a)) <$> joins b (b :: c :: rest)) as ->.
  { unfold joins. rewrite <- list_fmap_compose. apply list_fmap_ext. intros i x _. cbn. lia. }
  split.
  - rewrite <- (segment_app a b z) by lia.
    pose proof (segment_length a b l ltac:(lia) ltac:(lia)) as H1.
    pose proof (segment_length b z l ltac:(lia) ltac:(lia)) as H2.
    cbn [rows_between existsb]. unfold descending at 1.
    revert H1 H2. destruct (segment a b l) as [|x r], (segment b z l) as [|y k]; intros H1 H2;
      try (cbn in H1, H2; lia).
    destruct (descents_app x r y k) as [v ->].
    replace (b - a - 1) with (Z.of_nat (length (descents (x :: r))))
      by (rewrite descents_length; lia).
    replace (b - a) with (Z.of_nat (length (descents (x :: r))) + 1)
      by (rewrite descents_length; lia).
    rewrite assigned_middle by (eapply Forall_impl; [exact IHj|]; by intros i []).
    rewrite existsb_app. cbn [existsb id orb]. by rewrite IHe.
  - constructor; [cbn; lia|]. apply Forall_fmap. eapply Forall_impl; [exact IHj|].
    intros i Hi. cbn in *. lia.
Qed.

(** * One row *)

Lemma validate_from_ok previous (r : list (Z * float)) :
  validate_from previous r = Ok tt <->
  Forall (fun e => 0 <= e.1) r /\ descending (previous :: r.*1) = false /\
  Forall (fun e => isfinite e.2 = true /\ feqb e.2 fzero = false) r.
Proof.
  revert previous. induction r as [|[t w] r IH]; intros previous; [by split|].
  cbn [validate_from]. rewrite !Forall_cons. cbn [fmap list_fmap fst snd].
  change (descending (previous :: t :: r.*1)) with ((t <=? previous) || descending (t :: r.*1)).
  unfold descending. cbn [existsb id]. fold (descending (t :: r.*1)). rewrite <- Z.ltb_ge.
  destruct (t <? 0), (t <=? previous), (isfinite w), (feqb w fzero); cbn; try rewrite IH;
    intuition congruence.
Qed.

Lemma validate_sparse_ok (r : list (Z * float)) :
  _validate_sparse r = Ok tt <->
  Forall (fun e => 0 <= e.1) r /\ descending r.*1 = false /\
  Forall (fun e => isfinite e.2 = true /\ feqb e.2 fzero = false) r.
Proof.
  unfold _validate_sparse. rewrite validate_from_ok. destruct r as [|[t w] r]; [done|].
  cbn [fmap list_fmap fst].
  change (descending (-1 :: t :: r.*1)) with ((t <=? -1) || descending (t :: r.*1)).
  rewrite orb_false_iff, Z.leb_gt, Forall_cons. cbn [fst]. split; [naive_solver|].
  intros ([] & ? & ?). split_and!; try done. lia.
Qed.

(** * The rows of increasing offsets *)

Lemma descending_increasing a rest n :
  descending (a :: rest) = false /\ last_of a rest <= n <-> increasing a rest n.
Proof.
  revert a. induction rest as [|b rest IH]; intros a; cbn [increasing last_of].
  - split; [by intros []|by split].
  - rewrite <- IH. unfold descending. cbn [descents existsb id].
    rewrite orb_false_iff, Z.leb_gt. tauto.
Qed.

Lemma rows_increasing {A} (l : list A) a rest n :
  Forall (fun r => r <> []) (rows_between (a :: rest) l) -> last_of a rest <= n ->
  increasing a rest n.
Proof.
  revert a. induction rest as [|b rest IH]; intros a; cbn [rows_between increasing last_of]; [done|].
  rewrite Forall_cons. intros [Hr H] Hz. split; [|by apply IH].
  destruct (Z.lt_ge_cases a b) as [|Hab]; [done|]. destruct Hr. unfold segment.
  by replace (Z.to_nat (b - a)) with 0%nat by lia.
Qed.

Lemma rows_concat {A} (l : list A) a rest :
  0 <= a -> increasing a rest (Z.of_nat (length l)) ->
  List.concat (rows_between (a :: rest) l) = segment a (last_of a rest) l.
Proof.
  revert a. induction rest as [|b rest IH]; intros a Ha.
  - intros _. unfold segment. cbn [last_of]. by rewrite Z.sub_diag.
  - intros [Hab H]. pose proof (increasing_last _ _ _ H). rewrite rows_cons. cbn [List.concat last_of].
    rewrite IH by (done || lia). apply segment_app; lia.
Qed.

Lemma rows_nonempty {A} (l : list A) a rest :
  0 <= a -> increasing a rest (Z.of_nat (length l)) ->
  Forall (fun r => r <> []) (rows_between (a :: rest) l).
Proof.
  revert a. induction rest as [|b rest IH]; intros a Ha; cbn [rows_between increasing]; [done|].
  intros [Hab H]. pose proof (increasing_last _ _ _ H).
  constructor; [|apply IH; [lia|done]]. intros Hr.
  pose proof (segment_length a b l ltac:(lia) ltac:(lia)) as Hl. rewrite Hr in Hl. cbn in Hl. lia.
Qed.

Lemma rows_fmap {A B} (f : A -> B) offsets (l : list A) :
  rows_between offsets (f <$> l) = (fun r : list A => f <$> r) <$> rows_between offsets l.
Proof.
  induction offsets as [|a [|b rest] IH]; [done..|].
  by rewrite !rows_cons, fmap_cons, IH, segment_fmap.
Qed.

Lemma existsb_Forall {A} (f : A -> bool) l : existsb f l = false <-> Forall (fun x => f x = false) l.
Proof.
  induction l as [|x l IH]; cbn [existsb]; [done|]. by rewrite orb_false_iff, Forall_cons, IH.
Qed.

Lemma forallb_Forall {A} (f : A -> bool) l : forallb f l = true <-> Forall (fun x => f x = true) l.
Proof.
  induction l as [|x l IH]; cbn [forallb]; [done|]. by rewrite andb_true_iff, Forall_cons, IH.
Qed.

Lemma existsb_id {A} (f : A -> bool) l : existsb id (f <$> l) = existsb f l.
Proof. induction l as [|x l IH]; [done|]. cbn [fmap list_fmap existsb id]. by f_equal. Qed.

Lemma forallb_id {A} (f : A -> bool) l : forallb id (f <$> l) = forallb f l.
Proof. induction l as [|x l IH]; [done|]. cbn [fmap list_fmap forallb id]. by f_equal. Qed.

Lemma item_first {A} (x : A) l : py_index 0 (x :: l) = Some x.
Proof. done. Qed.

Lemma item_last a rest : py_index (-1) (a :: rest) = Some (last_of a rest).
Proof.
  unfold py_index. cbn [Z.ltb Z.compare length].
  rewrite (proj2 (Z.ltb_ge _ 0)) by lia.
  replace (Z.to_nat (-1 + Z.of_nat (S (length rest)))) with (length rest) by lia.
  revert a. induction rest as [|b rest IH]; intros a; [done|]. apply IH.
Qed.

(** * The check of the sparse values *)

Section Sparse.
Context `{NumPy, !NumPyLaws}.

(** A row of the batch, as the scalar check of the imports sees it. *)
Definition row_accepted (r : list (Z * float)) : Prop := r <> [] /\ _validate_sparse r = Ok tt.

Lemma compare_neighbours (a : ndarray Z) :
  exists c, np_less_equal (np_slice (Some 1) None a) (np_slice None (Some (-1)) a) = Ok c /\
    tolist c = descents (tolist a).
Proof.
  destruct (tolist_less_equal (np_slice (Some 1) None a) (np_slice None (Some (-1)) a))
    as (c & Hc & Ht).
  { rewrite !tolist_slice, slice_tail, slice_init, length_take. destruct (tolist a); cbn; lia. }
  exists c. split; [done|]. by rewrite Ht, !tolist_slice, slice_tail, slice_init, descents_zip.
Qed.

Lemma tolist_joins (a : ndarray Z) base b rest n :
  0 <= base -> tolist a = base :: b :: rest -> increasing base (b :: rest) n ->
  tolist (np_subtract_scalar (np_subtract_scalar (np_slice (Some 1) (Some (-1)) a) base) 1) =
  joins base (base :: b :: rest).
Proof.
  intros Hb Ha Hinc.
  assert (Forall (fun x => base + 1 <= x) (tail (tolist a))) as Hge.
  { rewrite Ha. cbn [tail]. destruct Hinc as [Hbb Hinc]. clear Ha.
    assert (forall a, base + 1 <= a -> increasing a rest n ->
      Forall (fun x => base + 1 <= x) (a :: rest)) as Hall.
    { clear. induction rest as [|c rest IH]; intros a Ha; [by repeat constructor|].
      intros [Hac H]. constructor; [done|]. apply IH; [lia|done]. }
    apply Hall; [lia|done]. }
  assert (Forall (fun x => base + 1 <= x) (tolist (np_slice (Some 1) (Some (-1)) a))) as Hs.
  { rewrite tolist_slice, slice_inner. by apply Forall_take. }
  assert (tolist (np_subtract_scalar (np_slice (Some 1) (Some (-1)) a) base) =
    (fun x => x - base) <$> tolist (np_slice (Some 1) (Some (-1)) a)) as H1.
  { apply tolist_subtract. eapply Forall_impl; [exact Hs|]. cbn. lia. }
  rewrite tolist_subtract.
  - rewrite H1, tolist_slice, slice_inner, Ha. unfold joins. by rewrite <- list_fmap_compose.
  - rewrite H1. apply Forall_fmap. eapply Forall_impl; [exact Hs|]. cbn. lia.
Qed.

(** The elements of rows that meet the conditions of the scalar check. *)
Lemma rows_accepted (l : list (Z * float)) base rest :
  0 <= base -> increasing base rest (Z.of_nat (length l)) ->
  let active := segment base (last_of base rest) l in
  Forall row_accepted (rows_between (base :: rest) l) <->
  (Forall (fun e => 0 <= e.1) active /\
   existsb descending (rows_between (base :: rest) l.*1) = false) /\
  Forall (fun e => isfinite e.2 = true /\ feqb e.2 fzero = false) active.
Proof.
  intros Hb Hinc active. subst active. rewrite <- rows_concat by done.
  rewrite !Forall_concat, existsb_Forall, rows_fmap, Forall_fmap.
  pose proof (rows_nonempty l base rest Hb Hinc) as Hne. split.
  - intros Hall. split_and!; (eapply Forall_impl; [exact Hall|]);
      intros r [_ Hr%validate_sparse_ok]; cbn; tauto.
  - intros [[Hid Horder] Hweights]. rewrite Forall_forall in *. intros r Hr.
    split; [by apply Hne|]. apply validate_sparse_ok.
    split_and!; [by apply Hid|by apply Horder|by apply Hweights].
Qed.

Lemma check_sparse_cases (offsets terms : ndarray Z) (weights : ndarray float) base b rest :
  tolist offsets = base :: b :: rest ->
  let child := zip (tolist terms) (tolist weights) in
  (check_sparse offsets terms weights = Ok tt /\
   length (tolist terms) = length (tolist weights) /\
   0 <= base /\ last_of base (b :: rest) <= np_len terms /\
   Forall row_accepted (rows_between (base :: b :: rest) child)) \/
  ((exists message, check_sparse offsets terms weights = raise ValueError message) /\
   ~ (length (tolist terms) = length (tolist weights) /\
      0 <= base /\ last_of base (b :: rest) <= np_len terms /\
      Forall row_accepted (rows_between (base :: b :: rest) child))).
Proof.
  intros Ho child. unfold check_sparse.
  rewrite (item_found 0 offsets base) by (by rewrite Ho).
  rewrite (item_found (-1) offsets (last_of base (b :: rest))) by (by rewrite Ho, item_last).
  set (z := last_of base (b :: rest)).
  destruct (compare_neighbours offsets) as (c & -> & Hc). cbn [mbind res_bind].
  rewrite (any_spec c), Hc, Ho. fold (descending (base :: b :: rest)).
  destruct (negb (np_len terms =? np_len weights) || (base <? 0) || (np_len terms <? z) ||
            descending (base :: b :: rest)) eqn:Hg1; cbn [raise_if raise mbind res_bind].
  { right. split; [by eexists|]. intros (Hlen & Hb & Hz & Hrows).
    assert (Forall (fun r => r <> []) (rows_between (base :: b :: rest) child)) as Hne.
    { eapply Forall_impl; [exact Hrows|]. by intros r []. }
    pose proof (rows_increasing _ _ _ _ Hne Hz) as Hinc.
    apply descending_increasing in Hinc as [Hd _]. rewrite Hd in Hg1.
    unfold np_len in *. rewrite !orb_true_iff, negb_true_iff, Z.eqb_neq, !Z.ltb_lt in Hg1.
    destruct Hg1 as [[[Hn|Hn]|Hn]|Hn]; [lia..|done]. }
  rewrite !orb_false_iff, negb_false_iff, Z.eqb_eq, !Z.ltb_ge in Hg1.
  destruct Hg1 as [[[Hlen Hb] Hz] Hd].
  assert (length (tolist terms) = length (tolist weights)) as Hlen' by (unfold np_len in *; lia).
  assert (length child = length (tolist terms)) as Hchild.
  { unfold child. rewrite length_zip_with. lia. }
  assert (child.*1 = tolist terms) as Hfst by (apply fst_zip; lia).
  assert (child.*2 = tolist weights) as Hsnd by (apply snd_zip; lia).
  assert (increasing base (b :: rest) (Z.of_nat (length child))) as Hinc.
  { apply descending_increasing. split; [done|]. unfold np_len in Hz. by rewrite Hchild. }
  pose proof (increasing_last _ _ _ Hinc) as Hlast. fold z in Hlast.
  pose proof (rows_accepted child base (b :: rest) Hb Hinc) as Hrows. cbn zeta in Hrows. fold z in Hrows.
  assert (tolist (np_slice (Some base) (Some z) terms) = (segment base z child).*1) as Ht.
  { rewrite tolist_slice, slice_range, segment_fmap, Hfst by lia. done. }
  assert (tolist (np_slice (Some base) (Some z) weights) = (segment base z child).*2) as Hw.
  { rewrite tolist_slice, slice_range, segment_fmap, Hsnd by lia. done. }
  destruct (compare_neighbours (np_slice (Some base) (Some z) terms)) as (d & -> & Hdd).
  cbn [mbind res_bind].
  pose proof (tolist_joins offsets base b rest _ Hb Ho Hinc) as Hj.
  destruct (masked_descents (tolist terms) base b rest Hb) as [Hmask Hin].
  { by rewrite <- Hchild. }
  change (last_of b rest) with z in Hmask, Hin.
  assert (length (tolist d) = Z.to_nat (z - base - 1)) as Hdl.
  { rewrite Hdd, descents_length, Ht, length_fmap.
    pose proof (segment_length base z child ltac:(lia) ltac:(lia)). lia. }
  destruct (tolist_assign d (np_subtract_scalar (np_subtract_scalar
    (np_slice (Some 1) (Some (-1)) offsets) base) 1) false) as (e & -> & He).
  { rewrite Hj. eapply Forall_impl; [exact Hin|]. intros i Hi. cbv beta in Hi.
    unfold np_len. rewrite Hdl. lia. }
  cbn [mbind res_bind].
  rewrite !any_spec, all_spec, tolist_less_scalar, tolist_equal_scalar, tolist_isfinite,
    !existsb_id, forallb_id, He, Hj, Hdd, Ht, Hw.
  assert (existsb id (assigned false (descents (segment base z child).*1) (joins base (base :: b :: rest)))
    = existsb descending (rows_between (base :: b :: rest) child.*1)) as ->.
  { by rewrite segment_fmap, Hfst, Hmask. }
  set (active := segment base z child) in *.
  set (order := existsb descending _) in *.
  assert (existsb (fun x => x <? 0) active.*1 = false <-> Forall (fun e => 0 <= e.1) active) as Hnegative.
  { rewrite existsb_Forall, Forall_fmap. apply Forall_iff. intros x. apply Z.ltb_ge. }
  assert (negb (forallb isfinite active.*2) || existsb (fun x => feqb x fzero) active.*2 = false <->
    Forall (fun e => isfinite e.2 = true /\ feqb e.2 fzero = false) active) as Hvalues.
  { by rewrite orb_false_iff, negb_false_iff, existsb_Forall, forallb_Forall, !Forall_fmap, Forall_and. }
  rewrite <- Hnegative, <- Hvalues in Hrows.
  destruct (existsb _ active.*1), order; cbn [orb raise_if raise mbind res_bind];
    try (right; split; [by eexists|]; intros (_ & _ & _ & Hall%Hrows); by destruct Hall as [[] ?]).
  destruct (negb _ || _); cbn [raise_if raise].
  - right. split; [by eexists|]. intros (_ & _ & _ & Hall%Hrows). by destruct Hall.
  - left. split_and!; try done. by apply Hrows.
Qed.
End Sparse.

(** * What a descriptor shows of its batch *)

Section Views.
Context `{PyArrow, !NumPyLaws, !PyArrowLaws}.
Variable repr : pyval -> string.

Lemma primitive_view_ok d a start count v :
  _primitive_view d a start count = Ok v ->
  (0 <= start /\ 0 <= count /\ start + count <= array_len a) /\
  scalar d <$> tolist v = segment start (start + count) (to_pylist a).
Proof.
  unfold _primitive_view. intros Hv. inv_ok.
  match goal with Hg : _ || _ = false |- _ =>
    rewrite !orb_false_iff, !Z.ltb_ge in Hg; destruct Hg as [[Hs Hc] Hl] end.
  split; [done|]. rewrite <- pylist_slice by done. symmetry. by apply numpy_values.
Qed.

Lemma segment_all {A} (l : list A) n : n = Z.of_nat (length l) -> segment 0 n l = l.
Proof. intros ->. unfold segment. rewrite skipn_0. apply firstn_all2. lia. Qed.

Lemma primitive_view_all d a v :
  _primitive_view d a 0 (array_len a) = Ok v -> scalar d <$> tolist v = to_pylist a.
Proof. intros [_ Hv]%primitive_view_ok. rewrite Hv. apply segment_all. by rewrite pylist_length. Qed.

(** A segment of a segment. *)
Lemma segment_segment {A} (l : list A) a b i j :
  0 <= a <= b -> 0 <= i <= j -> a + j <= b ->
  segment i j (segment a b l) = segment (a + i) (a + j) l.
Proof.
  intros Ha Hi Hj. unfold segment. rewrite skipn_firstn_comm, drop_drop, take_take.
  f_equal; [lia|]. f_equal. lia.
Qed.

(** The dense column: row [i] is the [i]-th group of [dimension] elements. *)
Lemma dense_rows a dimension n v :
  pa_type_eqb a (pa_list_size (pa pa_float32) dimension) = true -> 0 <= dimension ->
  null_count a = 0 -> array_len a = n ->
  _primitive_view float32 (array_values a) (array_offset a * dimension) (n * dimension) = Ok v ->
  np_len v = n * dimension /\
  forall i, 0 <= i < n -> to_pylist a !! Z.to_nat i =
    Some (PList (PFloat <$> segment (i * dimension) ((i + 1) * dimension) (tolist v))).
Proof.
  intros Ht Hd Hnull Hn [(Hs & Hc & Hl) Hv]%primitive_view_ok.
  assert (np_len v = n * dimension) as Hlen.
  { unfold np_len. apply (f_equal length) in Hv. rewrite length_fmap in Hv. rewrite Hv.
    rewrite segment_length; [lia|nia|]. by rewrite pylist_length. }
  split; [done|]. intros i Hi.
  pose proof (pylist_length a) as Hpl. pose proof (no_nulls a Hnull) as Hnn.
  destruct (lookup_lt_is_Some_2 (to_pylist a) (Z.to_nat i)) as [x Hx]; [lia|]. rewrite Hx.
  rewrite Forall_forall in Hnn.
  rewrite (fixed_list_rows a _ dimension i x Ht Hd) by
    (done || lia || by apply Hnn, list_elem_of_lookup_2 with (Z.to_nat i)).
  do 2 f_equal. rewrite segment_fmap. change (PFloat <$> tolist v) with (scalar float32 <$> tolist v).
  rewrite Hv, segment_segment by nia. f_equal; nia.
Qed.

(** The sparse columns: their rows are those of the offsets, and pass the scalar
    check. *)
Lemma sparse_columns_rows b offsets terms weights :
  validate b = Ok tt -> 0 < num_rows b ->
  sparse_columns b = Ok (offsets, terms, weights) ->
  exists ts ws, column b "sparse_term_ids" = Ok ts /\ column b "sparse_weights" = Ok ws /\
    to_pylist ts = PList <$> rows_between (tolist offsets) (PInt <$> tolist terms) /\
    to_pylist ws = PList <$> rows_between (tolist offsets) (PFloat <$> tolist weights) /\
    Forall row_accepted (rows_between (tolist offsets) (zip (tolist terms) (tolist weights))).
Proof.
  intros Hb Hn Hs. unfold sparse_columns in Hs.
  apply bind_Ok in Hs as (ts & Hts & Hs). apply bind_Ok in Hs as (ws & Hws & Hs).
  apply bind_Ok in Hs as (? & Htype%raise_if_Ok & Hs).
  apply bind_Ok in Hs as (? & Hnull%raise_if_Ok & Hs).
  apply bind_Ok in Hs as (? & Heq%raise_if_Ok & Hs).
  apply bind_Ok in Hs as (o & Ho & Hs). apply bind_Ok in Hs as (t & Ht & Hs).
  apply bind_Ok in Hs as (w & Hw & Hs). apply bind_Ok in Hs as ([] & Hcheck & [= <- <- <-]).
  rewrite orb_false_iff, !negb_false_iff in Htype. destruct Htype as [Htt Htw].
  rewrite !orb_false_iff, !negb_false_iff, !Z.eqb_eq in Hnull. destruct Hnull as [[[Hn1 Hn2] _] _].
  apply negb_false_iff, equal_arrays in Heq.
  pose proof (valid_column _ _ _ Hb Hts) as Hlt. pose proof (valid_column _ _ _ Hb Hws) as Hlw.
  apply (primitive_view_all int64) in Ht. apply (primitive_view_all float32) in Hw.
  apply (primitive_view_ok int32) in Ho as [(_ & _ & Hol) Ho]. rewrite Z.add_0_l in Ho, Hol.
  change (PInt <$> tolist o = segment 0 (num_rows b + 1) (to_pylist (array_offsets ts))) in Ho.
  exists ts, ws. split_and!; try done.
  - rewrite (list_rows ts _ (tolist o) Htt Hn1) by (by rewrite Hlt). by rewrite <- Ht.
  - rewrite (list_rows ws _ (tolist o) Htw Hn2) by (by rewrite Hlw, <- Heq). by rewrite <- Hw.
  - assert (Z.of_nat (length (tolist o)) = num_rows b + 1) as Hlen.
    { apply (f_equal length) in Ho. rewrite length_fmap in Ho. rewrite Ho.
      rewrite segment_length; [lia|lia|]. by rewrite pylist_length. }
    destruct (tolist o) as [|a [|a' rest]] eqn:Hoff; [cbn in Hlen; lia..|].
    destruct (check_sparse_cases o t w a a' rest Hoff) as [(_ & _ & _ & _ & Hr)|[[m Hm] _]];
      [done|]. by rewrite Hm in Hcheck.
Qed.
End Views.
