(* ===== verification/ArrowStreamsFacts.v ===== *)
(** Facts about ingestion, the scanner and its arguments. *)

From S2P Require Import Prelude Assoc PyFloat PyValue Json Envelope Models KernelConfig KernelInterface Vectors Database DatabaseFacts ArrowInterface Arrow ArrowPoints ArrowStreams ArrowFacts.

(** * Names with a prefix *)

Lemma substring_all s n : (String.length s <= n)%nat -> String.substring 0 n s = s.
Proof.
  revert s. induction n as [|n IH]; intros [|c s]; cbn; intros Hn; [done|lia|done|].
  f_equal. apply IH. lia.
Qed.

Lemma substring_app p s n :
  String.substring (String.length p) n (p +:+ s) = String.substring 0 n s.
Proof. induction p as [|c p IH]; [done|]. rewrite sapp_cons. exact IH. Qed.

Lemma prefix_split p s : String.prefix p s = true -> exists t, s = p +:+ t.
Proof.
  revert s. induction p as [|c p IH]; intros s Hp; [by exists s|].
  destruct s as [|d s]; [done|]. cbn in Hp. destruct (ascii_dec c d) as [->|]; [|done].
  destruct (IH s Hp) as [t ->]. by exists t.
Qed.

Lemma removeprefix_app p t : removeprefix p (p +:+ t) = t.
Proof.
  unfold removeprefix. rewrite substring_app, slength_app. apply substring_all. lia.
Qed.

Lemma removeprefix_ok p s : String.prefix p s = true -> p +:+ removeprefix p s = s.
Proof. intros [t ->]%prefix_split. by rewrite removeprefix_app. Qed.

(** * Leases *)

Section Leases.
Context {K : Type} `{PyArrow, !Kernel K, !ArrowKernel K}.
Implicit Types s : session K.

(** The object a call works on: what its lease holds, if it is not released. *)
Definition leased (p : producer) s : res object :=
  match p with
  | Producer o => l ← from_producer o; lease_batch l
  | Lease i =>
      match leases s !! i with
      | Some l => lease_batch l
      | None => raise AttributeError "no such lease"
      end
  end.

(** The leases after the call: a lease of its own is there, released. *)
Definition leases_after (p : producer) s : list ArrowBatchLease :=
  match p with
  | Producer o =>
      match from_producer o with
      | Ok _ => leases s ++ [MkLease None true]
      | Raise _ => leases s
      end
  | Lease _ => leases s
  end.

Lemma from_producer_live o l : from_producer o = Ok l -> exists x, l = MkLease (Some x) false.
Proof. unfold from_producer. intros Hl. inv_ok. eauto. Qed.

Lemma with_lease_outcome {A} p (m : object -> M (@Collection K) A) s :
  with_lease p m s =
  match leased p s with
  | Ok x => let '(r, c) := m x (collection s) in (r, Session c (leases_after p s))
  | Raise e => (Raise e, s)
  end.
Proof.
  destruct p as [i|o]; unfold with_lease, leased, leases_after; cbn [the_lease owns_lease].
  - rewrite run_ret_bind. unfold try_finally, mbind at 1, M_bind at 1, on_lease.
    destruct (leases s !! i) as [l|] eqn:Hl; [|done]. rewrite run_get. cbn [lift].
    rewrite list_insert_id by done. destruct s as [c ls]. cbn [leases collection] in *.
    destruct (lease_batch l) as [x|e]; [|done]. unfold on_collection. cbn [collection leases].
    by destruct (m x c) as [r c'].
  - unfold mbind at 1, M_bind at 1. destruct (from_producer o) as [l|e] eqn:Hl; [|done].
    destruct (from_producer_live _ _ Hl) as [x ->].
    unfold mbind at 1, M_bind at 1. cbn [lift]. rewrite run_get.
    unfold mbind at 1, M_bind at 1, put_state at 1. cbn [mret M_ret].
    assert ((leases s ++ [MkLease (Some x) false]) !! length (leases s) = Some (MkLease (Some x) false)) as Hi
      by (by rewrite list_lookup_middle).
    unfold try_finally, mbind at 1, M_bind at 1, on_lease. cbn [leases collection].
    rewrite Hi. cbn [lease_batch _released _batch mbind res_bind].
    rewrite run_get. cbn [lift]. rewrite list_insert_id by done.
    change (lease_batch (MkLease (Some x) false)) with (@Ok object x).
    unfold on_collection. cbn [collection leases]. destruct (m x (collection s)) as [r c'].
    cbn [leases]. rewrite Hi. unfold release. rewrite run_get. cbn [_released].
    unfold mbind, M_bind. cbn [lift raise_if put_state collection leases].
    by rewrite insert_app_r_alt, Nat.sub_diag by lia.
Qed.
End Leases.

(** * One ingestion *)

Section Ingest.
Context {K : Type} `{PyArrow, !Kernel K, !ArrowKernel K, !OrdinaryErrors K, !OrdinaryArrowErrors K}.
Variable perf_counter_ns : nat -> Z.
Variable repr : pyval -> string.

(** The value of a method, read as an integer by the caller. *)
Definition int_result (v : res pyval) : res Z :=
  match v with Ok v => py_int v | Raise e => Raise (map_kernel_error e) end.

Lemma ingest_outcome x (c : @Collection K) :
  match _validated_descriptor repr (dimension c) x with
  | Raise e => ingest perf_counter_ns repr x c = (Raise e, c)
  | Ok d =>
      let '(v, k) := apply_arrow_batch d (_kernel c) in
      exists duration sequence, ingest perf_counter_ns repr x c =
        (int_result v, after_call "apply_arrow_batch" duration sequence v k c)
  end.
Proof.
  unfold ingest. rewrite run_get. rewrite run_lift.
  destruct (_validated_descriptor _ _ _) as [d|e]; [|done].
  destruct (apply_arrow_batch d (_kernel c)) as [v k] eqn:Hv.
  destruct (call_method_state perf_counter_ns "apply_arrow_batch" (apply_arrow_batch d) c v k Hv)
    as (duration & sequence & Hc).
  { intros e ->. by eapply apply_arrow_errors. }
  exists duration, sequence. unfold mbind, M_bind. rewrite Hc. by destruct v.
Qed.
End Ingest.

(** * The scanner *)

Section Scans.
Context {K : Type} `{PyArrow, !Kernel K, !ArrowKernel K}.
Abbreviation ArrowScanner := (@ArrowScanner K _ _ _ _).
Implicit Types s : ArrowScanner.

Definition finished s : Prop := closed s = true \/ _exhausted s = true.

(** What a client does with a scanner, and the batches it is given. *)
Inductive scan_op : Type :=
| ScanNext (cancelled : bool)
| ScanClose
| ScanEnter
| ScanExit.

Definition scan_step (o : scan_op) : M ArrowScanner (list batch) :=
  match o with
  | ScanNext cancelled => b ← scanner_next cancelled; mret [b]
  | ScanClose => scanner_close;; mret []
  | ScanEnter => scanner_enter;; mret []
  | ScanExit => scanner_exit;; mret []
  end.

Fixpoint scan_run (ops : list scan_op) s : list batch * ArrowScanner :=
  match ops with
  | [] => ([], s)
  | o :: ops =>
      let '(r, s) := scan_step o s in
      let '(bs, s) := scan_run ops s in
      (match r with Ok l => l ++ bs | Raise _ => bs end, s)
  end.

Definition total_rows (bs : list batch) : Z := foldr (fun b n => num_rows b + n) 0 bs.

(** The counters are those of the batches given so far. *)
Definition accounts (bs : list batch) s : Prop :=
  rows (_stats s) = total_rows bs /\ batches (_stats s) = Z.of_nat (length bs).

Lemma total_rows_snoc bs b : total_rows (bs ++ [b]) = total_rows bs + num_rows b.
Proof.
  unfold total_rows. induction bs as [|a bs IH]; cbn [app foldr]; [lia|]. rewrite IH. lia.
Qed.

(** [released] holds of a native scanner once it was closed. *)
Variable released : native -> Prop.
Hypothesis close_releases : forall n, exists n', native_close n = (Ok tt, n') /\ released n'.
Hypothesis next_errors : forall cancelled n e n',
  next_batch cancelled n = (Raise e, n') -> issubclass (exn_type e) Exception = true.

Record scan_sound (bs : list batch) s : Prop := {
  sound_accounts : accounts bs s;
  sound_finished : finished s -> released (_native s) }.

Lemma close_sound bs s :
  scan_sound bs s ->
  exists s', scanner_close s = (Ok tt, s') /\ closed s' = true /\ scan_sound bs s'.
Proof.
  intros [Ha Hf]. unfold scanner_close. rewrite run_get. destruct (closed s) eqn:Hc; cbn [negb].
  - exists s. split; [done|]. split; [done|]. by split.
  - destruct (close_releases (_native s)) as (n & Hn & Hr).
    exists (set_closed (set_native n s)). unfold mbind, M_bind, on_native. rewrite Hn.
    split; [done|]. split; [done|]. by split.
Qed.

(** A finished scanner gives no batch and does not touch the native one. *)
Lemma next_finished cancelled s :
  finished s -> exists e, scanner_next cancelled s = (Raise e, s) /\
    (exn_type e = if closed s then RuntimeError else StopIteration).
Proof.
  intros Hf. unfold scanner_next. rewrite run_get, run_guard.
  destruct (closed s) eqn:Hc; [by eexists|]. rewrite run_guard.
  destruct Hf as [Hf|Hf]; [congruence|]. rewrite Hf. by eexists.
Qed.

(** The next batch: one more is accounted for, or the scanner is finished. *)
Lemma next_sound cancelled bs s :
  scan_sound bs s ->
  match scanner_next cancelled s with
  | (Ok b, s') => scan_sound (bs ++ [b]) s'
  | (Raise _, s') => finished s' /\ scan_sound bs s'
  end.
Proof.
  intros Hs. destruct (closed s || _exhausted s) eqn:Hf.
  { destruct (next_finished cancelled s) as (e & -> & _); [by apply orb_true_iff|].
    split; [by apply orb_true_iff|done]. }
  apply orb_false_iff in Hf as [Hc He]. unfold scanner_next.
  rewrite run_get, run_guard, Hc, run_guard, He.
  unfold mbind at 1, M_bind at 1, try_catch, on_native at 1.
  destruct (next_batch _ (_native s)) as [[result|e] n] eqn:Hn.
  - rewrite run_modify. destruct Hs as [[Hr Hb] _]. destruct (result_batch result) as [b|].
    + rewrite run_modify. cbn [mret M_ret]. split; [|by intros []; cbn in *; congruence].
      split; cbn.
      * by rewrite total_rows_snoc, Hr.
      * rewrite length_app. cbn. lia.
    + rewrite run_modify. destruct (close_releases n) as (n' & Hn' & Hrel).
      unfold mbind, M_bind, on_native. cbn [_native set_exhausted set_stats set_native].
      rewrite Hn'. cbn [lift]. split; [by right|]. by split.
  - unfold caught. cbn [existsb]. rewrite (next_errors _ _ _ _ Hn). cbn [orb].
    assert (scan_sound bs (set_native n s)) as Hs'.
    { destruct Hs as [Ha _]. split; [done|]. intros []; cbn in *; congruence. }
    destruct (close_sound _ _ Hs') as (s' & Hcl & Hc' & Hs'').
    unfold mbind, M_bind. rewrite Hcl. cbn [lift]. split; [by left|done].
Qed.

Lemma step_sound o bs s :
  scan_sound bs s ->
  let '(r, s') := scan_step o s in
  scan_sound (bs ++ match r with Ok l => l | Raise _ => [] end) s'.
Proof.
  intros Hs. destruct o as [cancelled| | |]; cbn [scan_step]; unfold mbind, M_bind.
  - pose proof (next_sound cancelled bs s Hs) as Hn.
    destruct (scanner_next cancelled s) as [[b|e] s']; cbn [mret M_ret]; [done|].
    rewrite app_nil_r. apply Hn.
  - destruct (close_sound bs s Hs) as (s' & -> & _ & Hs'). cbn. by rewrite app_nil_r.
  - unfold scanner_enter. rewrite run_get. unfold lift, raise_if. destruct (closed s);
      cbn; by rewrite app_nil_r.
  - unfold scanner_exit. destruct (close_sound bs s Hs) as (s' & -> & _ & Hs'). cbn.
    by rewrite app_nil_r.
Qed.

Lemma run_sound ops bs s :
  scan_sound bs s -> let '(l, s') := scan_run ops s in scan_sound (bs ++ l) s'.
Proof.
  revert bs s. induction ops as [|o ops IH]; intros bs s Hs; cbn [scan_run].
  { by rewrite app_nil_r. }
  pose proof (step_sound o bs s Hs) as Hstep. destruct (scan_step o s) as [r s1].
  specialize (IH _ _ Hstep). destruct (scan_run ops s1) as [l s2].
  rewrite <- app_assoc in IH. by destruct r.
Qed.
End Scans.

(** * The arguments of a scan *)

Section Arguments.
Variable repr : pyval -> string.

(** A column of one of the three families. *)
Definition spec_valid (c : column_spec) : Prop :=
  (assoc_get column_kinds (spec_name c) = Some (spec_kind c) /\ spec_payload_name c = "") \/
  (spec_payload_name c <> "" /\ contains nul (spec_payload_name c) = false /\
   ((spec_kind c = 10 /\ spec_name c = "vectors." +:+ spec_payload_name c) \/
    (6 <= spec_kind c <= 9 /\ spec_name c = "payload." +:+ spec_payload_name c))).

Lemma core_column_valid v c : core_column repr v = Ok c -> spec_valid c.
Proof.
  destruct v as [| | | |s| | |]; try done. cbn [core_column].
  destruct (assoc_get column_kinds s) eqn:Hs; [|done]. intros [= <-]. left. by split.
Qed.

Lemma named_spec s : (bool_decide (s = "") || contains nul s) = false ->
  s <> "" /\ contains nul s = false.
Proof. rewrite orb_false_iff, bool_decide_eq_false. tauto. Qed.

Lemma vector_column_valid v c : vector_column v = Ok c -> spec_valid c.
Proof.
  destruct v as [| | | |s| | |]; try done. cbn [vector_column]. intros Hc. inv_ok.
  match goal with Hg : _ || _ = false |- _ => apply named_spec in Hg as [Hs Hn] end.
  right. split_and!; [done..|]. by left.
Qed.

Lemma payload_kind_range s k : assoc_get payload_kinds s = Some k -> 6 <= k <= 9.
Proof.
  cbn. repeat (destruct (decide (_ = _)) || destruct (bool_decide _)); intros [= <-]; lia.
Qed.

Lemma payload_spec_valid item c : payload_spec repr item = Ok c -> spec_valid c.
Proof.
  destruct item as [name kind]. cbn [payload_spec]. intros Hc.
  apply bind_Ok in Hc as (? & Hg%raise_if_Ok%named_spec & Hc). destruct Hg as [Hs Hn].
  destruct kind as [| | | |s| | |]; try done.
  destruct (assoc_get payload_kinds s) as [k|] eqn:Hk; [|done]. injection Hc as <-.
  right. split_and!; [done..|]. right. split; [by eapply payload_kind_range|done].
Qed.

Lemma map_res_valid {A} (f : A -> res column_spec) l specs :
  (forall x c, f x = Ok c -> spec_valid c) -> map_res f l = Ok specs -> Forall spec_valid specs.
Proof.
  intros Hf Hm%map_res_Ok. induction Hm as [|x c l specs Hx _ IH]; constructor; eauto.
Qed.

Lemma positive_int64_ok name v z :
  positive_int64 name v = Ok z -> v = PInt z /\ 1 <= z <= max_int64.
Proof.
  destruct v as [| |w| | | | |]; try done. cbn [positive_int64]. intros Hz. inv_ok.
  match goal with Hg : _ || _ = false |- _ =>
    rewrite orb_false_iff, Z.leb_gt, Z.ltb_ge in Hg end. split; [done|lia].
Qed.

Lemma nonnegative_int64_ok v z : nonnegative_int64 v = Ok z -> v = PInt z /\ 0 <= z <= max_int64.
Proof.
  destruct v as [| |w| | | | |]; try done. cbn [nonnegative_int64]. intros Hz. inv_ok.
  match goal with Hg : negb _ = false |- _ =>
    rewrite negb_false_iff, andb_true_iff, !Z.leb_le in Hg end. by split.
Qed.

(** The options the compiled module gets. *)
Record options_valid (default_candidates : Z) (a : scan_arguments) (options : pyval) : Prop := {
  valid_parts : exists size candidates bytes deadline specs,
    options = PDict [("batch_size", PInt size); ("columns", PList (spec_dict <$> specs));
                     ("filter", opt_filter (scan_filter a)); ("max_candidates", PInt candidates);
                     ("deadline_ns", PInt deadline); ("max_batch_bytes", PInt bytes)] /\
    batch_size a = PInt size /\ max_batch_bytes a = PInt bytes /\ deadline_ns a = PInt deadline /\
    (max_candidates_arg a = PInt candidates \/
     max_candidates_arg a = PNone /\ candidates = default_candidates) /\
    1 <= size /\ 8 * size <= bytes <= max_int64 /\ 1 <= candidates <= max_int64 /\
    0 <= deadline <= max_int64 /\ NoDup (spec_name <$> specs) /\ Forall spec_valid specs }.

Lemma scan_options_ok default_candidates a options :
  scan_options repr default_candidates a = Ok options -> options_valid default_candidates a options.
Proof.
  intros Ho. unfold scan_options in Ho.
  apply bind_Ok in Ho as (size & [Hsize Hs1]%positive_int64_ok & Ho).
  apply bind_Ok in Ho as (candidates & [Hcand Hc1]%positive_int64_ok & Ho).
  apply bind_Ok in Ho as (bytes & [Hbytes Hb1]%positive_int64_ok & Ho).
  apply bind_Ok in Ho as (? & Hfit%raise_if_Ok & Ho).
  apply bind_Ok in Ho as (deadline & [Hdead Hd1]%nonnegative_int64_ok & Ho).
  apply bind_Ok in Ho as (? & _ & Ho). apply bind_Ok in Ho as (core & Hcore & Ho).
  apply bind_Ok in Ho as (? & _ & Ho). apply bind_Ok in Ho as (fields & Hfields & Ho).
  apply bind_Ok in Ho as (payloads & Hpay & Ho).
  apply bind_Ok in Ho as (? & Hdup%raise_if_Ok & [= <-]).
  constructor. exists size, candidates, bytes, deadline, (core ++ fields ++ payloads).
  rewrite Z.ltb_ge in Hfit. rewrite negb_false_iff, bool_decide_eq_true in Hdup.
  pose proof (Z.mul_div_le bytes 8 ltac:(lia)).
  split_and!; try done; try lia.
  - destruct (max_candidates_arg a); try (by left). injection Hcand as <-. by right.
  - rewrite !Forall_app. split_and!.
    + eapply map_res_valid; [|exact Hcore]. by intros v c ?%core_column_valid.
    + eapply map_res_valid; [|exact Hfields]. by intros v c ?%vector_column_valid.
    + eapply map_res_valid; [|exact Hpay]. by intros v c ?%payload_spec_valid.
Qed.
End Arguments.
