(* ===== verification/ArrowPointsFacts.v ===== *)
(** Facts about the descriptor of a batch of points: which column each of its
    parts is, and what the dense views hold. *)

From S2P Require Import Prelude Assoc PyFloat PyValue Json Envelope Models KernelConfig KernelInterface Vectors Database DatabaseFacts ArrowInterface Arrow ArrowPoints ArrowStreams ArrowFacts ArrowStreamsFacts.

Section Facts.
Context `{PyArrow, !NumPyLaws, !PyArrowLaws}.

(** A view agrees with the values of an array that are not null. *)
Definition shows (l : list pyval) (v : view) : Prop :=
  Forall2 (fun x y => x = PNone \/ x = scalar (view_dtype v) y) l (tolist (view_values v)).

Lemma type_item_simple {A} (table : list (simple_type * A)) t x :
  type_item table t = Some x -> exists s, type_eqb t (pa s) = true.
Proof.
  unfold type_item. destruct (List.find _ table) as [[s y]|] eqn:Hf; [|done].
  apply find_some in Hf as [_ Hs]. by exists s.
Qed.

Lemma primitive_shows a p : _primitive a = Ok p -> shows (to_pylist a) (values p).
Proof.
  unfold _primitive. destruct (type_item primitive_types (array_type a)) as [d|] eqn:Ht; [|done].
  apply type_item_simple in Ht as [s Hs].
  intros Hp. apply bind_Ok in Hp as (v & Hv & Hp). apply bind_Ok in Hp as (bits & _ & [= <-]).
  unfold shows. cbn [values view_dtype view_values]. destruct (array_buffer a 1) as [data|] eqn:Hd.
  - by eapply buffer_values.
  - injection Hv as <-. rewrite tolist_empty. pose proof (no_buffer a s Hs Hd) as Hl.
    rewrite <- pylist_length in Hl. by destruct (to_pylist a); [|cbn in Hl].
Qed.

Lemma shows_segment l v i j :
  shows l v -> Forall2 (fun x y => x = PNone \/ x = scalar (view_dtype v) y)
    (segment i j l) (segment i j (tolist (view_values v))).
Proof. intros Hl. unfold segment. by apply Forall2_take, Forall2_drop. Qed.

(** Every present row of a dense column is the [i]-th group of components. *)
Definition dense_shown (a : array) (dimension : Z) (v : view) : Prop :=
  forall i x, 0 <= i -> to_pylist a !! Z.to_nat i = Some x -> x <> PNone ->
  exists row, x = PList row /\
    Forall2 (fun x y => x = PNone \/ x = scalar (view_dtype v) y) row
      (segment (i * dimension) ((i + 1) * dimension) (tolist (view_values v))).

Lemma components_shown b name a t dimension p :
  validate b = Ok tt -> column b name = Ok a ->
  pa_type_eqb a (pa_list_size t dimension) = true -> 0 <= dimension ->
  components a dimension = Ok p -> dense_shown a dimension (values p).
Proof.
  intros Hb Ha Ht Hd Hp%primitive_shows i x Hi Hx Hnone.
  destruct (valid_fixed_list b name a t dimension Hb Ha Ht Hd) as [Ho Hfit].
  assert (i < array_len a) as Hlt.
  { rewrite <- pylist_length. apply lookup_lt_Some in Hx. lia. }
  rewrite (fixed_list_rows a t dimension i x Ht Hd Hi Hx Hnone). eexists. split; [done|].
  rewrite pylist_slice in Hp by nia.
  apply (shows_segment _ _ (i * dimension) ((i + 1) * dimension)) in Hp.
  rewrite segment_segment in Hp by nia.
  replace ((array_offset a + i) * dimension) with (array_offset a * dimension + i * dimension) by lia.
  replace ((array_offset a + i + 1) * dimension)
    with (array_offset a * dimension + (i + 1) * dimension) by lia.
  exact Hp.
Qed.

(** ** The columns *)

(** The column of a field. *)
Definition field_column (i : identity) : string :=
  match i with
  | FieldId 0 => "vector"
  | FieldId _ => "sparse"
  | FieldName key => "vectors." +:+ key
  end.

Lemma column_field_ok dimension schema name i spec :
  column_field dimension schema name = Ok (i, spec) -> field_column i = name.
Proof.
  unfold column_field. case_bool_decide as Hvector.
  { intros Hf. inv_ok. done. }
  case_bool_decide as Hsparse.
  { intros Hf. inv_ok. done. }
  destruct (String.prefix "vectors." name) eqn:Hp; [|done].
  destruct (assoc_get schema _); [|done]. intros [= <- <-]. cbn [field_column].
  by apply removeprefix_ok.
Qed.

Lemma point_payload_ok name a p :
  is_payload name = true -> point_payload name a = Ok p ->
  name = "payload." +:+ payload_name p /\ payload_values p = a.
Proof.
  intros Hn. unfold point_payload. destruct (type_item _ _); [|done]. intros Hp.
  apply bind_Ok in Hp as (? & _ & [= <-]). cbn. by rewrite removeprefix_ok.
Qed.

(** What a column contributes. *)
Definition update_of (b : batch) (dimension : Z) (schema : list (string * VectorField.t))
    (name : string) (u : identity * vector_descriptor) : Prop :=
  exists a spec, column b name = Ok a /\ column_field dimension schema name = Ok (u.1, spec) /\
    vector_rows u.2 = array_len a /\
    (forall p, vector_parts u.2 = DenseBody p -> 0 <= VectorField.dimension spec ->
       dense_shown a (VectorField.dimension spec) (values p)).

Definition payload_from (b : batch) (name : string) (p : payload_column) : Prop :=
  name = "payload." +:+ payload_name p /\ column b name = Ok (payload_values p).

Lemma vector_descriptor_dense b name a spec metadata u p :
  validate b = Ok tt -> column b name = Ok a ->
  _vector_descriptor a spec metadata = Ok u -> vector_parts u = DenseBody p ->
  0 <= VectorField.dimension spec -> dense_shown a (VectorField.dimension spec) (values p).
Proof.
  intros Hb Ha Hu Hp Hd. unfold _vector_descriptor in Hu.
  apply bind_Ok in Hu as (bits & _ & Hu). apply bind_Ok in Hu as (parts & Hparts & [= <-]).
  cbn [vector_parts] in Hp. subst parts.
  destruct (bool_decide (VectorField.kind spec = "binary")).
  { unfold binary_parts in Hparts. apply bind_Ok in Hparts as (? & _ & Hparts).
    destruct (array_buffer a 1); [|done]. by apply bind_Ok in Hparts as (? & _ & [=]). }
  destruct (bool_decide (VectorField.kind spec = "sparse")).
  { unfold sparse_parts in Hparts. by repeat (apply bind_Ok in Hparts as (? & _ & Hparts)). }
  unfold numeric_parts in Hparts. apply bind_Ok in Hparts as (s & _ & Hparts).
  apply bind_Ok in Hparts as (? & _ & Hparts).
  apply bind_Ok in Hparts as (? & Ht%raise_if_Ok & Hparts). rewrite negb_false_iff in Ht.
  destruct (bool_decide (VectorField.kind spec = "multivector")).
  { by repeat (apply bind_Ok in Hparts as (? & _ & Hparts)). }
  apply bind_Ok in Hparts as (c & Hc & [= ->]). by eapply components_shown.
Qed.

Lemma point_columns_ok b dimension schema names us ps us' ps' :
  validate b = Ok tt ->
  for_fold (point_column b dimension schema) (us, ps) names = Ok (us', ps') ->
  exists us2 ps2, us' = us ++ us2 /\ ps' = ps ++ ps2 /\
    Forall2 (update_of b dimension schema) (List.filter (fun n => negb (is_payload n)) names) us2 /\
    Forall2 (payload_from b) (List.filter is_payload names) ps2.
Proof.
  intros Hb. revert us ps. induction names as [|name names IH]; intros us ps Hf.
  { injection Hf as -> ->. exists [], []. by rewrite !app_nil_r. }
  cbn [for_fold] in Hf. apply bind_Ok in Hf as ([us1 ps1] & Hc & Hf).
  unfold point_column in Hc. apply bind_Ok in Hc as (a & Ha & Hc).
  apply IH in Hf as (us2 & ps2 & -> & -> & Hu & Hp). cbn [List.filter].
  destruct (is_payload name) eqn:Hname; cbn [negb].
  - apply bind_Ok in Hc as (p & Hpay & [= <- <-]). exists us2, (p :: ps2).
    cbn [fst snd]. rewrite <- app_assoc. split_and!; try done. constructor; [|done].
    destruct (point_payload_ok name a p Hname Hpay) as [Hn Hv]. split; [done|]. by rewrite Hv.
  - apply bind_Ok in Hc as ([i spec] & Hi & Hc). apply bind_Ok in Hc as (u & Hu1 & [= <- <-]).
    exists ((i, u) :: us2), ps2. cbn [fst snd]. rewrite <- app_assoc. split_and!; try done.
    constructor; [|done]. exists a, spec. split_and!; try done.
    + unfold _vector_descriptor in Hu1. apply bind_Ok in Hu1 as (bits & _ & Hu1).
      by apply bind_Ok in Hu1 as (parts & _ & [= <-]).
    + intros p Hparts. by eapply vector_descriptor_dense.
Qed.

Lemma NoDup_filter_list {A} (f : A -> bool) l : NoDup l -> NoDup (List.filter f l).
Proof. rewrite !NoDup_ListNoDup. apply List.NoDup_filter. Qed.

(** Distinct columns are distinct fields. *)
Lemma distinct_by_name {A B} (R : string -> A -> Prop) (f : A -> B) names l :
  (forall n m x y, R n x -> R m y -> f x = f y -> n = m) ->
  Forall2 R names l -> NoDup names -> NoDup (f <$> l).
Proof.
  intros Hinj. induction 1 as [|n x names l Hx Hl IH]; [constructor|].
  intros [Hn Hnames]%NoDup_cons. rewrite fmap_cons. apply NoDup_cons. split; [|by apply IH].
  intros (y & Hy & Hin)%list_elem_of_fmap. apply Hn.
  apply list_elem_of_lookup in Hin as [i Hi].
  destruct (Forall2_lookup_r _ _ _ _ _ Hl Hi) as (m & Hm & Hmy).
  rewrite (Hinj n m x y Hx Hmy Hy). by eapply list_elem_of_lookup_2.
Qed.
End Facts.
