(* ===== verification/ArrowMemory.v ===== *)
(** Arrays kept in lists: an instance of the NumPy and PyArrow interfaces, with
    their laws, and buffers for the collection kept in memory.  The witnesses
    run it; it stands for no file of the repository. *)

From S2P Require Import Prelude Assoc PyFloat PyValue Json Envelope Models KernelConfig KernelInterface Vectors Database MemoryKernel ArrowInterface Arrow ArrowPoints ArrowStreams ArrowFacts.

(** * NumPy on lists *)

Definition less_equal_lists (a b : list Z) : res (list bool) :=
  if (length a =? length b)%nat then Ok (zip_with Z.leb a b)
  else raise ValueError "operands could not be broadcast together".

Definition assign_list {A} (a : list A) (indices : list Z) (x : A) : res (list A) :=
  if forallb (fun i => (0 <=? i) && (i <? Z.of_nat (length a))) indices
  then Ok (assigned x a indices) else raise IndexError "index is out of bounds".

Definition item_of {A} (i : Z) (l : list A) : res A :=
  match py_index i l with Some x => Ok x | None => raise IndexError "index is out of bounds" end.

#[export] Instance list_numpy : NumPy := {|
  ndarray := list;
  tolist A l := l;
  np_empty d := [];
  np_slice A start stop l := py_slice start stop l;
  np_item A i l := item_of i l;
  np_less_equal := less_equal_lists;
  np_less_scalar a z := (fun x => x <? z) <$> a;
  np_equal_scalar a z := (fun x => feqb x z) <$> a;
  np_subtract_scalar a z := (fun x => x - z) <$> a;
  np_isfinite a := isfinite <$> a;
  np_assign A := assign_list;
  np_any := existsb id;
  np_all := forallb id |}.

#[export] Instance list_numpy_laws : NumPyLaws.
Proof.
  split; cbn; try done.
  - intros A i a x Hx. unfold item_of. by rewrite Hx.
  - intros a b Hab. unfold less_equal_lists. rewrite (proj2 (Nat.eqb_eq _ _) Hab). eauto.
  - intros A a indices x Hi. unfold assign_list. rewrite (proj2 (forallb_forall _ _)); [eauto|].
    intros i Hin%list_elem_of_In. rewrite Forall_forall in Hi. specialize (Hi i Hin).
    unfold np_len in Hi. cbn in Hi.
    by rewrite (proj2 (Z.leb_le _ _)), (proj2 (Z.ltb_lt _ _)) by lia.
Qed.

(** * PyArrow on lists *)

Inductive mem_type : Type :=
| MSimple (t : simple_type)
| MBinary (n : Z)
| MList (t : mem_type)
| MFixed (t : mem_type) (n : Z).

#[export] Instance mem_type_eq_dec : EqDecision mem_type.
Proof. unfold EqDecision, Decision. decide equality; (apply simple_type_eq_dec || apply Z.eq_dec). Defined.

(** Arrays of primitive values, of lists, and of lists of one length. *)
Inductive mem_array : Type :=
| Flat (t : simple_type) (l : list pyval)
| Lists (t : mem_type) (offsets : list Z) (child : mem_array)
| Fixed (t : mem_type) (n start count : Z) (child : mem_array).

Fixpoint mem_pylist (a : mem_array) : list pyval :=
  match a with
  | Flat _ l => l
  | Lists _ offsets child => PList <$> rows_between offsets (mem_pylist child)
  | Fixed _ n start count child =>
      (fun i => PList (segment ((start + i) * n) ((start + i + 1) * n) (mem_pylist child))) <$>
      seqZ 0 count
  end.

Definition mem_array_type (a : mem_array) : mem_type :=
  match a with Flat t _ => MSimple t | Lists t _ _ => MList t | Fixed t n _ _ _ => MFixed t n end.

Definition mem_child (a : mem_array) : mem_array :=
  match a with Flat _ _ => a | Lists _ _ c | Fixed _ _ _ _ c => c end.

Definition mem_offsets (a : mem_array) : mem_array :=
  Flat pa_int32 (match a with Lists _ o _ => PInt <$> o | _ => [] end).

Definition mem_slice (a : mem_array) (start count : Z) : mem_array :=
  match a with
  | Flat t l => Flat t (segment start (start + count) l)
  | Lists t o c => Lists t (segment start (start + count + 1) o) c
  | Fixed t n s _ c => Fixed t n (s + start) count c
  end.

Definition unscalar (d : dtype) : pyval -> res (element d) :=
  match d with
  | float16 | float32 => fun v =>
      match v with PFloat x => Ok x | _ => raise ValueError "not a float" end
  | int8 | uint8 | uint16 | int32 | int64 => fun v =>
      match v with PInt z => Ok z | _ => raise ValueError "not an integer" end
  end.

(** What a buffer holds: anything for a null. *)
Definition zero (d : dtype) : element d :=
  match d with
  | float16 => fzero | float32 => fzero
  | int8 => 0 | uint8 => 0 | uint16 => 0 | int32 => 0 | int64 => 0
  end.

Definition buffered (d : dtype) (v : pyval) : res (element d) :=
  match v with PNone => Ok (zero d) | v => unscalar d v end.

Lemma unscalar_ok d v x : unscalar d v = Ok x -> v = scalar d x.
Proof. by destruct d, v; intros [= <-]. Qed.

Record mem_batch : Type := MemBatch { mem_rows_count : Z; mem_columns : list (string * mem_array) }.

(** The child of a column of lists of one length holds their rows. *)
Definition mem_fits (a : mem_array) : bool :=
  match a with
  | Fixed _ n start count child =>
      (0 <=? start) && (0 <=? count) &&
      ((start + count) * n <=? Z.of_nat (length (mem_pylist child)))
  | _ => true
  end.

Definition mem_validate (b : mem_batch) : res unit :=
  raise_if (negb (forallb (fun kv => (Z.of_nat (length (mem_pylist kv.2)) =? mem_rows_count b) &&
                                     mem_fits kv.2) (mem_columns b)))
    ValueError "invalid column".

Definition mem_column (b : mem_batch) (name : string) : res mem_array :=
  match assoc_get (mem_columns b) name with
  | Some a => Ok a
  | None => raise KeyError name
  end.

(** Objects: record batches, and others, which export one or nothing. *)
Inductive mem_object : Type :=
| BatchObject (b : mem_batch)
| Exporter (b : mem_batch)
| OtherObject.

Definition mem_array_of (v : pyval) (t : simple_type) : res mem_array :=
  l ← Point.iterable v; Ok (Flat t l).

Definition mem_record_batch (columns : list mem_array) (names : list string) : res mem_batch :=
  match columns with
  | [] => Ok (MemBatch 0 [])
  | a :: _ => Ok (MemBatch (Z.of_nat (length (mem_pylist a))) (zip names columns))
  end.

#[export] Instance list_pyarrow : PyArrow := {|
  data_type := mem_type;
  type_eqb t u := bool_decide (t = u);
  pa := MSimple;
  pa_binary := MBinary;
  pa_list := MList;
  pa_list_size := MFixed;
  is_list t := match t with MList _ => true | _ => false end;
  is_struct t := false;
  value_type t := match t with MList u | MFixed u _ => u | t => t end;
  struct_fields t := [];
  type_text t := "type";
  array := mem_array;
  array_type := mem_array_type;
  array_len a := Z.of_nat (length (mem_pylist a));
  array_offset a := match a with Fixed _ _ s _ _ => s | _ => 0 end;
  null_count a := Z.of_nat (length (List.filter is_none (mem_pylist a)));
  array_values := mem_child;
  array_offsets := mem_offsets;
  array_equals a b := bool_decide (mem_pylist a = mem_pylist b);
  array_field a i := a;
  array_slice := mem_slice;
  to_numpy d a := map_res (unscalar d) (mem_pylist a);
  to_pylist := mem_pylist;
  buffer := list pyval;
  array_buffer a i := match a, i with Flat _ l, 1%nat => Some l | _, _ => None end;
  frombuffer d l count start := map_res (buffered d) l;
  batch := mem_batch;
  validate := mem_validate;
  num_rows := mem_rows_count;
  column_names b := (mem_columns b).*1;
  column := mem_column;
  field_metadata b name := [];
  pa_array := mem_array_of;
  record_batch := mem_record_batch;
  object := mem_object;
  as_record_batch o := match o with BatchObject b => Some b | _ => None end;
  has_c_array o := match o with OtherObject => false | _ => true end;
  capsules := mem_batch;
  c_array o := match o with
               | BatchObject b | Exporter b => Ok b
               | OtherObject => raise TypeError "no array"
               end;
  import_from_c_capsule b := Ok (BatchObject b) |}.

Lemma rows_between_length {A} offsets (l : list A) :
  length (rows_between offsets l) = (length offsets - 1)%nat.
Proof.
  induction offsets as [|a [|b rest] IH]; [done..|].
  change (S (length (rows_between (b :: rest) l)) = (length (a :: b :: rest) - 1)%nat).
  rewrite IH. cbn. lia.
Qed.

Lemma rows_between_drop {A} k offsets (l : list A) :
  rows_between (drop k offsets) l = drop k (rows_between offsets l).
Proof.
  revert offsets. induction k as [|k IH]; intros offsets; [by rewrite !skipn_0|].
  destruct offsets as [|a [|b rest]]; [done|cbn [drop rows_between]; by rewrite !drop_nil|].
  change (rows_between (a :: b :: rest) l) with (segment a b l :: rows_between (b :: rest) l).
  cbn [drop]. apply IH.
Qed.

Lemma rows_between_take {A} k offsets (l : list A) :
  rows_between (take (S k) offsets) l = take k (rows_between offsets l).
Proof.
  revert offsets. induction k as [|k IH]; intros offsets.
  { rewrite firstn_O. by destruct offsets as [|a rest]. }
  destruct offsets as [|a [|b rest]]; [done..|].
  change (rows_between (a :: b :: rest) l) with (segment a b l :: rows_between (b :: rest) l).
  cbn [firstn]. rewrite <- IH. done.
Qed.

Lemma fixed_slice {A} (f : Z -> A) count start n :
  0 <= start -> 0 <= n -> start + n <= Z.max 0 count ->
  (fun i => f (start + i)) <$> seqZ 0 n = segment start (start + n) (f <$> seqZ 0 count).
Proof.
  intros Hs Hn Hc. destruct (Z.eq_dec n 0) as [->|].
  { unfold segment. by rewrite Z.add_0_r, Z.sub_diag. }
  replace count with (start + (n + (count - start - n))) by lia.
  rewrite seqZ_app, seqZ_app by lia. rewrite Z.add_0_l, !fmap_app. unfold segment.
  rewrite drop_app_length' by (rewrite length_fmap, length_seqZ; lia).
  rewrite take_app_length' by (rewrite length_fmap, length_seqZ; lia).
  replace (seqZ start n) with (Z.add start <$> seqZ 0 n)
    by (rewrite fmap_add_seqZ; f_equal; lia).
  by rewrite <- list_fmap_compose.
Qed.

Lemma map_unscalar d l v : map_res (unscalar d) l = Ok v -> l = scalar d <$> v.
Proof.
  intros Hv%map_res_Ok. induction Hv as [|x y l v Hx _ IH]; [done|].
  rewrite fmap_cons, <- IH. f_equal. by apply unscalar_ok.
Qed.

Lemma mem_slice_pylist a start count :
  0 <= start -> 0 <= count -> start + count <= Z.of_nat (length (mem_pylist a)) ->
  mem_pylist (mem_slice a start count) = segment start (start + count) (mem_pylist a).
Proof.
  intros Hs Hc Hl. destruct a as [t l|t o c|t n s k c]; [done| |]; cbn [mem_slice mem_pylist] in *.
  - rewrite <- segment_fmap. f_equal. unfold segment.
    replace (Z.to_nat (start + count + 1 - start)) with (S (Z.to_nat (start + count - start))) by lia.
    by rewrite rows_between_take, rows_between_drop.
  - rewrite length_fmap, length_seqZ in Hl.
    rewrite <- (fixed_slice _ k start count) by lia. apply list_fmap_ext. intros i x _.
    by rewrite !Z.add_assoc.
Qed.

Lemma mem_list_offsets o (l : list Z) child :
  PInt <$> l = segment 0 (Z.of_nat (length (PList <$> rows_between o (mem_pylist child))) + 1)
                 (PInt <$> o) ->
  l = o.
Proof.
  rewrite length_fmap, rows_between_length, <- segment_fmap.
  intros Hl. apply list_fmap_eq_inj in Hl; [|by intros x y [= ->]]. rewrite Hl. unfold segment.
  rewrite skipn_0. apply firstn_all2. lia.
Qed.

Lemma mem_valid_column b name a :
  mem_validate b = Ok tt -> mem_column b name = Ok a ->
  Z.of_nat (length (mem_pylist a)) = mem_rows_count b /\ mem_fits a = true.
Proof.
  intros Hb Ha. unfold mem_validate in Hb. apply raise_if_Ok, negb_false_iff in Hb.
  rewrite forallb_forall in Hb. unfold mem_column in Ha.
  destruct (assoc_get (mem_columns b) name) as [c|] eqn:Hc; [|done]. injection Ha as ->.
  rewrite <- Z.eqb_eq, <- andb_true_iff. apply (Hb (name, a)). apply list_elem_of_In.
  by apply assoc_get_elem_2.
Qed.

#[export] Instance list_pyarrow_laws : PyArrowLaws.
Proof.
  split; unfold pa_type_eqb; cbn -[mem_pylist mem_slice Z.of_nat mem_fits].
  - done.
  - apply mem_slice_pylist.
  - intros d a v Hv. by apply map_unscalar.
  - intros a Ha. apply Forall_forall. intros v Hv%list_elem_of_In Hnone. subst v.
    assert (In PNone (List.filter is_none (mem_pylist a))) as Hin by (by apply filter_In).
    destruct (List.filter is_none (mem_pylist a)); [done|cbn in Ha; lia].
  - intros a t n i v Ht%bool_decide_eq_true Hn Hi Hv _. destruct a as [| |t' n' s k c]; try done.
    injection Ht as _ ->. cbn [mem_pylist mem_child] in *.
    apply list_lookup_fmap_Some in Hv as (j & -> & Hj). apply lookup_seqZ in Hj as [-> _].
    do 2 f_equal; lia.
  - intros a t offsets Ht%bool_decide_eq_true _ Ho. destruct a as [|t' o c|]; try done.
    cbn [mem_pylist mem_child mem_offsets] in *. by apply mem_list_offsets in Ho as ->.
  - intros a b Hab. by apply bool_decide_eq_true in Hab.
  - intros b name a Hb Ha. by eapply mem_valid_column.
  - intros b name a t n Hb Ha Ht%bool_decide_eq_true Hn.
    destruct (mem_valid_column b name a Hb Ha) as [_ Hfit]. destruct a as [| |t' n' s k c]; try done.
    injection Ht as _ ->. cbn [mem_fits mem_child mem_pylist] in *.
    rewrite !andb_true_iff, !Z.leb_le in Hfit. rewrite length_fmap, length_seqZ.
    split; [tauto|]. rewrite Z2Nat.id by tauto. tauto.
  - intros a t d v data Ht%bool_decide_eq_true Hd Hv. destruct a as [t' l| |]; try done.
    injection Hd as ->. apply map_res_Ok in Hv. cbn [mem_pylist].
    eapply Forall2_impl; [exact Hv|]. intros x y Hxy.
    destruct x; (by left) || (right; by apply unscalar_ok).
  - intros a t Ht%bool_decide_eq_true Hd. by destruct a as [t' l| |].
Qed.

(** * Buffers and the collection kept in memory *)

(** The rows of a descriptor, stored one after the other. *)
Definition apply_descriptor (d : descriptor) (m : memory) : res pyval * memory :=
  if negb (mem_open m) then (raise RuntimeError "collection is closed", m)
  else
    let width := Z.of_nat (length (vectors d)) / row_count d in
    let stored := foldl (fun '(i, m) id =>
      (i + 1, put id (PList (PFloat <$> segment (i * width) ((i + 1) * width) (vectors d))) (PList []) m))
      (0, m) (ids d) in
    (Ok (PInt (row_count d)), stored.2).

Definition apply_points (p : point_batch) (m : memory) : res pyval * memory :=
  if negb (mem_open m) then (raise RuntimeError "collection is closed", m)
  else
    let last := mem_sequence m + point_rows p in
    (Ok (PDict [("first_sequence", PInt (mem_sequence m + 1)); ("last_sequence", PInt last);
                ("count", PInt (point_rows p))]),
     Memory (mem_config m) (mem_rows m) last (mem_open m)).

(** A scanner: the batches to come, and how often it was closed. *)
Record mem_scanner : Type := MemScanner { pending : list mem_batch; closes : nat }.

Definition mem_next (cancelled : bool) (n : mem_scanner) : res scan_result * mem_scanner :=
  if cancelled then (raise RuntimeError "scan cancelled", n)
  else match pending n with
       | [] => (Ok (ScanResult None 0 0 0), n)
       | b :: l => (Ok (ScanResult (Some b) (num_rows b) 8 4), MemScanner l (closes n))
       end.

Definition mem_scan (options : pyval) (m : memory) : res mem_scanner * memory :=
  if negb (mem_open m) then (raise RuntimeError "collection is closed", m)
  else (Ok (MemScanner ((fun kv => MemBatch 1 [("id", Flat pa_int64 [PInt kv.1])]) <$> mem_rows m) 0%nat), m).

#[export] Instance memory_arrow : ArrowKernel memory := {|
  apply_arrow_batch := apply_descriptor;
  apply_point_arrow_batch := apply_points;
  native := mem_scanner;
  schema_value := unit;
  scanner := mem_scan;
  native_schema n := Ok tt;
  next_batch := mem_next;
  native_close n := (Ok tt, MemScanner (pending n) (S (closes n))) |}.

#[export] Instance memory_arrow_errors : OrdinaryArrowErrors memory.
Proof.
  split; cbn.
  - intros d k e k'. unfold apply_descriptor. destruct (negb _); [by intros [= <- _]|done].
  - intros d k e k'. unfold apply_points. destruct (negb _); [by intros [= <- _]|done].
  - intros d k e k'. unfold mem_scan. destruct (negb _); [by intros [= <- _]|done].
Qed.
