(* ===== verification/ArrowTheorems.v ===== *)
(** What the Arrow paths guarantee: the check of a batch against the rows it
    holds, leases, the scanner and its arguments, each with an instance. *)

From S2P Require Import Prelude Assoc PyFloat PyValue Json Envelope Models KernelConfig KernelInterface Vectors Database DatabaseFacts MemoryKernel DatabaseTheorems Operations ArrowInterface Arrow ArrowPoints ArrowStreams ArrowFacts ArrowStreamsFacts ArrowPointsFacts ArrowMemory.

Section Batches.
Context `{PyArrow, !NumPyLaws, !PyArrowLaws}.
Variable repr : pyval -> string.

(** C16: the whole-array test of the sparse columns of a record batch (shifted
    comparisons with a mask over the row boundaries) accepts exactly the batches
    whose offsets are within the values and whose every row is nonempty and
    passes the scalar check that imports use ([_validate_sparse]); on all others
    it raises [ValueError]. *)
Theorem sparse_check_exact (offsets terms : ndarray Z) (weights : ndarray float) base b rest :
  tolist offsets = base :: b :: rest ->
  (check_sparse offsets terms weights = Ok tt <->
   length (tolist terms) = length (tolist weights) /\
   0 <= base /\ last_of base (b :: rest) <= np_len terms /\
   Forall (fun row => row <> [] /\ _validate_sparse row = Ok tt)
     (rows_between (base :: b :: rest) (zip (tolist terms) (tolist weights)))) /\
  (check_sparse offsets terms weights = Ok tt \/
   exists message, check_sparse offsets terms weights = raise ValueError message).
Proof.
  intros Ho. destruct (check_sparse_cases offsets terms weights base b rest Ho)
    as [(Hok & Hrest)|[[m Hm] Hnot]].
  - split; [by split|by left].
  - split; [|right; by exists m]. split; [by rewrite Hm|]. intros Hrest. by destruct Hnot.
Qed.


End Batches.

Section Ingestion.
Context {K : Type} `{PyArrow, !Kernel K, !ArrowKernel K, !OrdinaryErrors K, !OrdinaryArrowErrors K}.
Variable perf_counter_ns : nat -> Z.
Variable repr : pyval -> string.

(** C18: a record batch goes to the compiled module in one call, with a descriptor
    made from a lease that is alive, or not at all: if the collection changes,
    that call is the change.  On every path, errors included, a lease made for
    the call ends released and a lease of the caller is as it was. *)
Theorem ingestion_leases p (s s' : session K) r :
  upsert_record_batch perf_counter_ns repr p s = (r, s') ->
  leases s' = leases_after p s /\
  ((collection s' = collection s /\ exists e, r = Raise e) \/
   exists o d v k duration sequence,
     leased p s = Ok o /\ _validated_descriptor repr (dimension (collection s)) o = Ok d /\
     apply_arrow_batch d (_kernel (collection s)) = (v, k) /\
     r = int_result v /\
     collection s' = after_call "apply_arrow_batch" duration sequence v k (collection s)).
Proof.
  unfold upsert_record_batch. rewrite with_lease_outcome.
  destruct (leased p s) as [o|e] eqn:Ho.
  - pose proof (ingest_outcome perf_counter_ns repr o (collection s)) as Hi.
    destruct (_validated_descriptor repr (dimension (collection s)) o) as [d|e] eqn:Hd.
    + destruct (apply_arrow_batch d (_kernel (collection s))) as [v k] eqn:Hk.
      destruct Hi as (duration & sequence & ->). intros [= <- <-]. split; [done|]. right.
      by exists o, d, v, k, duration, sequence.
    + rewrite Hi. intros [= <- <-]. split; [done|]. left. eauto.
  - intros [= <- <-]. split; [|left; eauto].
    destruct p as [i|x]; cbn [leases_after leased] in *; [done|].
    destruct (from_producer x) as [l|] eqn:Hl; [|done].
    by destruct (from_producer_live _ _ Hl) as [y ->].
Qed.

(** C19: whatever a client does with a scanner: its counters are the number of the
    batches it gave and of their rows; once it is closed, exhausted, or has
    raised, the native scanner has been closed, is not touched again, and
    there are no more batches. *)
Theorem scanner_accounts (released : native -> Prop) n token (s s' : ArrowScanner) ops bs :
  (forall n, exists n', native_close n = (Ok tt, n') /\ released n') ->
  (forall cancelled n e n',
     next_batch cancelled n = (Raise e, n') -> issubclass (exn_type e) Exception = true) ->
  scanner_init n token = Ok s -> scan_run ops s = (bs, s') ->
  (rows (_stats s') = total_rows bs /\ batches (_stats s') = Z.of_nat (length bs)) /\
  (finished s' -> released (_native s') /\
    forall cancelled, exists e, scanner_next cancelled s' = (Raise e, s')) /\
  (forall cancelled e s'', scanner_next cancelled s' = (Raise e, s'') -> finished s'').
Proof.
  intros Hclose Hnext Hinit Hrun.
  assert (scan_sound released [] s) as Hstart.
  { unfold scanner_init in Hinit. inv_ok. split; [done|]. by intros []. }
  pose proof (run_sound released Hclose Hnext ops [] s Hstart) as Hs. rewrite Hrun in Hs.
  pose proof Hs as [Ha Hf]. split_and!; [apply Ha..| |].
  - intros Hfin. split; [by apply Hf|]. intros cancelled.
    destruct (next_finished cancelled s' Hfin) as (e & He & _). by exists e.
  - intros cancelled e s'' He.
    pose proof (next_sound released Hclose Hnext cancelled _ s' Hs) as Hn.
    rewrite He in Hn. apply Hn.
Qed.

(** C25: a scan reaches the compiled module with checked arguments only: sizes,
    limits and the deadline are integers in their 64-bit ranges, a batch of rows
    of eight bytes fits the byte limit, and the columns are known and have
    distinct names.  Other arguments are refused before anything happens. *)
Theorem scan_arguments_checked a (c c' : @Collection K) r :
  scan_record_batches perf_counter_ns repr a c = (r, c') ->
  (c' = c /\ exists e, r = Raise e) \/
  exists options n k duration sequence,
    options_valid (ResourceLimits.max_candidates (limits c)) a options /\
    scanner options (_kernel c) = (n, k) /\
    c' = after_call "scanner" duration sequence n k c.
Proof.
  unfold scan_record_batches. rewrite run_get, run_lift.
  destruct (scan_options repr _ a) as [options|e] eqn:Ho; [|intros [= <- <-]; eauto].
  apply scan_options_ok in Ho. destruct (scanner options (_kernel c)) as [n k] eqn:Hk.
  destruct (call_method_state perf_counter_ns "scanner" (scanner options) c n k Hk)
    as (duration & sequence & Hc).
  { intros e ->. by eapply scanner_errors. }
  unfold mbind, M_bind. rewrite Hc. intros Hr. right.
  exists options, n, k, duration, sequence. split_and!; [done..|].
  destruct n; cbn [adapt lift] in Hr; by injection Hr.
Qed.
End Ingestion.

Section Points.
Context {K : Type} `{PyArrow, !NumPyLaws, !PyArrowLaws, !Kernel K}.
Variable perf_counter_ns : nat -> Z.

End Points.

(** * Instances *)

Definition number (z : Z) : float := match float_of_int z with Ok x => x | Raise _ => fzero end.
Definition floats (l : list Z) : list pyval := (fun z => PFloat (number z)) <$> l.
Definition ints (l : list Z) : list pyval := PInt <$> l.

(** Two rows of two components, a window of a longer array, with sparse vectors
    [{3: 1}] and [{1: 2, 5: 3}] whose offsets start at one. *)
Definition two_rows : mem_batch := MemBatch 2
  [("id", Flat pa_int64 (ints [7; 8]));
   ("vector", Fixed (MSimple pa_float32) 2 1 2 (Flat pa_float32 (floats [0; 0; 1; 2; 3; 4])));
   ("sparse_term_ids", Lists (MSimple pa_int64) [1; 2; 4] (Flat pa_int64 (ints [9; 3; 1; 5])));
   ("sparse_weights", Lists (MSimple pa_float32) [1; 2; 4] (Flat pa_float32 (floats [9; 1; 2; 3])));
   ("payload.tag", Flat pa_string [PStr "a"; PStr "b"])].

Definition no_repr (v : pyval) : string := "".

Definition some_terms : ndarray (NumPy := list_numpy) Z := [9; 3; 1; 5].
Definition some_weights : ndarray (NumPy := list_numpy) float := number <$> [9; 1; 2; 3].
Definition some_offsets : ndarray (NumPy := list_numpy) Z := [1; 2; 4].
Definition other_offsets : ndarray (NumPy := list_numpy) Z := [1; 3; 4].

Lemma sparse_check_exact_witness :
  tolist some_offsets = [1; 2; 4] /\
  (check_sparse some_offsets some_terms some_weights = Ok tt <->
   length (tolist some_terms) = length (tolist some_weights) /\
   0 <= 1 /\ last_of 1 [2; 4] <= np_len some_terms /\
   Forall (fun row => row <> [] /\ _validate_sparse row = Ok tt)
     (rows_between [1; 2; 4] (zip (tolist some_terms) (tolist some_weights)))) /\
  check_sparse some_offsets some_terms some_weights = Ok tt /\
  check_sparse other_offsets some_terms some_weights =
    raise ValueError "sparse term IDs must be non-negative and ascending".
Proof.
  assert (tolist some_offsets = [1; 2; 4]) as Ho by reflexivity. split; [exact Ho|].
  split; [apply (sparse_check_exact some_offsets some_terms some_weights 1 2 [4] Ho)|].
  split; vm_compute; reflexivity.
Defined.



Definition exporting : producer := @Producer list_numpy list_pyarrow (Exporter two_rows).
Definition holding : session memory := Session sample [MkLease (Some (BatchObject two_rows)) false].

Lemma ingestion_leases_witness :
  let out := upsert_record_batch clock no_repr exporting holding in
  out = (out.1, out.2) /\ out.1 = Ok 2 /\
  leases out.2 = leases holding ++ [MkLease None true] /\
  (mem_rows (_kernel (collection out.2))).*1 = [7; 8].
Proof.
  intros out. assert (out = (out.1, out.2)) as Hout by (destruct out; reflexivity).
  split; [exact Hout|]. split; [vm_compute; reflexivity|].
  split; [|vm_compute; reflexivity].
  destruct (ingestion_leases clock no_repr exporting holding out.2 out.1 Hout)
    as [Hl _]. rewrite Hl. reflexivity.
Defined.

Definition scan_source : mem_scanner := MemScanner [two_rows; two_rows] 0.

Definition fresh_scanner : @ArrowScanner memory _ _ _ _ :=
  MkScanner (K := memory) scan_source true tt false false (ScanStats 0 0 0 0 0).

Definition scan_session : list scan_op :=
  [ScanNext false; ScanNext false; ScanNext false; ScanNext false; ScanClose].

Lemma scanner_accounts_witness :
  let out := scan_run (K := memory) scan_session fresh_scanner in
  length out.1 = 2%nat /\ rows (_stats out.2) = 4 /\ finished out.2 /\
  (0 < closes (_native (K := memory) out.2))%nat.
Proof.
  intros out.
  assert (forall n : mem_scanner, exists n', native_close (K := memory) n = (Ok tt, n') /\
    (0 < closes n')%nat) as Hclose by (intros n; eexists; split; [reflexivity|cbn; lia]).
  assert (forall cancelled (n : mem_scanner) e n',
    next_batch (K := memory) cancelled n = (Raise e, n') -> issubclass (exn_type e) Exception = true)
    as Hnext.
  { intros cancelled n e n'. cbn. unfold mem_next. destruct cancelled; [by intros [= <- _]|].
    by destruct (pending n). }
  assert (scan_run (K := memory) scan_session fresh_scanner = (out.1, out.2)) as Hrun
    by (subst out; destruct (scan_run _ _); reflexivity).
  assert (scanner_init (K := memory) scan_source true = Ok fresh_scanner) as Hinit by reflexivity.
  destruct (@scanner_accounts memory list_numpy list_pyarrow memory_kernel memory_arrow
    (fun n : mem_scanner => (0 < closes n)%nat)
    scan_source true fresh_scanner out.2 scan_session out.1 Hclose Hnext Hinit Hrun)
    as ([Hr _] & Hf & _).
  split; [vm_compute; reflexivity|]. split; [rewrite Hr; vm_compute; reflexivity|].
  assert (finished out.2) as Hfin by (left; vm_compute; reflexivity).
  split; [exact Hfin|]. exact (proj1 (Hf Hfin)).
Defined.

Definition scan_request : scan_arguments :=
  ScanArguments (PInt 16) (PList [PStr "id"; PStr "vector"]) (PTuple []) (Some [("tag", PStr "string")])
    None false PNone (PInt 0) (PInt 1024).

Lemma scan_arguments_checked_witness :
  let out := scan_record_batches clock no_repr scan_request sample in
  out = (out.1, out.2) /\ is_ok out.1 = true /\
  ((out.2 = sample /\ exists e, out.1 = Raise e) \/
   exists options, options_valid 10000000 scan_request options).
Proof.
  intros out. assert (out = (out.1, out.2)) as Hout by (destruct out; reflexivity).
  split; [exact Hout|]. split; [vm_compute; reflexivity|].
  destruct (scan_arguments_checked clock no_repr scan_request sample out.2 out.1 Hout)
    as [Hl|(options & _ & _ & _ & _ & Ho & _)]; [left; exact Hl|right; exists options; exact Ho].
Defined.





