(* ===== verification/PointKernel.v ===== *)
(** A field-aware collection kept in memory: an instance of the kernel interface
    that holds a capture and records the batches it is given.  The witnesses of
    the logical export run it; it stands for no file of the repository. *)

From S2P Require Import Prelude PyFloat PyValue Json Envelope Models KernelConfig KernelInterface Database DatabaseFacts OperationsFacts.

Record point_memory : Type := PointMemory {
  pm_config : dict; pm_schema : list pyval; pm_points : list pyval;
  pm_sequence : Z; pm_batches : list (list pyval) }.

Definition point_step (method : string) (args : list pyval) (m : point_memory)
    : option (pyval * point_memory) :=
  match method, args with
  | "is_point_collection", _ => Some (PBool true, m)
  | "collection_config", _ => Some (PDict (pm_config m), m)
  | "vector_fields", _ => Some (PList (pm_schema m), m)
  | "last_sequence", _ => Some (PInt (pm_sequence m), m)
  | "export_points", _ =>
      Some (PDict [("config", PDict (pm_config m)); ("schema", PList (pm_schema m));
                   ("points", PList (pm_points m)); ("source_sequence", PInt (pm_sequence m))], m)
  | "apply_point_batch", [PList l] =>
      let n := Z.of_nat (length l) in
      Some (PDict [("first_sequence", PInt (pm_sequence m + 1));
                   ("last_sequence", PInt (pm_sequence m + n)); ("count", PInt n)],
            PointMemory (pm_config m) (pm_schema m) (pm_points m) (pm_sequence m + n)
              (pm_batches m ++ [l]))
  | _, _ => None
  end.

Definition point_call (method : string) (args : list pyval) (m : point_memory)
    : res pyval * point_memory :=
  match point_step method args m with
  | Some (v, m) => (Ok v, m)
  | None => (raise RuntimeError "unknown method", m)
  end.

#[export] Instance point_kernel : Kernel point_memory :=
  {| kernel_open := fun dir dim config schema =>
       match dir with Some m => Ok m | None => raise RuntimeError "no such collection" end;
     kernel_call := point_call |}.

#[export] Instance point_errors : OrdinaryErrors point_memory.
Proof.
  intros method args m e m'. cbn [kernel_call point_kernel]. unfold point_call.
  destruct (point_step method args m) as [[v n]|]; [done|by intros [= <- _]].
Qed.

#[export] Instance point_read_only : ReadOnly point_memory.
Proof.
  intros method args m. unfold read_methods. rewrite !elem_of_cons, elem_of_nil.
  by intros [-> | [-> | [-> | [-> | []]]]].
Qed.
