(* ===== verification/LogicalTheorems.v ===== *)
(** What the logical export, its import and the quarantine guarantee, over any
    kernel, each with an instance. *)

From Stdlib Require Import SpecFloat.
From S2P Require Import Prelude Assoc PyFloat PyValue Json JsonFacts Envelope Files Models KernelConfig KernelInterface Vectors Database DatabaseFacts LogicalPoints Operations LogicalFacts OperationsFacts PointKernel.

Section Theorems.
Context {K : Type} `{!Kernel K}.
Variable perf_counter_ns : nat -> Z.
Variable container_text : pyval -> string.
Abbreviation Collection := (@Collection K).
Abbreviation import_ndjson := (import_ndjson container_text perf_counter_ns).


(** C20: an import validates the whole file before it changes anything: either the
    kernel is as it was, or every line was decoded and every row accepted, and the
    kernel has been given one batch with all the mutations of the file (followed,
    for a file without a header, by the sparse elements of its first rows, in
    order). *)
Theorem import_validates_first `{!OrdinaryErrors K, !ReadOnly K} data (c c' : Collection) r
    (H : import_ndjson data c = (r, c')) :
  _kernel c' = _kernel c \/
  exists lines rows, text_lines data = Ok lines /\
    read_rows (ResourceLimits.max_batch_rows (limits c)) 1 [] lines = Ok rows /\
    ((exists header rest config schema mutations, rows = header :: rest /\
        decode_header header = Ok (config, schema) /\
        decode_points header rest schema = Ok mutations /\
        _kernel c' = point_batch mutations (_kernel c)) \/
     (exists decoded n, map_res (legacy_row container_text) rows = Ok decoded /\
        _kernel c' = sparse_upserts (take n decoded.*2) (legacy_batch decoded.*1 (_kernel c)))).
Proof.
  apply (f_equal snd) in H. cbn [snd] in H. subst c'. unfold Operations.import_ndjson.
  rewrite run_lift. destruct (text_lines data) as [lines|e]; [|by left]. rewrite run_get, run_lift.
  destruct (read_rows _ _ _ _) as [[|header rest]|e] eqn:Hrows; [by left| |by left].
  destruct (is_point_header header).
  - rewrite import_points_split. unfold mbind, M_bind.
    pose proof (check_points_reads perf_counter_ns header rest c) as Hr.
    destruct (check_points _ _ _ _) as [[mutations|e] c1] eqn:Hk; [|by left].
    apply check_points_Ok in Hk as (config & schema & Hh & Hp). unfold same_kernel in Hr.
    cbn [snd] in Hr. destruct (write_points_kernel perf_counter_ns mutations c1) as [Hw|Hw];
      rewrite Hw, Hr; [by left|right].
    exists lines, (header :: rest). split_and!; [done|done|]. left.
    by exists header, rest, config, schema, mutations.
  - destruct (import_legacy_kernel perf_counter_ns container_text (header :: rest) c)
      as [Hl|(decoded & n & Hd & Hl)]; [by left|right].
    exists lines, (header :: rest). split_and!; [done|done|]. right. by exists decoded, n.
Qed.

(** C23: an export is published whole or not at all: when it succeeds the target
    holds, synced, one line per captured row after the header, each of which was
    serializable; when it raises, wherever, the target is as it was; the temporary
    file is gone either way. *)
Theorem export_publishes (s s' : @exporting K) r (Ht : temporary s = None)
    (H : export_ndjson perf_counter_ns s = (r, s')) :
  temporary s' = None /\
  match r with
  | Ok n => exists header rows s1, capture_lines perf_counter_ns s = (Ok (header, rows), s1) /\
      source s' = source s1 /\ n = Z.of_nat (length rows) /\
      Forall writable (lines_of header rows) /\
      let text := text_of (lines_of header rows) in
      destination s' = Some (File text (String.length text))
  | Raise _ => destination s' = destination s
  end.
Proof. by apply (export_outcome perf_counter_ns). Qed.
End Theorems.

(** C28: the rows that a point import accepts are one complete replacement per line:
    as many mutations as rows, with distinct 64-bit identifiers, each an upsert
    that gives every field of the schema a value of its kind (packed bytes of the
    right length, lists, sparse elements) or removes it. *)
Theorem imported_points_sound header rows schema ms
    (H : decode_points header rows schema = Ok ms) :
  length ms = length rows /\ NoDup (PointMutation.id <$> ms) /\ Forall (replaces schema) ms.
Proof. by eapply decode_points_replace. Qed.

Section Quarantine.
Context {E : Type}.
Variable container_text : pyval -> string.
Variable kernel_inspect : list (string * E) -> Z -> res pyval.

(** C22: a quarantine moves only orphans and loses nothing: every entry it takes is
    unreferenced by the manifest, has the name of a generation file or of a
    temporary manifest, and goes unchanged to a free name of the quarantine; all
    other entries of both directories stay.  It moves all the orphans, or stops at
    the first whose name is taken. *)
Theorem quarantine_safe dimension (s s' : @store E) r
    (Hnames : NoDup (directory s).*1)
    (H : quarantine_orphans container_text kernel_inspect dimension s = (r, s')) :
  (exists e, inspect_storage container_text kernel_inspect (directory s) dimension = Raise e /\
     r = Raise e /\ s' = s) \/
  exists report moved,
    inspect_storage container_text kernel_inspect (directory s) dimension = Ok report /\
    moved_to moved s s' /\
    Forall (fun name => (name ∉ referenced report) /\ _ORPHAN_PATTERN name = true) moved /\
    let orphans :=
      List.filter (is_orphan (referenced report)) (isort String.leb ((directory s).*1)) in
    match r with
    | Ok result => result = moved /\ moved = orphans
    | Raise e => exn_type e = FileExistsError /\
        exists name rest, orphans = moved ++ name :: rest /\ name ∈ (held s).*1
    end.
Proof.
  unfold quarantine_orphans in H. rewrite run_get, run_lift in H.
  destruct (inspect_storage _ _ _ _) as [report|e] eqn:Hi; [right|by left; injection H as <- <-; exists e].
  rewrite run_modify in H.
  assert (moved_to [] s (make_target s)) as Hm.
  { destruct (moved_to_nil s Hnames) as [? ? ? ? ?]. by split. }
  apply (quarantine_loop _ s) in H as (moved & Hmoved & Hr); [| | |exact Hm].
  - exists report, moved. split; [done|]. split; [done|]. split; [|by destruct r].
    assert (Forall (fun name => is_orphan (referenced report) name = true)
      (List.filter (is_orphan (referenced report)) (isort String.leb (directory s).*1))) as Ho.
    { apply List.Forall_forall. intros x Hx%List.filter_In. apply Hx. }
    assert (Forall (fun name => is_orphan (referenced report) name = true) moved) as Ho'.
    { destruct r as [result|e]; [by destruct Hr as [_ ->]|].
      destruct Hr as (_ & name & rest & Heq & _). rewrite Heq in Ho. by apply Forall_app in Ho as [? _]. }
    eapply Forall_impl; [exact Ho'|]. intros name. unfold is_orphan, str_in.
    rewrite andb_true_iff, negb_true_iff, bool_decide_eq_false. done.
  - by rewrite isort_perm.
  - intros x. rewrite isort_elem_of. split; [done|apply not_elem_of_nil].
Qed.
End Quarantine.

(** * Instances *)

Definition no_text (v : pyval) : string := "".
Definition clock (n : nat) : Z := 3 * Z.of_nat n.

Definition sample_config : dict := Eval vm_compute in
  match validate_collection_config 2 (PDict []) with Ok d => d | Raise _ => [] end.

(** A field of the schema as the kernel describes it. *)
Definition kernel_field (id : Z) (name : string) (dimension : Z) (dtype kind metric : string) : pyval :=
  PDict [("id", PInt id); ("name", PStr name); ("dimension", PInt dimension); ("dtype", PStr dtype);
         ("kind", PStr kind); ("metric", PStr metric); ("hnsw", PNone)].

Definition sample_schema : list pyval :=
  [kernel_field 0 "default" 2 "f32" "dense" "l2"; kernel_field 1 "sparse" 0 "f32" "sparse" "dot";
   kernel_field 2 "bits" 9 "binary" "binary" "hamming";
   kernel_field 3 "tokens" 2 "bf16" "multivector" "dot"].

Definition one : float := S754_finite false 4503599627370496 (-52).

Definition sample_points : list point_state :=
  [PointState (-5) 8 0 PNone PNone
     [("bits", bytes_value [ascii_of_nat 129; ascii_of_nat 1]);
      ("tokens", PList [PList [PFloat (S754_zero true); PFloat (S754_finite false 5629499534213120 (-51))]])]
     [PayloadField.Mk (PStr "label") (PStr "string") (PStr "fixture")];
   PointState 4 9 7 (PList [PFloat one; PFloat (S754_finite false 4503599627370496 (-51))])
     (PList [PDict [("term_id", PInt 3); ("weight", PFloat one)]])
     [("tokens", PList [])] []].

Definition sample_capture : capture := Capture sample_config sample_schema sample_points 9.
Definition sample_memory : point_memory :=
  PointMemory sample_config sample_schema (point_value <$> sample_points) 9 [].

Definition sample_config_value : CollectionConfig.t := Eval vm_compute in
  match CollectionConfig.from_kernel sample_config with
  | Ok c => c
  | Raise _ => CollectionConfig.Mk 1 "" "" 0 0 0 0 0 0 0 0 0 None
  end.
Definition sample_fields : schema_t := Eval vm_compute in
  match schema_fields sample_schema with Ok f => f | Raise _ => [] end.

Definition sample_collection : @Collection point_memory :=
  MkCollection sample_memory 2 sample_config_value ResourceLimits.defaults 0 0 0 0 0 0 [] 0.


Lemma sample_capture_ok : capture_ok sample_capture sample_config_value sample_fields.
Proof.
  split; [by vm_compute|by vm_compute|by repeat constructor|by vm_compute|by vm_compute| |].
  - change (points sample_capture) with sample_points. unfold sample_points.
    rewrite !Forall_cons. split_and!; [..|constructor].
    + split; cbn [p_id p_sequence p_document_sequence p_vector p_sparse p_vectors sample_capture
        source_sequence]; [lia..|by left|by left|].
      rewrite !Forall_cons. split_and!; [..|constructor].
      * exists (VectorField.Mk 9 "binary" "binary" "hamming" None). split; [done|].
        by exists [ascii_of_nat 129; ascii_of_nat 1].
      * exists (VectorField.Mk 2 "bf16" "multivector" "dot" None). split; [done|]. by eexists.
    + split; cbn [p_id p_sequence p_document_sequence p_vector p_sparse p_vectors sample_capture
        source_sequence]; [lia..|right; by eexists| |].
      * right. eexists. split; [done|]. constructor; [by eexists _, _|constructor].
      * rewrite Forall_cons. split; [|constructor].
        exists (VectorField.Mk 2 "bf16" "multivector" "dot" None). split; [done|]. by eexists.
  - repeat constructor; set_solver.
Qed.

Definition sample_lines : list pyval := Eval vm_compute in
  lines_of (Some (exported_header sample_capture sample_config_value sample_fields))
    (PDict <$> exported_rows sample_capture sample_fields).
Definition sample_text : string := Eval vm_compute in text_of sample_lines.

Definition sample_header : dict := exported_header sample_capture sample_config_value sample_fields.
Definition sample_rows : list dict := exported_rows sample_capture sample_fields.




(** An import into the sample collection, and the collection after its reads. *)
Definition import_of (data : string) : res Z * @Collection point_memory :=
  import_ndjson no_text clock data sample_collection.


Lemma import_validates_first_witness :
  exists c', import_ndjson no_text clock sample_text sample_collection = (Ok 2, c') /\
    (_kernel c' = _kernel sample_collection \/
     exists lines rows, text_lines sample_text = Ok lines /\
      read_rows (ResourceLimits.max_batch_rows (limits sample_collection)) 1 [] lines = Ok rows).
Proof.
  assert (exists c', import_ndjson no_text clock sample_text sample_collection = (Ok 2, c'))
    as [c' H] by (exists (import_of sample_text).2; vm_compute; reflexivity).
  exists c'. split; [exact H|].
  destruct (import_validates_first clock no_text sample_text sample_collection c' _ H)
    as [Hk|(lines & rows & Hl & Hr & _)]; [left; exact Hk|right].
  exists lines, rows. exact (conj Hl Hr).
Defined.

Definition export_of (old : option file) : res Z * @exporting point_memory :=
  export_ndjson clock (Exporting sample_collection old None).

Lemma export_publishes_witness :
  export_of None = (Ok 2, (export_of None).2) /\ temporary (export_of None).2 = None /\
  exists text, destination (export_of None).2 = Some (File text (String.length text)).
Proof.
  assert (export_of None = (Ok 2, (export_of None).2)) as H by (by vm_compute).
  destruct (export_publishes clock (Exporting sample_collection None None) _ _ eq_refl H)
    as (Ht & header & rows & s1 & _ & _ & _ & _ & Hd).
  split; [exact H|]. split; [exact Ht|]. eexists. exact Hd.
Defined.

Lemma imported_points_sound_witness :
  exists ms, decode_points sample_header sample_rows (strip_schema sample_fields) = Ok ms /\
    length ms = 2%nat /\ NoDup (PointMutation.id <$> ms) /\
    Forall (replaces (strip_schema sample_fields)) ms.
Proof.
  pose proof (decode_exported_points _ _ _ sample_capture_ok) as H. eexists. split; [exact H|].
  destruct (imported_points_sound _ _ _ _ H) as (Hl & Hn & Hr).
  split; [exact Hl|]. split; [exact Hn|exact Hr].
Defined.

(** A storage directory with two orphans, one of them already in quarantine. *)
Definition sample_report : pyval :=
  PDict [("dimension", PInt 2); ("format_version", PInt 3); ("generation", PInt 2);
         ("last_sequence", PInt 9); ("segment_count", PInt 1); ("live_points", PInt 2);
         ("valid", PBool true); ("config_fingerprint", PInt 7);
         ("segment_names", PList [PStr "segment-base-2.bin"]); ("sparse_names", PList [])].
Definition sample_store : @store Z :=
  Store [("wal.bin", 0); ("segment-base-2.bin", 1); ("segment-base-1.bin", 2);
         ("manifest.bin", 3); ("sparse-delta-1.bin.tmp", 4)]
    (Some [("sparse-delta-1.bin.tmp", 5)]).
Definition quarantined : res (list string) * @store Z :=
  quarantine_orphans no_text (fun _ _ => Ok sample_report) 2 sample_store.

Lemma quarantine_safe_witness :
  NoDup (directory sample_store).*1 /\
  quarantined = (raise FileExistsError "quarantine target exists: sparse-delta-1.bin.tmp",
                 quarantined.2) /\
  exists moved, moved_to moved sample_store quarantined.2.
Proof.
  assert (NoDup (directory sample_store).*1) as Hn by (repeat constructor; set_solver).
  assert (quarantined = (raise FileExistsError "quarantine target exists: sparse-delta-1.bin.tmp",
    quarantined.2)) as H by (by vm_compute).
  split; [exact Hn|]. split; [exact H|].
  destruct (quarantine_safe no_text _ 2 sample_store _ _ Hn H)
    as [(e & Hi & _)|(report & moved & _ & Hm & _)]; [exfalso; revert Hi; vm_compute; discriminate|].
  exists moved. exact Hm.
Defined.
