(* ===== verification/CollectionIdentity.v ===== *)
(** The durable collection identity in cluster metadata:
    [canonical_collection_config] and [_legacy_default_collection_config] of
    [python/akashadb/distributed/protocol.py], over the kernel's configuration
    check. *)

From S2P Require Import Prelude PyFloat PyValue Json Envelope Models KernelConfig.
Import KernelFacts.

Definition COLLECTION_CONFIG_FIELDS : list string :=
  ["dimension"; "ann_metric"; "scalar_kind"; "m"; "m0"; "ef_construction";
   "default_ef_search"; "max_ef_search"; "max_level"; "rebuild_inactive_percent";
   "delta_max_points"; "level_seed"; "fingerprint"].

(** [COLLECTION_CONFIG_FIELDS - {"ann_metric", "scalar_kind"}].  Iterating over
    the set has no fixed order; the order only picks the field named in the
    message. *)
Definition INT_CONFIG_FIELDS : list string :=
  filter (fun name => name ∉ ["ann_metric"; "scalar_kind"]) COLLECTION_CONFIG_FIELDS.

Definition canonical_collection_config (value : pyval) (dimension : Z) : res dict :=
  value ← dict_with_fields value COLLECTION_CONFIG_FIELDS
            "cluster collection config fields mismatch";
  for_each (fun field_name =>
    v ← dict_item value field_name;
    _ ← _exact_int v ("collection config " +:+ field_name);
    Ok tt) INT_CONFIG_FIELDS;;
  metric ← dict_item value "ann_metric";
  _ ← as_str metric "collection config ann_metric must be a string";
  scalar ← dict_item value "scalar_kind";
  _ ← as_str scalar "collection config scalar_kind must be a string";
  d ← dict_item value "dimension";
  raise_if (negb (py_eq d (PInt dimension)))
    ProtocolError "cluster collection config dimension mismatch";;
  canonical ← try_except
    (requested ← CollectionConfig.from_kernel value;
     validate_collection_config dimension (PDict (CollectionConfig.to_kernel requested)))
    [Exception] (fun _ => raise ProtocolError "invalid cluster collection config");
  raise_if (negb (py_eq (PDict canonical) (PDict value)))
    ProtocolError "cluster collection config is not canonical";;
  Ok canonical.

Definition _legacy_default_collection_config (dimension : Z) : res dict :=
  try_except (validate_collection_config dimension PNone)
    [Exception] (fun _ => raise ProtocolError "invalid legacy collection dimension").

(** * Lemmas *)

Lemma try_except_Ok {A} (m : res A) handlers c message a :
  try_except m handlers (fun _ => raise c message) = Ok a <-> m = Ok a.
Proof.
  unfold try_except. destruct m as [b|e]; [done|]. destruct (caught handlers e); done.
Qed.

Lemma py_eq_scalar v w :
  (is_int v || is_str v) && (is_int w || is_str w) = true -> py_eq v w = true <-> v = w.
Proof.
  destruct v, w; try done; simpl; intros _.
  - rewrite Z.eqb_eq. split; congruence.
  - rewrite bool_decide_eq_true. split; congruence.
Qed.

(** A dictionary of integers and strings, the shape of a rendered configuration. *)
Definition scalars (d : dict) : Prop :=
  Forall (fun kv => is_int kv.2 || is_str kv.2 = true) d.

(** For such dictionaries with unique keys, [==] is equality up to order. *)
Lemma py_eq_perm d e :
  NoDup d.*1 -> scalars d -> scalars e -> py_eq (PDict d) (PDict e) = true -> d ≡ₚ e.
Proof.
  unfold scalars. intros Hnd Hd He. cbn [py_eq num_eq]. rewrite andb_true_iff, Nat.eqb_eq.
  intros [Hlen H]. apply submseteq_length_Permutation; [|lia].
  apply NoDup_submseteq; [by eapply NoDup_fmap_1|]. clear Hlen Hnd.
  induction d as [|[k x] d IH]; intros kv Hkv; [set_solver|].
  apply Forall_cons in Hd as [Hx Hd]. apply andb_true_iff in H as [Hk H].
  apply elem_of_cons in Hkv as [->|Hkv]; [|by apply IH].
  destruct (dict_get e k) as [y|] eqn:Hy; [|done].
  assert ((k, y) ∈ e) as Hin.
  { clear -Hy. induction e as [|[k' y'] e IH]; [done|]. simpl in Hy.
    destruct (decide (k = k')) as [->|Hne].
    - rewrite bool_decide_eq_true_2 in Hy by done. simplify_eq. left.
    - rewrite bool_decide_eq_false_2 in Hy by done. right. auto. }
  rewrite Forall_forall in He. pose proof (He _ Hin) as Hyk. simpl in Hx, Hyk.
  apply py_eq_scalar in Hk; [by subst|]. by rewrite Hx, Hyk.
Qed.

Lemma perm_py_eq d e :
  NoDup d.*1 -> scalars d -> d ≡ₚ e -> py_eq (PDict d) (PDict e) = true.
Proof.
  intros Hnd Hd Hde. cbn [py_eq num_eq].
  rewrite (Permutation_length Hde), Nat.eqb_refl. cbn [andb].
  assert (forall k x, (k, x) ∈ d -> dict_get e k = Some x) as Hget.
  { intros k x Hkx. rewrite <- (dict_get_perm d) by done. by apply dict_get_elem. }
  clear Hde Hnd. induction Hd as [|[k x] d Hx Hd IH]; [done|].
  rewrite (Hget k x) by left. apply andb_true_iff. split.
  - apply py_eq_scalar; [|done]. simpl in Hx. by rewrite Hx.
  - apply IH. intros. apply Hget. by right.
Qed.

Lemma to_python_scalars k : scalars (Kernel.to_python k).
Proof. by repeat constructor. Qed.

Lemma to_python_NoDup k : NoDup (Kernel.to_python k).*1.
Proof.
  change (NoDup COLLECTION_CONFIG_FIELDS). refine (bool_decide_eq_true_1 _ _). by vm_compute.
Qed.

Lemma to_python_keys k : keys_are (Kernel.to_python k) COLLECTION_CONFIG_FIELDS = true.
Proof. apply keys_are_spec. by intros. Qed.

Lemma canonical_config_of_valid d k :
  valid k -> d ≡ₚ Kernel.to_python k ->
  canonical_collection_config (PDict d) (Kernel.dimension k) = Ok (Kernel.to_python k).
Proof.
  intros Hk Hd. symmetry in Hd.
  assert (forall name, dict_get d name = dict_get (Kernel.to_python k) name) as Hget.
  { intros name. symmetry. apply dict_get_perm; [apply to_python_NoDup|done]. }
  unfold canonical_collection_config. cbn [dict_with_fields].
  rewrite <- Hd, to_python_keys. cbn [mbind res_bind].
  replace (for_each _ INT_CONFIG_FIELDS) with (Ok tt).
  2:{ symmetry. apply for_each_Ok. unfold dict_item. setoid_rewrite Hget. by repeat constructor. }
  assert (forall name v, dict_get (Kernel.to_python k) name = Some v ->
    dict_item d name = Ok v) as Hitem.
  { intros name v Hv. apply dict_item_Ok. by rewrite Hget. }
  rewrite (Hitem "ann_metric" _ eq_refl), (Hitem "scalar_kind" _ eq_refl),
    (Hitem "dimension" _ eq_refl). cbn [mbind res_bind as_str].
  replace (py_eq (PInt _) (PInt _)) with true by (by simpl; rewrite Z.eqb_refl).
  cbn [negb raise_if mbind res_bind].
  rewrite (from_kernel_lookup d k Hk Hget). cbn [mbind res_bind].
  replace (Kernel.dimension k) with (CollectionConfig.dimension (to_config k)) by done.
  rewrite validate_to_kernel by (by apply well_formed_to_config || apply valid_ints_fit, Hk).
  rewrite of_to_config by apply Hk. destruct Hk as [Hv ?]. rewrite Hv. cbn -[py_eq].
  rewrite perm_py_eq; [done|apply to_python_NoDup|apply to_python_scalars|done].
Qed.

(** A dictionary as long as a list of distinct names with exactly those keys has
    each of them once. *)
Lemma keys_are_perm d fields :
  keys_are d fields = true -> NoDup fields -> length d = length fields -> fields ≡ₚ d.*1.
Proof.
  intros Hk Hnd Hlen. rewrite keys_are_spec in Hk. apply submseteq_length_Permutation.
  - apply NoDup_submseteq; [done|]. intros k. apply Hk.
  - rewrite length_fmap. lia.
Qed.

Lemma int_config_scalars d :
  keys_are d COLLECTION_CONFIG_FIELDS = true -> NoDup d.*1 ->
  Forall (fun name => exists z, dict_get d name = Some (PInt z)) INT_CONFIG_FIELDS ->
  (exists s, dict_get d "ann_metric" = Some (PStr s)) ->
  (exists s, dict_get d "scalar_kind" = Some (PStr s)) -> scalars d.
Proof.
  intros Hk Hnd Hints [s Hs] [t Ht]. apply Forall_forall. intros [k v] Hkv. simpl.
  assert (k ∈ COLLECTION_CONFIG_FIELDS) as Hin.
  { rewrite keys_are_spec in Hk. apply Hk, list_elem_of_fmap. by exists (k, v). }
  apply dict_get_elem in Hkv; [|done].
  destruct (decide (k = "ann_metric")) as [->|]; [by simplify_eq|].
  destruct (decide (k = "scalar_kind")) as [->|]; [by simplify_eq|].
  rewrite Forall_forall in Hints. destruct (Hints k) as [z Hz]; [|by simplify_eq].
  apply list_elem_of_filter. split; [|done]. rewrite !not_elem_of_cons. eauto using not_elem_of_nil.
Qed.

Lemma validate_inv dimension c d :
  CollectionConfig.well_formed c -> CollectionConfig.dimension c = dimension ->
  validate_collection_config dimension (PDict (CollectionConfig.to_kernel c)) = Ok d ->
  valid (of_config c) /\ d = Kernel.to_python (of_config c).
Proof.
  intros Hc <- H.
  assert (ints_fit c) as Hfit.
  { unfold validate_collection_config in H. inv_ok. by eapply from_python_ints_fit. }
  rewrite validate_to_kernel in H by done. apply bind_Ok in H as ([] & Hv & [= <-]).
  split; [|done]. split; [done|]. apply Hc.
Qed.

(** Conversely: what the decoder lets through is the kernel's rendering of a
    valid configuration. *)
Lemma canonical_config_inv value dimension c :
  canonical_collection_config value dimension = Ok c ->
  exists d k, value = PDict d /\ valid k /\ Kernel.dimension k = dimension /\
    d ≡ₚ Kernel.to_python k /\ c = Kernel.to_python k.
Proof.
  intros H. unfold canonical_collection_config in H. inv_py.
  match goal with H : try_except _ _ _ = _ |- _ =>
    apply try_except_Ok in H; apply bind_Ok in H as (r & Hr & Hv) end.
  unfold CollectionConfig.from_kernel in Hr. apply bind_Ok in Hr as (_ & _ & Hr).
  apply CollectionConfig.init_Ok in Hr as [Hwf Hfields].
  match goal with H : dict_get x "dimension" = Some ?v, H' : py_eq ?v _ = _ |- _ =>
    rename H into Hdim; rename H' into Hde end.
  apply Forall_cons in Hfields as [Hd _]. unfold dict_get_or in Hd. rewrite Hdim in Hd.
  change (x5 = PInt (CollectionConfig.dimension r)) in Hd. subst x5.
  apply py_eq_scalar in Hde; [injection Hde as Hde|done].
  apply validate_inv in Hv as [Hvalid ->]; [|done|done].
  exists x, (of_config r). split_and!; [done|done|done| |done].
  match goal with H : py_eq _ _ = true |- _ => rename H into Hpy end.
  assert (length x = length COLLECTION_CONFIG_FIELDS) as Hlen.
  { cbn [py_eq num_eq] in Hpy. apply andb_true_iff in Hpy as [Hl _].
    apply Nat.eqb_eq in Hl. by rewrite <- Hl. }
  assert (NoDup x.*1) as Hnd.
  { rewrite <- (keys_are_perm x COLLECTION_CONFIG_FIELDS); [apply (to_python_NoDup (of_config r))| |apply (to_python_NoDup (of_config r))|]; done. }
  symmetry. apply py_eq_perm; [apply to_python_NoDup|apply to_python_scalars| |done].
  apply int_config_scalars; eauto.
  match goal with H : for_each _ _ = _ |- _ => rename H into Hints end.
  apply for_each_Ok in Hints. eapply Forall_impl; [exact Hints|].
  simpl. intros name Hn. inv_py. eauto.
Qed.

(** ** Properties *)

(** The accepted identities are the kernel's renderings of valid
    configurations of the dimension, keys in any order, and the result is the
    rendering itself. *)
Lemma canonical_config_spec value dimension c :
  canonical_collection_config value dimension = Ok c <->
  exists d k, value = PDict d /\ valid k /\ Kernel.dimension k = dimension /\
    d ≡ₚ Kernel.to_python k /\ c = Kernel.to_python k.
Proof.
  split; [apply canonical_config_inv|].
  intros (d & k & -> & Hk & <- & Hd & ->). by apply canonical_config_of_valid.
Qed.

(** Canonical identities are fixed points. *)
Lemma canonical_config_idemp value dimension c :
  canonical_collection_config value dimension = Ok c ->
  canonical_collection_config (PDict c) dimension = Ok c.
Proof.
  rewrite !canonical_config_spec. intros (d & k & -> & Hk & <- & Hd & ->).
  by exists (Kernel.to_python k), k.
Qed.

(** The identity of the legacy format is canonical. *)
Lemma legacy_config_canonical dimension c :
  _legacy_default_collection_config dimension = Ok c ->
  canonical_collection_config (PDict c) dimension = Ok c.
Proof.
  unfold _legacy_default_collection_config. rewrite try_except_Ok.
  unfold validate_collection_config. intros H.
  apply bind_Ok in H as (n & [-> _]%to_int64_Ok & H). cbn [mbind res_bind] in H.
  apply bind_Ok in H as ([] & Hv & [= <-]).
  apply canonical_config_spec. exists (Kernel.to_python (Kernel.defaults dimension)), (Kernel.defaults dimension).
  split_and!; try done. 
Qed.
