(* ===== verification/Mutation.v ===== *)
(** Replicated mutations and journal entries: [validate_replicated_mutation] and
    [ReplicatedEntry] of [python/akashadb/distributed/protocol.py]. *)

From S2P Require Import Prelude PyFloat PyValue Json JsonFacts Checksum Envelope.

Definition DELETE_MUTATION_FIELDS : list string := ["operation"; "id"].
Definition UPSERT_MUTATION_FIELDS : list string :=
  ["operation"; "id"; "vector"; "fields"; "sparse"].
Definition MUTATION_PAYLOAD_FIELDS : list string := ["name"; "type"; "value"].
Definition MUTATION_SPARSE_FIELDS : list string := ["term_id"; "weight"].

Definition PAYLOAD_TYPES : list string := ["string"; "int"; "float"; "bool"].

(** One turn of the payload loop; the accumulator is the set [names]. *)
Definition check_payload_item (names : list string) (item : pyval) : res (list string) :=
  item ← dict_with_fields item MUTATION_PAYLOAD_FIELDS
           "replicated mutation payload fields mismatch";
  name ← dict_item item "name";
  kind ← dict_item item "type";
  value ← dict_item item "value";
  name ← match name with
         | PStr s =>
             if negb (bool_decide (s = "")) && negb (str_in s names) then Ok s
             else raise ProtocolError "replicated mutation payload names are invalid"
         | _ => raise ProtocolError "replicated mutation payload names are invalid"
         end;
  kind ← match kind with
         | PStr s => if str_in s PAYLOAD_TYPES then Ok s
                     else raise ProtocolError "replicated mutation payload type is invalid"
         | _ => raise ProtocolError "replicated mutation payload type is invalid"
         end;
  raise_if (bool_decide (kind = "string") && negb (is_str value))
    ProtocolError "replicated mutation string payload is invalid";;
  raise_if (bool_decide (kind = "int") && negb (is_int value))
    ProtocolError "replicated mutation integer payload is invalid";;
  raise_if (bool_decide (kind = "bool") && negb (is_bool value))
    ProtocolError "replicated mutation boolean payload is invalid";;
  raise_if (bool_decide (kind = "float") && negb (_finite_number value))
    ProtocolError "replicated mutation float payload is invalid";;
  Ok (name :: names).

(** One turn of the sparse loop; the accumulator is the set [term_ids]. *)
Definition check_sparse_item (term_ids : list Z) (item : pyval) : res (list Z) :=
  item ← dict_with_fields item MUTATION_SPARSE_FIELDS
           "replicated mutation sparse fields mismatch";
  term_id ← dict_item item "term_id";
  term_id ← _exact_int term_id "replicated mutation sparse term";
  weight ← dict_item item "weight";
  raise_if ((term_id <? 0) || bool_decide (term_id ∈ term_ids))
    ProtocolError "replicated mutation sparse term is invalid";;
  raise_if (negb (_finite_number weight))
    ProtocolError "replicated mutation sparse weight is invalid";;
  Ok (term_id :: term_ids).

Definition check_vector (vector : pyval) (dimension : option Z) : res unit :=
  vector ← match vector with
           | PList (x :: l) => Ok (x :: l)
           | _ => raise ProtocolError "replicated mutation vector must be a nonempty list"
           end;
  raise_if (match dimension with
            | Some dimension => negb (Z.of_nat (length vector) =? dimension)
            | None => false
            end) ProtocolError "replicated mutation vector dimension mismatch";;
  for_each (fun value => raise_if (negb (_finite_number value)) ProtocolError
              "replicated mutation vector must contain finite numbers") vector.

Definition check_upsert (mutation : dict) (dimension : option Z) : res unit :=
  vector ← dict_item mutation "vector";
  check_vector vector dimension;;
  payload ← dict_item mutation "fields";
  payload ← as_list payload "replicated mutation payload must be a list";
  _ ← for_fold check_payload_item [] payload;
  sparse ← dict_item mutation "sparse";
  sparse ← as_list sparse "replicated mutation sparse vector must be a list";
  _ ← for_fold check_sparse_item [] sparse;
  Ok tt.

Definition validate_replicated_mutation (mutation : pyval) (dimension : option Z)
    : res unit :=
  match mutation with
  | PDict mutation =>
    match dict_get mutation "operation" with
    | Some (PStr operation) =>
      if bool_decide (operation = "delete") then
        raise_if (negb (keys_are mutation DELETE_MUTATION_FIELDS))
          ProtocolError "replicated delete mutation fields mismatch";;
        id ← dict_item mutation "id";
        _ ← _exact_int id "replicated mutation id";
        Ok tt
      else
        raise_if (negb (bool_decide (operation = "upsert")))
          ProtocolError "replicated mutation operation is invalid";;
        raise_if (negb (keys_are mutation UPSERT_MUTATION_FIELDS))
          ProtocolError "replicated upsert mutation fields mismatch";;
        id ← dict_item mutation "id";
        _ ← _exact_int id "replicated mutation id";
        check_upsert mutation dimension
    | _ => raise ProtocolError "replicated mutation operation is invalid"
    end
  | _ => raise ProtocolError "replicated mutation operation is invalid"
  end.

(** * Journal entries *)

Definition REPLICATED_ENTRY_FIELDS : list string :=
  ["shard_id"; "term"; "placement_epoch"; "index"; "request_id"; "mutation";
   "mutation_checksum"].

Module ReplicatedEntry.
Record t : Type := Mk {
  shard_id : Z;
  term : Z;
  placement_epoch : Z;
  index : Z;
  request_id : string;
  mutation : dict;
  mutation_checksum : Z }.

#[global] Instance t_eq_dec : EqDecision t.
Proof. solve_decision. Defined.

Definition create (shard_id term placement_epoch index : Z) (request_id : string)
    (mutation : dict) : t :=
  Mk shard_id term placement_epoch index request_id mutation
    (payload_checksum (PDict mutation)).

Definition validate (e : t) : res unit :=
  raise_if ((shard_id e <? 0) || (term e <=? 0) || (placement_epoch e <=? 0))
    ProtocolError "invalid replicated entry epoch";;
  raise_if ((index e <=? 0) || bool_decide (request_id e = ""))
    ProtocolError "invalid replicated entry identity";;
  validate_replicated_mutation (PDict (mutation e)) None;;
  raise_if (negb (mutation_checksum e =? payload_checksum (PDict (mutation e))))
    ProtocolError "replicated mutation checksum mismatch".

(** [asdict(self)] *)
Definition asdict (e : t) : dict :=
  [("shard_id", PInt (shard_id e));
   ("term", PInt (term e));
   ("placement_epoch", PInt (placement_epoch e));
   ("index", PInt (index e));
   ("request_id", PStr (request_id e));
   ("mutation", PDict (mutation e));
   ("mutation_checksum", PInt (mutation_checksum e))].

Definition to_dict (e : t) : res dict := validate e;; Ok (asdict e).

Definition from_dict (value : pyval) : res t :=
  value ← dict_with_fields value REPLICATED_ENTRY_FIELDS "replicated entry fields mismatch";
  mutation ← dict_item value "mutation";
  mutation ← as_dict mutation "replicated mutation must be an object";
  shard_id ← dict_item value "shard_id";
  shard_id ← _exact_int shard_id "replicated shard_id";
  term ← dict_item value "term";
  term ← _exact_int term "replicated term";
  placement_epoch ← dict_item value "placement_epoch";
  placement_epoch ← _exact_int placement_epoch "replicated placement_epoch";
  index ← dict_item value "index";
  index ← _exact_int index "replicated index";
  request_id ← dict_item value "request_id";
  let request_id := match request_id with PStr s => s | _ => "" end in
  mutation_checksum ← dict_item value "mutation_checksum";
  mutation_checksum ← _exact_int mutation_checksum "replicated mutation_checksum";
  let entry := Mk shard_id term placement_epoch index request_id mutation
                 mutation_checksum in
  validate entry;;
  Ok entry.
End ReplicatedEntry.

(** * What a valid mutation is *)

Definition finite (v : pyval) : Prop := _finite_number v = true.

(** A scalar of the declared payload type. *)
Definition payload_value_ok (kind : string) (value : pyval) : Prop :=
  (kind = "string" /\ is_str value = true) \/ (kind = "int" /\ is_int value = true) \/
  (kind = "bool" /\ is_bool value = true) \/ (kind = "float" /\ finite value).

Definition payload_item_ok (item : pyval) (name : string) : Prop :=
  exists d kind value, item = PDict d /\ keys_are d MUTATION_PAYLOAD_FIELDS = true /\
    dict_get d "name" = Some (PStr name) /\ name <> "" /\
    dict_get d "type" = Some (PStr kind) /\ dict_get d "value" = Some value /\
    payload_value_ok kind value.

Definition sparse_item_ok (item : pyval) (term_id : Z) : Prop :=
  exists d weight, item = PDict d /\ keys_are d MUTATION_SPARSE_FIELDS = true /\
    dict_get d "term_id" = Some (PInt term_id) /\ 0 <= term_id /\
    dict_get d "weight" = Some weight /\ finite weight.

Inductive mutation_ok (dimension : option Z) (m : dict) : Prop :=
| delete_ok id :
    keys_are m DELETE_MUTATION_FIELDS = true ->
    dict_get m "operation" = Some (PStr "delete") ->
    dict_get m "id" = Some (PInt id) -> mutation_ok dimension m
| upsert_ok id vector payload sparse names term_ids :
    keys_are m UPSERT_MUTATION_FIELDS = true ->
    dict_get m "operation" = Some (PStr "upsert") ->
    dict_get m "id" = Some (PInt id) ->
    dict_get m "vector" = Some (PList vector) -> vector <> [] ->
    (forall n, dimension = Some n -> Z.of_nat (length vector) = n) ->
    Forall finite vector ->
    dict_get m "fields" = Some (PList payload) ->
    Forall2 payload_item_ok payload names -> NoDup names ->
    dict_get m "sparse" = Some (PList sparse) ->
    Forall2 sparse_item_ok sparse term_ids -> NoDup term_ids ->
    mutation_ok dimension m.

(** * Lemmas *)

(** A loop that collects distinct keys succeeds exactly when each element has a
    key and the keys are distinct. *)
Lemma for_fold_distinct {A K} (f : list K -> A -> res (list K)) (R : A -> K -> Prop) :
  (forall acc x acc', f acc x = Ok acc' <-> (exists y, R x y /\ (y ∉ acc) /\ acc' = y :: acc)) ->
  forall l acc,
    (exists acc', for_fold f acc l = Ok acc') <->
    (exists keys, Forall2 R l keys /\ NoDup keys /\ forall y, y ∈ keys -> y ∉ acc).
Proof.
  intros Hf l. induction l as [|x l IH]; intros acc; cbn [for_fold].
  - split; [|by eauto]. intros _. exists []. split_and!; [done|constructor|set_solver].
  - split.
    + intros [acc' (a & (y & HR & Hy & ->)%Hf & H)%bind_Ok].
      destruct (proj1 (IH (y :: acc))) as (keys & HF & Hnd & Hk); [by eauto|].
      exists (y :: keys). split_and!; [by constructor| |].
      * constructor; [|done]. intros Hin. apply (Hk y Hin). left.
      * intros z [->|Hz]%elem_of_cons; [done|]. intros Ha. apply (Hk z Hz). by right.
    + intros (keys & HF & Hnd & Hk). inversion HF as [|? y ? ks HR HF']; subst.
      apply NoDup_cons in Hnd as [Hy Hnd].
      assert (f acc x = Ok (y :: acc)) as Hfx.
      { apply Hf. exists y. split_and!; [done| |done]. apply Hk. left. }
      rewrite Hfx. cbn [mbind res_bind]. apply IH. exists ks. split_and!; [done|done|].
      intros z Hz [->|Ha]%elem_of_cons; [done|]. apply (Hk z); [by right|done].
Qed.

Lemma check_payload_item_Ok names item names' :
  check_payload_item names item = Ok names' <->
  (exists name, payload_item_ok item name /\ (name ∉ names) /\ names' = name :: names).
Proof.
  unfold check_payload_item, payload_item_ok, payload_value_ok, finite. split.
  - intros H. inv_py. destruct x0 as [| | | |name| | |]; try done.
    destruct (negb (bool_decide (name = "")) && _) eqn:Hn; [|done]. inv_py.
    unfold str_in in *. destruct x1 as [| | | |kind| | |]; try done.
    destruct (bool_decide (kind ∈ _)) eqn:Hk; [|done]. inv_py.
    exists x3. split_and!; [|done|done]. exists x, x4, x2. split_and!; try done.
    unfold PAYLOAD_TYPES in Hk; rewrite !elem_of_cons, elem_of_nil in Hk.
    destruct Hk as [->|[->|[->|[->|[]]]]]; simpl in *; inv_py; tauto.
  - intros (name & (d & kind & value & -> & Hk & Hn & Hne & Hkind & Hv & Hval) & Hin & ->).
    cbn [dict_with_fields]. rewrite Hk. cbn [mbind res_bind]. unfold dict_item.
    rewrite Hn, Hkind, Hv. cbn [mbind res_bind]. unfold str_in.
    rewrite (bool_decide_eq_false_2 _ Hne), (bool_decide_eq_false_2 _ Hin). cbn [negb andb mbind res_bind].
    by destruct Hval as [[-> Hval]|[[-> Hval]|[[-> Hval]|[-> Hval]]]]; simpl; rewrite Hval.
Qed.

Lemma check_sparse_item_Ok term_ids item term_ids' :
  check_sparse_item term_ids item = Ok term_ids' <->
  (exists id, sparse_item_ok item id /\ (id ∉ term_ids) /\ term_ids' = id :: term_ids).
Proof.
  unfold check_sparse_item, sparse_item_ok, finite. split.
  - intros H. inv_py. eauto 15.
  - intros (id & (d & w & -> & Hk & Hid & Hpos & Hw & Hf) & Hin & ->).
    cbn [dict_with_fields]. rewrite Hk. cbn [mbind res_bind]. unfold dict_item.
    rewrite Hid, Hw. cbn [mbind res_bind _exact_int].
    rewrite bool_decide_eq_false_2, (proj2 (Z.ltb_ge _ _)), Hf by done. done.
Qed.

Lemma check_vector_Ok vector dimension u :
  check_vector vector dimension = Ok u <->
  (exists l, vector = PList l /\ l <> [] /\
    (forall n, dimension = Some n -> Z.of_nat (length l) = n) /\ Forall finite l).
Proof.
  unfold check_vector. split.
  - destruct vector as [| | | | |[|x l]| |]; try done. cbn [mbind res_bind]. intros H.
    apply bind_Ok in H as (_ & Hd%raise_if_Ok & H). apply for_each_Ok in H.
    exists (x :: l). split_and!; [done|done| |].
    + intros n ->. inv_py. done.
    + eapply Forall_impl; [exact H|]. simpl. intros v ?%raise_if_Ok. by inv_py.
  - intros (l & -> & Hne & Hd & Hf). destruct l as [|x l]; [done|].
    cbn [mbind res_bind]. destruct u. apply bind_Ok. exists tt. split.
    + apply raise_if_Ok. destruct dimension as [n|]; [|done].
      by rewrite (Hd n), Z.eqb_refl.
    + apply for_each_Ok. eapply Forall_impl; [exact Hf|]. unfold finite.
      simpl. intros v ->. done.
Qed.

(** ** Properties *)

(** The validator accepts exactly the well-formed mutations. *)
Lemma validate_mutation_spec m dimension :
  validate_replicated_mutation m dimension = Ok tt <->
  (exists d, m = PDict d /\ mutation_ok dimension d).
Proof.
  destruct m as [| | | | | | |d];
    try (split; [done|by intros (? & ? & _)]).
  transitivity (mutation_ok dimension d); [|by split; [eauto|intros (? & [= <-] & ?)]].
  cbn [validate_replicated_mutation].
  destruct (dict_get d "operation") as [[| | | |op| | |]|] eqn:Hop;
    try (split; [done|by intros []; simplify_eq]).
  destruct (decide (op = "delete")) as [->|Hdel].
  - rewrite bool_decide_eq_true_2 by done. split.
    + intros H. inv_py. eapply delete_ok; done.
    + intros []; [|by simplify_eq]. rewrite H. cbn. apply bind_Ok.
      exists (PInt id). rewrite dict_item_Ok. done.
  - rewrite bool_decide_eq_false_2 by done. split.
    + intros H. unfold check_upsert in H. inv_py. subst op.
      match goal with H : check_vector _ _ = _ |- _ =>
        apply check_vector_Ok in H as (v & -> & ? & ? & ?) end.
      match goal with H : for_fold check_payload_item _ _ = _ |- _ =>
        destruct (proj1 (for_fold_distinct _ _ check_payload_item_Ok _ _) (ex_intro _ _ H))
          as (names & ? & ? & _) end.
      match goal with H : for_fold check_sparse_item _ _ = _ |- _ =>
        destruct (proj1 (for_fold_distinct _ _ check_sparse_item_Ok _ _) (ex_intro _ _ H))
          as (ids & ? & ? & _) end.
      eapply upsert_ok; done.
    + intros [|id vector payload sparse names ids Hk Ho Hid Hv Hne Hd Hf Hp HF Hnd Hs HF' Hnd'];
        [by simplify_eq|]. simplify_eq. rewrite bool_decide_eq_true_2, Hk by done. cbn.
      unfold check_upsert, dict_item. rewrite Hid, Hv, Hp, Hs. cbn [mbind res_bind _exact_int].
      rewrite (proj2 (check_vector_Ok _ _ tt)) by eauto 10. cbn [mbind res_bind as_list].
      destruct (proj2 (for_fold_distinct _ _ check_payload_item_Ok payload []))
        as [? ->]; [by eauto using not_elem_of_nil|].
      destruct (proj2 (for_fold_distinct _ _ check_sparse_item_Ok sparse []))
        as [? ->]; [by eauto using not_elem_of_nil|]. done.
Qed.

(** ** Entries and their stored form *)

Module EntryFacts.
Import ReplicatedEntry.

Lemma dict_get_not_key d k fields :
  keys_are d fields = true -> k ∉ fields -> dict_get d k = None.
Proof. rewrite keys_are_spec. intros Hk Hn. apply dict_get_None. by rewrite Hk. Qed.

(** [from_dict] only looks its fields up. *)
Lemma from_dict_lookup d e :
  keys_are d REPLICATED_ENTRY_FIELDS = true ->
  (forall k, dict_get d k = dict_get (asdict e) k) ->
  from_dict (PDict d) = (validate e;; Ok e).
Proof.
  intros Hk Hget. unfold from_dict. cbn [dict_with_fields]. rewrite Hk.
  assert (forall name v, dict_get (asdict e) name = Some v -> dict_item d name = Ok v) as Hitem.
  { intros name v Hv. apply dict_item_Ok. by rewrite Hget. }
  cbn [mbind res_bind].
  rewrite (Hitem "mutation" _ eq_refl), (Hitem "shard_id" _ eq_refl), (Hitem "term" _ eq_refl),
    (Hitem "placement_epoch" _ eq_refl), (Hitem "index" _ eq_refl),
    (Hitem "request_id" _ eq_refl), (Hitem "mutation_checksum" _ eq_refl).
  by destruct e.
Qed.

(** What [from_dict] returns is valid and has every field of its argument. *)
Lemma from_dict_Ok value e :
  from_dict value = Ok e ->
  validate e = Ok tt /\
  exists d, value = PDict d /\ keys_are d REPLICATED_ENTRY_FIELDS = true /\
    forall k, dict_get d k = dict_get (asdict e) k.
Proof.
  unfold from_dict. intros H. inv_py.
  match goal with H : validate _ = Ok ?u |- _ => destruct u; rename H into Hv end.
  split; [done|]. eexists. split_and!; [done|done|]. intros k.
  match goal with H : dict_get _ "request_id" = Some ?r |- _ =>
    rename H into Hr; rename r into req end.
  assert (req = PStr (match req with PStr s => s | _ => "" end)) as Hreq.
  { unfold validate in Hv. inv_py. cbn [request_id] in *. by destruct req. }
  match goal with H : keys_are _ _ = true |- _ => rename H into Hk end.
  destruct (decide (k ∈ REPLICATED_ENTRY_FIELDS)) as [Hin|Hn].
  - unfold REPLICATED_ENTRY_FIELDS in Hin. rewrite !elem_of_cons, elem_of_nil in Hin.
    destruct Hin as [->|[->|[->|[->|[->|[->|[->|[]]]]]]]]; try done.
    rewrite Hr, Hreq at 1. done.
  - rewrite (dict_get_not_key _ _ _ Hk Hn). symmetry. by apply dict_get_None.
Qed.

(** The entry with the keys of its mutation sorted, as a journal returns it. *)
Definition sorted (e : t) : t :=
  Mk (shard_id e) (term e) (placement_epoch e) (index e) (request_id e)
    (sorted_payload (mutation e)) (mutation_checksum e).

(** Entries a JSON file can hold. *)
Definition storable (e : t) : Prop :=
  int_ok (shard_id e) = true /\ int_ok (term e) = true /\
  int_ok (placement_epoch e) = true /\ int_ok (index e) = true /\
  utf8_valid (request_id e) = true /\ json_ok (PDict (mutation e)) = true.

Lemma finite_sort_keys v : finite v -> finite (sort_keys v).
Proof. by destruct v. Qed.

Lemma payload_value_ok_sort_keys kind v :
  payload_value_ok kind v -> payload_value_ok kind (sort_keys v).
Proof. by destruct v. Qed.

Lemma json_ok_dict d :
  json_ok (PDict d) = true ->
  NoDup d.*1 /\ forall k v, (k, v) ∈ d -> utf8_valid k = true /\ json_ok v = true.
Proof.
  cbn [json_ok]. rewrite andb_true_iff, bool_decide_eq_true, forallb_forall.
  intros [? H]. split; [done|]. intros k v Hkv%list_elem_of_In%H. by apply andb_true_iff.
Qed.

Lemma json_ok_get d k v :
  json_ok (PDict d) = true -> dict_get d k = Some v -> json_ok v = true.
Proof. intros [Hnd H]%json_ok_dict Hk. apply dict_get_elem in Hk; [|done]. by eapply H. Qed.

Lemma json_ok_list l v : json_ok (PList l) = true -> v ∈ l -> json_ok v = true.
Proof. cbn [json_ok]. rewrite forallb_forall. intros H ?%list_elem_of_In. auto. Qed.

Lemma payload_item_sort_keys v name :
  json_ok v = true -> payload_item_ok v name -> payload_item_ok (sort_keys v) name.
Proof.
  intros Hok (d & kind & value & -> & Hk & Hn & Hne & Hkind & Hv & Hval).
  apply json_ok_dict in Hok as [Hnd _]. rewrite sort_keys_dict.
  eexists _, kind, (sort_keys value). split; [done|].
  rewrite keys_are_sorted, !dict_get_sorted, Hn, Hkind, Hv by done.
  split_and!; try done. by apply payload_value_ok_sort_keys.
Qed.

Lemma sparse_item_sort_keys v id :
  json_ok v = true -> sparse_item_ok v id -> sparse_item_ok (sort_keys v) id.
Proof.
  intros Hok (d & w & -> & Hk & Hid & Hpos & Hw & Hf).
  apply json_ok_dict in Hok as [Hnd _]. rewrite sort_keys_dict.
  eexists _, (sort_keys w). split; [done|].
  rewrite keys_are_sorted, !dict_get_sorted, Hid, Hw by done.
  split_and!; try done. by apply finite_sort_keys.
Qed.

Lemma Forall2_sort_keys {K} (R : pyval -> K -> Prop) l keys :
  (forall v y, json_ok v = true -> R v y -> R (sort_keys v) y) ->
  json_ok (PList l) = true -> Forall2 R l keys -> Forall2 R (sort_keys <$> l) keys.
Proof.
  intros HR Hok HF. apply Forall2_fmap_l. rewrite Forall2_lookup in *.
  intros i. specialize (HF i). destruct (l !! i) eqn:Hi; inversion HF; constructor.
  apply HR; [|done]. eapply json_ok_list; [done|]. by eapply list_elem_of_lookup_2.
Qed.

(** Storing a mutation keeps it well-formed. *)
Lemma mutation_ok_sorted dimension m :
  json_ok (PDict m) = true -> mutation_ok dimension m ->
  mutation_ok dimension (sorted_payload m).
Proof.
  intros Hok Hm. pose proof (json_ok_dict _ Hok) as [Hnd _].
  destruct Hm as [id Hk Ho Hid|id vector payload sparse names ids Hk Ho Hid Hv Hne Hd Hf Hp HF Hnd1 Hs HF' Hnd2].
  - eapply delete_ok; unfold sorted_payload.
    all: rewrite ?keys_are_sorted, ?dict_get_sorted, ?Ho, ?Hid by done; done.
  - eapply (upsert_ok _ _ id (sort_keys <$> vector) (sort_keys <$> payload)
      (sort_keys <$> sparse) names ids); unfold sorted_payload.
    all: rewrite ?keys_are_sorted, ?dict_get_sorted, ?Ho, ?Hid, ?Hv, ?Hp, ?Hs by done.
    all: try done.
    + by destruct vector.
    + intros n Hn. rewrite length_fmap. auto.
    + apply Forall_fmap. eapply Forall_impl; [done|]. apply finite_sort_keys.
    + eapply Forall2_sort_keys; [|by eapply json_ok_get|done]. apply payload_item_sort_keys.
    + eapply Forall2_sort_keys; [|by eapply json_ok_get|done]. apply sparse_item_sort_keys.
Qed.

Lemma asdict_keys e : keys_are (asdict e) REPLICATED_ENTRY_FIELDS = true.
Proof. apply keys_are_spec. by intros. Qed.

Lemma asdict_NoDup e : NoDup (asdict e).*1.
Proof. change (NoDup REPLICATED_ENTRY_FIELDS). refine (bool_decide_eq_true_1 _ _). by vm_compute. Qed.

(** The entries [validate] accepts. *)
Lemma validate_spec e :
  validate e = Ok tt <->
  0 <= shard_id e /\ 0 < term e /\ 0 < placement_epoch e /\ 0 < index e /\
  request_id e <> "" /\ mutation_ok None (mutation e) /\
  mutation_checksum e = payload_checksum (PDict (mutation e)).
Proof.
  unfold validate. split.
  - intros H. inv_py. match goal with H : validate_replicated_mutation _ _ = Ok ?u |- _ =>
      destruct u; apply validate_mutation_spec in H as (? & [= <-] & ?) end.
    split_and!; done || lia.
  - intros (? & ? & ? & ? & Hr & Hm & Hc).
    rewrite (proj2 (Z.ltb_ge _ _)), !(proj2 (Z.leb_gt _ _)) by done.
    rewrite (bool_decide_eq_false_2 _ Hr). cbn [orb raise_if mbind res_bind].
    rewrite (proj2 (validate_mutation_spec _ _)) by eauto.
    cbn [mbind res_bind]. by rewrite Hc, Z.eqb_refl.
Qed.

Lemma payload_checksum_sorted d :
  payload_checksum (PDict (sorted_payload d)) = payload_checksum (PDict d).
Proof. rewrite <- (payload_checksum_sort_keys (PDict d)). by rewrite sort_keys_dict. Qed.

Lemma validate_sorted e :
  storable e -> validate e = Ok tt -> validate (sorted e) = Ok tt.
Proof.
  rewrite !validate_spec. intros (_ & _ & _ & _ & _ & Hok) (? & ? & ? & ? & ? & Hm & Hc).
  split_and!; try done; cbn.
  - by apply mutation_ok_sorted.
  - by rewrite Hc, payload_checksum_sorted.
Qed.

Lemma asdict_json_ok e :
  validate e = Ok tt -> storable e -> json_ok (PDict (asdict e)) = true.
Proof.
  rewrite validate_spec. intros (_ & _ & _ & _ & _ & _ & Hc) (Hs & Ht & Hp & Hi & Hr & Hm).
  cbn [json_ok]. rewrite bool_decide_eq_true_2 by apply asdict_NoDup.
  unfold asdict. cbn [forallb andb].
  change (json_ok (PInt ?z)) with (int_ok z).
  cbn [json_ok] in *. rewrite Hs, Ht, Hp, Hi, Hr, Hm, Hc, checksum_int_ok. done.
Qed.

(** An entry read back from the dictionary it was written as. *)
Lemma from_asdict e : validate e = Ok tt -> from_dict (PDict (asdict e)) = Ok e.
Proof. intros Hv. rewrite (from_dict_lookup _ e); [by rewrite Hv|apply asdict_keys|done]. Qed.

(** And from the stored form of that dictionary: the keys of the mutation come
    back sorted. *)
Lemma from_stored e :
  validate e = Ok tt -> storable e ->
  from_dict (sort_keys (PDict (asdict e))) = Ok (sorted e).
Proof.
  intros Hv Hs. rewrite sort_keys_dict, (from_dict_lookup _ (sorted e)).
  - by rewrite validate_sorted.
  - rewrite keys_are_sorted. apply asdict_keys.
  - intros k. rewrite dict_get_sorted by apply asdict_NoDup.
    unfold asdict, sorted; cbn [shard_id term placement_epoch index request_id mutation
      mutation_checksum dict_get].
    repeat (destruct (bool_decide _); [cbn [fmap option_fmap option_map]; rewrite ?sort_keys_dict; done|]).
    done.
Qed.
End EntryFacts.
