(* ===== verification/Journal.v ===== *)
(** [ReplicaJournal] of [python/akashadb/distributed/protocol.py]: the append-only
    file of prepare, commit and snapshot records, its loading with torn-tail
    repair, and the in-memory tables. *)

From S2P Require Import Prelude PyFloat PyValue Json JsonFacts Checksum Envelope Files Mutation.

Definition newline_char : ascii := newline.
Definition return_char : ascii := "013"%char.
Definition nl : string := String newline_char "".

(** [data.rfind(b"\n")] *)
Fixpoint rfind_newline (s : string) : Z :=
  match s with
  | EmptyString => -1
  | String c s =>
      let r := rfind_newline s in
      if 0 <=? r then r + 1 else if bool_decide (c = newline_char) then 0 else -1
  end.

(** [data.endswith(b"\n")] *)
Fixpoint ends_with_newline (s : string) : bool :=
  match s with
  | EmptyString => false
  | String c EmptyString => bool_decide (c = newline_char)
  | String _ s => ends_with_newline s
  end.

(** [data.splitlines()] of bytes: lines end with LF, CR or CR LF. *)
Fixpoint splitlines (s : string) : list string :=
  match s with
  | EmptyString => []
  | String c s' =>
      if bool_decide (c = newline_char) then "" :: splitlines s'
      else if bool_decide (c = return_char) then
        match s' with
        | String d s'' =>
            "" :: if bool_decide (d = newline_char) then splitlines s'' else splitlines s'
        | EmptyString => [""]
        end
      else match splitlines s' with
           | [] => [String c ""]
           | line :: lines => String c line :: lines
           end
  end.

Definition PREPARE_RECORD_FIELDS : list string := ["kind"; "entry"].
Definition INDEX_RECORD_FIELDS : list string := ["kind"; "index"].

Module ReplicaJournal.
Record t : Type := Mk {
  path : option file;
  prepared : gmap Z ReplicatedEntry.t;
  committed : gset Z;
  snapshot_index : Z }.

Definition set_path (f : option file) (j : t) : t :=
  Mk f (prepared j) (committed j) (snapshot_index j).
Definition set_prepared (p : gmap Z ReplicatedEntry.t) (j : t) : t :=
  Mk (path j) p (committed j) (snapshot_index j).
Definition set_committed (c : gset Z) (j : t) : t :=
  Mk (path j) (prepared j) c (snapshot_index j).
Definition set_snapshot_index (i : Z) (j : t) : t :=
  Mk (path j) (prepared j) (committed j) i.

(** One record of the file: the body of the loop of [_load]. *)
Definition load_record (j : t) (payload : dict) : res t :=
  let kind := dict_get_or payload "kind" PNone in
  if py_eq kind (PStr "prepare") then
    raise_if (negb (keys_are payload PREPARE_RECORD_FIELDS))
      ProtocolError "replica journal prepare fields mismatch";;
    value ← dict_item payload "entry";
    entry ← ReplicatedEntry.from_dict value;
    raise_if (match prepared j !! ReplicatedEntry.index entry with
              | Some existing =>
                  negb (ReplicatedEntry.mutation_checksum existing =?
                        ReplicatedEntry.mutation_checksum entry)
              | None => false
              end) ProtocolError "conflicting replicated journal entry";;
    Ok (set_prepared (<[ReplicatedEntry.index entry := entry]> (prepared j)) j)
  else if py_eq kind (PStr "commit") then
    raise_if (negb (keys_are payload INDEX_RECORD_FIELDS))
      ProtocolError "replica journal commit fields mismatch";;
    value ← dict_item payload "index";
    index ← _exact_int value "replica commit index";
    raise_if (negb (bool_decide (is_Some (prepared j !! index))))
      ProtocolError "commit marker has no prepared entry";;
    Ok (set_committed ({[index]} ∪ committed j) j)
  else if py_eq kind (PStr "snapshot") then
    raise_if (negb (keys_are payload INDEX_RECORD_FIELDS))
      ProtocolError "replica journal snapshot fields mismatch";;
    value ← dict_item payload "index";
    index ← _exact_int value "replica snapshot index";
    Ok (set_snapshot_index (Z.max (snapshot_index j) index) j)
  else raise ProtocolError "unknown replica journal record".

Definition load_line (j : t) (line : string) : res t :=
  if bool_decide (line = "") then Ok j
  else
    '(_, payload) ← try_except (value ← loads line; _decode_envelope_versioned value)
      [JSONDecodeError; ProtocolError]
      (fun _ => raise ProtocolError "replica journal corruption");
    load_record j payload.

(** [_load].  The records only touch the tables; the repair comes last. *)
Definition _load (j : t) : res t :=
  if negb (exists_file (path j)) then Ok j
  else
    data ← read_bytes (path j);
    let repair_torn_tail := negb (bool_decide (data = "")) && negb (ends_with_newline data) in
    let complete_size :=
      if repair_torn_tail then rfind_newline data + 1
      else Z.of_nat (String.length data) in
    let data := if repair_torn_tail then stake (Z.to_nat complete_size) data else data in
    j ← for_fold load_line j (splitlines data);
    if repair_torn_tail then
      Ok (set_path ((fsync ∘ truncate (Z.to_nat complete_size)) <$> path j) j)
    else Ok j.

(** [__init__] *)
Definition open (f : option file) : res t := _load (Mk f ∅ ∅ 0).

Definition record_line (payload : dict) : string := envelope_text payload +:+ nl.

Definition _append (payload : dict) (f : option file) : file :=
  fsync (write (record_line payload) (open_append f)).

Definition prepare_record (entry : ReplicatedEntry.t) : dict :=
  [("kind", PStr "prepare"); ("entry", PDict (ReplicatedEntry.asdict entry))].
Definition commit_record (index : Z) : dict :=
  [("kind", PStr "commit"); ("index", PInt index)].
Definition snapshot_record (index : Z) : dict :=
  [("kind", PStr "snapshot"); ("index", PInt index)].

Definition prepare (entry : ReplicatedEntry.t) : M t unit :=
  lift (ReplicatedEntry.validate entry);;
  j ← get_state;
  match prepared j !! ReplicatedEntry.index entry with
  | Some existing =>
      lift (raise_if (negb (ReplicatedEntry.mutation_checksum existing =?
                            ReplicatedEntry.mutation_checksum entry))
              ProtocolError "conflicting duplicate replicated entry")
  | None =>
      value ← lift (ReplicatedEntry.to_dict entry);
      modify (fun j => set_path
        (Some (_append [("kind", PStr "prepare"); ("entry", PDict value)] (path j))) j);;
      modify (fun j => set_prepared
        (<[ReplicatedEntry.index entry := entry]> (prepared j)) j)
  end.

Definition commit (index : Z) : M t ReplicatedEntry.t :=
  j ← get_state;
  match prepared j !! index with
  | None => lift (raise ProtocolError "cannot commit an unprepared entry")
  | Some entry =>
      (if bool_decide (index ∈ committed j) then mret tt
       else
         modify (fun j => set_path (Some (_append (commit_record index) (path j))) j);;
         modify (fun j => set_committed ({[index]} ∪ committed j) j));;
      mret entry
  end.

Definition install_snapshot (index : Z) : M t unit :=
  j ← get_state;
  lift (raise_if (index <? snapshot_index j) ProtocolError "snapshot index regression");;
  modify (fun j => set_path (Some (_append (snapshot_record index) (path j))) j);;
  modify (set_snapshot_index index).

(** [sorted(self.committed)] *)
Definition sorted_committed (j : t) : list Z := isort Z.leb (elements (committed j)).

(** [self.prepared[item]] raises on a committed index that is not prepared. *)
Definition committed_after (j : t) (index : Z) : res (list ReplicatedEntry.t) :=
  map_res (fun item =>
    match prepared j !! item with
    | Some entry => Ok entry
    | None => raise KeyError (int_repr item)
    end) (filter (fun item => index < item) (sorted_committed j)).
End ReplicaJournal.
