(* ===== verification/JournalFacts.v ===== *)
(** Properties of the replica journal: what any loaded file satisfies, that the
    file and the tables agree, reloading, and crashes during an append. *)

From S2P Require Import Prelude PyFloat PyValue Json JsonFacts Checksum Envelope Files Mutation Journal.
Import ReplicaJournal EntryFacts.

(** * Lines *)

Lemma no_ctl_cons c s :
  no_ctl (String c s) = true -> c <> newline_char /\ c <> return_char /\ no_ctl s = true.
Proof.
  cbn [no_ctl]. intros [Hc Hs]%andb_true_iff. apply negb_true_iff, Nat.ltb_ge in Hc.
  split_and!; [| |done]; intros ->; vm_compute in Hc; lia.
Qed.

Lemma splitlines_line l s :
  no_ctl l = true -> splitlines (l +:+ nl +:+ s) = l :: splitlines s.
Proof.
  induction l as [|c l IH]; intros Hl; [done|].
  apply no_ctl_cons in Hl as (Hn & Hr & Hl). rewrite sapp_cons. cbn [splitlines].
  rewrite (bool_decide_eq_false_2 _ Hn), (bool_decide_eq_false_2 _ Hr). by rewrite IH.
Qed.

Lemma rfind_newline_none s : no_ctl s = true -> rfind_newline s = -1.
Proof.
  induction s as [|c s IH]; intros Hs; [done|]. apply no_ctl_cons in Hs as (Hn & _ & Hs).
  cbn [rfind_newline]. rewrite IH by done. by rewrite (bool_decide_eq_false_2 _ Hn).
Qed.

Lemma ends_with_newline_cons c d s :
  ends_with_newline (String c (String d s)) = ends_with_newline (String d s).
Proof. reflexivity. Qed.

Lemma rfind_newline_app s part :
  no_ctl part = true ->
  rfind_newline (s +:+ part) =
    if ends_with_newline s then Z.of_nat (String.length s) - 1 else rfind_newline s.
Proof.
  intros Hp. induction s as [|c s IH]; [by apply rfind_newline_none|].
  rewrite sapp_cons. cbn [rfind_newline]. rewrite IH. destruct s as [|d s].
  - cbn. by destruct (bool_decide _).
  - rewrite ends_with_newline_cons. destruct (ends_with_newline (String d s)); [|done].
    rewrite (proj2 (Z.leb_le _ _)); simpl String.length; lia.
Qed.

Lemma ends_with_newline_app s t :
  t <> "" -> ends_with_newline (s +:+ t) = ends_with_newline t.
Proof.
  intros Ht. induction s as [|c s IH]; [done|]. rewrite sapp_cons.
  destruct (s +:+ t) eqn:H; [|by rewrite ends_with_newline_cons].
  destruct s; [by rewrite sapp_nil_l in H|done].
Qed.

Lemma no_ctl_ends s : no_ctl s = true -> ends_with_newline s = false.
Proof.
  induction s as [|c s IH]; intros H; [done|]. apply no_ctl_cons in H as (Hn & _ & H).
  cbn [ends_with_newline]. destruct s; [by apply bool_decide_eq_false_2|auto].
Qed.

(** * The text of a journal *)

Definition journal_text (records : list dict) : string :=
  foldr (fun r s => record_line r +:+ s) "" records.

Definition records_ok (records : list dict) : Prop :=
  Forall (fun r => json_ok (PDict r) = true) records.

Lemma envelope_text_line r : json_ok (PDict r) = true -> no_ctl (envelope_text r) = true.
Proof. intros H. by apply canonical_bytes_line, checked_envelope_ok. Qed.

Lemma envelope_text_nonempty r : json_ok (PDict r) = true -> envelope_text r <> "".
Proof.
  intros H He. destruct (loads_envelope r H) as (v & Hv & _). rewrite He in Hv. by vm_compute in Hv.
Qed.

Lemma journal_text_app rs rs' : journal_text (rs ++ rs') = journal_text rs +:+ journal_text rs'.
Proof. induction rs as [|r rs IH]; [done|]. simpl. by rewrite IH, sapp_assoc. Qed.

Lemma splitlines_journal rs :
  records_ok rs -> splitlines (journal_text rs) = envelope_text <$> rs.
Proof.
  induction 1 as [|r rs Hr _ IH]; [done|]. simpl. unfold record_line. rewrite sapp_assoc.
  by rewrite splitlines_line, IH by (by apply envelope_text_line).
Qed.

Lemma journal_text_ends rs : rs <> [] -> ends_with_newline (journal_text rs) = true.
Proof.
  intros Hne. destruct rs as [|r rs] using rev_ind; [done|]. clear IHrs.
  rewrite journal_text_app. simpl. unfold record_line. rewrite sapp_nil_r, <- sapp_assoc.
  by rewrite ends_with_newline_app.
Qed.

(** Loading a record's line is replaying the record, keys sorted. *)
Definition replay (j : t) (r : dict) : res t := load_record j (sorted_payload r).

Lemma load_line_record j r :
  json_ok (PDict r) = true -> load_line j (envelope_text r) = replay j r.
Proof.
  intros H. unfold load_line. rewrite bool_decide_eq_false_2 by (by apply envelope_text_nonempty).
  destruct (loads_envelope r H) as (v & -> & Hv). cbn [mbind res_bind]. by rewrite Hv.
Qed.

Lemma for_fold_fmap {A B C} (f : B -> C -> res B) (g : A -> C) acc l :
  for_fold f acc (g <$> l) = for_fold (fun b a => f b (g a)) acc l.
Proof. revert acc; induction l as [|x l IH]; intros acc; [done|]. cbn. destruct (f acc (g x)); cbn; auto. Qed.

Lemma load_journal j rs :
  records_ok rs -> for_fold load_line j (splitlines (journal_text rs)) = for_fold replay j rs.
Proof.
  intros H. rewrite splitlines_journal, for_fold_fmap by done.
  revert j; induction H as [|r rs Hr _ IH]; intros j; [done|]. cbn [for_fold].
  rewrite load_line_record by done. destruct (replay j r); cbn; auto.
Qed.

(** Records do not touch the file. *)
Lemma load_record_path j f r :
  load_record (set_path f j) r = set_path f <$> load_record j r.
Proof.
  unfold load_record. destruct j as [p pr co sn]; cbn [prepared committed snapshot_index path
    set_path set_prepared set_committed set_snapshot_index].
  repeat match goal with
    | |- (if ?c then _ else _) = _ => destruct c
    | |- (?m ≫= _) = _ => destruct m; cbn [mbind res_bind]
    end; done.
Qed.

Lemma load_line_path j f line :
  load_line (set_path f j) line = set_path f <$> load_line j line.
Proof.
  unfold load_line. destruct (bool_decide _); [done|].
  destruct (try_except _ _ _) as [[v payload]|]; [|done]. apply load_record_path.
Qed.

Lemma load_lines_path j f lines :
  for_fold load_line (set_path f j) lines = set_path f <$> for_fold load_line j lines.
Proof.
  revert j; induction lines as [|line lines IH]; intros j; [done|].
  cbn [for_fold]. rewrite load_line_path. destruct (load_line j line); cbn; auto.
Qed.

Definition empty : t := Mk None ∅ ∅ 0.
Definition tables (j : t) : t := set_path None j.

(** What a journal comes back as: the same tables, mutations with sorted keys. *)
Definition reloaded (j : t) : t := set_prepared (sorted <$> prepared j) j.

Definition file_text (f : option file) : string :=
  match f with Some f => content f | None => "" end.

(** The file holds the records of the tables. *)
Definition consistent (j : t) : Prop :=
  exists records, records_ok records /\ file_text (path j) = journal_text records /\
    durable (path j) /\ for_fold replay empty records = Ok (tables (reloaded j)).

(** Loading a file with complete records and a torn one. *)
Lemma load_torn f records part :
  records_ok records -> no_ctl part = true ->
  content f = journal_text records +:+ part ->
  open (Some f) =
    (j ← for_fold replay empty records;
     Ok (set_path (Some (if bool_decide (part = "") then f
                         else fsync (File (journal_text records)
                                (Nat.min (String.length (journal_text records)) (synced f))))) j)).
Proof.
  intros Hr Hp Hf. unfold open, _load. cbn [path exists_file negb read_bytes mbind res_bind].
  rewrite Hf. destruct (bool_decide (part = "")) eqn:Hpart; inv_py.
  - subst part. rewrite sapp_nil_r in *.
    replace (negb (bool_decide (journal_text records = "")) && _) with false.
    2:{ destruct records as [|r rs]; [done|]. by rewrite journal_text_ends, andb_false_r. }
    change (Mk (Some f) ∅ ∅ 0) with (set_path (Some f) empty).
    rewrite load_lines_path, load_journal by done.
    by destruct (for_fold replay empty records).
  - rewrite ends_with_newline_app, no_ctl_ends, andb_true_r by done.
    rewrite bool_decide_eq_false_2 by (by destruct (journal_text records)).
    cbn [negb]. rewrite rfind_newline_app by done.
    assert (Z.to_nat ((if ends_with_newline (journal_text records)
        then Z.of_nat (String.length (journal_text records)) - 1
        else rfind_newline (journal_text records)) + 1) =
      String.length (journal_text records)) as ->.
    { destruct records as [|r rs]; [done|]. rewrite journal_text_ends by done. lia. }
    rewrite stake_app.
    change (Mk (Some f) ∅ ∅ 0) with (set_path (Some f) empty).
    rewrite load_lines_path, load_journal by done.
    destruct (for_fold replay empty records) as [j|]; [|done]. cbn.
    unfold truncate. by rewrite Hf, stake_app.
Qed.

(** Reopening a consistent journal gives its tables back. *)
Lemma open_consistent j : consistent j -> open (path j) = Ok (reloaded j).
Proof.
  intros (rs & Hr & Ht & Hd & Hf). destruct j as [[f|] pr co sn]; cbn [path] in *.
  - rewrite (load_torn f rs ""); [|done|done|by rewrite sapp_nil_r]. by rewrite Hf.
  - destruct rs as [|r rs].
    + cbn in Hf. injection Hf as Hp <- <-. unfold open, _load, reloaded, set_prepared; cbn.
      by rewrite <- Hp.
    + exfalso. cbn in Ht. unfold record_line in Ht.
      apply (f_equal String.length) in Ht. rewrite !slength_app in Ht. simpl in Ht. lia.
Qed.

(** A crash while [r] is appended: the file reopens to the tables from before
    or to those with the record. *)
Lemma crash_open j r f' :
  consistent j -> json_ok (PDict r) = true -> is_ok (replay (reloaded j) r) = true ->
  crash (Some (write (record_line r) (open_append (path j)))) (Some f') ->
  exists j', open (Some f') = Ok j' /\ durable (path j') /\
    ((file_text (path j') = file_text (path j) /\ tables j' = tables (reloaded j)) \/
     (file_text (path j') = file_text (path j) +:+ record_line r /\
      Ok (tables j') = (tables <$> replay (reloaded j) r))).
Proof.
  intros (rs & Hr & Ht & Hd & Hf) Hok Hrep Hc.
  apply crash_append in Hc as (part & lost & Hpart & Hcont & Hd'); [|by destruct (path j)].
  assert (content (open_append (path j)) = journal_text rs) as Hcj by (by destruct (path j)).
  rewrite Hcj in Hcont.
  destruct (decide (lost = "")) as [->|Hlost].
  - rewrite sapp_nil_r in Hpart. subst part.
    assert (content f' = journal_text (rs ++ [r]) +:+ "") as Hcont'.
    { rewrite Hcont, journal_text_app. simpl. by rewrite !sapp_nil_r. }
    rewrite (load_torn f' (rs ++ [r]) ""); [|by apply Forall_app_2; [|constructor]|done|done].
    rewrite for_fold_app, Hf. cbn [mbind res_bind for_fold].
    unfold tables at 1, replay. rewrite load_record_path. fold (replay (reloaded j) r).
    destruct (replay (reloaded j) r) as [j'|] eqn:Hj'; [|done]. cbn.
    change (bool_decide ("" = "")) with true. eexists. split; [done|]. cbn.
    split; [done|]. right. split; [|by destruct j'].
    by rewrite Hcont, Ht.
  - assert (no_ctl part = true) as Hctl.
    { unfold record_line, nl in Hpart.
      destruct (sapp_split part lost (envelope_text r) nl) as (e & He & _); [done| |].
      - apply (f_equal String.length) in Hpart. rewrite !slength_app in Hpart.
        destruct lost; [done|]. cbn [String.length] in Hpart. lia.
      - pose proof (envelope_text_line r Hok) as Hl. rewrite He, no_ctl_app in Hl.
        by apply andb_true_iff in Hl as [? _]. }
    rewrite (load_torn f' rs part) by done. rewrite Hf. cbn [mbind res_bind].
    eexists. split; [done|]. case_bool_decide as Hpe; cbn.
    + split; [done|]. left. split; [|done]. by rewrite Hcont, Ht, Hpe, sapp_nil_r.
    + split; [done|]. by left.
Qed.

(** * What each record does when replayed *)

Lemma kind_sorted r kind :
  NoDup r.*1 -> dict_get r "kind" = Some (PStr kind) ->
  dict_get_or (sorted_payload r) "kind" PNone = PStr kind.
Proof. intros Hnd Hk. unfold dict_get_or, sorted_payload. by rewrite dict_get_sorted, Hk. Qed.

Lemma record_NoDup (a b : string) (v w : pyval) : a <> b -> NoDup [(a, v); (b, w)].*1.
Proof. intros H. cbn. apply NoDup_cons. split; [|apply NoDup_singleton]. by rewrite list_elem_of_singleton. Qed.

Lemma replay_prepare j e :
  ReplicatedEntry.validate e = Ok tt -> storable e ->
  prepared j !! ReplicatedEntry.index e = None ->
  replay j (prepare_record e) =
    Ok (set_prepared (<[ReplicatedEntry.index e := sorted e]> (prepared j)) j).
Proof.
  intros Hv Hs Hn. assert (NoDup (prepare_record e).*1) as Hnd by (by apply record_NoDup).
  unfold replay, load_record. rewrite (kind_sorted _ "prepare") by done.
  unfold sorted_payload. rewrite keys_are_sorted.
  change (keys_are (prepare_record e) PREPARE_RECORD_FIELDS) with true.
  cbn [py_eq num_eq negb raise_if mbind res_bind].
  unfold dict_item. rewrite dict_get_sorted by done.
  change (dict_get (prepare_record e) "entry") with (Some (PDict (ReplicatedEntry.asdict e))).
  cbn [fmap option_fmap option_map mbind res_bind]. rewrite from_stored by done.
  cbn [mbind res_bind]. change (ReplicatedEntry.index (sorted e)) with (ReplicatedEntry.index e).
  by rewrite Hn.
Qed.

Lemma replay_commit j i :
  is_Some (prepared j !! i) ->
  replay j (commit_record i) = Ok (set_committed ({[i]} ∪ committed j) j).
Proof.
  intros Hi. assert (NoDup (commit_record i).*1) as Hnd by (by apply record_NoDup).
  unfold replay, load_record. rewrite (kind_sorted _ "commit") by done.
  change (py_eq (PStr "commit") (PStr "prepare")) with false.
  change (py_eq (PStr "commit") (PStr "commit")) with true.
  unfold sorted_payload. rewrite keys_are_sorted.
  change (keys_are (commit_record i) INDEX_RECORD_FIELDS) with true.
  unfold dict_item. rewrite dict_get_sorted by done.
  change (dict_get (commit_record i) "index") with (Some (PInt i)).
  cbn [fmap option_fmap option_map mbind res_bind _exact_int sort_keys negb raise_if].
  by rewrite (bool_decide_eq_true_2 _ Hi).
Qed.

Lemma replay_snapshot j i :
  replay j (snapshot_record i) = Ok (set_snapshot_index (Z.max (snapshot_index j) i) j).
Proof.
  assert (NoDup (snapshot_record i).*1) as Hnd by (by apply record_NoDup).
  unfold replay, load_record. rewrite (kind_sorted _ "snapshot") by done.
  change (py_eq (PStr "snapshot") (PStr "prepare")) with false.
  change (py_eq (PStr "snapshot") (PStr "commit")) with false.
  change (py_eq (PStr "snapshot") (PStr "snapshot")) with true.
  unfold sorted_payload. rewrite keys_are_sorted.
  change (keys_are (snapshot_record i) INDEX_RECORD_FIELDS) with true.
  unfold dict_item. rewrite dict_get_sorted by done.
  by change (dict_get (snapshot_record i) "index") with (Some (PInt i)).
Qed.

Lemma prepare_record_ok e :
  ReplicatedEntry.validate e = Ok tt -> storable e -> json_ok (PDict (prepare_record e)) = true.
Proof.
  intros Hv Hs. pose proof (asdict_json_ok e Hv Hs) as H. unfold prepare_record.
  cbn [json_ok forallb]. cbn [json_ok] in H. by rewrite H.
Qed.

Lemma index_record_ok kind i :
  utf8_valid kind = true -> int_ok i = true ->
  json_ok (PDict [("kind", PStr kind); ("index", PInt i)]) = true.
Proof. intros Hk Hi. cbn [json_ok forallb]. by rewrite Hk, Hi. Qed.

(** * The operations keep the file and the tables in step *)

Lemma consistent_append j r j' :
  consistent j -> json_ok (PDict r) = true ->
  replay (reloaded j) r = Ok (set_path (path j) (reloaded j')) ->
  path j' = Some (_append r (path j)) -> consistent j'.
Proof.
  intros (rs & Hr & Ht & Hd & Hf) Hok Hrep Hp. exists (rs ++ [r]).
  split_and!.
  - apply Forall_app_2; [done|by constructor].
  - rewrite Hp, journal_text_app. cbn. rewrite sapp_nil_r, <- Ht. by destruct (path j).
  - by rewrite Hp.
  - rewrite for_fold_app, Hf. cbn [mbind res_bind for_fold].
    unfold tables at 1, replay. rewrite load_record_path. fold (replay (reloaded j) r).
    rewrite Hrep. by destruct j'.
Qed.

(** What the tables of a journal satisfy. *)
Definition wf (j : t) : Prop :=
  map_Forall (fun i e => ReplicatedEntry.index e = i /\ ReplicatedEntry.validate e = Ok tt)
    (prepared j) /\
  forall i, i ∈ committed j -> is_Some (prepared j !! i).

Lemma wf_empty f : wf (Mk f ∅ ∅ 0).
Proof. split; [apply map_Forall_empty|set_solver]. Qed.

Lemma wf_load_record j r j' : wf j -> load_record j r = Ok j' -> wf j'.
Proof.
  intros [Hp Hc] H. unfold load_record in H.
  destruct (py_eq _ (PStr "prepare")); [|destruct (py_eq _ (PStr "commit"));
    [|destruct (py_eq _ (PStr "snapshot")); [|done]]]; inv_py.
  - match goal with H : ReplicatedEntry.from_dict _ = Ok ?e |- _ =>
      apply from_dict_Ok in H as [Hv _]; rename e into entry end.
    split; cbn.
    + apply map_Forall_insert_2; done.
    + intros i Hi. apply lookup_insert_is_Some'. right. auto.
  - split; cbn; [done|]. intros i [->%elem_of_singleton|Hi]%elem_of_union; auto.
  - by split.
Qed.

Lemma wf_load_lines j lines j' : wf j -> for_fold load_line j lines = Ok j' -> wf j'.
Proof.
  revert j; induction lines as [|line lines IH]; intros j Hj H; cbn [for_fold] in H; [by inv_ok|].
  apply bind_Ok in H as (j1 & H1 & H). eapply IH; [|done]. unfold load_line in H1.
  destruct (bool_decide _); [by inv_ok|]. apply bind_Ok in H1 as ([v payload] & _ & H1).
  by eapply wf_load_record.
Qed.

(** Whatever the file held, a journal that opens has valid entries under their
    own index and commits only what is prepared. *)
Lemma open_wf f j : open f = Ok j -> wf j.
Proof.
  unfold open, _load. destruct f as [f|]; [|intros [= <-]; apply wf_empty].
  cbn [path exists_file negb read_bytes mbind res_bind]. intros H.
  apply bind_Ok in H as (j1 & Hj1 & H). apply wf_load_lines in Hj1; [|apply wf_empty].
  by destruct (_ && _); inv_ok; subst.
Qed.

(** The indexes a journal reads from its file have at most 4300 digits. *)
Definition short_indexes (j : t) : Prop := map_Forall (fun i _ => int_ok i = true) (prepared j).

Lemma short_load_record j r j' :
  ints_small (PDict r) = true -> short_indexes j -> load_record j r = Ok j' -> short_indexes j'.
Proof.
  intros Hr Hj H. unfold load_record in H.
  destruct (py_eq _ (PStr "prepare")); [|destruct (py_eq _ (PStr "commit"));
    [|destruct (py_eq _ (PStr "snapshot")); [|done]]]; inv_py; try done.
  match goal with H : ReplicatedEntry.from_dict _ = Ok ?e |- _ =>
    apply from_dict_Ok in H as (_ & d & -> & _ & Hd); rename e into entry end.
  apply map_Forall_insert_2; [|done].
  specialize (Hd "index"). change (dict_get (ReplicatedEntry.asdict entry) "index") with
    (Some (PInt (ReplicatedEntry.index entry))) in Hd.
  match goal with H : dict_get r _ = Some (PDict d) |- _ => apply dict_get_small in H; [|done] end.
  by apply (dict_get_small d "index" (PInt (ReplicatedEntry.index entry))).
Qed.

Lemma short_load_line j line j' : short_indexes j -> load_line j line = Ok j' -> short_indexes j'.
Proof.
  intros Hj. unfold load_line. destruct (bool_decide _); [by intros [= <-]|]. intros H.
  apply bind_Ok in H as ([version payload] & Hd & H). eapply short_load_record; [|done|done].
  destruct (loads line) as [value|e] eqn:Hl; cbn [mbind res_bind try_except] in Hd;
    [|by case_match].
  destruct (_decode_envelope_versioned value) as [[v p]|e] eqn:He; cbn in Hd; [|by case_match].
  injection Hd as <- <-. apply decode_envelope_spec in He as (d & -> & _ & _ & _ & Hp & _).
  apply loads_small in Hl. by eapply dict_get_small.
Qed.

Lemma open_short f j : open f = Ok j -> short_indexes j.
Proof.
  assert (forall lines j j', short_indexes j -> for_fold load_line j lines = Ok j' ->
    short_indexes j') as Hlines.
  { induction lines as [|line lines IH]; intros j1 j2 H1 H2; cbn [for_fold] in H2; [by inv_ok|].
    apply bind_Ok in H2 as (j3 & H3 & H2). eapply IH; [|done]. by eapply short_load_line. }
  unfold open, _load. destruct f as [f|]; [|intros [= <-]; apply map_Forall_empty].
  cbn [path exists_file negb read_bytes mbind res_bind]. intros H.
  apply bind_Ok in H as (j1 & Hj1 & H). apply Hlines in Hj1; [|apply map_Forall_empty].
  by destruct (_ && _); inv_ok; subst.
Qed.

Lemma sorted_committed_lt j : StronglySorted Z.lt (sorted_committed j).
Proof.
  assert (sorted_by Z.leb (sorted_committed j)) as Hs.
  { apply (isort_sorted _ (fun _ => True)); [lia|lia|by apply Forall_forall]. }
  assert (NoDup (sorted_committed j)) as Hnd.
  { unfold sorted_committed. rewrite isort_perm. apply NoDup_elements. }
  unfold sorted_by in Hs. induction Hs as [|x l Hs IH Hx]; [constructor|].
  apply NoDup_cons in Hnd as [Hxl Hnd]. constructor; [auto|].
  rewrite Forall_forall in *. intros y Hy. specialize (Hx y Hy). apply Z.leb_le in Hx.
  assert (x <> y) by congruence. lia.
Qed.

Lemma StronglySorted_filter {A} (R : A -> A -> Prop) (P : A -> Prop) `{forall x, Decision (P x)} l :
  StronglySorted R l -> StronglySorted R (filter P l).
Proof.
  induction 1 as [|x l Hs IH Hx]; [constructor|]. rewrite filter_cons.
  case_decide; [|done]. constructor; [done|]. apply Forall_forall.
  intros y [_ Hy]%list_elem_of_filter. rewrite Forall_forall in Hx. auto.
Qed.

(** The entries a journal replays: the committed ones above the index, in order. *)
Lemma committed_after_spec j i :
  wf j ->
  exists l, committed_after j i = Ok l /\
    StronglySorted Z.lt (ReplicatedEntry.index <$> l) /\
    forall e, e ∈ l <->
      i < ReplicatedEntry.index e /\ ReplicatedEntry.index e ∈ committed j /\
      prepared j !! ReplicatedEntry.index e = Some e.
Proof.
  intros [Hp Hc]. unfold committed_after.
  set (items := filter (fun item => i < item) (sorted_committed j)).
  assert (StronglySorted Z.lt items) as Hs by (apply StronglySorted_filter, sorted_committed_lt).
  assert (forall k, k ∈ items <-> i < k /\ k ∈ committed j) as Hin.
  { intros k. unfold items, sorted_committed. by rewrite list_elem_of_filter, isort_elem_of, elem_of_elements. }
  assert (Forall (fun k => is_Some (prepared j !! k)) items) as Hsome.
  { apply Forall_forall. intros k [_ Hk]%Hin. auto. }
  clearbody items.
  assert (exists l, map_res (fun item => match prepared j !! item with
      | Some entry => Ok entry | None => raise KeyError (int_repr item) end) items = Ok l /\
      Forall2 (fun k e => prepared j !! k = Some e) items l) as (l & Hl & HF).
  { clear -Hsome. induction Hsome as [|k l [e He] _ (l' & IH & HF)]; [by exists []|].
    exists (e :: l'). cbn [map_res]. rewrite He. cbn [mbind res_bind]. rewrite IH.
    split; [done|by constructor]. }
  exists l. split; [done|].
  assert (ReplicatedEntry.index <$> l = items) as Hidx.
  { clear -HF Hp. induction HF as [|k e ks es Hk _ IH]; [done|]. cbn. f_equal; [|done].
    by destruct (Hp k e Hk). }
  split; [by rewrite Hidx|]. intros e. split.
  - intros He. apply (list_elem_of_fmap_2 ReplicatedEntry.index) in He as Hk.
    rewrite Hidx in Hk. apply Hin in Hk as [? ?]. split_and!; [done|done|].
    apply list_elem_of_lookup in He as [n He]. rewrite Forall2_lookup in HF.
    specialize (HF n). rewrite He in HF. inversion HF as [k ? Hk|]; subst.
    destruct (Hp k e Hk) as [-> _]. done.
  - intros (Hlt & Hcom & He). assert (ReplicatedEntry.index e ∈ items) as Hk by (by apply Hin).
    apply list_elem_of_lookup in Hk as [n Hn]. rewrite Forall2_lookup in HF.
    specialize (HF n). rewrite Hn in HF. inversion HF as [? e' He'|]; subst.
    apply list_elem_of_lookup. exists n. congruence.
Qed.

(** * The invariant and its preservation *)

Record inv (j : t) : Prop := {
  inv_consistent : consistent j;
  inv_wf : wf j;
  inv_storable : map_Forall (fun _ e => storable e) (prepared j);
  inv_snapshot : 0 <= snapshot_index j }.

Lemma sorted_idemp e : sorted (sorted e) = sorted e.
Proof.
  unfold sorted; cbn. f_equal.
  pose proof (sort_keys_idemp (PDict (ReplicatedEntry.mutation e))) as H.
  rewrite !sort_keys_dict in H. by injection H.
Qed.

Lemma storable_sorted e : storable e -> storable (sorted e).
Proof.
  intros (? & ? & ? & ? & ? & Hm). unfold storable; cbn [sorted ReplicatedEntry.shard_id
    ReplicatedEntry.term ReplicatedEntry.placement_epoch ReplicatedEntry.index
    ReplicatedEntry.request_id ReplicatedEntry.mutation]. split_and!; try done.
  apply json_ok_sort_keys in Hm. by rewrite sort_keys_dict in Hm.
Qed.

Lemma reloaded_idemp j : reloaded (reloaded j) = reloaded j.
Proof.
  destruct j as [p pr co sn]. unfold reloaded, set_prepared; cbn. f_equal.
  rewrite <- map_fmap_compose. apply map_fmap_ext. intros i e _. apply sorted_idemp.
Qed.

(** Tables equal to reloaded ones satisfy the invariant when the file is the
    one they were loaded from. *)
Lemma inv_reloaded j f :
  inv j -> durable f -> file_text f = file_text (path j) -> inv (set_path f (reloaded j)).
Proof.
  intros [(rs & Hr & Ht & Hd & Hf) [Hwf Hc] Hst Hsn] Hdur Htext. split.
  - exists rs. cbn. split_and!; [done|by rewrite Htext|done|]. rewrite Hf.
    f_equal. transitivity (tables (reloaded (reloaded j))); [by rewrite reloaded_idemp|done].
  - split; cbn.
    + apply map_Forall_fmap. intros i e He. cbn.
      destruct (Hwf i e He) as [? Hv]. split; [done|]. apply validate_sorted; [|done]. by eapply Hst.
    + intros i [e He]%Hc. exists (sorted e). by rewrite lookup_fmap, He.
  - cbn. apply map_Forall_fmap. intros i e He. apply storable_sorted. by eapply Hst.
  - done.
Qed.

Lemma inv_open j j' : inv j -> open (path j) = Ok j' -> inv j'.
Proof.
  intros Hinv. rewrite open_consistent by apply Hinv. intros [= <-].
  replace (reloaded j) with (set_path (path j) (reloaded j)) by done.
  apply inv_reloaded; [done| |done]. by destruct Hinv as [(rs & _ & _ & Hd & _)].
Qed.

Lemma inv_fresh j : open None = Ok j -> inv j.
Proof.
  intros [= <-]. split; [|apply wf_empty|apply map_Forall_empty|done].
  exists []. by split_and!; [constructor| | |].
Qed.

(** [prepare]: its outcome in every case. *)
Lemma prepare_spec e j :
  match ReplicatedEntry.validate e with
  | Raise err => prepare e j = (Raise err, j)
  | Ok _ =>
      match prepared j !! ReplicatedEntry.index e with
      | Some e0 =>
          prepare e j =
            (if ReplicatedEntry.mutation_checksum e0 =? ReplicatedEntry.mutation_checksum e
             then Ok tt
             else Raise (Exn ProtocolError "conflicting duplicate replicated entry"), j)
      | None =>
          prepare e j =
            (Ok tt, set_prepared (<[ReplicatedEntry.index e := e]> (prepared j))
                      (set_path (Some (_append (prepare_record e) (path j))) j))
      end
  end.
Proof.
  unfold prepare. cbv [mbind M_bind lift get_state modify].
  destruct (ReplicatedEntry.validate e) as [u|err] eqn:Hv; [|done].
  destruct (prepared j !! _) as [e0|] eqn:He.
  - by destruct (_ =? _).
  - unfold ReplicatedEntry.to_dict. by rewrite Hv.
Qed.

Lemma prepare_inv e j r j' : inv j -> storable e -> prepare e j = (r, j') -> inv j'.
Proof.
  intros Hinv Hs Hp. pose proof (prepare_spec e j) as Hspec.
  destruct (ReplicatedEntry.validate e) as [[]|err] eqn:Hv; [|congruence].
  destruct (prepared j !! _) as [e0|] eqn:He; [by congruence|].
  rewrite Hspec in Hp. injection Hp as _ <-. destruct Hinv as [Hcons [Hwf Hc] Hst Hsn].
  split; [| | |done].
  - eapply consistent_append; [exact Hcons|by apply prepare_record_ok| |done].
    rewrite replay_prepare; [|done|done|by cbn; rewrite lookup_fmap, He].
    unfold reloaded; cbn. by rewrite fmap_insert.
  - split; cbn; [by apply map_Forall_insert_2|].
    intros i Hi. apply lookup_insert_is_Some'. right. auto.
  - cbn. by apply map_Forall_insert_2.
Qed.

(** [commit]: its outcome in every case. *)
Lemma commit_spec i j :
  commit i j =
    match prepared j !! i with
    | None => (Raise (Exn ProtocolError "cannot commit an unprepared entry"), j)
    | Some e =>
        (Ok e, if bool_decide (i ∈ committed j) then j
               else set_committed ({[i]} ∪ committed j)
                      (set_path (Some (_append (commit_record i) (path j))) j))
    end.
Proof.
  unfold commit. cbv [mbind M_bind lift get_state modify].
  destruct (prepared j !! i); [|done]. by destruct (bool_decide _).
Qed.

Lemma commit_inv i j r j' : inv j -> commit i j = (r, j') -> inv j'.
Proof.
  intros Hinv. rewrite commit_spec. destruct (prepared j !! i) as [e|] eqn:He; [|congruence].
  intros [= _ <-]. case_bool_decide as Hi; [done|]. destruct Hinv as [Hcons [Hwf Hc] Hst Hsn].
  destruct (Hwf i e He) as [Hidx _]. destruct (Hst i e He) as (_ & _ & _ & Hint & _).
  rewrite Hidx in Hint. split; [|split; cbn; [done|]|done|done].
  - apply (consistent_append j (commit_record i)); [done|by apply index_record_ok| |done].
    rewrite replay_commit; [done|]. cbn. rewrite lookup_fmap, He. by eexists.
  - intros k [->%elem_of_singleton|Hk]%elem_of_union; [by eexists|auto].
Qed.

(** [install_snapshot]: its outcome in every case. *)
Lemma install_snapshot_spec i j :
  install_snapshot i j =
    if i <? snapshot_index j
    then (Raise (Exn ProtocolError "snapshot index regression"), j)
    else (Ok tt, set_snapshot_index i
                   (set_path (Some (_append (snapshot_record i) (path j))) j)).
Proof. unfold install_snapshot. cbv [mbind M_bind lift get_state modify]. by destruct (_ <? _). Qed.

Lemma install_snapshot_inv i j r j' :
  inv j -> int_ok i = true -> install_snapshot i j = (r, j') -> inv j'.
Proof.
  intros Hinv Hi. rewrite install_snapshot_spec. destruct (i <? snapshot_index j) eqn:Hlt; [congruence|].
  intros [= _ <-]. inv_py. destruct Hinv as [Hcons [Hwf Hc] Hst Hsn].
  split; [|by split|done|cbn; lia].
  apply (consistent_append j (snapshot_record i)); [done|by apply index_record_ok| |done].
  rewrite replay_snapshot. cbn. by rewrite Z.max_r by lia.
Qed.

(** An operation that appends a record, with the record and the state after it. *)
Inductive appends (j : t) : dict -> t -> Prop :=
| appends_prepare e j' :
    storable e -> prepared j !! ReplicatedEntry.index e = None ->
    prepare e j = (Ok tt, j') -> appends j (prepare_record e) j'
| appends_commit i e j' :
    i ∉ committed j -> commit i j = (Ok e, j') -> appends j (commit_record i) j'
| appends_snapshot i j' :
    int_ok i = true -> install_snapshot i j = (Ok tt, j') -> appends j (snapshot_record i) j'.

Lemma appends_spec j r j' :
  inv j -> appends j r j' ->
  inv j' /\ json_ok (PDict r) = true /\ path j' = Some (_append r (path j)) /\
  replay (reloaded j) r = Ok (set_path (path j) (reloaded j')).
Proof.
  intros Hinv Ha. destruct Ha as [e j' Hs Hn Hp|i e j' Hn Hc|i j' Hi Hsn].
  - split; [by eapply prepare_inv|]. pose proof (prepare_spec e j) as Hspec.
    destruct (ReplicatedEntry.validate e) as [[]|err] eqn:Hv; [|congruence].
    rewrite Hn, Hp in Hspec. injection Hspec as ->. split_and!; [by apply prepare_record_ok|done|].
    rewrite replay_prepare; [|done|done|by cbn; rewrite lookup_fmap, Hn].
    unfold reloaded; cbn. by rewrite fmap_insert.
  - split; [by eapply commit_inv|]. rewrite commit_spec in Hc.
    destruct (prepared j !! i) as [e0|] eqn:He; [|done].
    rewrite bool_decide_eq_false_2 in Hc by done. injection Hc as -> <-.
    destruct Hinv as [_ [Hwf _] Hst _]. destruct (Hwf i e He) as [Hidx _].
    destruct (Hst i e He) as (_ & _ & _ & Hint & _). rewrite Hidx in Hint.
    split_and!; [by apply index_record_ok|done|].
    rewrite replay_commit; [done|]. cbn. rewrite lookup_fmap, He. by eexists.
  - split; [by eapply install_snapshot_inv|]. rewrite install_snapshot_spec in Hsn.
    destruct (i <? snapshot_index j) eqn:Hlt; [done|]. injection Hsn as <-. inv_py.
    split_and!; [by apply index_record_ok|done|]. rewrite replay_snapshot.
    cbn. by rewrite Z.max_r by lia.
Qed.

(** One step of a journal's life: an operation, a restart, or a crash inside an
    append followed by a restart. *)
Inductive step : t -> t -> Prop :=
| step_prepare e j r j' : storable e -> prepare e j = (r, j') -> step j j'
| step_commit i j r j' : commit i j = (r, j') -> step j j'
| step_snapshot i j r j' : int_ok i = true -> install_snapshot i j = (r, j') -> step j j'
| step_restart j j' : open (path j) = Ok j' -> step j j'
| step_crash j r j1 f' j' :
    appends j r j1 -> crash (Some (write (record_line r) (open_append (path j)))) (Some f') ->
    open (Some f') = Ok j' -> step j j'.

(** A crash inside an append is atomic: the journal reopens as it would have
    before the operation or after it. *)
Lemma crash_atomic j r j1 f' :
  inv j -> appends j r j1 ->
  crash (Some (write (record_line r) (open_append (path j)))) (Some f') ->
  exists j', open (Some f') = Ok j' /\ inv j' /\
    (tables j' = tables (reloaded j) \/ tables j' = tables (reloaded j1)).
Proof.
  intros Hinv Ha Hc. pose proof (appends_spec j r j1 Hinv Ha) as (Hinv1 & Hok & Hpath & Hrep).
  destruct (crash_open j r f') as (j' & Hj' & Hd & Hcase);
    [apply Hinv|done|by rewrite Hrep|done|]. exists j'. split; [done|].
  destruct Hcase as [[Htext Htab]|[Htext Htab]].
  - split; [|by left]. replace j' with (set_path (path j') (reloaded j)); [by apply inv_reloaded|].
    destruct j', j; unfold tables, reloaded, set_path, set_prepared in *; cbn in *. by simplify_eq.
  - rewrite Hrep in Htab.
    assert (tables j' = tables (reloaded j1)) as Heq.
    { change (Ok (tables j') = Ok (tables (reloaded j1))) in Htab.
      exact (f_equal (fun m => match m with Ok j => j | Raise _ => j' end) Htab). }
    split; [|by right]. replace j' with (set_path (path j') (reloaded j1)).
    + apply inv_reloaded; [done|done|]. rewrite Htext, Hpath. by destruct (path j).
    + clear -Heq. destruct j', j1; unfold tables, reloaded, set_path, set_prepared in *; cbn in *.
      by simplify_eq.
Qed.

(** What an operation has acknowledged: the prepared entries, in their stored
    form, and the committed indexes. *)
Definition keeps (j j' : t) : Prop :=
  (sorted <$> prepared j) ⊆ (sorted <$> prepared j') /\ committed j ⊆ committed j' /\
  snapshot_index j <= snapshot_index j'.

#[export] Instance keeps_preorder : PreOrder keeps.
Proof.
  split.
  - intros j. by split_and!.
  - intros j1 j2 j3 (? & ? & ?) (? & ? & ?). split_and!; [by etrans|by etrans|lia].
Qed.

Lemma keeps_tables j j' : tables j' = tables (reloaded j) -> keeps j j'.
Proof.
  intros H. destruct j, j'; unfold tables, reloaded, set_path, set_prepared in H; cbn in H.
  simplify_eq. unfold keeps; cbn. split_and!; [|done|lia].
  match goal with |- ?a ⊆ ?b => assert (a = b) as <-; [|reflexivity] end.
  rewrite <- map_fmap_compose. apply map_fmap_ext. intros i e _. cbn. by rewrite sorted_idemp.
Qed.

Lemma appends_keeps j r j' : appends j r j' -> keeps j j'.
Proof.
  intros Ha. destruct Ha as [e j' Hs Hn Hp|i e j' Hn Hc|i j' Hi Hsn].
  - pose proof (prepare_spec e j) as Hspec.
    destruct (ReplicatedEntry.validate e); [|congruence]. rewrite Hn, Hp in Hspec.
    injection Hspec as ->. split_and!; cbn; [|done|lia].
    rewrite fmap_insert. apply insert_subseteq. by rewrite lookup_fmap, Hn.
  - rewrite commit_spec in Hc. destruct (prepared j !! i); [|done].
    rewrite bool_decide_eq_false_2 in Hc by done. injection Hc as _ <-.
    split_and!; cbn; [done|set_solver|lia].
  - rewrite install_snapshot_spec in Hsn. destruct (i <? snapshot_index j) eqn:Hlt; [done|].
    injection Hsn as <-. inv_py. split_and!; cbn; [done|done|lia].
Qed.

(** ** Properties *)

Lemma step_inv j j' : inv j -> step j j' -> inv j'.
Proof.
  intros Hinv Hs. destruct Hs as [| | | |j r j1 f' j' Ha Hc Ho].
  - by eapply prepare_inv.
  - by eapply commit_inv.
  - by eapply install_snapshot_inv.
  - by eapply inv_open.
  - destruct (crash_atomic j r j1 f' Hinv Ha Hc) as (j2 & Hj2 & ? & _).
    by replace j' with j2 by congruence.
Qed.

Lemma reach_inv j0 j : open None = Ok j0 -> rtc step j0 j -> inv j.
Proof.
  intros H0%inv_fresh H. induction H as [|j0 j1 j2 Hs _ IH]; [done|].
  by apply IH, (step_inv j0).
Qed.

(** Nothing a journal has acknowledged is lost by any step, crashes included. *)
Lemma step_keeps j j' : inv j -> step j j' -> keeps j j'.
Proof.
  intros Hinv Hs. destruct Hs as [e j r j' Hs Hp|i j r j' Hc|i j r j' Hi Hsn|j j' Ho|j r j1 f' j' Ha Hc Ho].
  - pose proof (prepare_spec e j) as Hspec.
    destruct (ReplicatedEntry.validate e) as [[]|] eqn:Hv; [|replace j' with j by congruence; reflexivity].
    destruct (prepared j !! _) eqn:He; [replace j' with j by congruence; reflexivity|].
    eapply appends_keeps, (appends_prepare j e); [done|done|]. congruence.
  - destruct r as [e|]; [|rewrite commit_spec in Hc; destruct (prepared j !! i); simplify_eq; reflexivity].
    destruct (decide (i ∈ committed j)) as [Hin|Hin].
    + rewrite commit_spec in Hc. destruct (prepared j !! i); [|by simplify_eq].
      rewrite bool_decide_eq_true_2 in Hc by done. simplify_eq. reflexivity.
    + eapply appends_keeps. by eapply appends_commit.
  - rewrite install_snapshot_spec in Hsn. destruct (i <? snapshot_index j) eqn:Hlt; [simplify_eq; reflexivity|].
    eapply appends_keeps, (appends_snapshot j i); [done|].
    rewrite install_snapshot_spec, Hlt. by simplify_eq.
  - rewrite open_consistent in Ho by apply Hinv. injection Ho as <-. by apply keeps_tables.
  - destruct (crash_atomic j r j1 f' Hinv Ha Hc) as (j2 & Hj2 & _ & [Ht|Ht]);
      replace j' with j2 by congruence.
    + by apply keeps_tables.
    + etrans; [by eapply appends_keeps|]. by apply keeps_tables.
Qed.
