(* ===== verification/JournalSpec.v ===== *)
(** The abstract specification of the replica journal, an append-only log of
    entries, commit marks and a snapshot mark, and the simulation that the journal
    on its file implements it, through restarts and crashes. *)

From S2P Require Import Prelude PyFloat PyValue Json JsonFacts Checksum Envelope Files Mutation Journal JournalFacts.
Import EntryFacts ReplicaJournal.

(** What the journal promises to remember *)
Record log : Type := Log {
  entries : gmap Z ReplicatedEntry.t;
  marked : gset Z;
  installed : Z }.

Definition empty_log : log := Log ∅ ∅ 0.

(** An entry is written once, under its index; an entry that is written may be
    marked; the snapshot mark only rises. *)
Inductive log_step : log -> log -> Prop :=
| log_write e l :
    entries l !! ReplicatedEntry.index e = None -> ReplicatedEntry.validate e = Ok tt ->
    log_step l (Log (<[ReplicatedEntry.index e := e]> (entries l)) (marked l) (installed l))
| log_mark i l :
    is_Some (entries l !! i) -> i ∉ marked l ->
    log_step l (Log (entries l) ({[i]} ∪ marked l) (installed l))
| log_install i l : installed l <= i -> log_step l (Log (entries l) (marked l) i).

(** The log a journal stands for: entries as they are stored *)
Definition log_of (j : t) : log := Log (sorted <$> prepared j) (committed j) (snapshot_index j).

Lemma log_of_tables j j' : tables j' = tables (reloaded j) -> log_of j' = log_of j.
Proof.
  intros H. destruct j, j'; unfold tables, reloaded, set_path, set_prepared in H; cbn in H.
  simplify_eq. unfold log_of; cbn. f_equal. rewrite <- map_fmap_compose.
  apply map_fmap_ext. intros i e _. cbn. by rewrite sorted_idemp.
Qed.

(** An appended record is one step of the log. *)
Lemma appends_log_step j r j' : inv j -> appends j r j' -> log_step (log_of j) (log_of j').
Proof.
  intros Hinv Ha. destruct Ha as [e j' Hs Hn Hp|i e j' Hn Hc|i j' Hi Hsn].
  - pose proof (prepare_spec e j) as Hspec.
    destruct (ReplicatedEntry.validate e) as [[]|] eqn:Hv; [|congruence]. rewrite Hn, Hp in Hspec.
    injection Hspec as ->. unfold log_of; cbn. rewrite fmap_insert.
    apply (log_write (sorted e) (log_of j)); cbn.
    + by rewrite lookup_fmap, Hn.
    + by apply validate_sorted.
  - rewrite commit_spec in Hc. destruct (prepared j !! i) as [e0|] eqn:He; [|done].
    rewrite bool_decide_eq_false_2 in Hc by done. injection Hc as _ <-. unfold log_of; cbn.
    apply (log_mark i (log_of j)); [|done]. cbn. rewrite lookup_fmap, He. by eexists.
  - rewrite install_snapshot_spec in Hsn. destruct (i <? snapshot_index j) eqn:Hlt; [done|].
    injection Hsn as <-. inv_py. by apply (log_install i (log_of j)).
Qed.

(** Each step of the journal's life is a step of the log, or none. *)
Lemma step_simulates j j' : inv j -> step j j' -> log_of j' = log_of j \/ log_step (log_of j) (log_of j').
Proof.
  intros Hinv Hs. destruct Hs as [e j r j' Hs Hp|i j r j' Hc|i j r j' Hi Hsn|j j' Ho|j r j1 f' j' Ha Hc Ho].
  - pose proof (prepare_spec e j) as Hspec.
    destruct (ReplicatedEntry.validate e) as [[]|] eqn:Hv; [|left; congruence].
    destruct (prepared j !! _) eqn:He; [left; congruence|]. right.
    eapply appends_log_step; [done|]. eapply (appends_prepare j e); [done|done|]. congruence.
  - destruct r as [e|]; [|left; rewrite commit_spec in Hc; destruct (prepared j !! i); by simplify_eq].
    destruct (decide (i ∈ committed j)) as [Hin|Hin].
    + left. rewrite commit_spec in Hc. destruct (prepared j !! i); [|by simplify_eq].
      rewrite bool_decide_eq_true_2 in Hc by done. by simplify_eq.
    + right. eapply appends_log_step; [done|]. by eapply appends_commit.
  - rewrite install_snapshot_spec in Hsn. destruct (i <? snapshot_index j) eqn:Hlt; [left; by simplify_eq|].
    right. eapply appends_log_step; [done|]. eapply (appends_snapshot j i); [done|].
    rewrite install_snapshot_spec, Hlt. by simplify_eq.
  - left. rewrite open_consistent in Ho by apply Hinv. injection Ho as <-. by apply log_of_tables.
  - destruct (crash_atomic j r j1 f' Hinv Ha Hc) as (j2 & Hj2 & _ & [Ht|Ht]);
      replace j' with j2 by congruence.
    + left. by apply log_of_tables.
    + right. rewrite (log_of_tables _ _ Ht). by eapply appends_log_step.
Qed.

Lemma steps_simulate j j' : inv j -> rtc step j j' -> rtc log_step (log_of j) (log_of j').
Proof.
  intros Hinv H. induction H as [j|j j1 j2 Hs _ IH]; [reflexivity|].
  specialize (IH (step_inv _ _ Hinv Hs)).
  destruct (step_simulates _ _ Hinv Hs) as [<-|Hl]; [done|]. by eapply rtc_l.
Qed.
