(* ===== verification/Metadata.v ===== *)
(** Cluster metadata: [ShardPlacement] and [ClusterMetadata] of
    [python/akashadb/distributed/protocol.py], their validation, their payload
    and the published file. *)

From S2P Require Import Prelude Assoc PyFloat PyValue Json JsonFacts Checksum Envelope Files Models KernelConfig CollectionIdentity Journal.

Definition ROUTING_VERSION : Z := 2.
Definition LEGACY_ROUTING_VERSION : Z := 1.

Definition CLUSTER_METADATA_FIELDS_V1 : list string :=
  ["cluster_id"; "dimension"; "shard_count"; "replication_factor"; "epoch";
   "routing_version"; "members"; "shards"; "request_table"].
Definition CLUSTER_METADATA_FIELDS_V2 : list string :=
  CLUSTER_METADATA_FIELDS_V1 ++ ["collection_config"].
Definition SHARD_PLACEMENT_FIELDS : list string :=
  ["shard_id"; "term"; "placement_epoch"; "leader"; "replicas"; "last_log_index";
   "committed_index"].
Definition REQUEST_RECORD_FIELDS : list string :=
  ["shard_id"; "term"; "index"; "checksum"; "status"].

Module ShardPlacement.
Record t : Type := Mk {
  shard_id : Z;
  term : Z;
  placement_epoch : Z;
  leader : string;
  replicas : list string;
  last_log_index : Z;
  committed_index : Z }.

#[global] Instance t_eq_dec : EqDecision t.
Proof. solve_decision. Defined.

Definition quorum (p : t) : Z := Z.of_nat (length (replicas p)) / 2 + 1.

(** [asdict(placement)] *)
Definition asdict (p : t) : dict :=
  [("shard_id", PInt (shard_id p));
   ("term", PInt (term p));
   ("placement_epoch", PInt (placement_epoch p));
   ("leader", PStr (leader p));
   ("replicas", PList (PStr <$> replicas p));
   ("last_log_index", PInt (last_log_index p));
   ("committed_index", PInt (committed_index p))].
End ShardPlacement.

Module ClusterMetadata.
Record t : Type := Mk {
  cluster_id : string;
  dimension : Z;
  shard_count : Z;
  replication_factor : Z;
  epoch : Z;
  members : list (string * (string * Z));
  shards : list (Z * ShardPlacement.t);
  collection_config : dict;
  request_table : dict;
  routing_version : Z }.

Definition set_collection_config (c : dict) (m : t) : t :=
  Mk (cluster_id m) (dimension m) (shard_count m) (replication_factor m) (epoch m)
    (members m) (shards m) c (request_table m) (routing_version m).

(** [set(self.shards) != set(range(self.shard_count))], negated *)
Definition covers_shards (m : t) : bool :=
  forallb (fun kv => (0 <=? kv.1) && (kv.1 <? shard_count m)) (shards m) &&
  forallb (assoc_has (shards m)) (seqZ 0 (shard_count m)).

Definition check_member (m : string * (string * Z)) : res unit :=
  let '(node, (host, port)) := m in
  raise_if (bool_decide (node = "")) ProtocolError "invalid cluster member";;
  raise_if (bool_decide (host = "") || (port <=? 0) || (65535 <? port))
    ProtocolError "invalid cluster member address".

(** The loop over the placements, without the type tests the record types make. *)
Definition check_placement (members : list (string * (string * Z)))
    (kv : Z * ShardPlacement.t) : res unit :=
  let '(shard_id, placement) := kv in
  raise_if (negb (ShardPlacement.shard_id placement =? shard_id) ||
            (ShardPlacement.term placement <=? 0))
    ProtocolError "invalid shard placement identity";;
  raise_if (ShardPlacement.placement_epoch placement <=? 0)
    ProtocolError "invalid shard placement epoch";;
  raise_if (negb (bool_decide (NoDup (ShardPlacement.replicas placement))))
    ProtocolError "duplicate shard replica";;
  raise_if (negb (str_in (ShardPlacement.leader placement) (ShardPlacement.replicas placement)))
    ProtocolError "shard leader must be a replica";;
  raise_if (Z.of_nat (length (ShardPlacement.replicas placement)) <?
            ShardPlacement.quorum placement)
    ProtocolError "shard cannot form quorum";;
  raise_if (ShardPlacement.last_log_index placement <? ShardPlacement.committed_index placement)
    ProtocolError "committed index exceeds shard log";;
  raise_if (existsb (fun node => negb (assoc_has members node)) (ShardPlacement.replicas placement))
    ProtocolError "shard references an unknown member".

Definition check_request (kv : string * pyval) : res unit :=
  let '(request_id, request) := kv in
  raise_if (bool_decide (request_id = "") || negb (is_dict request))
    ProtocolError "invalid request table entry";;
  request ← as_dict request "invalid request table entry";
  raise_if (negb (keys_are request REQUEST_RECORD_FIELDS))
    ProtocolError "request table entry fields mismatch";;
  for_each (fun name =>
    v ← dict_item request name;
    _ ← _exact_int v ("request table " +:+ name);
    Ok tt) ["shard_id"; "term"; "index"; "checksum"];;
  status ← dict_item request "status";
  status ← as_str status "invalid request table status";
  raise_if (negb (str_in status ["prepared"; "committed"]))
    ProtocolError "invalid request table status".

(** [validate]; it leaves the canonical configuration in the record. *)
Definition validate (m : t) : res t :=
  raise_if (bool_decide (cluster_id m = "")) ProtocolError "invalid cluster identifier";;
  raise_if ((dimension m <=? 0) || (shard_count m <=? 0))
    ProtocolError "invalid cluster metadata header";;
  raise_if ((replication_factor m <=? 0) ||
            (Z.of_nat (length (members m)) <? replication_factor m))
    ProtocolError "invalid cluster replication factor";;
  raise_if (negb (routing_version m =? ROUTING_VERSION) || (epoch m <=? 0))
    ProtocolError "unsupported routing metadata";;
  config ← canonical_collection_config (PDict (collection_config m)) (dimension m);
  for_each check_member (members m);;
  raise_if (negb (covers_shards m)) ProtocolError "cluster metadata must cover every shard";;
  for_each (check_placement (members m)) (shards m);;
  for_each check_request (request_table m);;
  Ok (set_collection_config config m).

(** [sorted(d.items())] of distinct keys *)
Definition sorted_members (l : list (string * (string * Z))) : list (string * (string * Z)) :=
  isort (fun a b => String.leb a.1 b.1) l.
Definition sorted_shards (l : list (Z * ShardPlacement.t)) : list (Z * ShardPlacement.t) :=
  isort (fun a b => a.1 <=? b.1) l.

(** [node: [address[0], address[1]]] and [str(shard): asdict(placement)] *)
Definition member_item (m : string * (string * Z)) : string * pyval :=
  let '(node, (host, port)) := m in (node, PList [PStr host; PInt port]).
Definition placement_item (kv : Z * ShardPlacement.t) : string * pyval :=
  let '(shard, placement) := kv in
  (int_repr shard, PDict (ShardPlacement.asdict placement)).

Definition payload_of (m : t) : dict :=
  [("cluster_id", PStr (cluster_id m));
   ("dimension", PInt (dimension m));
   ("shard_count", PInt (shard_count m));
   ("replication_factor", PInt (replication_factor m));
   ("epoch", PInt (epoch m));
   ("routing_version", PInt (routing_version m));
   ("collection_config", PDict (collection_config m));
   ("members", PDict (member_item <$> sorted_members (members m)));
   ("shards", PDict (placement_item <$> sorted_shards (shards m)));
   ("request_table", PDict (request_table m))].

(** [to_payload]: the validated record and its payload. *)
Definition to_payload (m : t) : res (t * dict) :=
  m ← validate m; Ok (m, payload_of m).

(** One turn of the loop over the members. *)
Definition parse_member (members : list (string * (string * Z))) (kv : string * pyval)
    : res (list (string * (string * Z))) :=
  let '(node, address) := kv in
  match address with
  | PList [host; port] =>
      host ← as_str host "cluster member address must be a string";
      port ← _exact_int port "cluster member port";
      Ok (assoc_set members node (host, port))
  | _ => raise ProtocolError "invalid cluster member"
  end.

(** One turn of the loop over the shards. *)
Definition parse_placement (shards : list (Z * ShardPlacement.t)) (kv : string * pyval)
    : res (list (Z * ShardPlacement.t)) :=
  let '(shard, placement) := kv in
  placement ← as_dict placement "invalid shard placement";
  raise_if (negb (keys_are placement SHARD_PLACEMENT_FIELDS))
    ProtocolError "shard placement fields mismatch";;
  id ← try_except (int_of_str shard) [ValueError]
               (fun _ => raise ProtocolError "invalid shard key");
  raise_if (negb (bool_decide (shard = int_repr id))) ProtocolError "noncanonical shard key";;
  let int_item name :=
    v ← dict_item placement name; _exact_int v ("shard placement " +:+ name) in
  shard_id ← int_item "shard_id";
  term ← int_item "term";
  placement_epoch ← int_item "placement_epoch";
  last_log_index ← int_item "last_log_index";
  committed_index ← int_item "committed_index";
  leader ← dict_item placement "leader";
  leader ← as_str leader "invalid shard placement members";
  replicas ← dict_item placement "replicas";
  replicas ← as_list replicas "invalid shard placement members";
  replicas ← map_res (fun item => as_str item "invalid shard replica") replicas;
  Ok (assoc_set shards id
        (ShardPlacement.Mk shard_id term placement_epoch leader replicas last_log_index
           committed_index)).

Definition from_payload (payload : pyval) (protocol_version : Z) : res t :=
  payload ← as_dict payload "cluster metadata payload must be an object";
  let expected_fields :=
    if protocol_version =? LEGACY_PROTOCOL_VERSION then CLUSTER_METADATA_FIELDS_V1
    else CLUSTER_METADATA_FIELDS_V2 in
  raise_if ((protocol_version =? PROTOCOL_VERSION) && negb (dict_has payload "collection_config"))
    ProtocolError "cluster collection config is missing";;
  raise_if (negb (keys_are payload expected_fields)) ProtocolError "cluster metadata fields mismatch";;
  v ← dict_item payload "dimension";
  dimension ← _exact_int v "cluster dimension";
  raise_if (dimension <=? 0) ProtocolError "cluster dimension must be positive";;
  v ← dict_item payload "cluster_id";
  cluster_id ← as_str v "cluster identifier must be a string";
  v ← dict_item payload "routing_version";
  routing_version ← _exact_int v "cluster routing version";
  '(collection_config, routing_version) ←
    (if protocol_version =? LEGACY_PROTOCOL_VERSION then
       raise_if (negb (routing_version =? LEGACY_ROUTING_VERSION))
         ProtocolError "invalid legacy routing version";;
       config ← _legacy_default_collection_config dimension;
       Ok (config, ROUTING_VERSION)
     else
       v ← dict_item payload "collection_config";
       _ ← as_dict v "cluster collection config is missing";
       config ← canonical_collection_config v dimension;
       Ok (config, routing_version));
  v ← dict_item payload "members";
  w ← dict_item payload "shards";
  raise_if (negb (is_dict v && is_dict w)) ProtocolError "cluster members and shards must be objects";;
  raw_members ← as_dict v "cluster members and shards must be objects";
  raw_shards ← as_dict w "cluster members and shards must be objects";
  members ← for_fold parse_member [] raw_members;
  shards ← for_fold parse_placement [] raw_shards;
  v ← dict_item payload "request_table";
  request_table ← as_dict v "cluster request table must be an object";
  v ← dict_item payload "shard_count";
  shard_count ← _exact_int v "cluster shard_count";
  v ← dict_item payload "replication_factor";
  replication_factor ← _exact_int v "cluster replication_factor";
  v ← dict_item payload "epoch";
  epoch ← _exact_int v "cluster epoch";
  validate (Mk cluster_id dimension shard_count replication_factor epoch members shards
              collection_config request_table routing_version).

(** The directory of the metadata file: the file and its temporary. *)
Record directory : Type := Dir { destination : option file; temporary : option file }.

(** The states of the directory that [publish] goes through. *)
Definition publish_steps (data : string) (d : directory) : list directory :=
  let tmp := open_write (temporary d) in
  [Dir (destination d) (Some tmp);
   Dir (destination d) (Some (write data tmp));
   Dir (destination d) (Some (fsync (write data tmp)));
   Dir (Some (fsync (write data tmp))) None].

(** [publish]: the record after validation and the directory. *)
Definition publish (m : t) (d : directory) : res (t * directory) :=
  '(m, payload) ← to_payload m;
  let data := envelope_text payload +:+ nl in
  Ok (m, List.last (publish_steps data d) d).

Definition load (f : option file) : res t :=
  value ← try_except (data ← read_bytes f; loads data) [OSError; JSONDecodeError]
            (fun _ => raise ProtocolError "cannot decode cluster metadata");
  '(version, payload) ← _decode_envelope_versioned value;
  from_payload (PDict payload) version.
End ClusterMetadata.
