(* ===== verification/MetadataFacts.v ===== *)
(** Properties of the cluster metadata: what [validate] accepts, quorums, the
    payload round trip and the atomicity of [publish]. *)

From S2P Require Import Prelude Assoc PyFloat PyValue Json JsonFacts Checksum Envelope Files Models KernelConfig CollectionIdentity Mutation Journal JournalFacts Metadata.
Import KernelFacts EntryFacts.

Import ClusterMetadata.

(** * What a valid record is *)

Definition member_ok (m : string * (string * Z)) : Prop :=
  m.1 <> "" /\ m.2.1 <> "" /\ 0 < m.2.2 <= 65535.

Record placement_ok (members : list (string * (string * Z))) (kv : Z * ShardPlacement.t) : Prop := {
  placement_id : ShardPlacement.shard_id kv.2 = kv.1;
  placement_term : 0 < ShardPlacement.term kv.2;
  placement_epoch_pos : 0 < ShardPlacement.placement_epoch kv.2;
  placement_nodup : NoDup (ShardPlacement.replicas kv.2);
  placement_leader : ShardPlacement.leader kv.2 ∈ ShardPlacement.replicas kv.2;
  placement_committed : ShardPlacement.committed_index kv.2 <= ShardPlacement.last_log_index kv.2;
  placement_members : forall node, node ∈ ShardPlacement.replicas kv.2 -> node ∈ members.*1 }.

Definition request_ok (kv : string * pyval) : Prop :=
  kv.1 <> "" /\ exists d status, kv.2 = PDict d /\ keys_are d REQUEST_RECORD_FIELDS = true /\
    Forall (fun name => exists z, dict_get d name = Some (PInt z))
      ["shard_id"; "term"; "index"; "checksum"] /\
    dict_get d "status" = Some (PStr status) /\ status ∈ ["prepared"; "committed"].

Record metadata_ok (m : t) : Prop := {
  metadata_id : cluster_id m <> "";
  metadata_dimension : 0 < dimension m;
  metadata_count : 0 < shard_count m;
  metadata_replication : 0 < replication_factor m <= Z.of_nat (length (members m));
  metadata_routing : routing_version m = ROUTING_VERSION;
  metadata_epoch : 0 < epoch m;
  metadata_config : exists k, valid k /\ Kernel.dimension k = dimension m /\
    collection_config m ≡ₚ Kernel.to_python k;
  metadata_members : Forall member_ok (members m);
  metadata_cover : forall i, i ∈ (shards m).*1 <-> 0 <= i < shard_count m;
  metadata_shards : Forall (placement_ok (members m)) (shards m);
  metadata_requests : Forall request_ok (request_table m) }.

(** * Lemmas *)

Lemma assoc_has_spec {K V} `{EqDecision K} (l : list (K * V)) k :
  assoc_has l k = true <-> k ∈ l.*1.
Proof.
  unfold assoc_has. destruct (assoc_get l k) eqn:H.
  - split; [intros _|done]. apply assoc_get_elem_2 in H. apply list_elem_of_fmap. by exists (k, v).
  - split; [done|]. intros Hin. by apply assoc_get_None in H.
Qed.

Lemma quorum_le p :
  ShardPlacement.replicas p <> [] ->
  ShardPlacement.quorum p <= Z.of_nat (length (ShardPlacement.replicas p)).
Proof.
  unfold ShardPlacement.quorum. destruct (ShardPlacement.replicas p) as [|x l]; [done|]. intros _.
  simpl length. pose proof (Z.div_mod (Z.of_nat (S (length l))) 2).
  pose proof (Z.mod_pos_bound (Z.of_nat (S (length l))) 2). lia.
Qed.

Lemma check_member_Ok m : check_member m = Ok tt <-> member_ok m.
Proof.
  destruct m as [node [host port]]. unfold check_member, member_ok. cbn [fst snd]. split.
  - intros H. inv_py. split_and!; done || lia.
  - intros (Hn & Hh & Hp). rewrite (bool_decide_eq_false_2 _ Hn), (bool_decide_eq_false_2 _ Hh).
    rewrite (proj2 (Z.leb_gt _ _)), (proj2 (Z.ltb_ge _ _)) by lia. done.
Qed.

Lemma check_placement_Ok members kv :
  check_placement members kv = Ok tt <-> placement_ok members kv.
Proof.
  destruct kv as [id p]. unfold check_placement. split.
  - intros H. inv_py. split; cbn [fst snd]; try done; try lia.
    + unfold str_in in *. by inv_py.
    + intros node Hnode. apply assoc_has_spec.
      destruct (assoc_has members node) eqn:Hm; [done|]. exfalso.
      match goal with H : existsb _ _ = false |- _ => rename H into He end.
      assert (existsb (fun node => negb (assoc_has members node)) (ShardPlacement.replicas p) = true);
        [|congruence].
      apply existsb_exists. exists node. rewrite Hm. split; [by apply list_elem_of_In|done].
  - intros [Hid Ht He Hnd Hl Hc Hm]; cbn [fst snd] in *.
    rewrite Hid, Z.eqb_refl, !(proj2 (Z.leb_gt _ _)) by done.
    rewrite (bool_decide_eq_true_2 _ Hnd). unfold str_in. rewrite (bool_decide_eq_true_2 _ Hl).
    assert (ShardPlacement.quorum p <= Z.of_nat (length (ShardPlacement.replicas p))) as Hq.
    { apply quorum_le. intros Hr. rewrite Hr in Hl. by apply elem_of_nil in Hl. }
    rewrite (proj2 (Z.ltb_ge _ _) Hq), (proj2 (Z.ltb_ge _ _) Hc). cbn [negb orb raise_if mbind res_bind].
    destruct (existsb _ _) eqn:Hex; [|done]. exfalso.
    apply existsb_exists in Hex as (node & Hin%list_elem_of_In & Hn).
    apply Hm, assoc_has_spec in Hin. by rewrite Hin in Hn.
Qed.

Lemma check_request_Ok kv : check_request kv = Ok tt <-> request_ok kv.
Proof.
  destruct kv as [rid request]. unfold check_request, request_ok; cbn [fst snd]. split.
  - intros H. inv_py. unfold str_in in *. inv_py. split; [done|].
    match goal with H : for_each _ _ = _ |- _ => apply for_each_Ok in H; rename H into Hf end.
    eexists _, _. split_and!; try done.
    eapply Forall_impl; [exact Hf|]. simpl. intros name Hn. inv_py. by eexists.
  - intros (Hr & d & status & -> & Hk & Hf & Hs & Hin).
    rewrite (bool_decide_eq_false_2 _ Hr). cbn [is_dict negb orb raise_if mbind res_bind as_dict].
    rewrite Hk. cbn [negb raise_if mbind res_bind].
    replace (for_each _ _) with (Ok tt).
    2:{ symmetry. apply for_each_Ok. eapply Forall_impl; [exact Hf|]. simpl.
        intros name [z Hz]. unfold dict_item. by rewrite Hz. }
    cbn [mbind res_bind]. unfold dict_item. rewrite Hs. cbn [mbind res_bind as_str].
    unfold str_in. by rewrite (bool_decide_eq_true_2 _ Hin).
Qed.

Lemma covers_shards_spec m :
  covers_shards m = true <-> (forall i, i ∈ (shards m).*1 <-> 0 <= i < shard_count m).
Proof.
  unfold covers_shards. rewrite andb_true_iff, !forallb_forall. split.
  - intros [H1 H2] i. split.
    + intros ([k p] & -> & Hin)%list_elem_of_fmap. apply list_elem_of_In, H1 in Hin.
      cbn in Hin |- *. inv_py. lia.
    + intros Hi. apply assoc_has_spec, H2, list_elem_of_In, elem_of_seqZ. lia.
  - intros H. split.
    + intros [k p] Hin%list_elem_of_In. assert (k ∈ (shards m).*1) as Hk.
      { apply list_elem_of_fmap. by exists (k, p). }
      apply H in Hk. cbn. rewrite (proj2 (Z.leb_le _ _)), (proj2 (Z.ltb_lt _ _)) by lia. done.
    + intros i Hi%list_elem_of_In%elem_of_seqZ. apply assoc_has_spec, H. lia.
Qed.

(** ** What [validate] accepts *)

Lemma validate_Ok m m' :
  validate m = Ok m' <->
  metadata_ok m /\ exists c, canonical_collection_config (PDict (collection_config m)) (dimension m) = Ok c /\
    m' = set_collection_config c m.
Proof.
  unfold validate. split.
  - intros H. inv_py.
    repeat match goal with H : for_each _ _ = Ok ?u |- _ => destruct u; apply for_each_Ok in H end.
    match goal with H : canonical_collection_config _ _ = Ok ?c |- _ =>
      rename H into Hc; rename c into config end.
    split; [|by eexists].
    pose proof Hc as Hc'. apply canonical_config_inv in Hc' as (d & k & [= <-] & Hk & Hdim & Hd & _).
    split; try done; try lia.
    + by exists k.
    + eapply Forall_impl; [eassumption|]. intros. by apply check_member_Ok.
    + by apply covers_shards_spec.
    + eapply Forall_impl; [eassumption|]. intros. by apply check_placement_Ok.
    + eapply Forall_impl; [eassumption|]. intros. by apply check_request_Ok.
  - intros [[Hid Hd Hc Hr Hv He _ Hm Hcov Hs Hq] (c & Hcan & ->)].
    rewrite (bool_decide_eq_false_2 _ Hid), Hv, (proj2 (Z.leb_gt _ _) Hd),
      (proj2 (Z.leb_gt _ _) Hc), (proj2 (Z.leb_gt _ _) He), (proj2 (Z.leb_gt _ _) (proj1 Hr)),
      (proj2 (Z.ltb_ge _ _) (proj2 Hr)). change (ROUTING_VERSION =? ROUTING_VERSION) with true.
    cbn [negb orb raise_if mbind res_bind]. rewrite Hcan. cbn [mbind res_bind].
    rewrite (proj2 (for_each_Ok check_member (members m) tt)) by (eapply Forall_impl; [exact Hm|]; intros; by apply check_member_Ok).
    rewrite (proj2 (covers_shards_spec m) Hcov).
    cbn [negb raise_if mbind res_bind].
    rewrite (proj2 (for_each_Ok (check_placement (members m)) (shards m) tt)) by (eapply Forall_impl; [exact Hs|]; intros; by apply check_placement_Ok).
    cbn [mbind res_bind].
    rewrite (proj2 (for_each_Ok check_request (request_table m) tt)) by (eapply Forall_impl; [exact Hq|]; intros; by apply check_request_Ok).
    done.
Qed.

Lemma set_config_same m : set_collection_config (collection_config m) m = m.
Proof. by destruct m. Qed.

(** A valid record passes, and comes out with the configuration the kernel
    renders. *)
Lemma validate_metadata_ok m :
  metadata_ok m ->
  exists k, valid k /\ Kernel.dimension k = dimension m /\
    collection_config m ≡ₚ Kernel.to_python k /\
    validate m = Ok (set_collection_config (Kernel.to_python k) m).
Proof.
  intros Hm. destruct (metadata_config m Hm) as (k & Hk & Hd & Hc). exists k.
  split_and!; try done. apply validate_Ok. split; [done|].
  exists (Kernel.to_python k). split; [|done]. rewrite <- Hd. by apply canonical_config_of_valid.
Qed.

(** * Quorums *)

(** Two quorums of a placement share a replica. *)
Lemma quorums_intersect p q1 q2 :
  NoDup q1 -> NoDup q2 ->
  q1 ⊆ ShardPlacement.replicas p -> q2 ⊆ ShardPlacement.replicas p ->
  ShardPlacement.quorum p <= Z.of_nat (length q1) ->
  ShardPlacement.quorum p <= Z.of_nat (length q2) ->
  exists node, node ∈ q1 /\ node ∈ q2.
Proof.
  intros Hn1 Hn2 H1 H2 Hq1 Hq2.
  destruct (decide (Exists (fun node => node ∈ q2) q1)) as [Hex|Hex].
  { apply Exists_exists in Hex as (node & ? & ?). by exists node. }
  exfalso. apply Forall_Exists_neg in Hex. rewrite Forall_forall in Hex.
  assert (NoDup (q1 ++ q2)) as Hn by (by apply NoDup_app).
  assert (q1 ++ q2 ⊆+ ShardPlacement.replicas p) as Hsub.
  { apply NoDup_submseteq; [done|]. intros x [Hx|Hx]%elem_of_app; [by apply H1|by apply H2]. }
  apply submseteq_length in Hsub. rewrite length_app in Hsub.
  unfold ShardPlacement.quorum in *.
  pose proof (Z.div_mod (Z.of_nat (length (ShardPlacement.replicas p))) 2).
  pose proof (Z.mod_pos_bound (Z.of_nat (length (ShardPlacement.replicas p))) 2). lia.
Qed.

(** * The payload round trip *)

Lemma is_space_digit c : is_digit c = true -> is_space c = false.
Proof.
  unfold is_digit, is_space. rewrite andb_true_iff. intros [H1%Z.leb_le H2%Z.leb_le].
  apply orb_false_iff. rewrite !andb_false_iff, !Nat.leb_gt. lia.
Qed.

Lemma lstrip_digits s : all_digits s = true -> lstrip s = s.
Proof.
  destruct s as [|c s]; [done|]. simpl. intros [Hc _]%andb_true_iff. by rewrite is_space_digit.
Qed.

Lemma srev_onto_app s t acc : srev_onto (s +:+ t) acc = srev_onto t (srev_onto s acc).
Proof. revert acc; induction s as [|c s IH]; intros acc; [done|]. rewrite sapp_cons. simpl. auto. Qed.

Lemma srev_onto_spec s acc : srev_onto s acc = srev s +:+ acc.
Proof.
  unfold srev. revert acc; induction s as [|c s IH]; intros acc; [done|]. simpl.
  rewrite IH, (IH (String c "")), sapp_assoc. done.
Qed.

Lemma srev_cons c s : srev (String c s) = srev s +:+ String c "".
Proof. unfold srev at 1. simpl. by rewrite srev_onto_spec. Qed.

Lemma srev_app s t : srev (s +:+ t) = srev t +:+ srev s.
Proof.
  induction s as [|c s IH]; [by rewrite sapp_nil_l, sapp_nil_r|].
  rewrite sapp_cons, !srev_cons, IH. by rewrite sapp_assoc.
Qed.

Lemma srev_involutive s : srev (srev s) = s.
Proof. induction s as [|c s IH]; [done|]. by rewrite srev_cons, srev_app, IH. Qed.

Lemma all_digits_srev s acc :
  all_digits s = true -> all_digits acc = true -> all_digits (srev_onto s acc) = true.
Proof.
  revert acc; induction s as [|c s IH]; intros acc; simpl; [done|].
  intros [Hc Hs]%andb_true_iff Ha. apply IH; [done|]. simpl. by rewrite Hc.
Qed.

Lemma strip_digits s : all_digits s = true -> strip s = s.
Proof.
  intros H. unfold strip. rewrite (lstrip_digits s) by done.
  rewrite lstrip_digits by (by apply all_digits_srev). apply srev_involutive.
Qed.

Lemma int_of_str_repr z : 0 <= z -> int_ok z = true -> int_of_str (int_repr z) = Ok z.
Proof.
  intros Hz Hok. unfold int_ok in Hok. rewrite Z.abs_eq in Hok by done. apply Nat.leb_le in Hok.
  unfold int_of_str, int_repr. rewrite (proj2 (Z.ltb_ge _ _)) by done.
  destruct (digits_spec z Hz) as (Hd & Hne & Hv). rewrite strip_digits by done.
  destruct (digits_head z Hz) as (c & t & Hct & Hc & _). rewrite Hct in *.
  assert (split_sign (String c t) = (false, String c t)) as ->.
  { destruct c as [[] [] [] [] [] [] [] []]; try done; by vm_compute in Hc. }
  rewrite Hd. cbn [negb]. rewrite (proj2 (Nat.ltb_ge _ _)) by done. by rewrite Hv.
Qed.

(** ** Parsing the members and the placements of a payload *)

Lemma parse_members l acc :
  NoDup (acc ++ l).*1 -> for_fold parse_member acc (member_item <$> l) = Ok (acc ++ l).
Proof.
  revert acc; induction l as [|[node [host port]] l IH]; intros acc Hnd; cbn.
  - by rewrite app_nil_r.
  - rewrite fmap_app in Hnd. cbn in Hnd. apply NoDup_app in Hnd as (Ha & Hdis & Hnd).
    rewrite assoc_set_fresh by (intros Hin; apply (Hdis _ Hin); left).
    rewrite IH; [by rewrite <- app_assoc|].
    rewrite !fmap_app, <- app_assoc. apply NoDup_app. by split_and!.
Qed.

(** An item of the shards of a payload stands for a placement. *)
Definition shard_item (kv : Z * ShardPlacement.t) (item : string * pyval) : Prop :=
  0 <= kv.1 /\ int_ok kv.1 = true /\ item.1 = int_repr kv.1 /\
  exists d, item.2 = PDict d /\ keys_are d SHARD_PLACEMENT_FIELDS = true /\
    forall name, dict_get d name = dict_get (ShardPlacement.asdict kv.2) name.

Lemma map_res_strings l :
  map_res (fun item => as_str item "invalid shard replica") (PStr <$> l) = Ok l.
Proof. induction l as [|x l IH]; [done|]. cbn [fmap list_fmap map_res as_str mbind res_bind]. by rewrite IH. Qed.

Lemma parse_placement_item shards kv item :
  shard_item kv item -> parse_placement shards item = Ok (assoc_set shards kv.1 kv.2).
Proof.
  destruct kv as [id p], item as [k v].
  intros (Hpos & Hok & Hk & d & Hv & Hkeys & Hget); cbn [fst snd] in *. subst k v.
  unfold parse_placement. cbn [as_dict mbind res_bind]. rewrite Hkeys.
  cbn [negb raise_if mbind res_bind]. rewrite int_of_str_repr by done.
  cbn [try_except mbind res_bind].
  rewrite bool_decide_eq_true_2 by done. cbn [negb raise_if mbind res_bind].
  assert (forall name v, dict_get (ShardPlacement.asdict p) name = Some v ->
    dict_item d name = Ok v) as Hitem.
  { intros name v Hv. apply dict_item_Ok. by rewrite Hget. }
  rewrite (Hitem "shard_id" _ eq_refl), (Hitem "term" _ eq_refl),
    (Hitem "placement_epoch" _ eq_refl), (Hitem "last_log_index" _ eq_refl),
    (Hitem "committed_index" _ eq_refl), (Hitem "leader" _ eq_refl), (Hitem "replicas" _ eq_refl).
  cbn [mbind res_bind _exact_int as_str as_list]. rewrite map_res_strings. by destruct p.
Qed.

Lemma parse_placements l items acc :
  NoDup (acc ++ l).*1 -> Forall2 shard_item l items ->
  for_fold parse_placement acc items = Ok (acc ++ l).
Proof.
  intros Hnd HF. revert acc Hnd.
  induction HF as [|kv item l items Hi _ IH]; intros acc Hnd; cbn [for_fold].
  - by rewrite app_nil_r.
  - rewrite (parse_placement_item acc kv item Hi). cbn [mbind res_bind].
    rewrite fmap_app in Hnd. cbn in Hnd. apply NoDup_app in Hnd as (Ha & Hdis & Hnd).
    rewrite assoc_set_fresh by (intros Hin; apply (Hdis _ Hin); left). destruct kv as [id p].
    rewrite IH; [by rewrite <- app_assoc|].
    rewrite !fmap_app, <- app_assoc. apply NoDup_app. by split_and!.
Qed.

(** [from_payload] only looks its fields up. *)
Lemma from_payload_lookup d m ml sl :
  keys_are d CLUSTER_METADATA_FIELDS_V2 = true -> 0 < dimension m ->
  dict_get d "cluster_id" = Some (PStr (cluster_id m)) ->
  dict_get d "dimension" = Some (PInt (dimension m)) ->
  dict_get d "shard_count" = Some (PInt (shard_count m)) ->
  dict_get d "replication_factor" = Some (PInt (replication_factor m)) ->
  dict_get d "epoch" = Some (PInt (epoch m)) ->
  dict_get d "routing_version" = Some (PInt (routing_version m)) ->
  dict_get d "collection_config" = Some (PDict (collection_config m)) ->
  dict_get d "members" = Some (PDict ml) -> dict_get d "shards" = Some (PDict sl) ->
  dict_get d "request_table" = Some (PDict (request_table m)) ->
  ml = member_item <$> members m -> NoDup (members m).*1 ->
  Forall2 shard_item (shards m) sl -> NoDup (shards m).*1 ->
  from_payload (PDict d) PROTOCOL_VERSION =
    (config ← canonical_collection_config (PDict (collection_config m)) (dimension m);
     validate (set_collection_config config m)).
Proof.
  intros Hk Hpos H1 H2 H3 H4 H5 H6 H7 H8 H9 H10 -> Hm Hs Hnd.
  unfold from_payload. cbn [as_dict mbind res_bind].
  change (PROTOCOL_VERSION =? LEGACY_PROTOCOL_VERSION) with false.
  change (PROTOCOL_VERSION =? PROTOCOL_VERSION) with true. cbv zeta iota. rewrite Hk.
  unfold dict_has, dict_item. rewrite H1, H2, H3, H4, H5, H6, H7, H8, H9, H10.
  cbn [andb negb raise_if mbind res_bind _exact_int as_str as_dict is_dict].
  rewrite (proj2 (Z.leb_gt _ _) Hpos). cbn [raise_if mbind res_bind].
  destruct (canonical_collection_config _ _) as [config|]; [|done].
  cbn [mbind res_bind]. rewrite (parse_members (members m) []) by done.
  cbn [mbind res_bind]. by rewrite (parse_placements (shards m) sl []).
Qed.

(** ** The published file *)

Definition payload_items : list string := CLUSTER_METADATA_FIELDS_V2.

Lemma payload_of_NoDup m : NoDup (payload_of m).*1.
Proof.
  change (NoDup ["cluster_id"; "dimension"; "shard_count"; "replication_factor"; "epoch";
    "routing_version"; "collection_config"; "members"; "shards"; "request_table"]).
  refine (bool_decide_eq_true_1 _ _). by vm_compute.
Qed.

Lemma payload_of_keys m : keys_are (payload_of m) CLUSTER_METADATA_FIELDS_V2 = true.
Proof.
  rewrite keys_are_spec. unfold payload_of, CLUSTER_METADATA_FIELDS_V2, CLUSTER_METADATA_FIELDS_V1.
  intros k. cbn [fmap list_fmap fst app]. rewrite !elem_of_cons, elem_of_nil. tauto.
Qed.

Lemma asdict_placement_keys p : keys_are (ShardPlacement.asdict p) SHARD_PLACEMENT_FIELDS = true.
Proof. apply keys_are_spec. by intros. Qed.

Lemma asdict_placement_NoDup p : NoDup (ShardPlacement.asdict p).*1.
Proof. change (NoDup SHARD_PLACEMENT_FIELDS). refine (bool_decide_eq_true_1 _ _). by vm_compute. Qed.

(** The stored form of an item of the members and of the shards. *)
Lemma sort_member_item m : sort_value (member_item m) = member_item m.
Proof. by destruct m as [? [? ?]]. Qed.

Lemma sort_placement_item kv :
  0 <= kv.1 -> int_ok kv.1 = true -> shard_item kv (sort_value (placement_item kv)).
Proof.
  destruct kv as [id p]. intros Hpos Hok. cbn [fst snd] in *.
  unfold shard_item, sort_value, placement_item. cbn [fst snd].
  rewrite sort_keys_dict. split_and!; [done|done|done|]. eexists. split; [done|].
  rewrite keys_are_sorted. split; [apply asdict_placement_keys|].
  intros name. rewrite dict_get_sorted by apply asdict_placement_NoDup.
  unfold ShardPlacement.asdict; cbn [dict_get].
  repeat (destruct (bool_decide _); [cbn [fmap option_fmap option_map sort_keys]; try done|]); [|done].
  do 2 f_equal. induction (ShardPlacement.replicas p) as [|x l IH]; [done|]. cbn. by f_equal.
Qed.

(** The same record up to the order of members and shards and the order of keys
    in the request table. *)
Record same_record (m m' : t) : Prop := {
  same_id : cluster_id m' = cluster_id m;
  same_dimension : dimension m' = dimension m;
  same_count : shard_count m' = shard_count m;
  same_replication : replication_factor m' = replication_factor m;
  same_epoch : epoch m' = epoch m;
  same_members : members m' ≡ₚ members m;
  same_shards : shards m' ≡ₚ shards m;
  same_config : collection_config m' = collection_config m;
  same_requests : request_table m' = sorted_payload (request_table m);
  same_routing : routing_version m' = routing_version m }.

Lemma request_ok_sorted kv :
  json_ok kv.2 = true -> request_ok kv -> request_ok (sort_value kv).
Proof.
  destruct kv as [rid request]. intros Hok (Hr & d & status & Hd & Hk & Hf & Hs & Hin).
  cbn in Hd, Hr, Hok. subst request. pose proof (json_ok_dict d Hok) as [Hnd _].
  unfold sort_value. split; [done|]. cbn [snd fst]. rewrite sort_keys_dict.
  eexists _, status. split; [done|]. rewrite keys_are_sorted, dict_get_sorted, Hs by done.
  split_and!; try done. eapply Forall_impl; [exact Hf|]. simpl. intros name [z Hz].
  exists z. by rewrite dict_get_sorted, Hz.
Qed.

Lemma metadata_ok_same m m' :
  json_ok (PDict (request_table m)) = true -> same_record m m' -> metadata_ok m -> metadata_ok m'.
Proof.
  intros Hok [Hi Hd Hc Hr He Hm Hs Hcfg Hq Hv] [? ? ? ? ? ? ? Hmem Hcov Hpl Hreq].
  split; rewrite ?Hi, ?Hd, ?Hc, ?Hr, ?He, ?Hv, ?Hcfg; try done.
  - by rewrite (Permutation_length Hm).
  - by rewrite Hm.
  - intros i. rewrite Hs. auto.
  - rewrite Hs. eapply Forall_impl; [exact Hpl|]. intros kv []. split; try done.
    intros node Hnode. rewrite Hm. auto.
  - rewrite Hq. unfold sorted_payload. rewrite sort_items_perm. apply Forall_fmap.
    apply Forall_forall. intros [k v] Hkv. rewrite Forall_forall in Hreq.
    apply request_ok_sorted; [|by apply Hreq]. cbn.
    by apply (json_ok_dict _ Hok) in Hkv as [_ ?].
Qed.

(** Where the fields of a record end up in the stored payload. *)
Lemma stored_payload_fields m :
  json_ok (PDict (payload_of m)) = true ->
  NoDup (members m).*1 /\ NoDup (shards m).*1 /\ json_ok (PDict (request_table m)) = true /\
  json_ok (PDict (collection_config m)) = true.
Proof.
  intros Hok. pose proof (payload_of_NoDup m) as Hnd.
  assert (forall k v, dict_get (payload_of m) k = Some v -> json_ok v = true) as Hget.
  { intros k v. by apply json_ok_get. }
  assert (json_ok (PDict (member_item <$> sorted_members (members m))) = true) as Hm.
  { by apply (Hget "members"). }
  assert (json_ok (PDict (placement_item <$> sorted_shards (shards m))) = true) as Hs.
  { by apply (Hget "shards"). }
  split_and!; [| |by apply (Hget "request_table")|by apply (Hget "collection_config")].
  - apply json_ok_dict in Hm as [Hm _]. unfold sorted_members in Hm. rewrite isort_perm in Hm.
    rewrite <- list_fmap_compose in Hm.
    by replace ((fst ∘ member_item) <$> members m) with (members m).*1 in Hm
      by (apply list_fmap_ext; intros ? [? [? ?]] _; done).
  - apply json_ok_dict in Hs as [Hs _]. unfold sorted_shards in Hs. rewrite isort_perm in Hs.
    rewrite <- list_fmap_compose in Hs.
    replace ((fst ∘ placement_item) <$> shards m) with (int_repr <$> (shards m).*1) in Hs
      by (rewrite <- list_fmap_compose; by apply list_fmap_ext; intros ? [? ?] _).
    by apply NoDup_fmap_1 in Hs.
Qed.

Lemma perm_fmap_inv {A B} (f : A -> B) l k :
  k ≡ₚ f <$> l -> exists l', k = f <$> l' /\ l' ≡ₚ l.
Proof.
  intros H. apply Permutation_map_inv in H as (l' & -> & H').
  exists l'. by split.
Qed.

Lemma stored_members m :
  exists l, sort_items (sort_value <$> (member_item <$> sorted_members (members m))) =
    member_item <$> l /\ l ≡ₚ members m.
Proof.
  apply perm_fmap_inv. rewrite sort_items_perm, <- list_fmap_compose.
  rewrite (list_fmap_ext (sort_value ∘ member_item) member_item _
    (fun _ x _ => sort_member_item x)).
  unfold sorted_members. by rewrite isort_perm.
Qed.

Lemma stored_shards m :
  json_ok (PDict (payload_of m)) = true -> metadata_ok m ->
  exists l, Forall2 shard_item l
      (sort_items (sort_value <$> (placement_item <$> sorted_shards (shards m)))) /\
    l ≡ₚ shards m.
Proof.
  intros Hok Hm.
  destruct (perm_fmap_inv (sort_value ∘ placement_item) (shards m)
    (sort_items (sort_value <$> (placement_item <$> sorted_shards (shards m)))))
    as (l & -> & Hl).
  { rewrite sort_items_perm, <- list_fmap_compose. unfold sorted_shards. by rewrite isort_perm. }
  exists l. split; [|done]. apply Forall2_fmap_r, Forall_Forall2_diag, Forall_forall.
  intros [id p] Hin. rewrite Hl in Hin.
  pose proof (metadata_shards m Hm) as Hp. rewrite Forall_forall in Hp.
  destruct (Hp _ Hin) as [Hid _ _ _ _ _ _]. cbn in Hid.
  apply sort_placement_item; cbn.
  - apply (metadata_cover m Hm). apply list_elem_of_fmap. by exists (id, p).
  - rewrite <- Hid.
    assert (json_ok (PDict (placement_item <$> sorted_shards (shards m))) = true) as Hs.
    { by apply (json_ok_get (payload_of m) "shards"). }
    apply json_ok_dict in Hs as [_ Hs]. destruct (Hs (int_repr id) (PDict (ShardPlacement.asdict p))) as [_ Hpd].
    { apply list_elem_of_fmap. exists (id, p). split; [done|]. unfold sorted_shards.
      by rewrite isort_elem_of. }
    by apply (json_ok_get _ "shard_id" (PInt (ShardPlacement.shard_id p)) Hpd).
Qed.

Definition metadata_text (m : t) : string := envelope_text (payload_of m) +:+ nl.

Lemma loads_envelope_line payload :
  json_ok (PDict payload) = true ->
  exists value, loads (envelope_text payload +:+ nl) = Ok value /\
    _decode_envelope_versioned value = Ok (PROTOCOL_VERSION, sorted_payload payload).
Proof.
  intros H. destruct (loads_envelope payload H) as (v & Hv & Hd).
  exists v. split; [|done]. unfold envelope_text in *.
  rewrite loads_canonical in Hv by (by apply checked_envelope_ok).
  by rewrite loads_canonical_line by (by apply checked_envelope_ok).
Qed.

(** A published record loads back as the same record. *)
Lemma load_published m n :
  validate m = Ok m -> json_ok (PDict (payload_of m)) = true ->
  exists m', load (Some (File (metadata_text m) n)) = Ok m' /\ same_record m m'.
Proof.
  intros Hv Hok. apply validate_Ok in Hv as [Hm (c & Hc & Hcm)].
  assert (c = collection_config m) as -> by (by rewrite Hcm).
  destruct (stored_payload_fields m Hok) as (Hnm & Hns & Hrt & _).
  destruct (stored_members m) as (ml & Hml & Hpm).
  destruct (stored_shards m Hok Hm) as (sl & Hsl & Hps).
  unfold load, metadata_text. cbn [read_bytes content mbind res_bind].
  destruct (loads_envelope_line _ Hok) as (v & -> & Hd). cbn [try_except mbind res_bind].
  rewrite Hd. cbn [mbind res_bind].
  set (m0 := Mk (cluster_id m) (dimension m) (shard_count m) (replication_factor m) (epoch m)
    ml sl (sorted_payload (collection_config m)) (sorted_payload (request_table m))
    (routing_version m)).
  assert (forall k v, dict_get (payload_of m) k = Some v ->
    dict_get (sorted_payload (payload_of m)) k = Some (sort_keys v)) as Hget.
  { intros k w Hw. unfold sorted_payload. by rewrite dict_get_sorted, Hw by apply payload_of_NoDup. }
  rewrite (from_payload_lookup _ m0 (member_item <$> ml)
    (sort_items (sort_value <$> (placement_item <$> sorted_shards (shards m))))).
  - cbn [m0 collection_config dimension].
    assert (canonical_collection_config (PDict (sorted_payload (collection_config m))) (dimension m) =
      Ok (collection_config m)) as ->.
    { apply canonical_config_inv in Hc as (d & k & [= <-] & Hk & <- & Hd' & Hc).
      rewrite Hc at 2. apply canonical_config_of_valid; [done|].
      unfold sorted_payload. rewrite sort_items_perm, Hc.
      by replace (sort_value <$> Kernel.to_python k) with (Kernel.to_python k). }
    cbn [mbind res_bind]. set (m' := set_collection_config (collection_config m) m0).
    assert (same_record m m') as Hsame by done.
    exists m'. split; [|done]. apply validate_Ok.
    split; [by apply (metadata_ok_same m)|]. by exists (collection_config m).
  - unfold sorted_payload. rewrite keys_are_sorted. apply payload_of_keys.
  - apply Hm.
  - by rewrite (Hget "cluster_id" _ eq_refl).
  - by rewrite (Hget "dimension" _ eq_refl).
  - by rewrite (Hget "shard_count" _ eq_refl).
  - by rewrite (Hget "replication_factor" _ eq_refl).
  - by rewrite (Hget "epoch" _ eq_refl).
  - by rewrite (Hget "routing_version" _ eq_refl).
  - rewrite (Hget "collection_config" _ eq_refl). by rewrite sort_keys_dict.
  - rewrite (Hget "members" _ eq_refl), sort_keys_dict. by rewrite Hml.
  - rewrite (Hget "shards" _ eq_refl). by rewrite sort_keys_dict.
  - rewrite (Hget "request_table" _ eq_refl). by rewrite sort_keys_dict.
  - done.
  - cbn. by rewrite Hpm.
  - done.
  - cbn. by rewrite Hps.
Qed.

(** ** [publish] and [load] *)

Lemma validate_idemp m m' : validate m = Ok m' -> validate m' = Ok m'.
Proof.
  rewrite !validate_Ok. intros [Hm (c & Hc & ->)].
  apply canonical_config_spec in Hc as Hc'. destruct Hc' as (d & k & [= <-] & Hk & Hd & Hp & ->).
  split.
  - destruct Hm as [? ? ? ? ? ? _ ? ? ? ?]. split; try done. by exists k.
  - eexists. split; [by apply canonical_config_idemp in Hc|done].
Qed.

Lemma from_payload_valid payload version m : from_payload payload version = Ok m -> validate m = Ok m.
Proof.
  unfold from_payload. intros H.
  repeat match type of H with
    | (_ ≫= _) = Ok _ => apply bind_Ok in H as (? & _ & H)
    | (let '(_, _) := ?x in _) = _ => destruct x
    end.
  by eapply validate_idemp.
Qed.

Lemma load_valid f m : load f = Ok m -> validate m = Ok m.
Proof.
  unfold load. intros H. apply bind_Ok in H as (v & _ & H). apply bind_Ok in H as ([version p] & _ & H).
  by eapply from_payload_valid.
Qed.

(** At every step, and after a crash, the destination is the old file or the
    new one, entire. *)
Lemma publish_crash data d d' f :
  durable (destination d) -> d' ∈ d :: publish_steps data d -> crash (destination d') f ->
  f = destination d \/ f = Some (File data (String.length data)).
Proof.
  intros Hd Hin Hc. unfold publish_steps in Hin. rewrite !elem_of_cons, elem_of_nil in Hin.
  destruct Hin as [->|[->|[->|[->|[->|[]]]]]]; cbn [destination] in Hc.
  1-4: left; by apply crash_durable.
  right. apply crash_durable in Hc as ->; [|done].
  unfold fsync, write, open_write; cbn. by rewrite sapp_nil_l.
Qed.

Lemma publish_spec m d :
  publish m d =
    (m' ← validate m;
     Ok (m', Dir (Some (File (metadata_text m') (String.length (metadata_text m')))) None)).
Proof.
  unfold publish, to_payload. destruct (validate m) as [m'|]; [|done].
  cbn [mbind res_bind publish_steps List.last]. unfold fsync, write, open_write; cbn [content].
  by rewrite sapp_nil_l.
Qed.
