(* ===== verification/Snapshot.v ===== *)
(** The stored state of a replica and its snapshots: the module-level functions
    of [python/akashadb/distributed/replica.py] (the checked state file, the
    checksum and the parser of exported rows, the workspaces of an install). *)

From S2P Require Import Prelude PyFloat PyValue Json Checksum Envelope Files Models KernelInterface Mutation Journal Metadata.

Definition SNAPSHOT_ROW_FIELDS : list string := ["id"; "sequence"; "vector"; "fields"; "sparse"].
Definition SNAPSHOT_FIELD_FIELDS : list string := ["name"; "type"; "value"].
Definition SNAPSHOT_SPARSE_FIELDS : list string := ["term_id"; "weight"].
Definition REPLICA_STATE_FIELDS : list string := ["term"; "placement_epoch"; "applied_index"].

(** * The state file *)

Abbreviation state_directory := ClusterMetadata.directory.

(** [_publish_checked]: the states of the directory are those of
    [ClusterMetadata.publish_steps]. *)
Definition _publish_checked (payload : dict) (d : state_directory) : state_directory :=
  List.last (ClusterMetadata.publish_steps (envelope_text payload +:+ nl) d) d.

Definition _load_checked (f : option file) (default : dict) : res dict :=
  if negb (exists_file f) then Ok default
  else try_except (data ← read_bytes f; value ← loads data; decode_envelope value)
         [OSError; JSONDecodeError; ProtocolError]
         (fun _ => raise ProtocolError "corrupt replica state: replica-state.json").

(** * Exported rows *)

Definition _snapshot_payload (rows : pyval) (config : dict) (index : Z) : dict :=
  [("rows", rows); ("collection_config", PDict config); ("index", PInt index)].

Definition snapshot_checksum (rows : pyval) (config : dict) (index : Z) : Z :=
  payload_checksum (PDict (_snapshot_payload rows config index)).

(** [float(value)] of an [int] or a [float], which must be finite.  An [int]
    beyond the range of a float raises [OverflowError]. *)
Definition finite_float (value : pyval) (type_message finite_message : string) : res float :=
  raise_if (negb (is_int value || is_float value)) ProtocolError type_message;;
  converted ← py_float value;
  raise_if (negb (isfinite converted)) ProtocolError finite_message;;
  Ok converted.

Definition parse_vector (raw_vector : pyval) (dimension : Z) : res (list pyval) :=
  match raw_vector with
  | PList l =>
      raise_if (negb (Z.of_nat (length l) =? dimension))
        ProtocolError "snapshot vector dimension mismatch";;
      map_res (fun value =>
        x ← finite_float value "snapshot vector values must be numeric"
              "snapshot vector values must be finite";
        Ok (PFloat x)) l
  | _ => raise ProtocolError "snapshot vector dimension mismatch"
  end.

(** One turn of the loop over the payload fields: the fields and the names so far. *)
Definition parse_field (acc : list PayloadField.t * list string) (item : pyval)
    : res (list PayloadField.t * list string) :=
  let '(fields, field_names) := acc in
  item ← dict_with_fields item SNAPSHOT_FIELD_FIELDS "snapshot payload fields mismatch";
  name ← dict_item item "name";
  kind ← dict_item item "type";
  value ← dict_item item "value";
  name ← match name with
         | PStr s => raise_if (bool_decide (s = "") || str_in s field_names) ProtocolError
                       "snapshot payload names must be unique strings";; Ok s
         | _ => raise ProtocolError "snapshot payload names must be unique strings"
         end;
  kind ← match kind with
         | PStr s => raise_if (negb (str_in s PAYLOAD_TYPES)) ProtocolError
                       "snapshot payload type is invalid";; Ok s
         | _ => raise ProtocolError "snapshot payload type is invalid"
         end;
  raise_if (bool_decide (kind = "string") && negb (is_str value))
    ProtocolError "snapshot string payload type mismatch";;
  raise_if (bool_decide (kind = "int") && negb (is_int value))
    ProtocolError "snapshot integer payload type mismatch";;
  raise_if (bool_decide (kind = "bool") && negb (is_bool value))
    ProtocolError "snapshot boolean payload type mismatch";;
  value ← (if bool_decide (kind = "float") then
             x ← finite_float value "snapshot float payload type mismatch"
                   "snapshot float payload type mismatch";
             Ok (PFloat x)
           else Ok value);
  Ok (fields ++ [PayloadField.Mk (PStr name) (PStr kind) value], name :: field_names).

(** One turn of the loop over the sparse elements. *)
Definition parse_sparse (acc : list SparseElement.t * list Z) (item : pyval)
    : res (list SparseElement.t * list Z) :=
  let '(sparse, seen_terms) := acc in
  item ← dict_with_fields item SNAPSHOT_SPARSE_FIELDS "snapshot sparse fields mismatch";
  v ← dict_item item "term_id";
  term_id ← _exact_int v "snapshot sparse term ID";
  weight ← dict_item item "weight";
  raise_if ((term_id <? 0) || bool_decide (term_id ∈ seen_terms)) ProtocolError
    "snapshot sparse term IDs must be unique and non-negative";;
  weight ← finite_float weight "snapshot sparse weights must be finite numbers"
             "snapshot sparse weights must be finite numbers";
  Ok (sparse ++ [SparseElement.Mk (PInt term_id) (PFloat weight)], term_id :: seen_terms).

Definition parsed : Type :=
  (list BatchMutation.t * list (Z * list SparseElement.t) * list Z)%type.

(** One turn of the loop over the rows. *)
Definition parse_row (dimension : Z) (acc : parsed) (row : pyval) : res parsed :=
  let '(mutations, sparse_rows, seen_ids) := acc in
  row ← dict_with_fields row SNAPSHOT_ROW_FIELDS "snapshot row fields mismatch";
  v ← dict_item row "id"; point_id ← _exact_int v "snapshot point id";
  v ← dict_item row "sequence"; sequence ← _exact_int v "snapshot sequence";
  raise_if (sequence <=? 0) ProtocolError "snapshot sequence must be positive";;
  raise_if (bool_decide (point_id ∈ seen_ids)) ProtocolError "snapshot point IDs must be unique";;
  raw_vector ← dict_item row "vector";
  vector ← parse_vector raw_vector dimension;
  raw_fields ← dict_item row "fields";
  raw_fields ← as_list raw_fields "snapshot fields must be a list";
  '(fields, _) ← for_fold parse_field ([], []) raw_fields;
  raw_sparse ← dict_item row "sparse";
  raw_sparse ← as_list raw_sparse "snapshot sparse vector must be a list";
  '(sparse, _) ← for_fold parse_sparse ([], []) raw_sparse;
  Ok (mutations ++ [BatchMutation.upsert point_id vector (Some fields)],
      sparse_rows ++ [(point_id, sparse)], point_id :: seen_ids).

Definition _parse_snapshot_rows (rows : pyval) (dimension : Z)
    : res (list BatchMutation.t * list (Z * list SparseElement.t)) :=
  rows ← as_list rows "snapshot rows must be a list";
  '(mutations, sparse_rows, _) ← for_fold (parse_row dimension) ([], [], []) rows;
  Ok (mutations, sparse_rows).

(** * Directories *)

Section Site.
Context {K : Type}.

(** The directory of a replica: the state file and its temporary, the journal
    and the collection. *)
Record root : Type := Root {
  state : state_directory; journal_file : option file; storage : option K }.

Definition empty_root : root := Root (ClusterMetadata.Dir None None) None None.

(** The root of a shard and its three workspaces beside it. *)
Record site : Type := Site {
  live : option root; stage : option root; backup : option root; failed : option root }.

Definition set_live (r : option root) (s : site) : site := Site r (stage s) (backup s) (failed s).
Definition set_stage (r : option root) (s : site) : site := Site (live s) r (backup s) (failed s).
Definition set_backup (r : option root) (s : site) : site := Site (live s) (stage s) r (failed s).
Definition set_failed (r : option root) (s : site) : site := Site (live s) (stage s) (backup s) r.

(** [os.replace(self.root, backup_root)] and the other renames.  Each moves a
    directory that exists to a name that does not. *)
Definition live_to_backup (s : site) : site := Site None (stage s) (live s) (failed s).
Definition stage_to_live (s : site) : site := Site (stage s) None (backup s) (failed s).
Definition live_to_failed (s : site) : site := Site None (stage s) (backup s) (live s).
Definition backup_to_live (s : site) : site := Site (backup s) (stage s) None (failed s).

Definition _recover_snapshot_workspaces (s : site) : site :=
  let s := match backup s with
           | Some _ => match live s with
                       | Some _ => set_backup None s
                       | None => backup_to_live s
                       end
           | None => s
           end in
  set_failed None (set_stage None s).

(** [self.root.mkdir(parents=True, exist_ok=True)] *)
Definition make_root (s : site) : site := set_live (Some (default empty_root (live s))) s.
End Site.
