(* ===== verification/SnapshotFacts.v ===== *)
(** What the parser of exported rows lets through: the functional correctness of
    [_parse_snapshot_rows]. *)

From S2P Require Import Prelude PyFloat PyValue Json Checksum Envelope Files Models KernelInterface Mutation Journal Metadata Snapshot.

(** An invariant of a loop, in terms of the elements seen so far *)
Lemma for_fold_seen {A B} (P : list A -> B -> Prop) (f : B -> A -> res B) :
  (forall seen x acc acc', P seen acc -> f acc x = Ok acc' -> P (seen ++ [x]) acc') ->
  forall l seen acc acc', P seen acc -> for_fold f acc l = Ok acc' -> P (seen ++ l) acc'.
Proof.
  intros Hstep. induction l as [|x l IH]; intros seen acc acc' Hp H; cbn [for_fold] in H.
  - injection H as <-. by rewrite app_nil_r.
  - apply bind_Ok in H as (acc1 & H1 & H). replace (seen ++ x :: l) with ((seen ++ [x]) ++ l).
    + eapply IH; [|done]. by eapply Hstep.
    + by rewrite <- app_assoc.
Qed.

(** ** Parts of a row *)

Definition finite_value (v : pyval) : Prop := exists x, v = PFloat x /\ isfinite x = true.

Definition field_ok (f : PayloadField.t) (name : string) : Prop :=
  PayloadField.name f = PStr name /\ name <> "" /\
  exists kind, PayloadField.type f = PStr kind /\
    ((kind = "string" /\ is_str (PayloadField.value f) = true) \/
     (kind = "int" /\ is_int (PayloadField.value f) = true) \/
     (kind = "bool" /\ is_bool (PayloadField.value f) = true) \/
     (kind = "float" /\ finite_value (PayloadField.value f))).

Definition sparse_ok (e : SparseElement.t) (term : Z) : Prop :=
  SparseElement.term_id e = PInt term /\ 0 <= term /\ finite_value (SparseElement.weight e).

(** Each element under its own key *)
Definition distinct {A K} (R : A -> K -> Prop) (l : list A) : Prop :=
  exists keys, Forall2 R l keys /\ NoDup keys.

Lemma finite_float_Ok v t f x : finite_float v t f = Ok x -> isfinite x = true.
Proof. unfold finite_float. intros H. by inv_py. Qed.

Lemma parse_vector_Ok v dimension l :
  parse_vector v dimension = Ok l -> Z.of_nat (length l) = dimension /\ Forall finite_value l.
Proof.
  unfold parse_vector. destruct v; try done. intros H. inv_py. apply map_res_Ok in H. split.
  - by rewrite <- (Forall2_length _ _ _ H).
  - apply Forall_forall. intros y Hy. apply list_elem_of_lookup in Hy as [i Hi].
    destruct (Forall2_lookup_r _ _ _ _ _ H Hi) as (v & _ & Hv). inv_py.
    eexists. split; [done|]. by eapply finite_float_Ok.
Qed.

Lemma parse_field_Ok fields names item fields' names' :
  parse_field (fields, names) item = Ok (fields', names') ->
  exists f name, fields' = fields ++ [f] /\ names' = name :: names /\ field_ok f name /\ name ∉ names.
Proof.
  unfold parse_field. intros H. inv_py.
  assert (x0 = PStr x3 /\ x3 <> "" /\ x3 ∉ names) as (-> & Hne & Hnin).
  { destruct x0 as [| | | |s| | |]; try done. inv_py. unfold str_in in *. by inv_py. }
  assert (x1 = PStr x4 /\ x4 ∈ PAYLOAD_TYPES) as (-> & Hk).
  { destruct x1 as [| | | |s| | |]; try done. inv_py. unfold str_in in *. by inv_py. }
  eexists _, x3. split_and!; [done|done| |done]. split_and!; [done|done|].
  exists x4. split; [done|]. cbn [PayloadField.value].
  unfold PAYLOAD_TYPES in Hk. rewrite !elem_of_cons, elem_of_nil in Hk.
  destruct Hk as [->|[->|[->|[->|[]]]]]; simpl in *; inv_py; [tauto|tauto| |tauto].
  do 3 right. split; [done|]. eexists. split; [done|]. by eapply finite_float_Ok.
Qed.

Lemma parse_sparse_Ok sparse terms item sparse' terms' :
  parse_sparse (sparse, terms) item = Ok (sparse', terms') ->
  exists e term, sparse' = sparse ++ [e] /\ terms' = term :: terms /\ sparse_ok e term /\ term ∉ terms.
Proof.
  unfold parse_sparse. intros H. inv_py. eexists _, _. split_and!; [done|done| |done].
  split_and!; [done|done|]. eexists. split; [done|]. by eapply finite_float_Ok.
Qed.

(** A loop that appends an element and its new key *)
Lemma for_fold_keyed {A B K} (f : list B * list K -> A -> res (list B * list K)) (R : B -> K -> Prop) :
  (forall l keys x l' keys', f (l, keys) x = Ok (l', keys') ->
     exists b k, l' = l ++ [b] /\ keys' = k :: keys /\ R b k /\ k ∉ keys) ->
  forall xs l keys, for_fold f ([], []) xs = Ok (l, keys) -> distinct R l.
Proof.
  intros Hf xs l keys H.
  apply (for_fold_seen (fun _ acc => Forall2 R acc.1 (reverse acc.2) /\ NoDup acc.2)) with (seen := []) in H.
  - destruct H as [HF Hnd]. exists (reverse keys). split; [done|]. by rewrite reverse_Permutation.
  - intros _ x [l1 k1] [l2 k2] [HF Hnd] (b & k & -> & -> & HR & Hk)%Hf. cbn [fst snd] in *. split.
    + rewrite reverse_cons. apply Forall2_app; [done|by constructor].
    + by constructor.
  - split; constructor.
Qed.

(** ** Rows *)

Definition fields_ok (l : list PayloadField.t) : Prop := distinct field_ok l.
Definition terms_ok (l : list SparseElement.t) : Prop := distinct sparse_ok l.

(** What a row is parsed to *)
Definition row_parses (dimension : Z) (row : pyval) (m : BatchMutation.t)
    (sparse : Z * list SparseElement.t) : Prop :=
  exists d vector fields sequence, row = PDict d /\ keys_are d SNAPSHOT_ROW_FIELDS = true /\
    dict_get d "id" = Some (PInt (BatchMutation.id m)) /\
    dict_get d "sequence" = Some (PInt sequence) /\ 0 < sequence /\
    m = BatchMutation.upsert (BatchMutation.id m) vector (Some fields) /\
    Z.of_nat (length vector) = dimension /\ Forall finite_value vector /\ fields_ok fields /\
    sparse.1 = BatchMutation.id m /\ terms_ok sparse.2.

Lemma parse_row_Ok dimension ms sp seen row acc :
  parse_row dimension (ms, sp, seen) row = Ok acc ->
  exists m s, acc = (ms ++ [m], sp ++ [s], BatchMutation.id m :: seen) /\
    row_parses dimension row m s /\ BatchMutation.id m ∉ seen.
Proof.
  unfold parse_row. intros H. inv_py.
  repeat match goal with H : (let '(_, _) := ?x in _) = Ok _ |- _ => destruct x; inv_py end.
  repeat match goal with H : for_fold parse_field _ _ = Ok _ |- _ =>
    apply (for_fold_keyed _ field_ok parse_field_Ok) in H end.
  repeat match goal with H : for_fold parse_sparse _ _ = Ok _ |- _ =>
    apply (for_fold_keyed _ sparse_ok parse_sparse_Ok) in H end.
  repeat match goal with H : parse_vector _ _ = Ok _ |- _ => apply parse_vector_Ok in H as [? ?] end.
  eexists (BatchMutation.upsert _ _ (Some _)), (_, _). split; [done|]. split; [|done].
  unfold row_parses. cbn [BatchMutation.id BatchMutation.upsert fst snd].
  eexists _, _, _, _. split_and!; try done; done.
Qed.

(** The parsed rows are the rows: same order and identifiers, which are distinct;
    vectors of the dimension with finite values; payload names and sparse terms
    distinct in each row, of the declared types. *)
Lemma parse_rows_Ok rows dimension ms sp :
  _parse_snapshot_rows rows dimension = Ok (ms, sp) ->
  exists l, rows = PList l /\ NoDup (BatchMutation.id <$> ms) /\ length ms = length l /\
    length sp = length l /\
    forall i row, l !! i = Some row -> exists m s, ms !! i = Some m /\ sp !! i = Some s /\
      row_parses dimension row m s.
Proof.
  unfold _parse_snapshot_rows. intros H. inv_py.
  match goal with H : (let '(_, _) := ?x in _) = Ok _ |- _ => destruct x as [[ms' sp'] seen]; inv_py end.
  match goal with H : for_fold _ _ ?l = Ok _ |- _ => exists l; rename H into Hf; set (rows := l) in * end.
  split; [done|].
  apply (for_fold_seen (fun done acc => acc.2 = reverse (BatchMutation.id <$> acc.1.1) /\ NoDup acc.2 /\
    length acc.1.1 = length done /\ length acc.1.2 = length done /\
    forall i row, done !! i = Some row -> exists m s, acc.1.1 !! i = Some m /\ acc.1.2 !! i = Some s /\
      row_parses dimension row m s)) with (seen := []) in Hf.
  - cbn [fst snd] in Hf. destruct Hf as (Hs & Hnd & Hl & Hl' & Hi). split_and!; try done.
    rewrite Hs in Hnd. by rewrite reverse_Permutation in Hnd.
  - intros done_ row [[ms1 sp1] seen1] acc (Hs & Hnd & Hl & Hl' & Hi) (m & s & -> & Hr & Hn)%parse_row_Ok.
    cbn [fst snd] in *. split_and!.
    + by rewrite fmap_app, reverse_app, Hs.
    + by constructor.
    + rewrite !length_app. cbn. lia.
    + rewrite !length_app. cbn. lia.
    + intros i row' [H|[H1 H2]]%lookup_app_Some.
      * destruct (Hi i row' H) as (m' & s' & ? & ? & ?). exists m', s'.
        by split_and!; [apply lookup_app_l_Some|apply lookup_app_l_Some|].
      * apply list_lookup_singleton_Some in H2 as [Hi0 <-].
        exists m, s. split_and!; [| |done]; apply lookup_app_Some; right;
          (split; [lia|]); apply list_lookup_singleton_Some; (split; [lia|done]).
  - cbn. split_and!; try done. constructor.
Qed.
