(* ===== verification/Replica.v ===== *)
(** [ReplicaShard] of [python/akashadb/distributed/replica.py]: one shard of a
    replica, its journal, its collection and the directory they live in. *)

From S2P Require Import Prelude Assoc PyFloat PyValue Json Checksum Envelope Files Models KernelConfig KernelInterface Vectors Database CollectionIdentity Mutation Journal Metadata Snapshot.

Module ReplicaShard.
Section Shard.
Context {K : Type} `{!Kernel K}.
Variable perf_counter_ns : nat -> Z.
Abbreviation Collection := (@Collection K).
Abbreviation site := (@site K).
Abbreviation root := (@root K).

Record t : Type := Mk {
  shard_site : site;
  shard_id : Z;
  dimension : Z;
  config : CollectionConfig.t;
  term : Z;
  placement_epoch : Z;
  applied_index : Z;
  journal : ReplicaJournal.t;
  collection : Collection }.

Definition set_site (d : site) (s : t) : t :=
  Mk d (shard_id s) (dimension s) (config s) (term s) (placement_epoch s) (applied_index s)
    (journal s) (collection s).
Definition set_epochs (term placement_epoch : Z) (s : t) : t :=
  Mk (shard_site s) (shard_id s) (dimension s) (config s) term placement_epoch (applied_index s)
    (journal s) (collection s).
Definition set_applied_index (i : Z) (s : t) : t :=
  Mk (shard_site s) (shard_id s) (dimension s) (config s) (term s) (placement_epoch s) i
    (journal s) (collection s).
Definition set_journal (j : ReplicaJournal.t) (s : t) : t :=
  Mk (shard_site s) (shard_id s) (dimension s) (config s) (term s) (placement_epoch s)
    (applied_index s) j (collection s).
Definition set_collection (c : Collection) (s : t) : t :=
  Mk (shard_site s) (shard_id s) (dimension s) (config s) (term s) (placement_epoch s)
    (applied_index s) (journal s) c.

(** What [self.root] holds; the directory exists whenever it is asked for. *)
Definition disk (s : t) : root := default empty_root (live (shard_site s)).
Definition set_disk (r : root) (s : t) : t := set_site (set_live (Some r) (shard_site s)) s.
Definition on_site (f : site -> site) : M t unit :=
  modify (fun s => set_site (f (shard_site s)) s).

(** A method of [self.journal], on the file of the directory. *)
Definition with_journal {A} (m : M ReplicaJournal.t A) : M t A := fun s =>
  let r := disk s in
  let '(o, j) := m (ReplicaJournal.set_path (journal_file r) (journal s)) in
  (o, set_journal j (set_disk (Root (state r) (ReplicaJournal.path j) (storage r)) s)).

Definition store (k : K) (s : t) : t :=
  set_disk (Root (state (disk s)) (journal_file (disk s)) (Some k)) s.

(** A method of [self.collection], whose storage is in the directory. *)
Definition with_collection {A} (m : M Collection A) : M t A := fun s =>
  let '(o, c) := m (collection s) in (o, store (_kernel c) (set_collection c s)).

Definition state_payload (term placement_epoch applied_index : Z) : dict :=
  [("term", PInt term); ("placement_epoch", PInt placement_epoch);
   ("applied_index", PInt applied_index)].

Definition _publish_state : M t unit := modify (fun s =>
  let r := disk s in
  set_disk (Root (_publish_checked (state_payload (term s) (placement_epoch s) (applied_index s))
                    (state r)) (journal_file r) (storage r)) s).

Definition status : M t pyval :=
  s ← get_state;
  sequence ← with_collection (last_sequence perf_counter_ns);
  c ← with_collection (collection_config perf_counter_ns);
  mret (PDict [("shard_id", PInt (shard_id s)); ("term", PInt (term s));
               ("placement_epoch", PInt (placement_epoch s));
               ("applied_index", PInt (applied_index s)); ("last_sequence", PInt sequence);
               ("config_fingerprint", CollectionConfig.opt_int (CollectionConfig.fingerprint c))]).

Definition configure (new_term new_epoch : Z) : M t pyval :=
  s ← get_state;
  lift (raise_if ((new_term <? term s) || (new_epoch <? placement_epoch s))
          StaleEpochError "replica configuration epoch regression");;
  modify (set_epochs new_term new_epoch);;
  _publish_state;;
  status.

Definition _validate_entry_epoch (entry : ReplicatedEntry.t) (s : t) : res unit :=
  raise_if (negb (ReplicatedEntry.shard_id entry =? shard_id s))
    ProtocolError "replicated entry routed to wrong shard";;
  raise_if (negb (ReplicatedEntry.term entry =? term s) ||
            negb (ReplicatedEntry.placement_epoch entry =? placement_epoch s))
    StaleEpochError "stale shard term or placement epoch".

Definition prepare (entry : ReplicatedEntry.t) : M t pyval :=
  s ← get_state;
  lift (_validate_entry_epoch entry s);;
  lift (validate_replicated_mutation (PDict (ReplicatedEntry.mutation entry)) (Some (dimension s)));;
  lift (raise_if (ReplicatedEntry.index entry <=? ReplicaJournal.snapshot_index (journal s))
          ProtocolError "replicated index predates installed snapshot");;
  with_journal (ReplicaJournal.prepare entry);;
  mret (PDict [("prepared_index", PInt (ReplicatedEntry.index entry));
               ("checksum", PInt (ReplicatedEntry.mutation_checksum entry))]).

(** [str(v)] of a value that is not a container *)
Definition str_of (v : pyval) : res string :=
  match py_str v with
  | Some s => Ok s
  | None => raise TypeError "text of a container"
  end.

Definition mutation_field (item : pyval) : res PayloadField.t :=
  item ← subscriptable item;
  name ← dict_item item "name"; name ← str_of name;
  type ← dict_item item "type";
  value ← dict_item item "value";
  Ok (PayloadField.Mk (PStr name) type value).

Definition mutation_element (item : pyval) : res SparseElement.t :=
  item ← subscriptable item;
  term_id ← dict_item item "term_id"; term_id ← py_int term_id;
  weight ← dict_item item "weight"; weight ← py_float weight;
  Ok (SparseElement.Mk (PInt term_id) (PFloat weight)).

(** [[f(item) for item in mapping.get(name, [])]] *)
Definition items_of {A} (mapping : dict) (name : string) (f : pyval -> res A) : res (list A) :=
  l ← Point.iterable (dict_get_or mapping name (PList []));
  map_res f l.

Definition _apply (mutation : dict) : M t unit :=
  s ← get_state;
  lift (validate_replicated_mutation (PDict mutation) (Some (dimension s)));;
  operation ← lift (dict_item mutation "operation");
  id ← lift (dict_item mutation "id");
  point_id ← lift (py_int id);
  if py_eq operation (PStr "delete") then
    with_collection (delete perf_counter_ns (PInt point_id))
  else
    lift (raise_if (negb (py_eq operation (PStr "upsert")))
            ProtocolError "unknown replicated mutation operation");;
    fields ← lift (items_of mutation "fields" mutation_field);
    vector ← lift (dict_item mutation "vector");
    vector ← lift (Point.iterable vector);
    vector ← lift (map_res py_float vector);
    with_collection (upsert perf_counter_ns (PInt point_id) (PList (PFloat <$> vector)) (Some fields));;
    sparse ← lift (items_of mutation "sparse" mutation_element);
    if bool_decide (length sparse = 0%nat) then mret tt
    else with_collection (upsert_sparse perf_counter_ns (PInt point_id) sparse).

Definition commit (entry : ReplicatedEntry.t) : M t pyval :=
  s ← get_state;
  lift (_validate_entry_epoch entry s);;
  lift (validate_replicated_mutation (PDict (ReplicatedEntry.mutation entry)) (Some (dimension s)));;
  with_journal (ReplicaJournal.prepare entry);;
  committed ← with_journal (ReplicaJournal.commit (ReplicatedEntry.index entry));
  (if applied_index s <? ReplicatedEntry.index committed then
     _apply (ReplicatedEntry.mutation committed);;
     modify (set_applied_index (ReplicatedEntry.index committed));;
     _publish_state
   else mret tt);;
  s ← get_state;
  mret (PDict [("committed_index", PInt (ReplicatedEntry.index entry));
               ("applied_index", PInt (applied_index s))]).

Definition _replay_committed : M t unit :=
  s ← get_state;
  entries ← lift (ReplicaJournal.committed_after (journal s) (applied_index s));
  for_each_M (fun entry =>
    _apply (ReplicatedEntry.mutation entry);;
    modify (set_applied_index (ReplicatedEntry.index entry));;
    _publish_state) entries.

Definition default_state : dict := state_payload 0 0 0.

(** The three numbers of a state file. *)
Definition read_state (f : option file) : res (Z * Z * Z) :=
  state ← _load_checked f default_state;
  raise_if (negb (keys_are state REPLICA_STATE_FIELDS)) ProtocolError "replica state fields mismatch";;
  v ← dict_item state "term"; term ← _exact_int v "replica state term";
  v ← dict_item state "placement_epoch";
  placement_epoch ← _exact_int v "replica state placement epoch";
  v ← dict_item state "applied_index";
  applied_index ← _exact_int v "replica state applied index";
  Ok (term, placement_epoch, applied_index).

(** [Collection(root / "collection", dimension, config=config)] *)
Definition open_in (r : root) (dim : Z) (c : CollectionConfig.t) : res Collection :=
  open_collection (storage r) dim (CollectionConfig.Config c) None None None.

(** The end of [__init__]: the object is dropped when the replay raises. *)
Definition replayed (shard : t) : M site t := fun _ =>
  let '(r, shard) := _replay_committed shard in
  (match r with Ok _ => Ok shard | Raise e => Raise e end, shard_site shard).

(** [__init__], on what is beside and in the root. *)
Definition init (shard_id dim : Z) (config : dict) : M site t :=
  canonical_config ← lift (canonical_collection_config (PDict config) dim);
  config ← lift (CollectionConfig.from_kernel canonical_config);
  modify (make_root ∘ _recover_snapshot_workspaces);;
  d ← get_state;
  let r := default empty_root (live d) in
  numbers ← lift (read_state (ClusterMetadata.destination (state r)));
  let '(term, placement_epoch, applied_index) := numbers in
  journal ← lift (ReplicaJournal.open (journal_file r));
  let r := Root (state r) (ReplicaJournal.path journal) (storage r) in
  modify (set_live (Some r));;
  collection ← lift (open_in r dim config);
  d ← get_state;
  replayed (store (_kernel collection)
    (Mk d shard_id dim config term placement_epoch applied_index journal collection)).

(** [int(request.get(name, default))] and [int(request[name])] *)
Definition int_or (request : dict) (name : string) (default : Z) : res Z :=
  py_int (dict_get_or request name (PInt default)).

Definition parse_request (request : dict) : res SearchRequest.t :=
  sparse ← items_of request "sparse" mutation_element;
  metric ← dict_item request "metric";
  k ← dict_item request "k"; k ← py_int k;
  ef_search ← int_or request "ef_search" 64;
  fetch_k ← int_or request "fetch_k" 50;
  rank_constant ← int_or request "rank_constant" 60;
  Ok (SearchRequest.Mk metric k (dict_get_or request "vector" PNone) sparse
        (dict_get_or request "mode" (PStr "exact")) ef_search fetch_k rank_constant
        (dict_get_or request "filter" PNone)).

(** [value.get] of something that is not a dictionary *)
Definition mapping (value : pyval) : res dict :=
  match value with
  | PDict d => Ok d
  | _ => raise AttributeError "object has no attribute 'get'"
  end.

Definition query (request : pyval) : M t pyval :=
  request ← lift (mapping request);
  typed ← lift (parse_request request);
  results ← with_collection (search perf_counter_ns typed);
  stats ← with_collection (last_search_stats perf_counter_ns);
  mret (PDict [("items", PList ((fun r => PDict [("id", PInt (SearchResult.id r));
                                                 ("score", PFloat (SearchResult.score r))])
                                <$> results));
               ("stats", PDict stats)]).

Definition get (point_id : Z) : M t pyval :=
  document ← with_collection (Database.get perf_counter_ns (PInt point_id) None);
  match document with
  | None => mret PNone
  | Some d =>
      mret (PDict [("id", PInt (Document.id d)); ("sequence", PInt (Document.sequence d));
                   ("vector", PList (PFloat <$> Document.vector d));
                   ("fields", PList (PayloadField.to_kernel <$> Document.fields d))])
  end.

Definition export_records : M t pyval :=
  rows ← with_collection (_export_records perf_counter_ns); mret (PList rows).

Definition entries_after (index : Z) : M t pyval :=
  s ← get_state;
  entries ← lift (ReplicaJournal.committed_after (journal s) index);
  entries ← lift (map_res ReplicatedEntry.to_dict entries);
  mret (PList (PDict <$> entries)).

Definition close : M t unit := with_collection (close perf_counter_ns).

(** ** Installing a snapshot *)

(** What the checks at the top of [install_snapshot] let through. *)
Record snapshot : Type := Snapshot {
  snapshot_index : Z; snapshot_term : Z; snapshot_epoch : Z; incoming_config : dict;
  mutations : list BatchMutation.t; sparse_rows : list (Z * list SparseElement.t) }.

Definition check_snapshot (rows config_ index term_ placement_epoch_ checksum : pyval) (s : t)
    : res snapshot :=
  index ← _exact_int index "snapshot index";
  term_ ← _exact_int term_ "snapshot term";
  placement_epoch_ ← _exact_int placement_epoch_ "snapshot placement epoch";
  checksum ← _exact_int checksum "snapshot checksum";
  raise_if (index <? applied_index s) ProtocolError "snapshot cannot regress applied index";;
  raise_if ((term_ <? term s) || (placement_epoch_ <? placement_epoch s))
    StaleEpochError "snapshot epoch regression";;
  incoming_config ← canonical_collection_config config_ (dimension s);
  raise_if (negb (py_eq (PDict incoming_config)
                    (PDict (CollectionConfig.asdict (config s)))))
    ProtocolError "snapshot collection config mismatch";;
  '(mutations, sparse_rows) ← _parse_snapshot_rows rows (dimension s);
  raise_if (negb (checksum =? snapshot_checksum rows incoming_config index))
    ProtocolError "snapshot checksum mismatch";;
  Ok (Snapshot index term_ placement_epoch_ incoming_config mutations sparse_rows).
(** The staged collection: filled, flushed, checked and closed in any case. *)
Definition fill_staged (sn : snapshot) : M Collection unit :=
  try_finally
    ((if bool_decide (mutations sn = []) then mret tt
      else
        apply_batch perf_counter_ns (mutations sn);;
        for_each_M (fun row =>
          if bool_decide (row.2 = []) then mret tt
          else upsert_sparse perf_counter_ns (PInt row.1) row.2) (sparse_rows sn));;
     flush perf_counter_ns;;
     c ← collection_config perf_counter_ns;
     lift (raise_if (negb (py_eq (PDict (CollectionConfig.asdict c)) (PDict (incoming_config sn))))
             ProtocolError "staged snapshot config mismatch"))
    (Database.close perf_counter_ns).

(** Build the new directory in the stage. *)
Definition build_stage (sn : snapshot) : M t unit :=
  s ← get_state;
  staged ← lift (open_in empty_root (dimension s) (config s));
  let '(r, staged) := fill_staged sn staged in
  let built := Root (state (@empty_root K)) None (Some (_kernel staged)) in
  on_site (set_stage (Some built));;
  lift r;;
  journal ← lift (ReplicaJournal.open (journal_file built));
  let '(r, journal) := ReplicaJournal.install_snapshot (snapshot_index sn) journal in
  lift r;;
  let built := Root (state built) (ReplicaJournal.path journal) (storage built) in
  on_site (set_stage (Some built));;
  let published := _publish_checked
    (state_payload (snapshot_term sn) (snapshot_epoch sn) (snapshot_index sn)) (state built) in
  on_site (set_stage (Some (Root published (journal_file built) (storage built)))).

(** [replacement.close()] of the collection in the root *)
Definition close_replacement (replacement : Collection) : M t unit := fun s =>
  let '(r, c) := Database.close perf_counter_ns replacement in (r, store (_kernel c) s).

(** The handler of the exchange: back to the old directory. *)
Definition rollback {A} (replacement : option Collection) (error : exn) : M t A :=
  match replacement with
  | Some c => close_replacement c
  | None => mret tt
  end;;
  on_site (fun d => match live d with Some _ => live_to_failed d | None => d end);;
  on_site backup_to_live;;
  s ← get_state;
  c ← lift (open_in (disk s) (dimension s) (config s));
  modify (set_collection c);;
  j ← lift (ReplicaJournal.open (journal_file (disk s)));
  modify (set_journal j);;
  on_site (set_failed None);;
  lift (Raise error).

(** The exchange: the staged directory in the place of the root, opened and
    checked; the new collection and journal. *)
Definition exchange (index : Z) : M t (Collection * ReplicaJournal.t) :=
  on_site stage_to_live;;
  s ← get_state;
  match open_in (disk s) (dimension s) (config s) with
  | Raise error => rollback None error
  | Ok replacement =>
      modify (store (_kernel replacement));;
      match ReplicaJournal.open (journal_file (disk s)) with
      | Raise error => rollback (Some replacement) error
      | Ok replacement_journal =>
          if ReplicaJournal.snapshot_index replacement_journal =? index then
            mret (replacement, replacement_journal)
          else
            let '(r, closed) := Database.close perf_counter_ns replacement in
            modify (store (_kernel closed));;
            rollback (Some closed)
              match r with
              | Raise error => error
              | Ok _ => Exn ProtocolError "installed snapshot journal mismatch"
              end
      end
  end.

Definition install_snapshot (rows config_ index term_ placement_epoch_ checksum : pyval)
    : M t pyval :=
  s ← get_state;
  sn ← lift (check_snapshot rows config_ index term_ placement_epoch_ checksum s);
  on_site _recover_snapshot_workspaces;;
  on_site (set_stage (Some empty_root));;
  try_finally
    (build_stage sn;;
     with_collection (Database.close perf_counter_ns);;
     on_site live_to_backup;;
     replaced ← exchange (snapshot_index sn);
     let '(replacement, replacement_journal) := replaced in
     modify (set_collection replacement);;
     modify (set_journal replacement_journal);;
     modify (set_epochs (snapshot_term sn) (snapshot_epoch sn));;
     modify (set_applied_index (snapshot_index sn));;
     on_site (set_backup None))
    (on_site (set_stage None));;
  status.
End Shard.
End ReplicaShard.
