(* ===== verification/ReplicaFacts.v ===== *)
(** Properties of a replica shard: what each operation leaves alone, epochs and
    applied indexes that never go back, the journal and the state file on the
    disk, restarts, and the exchange of directories. *)

From S2P Require Import Prelude Assoc PyFloat PyValue Json JsonFacts Checksum Envelope Files Models KernelConfig KernelInterface Vectors Database CollectionIdentity Mutation Journal JournalFacts Metadata MetadataFacts Snapshot Replica.
Import EntryFacts.

Section Facts.
Context {K : Type} `{!Kernel K}.
Variable perf_counter_ns : nat -> Z.
Abbreviation shard := (@ReplicaShard.t K).
Import ReplicaShard.

(** * Quiet steps: they touch neither the numbers, nor the journal, nor the
    state file *)

Definition numbers (s : shard) : Z * Z * Z := (term s, placement_epoch s, applied_index s).
Definition identity (s : shard) : Z * Z * CollectionConfig.t := (shard_id s, dimension s, config s).
Definition state_file (s : shard) : option file := ClusterMetadata.destination (state (disk s)).

Definition workspaces (s : shard) : option (@root K) * option root * option root :=
  (stage (shard_site s), backup (shard_site s), failed (shard_site s)).

Record quiet (s s' : shard) : Prop := {
  quiet_numbers : numbers s' = numbers s;
  quiet_identity : identity s' = identity s;
  quiet_journal : journal s' = journal s;
  quiet_file : journal_file (disk s') = journal_file (disk s);
  quiet_state : state_file s' = state_file s;
  quiet_workspaces : workspaces s' = workspaces s }.

#[export] Instance quiet_preorder : PreOrder quiet.
Proof.
  split; [by intros s|]. intros s1 s2 s3 [] []. split; congruence.
Qed.

Lemma with_collection_quiet {A} (m : M (@Collection K) A) : respects quiet (with_collection m).
Proof.
  intros s. unfold with_collection. destruct (m (collection s)) as [r c]. by split.
Qed.

Lemma status_quiet : respects quiet (status perf_counter_ns).
Proof. unfold status. repeat first [walk_step | apply with_collection_quiet]. Qed.

Lemma apply_quiet mutation : respects quiet (_apply perf_counter_ns mutation).
Proof. unfold _apply. repeat first [walk_step | apply with_collection_quiet]. Qed.

Lemma query_quiet request : respects quiet (query perf_counter_ns request).
Proof. unfold query. repeat first [walk_step | apply with_collection_quiet]. Qed.

Lemma get_quiet id : respects quiet (get perf_counter_ns id).
Proof. unfold get. repeat first [walk_step | apply with_collection_quiet]. Qed.

Lemma export_quiet : respects quiet (export_records perf_counter_ns).
Proof. unfold export_records. repeat first [walk_step | apply with_collection_quiet]. Qed.

Lemma entries_quiet index : respects quiet (entries_after index).
Proof. unfold entries_after. walk. Qed.

(** * Journal steps *)

(** The handle has the tables, the directory has the file. *)
Definition handle (s : shard) : ReplicaJournal.t :=
  ReplicaJournal.set_path (journal_file (disk s)) (journal s).

Lemma with_journal_run {A} (m : M ReplicaJournal.t A) s :
  let '(r, j) := m (handle s) in
  exists s', with_journal m s = (r, s') /\ handle s' = j /\ numbers s' = numbers s /\
    identity s' = identity s /\ state_file s' = state_file s.
Proof.
  unfold with_journal. fold (handle s). destruct (m (handle s)) as [r j].
  eexists. split_and!; try done. by destruct j.
Qed.

Lemma quiet_handle s s' : quiet s s' -> handle s' = handle s.
Proof. intros []. unfold handle. congruence. Qed.
(** * Fencing *)

(** The checks both [prepare] and [commit] begin with. *)
Definition admissible (e : ReplicatedEntry.t) (s : shard) : res unit :=
  _validate_entry_epoch e s;;
  validate_replicated_mutation (PDict (ReplicatedEntry.mutation e)) (Some (dimension s)).

Lemma admissible_Ok e s :
  admissible e s = Ok tt <->
  ReplicatedEntry.shard_id e = shard_id s /\ ReplicatedEntry.term e = term s /\
  ReplicatedEntry.placement_epoch e = placement_epoch s /\
  mutation_ok (Some (dimension s)) (ReplicatedEntry.mutation e).
Proof.
  unfold admissible, _validate_entry_epoch. split.
  - intros H. inv_py. match goal with H : validate_replicated_mutation _ _ = Ok ?u |- _ =>
      destruct u; apply validate_mutation_spec in H as (? & [= <-] & ?) end.
    by split_and!.
  - intros (-> & -> & -> & Hm). rewrite !Z.eqb_refl. cbn [negb orb raise_if mbind res_bind].
    apply validate_mutation_spec. by eexists.
Qed.

(** An entry that is not admissible is refused without a trace. *)
Lemma prepare_refused e s err :
  admissible e s = Raise err -> prepare e s = (Raise err, s).
Proof.
  unfold admissible, prepare. rewrite run_get, run_lift.
  destruct (_validate_entry_epoch e s) as [u|]; [|by intros [= <-]].
  cbn [mbind res_bind]. rewrite run_lift. by intros ->.
Qed.

Lemma commit_refused e s err :
  admissible e s = Raise err -> commit perf_counter_ns e s = (Raise err, s).
Proof.
  unfold admissible, commit. rewrite run_get, run_lift.
  destruct (_validate_entry_epoch e s) as [u|]; [|by intros [= <-]].
  cbn [mbind res_bind]. rewrite run_lift. by intros ->.
Qed.

(** An admissible entry, past the checks. *)
Lemma prepare_admitted e s :
  admissible e s = Ok tt ->
  prepare e s =
    (lift (raise_if (ReplicatedEntry.index e <=? ReplicaJournal.snapshot_index (journal s))
          ProtocolError "replicated index predates installed snapshot");;
     with_journal (ReplicaJournal.prepare e);;
     mret (PDict [("prepared_index", PInt (ReplicatedEntry.index e));
                  ("checksum", PInt (ReplicatedEntry.mutation_checksum e))])) s.
Proof.
  unfold admissible, prepare. intros H. rewrite run_get, run_lift.
  destruct (_validate_entry_epoch e s) as [u|]; [|done].
  cbn [mbind res_bind] in H. rewrite run_lift. by rewrite H.
Qed.

(** The tail of [commit]: apply what is new. *)
Definition apply_committed (seen : Z) (e : ReplicatedEntry.t) : M shard unit :=
  if seen <? ReplicatedEntry.index e then
    _apply perf_counter_ns (ReplicatedEntry.mutation e);;
    modify (set_applied_index (ReplicatedEntry.index e));;
    _publish_state
  else mret tt.

Lemma commit_admitted e s :
  admissible e s = Ok tt ->
  commit perf_counter_ns e s =
    (with_journal (ReplicaJournal.prepare e);;
     committed ← with_journal (ReplicaJournal.commit (ReplicatedEntry.index e));
     apply_committed (applied_index s) committed;;
     s ← get_state;
     mret (PDict [("committed_index", PInt (ReplicatedEntry.index e));
                  ("applied_index", PInt (applied_index s))])) s.
Proof.
  unfold admissible, commit. intros H. rewrite run_get, run_lift.
  destruct (_validate_entry_epoch e s) as [u|]; [|done].
  cbn [mbind res_bind] in H. rewrite run_lift. by rewrite H.
Qed.

(** The state file after [_publish_state]. *)
Definition state_text (numbers : Z * Z * Z) : string :=
  let '(t, p, a) := numbers in envelope_text (state_payload t p a) +:+ nl.

Definition state_holds (f : option file) (numbers : Z * Z * Z) : Prop :=
  exists g, f = Some g /\ content g = state_text numbers /\ durable f.

Lemma publish_state_run s :
  exists s', _publish_state s = (Ok tt, s') /\ numbers s' = numbers s /\
    identity s' = identity s /\ journal s' = journal s /\
    journal_file (disk s') = journal_file (disk s) /\ collection s' = collection s /\
    state_holds (state_file s') (numbers s').
Proof. eexists. split_and!; try done. eexists. by split_and!. Qed.

Lemma read_state_holds f t p a :
  state_holds f (t, p, a) -> int_ok t = true -> int_ok p = true -> int_ok a = true ->
  read_state f = Ok (t, p, a).
Proof.
  intros (g & -> & Hg & _) Ht Hp Ha. unfold read_state, _load_checked. cbn [exists_file negb read_bytes].
  assert (json_ok (PDict (state_payload t p a)) = true) as Hok.
  { unfold state_payload. cbn [json_ok forallb]. rewrite Ht, Hp, Ha.
    rewrite bool_decide_eq_true_2; [done|]. refine (bool_decide_eq_true_1 _ _); by vm_compute. }
  destruct (loads_envelope_line _ Hok) as (v & Hv & Hd).
  rewrite Hg. unfold state_text. cbn [mbind res_bind]. rewrite Hv. cbn [mbind res_bind].
  unfold decode_envelope. rewrite Hd. cbn [mbind res_bind try_except].
  assert (NoDup (state_payload t p a).*1) as Hnd.
  { refine (bool_decide_eq_true_1 _ _); by vm_compute. }
  unfold sorted_payload. rewrite keys_are_sorted.
  replace (keys_are (state_payload t p a) REPLICA_STATE_FIELDS) with true by (by vm_compute).
  cbn [negb raise_if mbind res_bind]. unfold dict_item.
  by rewrite !dict_get_sorted by done.
Qed.
(** * Numbers never go back *)

Definition behind (m n : Z * Z * Z) : Prop :=
  let '(t, p, a) := m in let '(t', p', a') := n in t <= t' /\ p <= p' /\ a <= a'.

Definition ints_ok (n : Z * Z * Z) : Prop :=
  let '(t, p, a) := n in int_ok t = true /\ int_ok p = true /\ int_ok a = true.

#[export] Instance behind_preorder : PreOrder behind.
Proof.
  split; [intros [[t p] a]; cbn; lia|].
  intros [[t1 p1] a1] [[t2 p2] a2] [[t3 p3] a3]; cbn; lia.
Qed.

(** What a state file says: no file is the default. *)
Definition file_numbers (f : option file) (n : Z * Z * Z) : Prop :=
  state_holds f n \/ (f = None /\ n = (0, 0, 0)).

Lemma file_numbers_read f n : file_numbers f n -> ints_ok n -> read_state f = Ok n.
Proof.
  destruct n as [[t p] a]. intros [Hf|[-> ->]] (Ht & Hp & Ha); [by apply read_state_holds|done].
Qed.

(** Prepared entries are kept under their own index. *)
Definition keyed (j : ReplicaJournal.t) : Prop :=
  map_Forall (fun i e => ReplicatedEntry.index e = i) (ReplicaJournal.prepared j).

(** The directory is there, and its state file is not behind the shard. *)
Record recorded (s : shard) : Prop := Recorded {
  recorded_live : is_Some (live (shard_site s));
  recorded_file : exists n, file_numbers (state_file s) n /\ behind (numbers s) n /\ ints_ok n;
  recorded_ints : ints_ok (numbers s);
  recorded_keyed : keyed (journal s) }.

(** A step that moves forward and keeps the record. *)
Definition forward (s s' : shard) : Prop :=
  recorded s -> identity s' = identity s /\ behind (numbers s) (numbers s') /\ recorded s'.

#[export] Instance forward_preorder : PreOrder forward.
Proof.
  split; [intros s Hs; by split_and!|].
  intros s1 s2 s3 H12 H23 H1. destruct (H12 H1) as (Hi & Hb & H2).
  destruct (H23 H2) as (Hi' & Hb' & H3). split_and!; [congruence|by etransitivity|done].
Qed.

(** Steps that keep the numbers and the state file *)
Lemma still_forward s s' :
  (is_Some (live (shard_site s)) -> is_Some (live (shard_site s'))) ->
  numbers s' = numbers s -> identity s' = identity s -> state_file s' = state_file s ->
  (keyed (journal s) -> keyed (journal s')) -> forward s s'.
Proof.
  intros Hl Hn Hi Hf Hk [Hlive Hfile Hints Hkeyed]. split_and!; [done|by rewrite Hn|].
  split; [auto|by rewrite Hf, Hn|by rewrite Hn|auto].
Qed.

Lemma with_collection_forward {A} (m : M (@Collection K) A) : respects forward (with_collection m).
Proof.
  intros s. unfold with_collection. destruct (m (collection s)) as [r c]. by apply still_forward.
Qed.

Lemma with_journal_forward {A} (m : M ReplicaJournal.t A) :
  respects (keeps_true keyed) m -> respects forward (with_journal m).
Proof.
  intros Hm s. unfold with_journal. specialize (Hm (handle s)). fold (handle s).
  destruct (m (handle s)) as [r j]. by apply still_forward.
Qed.

Lemma journal_prepare_keyed e : respects (keeps_true keyed) (ReplicaJournal.prepare e).
Proof.
  intros j Hj. pose proof (prepare_spec e j) as Hs.
  destruct (ReplicatedEntry.validate e); [|by rewrite Hs].
  destruct (_ !! _); rewrite Hs; [done|]. by apply map_Forall_insert_2.
Qed.

Lemma journal_commit_keyed i : respects (keeps_true keyed) (ReplicaJournal.commit i).
Proof.
  intros j Hj. rewrite commit_spec. destruct (_ !! _); [|done]. cbn [snd]. by case_bool_decide.
Qed.

Ltac forward_walk :=
  repeat first [walk_step | apply with_collection_forward | apply with_journal_forward
               | apply journal_prepare_keyed | apply journal_commit_keyed].

Lemma status_forward : respects forward (status perf_counter_ns).
Proof. unfold status. forward_walk. Qed.

Lemma apply_forward mutation : respects forward (_apply perf_counter_ns mutation).
Proof. unfold _apply. forward_walk. Qed.

Lemma prepare_forward e : respects forward (prepare e).
Proof. unfold prepare. forward_walk. Qed.

Lemma query_forward request : respects forward (query perf_counter_ns request).
Proof. unfold query. forward_walk. Qed.

Lemma get_forward id : respects forward (get perf_counter_ns id).
Proof. unfold get. forward_walk. Qed.

Lemma export_forward : respects forward (export_records perf_counter_ns).
Proof. unfold export_records. forward_walk. Qed.

Lemma entries_forward index : respects forward (entries_after index).
Proof. unfold entries_after. forward_walk. Qed.

(** Publishing new numbers *)
Lemma publish_forward s n (f : shard -> shard) :
  numbers (f s) = n -> identity (f s) = identity s -> behind (numbers s) n ->
  (ints_ok (numbers s) -> ints_ok n) -> journal (f s) = journal s ->
  forward s ((modify f;; _publish_state) s).2.
Proof.
  intros Hn Hi Hb Hok Hj [_ _ Hs%Hok Hk]. rewrite run_modify.
  destruct (publish_state_run (f s)) as (s' & Hp & Hn' & Hi' & Hj' & _ & _ & Hh).
  rewrite Hp. cbn [snd]. rewrite Hn in Hn'.
  split_and!; [congruence|by rewrite Hn'|]. split.
  - unfold _publish_state, modify in Hp. injection Hp as <-. by eexists.
  - exists n. rewrite Hn' in *. by split_and!; [left| |].
  - by rewrite Hn'.
  - by rewrite Hj', Hj.
Qed.

Lemma configure_forward t p s :
  int_ok t = true -> int_ok p = true -> forward s (configure perf_counter_ns t p s).2.
Proof.
  intros Ht Hp. unfold configure. rewrite run_get, run_guard.
  destruct ((t <? term s) || _) eqn:Hg; [reflexivity|]. inv_py.
  change (forward s ((modify (set_epochs t p);; (_publish_state;; status perf_counter_ns)) s).2).
  rewrite run_modify. apply (run_bind forward); [|intros; apply status_forward].
  change (forward s ((modify (set_epochs t p);; _publish_state) s).2).
  apply (publish_forward s (t, p, applied_index s)); try done.
  by intros (_ & _ & ?).
Qed.

Lemma apply_committed_forward e s :
  int_ok (ReplicatedEntry.index e) = true ->
  forward s (apply_committed (applied_index s) e s).2.
Proof.
  intros Hi. unfold apply_committed. destruct (_ <? _) eqn:Hlt; [|reflexivity]. inv_py.
  apply (run_bind forward); [apply apply_forward|]. intros [] s' Hs'.
  pose proof (apply_quiet (ReplicatedEntry.mutation e) s) as [Hn _ _ _ _ _]. rewrite Hs' in Hn.
  unfold numbers in Hn. cbn [snd] in Hn. injection Hn as Ht Hp Ha.
  apply (publish_forward s' (term s', placement_epoch s', ReplicatedEntry.index e)); try done.
  - cbn. lia.
  - by intros (? & ? & _).
Qed.

(** Both journal steps of a commit leave the numbers alone. *)
Lemma with_journal_numbers {A} (m : M ReplicaJournal.t A) s r s' :
  with_journal m s = (r, s') ->
  numbers s' = numbers s /\ identity s' = identity s /\ state_file s' = state_file s.
Proof.
  intros H. pose proof (with_journal_run m s) as Hr. destruct (m (handle s)) as [r0 j].
  destruct Hr as (s1 & H1 & _ & ? & ? & ?). rewrite H in H1. by injection H1 as -> ->.
Qed.

Lemma with_journal_commit i (s : shard) e s' :
  with_journal (ReplicaJournal.commit i) s = (Ok e, s') ->
  ReplicaJournal.prepared (journal s') !! i = Some e.
Proof.
  unfold with_journal. rewrite commit_spec. cbn [ReplicaJournal.prepared ReplicaJournal.set_path].
  destruct (_ !! i) as [e0|] eqn:He; [|done]. intros [= -> <-]. cbn.
  by destruct (bool_decide _).
Qed.

Lemma commit_forward e s :
  int_ok (ReplicatedEntry.index e) = true -> forward s (commit perf_counter_ns e s).2.
Proof.
  intros Hi. destruct (admissible e s) as [[]|err] eqn:Ha;
    [|by rewrite (commit_refused _ _ _ Ha)].
  rewrite commit_admitted by done.
  apply (run_bind forward); [apply with_journal_forward, journal_prepare_keyed|]. intros [] s1 H1.
  apply (run_bind forward); [apply with_journal_forward, journal_commit_keyed|]. intros c s2 H2.
  pose proof (with_journal_commit _ _ _ _ H2) as Hc.
  apply with_journal_numbers in H1 as (Hn1 & _), H2 as (Hn2 & _).
  replace (applied_index s) with (applied_index s2) by (unfold numbers in *; congruence).
  apply (run_bind forward); [|intros; reflexivity].
  intros Hrec. assert (ReplicatedEntry.index c = ReplicatedEntry.index e) as Hidx.
  { exact (recorded_keyed _ Hrec _ _ Hc). }
  revert Hrec. apply apply_committed_forward. by rewrite Hidx.
Qed.
(** ** Installing a snapshot *)

(** A directory whose state file is not behind some numbers *)
Definition carries (numbers : Z * Z * Z) (r : @root K) : Prop :=
  exists n, file_numbers (ClusterMetadata.destination (state r)) n /\ behind numbers n /\ ints_ok n.

Lemma recorded_carries s : recorded s -> exists r, live (shard_site s) = Some r /\ carries (numbers s) r.
Proof.
  intros [[r Hr] Hf _ _]. exists r. split; [done|]. unfold state_file, disk in Hf. by rewrite Hr in Hf.
Qed.

(** Same numbers, another directory that carries them *)
Lemma moved_forward s s' r :
  live (shard_site s') = Some r -> carries (numbers s) r -> numbers s' = numbers s ->
  identity s' = identity s -> keyed (journal s') -> forward s s'.
Proof.
  intros Hl Hr Hn Hi Hk [_ _ Hints _]. split_and!; [done|by rewrite Hn|]. split.
  - by eexists.
  - unfold state_file, disk. rewrite Hl, Hn. done.
  - by rewrite Hn.
  - done.
Qed.

Lemma open_keyed f j : ReplicaJournal.open f = Ok j -> keyed j.
Proof. intros [Hwf _]%open_wf i e He. by destruct (Hwf i e He). Qed.

Lemma run_site {A} f (k : unit -> M shard A) s :
  (on_site f ≫= k) s = k tt (set_site (f (shard_site s)) s).
Proof. done. Qed.

(** After the old directory is back *)
Lemma restored_forward s s' error A :
  forall r, live (shard_site s') = Some r -> carries (numbers s) r -> numbers s' = numbers s ->
  identity s' = identity s -> keyed (journal s') ->
  forward s ((s1 ← get_state;
    c ← lift (open_in (disk s1) (dimension s1) (config s1));
    modify (set_collection c);;
    j ← lift (ReplicaJournal.open (journal_file (disk s1)));
    modify (set_journal j);;
    on_site (set_failed None);;
    lift (Raise error) : M shard A) s').2.
Proof.
  intros r Hl Hr Hn Hi Hk. rewrite run_get, run_lift.
  destruct (open_in _ _ _) as [c|e]; [|by eapply moved_forward].
  rewrite run_modify, run_lift. destruct (ReplicaJournal.open _) as [j|e] eqn:Hj.
  - rewrite run_modify. rewrite run_site.
    eapply (moved_forward s _ r); try done. by eapply open_keyed.
  - by eapply (moved_forward s _ r).
Qed.

Lemma rollback_forward s s' rn ro replacement error A :
  live (shard_site s') = Some rn -> backup (shard_site s') = Some ro ->
  carries (numbers s) rn -> carries (numbers s) ro -> numbers s' = numbers s -> identity s' = identity s ->
  keyed (journal s') ->
  forward s (rollback (A := A) perf_counter_ns replacement error s').2.
Proof.
  intros Hl Hb Hrn Hro Hn Hi Hk. unfold rollback.
  destruct replacement as [c|].
  - destruct (close_replacement perf_counter_ns c s') as [[u|e] s1] eqn:Hc;
      unfold close_replacement in Hc; destruct (Database.close perf_counter_ns c) as [o c'] eqn:Ho;
      injection Hc as -> <-.
    + rewrite (run_Ok _ _ _ u (store (_kernel c') s')) by (unfold close_replacement; by rewrite Ho).
      cbv beta. rewrite run_site. cbn [shard_site store set_disk set_site set_live live].
      rewrite run_site.
      apply (restored_forward s _ error A ro); try done.
    + rewrite (run_Raise _ _ _ e (store (_kernel c') s')) by (unfold close_replacement; by rewrite Ho).
      eapply (moved_forward s _ (Root (state rn) (journal_file rn) (Some (_kernel c')))); try done.
      cbn. unfold disk. by rewrite Hl.
  - rewrite run_ret_bind. rewrite run_site, Hl.
    rewrite run_site.
    by apply (restored_forward s _ error A ro).
Qed.
(** A rollback always raises. *)
Definition never_ok {S A} (m : M S A) : Prop := forall s a s', m s <> (Ok a, s').

Lemma bind_never_ok {S A B} (m : M S A) (f : A -> M S B) :
  (forall a, never_ok (f a)) -> never_ok (m ≫= f).
Proof. intros Hf s b s' H. apply bind_ok in H as (x & s1 & _ & H). by apply (Hf x s1 b s'). Qed.

Lemma rollback_never_ok {A} replacement error :
  never_ok (rollback (A := A) perf_counter_ns replacement error).
Proof. unfold rollback. repeat (apply bind_never_ok; intros ?). by intros ? ? ?. Qed.

Lemma rollback_outcome s0 s rn ro replacement error A (P : A -> shard -> Prop) :
  live (shard_site s) = Some rn -> backup (shard_site s) = Some ro ->
  carries (numbers s0) rn -> carries (numbers s0) ro -> numbers s = numbers s0 -> identity s = identity s0 ->
  keyed (journal s) ->
  match rollback (A := A) perf_counter_ns replacement error s with
  | (Raise e, s') => forward s0 s'
  | (Ok a, s') => P a s'
  end.
Proof.
  intros Hl Hb Hrn Hro Hn Hi Hk.
  pose proof (rollback_forward s0 s rn ro replacement error A Hl Hb Hrn Hro Hn Hi Hk) as Hf.
  destruct (rollback perf_counter_ns replacement error s) as [[a|e] s'] eqn:Hr; [|done].
  by apply rollback_never_ok in Hr.
Qed.

(** The exchange either keeps the shard forward, or hands over the opened
    replacement of the staged directory. *)
Lemma exchange_spec s0 s ro rn index :
  shard_site s = Site None (Some rn) (Some ro) (failed (shard_site s)) ->
  carries (numbers s0) rn -> carries (numbers s0) ro -> numbers s = numbers s0 -> identity s = identity s0 ->
  keyed (journal s) ->
  match exchange perf_counter_ns index s with
  | (Raise e, s') => forward s0 s'
  | (Ok (c, j), s') =>
      ReplicaJournal.snapshot_index j = index /\ ReplicaJournal.open (journal_file rn) = Ok j /\
      s' = set_site (Site (Some (Root (state rn) (journal_file rn) (Some (_kernel c)))) None
                       (Some ro) (failed (shard_site s))) s
  end.
Proof.
  intros Hs Hrn Hro Hn Hi Hk. unfold exchange. rewrite run_site, run_get.
  assert (set_site (stage_to_live (shard_site s)) s =
    set_site (Site (Some rn) None (Some ro) (failed (shard_site s))) s) as ->.
  { by rewrite Hs. }
  set (s1 := set_site _ s). change (disk s1) with rn.
  destruct (open_in rn (dimension s1) (config s1)) as [c|e].
  2:{ by apply (rollback_outcome s0 s1 rn ro). }
  rewrite run_modify. set (rc := Root (state rn) (journal_file rn) (Some (_kernel c))).
  set (s2 := store (_kernel c) s1).
  assert (shard_site s2 = Site (Some rc) None (Some ro) (failed (shard_site s))) as Hs2 by done.
  assert (carries (numbers s0) rc) as Hrc by done.
  destruct (ReplicaJournal.open _) as [j|e] eqn:Hj.
  2:{ by apply (rollback_outcome s0 s2 rc ro). }
  destruct (ReplicaJournal.snapshot_index j =? index) eqn:Hsn.
  { inv_py. by split_and!. }
  destruct (Database.close perf_counter_ns c) as [r closed]. rewrite run_modify.
  by apply (rollback_outcome s0 _ (Root (state rn) (journal_file rn) (Some (_kernel closed))) ro).
Qed.
(** The numbers a snapshot brings *)
Definition snapshot_numbers (sn : snapshot) : Z * Z * Z :=
  (snapshot_term sn, snapshot_epoch sn, snapshot_index sn).

(** Building the stage touches nothing else, and a built stage holds the numbers
    of the snapshot. *)
Lemma build_stage_spec sn (s : shard) :
  let '(r, s') := build_stage perf_counter_ns sn s in
  (exists x, s' = set_site (set_stage x (shard_site s)) s) /\
  (r = Ok tt -> exists root, stage (shard_site s') = Some root /\
    state_holds (ClusterMetadata.destination (state root)) (snapshot_numbers sn)).
Proof.
  unfold build_stage. rewrite run_get, run_lift.
  destruct (open_in _ _ _) as [c|e]; [|split; [|done]; exists (stage (shard_site s)); by destruct s as [[]]].
  destruct (fill_staged perf_counter_ns sn c) as [r c']. rewrite run_site, run_lift.
  destruct r as [u|e]; [|split; [|done]; by eexists].
  rewrite run_lift. cbn [ReplicaJournal.open journal_file].
  destruct (ReplicaJournal.open None) as [j|e]; [|split; [|done]; by eexists].
  destruct (ReplicaJournal.install_snapshot _ j) as [r j']. rewrite run_lift.
  destruct r as [u'|e]; [|split; [|done]; by eexists].
  rewrite run_site. unfold on_site, modify. split; [by eexists|].
  intros _. eexists. split; [done|]. eexists. by split_and!.
Qed.

Lemma check_snapshot_Ok rows config_ index term_ epoch_ checksum (s : shard) sn :
  check_snapshot rows config_ index term_ epoch_ checksum s = Ok sn ->
  index = PInt (snapshot_index sn) /\ term_ = PInt (snapshot_term sn) /\
  epoch_ = PInt (snapshot_epoch sn) /\ behind (numbers s) (snapshot_numbers sn) /\
  canonical_collection_config config_ (dimension s) = Ok (incoming_config sn) /\
  _parse_snapshot_rows rows (dimension s) = Ok (mutations sn, sparse_rows sn) /\
  checksum = PInt (snapshot_checksum rows (incoming_config sn) (snapshot_index sn)).
Proof.
  unfold check_snapshot. intros H. inv_py.
  match goal with H : (match ?p with _ => _ end) = Ok _ |- _ => destruct p as [ms sp] end.
  inv_py. unfold behind, numbers, snapshot_numbers. cbn. split_and!; try (done || lia). by f_equal.
Qed.

(** [try: m  finally: f] where [f] cannot raise *)
Lemma run_finally {A} (m : M shard A) f s :
  try_finally m (on_site f) s =
  let '(r, s') := m s in (r, set_site (f (shard_site s')) s').
Proof. unfold try_finally. by destruct (m s). Qed.

(** The end of an installation, once the stage is built *)
Definition swap_in (sn : snapshot) : M shard unit :=
  with_collection (Database.close perf_counter_ns);;
  on_site live_to_backup;;
  replaced ← exchange perf_counter_ns (snapshot_index sn);
  let '(replacement, replacement_journal) := replaced in
  modify (set_collection replacement);;
  modify (set_journal replacement_journal);;
  modify (set_epochs (snapshot_term sn) (snapshot_epoch sn));;
  modify (set_applied_index (snapshot_index sn));;
  on_site (set_backup None).

(** A staged directory that holds newer numbers goes in without loss. *)
Lemma swap_in_spec sn (s : shard) rn :
  stage (shard_site s) = Some rn -> recorded s ->
  state_holds (ClusterMetadata.destination (state rn)) (snapshot_numbers sn) ->
  behind (numbers s) (snapshot_numbers sn) -> ints_ok (snapshot_numbers sn) ->
  let '(r, s') := swap_in sn s in
  forward s s' /\
  (r = Ok tt ->
    numbers s' = snapshot_numbers sn /\
    ReplicaJournal.snapshot_index (journal s') = snapshot_index sn /\
    ReplicaJournal.open (journal_file (disk s')) = Ok (journal s') /\
    state_holds (state_file s') (numbers s') /\
    stage (shard_site s') = None /\ backup (shard_site s') = None).
Proof.
  intros Hst Hrec Hh Hb Hints. unfold swap_in.
  pose proof (with_collection_forward (Database.close perf_counter_ns) s) as Hf.
  destruct (with_collection (Database.close perf_counter_ns) s) as [[[]|e] s1] eqn:Hc.
  2:{ rewrite (run_Raise _ _ _ _ _ Hc). by split. }
  rewrite (run_Ok _ _ _ _ _ Hc), run_site. cbn [snd] in Hf.
  assert (numbers s1 = numbers s /\ identity s1 = identity s /\ journal s1 = journal s /\
    stage (shard_site s1) = Some rn) as (Hn1 & Hi1 & Hj1 & Hst1).
  { unfold with_collection in Hc. destruct (Database.close _ _) as [r c].
    injection Hc as _ <-. by cbn. }
  pose proof (Hf Hrec) as (_ & _ & Hrec1).
  destruct (recorded_carries _ Hrec1) as (ro & Hro & Hcar).
  assert (carries (numbers s1) rn) as Hcn.
  { exists (snapshot_numbers sn). rewrite Hn1. by split_and!; [left| |]. }
  pose proof (exchange_spec s1 (set_site (live_to_backup (shard_site s1)) s1) ro rn
    (snapshot_index sn)) as Hex.
  destruct (exchange _ _ _) as [[[c j]|e] s2] eqn:He.
  - rewrite (run_Ok _ _ _ _ _ He), !run_modify.
    destruct Hex as (Hsn & Hj & ->); try done.
    { unfold live_to_backup. by rewrite Hst1, Hro. }
    { apply Hrec1. }
    unfold on_site, modify. split; [|intros _; split_and!; try done; by eexists].
    etransitivity; [exact Hf|]. intros _. split_and!; [done|by rewrite Hn1|].
    split; [by eexists| |done|by eapply open_keyed].
    exists (snapshot_numbers sn). split_and!; [by left| |done]. reflexivity.
  - rewrite (run_Raise _ _ _ _ _ He). split; [|done]. etransitivity; [exact Hf|].
    apply Hex; try done.
    + unfold live_to_backup. by rewrite Hst1, Hro.
    + apply Hrec1.
Qed.
(** [install_snapshot]: refused without a trace, failed without a step back, or
    installed: the numbers, the journal and the state file are those of the
    snapshot and the stage and the backup are gone. *)
Lemma install_snapshot_outcome rows config_ index term_ epoch_ checksum (s : shard) :
  recorded s ->
  match check_snapshot rows config_ index term_ epoch_ checksum s with
  | Raise e =>
      install_snapshot perf_counter_ns rows config_ index term_ epoch_ checksum s = (Raise e, s)
  | Ok sn =>
      ints_ok (snapshot_numbers sn) ->
      let '(r, s') := install_snapshot perf_counter_ns rows config_ index term_ epoch_ checksum s in
      forward s s' /\
      (forall v, r = Ok v ->
        numbers s' = snapshot_numbers sn /\
        ReplicaJournal.snapshot_index (journal s') = snapshot_index sn /\
        ReplicaJournal.open (journal_file (disk s')) = Ok (journal s') /\
        state_holds (state_file s') (numbers s') /\
        stage (shard_site s') = None /\ backup (shard_site s') = None)
  end.
Proof.
  intros Hrec. unfold install_snapshot. rewrite run_get, run_lift.
  destruct (check_snapshot _ _ _ _ _ _ _) as [sn|e] eqn:Hc; [|done]. intros Hints.
  apply check_snapshot_Ok in Hc as (_ & _ & _ & Hb & _). rewrite !run_site.
  destruct (recorded_live _ Hrec) as [r0 Hr0].
  set (s1 := set_site _ (set_site _ s)).
  assert (live (shard_site s1) = Some r0) as Hl1.
  { unfold s1, _recover_snapshot_workspaces. destruct (shard_site s) as [l st b f]. cbn in *.
    subst l. by destruct b. }
  assert (forward s s1) as Hf1.
  { apply still_forward; try done. unfold state_file, disk. by rewrite Hl1, Hr0. }
  destruct (Hf1 Hrec) as (_ & _ & Hrec1).
  change (numbers s) with (numbers s1) in Hb. clearbody s1.
  enough (let '(r, s') := try_finally (build_stage perf_counter_ns sn;; swap_in sn)
      (on_site (set_stage None)) s1 in
    forward s1 s' /\ (r = Ok tt -> numbers s' = snapshot_numbers sn /\
    ReplicaJournal.snapshot_index (journal s') = snapshot_index sn /\
    ReplicaJournal.open (journal_file (disk s')) = Ok (journal s') /\
    state_holds (state_file s') (numbers s') /\
    stage (shard_site s') = None /\ backup (shard_site s') = None)) as Hbody.
  { change (build_stage perf_counter_ns sn;; _) with (build_stage perf_counter_ns sn;; swap_in sn).
    destruct (try_finally _ _ _) as [[[]|e] s2] eqn:Hr.
    - rewrite (run_Ok _ _ _ _ _ Hr). destruct Hbody as [Hf2 Hok].
      destruct (Hok eq_refl) as (Hn & Hsn & Hop & Hst & Hsg & Hbk).
      pose proof (status_forward s2) as Hf3. pose proof (status_quiet s2) as [Qn Qi Qj Qf Qs Qw].
      destruct (status perf_counter_ns s2) as [v s3]. cbn [snd] in *.
      split; [by do 2 (etransitivity; [eassumption|])|]. intros _ _.
      unfold workspaces in Qw. rewrite Qn, Qj, Qf, Qs. split_and!; congruence.
    - rewrite (run_Raise _ _ _ _ _ Hr). split; [by etransitivity; [exact Hf1|apply Hbody]|done]. }
  rewrite run_finally.
  assert (forall s2 : shard, forward s2 (set_site (set_stage None (shard_site s2)) s2)) as Hclean.
  { intros s2. by apply still_forward. }
  pose proof (build_stage_spec sn s1) as Hb1.
  destruct (build_stage perf_counter_ns sn s1) as [[[]|e] s2] eqn:Hbs; destruct Hb1 as [[x Hs2] Hst].
  - rewrite (run_Ok _ _ _ _ _ Hbs). destruct (Hst eq_refl) as (rn & Hrn & Hh).
    assert (forward s1 s2) as Hf2 by (subst s2; by apply still_forward).
    destruct (Hf2 Hrec1) as (_ & _ & Hrec2).
    assert (numbers s2 = numbers s1) as Hn2 by (by subst s2).
    rewrite <- Hn2 in Hb.
    pose proof (swap_in_spec sn s2 rn Hrn Hrec2 Hh Hb Hints) as Hsw.
    destruct (swap_in sn s2) as [r s3]. destruct Hsw as [Hf3 Hok]. split.
    + do 2 (etransitivity; [eassumption|]). apply Hclean.
    + intros Hr. destruct (Hok Hr) as (? & ? & ? & ? & ? & ?). by split_and!.
  - rewrite (run_Raise _ _ _ _ _ Hbs). split; [|done].
    etransitivity; [|apply Hclean]. subst s2. by apply still_forward.
Qed.

(** ** Restarts *)

Lemma replay_forward entries s :
  Forall (fun e => int_ok (ReplicatedEntry.index e) = true) entries ->
  StronglySorted Z.lt (applied_index s :: (ReplicatedEntry.index <$> entries)) ->
  forward s (for_each_M (fun entry =>
    _apply perf_counter_ns (ReplicatedEntry.mutation entry);;
    modify (set_applied_index (ReplicatedEntry.index entry));;
    _publish_state) entries s).2.
Proof.
  intros Hi. revert s. induction Hi as [|e l He Hl IH]; intros s Hs; [reflexivity|].
  cbn [for_each_M fmap list_fmap] in *.
  apply StronglySorted_inv in Hs as [Hs Hlt]. apply Forall_cons in Hlt as [Hlt _].
  apply (run_bind forward).
  - pose proof (apply_committed_forward e s He) as Hf. unfold apply_committed in Hf.
    by rewrite (proj2 (Z.ltb_lt _ _) Hlt) in Hf.
  - intros [] s' (u & s1 & _ & Hp)%bind_ok. apply IH.
    apply bind_ok in Hp as (u' & s2 & Hm & Hp). injection Hm as <- <-.
    destruct (publish_state_run (set_applied_index (ReplicatedEntry.index e) s1))
      as (s3 & Hp' & Hn & _). rewrite Hp' in Hp. injection Hp as <-.
    unfold numbers in Hn. injection Hn as _ _ ->. done.
Qed.

Lemma replay_committed_forward s :
  wf (journal s) -> map_Forall (fun i _ => int_ok i = true) (ReplicaJournal.prepared (journal s)) ->
  forward s (_replay_committed perf_counter_ns s).2.
Proof.
  intros Hwf Hints. unfold _replay_committed. rewrite run_get, run_lift.
  destruct (committed_after_spec (journal s) (applied_index s) Hwf) as (l & -> & Hs & Hl).
  apply replay_forward.
  - apply Forall_forall. intros e (_ & _ & He)%Hl. by apply Hints in He.
  - constructor; [done|]. apply Forall_fmap, Forall_forall. by intros e (? & _)%Hl.
Qed.
(** The steps of a successful [__init__] *)
Lemma init_steps id dim config_ d s' d' :
  init perf_counter_ns id dim config_ d = (Ok s', d') ->
  exists c n j k u,
    let d1 := make_root (_recover_snapshot_workspaces d) in
    let r := default empty_root (live d1) in
    let r' := Root (state r) (ReplicaJournal.path j) (Some (_kernel k)) in
    let s := Mk (set_live (Some r') d1) id dim c n.1.1 n.1.2 n.2 j k in
    read_state (ClusterMetadata.destination (state r)) = Ok n /\
    ReplicaJournal.open (journal_file r) = Ok j /\
    _replay_committed perf_counter_ns s = (Ok u, s') /\ d' = shard_site s'.
Proof.
  unfold init. intros H. inv_run H. destruct a1 as [[t p] a1]. inv_run H.
  unfold replayed in H.
  match type of H with (let '(_, _) := ?x in _) = _ =>
    destruct x as [[u|e] sh] eqn:Hrep; [|done] end.
  injection H as <- <-. eauto 10.
Qed.
(** Where a restart begins, when the directory is there *)
Lemma recover_live (d : @site K) r :
  live d = Some r -> live (make_root (_recover_snapshot_workspaces d)) = Some r.
Proof. destruct d as [l st b f]. cbn. intros ->. by destruct b. Qed.

(** A restart over a directory that carries the numbers of a shard *)
Lemma restart_carries id dim config_ d r old s' d' :
  live (make_root (_recover_snapshot_workspaces d)) = Some r -> carries old r ->
  init perf_counter_ns id dim config_ d = (Ok s', d') ->
  behind old (numbers s') /\ recorded s'.
Proof.
  intros Hr (m & Hf & Hb & Hm) (c & n & j & k & u & Hst & Hj & Hrep & _)%init_steps.
  rewrite Hr in Hst, Hj, Hrep. cbn [default from_option Datatypes.id] in *.
  rewrite (file_numbers_read _ _ Hf Hm) in Hst. injection Hst as <-.
  match type of Hrep with _ ?s = _ => set (s0 := s) in Hrep end.
  assert (numbers s0 = m) as Hn0 by (by destruct m as [[? ?] ?]).
  assert (recorded s0) as Hrec0.
  { split; [by eexists| |by rewrite Hn0|by eapply open_keyed].
    exists m. rewrite Hn0. by split_and!. }
  pose proof (replay_committed_forward s0) as Hfw. rewrite Hrep in Hfw.
  destruct (Hfw (open_wf _ _ Hj) (open_short _ _ Hj) Hrec0) as (_ & Hb' & Hrec').
  split; [|done]. rewrite Hn0 in Hb'. by etransitivity.
Qed.

Lemma init_forward id dim config_ s s' d' :
  recorded s -> init perf_counter_ns id dim config_ (shard_site s) = (Ok s', d') ->
  behind (numbers s) (numbers s') /\ recorded s'.
Proof.
  intros (r & Hr & Hc)%recorded_carries. eapply restart_carries; [|done]. by apply recover_live.
Qed.

(** A shard created in an empty place *)
Lemma init_recorded id dim config_ s' d' :
  init perf_counter_ns id dim config_ (Site None None None None) = (Ok s', d') -> recorded s'.
Proof.
  intros H. eapply (restart_carries id dim config_ _ empty_root (0, 0, 0)); [| |exact H]; [done|].
  exists (0, 0, 0). split_and!; [by right|done|done].
Qed.

(** Replaying applies every entry of the list. *)
Lemma replay_applies entries (s : shard) u s' :
  for_each_M (fun entry =>
    _apply perf_counter_ns (ReplicatedEntry.mutation entry);;
    modify (set_applied_index (ReplicatedEntry.index entry));;
    _publish_state) entries s = (Ok u, s') ->
  StronglySorted Z.lt (applied_index s :: (ReplicatedEntry.index <$> entries)) ->
  journal s' = journal s /\ applied_index s <= applied_index s' /\
  Forall (fun e => ReplicatedEntry.index e <= applied_index s') entries.
Proof.
  revert s. induction entries as [|e l IH]; intros s H Hs.
  { injection H as _ <-. split_and!; [done|lia|done]. }
  cbn [for_each_M fmap list_fmap] in *.
  apply StronglySorted_inv in Hs as [Hs Hlt]. apply Forall_cons in Hlt as [Hlt _].
  apply bind_ok in H as (a & s1 & H1 & H).
  apply bind_ok in H1 as (a1 & s2 & Ha & H1). apply bind_ok in H1 as (a2 & s3 & Hm & Hp).
  injection Hm as <- <-.
  pose proof (apply_quiet (ReplicatedEntry.mutation e) s) as Q. rewrite Ha in Q.
  destruct Q as [_ _ Qj _ _ _]. cbn [snd] in Qj.
  destruct (publish_state_run (set_applied_index (ReplicatedEntry.index e) s2))
    as (s4 & Hp' & Hn & _ & Hj & _). rewrite Hp' in Hp. injection Hp as <- <-.
  unfold numbers in Hn. injection Hn as _ _ Hn. cbn in Hn, Hj.
  destruct (IH s4 H) as (Hj' & Hle & Hall); [by rewrite Hn|].
  split_and!; [congruence|lia|]. constructor; [lia|done].
Qed.

(** A restarted shard has applied every entry its journal has committed. *)
Lemma init_replays id dim config_ d s' d' :
  init perf_counter_ns id dim config_ d = (Ok s', d') ->
  forall i, i ∈ ReplicaJournal.committed (journal s') -> i <= applied_index s'.
Proof.
  intros (c & n & j & k & u & _ & Hj & Hrep & _)%init_steps i Hi.
  match type of Hrep with _ ?s = _ => set (s0 := s) in Hrep end.
  assert (wf (journal s0)) as Hwf by (by eapply open_wf).
  unfold _replay_committed in Hrep. rewrite run_get, run_lift in Hrep.
  destruct (committed_after_spec (journal s0) (applied_index s0) Hwf) as (l & Hl & Hs & Hin).
  rewrite Hl in Hrep. destruct (replay_applies l s0 u s' Hrep) as (Hj' & Hle & Hall).
  { constructor; [done|]. apply Forall_fmap, Forall_forall. by intros e (? & _)%Hin. }
  rewrite Hj' in Hi. destruct (decide (i <= applied_index s0)); [lia|].
  destruct Hwf as [Hk Hc]. destruct (Hc i Hi) as [e He]. destruct (Hk i e He) as [Hidx _].
  rewrite Forall_forall in Hall. rewrite <- Hidx. apply Hall, Hin. rewrite Hidx.
  split_and!; [lia|done|done].
Qed.
End Facts.
