(* ===== verification/ReplicaHistory.v ===== *)
(** The life of a replica shard: its operations, restarts and kills as one step
    relation, the crash points of the exchange of directories, and what an
    acknowledged commit leaves on the disk. *)

From S2P Require Import Prelude PyFloat PyValue Json JsonFacts Checksum Envelope Files Models KernelConfig KernelInterface Database CollectionIdentity Mutation Journal JournalFacts Metadata MetadataFacts Snapshot Replica ReplicaFacts.
Import EntryFacts.

Section History.
Context {K : Type} `{!Kernel K}.
Variable perf_counter_ns : nat -> Z.
Abbreviation shard := (@ReplicaShard.t K).
Import ReplicaShard.

(** * The crash points of [install_snapshot] *)

(** The places the exchange goes through, in the order of the code: the recovery
    and the empty stage, the built stage, the three renames and removals of a
    successful exchange, then those of a rollback. *)
Definition exchange_sites (staged : @root K) (d : site) : list site :=
  let emptied := set_stage (Some empty_root) (_recover_snapshot_workspaces d) in
  let built := set_stage (Some staged) emptied in
  let moved := live_to_backup built in
  let swapped := stage_to_live moved in
  let committed := set_backup None swapped in
  let undone := live_to_failed swapped in
  let restored := backup_to_live undone in
  [d; emptied; built; moved; swapped; committed; set_stage None committed;
   undone; restored; set_failed None restored].

(** Whatever point a kill leaves, the recovery of the next start finds the old
    directory or the staged one, whole, and no workspace. *)
Lemma exchange_recovers staged (d d' : site) old :
  live d = Some old -> d' ∈ exchange_sites staged d ->
  make_root (_recover_snapshot_workspaces d') = Site (Some old) None None None \/
  make_root (_recover_snapshot_workspaces d') = Site (Some staged) None None None.
Proof.
  destruct d as [l st [b|] f]; cbn [live]; intros ->; unfold exchange_sites;
    rewrite !elem_of_cons, elem_of_nil; intros H;
    repeat (destruct H as [->|H]; [by auto|]); done.
Qed.

(** The root [install_snapshot] stages for a snapshot *)
Definition stages (sn : snapshot) (s : shard) (staged : root) : Prop :=
  let begun := set_site (set_stage (Some empty_root)
                           (_recover_snapshot_workspaces (shard_site s))) s in
  exists built, build_stage perf_counter_ns sn begun = (Ok tt, built) /\
    stage (shard_site built) = Some staged.

Lemma stages_carries sn s staged :
  stages sn s staged -> behind (numbers s) (snapshot_numbers sn) -> ints_ok (snapshot_numbers sn) ->
  carries (numbers s) staged.
Proof.
  intros (built & Hb & Hst) Hbe Hi.
  pose proof (build_stage_spec perf_counter_ns sn
    (set_site (set_stage (Some empty_root) (_recover_snapshot_workspaces (shard_site s))) s)) as H.
  rewrite Hb in H. destruct H as [_ H]. destruct (H eq_refl) as (r & Hr & Hh).
  rewrite Hst in Hr. injection Hr as ->. exists (snapshot_numbers sn). by split_and!; [left| |].
Qed.

(** Steps that write nothing but the collection's storage *)
Definition touched (s s' : shard) : Prop := forall r,
  live (shard_site s) = Some r -> exists k,
  shard_site s' = set_live (Some (Root (state r) (journal_file r) k)) (shard_site s).

#[local] Instance touched_preorder : PreOrder touched.
Proof.
  split.
  - intros s r Hr. exists (storage r). destruct (shard_site s), r; cbn in *. by subst.
  - intros s1 s2 s3 H12 H23 r Hr. destruct (H12 r Hr) as [k Hk].
    destruct (H23 (Root (state r) (journal_file r) k)) as [k' Hk']; [by rewrite Hk|].
    exists k'. rewrite Hk', Hk. done.
Qed.

Lemma status_touched : respects touched (status perf_counter_ns).
Proof.
  assert (forall A (m : M (@Collection K) A), respects touched (with_collection m)) as Hc.
  { intros A m s r Hr. unfold with_collection. destruct (m (collection s)) as [o c].
    exists (Some (_kernel c)). cbn. unfold disk. cbn. by rewrite Hr. }
  unfold status. repeat first [walk_step | apply Hc].
Qed.

Lemma exchange_ends index (s : shard) c j s' staged :
  stage (shard_site s) = Some staged -> exchange perf_counter_ns index s = (Ok (c, j), s') ->
  exists k, shard_site s' =
    Site (Some (Root (state staged) (journal_file staged) k)) None
      (backup (shard_site s)) (failed (shard_site s)).
Proof.
  intros Hst. unfold exchange. rewrite run_site, run_get.
  set (s1 := set_site _ s). destruct (open_in _ _ _) as [c1|e]; [|by intros H%rollback_never_ok].
  rewrite run_modify. destruct (ReplicaJournal.open _) as [j1|e]; [|by intros H%rollback_never_ok].
  destruct (_ =? _).
  - intros [= <- <- <-]. eexists. unfold s1, store, disk, stage_to_live. cbn. by rewrite Hst.
  - destruct (Database.close _ _) as [r closed]. rewrite run_modify. by intros H%rollback_never_ok.
Qed.

(** A completed installation ends where the exchange ends: the staged files in
    the place of the root, and nothing beside it. *)
Lemma install_ends rows c i t p sum (s : shard) v s' :
  install_snapshot perf_counter_ns rows c i t p sum s = (Ok v, s') ->
  exists sn staged k, check_snapshot rows c i t p sum s = Ok sn /\ stages sn s staged /\
    shard_site s' = Site (Some (Root (state staged) (journal_file staged) k)) None None None.
Proof.
  unfold install_snapshot. intros H.
  apply bind_ok in H as (s0 & s1 & Hg & H). injection Hg as <- <-.
  apply bind_ok in H as (sn & s1 & Hc & H). apply lift_ok in Hc as [Hc ->].
  rewrite !run_site in H. apply bind_ok in H as (u & s2 & H & Hs).
  rewrite run_finally in H.
  match type of H with (let '(_, _) := ?x in _) = _ => destruct x as [r s3] eqn:Hr end.
  injection H as -> <-. apply bind_ok in Hr as (u1 & s4 & Hb & Hr).
  apply bind_ok in Hr as (u2 & s5 & Hcl & Hr). rewrite run_site in Hr.
  apply bind_ok in Hr as ([c1 j1] & s6 & Hex & Hr).
  pose proof (build_stage_spec perf_counter_ns sn
    (set_site (set_stage (Some empty_root) (_recover_snapshot_workspaces (shard_site s))) s)) as Hspec.
  change (set_site (set_stage (Some empty_root) (shard_site (set_site
    (_recover_snapshot_workspaces (shard_site s)) s))) (set_site
    (_recover_snapshot_workspaces (shard_site s)) s)) with
    (set_site (set_stage (Some empty_root) (_recover_snapshot_workspaces (shard_site s))) s) in Hb.
  rewrite Hb in Hspec. destruct Hspec as [[x Hx] Hst].
  destruct u1. destruct (Hst eq_refl) as (staged & Hstaged & _).
  assert (stages sn s staged) as Hstages by (by exists s4).
  assert (stage (shard_site s5) = Some staged /\ failed (shard_site s5) = None) as [Hst5 Hf5].
  { unfold with_collection in Hcl. destruct (Database.close _ _) as [o c2].
    injection Hcl as _ <-. cbn. split; [done|]. by rewrite Hx. }
  apply (exchange_ends _ _ _ _ _ staged) in Hex as [k Hk]; [|done].
  cbn in Hk. rewrite Hf5 in Hk.
  rewrite !run_modify in Hr. injection Hr as _ <-.
  match type of Hs with _ ?s7 = _ => pose proof (status_touched s7) as Ht end.
  rewrite Hs in Ht. cbn in Ht. rewrite Hk in Ht. destruct (Ht _ eq_refl) as [k' Hk'].
  by exists sn, staged, k'.
Qed.

(** * Steps *)

(** One step of a shard's life.  Integers are those JSON can carry.  A restart
    reads whatever the operations left; a kill may come while the journal, the
    collection or the temporary state file is written, whatever they hold then,
    or at any point of the exchange of directories. *)
Inductive step : shard -> shard -> Prop :=
| step_configure t p s :
    int_ok t = true -> int_ok p = true -> step s (configure perf_counter_ns t p s).2
| step_prepare e s : step s (prepare e s).2
| step_commit e s :
    int_ok (ReplicatedEntry.index e) = true -> step s (commit perf_counter_ns e s).2
| step_query request s : step s (query perf_counter_ns request s).2
| step_get id s : step s (get perf_counter_ns id s).2
| step_export s : step s (export_records perf_counter_ns s).2
| step_entries index s : step s (entries_after index s).2
| step_status s : step s (status perf_counter_ns s).2
| step_install rows c i t p sum s :
    (forall sn, check_snapshot rows c i t p sum s = Ok sn -> ints_ok (snapshot_numbers sn)) ->
    step s (install_snapshot perf_counter_ns rows c i t p sum s).2
| step_restart id dim c s s' d :
    init perf_counter_ns id dim c (shard_site s) = (Ok s', d) -> step s s'
| step_killed_writing id dim c s r temporary journal_ storage_ s' d :
    live (shard_site s) = Some r ->
    init perf_counter_ns id dim c
      (set_live (Some (Root (ClusterMetadata.Dir (ClusterMetadata.destination (state r)) temporary)
                         journal_ storage_)) (shard_site s)) = (Ok s', d) -> step s s'
| step_killed_installing id dim c rows c' i t p sum s sn staged at_ s' d :
    check_snapshot rows c' i t p sum s = Ok sn -> ints_ok (snapshot_numbers sn) ->
    stages sn s staged -> at_ ∈ exchange_sites staged (shard_site s) ->
    init perf_counter_ns id dim c at_ = (Ok s', d) -> step s s'.

Lemma step_behind s s' :
  recorded s -> step s s' -> behind (numbers s) (numbers s') /\ recorded s'.
Proof.
  assert (forall s s' : shard, forward s s' -> recorded s ->
    behind (numbers s) (numbers s') /\ recorded s') as Hfw.
  { intros s1 s2 Hf Hr. by destruct (Hf Hr) as (_ & ? & ?). }
  intros Hr Hs. destruct Hs as [t p s Ht Hp|e s|e s He|request s|id s|s|index s|s
    |rows c i t p sum s Hsn|id dim c s s' d Hi|id dim c s r tmp jf st s' d Hl Hi
    |id dim c rows c' i t p sum s sn staged at_ s' d Hc Hints Hst Hat Hi].
  - by apply Hfw; [apply configure_forward|].
  - by apply Hfw; [apply prepare_forward|].
  - by apply Hfw; [apply commit_forward|].
  - by apply Hfw; [apply query_forward|].
  - by apply Hfw; [apply get_forward|].
  - by apply Hfw; [apply export_forward|].
  - by apply Hfw; [apply entries_forward|].
  - by apply Hfw; [apply status_forward|].
  - pose proof (install_snapshot_outcome perf_counter_ns rows c i t p sum s Hr) as H.
    destruct (check_snapshot _ _ _ _ _ _ _) as [sn|e]; [|rewrite H; split; [reflexivity|done]].
    specialize (H (Hsn sn eq_refl)). destruct (install_snapshot _ _ _ _ _ _ _ _) as [r s'].
    by apply Hfw; [apply H|].
  - by eapply init_forward.
  - apply recorded_carries in Hr as (r' & Hr' & Hc). rewrite Hl in Hr'. injection Hr' as <-.
    eapply restart_carries; [| |exact Hi]; [by apply recover_live|exact Hc].
  - apply recorded_carries in Hr as (r & Hr & Hcar).
    apply check_snapshot_Ok in Hc as (_ & _ & _ & Hb & _).
    pose proof (stages_carries sn s staged Hst Hb Hints) as Hcs.
    destruct (exchange_recovers staged _ _ r Hr Hat) as [H|H];
      (eapply restart_carries; [by rewrite H| |exact Hi]); done.
Qed.

Lemma steps_behind s s' :
  recorded s -> rtc step s s' -> behind (numbers s) (numbers s') /\ recorded s'.
Proof.
  intros Hr H. induction H as [s|s s1 s2 Hs _ IH]; [split; [reflexivity|done]|].
  destruct (step_behind s s1 Hr Hs) as [Hb Hr1]. destruct (IH Hr1) as [Hb' Hr2].
  split; [|done]. by etransitivity.
Qed.

Lemma recorded_read (s : shard) :
  recorded s -> exists n, read_state (state_file s) = Ok n /\ behind (numbers s) n.
Proof. intros [_ (n & Hf & Hb & Hi) _ _]. exists n. split; [by apply file_numbers_read|done]. Qed.

(** * Acknowledged commits *)

(** The handle and the directory agree on the journal file. *)
Definition settled (s : shard) : Prop :=
  live (shard_site s) = Some (disk s) /\ ReplicaJournal.path (journal s) = journal_file (disk s).

Lemma with_journal_settled {A} (m : M ReplicaJournal.t A) s : settled (with_journal m s).2.
Proof. unfold with_journal. by destruct (m _). Qed.

Lemma settled_handle s : settled s -> handle s = journal s.
Proof. intros [_ Hp]. unfold handle. rewrite <- Hp. by destruct (journal s). Qed.

(** A journal call that changes nothing *)
Lemma with_journal_still {A} (m : M ReplicaJournal.t A) s r :
  settled s -> m (journal s) = (r, journal s) -> with_journal m s = (r, s).
Proof.
  intros [Hl Hp] Hm. unfold with_journal. rewrite <- Hp.
  replace (ReplicaJournal.set_path _ (journal s)) with (journal s) by (by destruct (journal s)).
  rewrite Hm. f_equal. destruct s as [[[d|] st b f] i n c t p a j co]; [|done]. unfold disk in *.
  cbn in *. rewrite Hp. unfold set_journal, set_disk, set_site, set_live. cbn. by destruct d.
Qed.

Definition settles : shard -> shard -> Prop := keeps_true settled.

Lemma with_collection_settles {A} (m : M (@Collection K) A) : respects settles (with_collection m).
Proof. intros s [Hl Hp]. unfold with_collection. by destruct (m _). Qed.

Lemma apply_settles mutation : respects settles (_apply perf_counter_ns mutation).
Proof. unfold _apply. repeat first [walk_step | apply with_collection_settles]. Qed.

(** An acknowledged commit: the entry is prepared and committed in the journal,
    the journal file and the handle agree, and the shard has applied it. *)
Lemma shard_commit_spec e s v s' :
  commit perf_counter_ns e s = (Ok v, s') ->
  let i := ReplicatedEntry.index e in
  settled s' /\ dimension s' = dimension s /\ shard_id s' = shard_id s /\
  term s' = term s /\ placement_epoch s' = placement_epoch s /\
  v = PDict [("committed_index", PInt i); ("applied_index", PInt (applied_index s'))] /\
  exists j e', ReplicaJournal.prepare e (handle s) = (Ok tt, j) /\
    ReplicaJournal.commit i j = (Ok e', journal s') /\
    ReplicatedEntry.validate e = Ok tt /\ ReplicatedEntry.index e' <= applied_index s' /\
    (keyed (handle s) -> ReplicatedEntry.index e' = i).
Proof.
  intros H. cbv zeta. destruct (admissible e s) as [[]|err] eqn:Ha;
    [|by rewrite (commit_refused _ _ _ _ Ha) in H].
  rewrite commit_admitted in H by done.
  apply bind_ok in H as ([] & s1 & H1 & H). apply bind_ok in H as (e' & s2 & H2 & H).
  apply bind_ok in H as ([] & s3 & H3 & H). rewrite run_get in H. injection H as <- <-.
  pose proof (with_journal_settled (ReplicaJournal.prepare e) s) as S1. rewrite H1 in S1.
  pose proof (with_journal_settled (ReplicaJournal.commit (ReplicatedEntry.index e)) s1) as S2. rewrite H2 in S2.
  cbn [snd] in S1, S2.
  pose proof (with_journal_run (ReplicaJournal.prepare e) s) as R1.
  destruct (ReplicaJournal.prepare e (handle s)) as [r1 j1] eqn:P1.
  destruct R1 as (s1' & E1 & J1 & N1 & I1 & _). rewrite H1 in E1. injection E1 as <- <-.
  pose proof (with_journal_run (ReplicaJournal.commit (ReplicatedEntry.index e)) s1) as R2. rewrite J1 in R2.
  destruct (ReplicaJournal.commit (ReplicatedEntry.index e) j1) as [r2 j2] eqn:P2.
  destruct R2 as (s2' & E2 & J2 & N2 & I2 & _). rewrite H2 in E2. injection E2 as <- <-.
  rewrite (settled_handle s2 S2) in J2. subst j2.
  assert (ReplicatedEntry.validate e = Ok tt) as Hv.
  { pose proof (prepare_spec e (handle s)) as Hp. rewrite P1 in Hp.
    by destruct (ReplicatedEntry.validate e) as [[]|]. }
  assert (keyed (handle s) -> ReplicatedEntry.index e' = ReplicatedEntry.index e) as Hkey.
  { intros Hk. pose proof (with_journal_commit (ReplicatedEntry.index e) s1 e' s2 H2) as Hc.
    pose proof (journal_commit_keyed (ReplicatedEntry.index e) _ (journal_prepare_keyed e _ Hk)) as Hk2.
    rewrite P1 in Hk2. cbn [snd] in Hk2. rewrite P2 in Hk2. by apply (Hk2 _ e'). }
  assert (settled s3 /\ journal s3 = journal s2 /\ identity s3 = identity s2 /\
    term s3 = term s2 /\ placement_epoch s3 = placement_epoch s2 /\
    (ReplicatedEntry.index e' <= applied_index s3)) as (S3 & J3 & I3 & T3 & E3 & A3).
  { unfold numbers in *. unfold apply_committed in H3.
    destruct (applied_index s <? ReplicatedEntry.index e') eqn:Hlt; inv_py.
    - apply bind_ok in H3 as (u & s4 & Happ & H3). rewrite run_modify in H3.
      pose proof (apply_settles (ReplicatedEntry.mutation e') s2 S2) as S4.
      pose proof (apply_quiet perf_counter_ns (ReplicatedEntry.mutation e') s2) as [Q1 Q2 Q3 Q4 _ _].
      rewrite Happ in S4, Q1, Q2, Q3, Q4. cbn [snd] in *. unfold numbers in Q1.
      injection H3 as <-. destruct S4 as [S4 S4']. split_and!; cbn; try (done || congruence || lia).
    - injection H3 as <-. split_and!; try done.
      assert (applied_index s2 = applied_index s) as -> by congruence. lia. }
  unfold numbers, identity in *. split_and!; try (done || congruence).
  exists j1, e'. split_and!; (done || congruence).
Qed.

(** Committing again what was acknowledged changes nothing at all. *)
Lemma commit_again e s v s' :
  commit perf_counter_ns e s = (Ok v, s') ->
  commit perf_counter_ns e s' = (Ok v, s').
Proof.
  intros H. pose proof H as (S' & Hd & Hi & Ht & He & -> & j & e' & P & C & Hv & Hle & Hkey)%shard_commit_spec.
  assert (admissible e s' = Ok tt) as Ha.
  { destruct (admissible e s) as [[]|err] eqn:Ha; [|by rewrite (commit_refused _ _ _ _ Ha) in H].
    apply admissible_Ok in Ha. apply admissible_Ok. by rewrite Hi, Ht, He, Hd. }
  rewrite commit_admitted by done.
  assert (exists e0, ReplicaJournal.prepared (journal s') !! ReplicatedEntry.index e = Some e0 /\
    ReplicatedEntry.mutation_checksum e0 = ReplicatedEntry.mutation_checksum e /\ e' = e0 /\
    ReplicatedEntry.index e ∈ ReplicaJournal.committed (journal s')) as (e0 & He0 & Hck & -> & Hin).
  { pose proof (prepare_spec e (handle s)) as Hp. rewrite Hv in Hp.
    rewrite commit_spec in C.
    destruct (ReplicaJournal.prepared (handle s) !! _) as [e0|] eqn:He0; rewrite P in Hp.
    - destruct (_ =? _) eqn:Hck; [|done]. injection Hp as ->. inv_py. rewrite He0 in C.
      injection C as <- C. exists e0. rewrite <- C. case_bool_decide; cbn; split_and!; try done. set_solver.
    - injection Hp as ->. cbn [ReplicaJournal.prepared ReplicaJournal.set_prepared] in C.
      rewrite lookup_insert_eq in C. injection C as <- C. exists e. rewrite <- C.
      case_bool_decide; cbn; rewrite lookup_insert_eq; split_and!; try done. set_solver. }
  rewrite (run_Ok _ _ _ tt s').
  2:{ apply with_journal_still; [done|]. pose proof (prepare_spec e (journal s')) as Hp.
      rewrite Hv, He0, Hck, Z.eqb_refl in Hp. exact Hp. }
  rewrite (run_Ok _ _ _ e0 s').
  2:{ apply with_journal_still; [done|]. rewrite commit_spec, He0.
      by rewrite bool_decide_eq_true_2. }
  unfold apply_committed. by rewrite (proj2 (Z.ltb_ge _ _) Hle).
Qed.

(** The journal of a restarted shard is the one its file holds. *)
Lemma init_journal id dim c d r s' d' :
  live (make_root (_recover_snapshot_workspaces d)) = Some r ->
  init perf_counter_ns id dim c d = (Ok s', d') ->
  ReplicaJournal.open (journal_file r) = Ok (journal s').
Proof.
  intros Hr (c' & n & j & k & u & _ & Hj & Hrep & _)%init_steps.
  rewrite Hr in Hj, Hrep. cbn [default from_option Datatypes.id] in *. rewrite Hj. f_equal.
  match type of Hrep with _ ?s = _ => set (s0 := s) in Hrep end.
  unfold _replay_committed in Hrep. rewrite run_get, run_lift in Hrep.
  destruct (committed_after_spec (journal s0) (applied_index s0) (open_wf _ _ Hj))
    as (l & Hl & Hs & Hin).
  rewrite Hl in Hrep. destruct (replay_applies perf_counter_ns l s0 u s' Hrep) as (-> & _); [|done].
  constructor; [done|]. apply Forall_fmap, Forall_forall. by intros e (? & _)%Hin.
Qed.

Lemma shard_commit_inv e s v s' :
  inv (handle s) -> storable e -> commit perf_counter_ns e s = (Ok v, s') ->
  let i := ReplicatedEntry.index e in
  settled s' /\ inv (journal s') /\ i <= applied_index s' /\
  i ∈ ReplicaJournal.committed (journal s') /\
  exists e', ReplicaJournal.prepared (journal s') !! i = Some e' /\
    ReplicatedEntry.mutation_checksum e' = ReplicatedEntry.mutation_checksum e.
Proof.
  intros Hinv Hst (S' & _ & _ & _ & _ & _ & j & e' & P & C & Hv & Hle & Hkey)%shard_commit_spec.
  cbv zeta. assert (keyed (handle s)) as Hk.
  { intros i e0 H0. by destruct (proj1 (inv_wf _ Hinv) i e0 H0). }
  rewrite (Hkey Hk) in Hle.
  pose proof (prepare_inv _ _ _ _ Hinv Hst P) as Hinv1.
  pose proof (commit_inv _ _ _ _ Hinv1 C) as Hinv2.
  pose proof (prepare_spec e (handle s)) as Hp. rewrite Hv, P in Hp.
  rewrite commit_spec in C.
  destruct (ReplicaJournal.prepared j !! _) as [e0|] eqn:He0; [|done].
  injection C as -> C. split_and!; [done|done|done| |].
  - rewrite <- C. case_bool_decide; [done|cbn; set_solver].
  - exists e'. split; [rewrite <- C; by case_bool_decide|].
    destruct (ReplicaJournal.prepared (handle s) !! _) as [e1|] eqn:He1.
    + destruct (_ =? _) eqn:Hck; [|done]. injection Hp as ->. inv_py. congruence.
    + injection Hp as ->. cbn in He0. rewrite lookup_insert_eq in He0. by injection He0 as <-.
Qed.

(** An acknowledged commit is there after any restart. *)
Lemma commit_survives e s v s' id dim c s'' d :
  inv (handle s) -> storable e -> commit perf_counter_ns e s = (Ok v, s') ->
  init perf_counter_ns id dim c (shard_site s') = (Ok s'', d) ->
  let i := ReplicatedEntry.index e in
  inv (journal s'') /\ i ∈ ReplicaJournal.committed (journal s'') /\ i <= applied_index s'' /\
  exists e', ReplicaJournal.prepared (journal s'') !! i = Some e' /\
    ReplicatedEntry.mutation_checksum e' = ReplicatedEntry.mutation_checksum e.
Proof.
  intros Hinv Hst H Hinit. cbv zeta.
  destruct (shard_commit_inv e s v s' Hinv Hst H) as ([Hl Hp] & Hinv' & _ & Hin & e' & He' & Hck).
  pose proof (init_journal _ _ _ _ _ _ _ (recover_live _ _ Hl) Hinit) as Ho.
  rewrite <- Hp in Ho. pose proof (inv_open _ _ Hinv' Ho) as Hinv''.
  rewrite open_consistent in Ho by apply Hinv'.
  assert (journal s'' = reloaded (journal s')) as Hj by congruence. clear Ho.
  assert (ReplicatedEntry.index e ∈ ReplicaJournal.committed (journal s'')) as Hin'' by (by rewrite Hj).
  split_and!; [done|done|by eapply init_replays|].
  exists (sorted e'). rewrite Hj. cbn. by rewrite lookup_fmap, He'.
Qed.
End History.
