(* ===== verification/ReplicaServer.v ===== *)
(** The process around the shards of a replica: [replica_server_main] and
    [ReplicaProcess] of [python/akashadb/distributed/replica.py].  One request is
    served at a time, as the loop of the server does; the process keeps the
    directories of its shards when it stops or is killed. *)

From S2P Require Import Prelude Assoc PyFloat PyValue Json Checksum Envelope Files Models KernelConfig KernelInterface Vectors Database CollectionIdentity Mutation Journal Metadata Snapshot Replica.

(** [type(error).__name__] *)
Definition class_name (c : exn_class) : string :=
  match c with
  | BaseException => "BaseException" | Exception => "Exception"
  | RuntimeError => "RuntimeError" | ValueError => "ValueError" | TypeError => "TypeError"
  | KeyError => "KeyError" | IndexError => "IndexError" | AttributeError => "AttributeError"
  | OverflowError => "OverflowError" | AssertionError => "AssertionError"
  | StopIteration => "StopIteration" | ZeroDivisionError => "ZeroDivisionError"
  | OSError => "OSError" | EOFError => "EOFError" | ConnectionError => "ConnectionError"
  | FileNotFoundError => "FileNotFoundError" | FileExistsError => "FileExistsError"
  | UnicodeDecodeError => "UnicodeDecodeError" | UnicodeEncodeError => "UnicodeEncodeError"
  | JSONDecodeError => "JSONDecodeError"
  | ProtocolError => "ProtocolError" | StaleEpochError => "StaleEpochError"
  | ReplicaUnavailable => "ReplicaUnavailable" | QuorumUnavailable => "QuorumUnavailable"
  | ClusterClosedError => "ClusterClosedError" | AkashaError => "AkashaError"
  | ValidationError => "ValidationError"
  | CollectionAlreadyOpenError => "CollectionAlreadyOpenError"
  | CollectionClosedError => "CollectionClosedError"
  | CollectionNotFoundError => "CollectionNotFoundError"
  end.

Section Server.
Context {K : Type} `{!Kernel K}.
Variable perf_counter_ns : nat -> Z.
Abbreviation shard := (@ReplicaShard.t K).
Abbreviation site := (@site K).

(** The local variables of [replica_server_main], and the directories of the
    shards the process has not opened. *)
Record server : Type := Server {
  server_dimension : Z;
  server_config : dict;
  shards : list (Z * shard);
  partitioned : bool;
  drop_commit_responses : Z;
  drop_query_responses : Z;
  sites : list (Z * site) }.

Definition set_shards (l : list (Z * shard)) (d : list (Z * site)) (s : server) : server :=
  Server (server_dimension s) (server_config s) l (partitioned s) (drop_commit_responses s)
    (drop_query_responses s) d.
Definition set_partitioned (b : bool) (s : server) : server :=
  Server (server_dimension s) (server_config s) (shards s) b (drop_commit_responses s)
    (drop_query_responses s) (sites s).
Definition set_drops (commits queries : Z) (s : server) : server :=
  Server (server_dimension s) (server_config s) (shards s) (partitioned s) commits queries (sites s).

Definition empty_site : site := Site None None None None.

(** A method of an open shard. *)
Definition with_shard {A} (id : Z) (m : M shard A) : M server A := fun s =>
  match assoc_get (shards s) id with
  | None => (raise ProtocolError "replica does not own requested shard", s)
  | Some sh =>
      let '(r, sh) := m sh in (r, set_shards (assoc_set (shards s) id sh) (sites s) s)
  end.

(** [if shard is None: shard = ReplicaShard(...); shards[shard_id] = shard] *)
Definition open_shard (id : Z) : M server unit := fun s =>
  match assoc_get (shards s) id with
  | Some _ => (Ok tt, s)
  | None =>
      let d := default empty_site (assoc_get (sites s) id) in
      match ReplicaShard.init perf_counter_ns id (server_dimension s) (server_config s) d with
      | (Ok sh, d) =>
          (Ok tt, set_shards (assoc_set (shards s) id sh) (assoc_set (sites s) id d) s)
      | (Raise e, d) => (Raise e, set_shards (shards s) (assoc_set (sites s) id d) s)
      end
  end.

(** [int(request[name])] *)
Definition int_item (request : dict) (name : string) : res Z :=
  v ← dict_item request name; py_int v.

(** [ReplicatedEntry.from_dict(request["entry"])] *)
Definition entry_item (request : dict) : res ReplicatedEntry.t :=
  v ← dict_item request "entry"; ReplicatedEntry.from_dict v.

Definition export : M shard pyval :=
  rows ← ReplicaShard.export_records perf_counter_ns;
  s ← get_state;
  let applied_index := ReplicaShard.applied_index s in
  let exported_config := CollectionConfig.asdict (ReplicaShard.config s) in
  mret (PDict [("rows", rows); ("applied_index", PInt applied_index);
               ("collection_config", PDict exported_config);
               ("snapshot_checksum", PInt (snapshot_checksum rows exported_config applied_index))]).

(** The branches on an open shard. *)
Definition shard_operation (operation : pyval) (request : dict) : M shard pyval :=
  let named name := py_eq operation (PStr name) in
  if named "prepare" then
    entry ← lift (entry_item request); ReplicaShard.prepare entry
  else if named "commit" then
    entry ← lift (entry_item request); ReplicaShard.commit perf_counter_ns entry
  else if named "query" then
    v ← lift (dict_item request "request"); ReplicaShard.query perf_counter_ns v
  else if named "get" then
    id ← lift (int_item request "id"); ReplicaShard.get perf_counter_ns id
  else if named "export" then export
  else if named "entries" then
    index ← lift (int_item request "after_index"); ReplicaShard.entries_after index
  else if named "install_snapshot" then
    rows ← lift (dict_item request "rows");
    config ← lift (dict_item request "collection_config");
    index ← lift (dict_item request "index");
    term ← lift (dict_item request "term");
    placement_epoch ← lift (dict_item request "placement_epoch");
    checksum ← lift (dict_item request "snapshot_checksum");
    ReplicaShard.install_snapshot perf_counter_ns rows config index term placement_epoch checksum
  else if named "status" then ReplicaShard.status perf_counter_ns
  else lift (raise ProtocolError "unknown replica RPC operation").

(** The branches of the loop but for [crash]; the flag is [running]. *)
Definition handle (operation : pyval) (request : dict) : M server (pyval * bool) :=
  let named name := py_eq operation (PStr name) in
  if named "partition" then
    enabled ← lift (dict_item request "enabled");
    modify (set_partitioned (truthy enabled));;
    mret (PDict [("partitioned", PBool (truthy enabled))], true)
  else if named "fault" then
    commits ← lift (ReplicaShard.int_or request "drop_commit_responses" 0);
    s ← get_state;
    modify (set_drops commits (drop_query_responses s));;
    queries ← lift (ReplicaShard.int_or request "drop_query_responses" 0);
    modify (set_drops commits queries);;
    mret (PDict [("drop_commit_responses", PInt commits);
                 ("drop_query_responses", PInt queries)], true)
  else if named "shutdown" then mret (PDict [("stopped", PBool true)], false)
  else
    shard_id ← lift (int_item request "shard_id");
    result ← (if named "configure" then
                open_shard shard_id;;
                term ← lift (int_item request "term");
                placement_epoch ← lift (int_item request "placement_epoch");
                with_shard shard_id (ReplicaShard.configure perf_counter_ns term placement_epoch)
              else with_shard shard_id (shard_operation operation request));
    mret (result, true).

(** What the connection carries back. *)
Inductive reply : Type :=
| Answer (result : pyval)
| Failure (error_type error : string)
| Dropped
| Died.

Definition failure (e : exn) : reply := Failure (class_name (exn_type e)) (exn_message e).

(** One turn of the loop: the reply and whether the server goes on. *)
Definition serve (request : pyval) (s : server) : reply * bool * server :=
  match ReplicaShard.mapping request with
  | Raise e => (failure e, true, s)
  | Ok request =>
      let operation := dict_get_or request "operation" PNone in
      let named name := py_eq operation (PStr name) in
      match (if partitioned s then in_set operation ["partition"; "fault"; "shutdown"] else Ok true) with
      | Raise e => (failure e, true, s)
      | Ok false => (failure (Exn ReplicaUnavailable "replica is network partitioned"), true, s)
      | Ok true =>
          if named "crash" then (Died, false, s)
          else match handle operation request s with
               | (Raise e, s) => (failure e, true, s)
               | (Ok (result, running), s) =>
                   if named "commit" && (0 <? drop_commit_responses s) then
                     (Dropped, running,
                      set_drops (drop_commit_responses s - 1) (drop_query_responses s) s)
                   else if named "query" && (0 <? drop_query_responses s) then
                     (Dropped, running,
                      set_drops (drop_commit_responses s) (drop_query_responses s - 1) s)
                   else (Answer result, running, s)
               end
      end
  end.

(** The directories once the process is gone. *)
Definition abandon (s : server) : list (Z * site) :=
  foldl (fun d kv => assoc_set d kv.1 (ReplicaShard.shard_site kv.2)) (sites s) (shards s).

(** [for shard in shards.values(): shard.close()] *)
Fixpoint close_shards (l : list (Z * shard)) (d : list (Z * site)) : list (Z * site) :=
  match l with
  | [] => d
  | (id, sh) :: l =>
      match ReplicaShard.close perf_counter_ns sh with
      | (Ok _, sh) => close_shards l (assoc_set d id (ReplicaShard.shard_site sh))
      | (Raise _, sh) =>
          foldl (fun d kv => assoc_set d kv.1 (ReplicaShard.shard_site kv.2))
            (assoc_set d id (ReplicaShard.shard_site sh)) l
      end
  end.
End Server.

(** * The client side *)

Module ReplicaProcess.
Section Process.
Context {K : Type} `{!Kernel K}.
Variable perf_counter_ns : nat -> Z.

(** A process that runs, or what its directory holds.  The address is fixed by
    the node and the number of its starts. *)
Record t : Type := Mk {
  node_id : string;
  dimension : Z;
  config : dict;
  process : option (@server K);
  root : list (Z * @site K);
  starts : Z }.

Definition alive (p : t) : bool := match process p with Some _ => true | None => false end.

Definition stopped (d : list (Z * @site K)) (p : t) : t :=
  Mk (node_id p) (dimension p) (config p) None d (starts p).
Definition serving (s : @server K) (p : t) : t :=
  Mk (node_id p) (dimension p) (config p) (Some s) (root p) (starts p).

(** [start]; the port is the one the system picks, here any function of the
    node's starts. *)
Variable port : string -> Z -> Z.

Definition start : M t (string * Z) := fun p =>
  if alive p then (raise RuntimeError "replica process is already running", p)
  else (Ok ("127.0.0.1", port (node_id p) (starts p)),
        Mk (node_id p) (dimension p) (config p)
          (Some (Server (dimension p) (config p) [] false 0 0 (root p)))
          (root p) (starts p + 1)).

(** The error a failed response raises. *)
Definition raised (error_type message : string) : exn :=
  if bool_decide (error_type = "StaleEpochError") then Exn StaleEpochError message
  else if bool_decide (error_type = "ReplicaUnavailable") then Exn ReplicaUnavailable message
  else Exn ProtocolError message.

Definition unavailable (p : t) : exn :=
  Exn ReplicaUnavailable ("replica " +:+ node_id p +:+ " is unavailable").
Definition rpc_failed (p : t) : exn :=
  Exn ReplicaUnavailable ("replica " +:+ node_id p +:+ " RPC failed").

Definition rpc (request : pyval) : M t pyval := fun p =>
  match process p with
  | None => (Raise (unavailable p), p)
  | Some s =>
      let '(reply, running, s) := serve perf_counter_ns request s in
      let p' := match reply with
                | Died => stopped (abandon s) p
                | _ => if running : bool then serving s p
                       else stopped (close_shards perf_counter_ns (shards s) (sites s)) p
                end in
      (match reply with
       | Answer result => Ok result
       | Failure error_type message => Raise (raised error_type message)
       | Dropped | Died => Raise (rpc_failed p)
       end, p')
  end.

(** [stop]: the process is joined whatever the request raises. *)
Definition stop : M t unit := fun p =>
  if negb (alive p) then (Ok tt, p)
  else let '(r, p) := rpc (PDict [("operation", PStr "shutdown")]) p in
       (match r with Ok _ => Ok tt | Raise e => Raise e end,
        match process p with Some s => stopped (abandon s) p | None => p end).

Definition crash : M t unit := modify (fun p =>
  match process p with Some s => stopped (abandon s) p | None => p end).
End Process.
End ReplicaProcess.
