(* ===== verification/Ranking.v ===== *)
(** The ranking functions of [DistributedCluster] in
    [python/akashadb/distributed/cluster.py]: the merge of the shards' hits, the
    fusion of two rankings and the merge of the statistics. *)

From S2P Require Import Prelude Assoc PyFloat PyValue Json Envelope Models Vectors Replica.

(** [(a, i) < (b, j)] of a float and an [int] *)
Definition key_ltb (x y : float * Z) : bool :=
  if feqb x.1 y.1 then x.2 <? y.2 else fltb x.1 y.1.

(** [sorted(l, key=key)]: an element goes before the ones it is not above. *)
Definition sorted_by_key {A} (key : A -> float * Z) (l : list A) : list A :=
  isort (fun x y => negb (key_ltb (key y) (key x))) l.

(** [l[:k]] *)
Definition py_take {A} (k : Z) (l : list A) : list A :=
  take (Z.to_nat (if k <? 0 then Z.of_nat (length l) + k else k)) l.

(** [{result.id: result for result in results}] *)
Definition unique_results (results : list SearchResult.t) : list (Z * SearchResult.t) :=
  foldl (fun d r => assoc_set d (SearchResult.id r) r) [] results.

(** [item.score] or [-item.score], and the identifier *)
Definition rank_key (ascending : bool) (r : SearchResult.t) : float * Z :=
  (if ascending then SearchResult.score r else fopp (SearchResult.score r), SearchResult.id r).

(** [metric == "l2" and mode not in {"sparse", "hybrid"}] *)
Definition ascending_order (metric mode : pyval) : res bool :=
  if py_eq metric (PStr "l2") then
    fused ← in_set mode ["sparse"; "hybrid"]; Ok (negb fused)
  else Ok false.

Definition _global_topk (results : list SearchResult.t) (k : Z) (metric mode : pyval)
    : res (list SearchResult.t) :=
  ascending ← ascending_order metric mode;
  Ok (py_take k (sorted_by_key (rank_key ascending) (unique_results results).*2)).

(** [1.0 / (rank_constant + rank)] *)
Definition reciprocal (n : Z) : res float :=
  raise_if (n =? 0) ZeroDivisionError "float division by zero";;
  one ← float_of_int 1;
  d ← float_of_int n;
  Ok (fdiv one d).

(** [for rank, result in enumerate(results, start=rank): scores[...] = ...] *)
Fixpoint add_ranks (rank_constant rank : Z) (results : list SearchResult.t)
    (scores : list (Z * float)) : res (list (Z * float)) :=
  match results with
  | [] => Ok scores
  | r :: results =>
      x ← reciprocal (rank_constant + rank);
      add_ranks rank_constant (rank + 1) results
        (assoc_set scores (SearchResult.id r)
           (fadd (default fzero (assoc_get scores (SearchResult.id r))) x))
  end.

(** The end of [_search_hybrid]. *)
Definition fuse (rank_constant k : Z) (dense sparse : list SearchResult.t)
    : res (list SearchResult.t) :=
  scores ← add_ranks rank_constant 1 dense [];
  scores ← add_ranks rank_constant 1 sparse scores;
  Ok ((fun kv => SearchResult.Mk kv.1 kv.2) <$>
        py_take k (sorted_by_key (fun kv => (fopp kv.2, kv.1)) scores)).

Definition SUMMED : list string :=
  ["upper_visited"; "base_visited"; "visited"; "distance_evaluations"; "retained_candidates";
   "reranked_candidates"; "filtered_rejections"; "inactive_rejections"; "base_candidates";
   "delta_candidates"].
Definition MAXIMUM : list string := ["requested_ef"; "effective_ef"; "widening_rounds"].
Definition LABELS : list string :=
  ["planner_reason"; "backend_name"; "metric_name"; "scalar_name"; "storage_name";
   "fallback_reason"].

Definition int_values (values : list dict) (name : string) : res (list Z) :=
  map_res (fun value => v ← dict_item value name; py_int v) values.

Definition label_values (values : list dict) (name : string) : res (list string) :=
  map_res (fun value => v ← dict_item value name; ReplicaShard.str_of v) values.

(** [distinct.pop() if len(distinct) == 1 else "mixed"] *)
Definition common_label (labels : list string) : string :=
  match labels with
  | l :: rest => if forallb (fun l' => bool_decide (l' = l)) rest then l else "mixed"
  | [] => "mixed"
  end.

(** The sets of names are walked in some order, which no result depends on: each
    name is a key of the first value, so it keeps its place. *)
Definition _merge_search_stats (values : list dict) : res dict :=
  match values with
  | [] => Ok []
  | first :: rest =>
      merged ← for_fold (fun merged name =>
        l ← int_values values name; Ok (dict_set merged name (PInt (foldl Z.add 0 l))))
        first SUMMED;
      merged ← for_fold (fun merged name =>
        l ← int_values values name;
        Ok (dict_set merged name (PInt (foldl Z.max (hd 0 l) l)))) merged MAXIMUM;
      for_fold (fun merged name =>
        l ← label_values values name;
        Ok (dict_set merged name (PStr (common_label l)))) merged LABELS
  end.
