(* ===== verification/RankingFacts.v ===== *)
(** Properties of the rankings: the order they sort by, the best [k] of a list,
    and the merge of partial rankings. *)

From S2P Require Import Prelude Assoc PyFloat PyValue Json Envelope Models Vectors Replica Ranking.

(** * The best [k] under a total order on keys that tell elements apart *)

Section Best.
Context {A : Type} (leb : A -> A -> bool) (P : A -> Prop).
Hypothesis leb_total : forall x y, P x -> P y -> leb x y = true \/ leb y x = true.
Hypothesis leb_trans : forall x y z, P x -> P y -> P z ->
  leb x y = true -> leb y z = true -> leb x z = true.

Definition best (k : nat) (l : list A) : list A := take k (isort leb l).

(** [x] is strictly below [y]. *)
Definition below (x y : A) : Prop := leb x y = true /\ leb y x = false.

(** Elements that compare equal are one element. *)
Definition apart (l : list A) : Prop :=
  NoDup l /\ forall x y, x ∈ l -> y ∈ l -> leb x y = true -> leb y x = true -> x = y.

Lemma apart_perm l k : l ≡ₚ k -> apart l -> apart k.
Proof. intros Hlk [Hnd H]. split; [by rewrite <- Hlk|]. intros x y. rewrite <- Hlk. apply H. Qed.

Lemma apart_app_r l k : apart (l ++ k) -> apart k.
Proof.
  intros [(_ & _ & Hk)%NoDup_app H]. split; [done|].
  intros x y Hx Hy. apply H; apply elem_of_app; by right.
Qed.

Lemma isort_perm_eq l k : Forall P l -> apart l -> l ≡ₚ k -> isort leb l = isort leb k.
Proof. intros Hl [_ Ha] Hlk. by apply (isort_unique leb P). Qed.

(** Inserting an element above [k] others does not change the first [k]. *)
Lemma take_insert k x l ys :
  Forall P (x :: l) -> sorted_by leb l -> ys ⊆+ l -> (k <= length ys)%nat ->
  Forall (fun y => below y x) ys -> take k (insert_sorted leb x l) = take k l.
Proof.
  intros Hp%Forall_cons Hs Hsub Hk Hys. destruct Hp as [Hx Hl].
  revert k ys Hsub Hk Hys. induction Hs as [|y l Hs IH Hy]; intros k ys Hsub Hk Hys.
  - apply submseteq_nil_r in Hsub as ->. simpl in Hk. by replace k with 0%nat by lia.
  - apply Forall_cons in Hl as [Hpy Hl]. simpl. destruct (leb x y) eqn:Hxy.
    + assert (ys = []) as ->; [|simpl in Hk; by replace k with 0%nat by lia].
      destruct ys as [|z ys]; [done|]. apply Forall_cons in Hys as [[Hzx Hxz] _].
      assert (z ∈ y :: l) as Hz by (eapply elem_of_submseteq; [left|exact Hsub]).
      assert (leb x z = true); [|congruence].
      apply elem_of_cons in Hz as [->|Hz]; [done|]. rewrite Forall_forall in Hy, Hl.
      apply leb_trans with y; auto.
    + destruct k as [|k]; [done|]. simpl. f_equal.
      apply submseteq_cons_r in Hsub as [Hsub|(l' & Hl' & Hsub)].
      * apply (IH Hl k ys); [done|lia|done].
      * rewrite Hl' in Hk, Hys. apply (IH Hl k l'); [done|simpl in Hk; lia|].
        by apply Forall_cons in Hys as [_ ?].
Qed.

Lemma isort_app l k : isort leb (l ++ k) = foldr (insert_sorted leb) (isort leb k) l.
Proof. unfold isort. by rewrite foldr_app. Qed.

(** The best of a list only depend on the best of its parts. *)
Lemma best_app_l k l m :
  Forall P (l ++ m) -> apart (l ++ m) -> best k (best k l ++ m) = best k (l ++ m).
Proof.
  intros Hp Ha. unfold best. set (a1 := take k (isort leb l)). set (a2 := drop k (isort leb l)).
  assert (l ++ m ≡ₚ a2 ++ (a1 ++ m)) as Hperm.
  { rewrite app_assoc, (Permutation_app_comm a2 a1). unfold a1, a2.
    by rewrite take_drop, isort_perm. }
  rewrite (isort_perm_eq (l ++ m) (a2 ++ (a1 ++ m))) by done. rewrite (isort_app a2).
  destruct (decide (length (isort leb l) <= k)%nat) as [Hle|Hgt].
  { unfold a2. by rewrite (drop_ge _ _ Hle). }
  assert (length a1 = k) as Hk by (unfold a1; rewrite length_take; lia).
  assert (Forall P (a2 ++ (a1 ++ m))) as Hp' by (by rewrite <- Hperm).
  pose proof (apart_perm _ _ Hperm Ha) as Ha'.
  assert (forall x y, x ∈ a2 -> y ∈ a1 -> below y x) as Hbelow.
  { intros x y Hx Hy.
    assert (leb y x = true) as Hyx.
    { pose proof (isort_sorted leb P leb_total leb_trans l) as Hs.
      apply Forall_app in Hp as [Hpl _]. specialize (Hs Hpl). unfold sorted_by in Hs.
      rewrite <- (take_drop k (isort leb l)) in Hs. exact (StronglySorted_app_1_elem_of _ _ _ y x Hs Hy Hx). }
    split; [done|]. apply not_true_iff_false. intros Hxy. destruct Ha' as [Hnd Heq].
    assert (x = y) as -> by (apply Heq; set_solver).
    apply NoDup_app in Hnd as (_ & Hnd & _). apply (Hnd y Hx). set_solver. }
  clear Hperm Ha Ha' Hp. clearbody a1 a2. symmetry.
  induction a2 as [|x a2 IH]; [done|]. simpl app in Hp'. apply Forall_cons in Hp' as [Hx Hp'].
  cbn [foldr]. rewrite <- isort_app. rewrite (take_insert k x (isort leb (a2 ++ a1 ++ m)) a1).
  - rewrite isort_app. apply IH; [done|]. intros y z Hy. apply Hbelow. by right.
  - constructor; [done|]. by rewrite isort_perm.
  - apply (isort_sorted leb P leb_total leb_trans). done.
  - rewrite isort_perm. by apply submseteq_inserts_l, submseteq_inserts_r.
  - lia.
  - apply Forall_forall. intros y Hy. apply Hbelow; [left|done].
Qed.

Lemma best_length_perm k l : best k l ⊆+ l.
Proof. unfold best. rewrite <- (isort_perm leb l) at 2. by apply submseteq_take. Qed.

Lemma best_perm k l m : Forall P l -> apart l -> l ≡ₚ m -> best k l = best k m.
Proof. intros Hp Ha Hlm. unfold best. by rewrite (isort_perm_eq l m). Qed.

Lemma apart_submseteq l m : l ⊆+ m -> apart m -> apart l.
Proof.
  intros Hs [Hnd Ha]. split.
  { apply submseteq_Permutation in Hs as [k Hk]. rewrite Hk in Hnd. by apply NoDup_app in Hnd as [? _]. }
  intros x y Hx Hy. apply Ha; by eapply elem_of_submseteq.
Qed.

Lemma Forall_submseteq (Q : A -> Prop) l m : l ⊆+ m -> Forall Q m -> Forall Q l.
Proof. rewrite !Forall_forall. intros Hs Hm x Hx. apply Hm. by eapply elem_of_submseteq. Qed.

Lemma best_app_r k l m :
  Forall P (l ++ m) -> apart (l ++ m) -> best k (l ++ best k m) = best k (l ++ m).
Proof.
  intros Hp Ha. assert (l ++ best k m ⊆+ l ++ m) as Hs.
  { apply submseteq_app; [done|apply best_length_perm]. }
  rewrite (best_perm k (l ++ best k m) (best k m ++ l)), (best_perm k (l ++ m) (m ++ l));
    auto using Permutation_app_comm.
  - apply best_app_l; [by rewrite (Permutation_app_comm m l)|].
    eapply apart_perm; [|done]. apply Permutation_app_comm.
  - by eapply Forall_submseteq.
  - by eapply apart_submseteq.
Qed.

(** Taking the best of every part first does not change the best of all. *)
Lemma best_concat k (ls : list (list A)) :
  Forall P (List.concat ls) -> apart (List.concat ls) ->
  best k (List.concat (best k <$> ls)) = best k (List.concat ls).
Proof.
  induction ls as [|l ls IH]; intros Hp Ha; [done|]. cbn [fmap list_fmap List.concat] in *.
  assert (List.concat (best k <$> ls) ⊆+ List.concat ls) as Hs.
  { clear. induction ls as [|l ls IH]; [done|]. cbn. apply submseteq_app; [apply best_length_perm|done]. }
  assert (best k l ++ List.concat (best k <$> ls) ⊆+ l ++ List.concat ls) as Hs2.
  { apply submseteq_app; [apply best_length_perm|done]. }
  assert (best k l ++ List.concat ls ⊆+ l ++ List.concat ls) as Hs3.
  { apply submseteq_app; [apply best_length_perm|done]. }
  rewrite <- best_app_r by (by eapply Forall_submseteq || by eapply apart_submseteq).
  rewrite IH.
  - rewrite best_app_r by (by eapply Forall_submseteq || by eapply apart_submseteq).
    by apply best_app_l.
  - by apply Forall_app in Hp as [_ ?].
  - by eapply apart_app_r.
Qed.

(** What is left out ranks after everything kept. *)
Lemma best_spec k l x y :
  Forall P l -> x ∈ best k l -> y ∈ l -> y ∉ best k l -> leb x y = true.
Proof.
  intros Hp Hx Hy Hn. unfold best in *.
  pose proof (isort_sorted leb P leb_total leb_trans l Hp) as Hs. unfold sorted_by in Hs.
  rewrite <- (isort_elem_of leb) in Hy. rewrite <- (take_drop k (isort leb l)) in Hs, Hy.
  apply elem_of_app in Hy as [Hy|Hy]; [done|].
  exact (StronglySorted_app_1_elem_of _ _ _ x y Hs Hx Hy).
Qed.

Lemma best_sorted k l : Forall P l -> sorted_by leb (best k l).
Proof.
  intros Hp. pose proof (isort_sorted leb P leb_total leb_trans l Hp) as Hs.
  unfold sorted_by, best in *. rewrite <- (take_drop k (isort leb l)) in Hs.
  by apply StronglySorted_app_1_l in Hs.
Qed.
End Best.

(** * The order of the hits *)

(** [key(x) <= key(y)] of two pairs of a number and an [int] *)
Definition key_leb (x y : float * Z) : bool := negb (key_ltb y x).
Definition key_ok (x : float * Z) : Prop := is_nan x.1 = false.

(** The order as a proposition that [lia] can use. *)
Definition key_le (x y : float * Z) : Prop :=
  let '(a1, a2, a3) := fkey x.1 in
  let '(b1, b2, b3) := fkey y.1 in
  a1 < b1 \/ (a1 = b1 /\ (a2 < b2 \/ (a2 = b2 /\ (a3 < b3 \/ (a3 = b3 /\ x.2 <= y.2))))).

Lemma key_leb_le x y : key_ok x -> key_ok y -> key_leb x y = true <-> key_le x y.
Proof.
  unfold key_ok, key_leb, key_ltb, key_le. intros Hx Hy.
  rewrite feqb_key, fltb_key by done. pose proof (lex_compare_spec (fkey y.1) (fkey x.1)) as Hs.
  destruct (fkey x.1) as [[a1 a2] a3], (fkey y.1) as [[b1 b2] b3].
  rewrite negb_true_iff.
  destruct (lex_compare _ _); rewrite ?Z.ltb_ge; split; try done; intros; lia.
Qed.

Lemma rank_leb_total x y : key_ok x -> key_ok y -> key_leb x y = true \/ key_leb y x = true.
Proof.
  intros Hx Hy. rewrite !key_leb_le by done. unfold key_le.
  destruct (fkey x.1) as [[? ?] ?], (fkey y.1) as [[? ?] ?]. lia.
Qed.

Lemma rank_leb_trans x y z :
  key_ok x -> key_ok y -> key_ok z ->
  key_leb x y = true -> key_leb y z = true -> key_leb x z = true.
Proof.
  intros Hx Hy Hz. rewrite !key_leb_le by done. unfold key_le.
  destruct (fkey x.1) as [[? ?] ?], (fkey y.1) as [[? ?] ?], (fkey z.1) as [[? ?] ?]. lia.
Qed.

Lemma key_leb_antisym x y :
  key_ok x -> key_ok y -> key_leb x y = true -> key_leb y x = true -> x.2 = y.2.
Proof.
  intros Hx Hy. rewrite !key_leb_le by done. unfold key_le.
  destruct (fkey x.1) as [[? ?] ?], (fkey y.1) as [[? ?] ?]. lia.
Qed.

(** Hits whose scores are numbers *)
Definition scored (r : SearchResult.t) : Prop := is_nan (SearchResult.score r) = false.

Definition ranks (ascending : bool) (x y : SearchResult.t) : bool :=
  key_leb (rank_key ascending x) (rank_key ascending y).

Lemma rank_key_ok ascending r : scored r -> key_ok (rank_key ascending r).
Proof. unfold scored, key_ok, rank_key. destruct ascending; simpl; [done|by rewrite fopp_nan]. Qed.

Lemma ranks_total asc x y : scored x -> scored y -> ranks asc x y = true \/ ranks asc y x = true.
Proof. intros. by apply rank_leb_total; apply rank_key_ok. Qed.

Lemma ranks_trans asc x y z :
  scored x -> scored y -> scored z -> ranks asc x y = true -> ranks asc y z = true ->
  ranks asc x z = true.
Proof. intros ? ? ?. by apply rank_leb_trans; apply rank_key_ok. Qed.

Lemma ids_apart asc (l : list SearchResult.t) :
  Forall scored l -> NoDup (SearchResult.id <$> l) -> apart (ranks asc) l.
Proof.
  intros Hl Hnd. split; [by eapply NoDup_fmap_1|]. intros x y Hx Hy Hxy Hyx.
  rewrite Forall_forall in Hl.
  assert (SearchResult.id x = SearchResult.id y) as Hid.
  { apply (key_leb_antisym (rank_key asc x) (rank_key asc y)); auto using rank_key_ok. }
  apply list_elem_of_lookup in Hx as [i Hi], Hy as [j Hj].
  assert (i = j) as ->; [|congruence].
  apply (NoDup_lookup _ i j (SearchResult.id x) Hnd); rewrite list_lookup_fmap.
  - by rewrite Hi.
  - by rewrite Hj, Hid.
Qed.

(** The best hits of one list, as a shard returns them. *)
Definition top (asc : bool) (k : Z) (l : list SearchResult.t) : list SearchResult.t :=
  best (ranks asc) (Z.to_nat k) l.

Lemma unique_results_fresh l d :
  NoDup (d.*1 ++ (SearchResult.id <$> l)) ->
  foldl (fun d r => assoc_set d (SearchResult.id r) r) d l =
  d ++ ((fun r => (SearchResult.id r, r)) <$> l).
Proof.
  revert d. induction l as [|r l IH]; intros d Hnd; [by rewrite app_nil_r|].
  cbn [foldl fmap list_fmap] in *.
  rewrite assoc_set_fresh.
  - rewrite IH; [by rewrite <- app_assoc|]. by rewrite fmap_app, <- app_assoc.
  - intros Hin. apply NoDup_app in Hnd as (_ & Hnd & _). apply (Hnd _ Hin). left.
Qed.

Lemma unique_results_id l : NoDup (SearchResult.id <$> l) -> (unique_results l).*2 = l.
Proof.
  intros Hnd. unfold unique_results. rewrite unique_results_fresh by done. simpl.
  rewrite <- list_fmap_compose. apply list_fmap_id.
Qed.

(** [_global_topk] on distinct points keeps the best. *)
Lemma global_topk_top l k metric mode asc :
  0 <= k -> NoDup (SearchResult.id <$> l) -> ascending_order metric mode = Ok asc ->
  _global_topk l k metric mode = Ok (top asc k l).
Proof.
  intros Hk Hnd Ha. unfold _global_topk. rewrite Ha. cbn [mbind res_bind].
  rewrite unique_results_id by done. unfold py_take. by rewrite (proj2 (Z.ltb_ge _ _) Hk).
Qed.
