(* ===== verification/Cluster.v ===== *)
(** [DistributedCluster] of [python/akashadb/distributed/cluster.py]: routing,
    quorum writes, elections, catch-up, queries and rebalancing, over the
    processes of its nodes and its metadata file. *)

From S2P Require Import Prelude Assoc PyFloat PyValue Json Checksum Envelope Files Models KernelConfig KernelInterface Vectors Database CollectionIdentity Mutation Journal Metadata Snapshot Replica ReplicaServer Ranking.

(** [except (ReplicaUnavailable, StaleEpochError, ProtocolError)] *)
Definition node_errors : list exn_class := [ReplicaUnavailable; StaleEpochError; ProtocolError].
(** [except (ReplicaUnavailable, ProtocolError)] *)
Definition status_errors : list exn_class := [ReplicaUnavailable; ProtocolError].

Module CommitResult.
Record t : Type := Mk { shard_id : Z; term : Z; index : Z; request_id : string }.
End CommitResult.

Module ShardUpdate.
Import ShardPlacement.
Definition set_last_log_index (i : Z) (p : t) : t :=
  Mk (shard_id p) (term p) (placement_epoch p) (leader p) (replicas p) i (committed_index p).
Definition set_committed_index (i : Z) (p : t) : t :=
  Mk (shard_id p) (term p) (placement_epoch p) (leader p) (replicas p) (last_log_index p) i.
Definition set_leader (new_term new_epoch : Z) (node : string) (p : t) : t :=
  Mk (shard_id p) new_term new_epoch node (replicas p) (last_log_index p) (committed_index p).
Definition add_replica (node : string) (new_epoch : Z) (p : t) : t :=
  Mk (shard_id p) (term p) new_epoch (leader p) (replicas p ++ [node]) (last_log_index p)
    (committed_index p).
End ShardUpdate.

Module MetadataUpdate.
Import ClusterMetadata.
Definition set_epoch (e : Z) (m : t) : t :=
  Mk (cluster_id m) (dimension m) (shard_count m) (replication_factor m) e (members m) (shards m)
    (collection_config m) (request_table m) (routing_version m).
Definition set_members (l : list (string * (string * Z))) (m : t) : t :=
  Mk (cluster_id m) (dimension m) (shard_count m) (replication_factor m) (epoch m) l (shards m)
    (collection_config m) (request_table m) (routing_version m).
Definition set_shards (l : list (Z * ShardPlacement.t)) (m : t) : t :=
  Mk (cluster_id m) (dimension m) (shard_count m) (replication_factor m) (epoch m) (members m) l
    (collection_config m) (request_table m) (routing_version m).
Definition set_request_table (d : dict) (m : t) : t :=
  Mk (cluster_id m) (dimension m) (shard_count m) (replication_factor m) (epoch m) (members m)
    (shards m) (collection_config m) d (routing_version m).
End MetadataUpdate.

Module DistributedCluster.
Section Cluster.
Context {K : Type} `{!Kernel K}.
Variable perf_counter_ns : nat -> Z.
(** The port of the n-th start of a node, and the n-th [uuid.uuid4().hex]. *)
Variable port : string -> Z -> Z.
Variable uuid : nat -> string.
Abbreviation process := (@ReplicaProcess.t K).

Record t : Type := Mk {
  metadata_path : ClusterMetadata.directory;
  metadata : ClusterMetadata.t;
  dimension : Z;
  _config : option CollectionConfig.t;
  nodes : list (string * process);
  _closed : bool;
  _last_search_stats : dict;
  uuids : nat }.

Definition set_metadata (m : ClusterMetadata.t) (c : t) : t :=
  Mk (metadata_path c) m (dimension c) (_config c) (nodes c) (_closed c) (_last_search_stats c)
    (uuids c).
Definition set_path (d : ClusterMetadata.directory) (c : t) : t :=
  Mk d (metadata c) (dimension c) (_config c) (nodes c) (_closed c) (_last_search_stats c) (uuids c).
Definition set_config (dim : Z) (config : CollectionConfig.t) (c : t) : t :=
  Mk (metadata_path c) (metadata c) dim (Some config) (nodes c) (_closed c)
    (_last_search_stats c) (uuids c).
Definition set_nodes (l : list (string * process)) (c : t) : t :=
  Mk (metadata_path c) (metadata c) (dimension c) (_config c) l (_closed c) (_last_search_stats c)
    (uuids c).
Definition set_closed (b : bool) (c : t) : t :=
  Mk (metadata_path c) (metadata c) (dimension c) (_config c) (nodes c) b (_last_search_stats c)
    (uuids c).
Definition set_stats (d : dict) (c : t) : t :=
  Mk (metadata_path c) (metadata c) (dimension c) (_config c) (nodes c) (_closed c) d (uuids c).
Definition set_uuids (n : nat) (c : t) : t :=
  Mk (metadata_path c) (metadata c) (dimension c) (_config c) (nodes c) (_closed c)
    (_last_search_stats c) n.

Definition on_metadata (f : ClusterMetadata.t -> ClusterMetadata.t) : M t unit :=
  modify (fun c => set_metadata (f (metadata c)) c).

Definition bump_epoch : M t unit :=
  on_metadata (fun m => MetadataUpdate.set_epoch (ClusterMetadata.epoch m + 1) m).

(** [self.metadata.shards[shard_id]] *)
Definition placement_of (shard_id : Z) : M t ShardPlacement.t :=
  c ← get_state;
  lift match assoc_get (ClusterMetadata.shards (metadata c)) shard_id with
       | Some p => Ok p
       | None => raise KeyError (int_repr shard_id)
       end.

(** An assignment to a field of that object. *)
Definition on_placement (shard_id : Z) (f : ShardPlacement.t -> ShardPlacement.t) : M t unit :=
  on_metadata (fun m =>
    match assoc_get (ClusterMetadata.shards m) shard_id with
    | Some p => MetadataUpdate.set_shards (assoc_set (ClusterMetadata.shards m) shard_id (f p)) m
    | None => m
    end).

(** A method of [self.nodes[node]] *)
Definition with_node {A} (node : string) (m : M process A) : M t A := fun c =>
  match assoc_get (nodes c) node with
  | None => (raise KeyError node, c)
  | Some p => let '(r, p) := m p in (r, set_nodes (assoc_set (nodes c) node p) c)
  end.

Definition _ensure_open : M t unit :=
  c ← get_state;
  lift (raise_if (_closed c) ClusterClosedError "distributed cluster is closed").

Definition _publish_metadata : M t unit := fun c =>
  match ClusterMetadata.publish (metadata c) (metadata_path c) with
  | Ok (m, d) => (Ok tt, set_path d (set_metadata m c))
  | Raise e => (Raise e, c)
  end.

Definition _rpc (node : string) (request : dict) : M t pyval :=
  with_node node (ReplicaProcess.rpc perf_counter_ns (PDict request)).

Definition _configure (node : string) (p : ShardPlacement.t) : M t pyval :=
  _rpc node [("operation", PStr "configure"); ("shard_id", PInt (ShardPlacement.shard_id p));
             ("term", PInt (ShardPlacement.term p));
             ("placement_epoch", PInt (ShardPlacement.placement_epoch p))].

Definition _configure_all : M t unit :=
  c ← get_state;
  for_each_M (fun p => for_each_M (fun node => _configure node p;; mret tt)
                         (ShardPlacement.replicas p))
    (ClusterMetadata.shards (metadata c)).*2.

Definition route (point_id : Z) : M t Z :=
  _ensure_open;;
  c ← get_state;
  let unsigned := Z.land point_id 0xFFFFFFFFFFFFFFFF in
  mret (unsigned mod ClusterMetadata.shard_count (metadata c)).

Definition collection_config : M t CollectionConfig.t :=
  c ← get_state;
  lift (CollectionConfig.from_kernel (ClusterMetadata.collection_config (metadata c))).

Definition last_search_stats (c : t) : dict := _last_search_stats c.

(** [request_id or uuid.uuid4().hex] *)
Definition request_name (request_id : option string) : M t string :=
  match request_id with
  | Some (String a s) => mret (String a s)
  | _ => c ← get_state; modify (set_uuids (S (uuids c)));; mret (uuid (uuids c))
  end.

(** [response[name]] *)
Definition response_item (response : pyval) (name : string) : res pyval :=
  d ← subscriptable response; dict_item d name.
Definition response_int (response : pyval) (name : string) : res Z :=
  v ← response_item response name; py_int v.

Definition _status (node : string) (shard_id : Z) : M t pyval :=
  _rpc node [("operation", PStr "status"); ("shard_id", PInt shard_id)].

(** ** Elections *)

(** [candidates.sort(key=lambda item: (-item[0], item[1]))] *)
Definition candidate_leb (x y : Z * string) : bool :=
  if - x.1 =? - y.1 then String.leb x.2 y.2 else - x.1 <? - y.1.

(** The applied index of each node of the list that answers. *)
Definition poll (shard_id : Z) (replicas : list string) : M t (list (Z * string)) :=
  for_fold_M (fun candidates node =>
    try_catch
      (status ← _status node shard_id;
       applied ← lift (response_int status "applied_index");
       mret (candidates ++ [(applied, node)]))
      status_errors (fun _ => mret candidates)) [] replicas.

Definition _elect_leader (shard_id : Z) : M t string :=
  p ← placement_of shard_id;
  candidates ← poll (ShardPlacement.shard_id p) (ShardPlacement.replicas p);
  lift (raise_if (Z.of_nat (length candidates) <? ShardPlacement.quorum p)
          QuorumUnavailable "cannot elect leader without replica quorum");;
  let candidates := isort candidate_leb candidates in
  match candidates with
  | [] => lift (raise IndexError "list index out of range")
  | (_, leader) :: _ =>
      on_placement shard_id (ShardUpdate.set_leader (ShardPlacement.term p + 1)
                               (ShardPlacement.placement_epoch p + 1) leader);;
      bump_epoch;;
      _publish_metadata;;
      p ← placement_of shard_id;
      for_each_M (fun candidate => _configure candidate.2 p;; mret tt) candidates;;
      mret leader
  end.

Definition _ensure_leader (shard_id : Z) : M t unit :=
  p ← placement_of shard_id;
  settled ← try_catch
    (status ← _status (ShardPlacement.leader p) (ShardPlacement.shard_id p);
     term ← lift (response_item status "term");
     mret (py_eq term (PInt (ShardPlacement.term p))))
    status_errors (fun _ => mret false);
  if settled : bool then mret tt else _elect_leader shard_id;; mret tt.

(** ** Writes *)

(** [{"operation": ..., "shard_id": ..., "entry": entry.to_dict()}] *)
Definition entry_request (operation : string) (entry : ReplicatedEntry.t) : res dict :=
  d ← ReplicatedEntry.to_dict entry;
  Ok [("operation", PStr operation); ("shard_id", PInt (ReplicatedEntry.shard_id entry));
      ("entry", PDict d)].

Definition send_entry (operation : string) (entry : ReplicatedEntry.t) (node : string)
    : M t pyval :=
  request ← lift (entry_request operation entry); _rpc node request.

Definition request_record (entry : ReplicatedEntry.t) (checksum : Z) (status : string) : pyval :=
  PDict [("shard_id", PInt (ReplicatedEntry.shard_id entry));
         ("term", PInt (ReplicatedEntry.term entry)); ("index", PInt (ReplicatedEntry.index entry));
         ("checksum", PInt checksum); ("status", PStr status)].

Definition record_request (entry : ReplicatedEntry.t) (checksum : Z) (status : string) : M t unit :=
  on_metadata (fun m => MetadataUpdate.set_request_table
    (dict_set (ClusterMetadata.request_table m) (ReplicatedEntry.request_id entry)
       (request_record entry checksum status)) m).

(** The nodes that acknowledge the commit. *)
Definition commit_on (entry : ReplicatedEntry.t) (replicas : list string) : M t (list string) :=
  for_fold_M (fun committed node =>
    try_catch (send_entry "commit" entry node;; mret (committed ++ [node]))
      node_errors (fun _ => mret committed)) [] replicas.

Definition _commit_prepared (shard_id : Z) (entry : ReplicatedEntry.t) (checksum : Z)
    : M t CommitResult.t :=
  p ← placement_of shard_id;
  committed ← commit_on entry (ShardPlacement.replicas p);
  lift (raise_if (Z.of_nat (length committed) <? ShardPlacement.quorum p)
          QuorumUnavailable "mutation did not reach commit quorum");;
  on_placement shard_id (fun p => ShardUpdate.set_committed_index
    (Z.max (ShardPlacement.committed_index p) (ReplicatedEntry.index entry)) p);;
  record_request entry checksum "committed";;
  bump_epoch;;
  _publish_metadata;;
  mret (CommitResult.Mk (ReplicatedEntry.shard_id entry) (ReplicatedEntry.term entry)
          (ReplicatedEntry.index entry) (ReplicatedEntry.request_id entry)).

(** The nodes that prepare the entry with its checksum. *)
Definition prepare_on (entry : ReplicatedEntry.t) (replicas : list string) : M t (list string) :=
  for_fold_M (fun prepared node =>
    try_catch
      (response ← send_entry "prepare" entry node;
       checksum ← lift (response_int response "checksum");
       mret (if checksum =? ReplicatedEntry.mutation_checksum entry then prepared ++ [node]
             else prepared))
      node_errors (fun _ => mret prepared)) [] replicas.

(** The branch of [_write] for a request that is in the table. *)
Definition retried_write (shard_id checksum : Z) (request_id : string) (mutation duplicate : dict)
    : M t CommitResult.t :=
  stored ← lift (dict_item duplicate "checksum");
  stored ← lift (py_int stored);
  lift (raise_if (negb (stored =? checksum))
          ProtocolError "request ID reused with conflicting mutation");;
  if py_eq (dict_get_or duplicate "status" PNone) (PStr "committed") then
    term ← lift (int_item duplicate "term");
    index ← lift (int_item duplicate "index");
    mret (CommitResult.Mk shard_id term index request_id)
  else
    placement_of shard_id;;
    _ensure_leader shard_id;;
    p ← placement_of shard_id;
    index ← lift (int_item duplicate "index");
    _commit_prepared shard_id
      (ReplicatedEntry.create shard_id (ShardPlacement.term p) (ShardPlacement.placement_epoch p)
         index request_id mutation) checksum.

(** The rest of [_write], for a request that is not; [again] is the branch of a
    leader that did not prepare the entry. *)
Definition new_write (again : M t CommitResult.t) (shard_id checksum : Z) (request_id : string)
    (mutation : dict) : M t CommitResult.t :=
  placement_of shard_id;;
  _ensure_leader shard_id;;
  on_placement shard_id (fun p => ShardUpdate.set_last_log_index
    (ShardPlacement.last_log_index p + 1) p);;
  p ← placement_of shard_id;
  bump_epoch;;
  _publish_metadata;;
  let entry := ReplicatedEntry.create shard_id (ShardPlacement.term p)
    (ShardPlacement.placement_epoch p) (ShardPlacement.last_log_index p) request_id mutation in
  prepared ← prepare_on entry (ShardPlacement.replicas p);
  if negb (str_in (ShardPlacement.leader p) prepared) then again
  else
    lift (raise_if (Z.of_nat (length prepared) <? ShardPlacement.quorum p)
            QuorumUnavailable "mutation did not reach prepare quorum");;
    record_request entry checksum "prepared";;
    bump_epoch;;
    _publish_metadata;;
    _commit_prepared shard_id entry checksum.

(** [_write]; [retries] is how many more elections it may hold, [2 - retry]. *)
Fixpoint _write (retries : nat) (mutation : dict) (request_id : string) : M t CommitResult.t :=
  _ensure_open;;
  id ← lift (int_item mutation "id");
  shard_id ← route id;
  let checksum := payload_checksum (PDict mutation) in
  c ← get_state;
  match dict_get_or (ClusterMetadata.request_table (metadata c)) request_id PNone with
  | PNone =>
      new_write match retries with
                | O => lift (raise QuorumUnavailable "leader failed during replication")
                | S retries => _elect_leader shard_id;; _write retries mutation request_id
                end shard_id checksum request_id mutation
  | duplicate =>
      duplicate ← lift (subscriptable duplicate);
      retried_write shard_id checksum request_id mutation duplicate
  end.

Definition write_mutation (mutation : dict) (request_id : option string) : M t CommitResult.t :=
  name ← request_name request_id; _write 2 mutation name.

Definition upsert_mutation (point_id : Z) (vector : list float) (fields : list PayloadField.t)
    (sparse : list SparseElement.t) : dict :=
  [("operation", PStr "upsert"); ("id", PInt point_id); ("vector", PList (PFloat <$> vector));
   ("fields", PList (PayloadField.to_kernel <$> fields));
   ("sparse", PList (SparseElement.to_kernel <$> sparse))].

Definition upsert (point_id : Z) (vector : list pyval) (fields : option (list PayloadField.t))
    (sparse : option (list SparseElement.t)) (request_id : option string) : M t CommitResult.t :=
  vector ← lift (map_res py_float vector);
  write_mutation (upsert_mutation point_id vector (default [] fields) (default [] sparse)) request_id.

Definition delete (point_id : Z) (request_id : option string) : M t CommitResult.t :=
  write_mutation [("operation", PStr "delete"); ("id", PInt point_id)] request_id.

(** ** Replicas behind *)

(** [[placement.leader] + [node for node in placement.replicas if ...]] *)
Definition ordered (p : ShardPlacement.t) : list string :=
  ShardPlacement.leader p ::
  filter (fun node => node <> ShardPlacement.leader p) (ShardPlacement.replicas p).

(** The first node of the list for which [f] returns a value; an error of a node
    counts as none. *)
Fixpoint first_node {A} (f : string -> M t (option A)) (handlers : list exn_class)
    (l : list string) : M t (option A) :=
  match l with
  | [] => mret None
  | node :: l =>
      found ← try_catch (f node) handlers (fun _ => mret None);
      match found with
      | Some a => mret (Some a)
      | None => first_node f handlers l
      end
  end.

Definition _query_replica (p : ShardPlacement.t) (require_index : Z) : M t string :=
  found ← first_node (fun node =>
    status ← _status node (ShardPlacement.shard_id p);
    applied ← lift (response_int status "applied_index");
    mret (if require_index <=? applied then Some node else None)) status_errors (ordered p);
  match found with
  | Some node => mret node
  | None => lift (raise QuorumUnavailable "no caught-up replica is available for query")
  end.

(** The loop over the fetched entries, each given the current term and an epoch;
    the accumulator is the last index applied. *)
Definition replay_on (node : string) (shard_id term epoch applied : Z) (entries : list pyval)
    : M t Z :=
  for_fold_M (fun _ raw =>
    old ← lift (ReplicatedEntry.from_dict raw);
    let entry := ReplicatedEntry.create shard_id term epoch (ReplicatedEntry.index old)
      (ReplicatedEntry.request_id old) (ReplicatedEntry.mutation old) in
    send_entry "prepare" entry node;;
    send_entry "commit" entry node;;
    mret (ReplicatedEntry.index entry)) applied entries.

Definition catch_up (node : string) (shard_id : Z) : M t Z :=
  p ← placement_of shard_id;
  lift (raise_if (negb (str_in node (ShardPlacement.replicas p)))
          ProtocolError "catch-up target is not a shard replica");;
  _configure node p;;
  target ← _status node shard_id;
  source_node ← _query_replica p (ShardPlacement.committed_index p);
  after_index ← lift (response_int target "applied_index");
  entries ← _rpc source_node [("operation", PStr "entries"); ("shard_id", PInt shard_id);
                              ("after_index", PInt after_index)];
  entries ← lift (Point.iterable entries);
  replay_on node shard_id (ShardPlacement.term p) (ShardPlacement.placement_epoch p) after_index
    entries.

(** ** Queries *)

Definition _request_to_dict (r : SearchRequest.t) : dict :=
  [("metric", SearchRequest.metric r); ("k", PInt (SearchRequest.k r));
   ("vector", SearchRequest.vector r);
   ("sparse", PList (SparseElement.to_kernel <$> SearchRequest.sparse r));
   ("mode", SearchRequest.mode r); ("ef_search", PInt (SearchRequest.ef_search r));
   ("fetch_k", PInt (SearchRequest.fetch_k r));
   ("rank_constant", PInt (SearchRequest.rank_constant r)); ("filter", SearchRequest.filter r)].

Definition _query_shard (p : ShardPlacement.t) (request : dict) : M t pyval :=
  found ← first_node (fun node =>
    status ← _status node (ShardPlacement.shard_id p);
    applied ← lift (response_int status "applied_index");
    if applied <? ShardPlacement.committed_index p then mret None
    else
      answer ← _rpc node [("operation", PStr "query");
                          ("shard_id", PInt (ShardPlacement.shard_id p));
                          ("request", PDict request)];
      mret (Some answer)) node_errors (ordered p);
  match found with
  | Some answer => mret answer
  | None => lift (raise QuorumUnavailable "distributed query has no caught-up replica")
  end.

(** [range(self.metadata.shard_count)] *)
Definition shard_range (c : t) : list Z := seqZ 0 (ClusterMetadata.shard_count (metadata c)).

Definition _fanout (request : SearchRequest.t) : M t (list SearchResult.t) :=
  c ← get_state;
  gathered ← for_fold_M (fun gathered shard_id =>
    let '(results, stats) := gathered in
    p ← placement_of shard_id;
    raw ← _query_shard p (_request_to_dict request);
    items ← lift (response_item raw "items");
    items ← lift (Point.iterable items);
    items ← lift (map_res SearchResult.of_item items);
    value ← lift (response_item raw "stats");
    value ← lift (as_mapping value);
    mret (results ++ items, stats ++ [value])) ([], []) (shard_range c);
  let '(results, stats) := gathered in
  merged ← lift (_merge_search_stats stats);
  modify (set_stats merged);;
  mret results.

Definition check_epoch (epoch : Z) (message : string) : M t unit :=
  c ← get_state;
  lift (raise_if (negb (ClusterMetadata.epoch (metadata c) =? epoch)) ProtocolError message).

Definition _search_hybrid (request : SearchRequest.t) (epoch : Z) : M t (list SearchResult.t) :=
  lift (raise_if (is_none (SearchRequest.vector request) ||
                  bool_decide (length (SearchRequest.sparse request) = 0%nat))
          ValueError "distributed hybrid search requires dense and sparse queries");;
  let metric := SearchRequest.metric request in
  let fetch_k := SearchRequest.fetch_k request in
  dense ← _fanout (SearchRequest.make metric fetch_k (SearchRequest.vector request) [] "exact"
                     (SearchRequest.filter request));
  dense ← lift (_global_topk dense fetch_k metric (PStr "exact"));
  sparse ← _fanout (SearchRequest.make metric fetch_k PNone (SearchRequest.sparse request) "sparse"
                      (SearchRequest.filter request));
  sparse ← lift (_global_topk sparse fetch_k metric (PStr "sparse"));
  check_epoch epoch "cluster metadata epoch changed during hybrid query";;
  lift (fuse (SearchRequest.rank_constant request) (SearchRequest.k request) dense sparse).

Definition search (request : SearchRequest.t) : M t (list SearchResult.t) :=
  _ensure_open;;
  c ← get_state;
  let epoch := ClusterMetadata.epoch (metadata c) in
  if py_eq (SearchRequest.mode request) (PStr "hybrid") then _search_hybrid request epoch
  else
    raw ← _fanout request;
    check_epoch epoch "cluster metadata epoch changed during query";;
    lift (_global_topk raw (SearchRequest.k request) (SearchRequest.metric request)
            (SearchRequest.mode request)).

Definition get (point_id : Z) : M t pyval :=
  shard_id ← route point_id;
  p ← placement_of shard_id;
  node ← _query_replica p (ShardPlacement.committed_index p);
  _rpc node [("operation", PStr "get"); ("shard_id", PInt shard_id); ("id", PInt point_id)].

(** ** Nodes *)

Definition stop_node (node : string) : M t unit := with_node node ReplicaProcess.crash.

(** The loop over the placements that have the node. *)
Definition rejoin (node : string) (l : list (Z * ShardPlacement.t)) : M t unit :=
  for_each_M (fun kv =>
    if str_in node (ShardPlacement.replicas kv.2) then
      _configure node kv.2;; catch_up node kv.1;; mret tt
    else mret tt) l.

Definition restart_node (node : string) : M t unit :=
  address ← with_node node (ReplicaProcess.start port);
  on_metadata (fun m =>
    MetadataUpdate.set_members (assoc_set (ClusterMetadata.members m) node address) m);;
  bump_epoch;;
  _publish_metadata;;
  c ← get_state;
  rejoin node (ClusterMetadata.shards (metadata c)).

Definition partition_node (node : string) (enabled : bool) : M t unit :=
  _rpc node [("operation", PStr "partition"); ("enabled", PBool enabled)];; mret tt.

Definition inject (name node : string) (count : Z) : M t unit :=
  lift (raise_if (count <? 0) ValueError "fault count cannot be negative");;
  _rpc node [("operation", PStr "fault"); (name, PInt count)];; mret tt.

Definition inject_drop_commit_response : string -> Z -> M t unit := inject "drop_commit_responses".
Definition inject_drop_query_response : string -> Z -> M t unit := inject "drop_query_responses".

Definition node_alive (c : t) (node : string) : bool :=
  match assoc_get (nodes c) node with Some p => ReplicaProcess.alive p | None => false end.

Definition rebalance_add_replica (shard_id : Z) (node : string) : M t unit :=
  p ← placement_of shard_id;
  if str_in node (ShardPlacement.replicas p) then mret tt
  else
    c ← get_state;
    lift (raise_if (negb (node_alive c node))
            ReplicaUnavailable "rebalancing target is unavailable");;
    source ← _query_replica p (ShardPlacement.committed_index p);
    exported ← _rpc source [("operation", PStr "export"); ("shard_id", PInt shard_id)];
    snapshot_index ← lift (response_int exported "applied_index");
    let new_epoch := ShardPlacement.placement_epoch p + 1 in
    _rpc node [("operation", PStr "configure"); ("shard_id", PInt shard_id);
               ("term", PInt (ShardPlacement.term p)); ("placement_epoch", PInt new_epoch)];;
    rows ← lift (response_item exported "rows");
    config ← lift (response_item exported "collection_config");
    checksum ← lift (response_item exported "snapshot_checksum");
    _rpc node [("operation", PStr "install_snapshot"); ("shard_id", PInt shard_id); ("rows", rows);
               ("collection_config", config); ("index", PInt snapshot_index);
               ("term", PInt (ShardPlacement.term p)); ("placement_epoch", PInt new_epoch);
               ("snapshot_checksum", checksum)];;
    tail ← _rpc source [("operation", PStr "entries"); ("shard_id", PInt shard_id);
                        ("after_index", PInt snapshot_index)];
    tail ← lift (Point.iterable tail);
    replay_on node shard_id (ShardPlacement.term p) new_epoch snapshot_index tail;;
    on_placement shard_id (ShardUpdate.add_replica node new_epoch);;
    bump_epoch;;
    _publish_metadata;;
    p ← placement_of shard_id;
    for_each_M (fun replica => _configure replica p;; mret tt) (ShardPlacement.replicas p).

Definition replica_status (node : string) (shard_id : Z) : M t pyval := _status node shard_id.
Definition debug_rpc (node : string) (request : dict) : M t pyval := _rpc node request.

(** The loop of [close] over [self.nodes.values()]. *)
Definition stop_process (p : process) : process :=
  match ReplicaProcess.stop perf_counter_ns p with
  | (Ok _, p) => p
  | (Raise _, p) => (ReplicaProcess.crash p).2
  end.

Definition close : M t unit :=
  c ← get_state;
  if _closed c then mret tt
  else
    modify (set_closed true);;
    modify (fun c => set_nodes ((fun kv => (kv.1, stop_process kv.2)) <$> nodes c) c).

(** ** Opening *)

Definition node_name (index : Z) : string := "n" +:+ int_repr index.

(** What the root of a cluster holds between two runs. *)
Definition closed_cluster (d : ClusterMetadata.directory) (l : list (string * process))
    (unset : ClusterMetadata.t) (n : nat) : t :=
  Mk d unset 0 None l false [] n.

(** A process over what the directory of the node holds. *)
Definition new_process (dim : Z) (config : dict) (l : list (string * process)) (node : string)
    : string * process :=
  (node, ReplicaProcess.Mk node dim config None
           (match assoc_get l node with Some p => ReplicaProcess.root p | None => [] end) 0).

(** [{node: process.start() for node, process in self.nodes.items()}] *)
Definition start_all : M t (list (string * (string * Z))) :=
  c ← get_state;
  for_fold_M (fun members node =>
    address ← with_node node (ReplicaProcess.start port);
    mret (members ++ [(node, address)])) [] (nodes c).*1.

(** The placements of a new cluster: consecutive nodes, round robin. *)
Definition new_placement (node_ids : list string) (replication_factor shard_id : Z)
    : Z * ShardPlacement.t :=
  let at_ offset := default "" (node_ids !! Z.to_nat ((shard_id + offset) mod
                                                       Z.of_nat (length node_ids))) in
  let replicas := at_ <$> seqZ 0 replication_factor in
  (shard_id, ShardPlacement.Mk shard_id 1 1 (default "" (head replicas)) replicas 0 0).

Definition sorted_names (l : list string) : list string := isort String.leb l.

(** The checks of a reopened cluster; each closes it before it raises. *)
Definition reopen_check (cond : bool) (message : string) : M t unit :=
  if cond then close;; lift (raise ProtocolError message) else mret tt.

Definition same_members (a b : list string) : bool :=
  forallb (fun x => str_in x b) a && forallb (fun x => str_in x a) b.

Definition load_or_create (identity : string) (dim shard_count replication_factor : Z)
    (canonical_config : dict) (members : list (string * (string * Z))) : M t unit :=
  c ← get_state;
  match ClusterMetadata.destination (metadata_path c) with
  | Some f =>
      m ← lift (ClusterMetadata.load (Some f));
      reopen_check (negb (ClusterMetadata.dimension m =? dim)) "cluster reopen dimension mismatch";;
      reopen_check (negb (py_eq (PDict (ClusterMetadata.collection_config m)) (PDict canonical_config)))
        "cluster reopen collection config mismatch";;
      reopen_check (negb (same_members (ClusterMetadata.members m).*1 members.*1))
        "cluster reopen member set mismatch";;
      on_metadata (fun _ => MetadataUpdate.set_epoch (ClusterMetadata.epoch m + 1)
                              (MetadataUpdate.set_members members m))
  | None =>
      let node_ids := sorted_names members.*1 in
      on_metadata (fun _ => ClusterMetadata.Mk identity dim shard_count replication_factor 1 members
        (new_placement node_ids replication_factor <$> seqZ 0 shard_count)
        canonical_config [] ROUTING_VERSION)
  end.

Definition catch_up_all : M t unit :=
  c ← get_state;
  for_each_M (fun kv => for_each_M (fun node => catch_up node kv.1;; mret tt)
                          (ShardPlacement.replicas kv.2))
    (ClusterMetadata.shards (metadata c)).

(** [__init__], on the directory of the cluster. *)
Definition init (dim : Z) (config : CollectionConfig.option_value)
    (shard_count replication_factor node_count : Z) (cluster_id : option string) : M t unit :=
  lift (raise_if ((dim <=? 0) || (shard_count <=? 0))
          ValueError "cluster dimension and shard count must be positive");;
  lift (raise_if ((replication_factor <=? 0) || (node_count <? replication_factor))
          ValueError "node count must cover replication factor");;
  requested ← lift (CollectionConfig.from_options dim config);
  canonical_config ← lift (validate_collection_config dim (PDict (CollectionConfig.to_kernel requested)));
  own_config ← lift (CollectionConfig.from_kernel canonical_config);
  modify (set_config dim own_config);;
  identity ← request_name cluster_id;
  modify (fun c => set_nodes (new_process dim canonical_config (nodes c) <$>
                                (node_name <$> seqZ 0 node_count)) c);;
  members ← start_all;
  load_or_create identity dim shard_count replication_factor canonical_config members;;
  _publish_metadata;;
  try_catch (_configure_all;; catch_up_all) [BaseException]
    (fun e => close;; lift (Raise e)).
End Cluster.
End DistributedCluster.
