(* ===== verification/ClusterFacts.v ===== *)
(** Properties of the cluster: what the calls to the nodes leave alone, what a
    node answers about its shards, metadata that never goes back. *)

From S2P Require Import Prelude Assoc PyFloat PyValue Json JsonFacts Checksum Envelope Files Models KernelConfig KernelInterface Vectors Database CollectionIdentity Mutation Journal JournalFacts Metadata MetadataFacts Snapshot Replica ReplicaFacts ReplicaHistory ReplicaServer Ranking RankingFacts Cluster.
Import EntryFacts.

(** * One replica process *)

Section Process.
Context {K : Type} `{!Kernel K}.
Variable perf_counter_ns : nat -> Z.
Abbreviation client := (@ReplicaProcess.t K).
Abbreviation shard := (@ReplicaShard.t K).

(** The open shard of a running process *)
Definition shard_at (p : client) (id : Z) : option shard :=
  match ReplicaProcess.process p with
  | Some s => assoc_get (shards s) id
  | None => None
  end.

(** The operations on an open shard *)
Definition shard_operations : list string :=
  ["prepare"; "commit"; "query"; "get"; "export"; "entries"; "install_snapshot"; "status"].

(** A call on a shard is refused with the shards as they were, or runs the
    operation on the shard; an answer is the result of the operation. *)
Definition shard_call (p : client) (id : Z) (m : M shard pyval) (r : res pyval) (p' : client) : Prop :=
  ((forall i, shard_at p' i = shard_at p i) /\ is_ok r = false) \/
  exists sh, shard_at p id = Some sh /\ shard_at p' id = Some (m sh).2 /\
    (forall i, i <> id -> shard_at p' i = shard_at p i) /\
    (forall v, r = Ok v -> (m sh).1 = Ok v).

Lemma py_eq_other name other :
  name ∈ shard_operations -> other ∉ shard_operations ->
  py_eq (PStr name) (PStr other) = false.
Proof. intros Hn Ho. cbn. apply bool_decide_eq_false. by intros ->. Qed.

Definition served (s : server) (id : Z) (m : M shard pyval) (answer : reply) (s' : server) : Prop :=
  (shards s' = shards s /\ exists a b, answer = Failure a b) \/
  exists sh, assoc_get (shards s) id = Some sh /\
    shards s' = assoc_set (shards s) id (m sh).2 /\ answer <> Died /\
    (forall v, answer = Answer v -> (m sh).1 = Ok v).

Lemma serve_shard name (request : dict) id (s : server) :
  name ∈ shard_operations -> dict_get_or request "operation" PNone = PStr name ->
  dict_get request "shard_id" = Some (PInt id) ->
  let '(answer, running, s') := serve perf_counter_ns (PDict request) s in
  running = true /\ served s id (shard_operation perf_counter_ns (PStr name) request) answer s'.
Proof.
  intros Hname Hop Hid. unfold serve. cbn [ReplicaShard.mapping]. rewrite Hop.
  set (control := if partitioned s then _ else _).
  assert (control = Ok (negb (partitioned s))) as ->.
  { unfold control. destruct (partitioned s); [|done]. cbn. unfold str_in.
    rewrite bool_decide_eq_false_2; [done|]. unfold shard_operations in Hname. set_solver. }
  destruct (partitioned s); cbn [negb]; [split; [done|left; eauto]|].
  assert (forall other, other ∉ shard_operations -> py_eq (PStr name) (PStr other) = false) as Hother
    by (intros; by apply py_eq_other).
  rewrite (Hother "crash") by (unfold shard_operations; set_solver).
  unfold handle. rewrite !Hother by (unfold shard_operations; set_solver).
  unfold int_item, dict_item. rewrite Hid. cbn [mbind res_bind py_int].
  set (m := shard_operation perf_counter_ns (PStr name) request).
  unfold with_shard, mbind, M_bind, lift. destruct (assoc_get (shards s) id) as [sh|] eqn:Hsh.
  2:{ split; [done|left; cbn; eauto]. }
  destruct (m sh) as [[v|e] sh'] eqn:Hm; unfold mret, M_ret.
  - assert (shards (set_shards (assoc_set (shards s) id sh') (sites s) s) =
      assoc_set (shards s) id (m sh).2) as Hs' by (by rewrite Hm).
    destruct (_ && _); [|destruct (_ && _)]; (split; [done|]); right; exists sh;
      (split_and!; [done|exact Hs'|done|]; intros w; try done; intros [= <-]; by rewrite Hm).
  - split; [done|]. right. exists sh. rewrite Hm. split_and!; done.
Qed.

Lemma rpc_shard name (request : dict) id (p : client) :
  name ∈ shard_operations -> dict_get_or request "operation" PNone = PStr name ->
  dict_get request "shard_id" = Some (PInt id) ->
  let '(r, p') := ReplicaProcess.rpc perf_counter_ns (PDict request) p in
  shard_call p id (shard_operation perf_counter_ns (PStr name) request) r p'.
Proof.
  intros Hname Hop Hid. unfold ReplicaProcess.rpc.
  destruct (ReplicaProcess.process p) as [s|] eqn:Hp; [|by left].
  pose proof (serve_shard name request id s Hname Hop Hid) as Hs.
  destruct (serve perf_counter_ns (PDict request) s) as [[answer running] s'].
  destruct Hs as [-> [[Hs (a & b & ->)]|(sh & Hsh & Hs & Hd & Hv)]].
  - left. split; [|done]. intros i. unfold shard_at. cbn. by rewrite Hp, Hs.
  - right. exists sh. unfold shard_at. rewrite Hp.
    destruct answer; try done; cbn; rewrite Hs, assoc_get_set_eq;
      (split_and!; [done|done|intros; by apply assoc_get_set_ne|]); try done.
    intros v [= <-]. by apply Hv.
Qed.
(** ** Calls that leave the applied index and the journal of a shard alone *)

Definition still (sh sh' : shard) : Prop :=
  ReplicaShard.applied_index sh' = ReplicaShard.applied_index sh /\
  ReplicaShard.journal sh' = ReplicaShard.journal sh /\
  journal_file (ReplicaShard.disk sh') = journal_file (ReplicaShard.disk sh).

#[export] Instance still_preorder : PreOrder still.
Proof.
  split; [by intros sh|]. intros s1 s2 s3 (? & ? & ?) (? & ? & ?). split_and!; congruence.
Qed.

Lemma quiet_still sh sh' : quiet sh sh' -> still sh sh'.
Proof. intros [Hn _ Hj Hf _ _]. injection Hn as _ _ Hn. by split_and!. Qed.

Lemma configure_still t e (sh : shard) :
  still sh (ReplicaShard.configure perf_counter_ns t e sh).2.
Proof.
  unfold ReplicaShard.configure. rewrite run_get, run_guard. destruct (_ || _); [reflexivity|].
  rewrite run_modify.
  destruct (publish_state_run (ReplicaShard.set_epochs t e sh)) as (s1 & H1 & Hn & _ & Hj & Hf & _).
  rewrite (run_Ok _ _ _ _ _ H1). injection Hn as _ _ Hn.
  transitivity s1; [by split_and!|]. apply quiet_still, status_quiet.
Qed.

(** Every shard that was open is still there. *)
Definition same_shards (p p' : client) : Prop := forall i sh,
  shard_at p i = Some sh -> exists sh', shard_at p' i = Some sh' /\ still sh sh'.

#[export] Instance same_shards_preorder : PreOrder same_shards.
Proof.
  split; [intros p i sh H; by exists sh|].
  intros p1 p2 p3 H12 H23 i sh H. destruct (H12 i sh H) as (sh' & H' & Hs).
  destruct (H23 i sh' H') as (sh'' & H'' & Hs'). exists sh''. split; [done|]. by transitivity sh'.
Qed.

Lemma call_same p id (m : M shard pyval) r p' :
  respects still m -> shard_call p id m r p' -> same_shards p p'.
Proof.
  intros Hm [[H _]|(sh & Hsh & Hsh' & Ho & _)] i s Hi.
  - exists s. by rewrite H.
  - destruct (decide (i = id)) as [->|Hne]; [|exists s; by rewrite Ho].
    rewrite Hsh in Hi. injection Hi as <-. exists (m sh).2. split; [done|apply Hm].
Qed.

Definition status_request (id : Z) : dict :=
  [("operation", PStr "status"); ("shard_id", PInt id)].

Lemma rpc_status id (p : client) :
  let '(r, p') := ReplicaProcess.rpc perf_counter_ns (PDict (status_request id)) p in
  same_shards p p' /\ forall v, r = Ok v -> exists sh, shard_at p id = Some sh /\
    (ReplicaShard.status perf_counter_ns sh).1 = Ok v.
Proof.
  pose proof (rpc_shard "status" (status_request id) id p) as H.
  destruct (ReplicaProcess.rpc _ _ _) as [r p'].
  assert (shard_call p id (ReplicaShard.status perf_counter_ns) r p') as Hc.
  { apply H; [unfold shard_operations; set_solver|done|done]. }
  split.
  - eapply call_same; [|exact Hc]. intros sh. apply quiet_still, status_quiet.
  - intros v ->. destruct Hc as [[_ Hf]|(sh & Hsh & _ & _ & Hv)]; [done|]. exists sh. auto.
Qed.

Definition configure_request (id term epoch : Z) : dict :=
  [("operation", PStr "configure"); ("shard_id", PInt id); ("term", PInt term);
   ("placement_epoch", PInt epoch)].

(** The same of the server inside *)
Definition kept_shards (s s' : @server K) : Prop := forall i sh,
  assoc_get (shards s) i = Some sh ->
  exists sh', assoc_get (shards s') i = Some sh' /\ still sh sh'.

#[export] Instance kept_shards_preorder : PreOrder kept_shards.
Proof.
  split; [intros s i sh H; by exists sh|].
  intros s1 s2 s3 H12 H23 i sh H. destruct (H12 i sh H) as (sh' & H' & Hs).
  destruct (H23 i sh' H') as (sh'' & H'' & Hs'). exists sh''. split; [done|]. by transitivity sh'.
Qed.

Lemma with_shard_kept {A} id (m : M shard A) :
  respects still m -> respects kept_shards (with_shard id m).
Proof.
  intros Hm s i sh Hi. unfold with_shard. destruct (assoc_get (shards s) id) as [s0|] eqn:Hid; [|by exists sh].
  specialize (Hm s0). destruct (m s0) as [r s1]. cbn [snd shards set_shards] in *.
  destruct (decide (i = id)) as [->|Hne].
  - rewrite Hid in Hi. injection Hi as <-. exists s1. by rewrite assoc_get_set_eq.
  - exists sh. by rewrite assoc_get_set_ne.
Qed.

Lemma open_shard_kept id : respects kept_shards (open_shard perf_counter_ns id).
Proof.
  intros s i sh Hi. unfold open_shard. destruct (assoc_get (shards s) id) as [s0|] eqn:Hid; [by exists sh|].
  assert (i <> id) as Hne by congruence.
  destruct (ReplicaShard.init _ _ _ _ _) as [[s1|e] d]; exists sh; (split; [|done]);
    cbn [snd shards set_shards]; [by rewrite assoc_get_set_ne|done].
Qed.

Lemma handle_configure id term epoch :
  respects kept_shards (handle perf_counter_ns (PStr "configure") (configure_request id term epoch)).
Proof.
  change (handle perf_counter_ns (PStr "configure") (configure_request id term epoch)) with
    (shard_id ← lift (S := server) (int_item (configure_request id term epoch) "shard_id");
     result ← (open_shard perf_counter_ns shard_id;;
       term ← lift (int_item (configure_request id term epoch) "term");
       placement_epoch ← lift (int_item (configure_request id term epoch) "placement_epoch");
       with_shard shard_id (ReplicaShard.configure perf_counter_ns term placement_epoch));
     mret (result, true)).
  repeat first [walk_step | apply open_shard_kept | apply with_shard_kept; intros ?; apply configure_still].
Qed.

Lemma rpc_configure id term epoch (p : client) :
  same_shards p
    (ReplicaProcess.rpc perf_counter_ns (PDict (configure_request id term epoch)) p).2.
Proof.
  unfold ReplicaProcess.rpc. destruct (ReplicaProcess.process p) as [s|] eqn:Hp; [|reflexivity].
  assert (forall s', kept_shards s s' -> same_shards p (ReplicaProcess.serving s' p)) as Hgoal.
  { intros s' H i sh Hi. unfold shard_at in Hi. rewrite Hp in Hi. by apply H. }
  unfold serve. cbn [ReplicaShard.mapping].
  change (dict_get_or (configure_request id term epoch) "operation" PNone) with (PStr "configure").
  pose proof (handle_configure id term epoch s) as Hh.
  destruct (partitioned s).
  { change (in_set (PStr "configure") ["partition"; "fault"; "shutdown"]) with (@Ok bool false).
    apply Hgoal. reflexivity. }
  change (py_eq (PStr "configure") (PStr "crash")) with false. cbv iota.
  destruct (handle perf_counter_ns (PStr "configure") (configure_request id term epoch) s)
    as [[[v run]|e] s'] eqn:Hs'; [|by apply Hgoal].
  assert (run = true) as ->.
  { unfold handle in Hs'. cbn [py_eq] in Hs'. revert Hs'.
    repeat (rewrite bool_decide_eq_false_2 by done). intros Hs'.
    apply bind_ok in Hs' as (? & ? & _ & Hs'). apply bind_ok in Hs' as (? & ? & _ & Hs').
    by injection Hs' as _ <- _. }
  change (py_eq (PStr "configure") (PStr "commit")) with false.
  change (py_eq (PStr "configure") (PStr "query")) with false. by apply Hgoal.
Qed.
(** ** What the answers say *)

Lemma status_value (sh : shard) v :
  (ReplicaShard.status perf_counter_ns sh).1 = Ok v ->
  DistributedCluster.response_int v "applied_index" = Ok (ReplicaShard.applied_index sh) /\
  DistributedCluster.response_item v "term" = Ok (PInt (ReplicaShard.term sh)).
Proof.
  intros H. destruct (ReplicaShard.status perf_counter_ns sh) as [r sh'] eqn:Hs. cbn [fst] in H. subst r.
  unfold ReplicaShard.status in Hs. inv_run Hs. injection Hs as <- _. done.
Qed.

(** A shard that holds an entry as committed: in its tables, on its file, and
    applied *)
Definition holds_entry (e : ReplicatedEntry.t) (sh : shard) : Prop :=
  let i := ReplicatedEntry.index e in
  i ∈ ReplicaJournal.committed (ReplicaShard.journal sh) /\
  ReplicaJournal.path (ReplicaShard.journal sh) = journal_file (ReplicaShard.disk sh) /\
  exists e', ReplicaJournal.prepared (ReplicaShard.journal sh) !! i = Some e' /\
    ReplicatedEntry.mutation_checksum e' = ReplicatedEntry.mutation_checksum e /\
    ReplicatedEntry.index e' <= ReplicaShard.applied_index sh.

Lemma still_holds e sh sh' : still sh sh' -> holds_entry e sh -> holds_entry e sh'.
Proof. intros (Ha & Hj & Hf). unfold holds_entry. by rewrite Ha, Hj, Hf. Qed.

Lemma commit_holds e (sh sh' : shard) v :
  ReplicaShard.commit perf_counter_ns e sh = (Ok v, sh') -> holds_entry e sh'.
Proof.
  intros ([_ Hp] & _ & _ & _ & _ & _ & j & e' & P & C & Hv & Hle & _)%shard_commit_spec.
  pose proof (prepare_spec e (ReplicaFacts.handle sh)) as Hs. rewrite Hv, P in Hs.
  rewrite commit_spec in C.
  destruct (ReplicaJournal.prepared j !! _) as [e0|] eqn:He0; [|done]. injection C as -> C.
  assert (ReplicatedEntry.mutation_checksum e' = ReplicatedEntry.mutation_checksum e) as Hck.
  { destruct (ReplicaJournal.prepared (ReplicaFacts.handle sh) !! _) as [e1|] eqn:He1.
    - destruct (_ =? _) eqn:Hck; [|done]. injection Hs as ->. inv_py. congruence.
    - injection Hs as ->. cbn in He0. rewrite lookup_insert_eq in He0. by injection He0 as <-. }
  split; [|split; [done|exists e'; split_and!; [|done|done]]].
  - rewrite <- C. case_bool_decide; [done|cbn; set_solver].
  - rewrite <- C. by case_bool_decide.
Qed.

Lemma entry_request_eq name e d :
  DistributedCluster.entry_request name e = Ok d ->
  ReplicatedEntry.validate e = Ok tt /\
  d = [("operation", PStr name); ("shard_id", PInt (ReplicatedEntry.shard_id e));
       ("entry", PDict (ReplicatedEntry.asdict e))].
Proof.
  unfold DistributedCluster.entry_request, ReplicatedEntry.to_dict.
  destruct (ReplicatedEntry.validate e) as [[]|]; [|done]. by intros [= <-].
Qed.

Lemma rpc_commit e d (p : client) :
  DistributedCluster.entry_request "commit" e = Ok d ->
  let '(r, p') := ReplicaProcess.rpc perf_counter_ns (PDict d) p in
  (forall i, i <> ReplicatedEntry.shard_id e -> shard_at p' i = shard_at p i) /\
  (forall v, r = Ok v -> exists sh, shard_at p' (ReplicatedEntry.shard_id e) = Some sh /\
     holds_entry e sh).
Proof.
  intros [Hv ->]%entry_request_eq.
  pose proof (rpc_shard "commit" _ (ReplicatedEntry.shard_id e) p ltac:(unfold shard_operations; set_solver)
    (eq_refl : dict_get_or [("operation", PStr "commit"); ("shard_id", PInt (ReplicatedEntry.shard_id e));
       ("entry", PDict (ReplicatedEntry.asdict e))] "operation" PNone = PStr "commit") eq_refl) as H.
  destruct (ReplicaProcess.rpc _ _ _) as [r p'].
  destruct H as [[Hs Hf]|(sh & Hsh & Hsh' & Ho & Hr)].
  - split; [done|]. by intros v ->.
  - split; [done|]. intros v ->. eexists. split; [exact Hsh'|]. specialize (Hr v eq_refl).
    destruct (shard_operation _ _ _ sh) as [o sh'] eqn:Hop. cbn [fst snd] in *. subst o.
    change (shard_operation perf_counter_ns (PStr "commit") [("operation", PStr "commit");
      ("shard_id", PInt (ReplicatedEntry.shard_id e)); ("entry", PDict (ReplicatedEntry.asdict e))] sh)
      with ((entry ← lift (ReplicatedEntry.from_dict (PDict (ReplicatedEntry.asdict e)));
             ReplicaShard.commit perf_counter_ns entry) sh) in Hop.
    rewrite run_lift, from_asdict in Hop by done. by eapply commit_holds.
Qed.
End Process.

(** * The cluster *)

Section Cluster.
Context {K : Type} `{!Kernel K}.
Variable perf_counter_ns : nat -> Z.
Variable port : string -> Z -> Z.
Variable uuid : nat -> string.
Abbreviation cluster := (@DistributedCluster.t K).
Import DistributedCluster.

(** ** Steps that only call nodes *)

(** Everything but the processes is as it was, and the nodes are the same. *)
Definition nodes_only (c c' : cluster) : Prop :=
  set_nodes (nodes c) c' = c /\ (nodes c').*1 = (nodes c).*1.

#[export] Instance nodes_only_preorder : PreOrder nodes_only.
Proof.
  split; [by intros []|]. intros c1 c2 c3 [H12 K12] [H23 K23]. split; [|congruence].
  rewrite <- H12 at 2. rewrite <- H23. done.
Qed.

Lemma nodes_only_metadata c c' : nodes_only c c' -> metadata c' = metadata c.
Proof. intros [H _]. by rewrite <- H. Qed.

Lemma nodes_only_closed c c' : nodes_only c c' -> _closed c' = _closed c.
Proof. intros [H _]. by rewrite <- H. Qed.

Lemma with_node_only {A} node (m : M _ A) : respects nodes_only (with_node node m).
Proof.
  intros c. unfold with_node. destruct (assoc_get (nodes c) node) as [p|] eqn:Hp; [|reflexivity].
  destruct (m p) as [r p']. split; [by destruct c|]. cbn. apply assoc_set_keys.
  apply assoc_get_elem_2 in Hp. by apply (list_elem_of_fmap_2 fst) in Hp.
Qed.

Lemma rpc_only node request : respects nodes_only (_rpc perf_counter_ns node request).
Proof. apply with_node_only. Qed.

Lemma first_node_respects {A} R `{!PreOrder R} (f : string -> M cluster (option A)) handlers l :
  (forall node, respects R (f node)) -> respects R (first_node f handlers l).
Proof.
  intros Hf. induction l as [|node l IH]; cbn [first_node]; [apply respects_ret; apply _|].
  apply respects_bind; [apply _| |intros [a|]; [apply respects_ret; apply _|exact IH]].
  apply respects_catch; [apply _|done|]. intros e. apply respects_ret; apply _.
Qed.

Create HintDb calls discriminated.
#[local] Hint Resolve rpc_only with_node_only : calls.

Ltac calls_step :=
  first [walk_step | apply first_node_respects; [apply _|intros ?] | solve [auto with calls]].
Ltac calls_walk := repeat calls_step.

Lemma configure_only node p : respects nodes_only (_configure perf_counter_ns node p).
Proof. apply rpc_only. Qed.
#[local] Hint Resolve configure_only : calls.

Lemma status_only node id : respects nodes_only (_status perf_counter_ns node id).
Proof. apply rpc_only. Qed.
#[local] Hint Resolve status_only : calls.

Lemma poll_only id replicas : respects nodes_only (poll perf_counter_ns id replicas).
Proof. unfold poll. calls_walk. Qed.
#[local] Hint Resolve poll_only : calls.

Lemma send_entry_only op e node : respects nodes_only (send_entry perf_counter_ns op e node).
Proof. unfold send_entry. calls_walk. Qed.
#[local] Hint Resolve send_entry_only : calls.

Lemma commit_on_only e replicas : respects nodes_only (commit_on perf_counter_ns e replicas).
Proof. unfold commit_on. calls_walk. Qed.
#[local] Hint Resolve commit_on_only : calls.

Lemma prepare_on_only e replicas : respects nodes_only (prepare_on perf_counter_ns e replicas).
Proof. unfold prepare_on. calls_walk. Qed.
#[local] Hint Resolve prepare_on_only : calls.

Lemma query_replica_only p index : respects nodes_only (_query_replica perf_counter_ns p index).
Proof. unfold _query_replica. calls_walk. Qed.
#[local] Hint Resolve query_replica_only : calls.

Lemma query_shard_only p request : respects nodes_only (_query_shard perf_counter_ns p request).
Proof. unfold _query_shard. calls_walk. Qed.
#[local] Hint Resolve query_shard_only : calls.

Lemma replay_on_only node id term epoch applied entries :
  respects nodes_only (replay_on perf_counter_ns node id term epoch applied entries).
Proof. unfold replay_on. calls_walk. Qed.
#[local] Hint Resolve replay_on_only : calls.

Lemma placement_of_run id (c : cluster) p c' :
  placement_of id c = (Ok p, c') <->
  assoc_get (ClusterMetadata.shards (metadata c)) id = Some p /\ c' = c.
Proof.
  unfold placement_of. rewrite run_get. unfold lift.
  destruct (assoc_get _ _) as [q|]; split; try done.
  - by intros [= -> ->].
  - by intros [[= ->] ->].
  - by intros [? _].
Qed.

Lemma placement_of_only id : respects nodes_only (placement_of id).
Proof. unfold placement_of. walk. Qed.
#[local] Hint Resolve placement_of_only : calls.

Lemma catch_up_only node id : respects nodes_only (catch_up perf_counter_ns node id).
Proof. unfold catch_up. calls_walk. Qed.
#[local] Hint Resolve catch_up_only : calls.

(** ** Metadata that never goes back *)

Record placement_le (p q : ShardPlacement.t) : Prop := {
  le_term : ShardPlacement.term p <= ShardPlacement.term q;
  le_epoch : ShardPlacement.placement_epoch p <= ShardPlacement.placement_epoch q;
  le_log : ShardPlacement.last_log_index p <= ShardPlacement.last_log_index q;
  le_committed : ShardPlacement.committed_index p <= ShardPlacement.committed_index q;
  le_replicas : ShardPlacement.replicas p `prefix_of` ShardPlacement.replicas q }.

#[export] Instance placement_le_preorder : PreOrder placement_le.
Proof.
  split; [by split|]. intros p1 p2 p3 [] []. split; try lia. by etransitivity.
Qed.

Record metadata_le (m n : ClusterMetadata.t) : Prop := {
  le_identity : ClusterMetadata.shard_count n = ClusterMetadata.shard_count m /\
    ClusterMetadata.cluster_id n = ClusterMetadata.cluster_id m;
  le_cluster_epoch : ClusterMetadata.epoch m <= ClusterMetadata.epoch n;
  le_shards : forall id p, assoc_get (ClusterMetadata.shards m) id = Some p ->
    exists q, assoc_get (ClusterMetadata.shards n) id = Some q /\ placement_le p q }.

#[export] Instance metadata_le_preorder : PreOrder metadata_le.
Proof.
  split.
  - intros m. split; [done|lia|]. intros id p H. by exists p.
  - intros m1 m2 m3 [[] E12 S12] [[] E23 S23]. split; [split; congruence|lia|]. intros id p Hp.
    destruct (S12 id p Hp) as (q & Hq & ?). destruct (S23 id q Hq) as (r & Hr & ?).
    exists r. split; [done|]. by transitivity q.
Qed.

Definition advances (c c' : cluster) : Prop := metadata_le (metadata c) (metadata c').

#[export] Instance advances_preorder : PreOrder advances.
Proof.
  split; [intros c; unfold advances; reflexivity|].
  intros c1 c2 c3. unfold advances. by etransitivity.
Qed.

Lemma only_advances {A} (m : M cluster A) : respects nodes_only m -> respects advances m.
Proof. intros H c. unfold advances. rewrite (nodes_only_metadata _ _ (H c)). reflexivity. Qed.

Lemma on_metadata_advances f :
  (forall m, metadata_le m (f m)) -> respects advances (on_metadata (K := K) f).
Proof. intros H c. apply H. Qed.

Lemma on_placement_advances id f (c : cluster) :
  (forall p, assoc_get (ClusterMetadata.shards (metadata c)) id = Some p -> placement_le p (f p)) ->
  advances c (on_placement id f c).2.
Proof.
  intros H. unfold advances, on_placement, on_metadata, modify. cbn.
  destruct (assoc_get _ id) as [p|] eqn:Hp; [|reflexivity]. split; [done|cbn; lia|].
  intros i q Hq. cbn. destruct (decide (i = id)) as [->|Hne].
  - rewrite assoc_get_set_eq. eexists. split; [done|]. rewrite Hp in Hq. injection Hq as <-. by apply H.
  - rewrite assoc_get_set_ne by done. by exists q.
Qed.

Lemma bump_epoch_advances : respects advances (bump_epoch (K := K)).
Proof.
  apply on_metadata_advances. intros m. split; [done|cbn; lia|]. intros id p H. by exists p.
Qed.

Lemma validate_record m m' :
  ClusterMetadata.validate m = Ok m' ->
  exists config, m' = ClusterMetadata.set_collection_config config m.
Proof.
  unfold ClusterMetadata.validate. intros H. inv_ok. by eexists.
Qed.

Lemma publish_metadata_run (c : cluster) :
  _publish_metadata c =
    match ClusterMetadata.validate (metadata c) with
    | Ok m => (Ok tt, set_path (ClusterMetadata.Dir
        (Some (File (metadata_text m) (String.length (metadata_text m)))) None)
        (set_metadata m c))
    | Raise e => (Raise e, c)
    end.
Proof.
  unfold _publish_metadata. rewrite publish_spec.
  by destruct (ClusterMetadata.validate (metadata c)).
Qed.

Lemma publish_advances : respects advances (_publish_metadata (K := K)).
Proof.
  intros c. rewrite publish_metadata_run. unfold advances.
  destruct (ClusterMetadata.validate (metadata c)) as [m|] eqn:Hm; [|reflexivity].
  apply validate_record in Hm as [config ->]. cbn. split; [done|cbn; lia|]. intros id p H. by exists p.
Qed.

Lemma set_table_advances f :
  respects advances (on_metadata (K := K)
    (fun m => MetadataUpdate.set_request_table (f m) m)).
Proof. apply on_metadata_advances. intros m. split; [done|cbn; lia|]. intros id p H. by exists p. Qed.

Lemma record_request_advances e sum status :
  respects advances (record_request (K := K) e sum status).
Proof. apply set_table_advances. Qed.

#[local] Hint Resolve bump_epoch_advances publish_advances record_request_advances : calls.
#[local] Hint Extern 1 (respects advances _) => apply only_advances; solve [auto with calls] : calls.

(** A call to the nodes, then the rest *)
Lemma calls_then {A B} (m : M cluster A) (f : A -> M cluster B) c :
  respects nodes_only m ->
  (forall a c', nodes_only c c' -> advances c' (f a c').2) -> advances c ((m ≫= f) c).2.
Proof.
  intros Hm Hf. apply (run_bind advances); [by apply only_advances|]. intros a c' H.
  apply Hf. specialize (Hm c). by rewrite H in Hm.
Qed.

Lemma elect_advances id : respects advances (_elect_leader perf_counter_ns id).
Proof.
  intros c. unfold _elect_leader. apply (run_bind advances); [apply (only_advances _ (placement_of_only id))|].
  intros p c' (Hp & ->)%placement_of_run.
  apply calls_then; [calls_walk|]. intros candidates c1 Ho%nodes_only_metadata.
  apply (run_bind advances); [reflexivity|]. intros [] c2 [_ ->]%lift_ok.
  destruct (isort candidate_leb candidates) as [|[a leader] rest]; [reflexivity|].
  apply (run_bind advances).
  - apply on_placement_advances. rewrite Ho. intros q Hq. rewrite Hp in Hq. injection Hq as <-.
    split; cbn; try lia. done.
  - intros [] c3 _. match goal with |- advances c3 (?m c3).2 => enough (respects advances m) as Hrest by apply Hrest end.
    calls_walk.
Qed.
#[local] Hint Resolve elect_advances : calls.

Lemma ensure_leader_advances id : respects advances (_ensure_leader perf_counter_ns id).
Proof. unfold _ensure_leader. calls_walk. Qed.
#[local] Hint Resolve ensure_leader_advances : calls.

Lemma commit_prepared_advances id e sum : respects advances (_commit_prepared perf_counter_ns id e sum).
Proof.
  unfold _commit_prepared. calls_walk. intros c. apply on_placement_advances.
  intros p _. split; cbn; try lia. done.
Qed.
#[local] Hint Resolve commit_prepared_advances : calls.

Lemma route_advances id : respects advances (route (K := K) id).
Proof. unfold route, _ensure_open. calls_walk. Qed.
#[local] Hint Resolve route_advances : calls.

Lemma retried_write_advances id sum rid mutation duplicate :
  respects advances (retried_write perf_counter_ns id sum rid mutation duplicate).
Proof. unfold retried_write. calls_walk. Qed.
#[local] Hint Resolve retried_write_advances : calls.

Lemma new_write_advances again id sum rid mutation :
  respects advances again -> respects advances (new_write perf_counter_ns again id sum rid mutation).
Proof.
  intros Ha. unfold new_write. calls_walk. intros c. apply on_placement_advances.
  intros p _. split; cbn; try lia. done.
Qed.

Lemma write_advances retries mutation rid :
  respects advances (_write perf_counter_ns retries mutation rid).
Proof.
  revert mutation rid. induction retries as [|retries IH]; intros mutation rid; cbn [_write]; unfold _ensure_open;
    repeat first [apply new_write_advances | apply IH | calls_step].
Qed.
#[local] Hint Resolve write_advances : calls.

(** The other operations *)

Lemma modify_advances f :
  (forall c : cluster, metadata (f c) = metadata c) -> respects advances (modify f).
Proof. intros Hf c. unfold advances, modify. cbn. rewrite Hf. reflexivity. Qed.
#[local] Hint Extern 1 (respects advances (modify _)) => apply modify_advances; done : calls.

Lemma write_mutation_advances mutation rid :
  respects advances (write_mutation perf_counter_ns uuid mutation rid).
Proof. unfold write_mutation, request_name. calls_walk. Qed.
#[local] Hint Resolve write_mutation_advances : calls.

Lemma fanout_advances request : respects advances (_fanout perf_counter_ns request).
Proof. unfold _fanout. calls_walk. Qed.
#[local] Hint Resolve fanout_advances : calls.

Lemma search_advances request : respects advances (search perf_counter_ns request).
Proof. unfold search, _search_hybrid, _ensure_open, check_epoch. calls_walk. Qed.

Lemma get_advances id : respects advances (get perf_counter_ns id).
Proof. unfold get. calls_walk. Qed.

Lemma restart_advances node : respects advances (restart_node perf_counter_ns port node).
Proof.
  unfold restart_node, rejoin. calls_walk. apply on_metadata_advances. intros m.
  split; [done|cbn; lia|]. intros id p H. by exists p.
Qed.

Lemma rebalance_advances id node : respects advances (rebalance_add_replica perf_counter_ns id node).
Proof.
  intros c. unfold rebalance_add_replica.
  apply (run_bind advances); [apply (only_advances _ (placement_of_only id))|].
  intros p c' (Hp & ->)%placement_of_run.
  destruct (str_in node (ShardPlacement.replicas p)); [reflexivity|].
  repeat (apply calls_then; [solve [calls_walk]|]; intros ? ? ?).
  apply (run_bind advances).
  - apply on_placement_advances. intros q Hq.
    repeat match goal with H : nodes_only _ _ |- _ => apply nodes_only_metadata in H end.
    assert (q = p) as -> by congruence. split; cbn; try lia. by apply prefix_app_r.
  - intros [] c1 _. match goal with |- advances c1 (?m c1).2 => enough (respects advances m) as Hrest by apply Hrest end.
    calls_walk.
Qed.

Lemma close_advances : respects advances (close perf_counter_ns).
Proof. unfold close. calls_walk. Qed.

Lemma partition_advances node enabled : respects advances (partition_node perf_counter_ns node enabled).
Proof. unfold partition_node. calls_walk. Qed.

Lemma inject_advances name node count : respects advances (inject perf_counter_ns name node count).
Proof. unfold inject. calls_walk. Qed.
End Cluster.

#[export] Hint Resolve rpc_only with_node_only configure_only status_only poll_only send_entry_only commit_on_only prepare_on_only query_replica_only query_shard_only replay_on_only placement_of_only catch_up_only : calls.

(** Walk through a computation of the cluster. *)
Ltac calls_step :=
  first [walk_step | apply first_node_respects; [apply _|intros ?] | solve [auto with calls]].
Ltac calls_walk := repeat calls_step.
