(* ===== verification/ClusterWrites.v ===== *)
(** Elections, queries and quorum writes: what the nodes hold when the cluster
    answers. *)

From S2P Require Import Prelude Assoc PyFloat PyValue Json JsonFacts Checksum Envelope Files Models KernelConfig KernelInterface Vectors Database CollectionIdentity Mutation Journal JournalFacts Metadata MetadataFacts Snapshot Replica ReplicaFacts ReplicaHistory ReplicaServer Ranking RankingFacts Cluster ClusterFacts.
Import EntryFacts.

(** An invariant of a stateful loop, in terms of the elements seen so far *)
Lemma for_fold_M_seen {S A B} (P : list A -> B -> S -> Prop) (f : B -> A -> M S B) total :
  (forall seen x rest acc s acc' s', total = seen ++ x :: rest ->
     P seen acc s -> f acc x s = (Ok acc', s') -> P (seen ++ [x]) acc' s') ->
  forall l seen acc s acc' s', total = seen ++ l -> P seen acc s ->
    for_fold_M f acc l s = (Ok acc', s') -> P total acc' s'.
Proof.
  intros Hstep. induction l as [|x l IH]; intros seen acc s acc' s' Ht Hp H; cbn [for_fold_M] in H.
  - injection H as <- <-. rewrite app_nil_r in Ht. by subst.
  - apply bind_ok in H as (acc1 & s1 & H1 & H). apply (IH (seen ++ [x]) acc1 s1); [| |exact H].
    + rewrite Ht, <- app_assoc. done.
    + by eapply Hstep.
Qed.

(** The outcome of [try: ...; return a  except handlers: return b] *)
Lemma try_catch_ok {S A} (m : M S A) handlers h s a s' :
  try_catch m handlers h s = (Ok a, s') ->
  m s = (Ok a, s') \/ exists e s1, m s = (Raise e, s1) /\ h e s1 = (Ok a, s').
Proof.
  unfold try_catch. destruct (m s) as [[b|e] s1]; [by left|].
  destruct (caught handlers e); [|done]. right. eauto.
Qed.

Lemma dict_get_set (d : dict) k v : dict_get (dict_set d k v) k = Some v.
Proof.
  induction d as [|[k' w] d IH]; cbn; [by rewrite bool_decide_eq_true_2|].
  case_bool_decide as H; cbn; [by rewrite bool_decide_eq_true_2|]. by rewrite bool_decide_eq_false_2.
Qed.

Section Writes.
Context {K : Type} `{!Kernel K}.
Variable perf_counter_ns : nat -> Z.
Variable port : string -> Z -> Z.
Variable uuid : nat -> string.
Abbreviation cluster := (@DistributedCluster.t K).
Abbreviation shard := (@ReplicaShard.t K).
Import DistributedCluster.

(** The open shard of a node *)
Definition shard_of (c : cluster) (node : string) (id : Z) : option shard :=
  match assoc_get (nodes c) node with
  | Some p => shard_at p id
  | None => None
  end.

(** ** Calls that leave the shards' journals and applied indexes alone *)

Definition calm (c c' : cluster) : Prop :=
  nodes_only c c' /\ forall node id sh, shard_of c node id = Some sh ->
    exists sh', shard_of c' node id = Some sh' /\ still sh sh'.

#[export] Instance calm_preorder : PreOrder calm.
Proof.
  split.
  - intros c. split; [reflexivity|]. intros node id sh H. exists sh. split; [done|reflexivity].
  - intros c1 c2 c3 [N12 S12] [N23 S23]. split; [by transitivity c2|]. intros node id sh H.
    destruct (S12 node id sh H) as (sh1 & H1 & T1). destruct (S23 node id sh1 H1) as (sh2 & H2 & T2).
    exists sh2. split; [done|by transitivity sh1].
Qed.

Lemma shard_of_with_node {A} node (m : M _ A) (c : cluster) p id :
  assoc_get (nodes c) node = Some p ->
  shard_of (with_node node m c).2 node id = shard_at (m p).2 id.
Proof.
  intros Hp. unfold with_node, shard_of. rewrite Hp. destruct (m p) as [r p']. cbn.
  by rewrite assoc_get_set_eq.
Qed.

Lemma shard_of_other {A} node (m : M _ A) (c : cluster) node' id :
  node' <> node -> shard_of (with_node node m c).2 node' id = shard_of c node' id.
Proof.
  intros Hne. unfold with_node, shard_of. destruct (assoc_get (nodes c) node) as [p|]; [|done].
  destruct (m p) as [r p']. cbn. by rewrite assoc_get_set_ne.
Qed.

Lemma with_node_calm {A} node (m : M _ A) :
  respects same_shards m -> respects calm (with_node node m).
Proof.
  intros Hm c. split; [apply with_node_only|]. intros node' id sh H.
  destruct (decide (node' = node)) as [->|Hne].
  - unfold shard_of in H. destruct (assoc_get (nodes c) node) as [p|] eqn:Hp; [|done].
    rewrite (shard_of_with_node _ _ _ _ _ Hp). by apply Hm.
  - exists sh. rewrite shard_of_other by done. split; [done|reflexivity].
Qed.

Lemma status_calm node id : respects calm (_status perf_counter_ns node id).
Proof.
  apply with_node_calm. intros p. pose proof (rpc_status perf_counter_ns id p) as H.
  change (same_shards p (ReplicaProcess.rpc perf_counter_ns (PDict (status_request id)) p).2).
  destruct (ReplicaProcess.rpc _ _ _) as [r p']. by destruct H.
Qed.

Lemma configure_calm node p : respects calm (_configure perf_counter_ns node p).
Proof. apply with_node_calm. intros q. apply rpc_configure. Qed.

#[local] Hint Resolve status_calm configure_calm : calls.

(** An answered status is about the shard of the node. *)
Lemma status_answers node id (c : cluster) v c' :
  _status perf_counter_ns node id c = (Ok v, c') ->
  exists sh, shard_of c' node id = Some sh /\
    response_int v "applied_index" = Ok (ReplicaShard.applied_index sh).
Proof.
  intros H. unfold _status, _rpc in H.
  destruct (assoc_get (nodes c) node) as [p|] eqn:Hp; [|by unfold with_node in H; rewrite Hp in H].
  pose proof (shard_of_with_node node (ReplicaProcess.rpc perf_counter_ns (PDict (status_request id)))
    c p id Hp) as Hs.
  change (with_node node (ReplicaProcess.rpc perf_counter_ns (PDict (status_request id))) c = (Ok v, c')) in H.
  rewrite H in Hs. cbn [snd] in Hs.
  pose proof (rpc_status perf_counter_ns id p) as Hr.
  unfold with_node in H. rewrite Hp in H.
  destruct (ReplicaProcess.rpc _ _ p) as [r p']. injection H as -> _. cbn [snd] in Hs.
  destruct Hr as [Hsame Hv]. destruct (Hv v eq_refl) as (sh & Hsh & Hst).
  destruct (Hsame id sh Hsh) as (sh' & Hsh' & Ha & _). exists sh'. rewrite Hs. split; [done|].
  rewrite Ha. by apply (status_value perf_counter_ns).
Qed.

(** ** Polls and elections *)

Definition applied_is (c : cluster) (id : Z) (an : Z * string) : Prop :=
  exists sh, shard_of c an.2 id = Some sh /\ ReplicaShard.applied_index sh = an.1.

Lemma calm_applied c c' id an : calm c c' -> applied_is c id an -> applied_is c' id an.
Proof.
  intros [_ H] (sh & Hsh & Ha). destruct (H _ _ _ Hsh) as (sh' & Hsh' & Ha' & _).
  exists sh'. split; [done|]. by rewrite Ha'.
Qed.

Lemma poll_calm id replicas : respects calm (poll perf_counter_ns id replicas).
Proof. unfold poll. calls_walk. Qed.

(** Each candidate is a replica with its applied index. *)
Lemma poll_spec id replicas (c : cluster) candidates c' :
  poll perf_counter_ns id replicas c = (Ok candidates, c') ->
  calm c c' /\ sublist candidates.*2 replicas /\ Forall (applied_is c' id) candidates.
Proof.
  intros H. split; [pose proof (poll_calm id replicas c) as Hc; by rewrite H in Hc|].
  unfold poll in H.
  apply (for_fold_M_seen (fun seen acc c => sublist acc.*2 seen /\ Forall (applied_is c id) acc)
    _ replicas) with (seen := []) in H; [done| |done|split; [done|constructor]].
  intros seen node rest acc s acc' s' _ [Hsub Hall] Hs.
  apply try_catch_ok in Hs as [Hs|(e & s1 & Hs & [= <- <-])].
  - apply bind_ok in Hs as (v & s1 & Hst & Hs). apply bind_ok in Hs as (a & s2 & Ha & Hs).
    apply lift_ok in Ha as [Ha ->]. injection Hs as <- <-.
    destruct (status_answers _ _ _ _ _ Hst) as (sh & Hsh & Hv). rewrite Ha in Hv. injection Hv as ->.
    pose proof (status_calm node id s) as Hc. rewrite Hst in Hc. cbn [snd] in Hc. split.
    + rewrite fmap_app. by apply sublist_app.
    + apply Forall_app. split; [|constructor; [by exists sh|constructor]].
      eapply Forall_impl; [exact Hall|]. intros an. by apply calm_applied.
  - split; [by apply sublist_inserts_r|].
    assert (calm s s1) as Hc.
    { match type of Hs with ?m s = _ => enough (respects calm m) as Hm by (specialize (Hm s); by rewrite Hs in Hm) end.
      calls_walk. }
    eapply Forall_impl; [exact Hall|]. intros an. by apply calm_applied.
Qed.

(** The order of the candidates: the highest applied index first. *)
Lemma candidate_total x y : candidate_leb x y = true \/ candidate_leb y x = true.
Proof.
  unfold candidate_leb. destruct (- x.1 =? - y.1) eqn:H1, (- y.1 =? - x.1) eqn:H2; inv_py; try lia.
  apply String.leb_total.
Qed.

Lemma candidate_max x y : candidate_leb x y = true -> y.1 <= x.1.
Proof. unfold candidate_leb. destruct (- x.1 =? - y.1) eqn:H1; intros H; inv_py; lia. Qed.

Lemma candidate_trans x y z :
  candidate_leb x y = true -> candidate_leb y z = true -> candidate_leb x z = true.
Proof.
  unfold candidate_leb.
  destruct (- x.1 =? - y.1) eqn:H1, (- y.1 =? - z.1) eqn:H2, (- x.1 =? - z.1) eqn:H3;
    rewrite ?Z.eqb_eq, ?Z.eqb_neq, ?Z.ltb_lt, ?Z.ltb_ge in *; try lia.
  rewrite <- !Is_true_true. apply (transitivity (R := String.le)).
Qed.

Lemma best_candidate candidates best rest :
  isort candidate_leb candidates = best :: rest ->
  best ∈ candidates /\ forall x, x ∈ candidates -> x.1 <= best.1.
Proof.
  intros H. pose proof (isort_sorted candidate_leb (fun _ => True)) as Hs.
  specialize (Hs ltac:(intros; apply candidate_total) ltac:(intros; by eapply candidate_trans) candidates
    ltac:(by apply Forall_forall)). rewrite H in Hs.
  assert (best ∈ candidates) as Hin by (rewrite <- (isort_elem_of candidate_leb), H; left).
  split; [done|]. intros x Hx. rewrite <- (isort_elem_of candidate_leb), H in Hx.
  apply elem_of_cons in Hx as [->|Hx]; [lia|].
  apply StronglySorted_inv in Hs as [_ Hs]. rewrite Forall_forall in Hs. by apply candidate_max, Hs.
Qed.

(** The metadata file holds the record in memory, which is valid. *)
Definition published (c : cluster) : Prop :=
  ClusterMetadata.validate (metadata c) = Ok (metadata c) /\
  ClusterMetadata.destination (metadata_path c) =
    Some (File (metadata_text (metadata c)) (String.length (metadata_text (metadata c)))).

Lemma publish_published (c c' : cluster) u :
  _publish_metadata c = (Ok u, c') ->
  published c' /\ nodes c' = nodes c /\ _closed c' = _closed c /\
  exists config, metadata c' = ClusterMetadata.set_collection_config config (metadata c).
Proof.
  rewrite publish_metadata_run. destruct (ClusterMetadata.validate (metadata c)) as [m|] eqn:Hm; [|done].
  intros H. apply (f_equal snd) in H. cbn [snd] in H. subst c'. split_and!; try done.
  - split; [|done]. by apply validate_idemp in Hm.
  - by apply validate_record in Hm.
Qed.

Lemma nodes_only_published (c c' : cluster) : nodes_only c c' -> published c -> published c'.
Proof. intros [H _]. unfold published. rewrite <- H. done. Qed.

(** A placement of a valid record *)
Lemma valid_placement (c : cluster) id p :
  ClusterMetadata.validate (metadata c) = Ok (metadata c) ->
  assoc_get (ClusterMetadata.shards (metadata c)) id = Some p ->
  ShardPlacement.shard_id p = id /\ NoDup (ShardPlacement.replicas p).
Proof.
  intros [Hok _]%validate_Ok Hp. pose proof (metadata_shards _ Hok) as Hs.
  apply (assoc_get_Forall _ _ _ _ Hs) in Hp. by destruct Hp.
Qed.

Lemma configure_all_calm p (candidates : list (Z * string)) :
  respects calm (for_each_M (fun candidate => _configure perf_counter_ns candidate.2 p;; mret tt) candidates).
Proof. calls_walk. Qed.

(** What an election leaves: a leader among a quorum of replicas that answered,
    none of which has applied more; the placement one term and one epoch on,
    published; and every shard where it was. *)
Record elected (c c' : cluster) (id : Z) (leader : string) (p : ShardPlacement.t)
    (voters : list string) : Prop := {
  elected_before : assoc_get (ClusterMetadata.shards (metadata c)) id = Some p;
  elected_after : assoc_get (ClusterMetadata.shards (metadata c')) id =
    Some (ShardUpdate.set_leader (ShardPlacement.term p + 1) (ShardPlacement.placement_epoch p + 1) leader p);
  elected_valid : ShardPlacement.shard_id p = id /\ NoDup (ShardPlacement.replicas p);
  elected_voters : sublist voters (ShardPlacement.replicas p);
  elected_quorum : ShardPlacement.quorum p <= Z.of_nat (length voters);
  elected_leader : leader ∈ voters;
  elected_best : exists best, applied_is c' id (best, leader) /\
    Forall (fun node => exists a, applied_is c' id (a, node) /\ a <= best) voters;
  elected_kept : forall an, applied_is c id an -> applied_is c' id an;
  elected_published : published c' }.

Lemma elect_spec id (c : cluster) leader c' :
  _elect_leader perf_counter_ns id c = (Ok leader, c') -> exists p voters, elected c c' id leader p voters.
Proof.
  intros H. unfold _elect_leader in H.
  apply bind_ok in H as (p & c0 & Hp & H). apply placement_of_run in Hp as [Hp ->].
  apply bind_ok in H as (candidates & c1 & Hpoll & H).
  apply poll_spec in Hpoll as (Hcalm & Hsub & Happ).
  apply bind_ok in H as (u & c2 & Hq & H). apply lift_ok in Hq as [Hq ->].
  apply raise_if_Ok, Z.ltb_ge in Hq.
  destruct (isort candidate_leb candidates) as [|[best node] rest] eqn:Hsort; [done|].
  apply best_candidate in Hsort as Hbest. destruct Hbest as [Hin Hmax].
  apply bind_ok in H as (u1 & c3 & H3 & H). injection H3 as <- <-.
  apply bind_ok in H as (u2 & c4 & H4 & H). injection H4 as <- <-.
  apply bind_ok in H as (u3 & c5 & H5 & H). apply publish_published in H5 as (Hpub & Hnodes & _ & config & Hm).
  apply bind_ok in H as (p' & c6 & Hp' & H). apply placement_of_run in Hp' as [Hp' ->].
  apply bind_ok in H as (u4 & c7 & H7 & H). injection H as <- <-.
  pose proof (configure_all_calm p' ((best, node) :: rest) c5) as Hcalm'. rewrite H7 in Hcalm'. cbn [snd] in Hcalm'.
  pose proof (nodes_only_metadata _ _ (proj1 Hcalm)) as Hm1.
  pose proof (nodes_only_metadata _ _ (proj1 Hcalm')) as Hm7.
  cbn in Hm. rewrite Hm1, Hp in Hm.
  assert (p' = ShardUpdate.set_leader (ShardPlacement.term p + 1) (ShardPlacement.placement_epoch p + 1) node p) as ->.
  { rewrite Hm in Hp'. cbn in Hp'. rewrite assoc_get_set_eq in Hp'. by injection Hp' as <-. }
  destruct (valid_placement c5 id _ (proj1 Hpub) Hp') as [Hid Hnd]. cbn in Hid, Hnd.
  assert (forall an, applied_is c1 id an -> applied_is c7 id an) as Hkept.
  { intros an (sh & Hsh & Ha). apply (calm_applied c5 c7 id an Hcalm'). exists sh. split; [|done].
    unfold shard_of in *. by rewrite Hnodes. }
  rewrite Hid in Happ. rewrite Forall_forall in Happ.
  exists p, candidates.*2. split; try done.
  - by rewrite Hm7.
  - by rewrite length_fmap.
  - by apply (list_elem_of_fmap_2 snd) in Hin.
  - exists best. split; [by apply Hkept, Happ|]. apply Forall_forall. intros v Hv.
    apply list_elem_of_fmap in Hv as ([a v'] & -> & Hv). exists a.
    split; [by apply Hkept, Happ|]. by apply (Hmax (a, v')).
  - intros an Ha. by apply Hkept, (calm_applied c c1).
  - by apply (nodes_only_published c5); [apply Hcalm'|].
Qed.

(** A new leader has applied as much as any replica of any quorum. *)
Lemma elected_caught_up c c' id leader p voters q i :
  elected c c' id leader p voters -> NoDup q -> q ⊆ ShardPlacement.replicas p ->
  ShardPlacement.quorum p <= Z.of_nat (length q) ->
  Forall (fun node => exists a, applied_is c id (a, node) /\ i <= a) q ->
  exists a, applied_is c' id (a, leader) /\ i <= a.
Proof.
  intros [_ _ [_ Hnd] Hsub Hlen _ (best & Hbest & Hall) Hkept _] Hq Hqs Hql Hqa.
  destruct (quorums_intersect p voters q) as (node & Hv & Hn); try done.
  - exact (sublist_NoDup _ _ Hnd Hsub).
  - intros x Hx. exact (elem_of_sublist _ _ _ Hx Hsub).
  - rewrite Forall_forall in Hqa, Hall. destruct (Hqa node Hn) as (a & Ha & Hi).
    destruct (Hall node Hv) as (b & Hb & Hle). exists best. split; [done|].
    apply Hkept in Ha. destruct Ha as (sh & Hsh & Ha), Hb as (sh' & Hsh' & Hb). cbn in *. simplify_eq. lia.
Qed.

(** ** Caught-up nodes *)

Lemma first_node_ok {A} (f : string -> M cluster (option A)) handlers l (c : cluster) a c' :
  first_node f handlers l c = (Ok (Some a), c') ->
  exists node c1, node ∈ l /\ f node c1 = (Ok (Some a), c').
Proof.
  revert c. induction l as [|node l IH]; intros c H; [done|]. cbn [first_node] in H.
  apply bind_ok in H as (found & c1 & Hf & H). destruct found as [b|].
  - injection H as -> ->. apply try_catch_ok in Hf as [Hf|(e & c2 & _ & Hf)]; [|done].
    exists node, c. split; [left|done].
  - destruct (IH c1 H) as (n & c2 & Hn & Hc). exists n, c2. split; [by right|done].
Qed.

Lemma ordered_replicas (p : ShardPlacement.t) node :
  ShardPlacement.leader p ∈ ShardPlacement.replicas p ->
  node ∈ ordered p -> node ∈ ShardPlacement.replicas p.
Proof.
  intros Hl. unfold ordered. intros [->|H]%elem_of_cons; [done|]. by apply list_elem_of_filter in H as [_ ?].
Qed.

(** The node chosen for a query has applied the index asked for. *)
Lemma query_replica_spec p index (c : cluster) node c' :
  _query_replica perf_counter_ns p index c = (Ok node, c') ->
  node ∈ ordered p /\ exists a, applied_is c' (ShardPlacement.shard_id p) (a, node) /\ index <= a.
Proof.
  intros H. unfold _query_replica in H. apply bind_ok in H as (found & c1 & Hf & H).
  destruct found as [n|]; [|done]. injection H as -> ->.
  apply first_node_ok in Hf as (n' & c2 & Hn & Hf).
  apply bind_ok in Hf as (v & c3 & Hst & Hf). apply bind_ok in Hf as (a & c4 & Ha & Hf).
  apply lift_ok in Ha as [Ha ->]. destruct (index <=? a) eqn:Hle; [|done]. injection Hf as -> ->.
  destruct (status_answers _ _ _ _ _ Hst) as (sh & Hsh & Hv). rewrite Ha in Hv. injection Hv as ->.
  inv_py. split; [done|]. exists (ReplicaShard.applied_index sh). split; [by exists sh|done].
Qed.

(** ** Commits on a quorum *)

Definition held (c : cluster) (e : ReplicatedEntry.t) (node : string) : Prop :=
  exists sh, shard_of c node (ReplicatedEntry.shard_id e) = Some sh /\ holds_entry e sh.

Lemma send_entry_other op e node (c : cluster) node' id :
  node' <> node -> shard_of (send_entry perf_counter_ns op e node c).2 node' id = shard_of c node' id.
Proof.
  intros Hne. unfold send_entry. rewrite run_lift. destruct (entry_request op e) as [d|]; [|done].
  by apply shard_of_other.
Qed.

Lemma send_commit_held e node (c : cluster) v c' :
  send_entry perf_counter_ns "commit" e node c = (Ok v, c') -> held c' e node.
Proof.
  intros H. unfold send_entry in H. rewrite run_lift in H.
  destruct (entry_request "commit" e) as [d|] eqn:Hd; [|done]. unfold _rpc in H.
  destruct (assoc_get (nodes c) node) as [p|] eqn:Hp; [|by unfold with_node in H; rewrite Hp in H].
  pose proof (shard_of_with_node node (ReplicaProcess.rpc perf_counter_ns (PDict d)) c p
    (ReplicatedEntry.shard_id e) Hp) as Hs.
  rewrite H in Hs. cbn [snd] in Hs. unfold with_node in H. rewrite Hp in H.
  pose proof (rpc_commit perf_counter_ns e d p Hd) as Hc.
  destruct (ReplicaProcess.rpc _ _ p) as [r p']. injection H as -> _. cbn [snd] in Hs.
  destruct Hc as [_ Hc]. destruct (Hc v eq_refl) as (sh & Hsh & He). exists sh. by rewrite Hs.
Qed.

Lemma commit_on_spec e replicas (c : cluster) committed c' :
  NoDup replicas -> commit_on perf_counter_ns e replicas c = (Ok committed, c') ->
  sublist committed replicas /\ Forall (held c' e) committed.
Proof.
  intros Hnd H. unfold commit_on in H.
  apply (for_fold_M_seen (fun seen acc c => sublist acc seen /\ Forall (held c e) acc)
    _ replicas) with (seen := []) in H; [done| |done|split; [done|constructor]].
  intros seen node rest acc s acc' s' Htotal [Hsub Hall] Hs.
  assert (node ∉ seen) as Hn.
  { rewrite Htotal in Hnd. apply NoDup_app in Hnd as (_ & Hnd & _). intros Hin. by apply (Hnd _ Hin); left. }
  assert (forall c1, (send_entry perf_counter_ns "commit" e node s).2 = c1 -> Forall (held c1 e) acc) as Hkept.
  { intros c1 <-. apply Forall_forall. intros n Hin. rewrite Forall_forall in Hall.
    destruct (Hall n Hin) as (sh & Hsh & Hh). exists sh. split; [|done].
    rewrite send_entry_other; [done|]. intros ->. apply Hn. by eapply elem_of_sublist. }
  apply try_catch_ok in Hs as [Hs|(err & s1 & Hs & [= <- <-])].
  - apply bind_ok in Hs as (v & s1 & Hs & [= <- <-]). split; [by apply sublist_app|].
    apply Forall_app. split; [by apply Hkept; rewrite Hs|]. constructor; [|constructor].
    by eapply send_commit_held.
  - split; [by apply sublist_inserts_r|]. apply Hkept.
    destruct (send_entry _ _ _ _ s) as [[v|err'] s2] eqn:He.
    + by rewrite (run_Ok _ _ _ _ _ He) in Hs.
    + rewrite (run_Raise _ _ _ _ _ He) in Hs. by injection Hs as _ ->.
Qed.

(** The shard a point belongs to *)
Definition shard_for (c : cluster) (id : Z) : Z :=
  Z.land id 0xFFFFFFFFFFFFFFFF mod ClusterMetadata.shard_count (metadata c).

(** What an acknowledged write leaves *)
Record written (c : cluster) (e : ReplicatedEntry.t) (r : CommitResult.t)
    (p : ShardPlacement.t) (q : list string) : Prop := {
  written_result : r = CommitResult.Mk (ReplicatedEntry.shard_id e) (ReplicatedEntry.term e)
    (ReplicatedEntry.index e) (ReplicatedEntry.request_id e);
  written_placement :
    assoc_get (ClusterMetadata.shards (metadata c)) (ReplicatedEntry.shard_id e) = Some p;
  written_quorum : NoDup q /\ q ⊆ ShardPlacement.replicas p /\
    ShardPlacement.quorum p <= Z.of_nat (length q);
  written_held : Forall (held c e) q;
  written_index : ReplicatedEntry.index e <= ShardPlacement.committed_index p;
  written_request :
    dict_get (ClusterMetadata.request_table (metadata c)) (ReplicatedEntry.request_id e) =
      Some (request_record e (payload_checksum (PDict (ReplicatedEntry.mutation e))) "committed");
  written_published : published c }.

Lemma commit_prepared_spec e (c : cluster) r c' :
  _commit_prepared perf_counter_ns (ReplicatedEntry.shard_id e) e
    (payload_checksum (PDict (ReplicatedEntry.mutation e))) c = (Ok r, c') ->
  exists p q, written c' e r p q.
Proof.
  intros H. unfold _commit_prepared in H.
  apply bind_ok in H as (p & c0 & Hp & H). apply placement_of_run in Hp as [Hp ->].
  apply bind_ok in H as (q & c1 & Hq & H).
  pose proof (commit_on_only perf_counter_ns e (ShardPlacement.replicas p) c) as Ho. rewrite Hq in Ho.
  apply nodes_only_metadata in Ho. cbn [snd] in Ho.
  apply bind_ok in H as (u & c2 & Hl & H). apply lift_ok in Hl as [Hl ->].
  apply raise_if_Ok, Z.ltb_ge in Hl.
  apply bind_ok in H as (u1 & c3 & H3 & H). injection H3 as <- <-.
  apply bind_ok in H as (u2 & c4 & H4 & H). injection H4 as <- <-.
  apply bind_ok in H as (u3 & c5 & H5 & H). injection H5 as <- <-.
  apply bind_ok in H as (u4 & c6 & H6 & H). injection H as <- <-.
  apply publish_published in H6 as (Hpub & Hnodes & _ & config & Hm).
  cbn in Hm, Hnodes. rewrite Ho, Hp in Hm.
  set (p' := ShardUpdate.set_committed_index
    (Z.max (ShardPlacement.committed_index p) (ReplicatedEntry.index e)) p) in *.
  assert (assoc_get (ClusterMetadata.shards (metadata c6)) (ReplicatedEntry.shard_id e) = Some p') as Hp'.
  { rewrite Hm. cbn. by rewrite assoc_get_set_eq. }
  destruct (valid_placement c6 _ _ (proj1 Hpub) Hp') as [_ Hnd]. cbn in Hnd.
  destruct (commit_on_spec e _ _ _ _ Hnd Hq) as [Hsub Hall].
  exists p', q. split; try done.
  - split_and!; [exact (sublist_NoDup _ _ Hnd Hsub)| |exact Hl].
    intros x Hx. exact (elem_of_sublist _ _ _ Hx Hsub).
  - eapply Forall_impl; [exact Hall|]. intros node (sh & Hsh & Hh). exists sh. split; [|done].
    unfold shard_of in *. by rewrite Hnodes.
  - cbn. lia.
  - rewrite Hm. cbn. apply dict_get_set.
Qed.

(** ** Writes *)

(** Steps that leave the requests, the shards' number and the lock alone *)
Definition keeps_requests (c c' : cluster) : Prop :=
  ClusterMetadata.request_table (metadata c') = ClusterMetadata.request_table (metadata c) /\
  ClusterMetadata.shard_count (metadata c') = ClusterMetadata.shard_count (metadata c) /\
  _closed c' = _closed c.

#[export] Instance keeps_requests_preorder : PreOrder keeps_requests.
Proof.
  split; [by intros c|]. intros c1 c2 c3 (? & ? & ?) (? & ? & ?). split_and!; congruence.
Qed.

Lemma only_keeps_requests {A} (m : M cluster A) : respects nodes_only m -> respects keeps_requests m.
Proof.
  intros H c. unfold keeps_requests.
  by rewrite (nodes_only_metadata _ _ (H c)), (nodes_only_closed _ _ (H c)).
Qed.

Lemma on_placement_keeps id f : respects keeps_requests (on_placement id f).
Proof.
  intros c. unfold keeps_requests, on_placement, on_metadata, modify. cbn [snd metadata set_metadata _closed].
  by destruct (assoc_get _ id).
Qed.

Lemma bump_keeps : respects keeps_requests (bump_epoch (K := K)).
Proof. by intros c. Qed.

Lemma publish_keeps : respects keeps_requests (_publish_metadata (K := K)).
Proof.
  intros c. destruct (_publish_metadata c) as [[u|e] c'] eqn:H.
  - apply publish_published in H as (_ & _ & Hc & config & Hm). cbn. unfold keeps_requests. by rewrite Hm.
  - rewrite publish_metadata_run in H. destruct (ClusterMetadata.validate _); [done|].
    by injection H as _ <-.
Qed.

Lemma ensure_open_keeps : respects keeps_requests (_ensure_open (K := K)).
Proof. unfold _ensure_open. calls_walk. Qed.

#[local] Hint Resolve on_placement_keeps bump_keeps publish_keeps ensure_open_keeps : calls.
#[local] Hint Extern 1 (respects keeps_requests _) =>
  apply only_keeps_requests; solve [auto with calls] : calls.

Lemma elect_keeps id : respects keeps_requests (_elect_leader perf_counter_ns id).
Proof. unfold _elect_leader. calls_walk. Qed.
#[local] Hint Resolve elect_keeps : calls.

Lemma ensure_leader_keeps id : respects keeps_requests (_ensure_leader perf_counter_ns id).
Proof. unfold _ensure_leader. calls_walk. Qed.
#[local] Hint Resolve ensure_leader_keeps : calls.

(** A computation that ran, seen through what it keeps *)
Lemma ran {S A} (R : S -> S -> Prop) (m : M S A) s r s' : respects R m -> m s = (r, s') -> R s s'.
Proof. intros H Hm. specialize (H s). by rewrite Hm in H. Qed.

Lemma route_run id (c : cluster) shard_id c' :
  route id c = (Ok shard_id, c') <-> _closed c = false /\ shard_id = shard_for c id /\ c' = c.
Proof.
  unfold route, _ensure_open. cbv [mbind M_bind get_state lift mret M_ret raise_if raise].
  destruct (_closed c); split.
  - done.
  - by intros [].
  - by intros [= <- <-].
  - by intros (_ & -> & ->).
Qed.

Lemma ensure_open_run (c : cluster) u c' :
  _ensure_open c = (Ok u, c') -> _closed c = false /\ c' = c.
Proof.
  unfold _ensure_open. cbv [mbind M_bind get_state lift raise_if raise].
  destruct (_closed c); [done|]. by intros [= _ <-].
Qed.

(** The part of a write that comes after the table: either the entry is
    committed, or the leader did not prepare and [again] decides. *)
Lemma new_write_spec again id rid mutation (c : cluster) r c' :
  new_write perf_counter_ns again id (payload_checksum (PDict mutation)) rid mutation c = (Ok r, c') ->
  (exists e p q, ReplicatedEntry.mutation e = mutation /\ ReplicatedEntry.request_id e = rid /\
     ReplicatedEntry.shard_id e = id /\ written c' e r p q) \/
  exists c1, keeps_requests c c1 /\ again c1 = (Ok r, c').
Proof.
  unfold new_write. intros H.
  apply bind_ok in H as (p0 & c0 & H0 & H). apply placement_of_run in H0 as [_ ->].
  apply bind_ok in H as (u1 & c1 & H1 & H). apply (ran _ _ _ _ _ (ensure_leader_keeps id)) in H1.
  apply bind_ok in H as (u2 & c2 & H2 & H). apply (ran _ _ _ _ _ (on_placement_keeps _ _)) in H2.
  apply bind_ok in H as (p & c3 & H3 & H). apply placement_of_run in H3 as [_ ->].
  apply bind_ok in H as (u4 & c4 & H4 & H). apply (ran _ _ _ _ _ bump_keeps) in H4.
  apply bind_ok in H as (u5 & c5 & H5 & H). apply (ran _ _ _ _ _ publish_keeps) in H5.
  apply bind_ok in H as (prepared & c6 & H6 & H).
  apply (ran _ _ _ _ _ (only_keeps_requests _ (prepare_on_only _ _ _))) in H6.
  destruct (negb _); [right|left].
  - exists c6. split; [|exact H]. by repeat (etransitivity; [eassumption|]).
  - apply bind_ok in H as (u7 & c7 & H7 & H). apply bind_ok in H as (u8 & c8 & H8 & H).
    apply bind_ok in H as (u9 & c9 & H9 & H). apply bind_ok in H as (u10 & c10 & H10 & H).
    set (e := ReplicatedEntry.create _ _ _ _ _ _) in *.
    destruct (commit_prepared_spec e c10 r c' H) as (p' & q & Hw). by exists e, p', q.
Qed.

(** Writes leave the routing and the lock alone. *)
Definition stays (c c' : cluster) : Prop :=
  ClusterMetadata.shard_count (metadata c') = ClusterMetadata.shard_count (metadata c) /\
  _closed c' = _closed c.

#[export] Instance stays_preorder : PreOrder stays.
Proof. split; [by intros c|]. intros c1 c2 c3 (? & ?) (? & ?). split; congruence. Qed.

Lemma keeps_stays {A} (m : M cluster A) : respects keeps_requests m -> respects stays m.
Proof. intros H c. by destruct (H c) as (_ & ? & ?). Qed.

Lemma record_request_stays e sum status : respects stays (record_request (K := K) e sum status).
Proof. by intros c. Qed.
#[local] Hint Resolve record_request_stays : calls.
#[local] Hint Extern 1 (respects stays _) => apply keeps_stays; solve [auto with calls] : calls.

Lemma commit_prepared_stays id e sum : respects stays (_commit_prepared perf_counter_ns id e sum).
Proof. unfold _commit_prepared. calls_walk. Qed.
#[local] Hint Resolve commit_prepared_stays : calls.

Lemma new_write_stays again id sum rid mutation :
  respects stays again -> respects stays (new_write perf_counter_ns again id sum rid mutation).
Proof. intros Ha. unfold new_write. calls_walk. Qed.

Lemma route_stays id : respects stays (route (K := K) id).
Proof. unfold route. calls_walk. Qed.
#[local] Hint Resolve route_stays : calls.

Lemma retried_write_stays id sum rid mutation duplicate :
  respects stays (retried_write perf_counter_ns id sum rid mutation duplicate).
Proof. unfold retried_write. calls_walk. Qed.
#[local] Hint Resolve retried_write_stays : calls.

Lemma write_stays retries mutation rid : respects stays (_write perf_counter_ns retries mutation rid).
Proof.
  revert mutation rid. induction retries as [|retries IH]; intros mutation rid; cbn [_write];
    repeat first [apply new_write_stays | apply IH | calls_step].
Qed.

(** A write that is acknowledged for a new request *)
Lemma write_spec retries mutation rid id (c : cluster) r c' :
  dict_get (ClusterMetadata.request_table (metadata c)) rid = None ->
  int_item mutation "id" = Ok id ->
  _write perf_counter_ns retries mutation rid c = (Ok r, c') ->
  exists e p q, ReplicatedEntry.mutation e = mutation /\ ReplicatedEntry.request_id e = rid /\
    ReplicatedEntry.shard_id e = shard_for c id /\ written c' e r p q.
Proof.
  revert c. induction retries as [|retries IH]; intros c Hnew Hid H; cbn [_write] in H;
    apply bind_ok in H as (u & c0 & H0 & H); apply ensure_open_run in H0 as [Hopen ->];
    rewrite run_lift, Hid in H; apply bind_ok in H as (shard_id & c1 & H1 & H);
    apply route_run in H1 as (_ & -> & ->); rewrite run_get in H;
    unfold dict_get_or in H; rewrite Hnew in H; cbn [default from_option] in H;
    apply new_write_spec in H as [(e & p & q & Hm & Hr & Hs & Hw)|(c2 & (K1 & K2 & K3) & H)];
    try (by exists e, p, q); [done|].
  apply bind_ok in H as (leader & c3 & He & H).
  apply (ran _ _ _ _ _ (elect_keeps _)) in He as (E1 & E2 & E3).
  destruct (IH c3) as (e & p & q & Hm & Hr & Hs & Hw); [congruence|done|done|].
  exists e, p, q. split_and!; try done. rewrite Hs. unfold shard_for. congruence.
Qed.

(** A request that the table has as committed is answered from the table. *)
Lemma committed_write retries mutation rid id (c : cluster) term index :
  _closed c = false -> int_item mutation "id" = Ok id ->
  dict_get (ClusterMetadata.request_table (metadata c)) rid =
    Some (PDict [("shard_id", PInt (shard_for c id)); ("term", PInt term); ("index", PInt index);
                 ("checksum", PInt (payload_checksum (PDict mutation))); ("status", PStr "committed")]) ->
  _write perf_counter_ns retries mutation rid c =
    (Ok (CommitResult.Mk (shard_for c id) term index rid), c).
Proof.
  intros Hopen Hid Htab. destruct retries; cbn [_write];
    rewrite (run_Ok _ _ c tt c) by (unfold _ensure_open; rewrite run_get; by rewrite Hopen);
    rewrite run_lift, Hid, (run_Ok _ _ c (shard_for c id) c) by (by apply route_run);
    rewrite run_get; unfold dict_get_or; rewrite Htab; cbn [default from_option];
    unfold retried_write; cbn [subscriptable]; rewrite run_lift;
    change (dict_item _ "checksum") with (@Ok pyval (PInt (payload_checksum (PDict mutation))));
    rewrite run_lift; cbn [py_int]; rewrite run_lift, Z.eqb_refl; reflexivity.
Qed.

(** A request that the table has with another checksum is refused. *)
Lemma conflicting_write retries mutation rid id (c : cluster) stored d :
  _closed c = false -> int_item mutation "id" = Ok id ->
  dict_get (ClusterMetadata.request_table (metadata c)) rid = Some (PDict d) ->
  dict_get d "checksum" = Some (PInt stored) -> stored <> payload_checksum (PDict mutation) ->
  _write perf_counter_ns retries mutation rid c =
    (raise ProtocolError "request ID reused with conflicting mutation", c).
Proof.
  intros Hopen Hid Htab Hck Hne. destruct retries; cbn [_write];
    rewrite (run_Ok _ _ c tt c) by (unfold _ensure_open; rewrite run_get; by rewrite Hopen);
    rewrite run_lift, Hid, (run_Ok _ _ c (shard_for c id) c) by (by apply route_run);
    rewrite run_get; unfold dict_get_or; rewrite Htab; cbn [default from_option];
    unfold retried_write; cbn [subscriptable]; rewrite run_lift;
    unfold dict_item; rewrite Hck, run_lift; cbn [py_int];
    rewrite run_lift, (proj2 (Z.eqb_neq _ _) Hne); reflexivity.
Qed.

(** A write that was acknowledged is answered again, and changes nothing. *)
Lemma write_again retries retries' mutation rid id (c : cluster) r c' :
  dict_get (ClusterMetadata.request_table (metadata c)) rid = None ->
  int_item mutation "id" = Ok id ->
  _write perf_counter_ns retries mutation rid c = (Ok r, c') ->
  _write perf_counter_ns retries' mutation rid c' = (Ok r, c') /\
  forall mutation' id', int_item mutation' "id" = Ok id' ->
    payload_checksum (PDict mutation') <> payload_checksum (PDict mutation) ->
    _write perf_counter_ns retries' mutation' rid c' =
      (raise ProtocolError "request ID reused with conflicting mutation", c').
Proof.
  intros Hnew Hid H. pose proof (ran _ _ _ _ _ (write_stays _ _ _) H) as [Hcount Hclosed].
  assert (_closed c = false) as Hopen.
  { destruct retries; cbn [_write] in H; apply bind_ok in H as (u & c0 & H0 & _);
      by apply ensure_open_run in H0 as [? _]. }
  assert (shard_for c' id = shard_for c id) as Hs by (unfold shard_for; congruence).
  destruct (write_spec _ _ _ _ _ _ _ Hnew Hid H) as (e & p & q & Hm & Hr & Hsh & Hw).
  pose proof (written_request _ _ _ _ _ Hw) as Ht. rewrite Hm, Hr in Ht.
  pose proof (written_result _ _ _ _ _ Hw) as ->. unfold request_record in Ht.
  rewrite Hsh, <- Hs in *. rewrite Hr. split.
  - apply committed_write; [congruence|done|done].
  - intros mutation' id' Hid' Hne. eapply conflicting_write; [congruence|done|done|done|congruence].
Qed.

(** ** Histories *)

(** One operation of the cluster, whatever it returns *)
Inductive step : cluster -> cluster -> Prop :=
| step_upsert id vector fields sparse rid c :
    step c (upsert perf_counter_ns uuid id vector fields sparse rid c).2
| step_delete id rid c : step c (delete perf_counter_ns uuid id rid c).2
| step_search request c : step c (search perf_counter_ns request c).2
| step_get id c : step c (get perf_counter_ns id c).2
| step_catch_up node id c : step c (catch_up perf_counter_ns node id c).2
| step_stop_node node c : step c (stop_node node c).2
| step_restart_node node c : step c (restart_node perf_counter_ns port node c).2
| step_partition node enabled c : step c (partition_node perf_counter_ns node enabled c).2
| step_inject name node count c : step c (inject perf_counter_ns name node count c).2
| step_rebalance id node c : step c (rebalance_add_replica perf_counter_ns id node c).2
| step_rpc node request c : step c (debug_rpc perf_counter_ns node request c).2
| step_close c : step c (close perf_counter_ns c).2.

Lemma step_advances c c' : step c c' -> advances c c'.
Proof.
  assert (forall mutation rid, respects advances (write_mutation perf_counter_ns uuid mutation rid)) as Hw
    by (intros; apply write_mutation_advances).
  intros [id v f s rid|id rid|request|id|node id|node|node|node b|name node n|id node|node request|]; clear c c'.
  - assert (respects advances (upsert perf_counter_ns uuid id v f s rid)) as H by (unfold upsert; calls_walk).
    apply H.
  - apply Hw.
  - apply search_advances.
  - apply get_advances.
  - apply (only_advances _ (catch_up_only _ _ _)).
  - apply (only_advances _ (with_node_only _ _)).
  - apply restart_advances.
  - apply partition_advances.
  - apply inject_advances.
  - apply rebalance_advances.
  - apply (only_advances _ (rpc_only _ _ _)).
  - apply close_advances.
Qed.
End Writes.
