(* ===== verification/ReplicaLiveness.v ===== *)
(** A replica that can answer does: on a collection that accepts what it is
    asked for, the operations of a shard and the calls to its process succeed
    and leave it ready for the next. *)

From S2P Require Import Prelude Assoc PyFloat PyValue Json JsonFacts Checksum Envelope Files Models KernelConfig KernelInterface Vectors Database DatabaseFacts CollectionIdentity Mutation Journal JournalFacts Metadata MetadataFacts Snapshot Replica ReplicaFacts ReplicaHistory ReplicaServer Cluster ClusterFacts.
Import EntryFacts.

(** What a healthy collection does: it tells its sequence and its configuration,
    and carries out the calls it accepts, staying healthy. *)
Record accepting {K : Type} `{!Kernel K} (healthy : K -> Prop)
    (accepts : string -> list pyval -> Prop) : Prop := {
  live_sequence k : healthy k -> exists z k',
    kernel_call "last_sequence" [] k = (Ok (PInt z), k') /\ healthy k';
  live_config k : healthy k -> exists d c k',
    kernel_call "collection_config" [] k = (Ok (PDict d), k') /\
    CollectionConfig.from_kernel d = Ok c /\ healthy k';
  live_write method args k : accepts method args -> healthy k ->
    exists v k', kernel_call method args k = (Ok v, k') /\ healthy k' }.

(** The calls that apply a mutation. *)
Definition mutation_calls (mutation : dict) : res (list (string * list pyval)) :=
  operation ← dict_item mutation "operation";
  id ← dict_item mutation "id";
  point_id ← py_int id;
  if py_eq operation (PStr "delete") then Ok [("delete", [PInt point_id])]
  else
    fields ← ReplicaShard.items_of mutation "fields" ReplicaShard.mutation_field;
    vector ← dict_item mutation "vector";
    vector ← Point.iterable vector;
    vector ← map_res py_float vector;
    sparse ← ReplicaShard.items_of mutation "sparse" ReplicaShard.mutation_element;
    Ok (("upsert_document", [PInt point_id; PList (PFloat <$> vector);
                             PList (PayloadField.to_kernel <$> fields)]) ::
        if bool_decide (length sparse = 0%nat) then []
        else [("upsert_sparse", [PInt point_id; PList (SparseElement.to_kernel <$> sparse)])]).

Section Collections.
Context {K : Type} `{!Kernel K, !OrdinaryErrors K}.
Variable perf_counter_ns : nat -> Z.
Variable healthy : K -> Prop.
Variable accepts : string -> list pyval -> Prop.
Hypothesis live : accepting healthy accepts.
Abbreviation Collection := (@Collection K).

Definition well (c : Collection) : Prop := healthy (_kernel c).

(** A call that the collection carries out *)
Lemma call_lives method args (c : Collection) v k :
  kernel_call method args (_kernel c) = (Ok v, k) -> healthy k ->
  exists c', _call perf_counter_ns method args c = (Ok v, c') /\ well c'.
Proof.
  intros Hk Hh. unfold _call.
  destruct (call_method_state perf_counter_ns method (kernel_call method args) c (Ok v) k Hk)
    as (duration & sequence & H); [done|].
  eexists. split; [exact H|]. unfold well, after_call. cbn [_kernel].
  destruct (_ && _); [|done].
  destruct (live_sequence _ _ live k Hh) as (z & k' & -> & Hh'). done.
Qed.

Lemma write_call_lives method args (c : Collection) :
  accepts method args -> well c ->
  exists v c', _call perf_counter_ns method args c = (Ok v, c') /\ well c'.
Proof.
  intros Ha Hw. destruct (live_write _ _ live method args _ Ha Hw) as (v & k & Hk & Hh).
  destruct (call_lives _ _ c v k Hk Hh) as (c' & Hc & Hw'). by exists v, c'.
Qed.

Lemma last_sequence_lives (c : Collection) :
  well c -> exists z c', last_sequence perf_counter_ns c = (Ok z, c') /\ well c'.
Proof.
  intros Hw. destruct (live_sequence _ _ live _ Hw) as (z & k & Hk & Hh).
  destruct (call_lives _ _ c _ k Hk Hh) as (c' & Hc & Hw'). exists z, c'.
  unfold last_sequence. by rewrite (run_Ok _ _ _ _ _ Hc).
Qed.

Lemma collection_config_lives (c : Collection) :
  well c -> exists v c', collection_config perf_counter_ns c = (Ok v, c') /\ well c'.
Proof.
  intros Hw. destruct (live_config _ _ live _ Hw) as (d & v & k & Hk & Hd & Hh).
  destruct (call_lives _ _ c _ k Hk Hh) as (c' & Hc & Hw'). exists v, c'.
  unfold collection_config. rewrite (run_Ok _ _ _ _ _ Hc). cbn [as_mapping].
  rewrite run_lift. by rewrite Hd.
Qed.

(** * A shard *)

Abbreviation shard := (@ReplicaShard.t K).
Import ReplicaShard.

(** An open shard with its numbers, on a healthy collection, whose journal holds
    nothing beyond the index [last] but the entry [pending]. *)
Record ready (id dim new_term new_epoch last : Z) (pending : option ReplicatedEntry.t)
    (s : shard) : Prop := {
  ready_identity : shard_id s = id /\ dimension s = dim;
  ready_numbers : term s = new_term /\ placement_epoch s = new_epoch;
  ready_snapshot : ReplicaJournal.snapshot_index (journal s) <= last;
  ready_beyond : forall i e, last < i -> ReplicaJournal.prepared (journal s) !! i = Some e ->
    pending = Some e /\ ReplicatedEntry.index e = i;
  ready_well : well (collection s) }.

Lemma ready_pending id dim t e last entry s :
  ready id dim t e last None s -> ready id dim t e last (Some entry) s.
Proof.
  intros [Hi Hn Hs Hb Hw]. split; try done. intros i e0 Hi0 He0. by destruct (Hb i e0 Hi0 He0).
Qed.

(** Once the placement counts the entry, nothing is beyond it. *)
Lemma ready_next id dim t e last entry s :
  ready id dim t e last (Some entry) s -> ReplicatedEntry.index entry = last + 1 ->
  ready id dim t e (last + 1) None s.
Proof.
  intros [Hi Hn Hs Hb Hw] Hidx. split; try done; [lia|].
  intros i e0 Hi0 He0. destruct (Hb i e0 ltac:(lia) He0) as [[= <-] Hi1]. lia.
Qed.

Lemma ready_quiet id dim t e last pending s s' :
  ready id dim t e last pending s -> quiet s s' -> well (collection s') ->
  ready id dim t e last pending s'.
Proof.
  intros [[Hi Hd] [Ht He] Hs Hb Hw] [Hn Hid Hj _ _ _] Hw'. injection Hn as Ht' He' _.
  injection Hid as Hi' Hd' _. split; try done; try (by rewrite Hj).
  - split; congruence.
  - split; congruence.
Qed.

Lemma on_collection_lives {A} (m : M Collection A) s r c :
  m (collection s) = (r, c) -> well c ->
  exists s', with_collection m s = (r, s') /\ well (collection s').
Proof. intros Hm Hw. unfold with_collection. rewrite Hm. by eexists. Qed.

Lemma status_lives s : well (collection s) ->
  exists v s', status perf_counter_ns s = (Ok v, s') /\ well (collection s').
Proof.
  intros Hw. unfold status. rewrite run_get.
  destruct (last_sequence_lives _ Hw) as (z & c & Hc & Hwc).
  destruct (on_collection_lives _ s _ _ Hc Hwc) as (s1 & H1 & Hw1). rewrite (run_Ok _ _ _ _ _ H1).
  destruct (collection_config_lives _ Hw1) as (v & c2 & Hc2 & Hwc2).
  destruct (on_collection_lives _ s1 _ _ Hc2 Hwc2) as (s2 & H2 & Hw2). rewrite (run_Ok _ _ _ _ _ H2).
  by eexists _, _.
Qed.

Lemma status_ready id dim t e last pending s :
  ready id dim t e last pending s ->
  exists v s', status perf_counter_ns s = (Ok v, s') /\ ready id dim t e last pending s'.
Proof.
  intros Hr. destruct (status_lives s (ready_well _ _ _ _ _ _ _ Hr)) as (v & s' & Hs & Hw).
  exists v, s'. split; [done|]. eapply ready_quiet; [done| |done].
  pose proof (status_quiet perf_counter_ns s) as Hq. by rewrite Hs in Hq.
Qed.

Lemma configure_ready id dim t e last pending s t' e' :
  ready id dim t e last pending s -> t <= t' -> e <= e' ->
  exists v s', configure perf_counter_ns t' e' s = (Ok v, s') /\
    ready id dim t' e' last pending s'.
Proof.
  intros [Hi [Ht He] Hs Hb Hw] Htt Hee. unfold configure. rewrite run_get, run_guard, Ht, He.
  rewrite (proj2 (Z.ltb_ge _ _) Htt), (proj2 (Z.ltb_ge _ _) Hee). cbn [orb]. rewrite run_modify.
  destruct (publish_state_run (set_epochs t' e' s)) as (s1 & H1 & Hn & Hid & Hj & _ & Hc & _).
  rewrite (run_Ok _ _ _ _ _ H1). injection Hn as Ht1 He1 _. injection Hid as Hi1 Hd1 _.
  apply status_ready. split; try done.
  - rewrite Hi1, Hd1. exact Hi.
  - by rewrite Hj.
  - rewrite Hj. exact Hb.
  - by rewrite Hc.
Qed.

(** ** Applying a mutation *)

Lemma with_collection_lives {A} (m : M Collection A) s :
  (forall c, well c -> exists r c', m c = (Ok r, c') /\ well c') -> well (collection s) ->
  exists r s', with_collection m s = (Ok r, s') /\ well (collection s').
Proof.
  intros Hm Hw. destruct (Hm _ Hw) as (r & c & Hc & Hwc).
  destruct (on_collection_lives m s _ _ Hc Hwc) as (s' & H1 & H2). by exists r, s'.
Qed.

Lemma unit_call_lives method args c :
  accepts method args -> well c ->
  exists r c', (_call perf_counter_ns method args;; mret tt) c = (Ok r, c') /\ well c'.
Proof.
  intros Ha Hw. destruct (write_call_lives method args c Ha Hw) as (v & c' & Hc & Hw').
  exists tt, c'. by rewrite (run_Ok _ _ _ _ _ Hc).
Qed.

(** The operation of a valid mutation *)
Lemma valid_operation mutation dim operation :
  mutation_ok dim mutation -> dict_item mutation "operation" = Ok operation ->
  operation = PStr "delete" \/ operation = PStr "upsert".
Proof.
  unfold dict_item. intros [id _ -> _|id v p sp names ids _ -> _ _ _ _ _ _ _ _ _ _ _] [= <-];
    [by left|by right].
Qed.

Lemma apply_lives mutation calls s :
  mutation_ok (Some (dimension s)) mutation ->
  mutation_calls mutation = Ok calls -> Forall (fun call => accepts call.1 call.2) calls ->
  well (collection s) ->
  exists s', _apply perf_counter_ns mutation s = (Ok tt, s') /\ well (collection s').
Proof.
  intros Hok Hcalls Ha Hw. unfold _apply.
  assert (validate_replicated_mutation (PDict mutation) (Some (dimension s)) = Ok tt) as Hv
    by (apply validate_mutation_spec; by eexists).
  rewrite run_get, run_lift, Hv. unfold mutation_calls in Hcalls.
  apply bind_Ok in Hcalls as (operation & Hop & Hcalls). rewrite run_lift, Hop.
  apply bind_Ok in Hcalls as (id & Hid & Hcalls). rewrite run_lift, Hid.
  apply bind_Ok in Hcalls as (point_id & Hp & Hcalls). rewrite run_lift, Hp.
  destruct (valid_operation _ _ _ Hok Hop) as [-> | ->].
  { injection Hcalls as <-. apply Forall_cons in Ha as [Ha _]. cbn [fst snd] in Ha.
    destruct (with_collection_lives (delete perf_counter_ns (PInt point_id)) s) as ([] & s' & Hs' & Hw');
      [intros c; by apply unit_call_lives|done|]. by exists s'. }
  change (py_eq (PStr "upsert") (PStr "delete")) with false in *. cbv iota in Hcalls |- *.
  rewrite run_guard. change (py_eq (PStr "upsert") (PStr "upsert")) with true. cbn [negb].
  apply bind_Ok in Hcalls as (fields & Hf & Hcalls). rewrite run_lift, Hf.
  apply bind_Ok in Hcalls as (raw & Hraw & Hcalls). rewrite run_lift, Hraw.
  apply bind_Ok in Hcalls as (items & Hitems & Hcalls). rewrite run_lift, Hitems.
  apply bind_Ok in Hcalls as (vector & Hvec & Hcalls). rewrite run_lift, Hvec.
  apply bind_Ok in Hcalls as (sparse & Hsp & [= <-]).
  apply Forall_cons in Ha as [Ha1 Ha2]. cbn [fst snd] in Ha1.
  destruct (with_collection_lives (upsert perf_counter_ns (PInt point_id) (PList (PFloat <$> vector))
    (Some fields)) s) as ([] & s1 & H1 & Hw1); [intros c; by apply unit_call_lives|done|].
  rewrite (run_Ok _ _ _ _ _ H1). rewrite run_lift, Hsp.
  destruct (bool_decide (length sparse = 0%nat)); [by exists s1|].
  apply Forall_cons in Ha2 as [Ha2 _]. cbn [fst snd] in Ha2.
  destruct (with_collection_lives (upsert_sparse perf_counter_ns (PInt point_id) sparse) s1)
    as ([] & s2 & H2 & Hw2); [intros c; by apply unit_call_lives|done|]. by exists s2.
Qed.

Lemma finite_float v : finite v -> exists x, py_float v = Ok x.
Proof.
  unfold finite, _finite_number. destruct v as [| |z|x| | | |]; try done; cbn [py_float]; [|by eexists].
  destruct (float_of_int z); [by eexists|done].
Qed.

Lemma field_converts item name : payload_item_ok item name -> exists f, mutation_field item = Ok f.
Proof.
  intros (d & kind & value & -> & _ & Hn & _ & Ht & Hv & _).
  unfold mutation_field, dict_item. cbn [subscriptable mbind res_bind]. rewrite Hn, Ht, Hv. by eexists.
Qed.

Lemma element_converts item id : sparse_item_ok item id -> exists e, mutation_element item = Ok e.
Proof.
  intros (d & w & -> & _ & Hi & _ & Hw & [x Hx]%finite_float).
  unfold mutation_element, dict_item. cbn [subscriptable mbind res_bind]. rewrite Hi, Hw.
  cbn [mbind res_bind py_int]. rewrite Hx. by eexists.
Qed.

Lemma map_res_total {A B} (f : A -> res B) l :
  Forall (fun x => exists y, f x = Ok y) l -> exists ys, map_res f l = Ok ys.
Proof.
  induction 1 as [|x l [y Hy] _ [ys IH]]; [by exists []|]. cbn [map_res]. rewrite Hy.
  cbn [mbind res_bind]. rewrite IH. by eexists.
Qed.

Lemma Forall2_total {A B C} (R : A -> B -> Prop) (f : A -> res C) l k :
  (forall x y, R x y -> exists z, f x = Ok z) -> Forall2 R l k -> exists zs, map_res f l = Ok zs.
Proof. intros Hf Hl. apply map_res_total. induction Hl; constructor; eauto. Qed.

(** A valid mutation has its calls. *)
Lemma mutation_calls_valid dim mutation :
  mutation_ok dim mutation -> exists calls, mutation_calls mutation = Ok calls.
Proof.
  unfold mutation_calls, dict_item, items_of, dict_get_or.
  intros [id _ -> ->|id v p sp names ids _ -> -> -> _ _ Hv -> Hp _ -> Hs _]; [by eexists|].
  cbn [mbind res_bind py_int Point.iterable].
  change (py_eq (PStr "upsert") (PStr "delete")) with false. cbv iota.
  destruct (Forall2_total _ _ _ _ field_converts Hp) as [fields ->].
  destruct (map_res_total py_float v) as [vector ->].
  { eapply Forall_impl; [exact Hv|]. apply finite_float. }
  destruct (Forall2_total _ _ _ _ element_converts Hs) as [sparse ->]. by eexists.
Qed.

(** ** Preparing and committing the next entry *)

(** The entry after [last], valid for the shard, whose calls are accepted. *)
Record next_entry (id dim t e last : Z) (entry : ReplicatedEntry.t) : Prop := {
  next_place : ReplicatedEntry.shard_id entry = id /\ ReplicatedEntry.term entry = t /\
    ReplicatedEntry.placement_epoch entry = e /\ ReplicatedEntry.index entry = last + 1;
  next_valid : ReplicatedEntry.validate entry = Ok tt;
  next_mutation : mutation_ok (Some dim) (ReplicatedEntry.mutation entry);
  next_calls : forall calls, mutation_calls (ReplicatedEntry.mutation entry) = Ok calls ->
    Forall (fun call => accepts call.1 call.2) calls }.

Lemma ready_admissible id dim t e last pending entry s :
  ready id dim t e last pending s -> next_entry id dim t e last entry -> admissible entry s = Ok tt.
Proof.
  intros [[Hi Hd] [Ht He] _ _ _] [(H1 & H2 & H3 & _) _ Hm _]. apply admissible_Ok.
  rewrite Hd. split_and!; congruence.
Qed.

(** The journal prepares the pending entry, for the first time or again. *)
Lemma journal_prepares id dim t e last entry s :
  ready id dim t e last (Some entry) s -> next_entry id dim t e last entry ->
  exists s', with_journal (ReplicaJournal.prepare entry) s = (Ok tt, s') /\
    ready id dim t e last (Some entry) s' /\ numbers s' = numbers s /\
    ReplicaJournal.prepared (journal s') !! (last + 1) = Some entry.
Proof.
  intros [Hi Hn Hs Hb Hw] [(_ & _ & _ & Hidx) Hv _ _].
  pose proof (prepare_spec entry (ReplicaFacts.handle s)) as Hspec. rewrite Hv, Hidx in Hspec.
  change (ReplicaJournal.prepared (ReplicaFacts.handle s)) with (ReplicaJournal.prepared (journal s)) in Hspec.
  unfold with_journal. fold (ReplicaFacts.handle s).
  destruct (ReplicaJournal.prepared (journal s) !! (last + 1)) as [e0|] eqn:He0.
  - destruct (Hb (last + 1) e0 ltac:(lia) He0) as [[= <-] _].
    rewrite Z.eqb_refl in Hspec. rewrite Hspec. eexists. split; [done|]. split; [|by split].
    by split.
  - rewrite Hspec. eexists. split; [done|]. split; [|split; [done|cbn; by rewrite lookup_insert_eq]].
    split; try done. intros i e0 Hlt. cbn. destruct (decide (i = last + 1)) as [->|Hne].
    + rewrite lookup_insert_eq. by intros [= ->].
    + rewrite lookup_insert_ne by done. by apply Hb.
Qed.

Lemma prepare_ready id dim t e last entry s :
  ready id dim t e last (Some entry) s -> next_entry id dim t e last entry ->
  exists s', prepare entry s =
      (Ok (PDict [("prepared_index", PInt (ReplicatedEntry.index entry));
                  ("checksum", PInt (ReplicatedEntry.mutation_checksum entry))]), s') /\
    ready id dim t e last (Some entry) s'.
Proof.
  intros Hr Hn. rewrite (prepare_admitted _ _ (ready_admissible _ _ _ _ _ _ _ _ Hr Hn)), run_guard.
  pose proof (ready_snapshot _ _ _ _ _ _ _ Hr) as Hs. pose proof Hn as [(_ & _ & _ & Hidx) _ _ _].
  rewrite (proj2 (Z.leb_gt _ _)) by lia.
  destruct (journal_prepares _ _ _ _ _ _ _ Hr Hn) as (s' & Hp & Hr' & _).
  rewrite (run_Ok _ _ _ _ _ Hp). by exists s'.
Qed.

Lemma commit_ready id dim t e last entry s :
  ready id dim t e last (Some entry) s -> next_entry id dim t e last entry ->
  exists v s', commit perf_counter_ns entry s = (Ok v, s') /\
    ready id dim t e last (Some entry) s'.
Proof.
  intros Hr Hn. rewrite (commit_admitted _ _ _ (ready_admissible _ _ _ _ _ _ _ _ Hr Hn)).
  destruct (journal_prepares _ _ _ _ _ _ _ Hr Hn) as (s1 & Hp & Hr1 & _ & Hin).
  rewrite (run_Ok _ _ _ _ _ Hp).
  pose proof Hn as [(_ & _ & _ & Hidx) _ Hm Hcalls].
  pose proof (commit_spec (ReplicatedEntry.index entry) (ReplicaFacts.handle s1)) as Hc.
  change (ReplicaJournal.prepared (ReplicaFacts.handle s1)) with (ReplicaJournal.prepared (journal s1)) in Hc.
  rewrite Hidx, Hin in Hc.
  assert (exists s2, with_journal (ReplicaJournal.commit (ReplicatedEntry.index entry)) s1 = (Ok entry, s2) /\
    ready id dim t e last (Some entry) s2) as (s2 & H2 & Hr2).
  { unfold with_journal. fold (ReplicaFacts.handle s1). rewrite Hidx, Hc. eexists. split; [done|].
    destruct Hr1 as [Hi1 Hn1 Hs1 Hb1 Hw1].
    destruct (bool_decide (last + 1 ∈ _)); by split. }
  rewrite (run_Ok _ _ _ _ _ H2).
  assert (exists s3, apply_committed perf_counter_ns (applied_index s) entry s2 = (Ok tt, s3) /\
    ready id dim t e last (Some entry) s3) as (s3 & H3 & Hr3).
  { unfold apply_committed. destruct (_ <? _); [|by exists s2].
    destruct (mutation_calls_valid _ _ Hm) as [calls Hc'].
    destruct (apply_lives (ReplicatedEntry.mutation entry) calls s2) as (s3 & H3 & Hw3).
    - destruct Hr2 as [[_ ->] _ _ _ _]. done.
    - done.
    - by apply Hcalls.
    - apply Hr2.
    - rewrite (run_Ok _ _ _ _ _ H3). rewrite run_modify.
      pose proof (apply_quiet perf_counter_ns (ReplicatedEntry.mutation entry) s2) as Hq.
      rewrite H3 in Hq. cbn [snd] in Hq.
      pose proof (ready_quiet _ _ _ _ _ _ _ _ Hr2 Hq Hw3) as [Hi3 Hn3 Hs3 Hb3 Hw3'].
      eexists. split; [reflexivity|]. by split. }
  rewrite (run_Ok _ _ _ _ _ H3). rewrite run_get. by eexists _, s3.
Qed.
End Collections.

(** * A process *)

Section Processes.
Context {K : Type} `{!Kernel K}.
Variable perf_counter_ns : nat -> Z.
Abbreviation client := (@ReplicaProcess.t K).
Abbreviation shard := (@ReplicaShard.t K).

(** A process that serves the open shard [id], without injected faults *)
Definition up (p : client) (id : Z) (sh : shard) : Prop :=
  exists s, ReplicaProcess.process p = Some s /\ partitioned s = false /\
    drop_commit_responses s <= 0 /\ drop_query_responses s <= 0 /\
    assoc_get (shards s) id = Some sh.

(** A process that is stopped, or cut off by a partition *)
Definition down (p : client) : Prop :=
  match ReplicaProcess.process p with None => True | Some s => partitioned s = true end.

Definition unreachable (e : exn) : Prop := exn_type e = ReplicaUnavailable.

(** Nothing but the control requests gets through to a process that is down. *)
Lemma rpc_down (request : dict) (p : client) :
  down p -> dict_get_or request "operation" PNone ∉ (PStr <$> ["partition"; "fault"; "shutdown"]) ->
  is_str (dict_get_or request "operation" PNone) = true ->
  exists e, ReplicaProcess.rpc perf_counter_ns (PDict request) p = (Raise e, p) /\ unreachable e.
Proof.
  intros Hd Hop Hstr. unfold ReplicaProcess.rpc, down in *.
  destruct p as [node dim cfg [s|] r starts]; cbn [ReplicaProcess.process] in *.
  - unfold serve. cbn [ReplicaShard.mapping]. rewrite Hd.
    destruct (dict_get_or request "operation" PNone) as [| | | |op| | |]; try done.
    assert (in_set (PStr op) ["partition"; "fault"; "shutdown"] = Ok false) as ->.
    { cbn. unfold str_in. rewrite bool_decide_eq_false_2; [done|]. intros Hin. apply Hop.
      apply list_elem_of_fmap. by exists op. }
    eexists. split; [reflexivity|]. done.
  - eexists. split; [reflexivity|]. done.
Qed.

(** An operation on the shard of a process that is up *)
Lemma rpc_up name (request : dict) id (p : client) sh v sh' :
  name ∈ shard_operations -> dict_get_or request "operation" PNone = PStr name ->
  dict_get request "shard_id" = Some (PInt id) -> up p id sh ->
  shard_operation perf_counter_ns (PStr name) request sh = (Ok v, sh') ->
  exists p', ReplicaProcess.rpc perf_counter_ns (PDict request) p = (Ok v, p') /\ up p' id sh'.
Proof.
  intros Hname Hop Hid (s & Hp & Hpart & Hc & Hq & Hsh) Hm.
  assert (forall other, other ∉ shard_operations -> py_eq (PStr name) (PStr other) = false) as Hother
    by (intros; by apply py_eq_other).
  unfold ReplicaProcess.rpc. rewrite Hp. unfold serve. cbn [ReplicaShard.mapping]. rewrite Hop, Hpart.
  rewrite (Hother "crash") by (unfold shard_operations; set_solver).
  unfold handle. rewrite !Hother by (unfold shard_operations; set_solver).
  unfold int_item, dict_item. rewrite Hid. cbn [mbind res_bind py_int].
  unfold with_shard, mbind, M_bind, lift. rewrite Hsh, Hm. unfold mret, M_ret. cbn [drop_commit_responses drop_query_responses set_shards].
  rewrite (proj2 (Z.ltb_ge _ _) Hc), (proj2 (Z.ltb_ge _ _) Hq), !andb_false_r.
  eexists. split; [reflexivity|]. eexists. split; [reflexivity|]. cbn.
  split_and!; try done. apply assoc_get_set_eq.
Qed.

Lemma rpc_configure_up id term epoch (p : client) sh v sh' :
  up p id sh -> ReplicaShard.configure perf_counter_ns term epoch sh = (Ok v, sh') ->
  exists p', ReplicaProcess.rpc perf_counter_ns (PDict (configure_request id term epoch)) p = (Ok v, p') /\
    up p' id sh'.
Proof.
  intros (s & Hp & Hpart & Hc & Hq & Hsh) Hm. unfold ReplicaProcess.rpc. rewrite Hp.
  unfold serve. cbn [ReplicaShard.mapping]. rewrite Hpart.
  change (dict_get_or (configure_request id term epoch) "operation" PNone) with (PStr "configure").
  change (py_eq (PStr "configure") (PStr "crash")) with false. cbv iota.
  change (handle perf_counter_ns (PStr "configure") (configure_request id term epoch)) with
    (shard_id ← lift (S := server) (int_item (configure_request id term epoch) "shard_id");
     result ← (open_shard perf_counter_ns shard_id;;
       term ← lift (int_item (configure_request id term epoch) "term");
       placement_epoch ← lift (int_item (configure_request id term epoch) "placement_epoch");
       with_shard shard_id (ReplicaShard.configure perf_counter_ns term placement_epoch));
     mret (result, true)).
  assert (int_item (configure_request id term epoch) "shard_id" = Ok id) as H1 by done.
  assert (int_item (configure_request id term epoch) "term" = Ok term) as H2 by done.
  assert (int_item (configure_request id term epoch) "placement_epoch" = Ok epoch) as H3 by done.
  unfold mbind, M_bind, lift, open_shard. rewrite H1, Hsh. cbv beta iota. rewrite H2, H3.
  unfold with_shard. rewrite Hsh. cbv beta iota. rewrite Hm.
  unfold mret, M_ret. change (py_eq (PStr "configure") (PStr "commit")) with false.
  change (py_eq (PStr "configure") (PStr "query")) with false. cbn [andb].
  eexists. split; [reflexivity|]. eexists. split; [reflexivity|]. cbn.
  split_and!; try done. apply assoc_get_set_eq.
Qed.
End Processes.
