(* ===== verification/ClusterLiveness.v ===== *)
(** A cluster makes progress: with a quorum of the replicas of a shard up and the
    others down, elections and writes of the shard succeed. *)

From S2P Require Import Prelude Assoc PyFloat PyValue Json JsonFacts Checksum Envelope Files Models KernelConfig KernelInterface Vectors Database DatabaseFacts CollectionIdentity Mutation Journal JournalFacts Metadata MetadataFacts Snapshot Replica ReplicaFacts ReplicaHistory ReplicaServer ReplicaLiveness Ranking RankingFacts Cluster ClusterFacts ClusterWrites.
Import EntryFacts.

(** A loop whose every turn succeeds *)
Lemma for_fold_M_runs {S A B} (P : list A -> B -> S -> Prop) (f : B -> A -> M S B) total :
  (forall seen x rest acc s, total = seen ++ x :: rest -> P seen acc s ->
     exists acc' s', f acc x s = (Ok acc', s') /\ P (seen ++ [x]) acc' s') ->
  forall l seen acc s, total = seen ++ l -> P seen acc s ->
    exists acc' s', for_fold_M f acc l s = (Ok acc', s') /\ P total acc' s'.
Proof.
  intros Hstep. induction l as [|x l IH]; intros seen acc s Ht Hp.
  - exists acc, s. rewrite app_nil_r in Ht. by subst.
  - destruct (Hstep seen x l acc s Ht Hp) as (acc1 & s1 & H1 & Hp1).
    destruct (IH (seen ++ [x]) acc1 s1) as (acc' & s' & H' & Hp'); [|done|].
    + rewrite Ht, <- app_assoc. done.
    + exists acc', s'. split; [|done]. cbn [for_fold_M]. by rewrite (run_Ok _ _ _ _ _ H1).
Qed.

Section Liveness.
Context {K : Type} `{!Kernel K, !OrdinaryErrors K}.
Variable perf_counter_ns : nat -> Z.
Variable healthy : K -> Prop.
Variable accepts : string -> list pyval -> Prop.
Hypothesis live : accepting healthy accepts.
Abbreviation cluster := (@DistributedCluster.t K).
Import DistributedCluster.

(** * The nodes of a shard *)

Section Nodes.
Variables (id dim last : Z) (pending : option ReplicatedEntry.t).
(** The replicas of the shard, and those of them that are up. *)
Variables replicas ups : list string.

Definition ready_node (t e : Z) (c : cluster) (node : string) : Prop :=
  exists p sh, assoc_get (nodes c) node = Some p /\ up p id sh /\
    ready healthy id dim t e last pending sh.

Definition down_node (c : cluster) (node : string) : Prop :=
  exists p, assoc_get (nodes c) node = Some p /\ down p.

(** Each replica is ready, with the term and epoch [numbers] gives it, or down. *)
Definition serving (numbers : string -> Z * Z) (c : cluster) : Prop :=
  forall node, node ∈ replicas ->
    (node ∈ ups -> ready_node (numbers node).1 (numbers node).2 c node) /\
    (node ∉ ups -> down_node c node).

(** A call to [node] alone *)
Definition touches (node : string) (c c' : cluster) : Prop :=
  nodes_only c c' /\
  forall other, other <> node -> assoc_get (nodes c') other = assoc_get (nodes c) other.

Lemma with_node_run {A} node (m : M _ A) (c : cluster) p r p' :
  assoc_get (nodes c) node = Some p -> m p = (r, p') ->
  exists c', with_node node m c = (r, c') /\ touches node c c' /\
    assoc_get (nodes c') node = Some p'.
Proof.
  intros Hp Hm. pose proof (with_node_only node m c) as Ho. unfold with_node in *.
  rewrite Hp, Hm in *. eexists. split; [done|]. split; [|apply assoc_get_set_eq].
  split; [exact Ho|]. intros other Hne. by apply assoc_get_set_ne.
Qed.

Lemma serving_touched numbers numbers' node (c c' : cluster) :
  serving numbers c -> touches node c c' ->
  (forall other, other <> node -> numbers' other = numbers other) ->
  (node ∈ ups -> node ∈ replicas -> ready_node (numbers' node).1 (numbers' node).2 c' node) ->
  (node ∉ ups -> node ∈ replicas -> down_node c' node) -> serving numbers' c'.
Proof.
  intros Hs [_ Ho] Hn Hup Hdown other Hin. destruct (decide (other = node)) as [->|Hne]; [by split; auto|].
  destruct (Hs other Hin) as [Hu Hd]. rewrite (Hn other Hne). unfold ready_node, down_node in *.
  by rewrite (Ho other Hne).
Qed.

(** A node that is down does not answer, and stays as it is. *)
Lemma call_down numbers node (request : dict) (c : cluster) :
  serving numbers c -> node ∈ replicas -> node ∉ ups ->
  dict_get_or request "operation" PNone ∉ (PStr <$> ["partition"; "fault"; "shutdown"]) ->
  is_str (dict_get_or request "operation" PNone) = true ->
  exists e c', _rpc perf_counter_ns node request c = (Raise e, c') /\ unreachable e /\
    nodes_only c c' /\ serving numbers c'.
Proof.
  intros Hs Hin Hnot Hop Hstr. destruct (Hs node Hin) as [_ Hd]. destruct (Hd Hnot) as (p & Hp & Hdown).
  destruct (rpc_down perf_counter_ns request p Hdown Hop Hstr) as (e & He & Hu).
  destruct (with_node_run node _ c p _ _ Hp He) as (c' & Hc & Ht & Hp').
  exists e, c'. split_and!; [done|done|apply Ht|].
  apply (serving_touched numbers numbers node c c'); try done. intros _ _. by exists p.
Qed.

(** A node that is up answers an operation its shard carries out. *)
Lemma call_up numbers node name (request : dict) (c : cluster) (Q : pyval -> Prop) :
  serving numbers c -> node ∈ replicas -> node ∈ ups ->
  name ∈ shard_operations -> dict_get_or request "operation" PNone = PStr name ->
  dict_get request "shard_id" = Some (PInt id) ->
  (forall sh, ready healthy id dim (numbers node).1 (numbers node).2 last pending sh ->
     exists v sh', shard_operation perf_counter_ns (PStr name) request sh = (Ok v, sh') /\ Q v /\
       ready healthy id dim (numbers node).1 (numbers node).2 last pending sh') ->
  exists v c', _rpc perf_counter_ns node request c = (Ok v, c') /\ Q v /\
    nodes_only c c' /\ serving numbers c'.
Proof.
  intros Hs Hin Hup Hname Hop Hid Hshard. destruct (Hs node Hin) as [Hu _].
  destruct (Hu Hup) as (p & sh & Hp & Hpup & Hr). destruct (Hshard sh Hr) as (v & sh' & Hm & HQ & Hr').
  destruct (rpc_up perf_counter_ns name request id p sh v sh' Hname Hop Hid Hpup Hm) as (p' & Hrpc & Hup').
  destruct (with_node_run node _ c p _ _ Hp Hrpc) as (c' & Hc & Ht & Hp').
  exists v, c'. split_and!; [done|done|apply Ht|].
  apply (serving_touched numbers numbers node c c'); try done. intros _ _. by exists p', sh'.
Qed.

(** A loop over the replicas that collects an answer of each node that is up. *)
Lemma fold_answers {B} (body : list B -> string -> M cluster (list B)) (name : B -> string)
    numbers (c : cluster) :
  (forall acc node s, node ∈ replicas -> serving numbers s -> node ∈ ups ->
     exists b s', body acc node s = (Ok (acc ++ [b]), s') /\ name b = node /\
       nodes_only s s' /\ serving numbers s') ->
  (forall acc node s, node ∈ replicas -> serving numbers s -> node ∉ ups ->
     exists s', body acc node s = (Ok acc, s') /\ nodes_only s s' /\ serving numbers s') ->
  serving numbers c ->
  exists bs c', for_fold_M body [] replicas c = (Ok bs, c') /\
    name <$> bs = filter (fun node => node ∈ ups) replicas /\ nodes_only c c' /\ serving numbers c'.
Proof.
  intros Hup Hdown Hc.
  destruct (for_fold_M_runs (fun seen bs s => name <$> bs = filter (fun node => node ∈ ups) seen /\
    nodes_only c s /\ serving numbers s) body replicas) with (l := replicas) (seen := @nil string)
    (acc := @nil B) (s := c) as (bs & c' & H & Hbs & Ho & Hs); [|done|by split_and!|by exists bs, c'].
  intros seen node rest acc s Htot (Hacc & Ho & Hs).
  assert (node ∈ replicas) as Hin by (rewrite Htot; set_solver).
  destruct (decide (node ∈ ups)) as [Hu|Hu].
  - destruct (Hup acc node s Hin Hs Hu) as (b & s' & H & Hb & Ho' & Hs'). exists (acc ++ [b]), s'.
    split; [done|]. rewrite fmap_app, filter_app, Hacc. cbn. rewrite decide_True by done.
    rewrite Hb. split_and!; [done|by transitivity s|done].
  - destruct (Hdown acc node s Hin Hs Hu) as (s' & H & Ho' & Hs'). exists acc, s'.
    split; [done|]. rewrite filter_app, Hacc. cbn. rewrite decide_False by done.
    rewrite app_nil_r. split_and!; [done|by transitivity s|done].
Qed.

(** ** Polls *)

Lemma status_up numbers node (c : cluster) :
  serving numbers c -> node ∈ replicas -> node ∈ ups ->
  exists v c', _status perf_counter_ns node id c = (Ok v, c') /\
    ((exists a, response_int v "applied_index" = Ok a) /\
     response_item v "term" = Ok (PInt (numbers node).1)) /\
    nodes_only c c' /\ serving numbers c'.
Proof.
  intros Hs Hin Hup. apply (call_up numbers node "status" (status_request id)); try done.
  { unfold shard_operations. set_solver. }
  intros sh Hr. destruct (status_ready perf_counter_ns healthy accepts live _ _ _ _ _ _ _ Hr)
    as (v & sh' & Hv & Hr').
  exists v, sh'. split; [exact Hv|]. split; [|done].
  pose proof (status_value perf_counter_ns sh v) as Hval. rewrite Hv in Hval.
  destruct (Hval eq_refl) as [Ha Ht]. split; [by eexists|]. rewrite Ht.
  by destruct Hr as [_ [<- _] _ _ _].
Qed.

Lemma status_down numbers node (c : cluster) :
  serving numbers c -> node ∈ replicas -> node ∉ ups ->
  exists e c', _status perf_counter_ns node id c = (Raise e, c') /\ unreachable e /\
    nodes_only c c' /\ serving numbers c'.
Proof.
  intros Hs Hin Hnot. apply call_down; try done. cbn. set_solver.
Qed.

Lemma caught_unreachable e handlers :
  unreachable e -> ReplicaUnavailable ∈ handlers -> caught handlers e = true.
Proof.
  intros He Hin. unfold caught. apply existsb_exists. exists ReplicaUnavailable.
  split; [by apply list_elem_of_In|]. by rewrite He.
Qed.

Lemma poll_lives numbers (c : cluster) :
  serving numbers c ->
  exists candidates c', poll perf_counter_ns id replicas c = (Ok candidates, c') /\
    candidates.*2 = filter (fun node => node ∈ ups) replicas /\ nodes_only c c' /\ serving numbers c'.
Proof.
  apply fold_answers.
  - intros acc node s Hin Hs Hup. destruct (status_up numbers node s Hs Hin Hup)
      as (v & s' & Hv & [[a Ha] _] & Ho & Hs').
    exists (a, node), s'. split; [|done]. unfold try_catch. rewrite (run_Ok _ _ _ _ _ Hv), run_lift.
    by rewrite Ha.
  - intros acc node s Hin Hs Hnot. destruct (status_down numbers node s Hs Hin Hnot)
      as (e & s' & He & Hu & Ho & Hs').
    exists s'. split; [|done]. unfold try_catch. rewrite (run_Raise _ _ _ _ _ He).
    rewrite (caught_unreachable e status_errors Hu) by (unfold status_errors; set_solver). done.
Qed.
(** ** Configuration *)

Definition renumber (new : Z * Z) (seen : list string) (numbers : string -> Z * Z) (node : string)
    : Z * Z := if decide (node ∈ seen) then new else numbers node.

Lemma serving_ext numbers numbers' (c : cluster) :
  (forall node, node ∈ replicas -> node ∈ ups -> numbers' node = numbers node) ->
  serving numbers c -> serving numbers' c.
Proof.
  intros Hn Hs node Hin. destruct (Hs node Hin) as [Hu Hd]. split; [|done]. intros Hup.
  rewrite Hn by done. by apply Hu.
Qed.

Lemma configure_up numbers seen node (p : ShardPlacement.t) (c : cluster) :
  let new := (ShardPlacement.term p, ShardPlacement.placement_epoch p) in
  serving (renumber new seen numbers) c -> node ∈ replicas -> node ∈ ups ->
  ShardPlacement.shard_id p = id -> (numbers node).1 <= new.1 -> (numbers node).2 <= new.2 ->
  exists v c', _configure perf_counter_ns node p c = (Ok v, c') /\ nodes_only c c' /\
    serving (renumber new (node :: seen) numbers) c'.
Proof.
  intros new Hs Hin Hup Hid Ht He. destruct (Hs node Hin) as [Hu _].
  destruct (Hu Hup) as (q & sh & Hq & Hqup & Hr).
  assert ((renumber new seen numbers node).1 <= new.1 /\ (renumber new seen numbers node).2 <= new.2)
    as [Ht' He'] by (unfold renumber; destruct (decide _); lia).
  destruct (configure_ready perf_counter_ns healthy accepts live _ _ _ _ _ _ _ _ _ Hr Ht' He')
    as (v & sh' & Hv & Hr').
  destruct (rpc_configure_up perf_counter_ns id _ _ q sh v sh' Hqup Hv) as (q' & Hrpc & Hup').
  destruct (with_node_run node _ c q _ _ Hq Hrpc) as (c' & Hc & Htc & Hq').
  exists v, c'. split_and!; [|apply Htc|].
  - unfold _configure. rewrite Hid. exact Hc.
  - apply (serving_touched (renumber new seen numbers) _ node c c'); try done.
    + intros other Hne. unfold renumber. destruct (decide (other ∈ seen)).
      * by rewrite decide_True by set_solver.
      * by rewrite decide_False by set_solver.
    + intros _ _. unfold renumber. rewrite decide_True by set_solver. by exists q', sh'.
Qed.

Lemma configure_loop numbers (p : ShardPlacement.t) (candidates : list (Z * string)) seen (c : cluster) :
  let new := (ShardPlacement.term p, ShardPlacement.placement_epoch p) in
  serving (renumber new seen numbers) c -> ShardPlacement.shard_id p = id ->
  Forall (fun node => node ∈ replicas /\ node ∈ ups /\
            (numbers node).1 <= new.1 /\ (numbers node).2 <= new.2) candidates.*2 ->
  exists c', for_each_M (fun candidate => _configure perf_counter_ns candidate.2 p;; mret tt)
      candidates c = (Ok tt, c') /\ nodes_only c c' /\
    serving (renumber new (reverse candidates.*2 ++ seen) numbers) c'.
Proof.
  intros new. revert seen c. induction candidates as [|[a node] candidates IH]; intros seen c Hs Hid Hall;
    [by exists c|].
  apply Forall_cons in Hall as [(Hin & Hup & Ht & He) Hall]. cbn [for_each_M].
  destruct (configure_up numbers seen node p c Hs Hin Hup Hid Ht He) as (v & c1 & H1 & Ho1 & Hs1).
  destruct (IH (node :: seen) c1 Hs1 Hid Hall) as (c2 & H2 & Ho2 & Hs2).
  exists c2. split_and!; [|by transitivity c1|].
  - erewrite run_Ok; [exact H2|]. by rewrite (run_Ok _ _ _ _ _ H1).
  - cbn [fmap list_fmap snd]. by rewrite reverse_cons, <- app_assoc.
Qed.

(** Configuring the nodes that answered configures every node that is up. *)
Lemma configure_lives numbers (p : ShardPlacement.t) (candidates : list (Z * string)) (c : cluster) :
  let new := (ShardPlacement.term p, ShardPlacement.placement_epoch p) in
  serving numbers c -> ShardPlacement.shard_id p = id ->
  candidates.*2 ≡ₚ filter (fun node => node ∈ ups) replicas ->
  Forall (fun node => (numbers node).1 <= new.1 /\ (numbers node).2 <= new.2)
    (filter (fun node => node ∈ ups) replicas) ->
  exists c', for_each_M (fun candidate => _configure perf_counter_ns candidate.2 p;; mret tt)
      candidates c = (Ok tt, c') /\ nodes_only c c' /\ serving (fun _ => new) c'.
Proof.
  intros new Hs Hid Hc Hn. rewrite Forall_forall in Hn.
  destruct (configure_loop numbers p candidates [] c) as (c' & Hc' & Ho & Hs'); [done|done| |].
  - apply Forall_forall. intros node Hnode. rewrite Hc in Hnode. destruct (Hn node Hnode) as [? ?].
    apply list_elem_of_filter in Hnode as [? ?]. by split_and!.
  - exists c'. split_and!; [done|done|]. eapply serving_ext; [|exact Hs'].
    intros node Hin Hup. unfold renumber. rewrite decide_True; [done|].
    rewrite app_nil_r, elem_of_reverse, Hc. by apply list_elem_of_filter.
Qed.

(** ** The next entry *)

Section Next.
Variables (term epoch : Z) (entry : ReplicatedEntry.t).
Hypothesis next : next_entry accepts id dim term epoch last entry.
Hypothesis waiting : pending = Some entry.
Abbreviation synced := (serving (fun _ => (term, epoch))).

Lemma send_entry_up name node (c : cluster) (Q : pyval -> Prop) :
  synced c -> node ∈ replicas -> node ∈ ups -> name ∈ shard_operations ->
  (forall request sh, dict_item request "entry" = Ok (PDict (ReplicatedEntry.asdict entry)) ->
     ready healthy id dim term epoch last pending sh ->
     exists v sh', shard_operation perf_counter_ns (PStr name) request sh = (Ok v, sh') /\ Q v /\
       ready healthy id dim term epoch last pending sh') ->
  exists v c', send_entry perf_counter_ns name entry node c = (Ok v, c') /\ Q v /\
    nodes_only c c' /\ synced c'.
Proof.
  intros Hs Hin Hup Hname Hop. destruct next as [(Hid & _) Hv _ _].
  unfold send_entry, entry_request, ReplicatedEntry.to_dict. rewrite run_lift, Hv.
  cbn [mbind res_bind]. rewrite Hid.
  apply (call_up (fun _ => (term, epoch)) node name); try done. intros sh. by apply Hop.
Qed.

Lemma send_entry_down name node (c : cluster) :
  synced c -> node ∈ replicas -> node ∉ ups -> name ∈ ["prepare"; "commit"] ->
  exists e c', send_entry perf_counter_ns name entry node c = (Raise e, c') /\ unreachable e /\
    nodes_only c c' /\ synced c'.
Proof.
  intros Hs Hin Hnot Hname. destruct next as [_ Hv _ _].
  unfold send_entry, entry_request, ReplicatedEntry.to_dict. rewrite run_lift, Hv.
  cbn [mbind res_bind].
  apply elem_of_cons in Hname as [-> | ->%list_elem_of_singleton]; apply call_down; try done;
    cbn; set_solver.
Qed.

Lemma prepare_up node (c : cluster) :
  synced c -> node ∈ replicas -> node ∈ ups ->
  exists v c', send_entry perf_counter_ns "prepare" entry node c = (Ok v, c') /\
    response_int v "checksum" = Ok (ReplicatedEntry.mutation_checksum entry) /\
    nodes_only c c' /\ synced c'.
Proof.
  intros Hs Hin Hup. apply send_entry_up; try done; [unfold shard_operations; set_solver|].
  intros request sh Hreq Hr. destruct (next_valid _ _ _ _ _ _ _ next).
  rewrite waiting in Hr |- *. destruct (prepare_ready healthy accepts _ _ _ _ _ _ _ Hr next)
    as (sh' & Hp & Hr').
  eexists _, sh'. split; [|split; [|exact Hr']].
  - change (shard_operation perf_counter_ns (PStr "prepare") request) with
      (entry ← lift (S := ReplicaShard.t (K := K)) (entry_item request); ReplicaShard.prepare entry).
    rewrite run_lift. unfold entry_item. rewrite Hreq. cbn [mbind res_bind].
    rewrite from_asdict by apply next. exact Hp.
  - done.
Qed.
Lemma commit_up node (c : cluster) :
  synced c -> node ∈ replicas -> node ∈ ups ->
  exists v c', send_entry perf_counter_ns "commit" entry node c = (Ok v, c') /\ True /\
    nodes_only c c' /\ synced c'.
Proof.
  intros Hs Hin Hup. apply send_entry_up; try done; [unfold shard_operations; set_solver|].
  intros request sh Hreq Hr. rewrite waiting in Hr |- *.
  destruct (commit_ready perf_counter_ns healthy accepts live _ _ _ _ _ _ _ Hr next)
    as (v & sh' & Hp & Hr').
  exists v, sh'. split; [|by split].
  change (shard_operation perf_counter_ns (PStr "commit") request) with
    (entry ← lift (S := ReplicaShard.t (K := K)) (entry_item request);
     ReplicaShard.commit perf_counter_ns entry).
  rewrite run_lift. unfold entry_item. rewrite Hreq. cbn [mbind res_bind].
  rewrite from_asdict by apply next. exact Hp.
Qed.

Lemma caught_node_errors e : unreachable e -> caught node_errors e = true.
Proof. intros Hu. apply (caught_unreachable e node_errors Hu). unfold node_errors. set_solver. Qed.

(** A loop that sends the entry to the replicas, and keeps the names of those
    that carry it out *)
Lemma entry_loop name (Q : pyval -> Prop) (k : list string -> string -> pyval -> M cluster (list string))
    (c : cluster) :
  name ∈ ["prepare"; "commit"] ->
  (forall node s, synced s -> node ∈ replicas -> node ∈ ups ->
     exists v s', send_entry perf_counter_ns name entry node s = (Ok v, s') /\ Q v /\
       nodes_only s s' /\ synced s') ->
  (forall acc node v s, Q v -> k acc node v s = (Ok (acc ++ [node]), s)) -> synced c ->
  exists c', for_fold_M (fun acc node =>
      try_catch (send_entry perf_counter_ns name entry node ≫= k acc node)
        node_errors (fun _ => mret acc)) [] replicas c =
      (Ok (filter (fun node => node ∈ ups) replicas), c') /\ nodes_only c c' /\ synced c'.
Proof.
  intros Hname Hsend Hk Hs.
  destruct (fold_answers (fun acc node =>
      try_catch (send_entry perf_counter_ns name entry node ≫= k acc node)
        node_errors (fun _ => mret acc)) (fun node => node) (fun _ => (term, epoch)) c)
    as (names & c' & H & Hn & Ho & Hs'); [| |done|].
  - intros acc node s Hin Hs1 Hup. destruct (Hsend node s Hs1 Hin Hup) as (v & s' & Hv & HQ & Ho & Hs').
    exists node, s'. split; [|done]. unfold try_catch. rewrite (run_Ok _ _ _ _ _ Hv). by rewrite Hk.
  - intros acc node s Hin Hs1 Hnot. destruct (send_entry_down name node s Hs1 Hin Hnot Hname)
      as (e & s' & He & Hu & Ho & Hs').
    exists s'. split; [|done]. unfold try_catch. rewrite (run_Raise _ _ _ _ _ He).
    by rewrite caught_node_errors.
  - rewrite (list_fmap_id names : (fun node => node) <$> names = names) in Hn. subst names. by exists c'.
Qed.

(** Every node that is up prepares the entry, and commits it. *)
Lemma prepare_on_lives (c : cluster) :
  synced c ->
  exists c', prepare_on perf_counter_ns entry replicas c =
      (Ok (filter (fun node => node ∈ ups) replicas), c') /\ nodes_only c c' /\ synced c'.
Proof.
  apply (entry_loop "prepare" (fun v => response_int v "checksum" =
    Ok (ReplicatedEntry.mutation_checksum entry))); [set_solver| |].
  - intros node s Hs Hin Hup. by apply prepare_up.
  - intros acc node v s Hv. rewrite run_lift, Hv. by rewrite Z.eqb_refl.
Qed.

Lemma commit_on_lives (c : cluster) :
  synced c ->
  exists c', commit_on perf_counter_ns entry replicas c =
      (Ok (filter (fun node => node ∈ ups) replicas), c') /\ nodes_only c c' /\ synced c'.
Proof.
  apply (entry_loop "commit" (fun _ => True)); [set_solver| |done].
  intros node s Hs Hin Hup. by apply commit_up.
Qed.
End Next.
End Nodes.
End Liveness.
