(* ===== verification/ClusterProgress.v ===== *)
(** Elections and writes with a quorum of the replicas up: the record stays
    valid, so that each publication succeeds, and the nodes that are up answer, so
    that each quorum is reached. *)

From S2P Require Import Prelude Assoc PyFloat PyValue Json JsonFacts Checksum Envelope Files Models KernelConfig KernelInterface Vectors Database DatabaseFacts CollectionIdentity Mutation Journal JournalFacts Metadata MetadataFacts Snapshot Replica ReplicaFacts ReplicaHistory ReplicaServer ReplicaLiveness Ranking RankingFacts Cluster ClusterFacts ClusterWrites ClusterLiveness.
Import EntryFacts.

(** * Records that stay valid *)

Section Records.
Import ClusterMetadata.

Lemma metadata_ok_epoch m : metadata_ok m -> metadata_ok (MetadataUpdate.set_epoch (epoch m + 1) m).
Proof. intros [Hi Hd Hc Hr Hv He Hk Hm Hcov Hs Hq]. split; try done. cbn. lia. Qed.

Lemma metadata_ok_placement id f m p :
  metadata_ok m -> assoc_get (shards m) id = Some p -> placement_ok (members m) (id, f p) ->
  metadata_ok (MetadataUpdate.set_shards (assoc_set (shards m) id (f p)) m).
Proof.
  intros [Hi Hd Hc Hr Hv He Hk Hm Hcov Hs Hq] Hp Hf. split; try done; cbn.
  - intros i. rewrite assoc_set_keys; [apply Hcov|]. apply assoc_has_spec. unfold assoc_has.
    by rewrite Hp.
  - by apply assoc_set_Forall.
Qed.

Lemma dict_set_Forall (P : string * pyval -> Prop) (d : dict) k v :
  Forall P d -> P (k, v) -> Forall P (dict_set d k v).
Proof.
  intros Hd Hp. induction Hd as [|[k' v'] d Hx Hd IH]; cbn; [by repeat constructor|].
  case_bool_decide; by constructor.
Qed.

Lemma metadata_ok_request k v m :
  metadata_ok m -> request_ok (k, v) ->
  metadata_ok (MetadataUpdate.set_request_table (dict_set (request_table m) k v) m).
Proof.
  intros [Hi Hd Hc Hr Hv He Hk Hm Hcov Hs Hq] Hf. split; try done; cbn.
  by apply dict_set_Forall.
Qed.

Lemma request_record_ok e sum status :
  ReplicatedEntry.request_id e <> "" -> status ∈ ["prepared"; "committed"] ->
  request_ok (ReplicatedEntry.request_id e, DistributedCluster.request_record e sum status).
Proof.
  intros Hr Hs. split; [done|]. eexists _, status. split_and!; try done.
  repeat constructor; by eexists.
Qed.

Lemma leader_ok members id term epoch node p :
  placement_ok members (id, p) -> node ∈ ShardPlacement.replicas p ->
  ShardPlacement.term p <= term -> ShardPlacement.placement_epoch p <= epoch ->
  placement_ok members (id, ShardUpdate.set_leader term epoch node p).
Proof. intros [Hid Ht He Hn Hl Hc Hm] Hnode ? ?. cbn in *. split; cbn; try done; lia. Qed.

Lemma log_ok members id p :
  placement_ok members (id, p) ->
  placement_ok members (id, ShardUpdate.set_last_log_index (ShardPlacement.last_log_index p + 1) p).
Proof. intros [Hid Ht He Hn Hl Hc Hm]. cbn in *. split; cbn; try done; lia. Qed.

Lemma committed_ok members id p i :
  placement_ok members (id, p) -> i <= ShardPlacement.last_log_index p ->
  placement_ok members (id,
    ShardUpdate.set_committed_index (Z.max (ShardPlacement.committed_index p) i) p).
Proof. intros [Hid Ht He Hn Hl Hc Hm] ?. cbn in *. split; cbn; try done; lia. Qed.
End Records.

Section Progress.
Context {K : Type} `{!Kernel K, !OrdinaryErrors K}.
Variable perf_counter_ns : nat -> Z.
Variable healthy : K -> Prop.
Variable accepts : string -> list pyval -> Prop.
Hypothesis live : accepting healthy accepts.
Abbreviation cluster := (@DistributedCluster.t K).
Import DistributedCluster.

(** * A shard with a quorum *)

Section Quorum.
(** The shard, the dimension of its vectors, and the nodes that are up. *)
Variables (id dim : Z) (ups : list string).

(** An open cluster with a valid record, in which a quorum of the replicas of the
    shard is up, with the [numbers] given for each, and the others are down. *)
Record standing (last : Z) (pending : option ReplicatedEntry.t) (numbers : string -> Z * Z)
    (p : ShardPlacement.t) (c : cluster) : Prop := {
  standing_open : _closed c = false;
  standing_valid : metadata_ok (metadata c);
  standing_placement : assoc_get (ClusterMetadata.shards (metadata c)) id = Some p;
  standing_quorum : ShardPlacement.quorum p <=
    Z.of_nat (length (filter (fun node => node ∈ ups) (ShardPlacement.replicas p)));
  standing_nodes : serving healthy id dim last pending (ShardPlacement.replicas p) ups numbers c }.

(** The numbers of the placement *)
Definition numbers_of (p : ShardPlacement.t) : string -> Z * Z :=
  fun _ => (ShardPlacement.term p, ShardPlacement.placement_epoch p).

Lemma standing_ok last pending numbers p c :
  standing last pending numbers p c -> placement_ok (ClusterMetadata.members (metadata c)) (id, p).
Proof. intros [_ Hv Hp _ _]. exact (assoc_get_Forall _ _ _ _ (metadata_shards _ Hv) Hp). Qed.

Lemma standing_id last pending numbers p c :
  standing last pending numbers p c -> ShardPlacement.shard_id p = id.
Proof. intros Hs. apply (placement_id _ _ (standing_ok _ _ _ _ _ Hs)). Qed.

Lemma standing_calls last pending pending' last' numbers numbers' p (c c' : cluster) :
  standing last pending numbers p c -> nodes_only c c' ->
  serving healthy id dim last' pending' (ShardPlacement.replicas p) ups numbers' c' ->
  standing last' pending' numbers' p c'.
Proof.
  intros [Ho Hv Hp Hq _] Hn Hs. split; try done.
  - by rewrite (nodes_only_closed _ _ Hn).
  - by rewrite (nodes_only_metadata _ _ Hn).
  - by rewrite (nodes_only_metadata _ _ Hn).
Qed.

Lemma standing_bump last pending numbers p (c : cluster) :
  standing last pending numbers p c ->
  exists c', bump_epoch c = (Ok tt, c') /\ standing last pending numbers p c'.
Proof.
  intros [Ho Hv Hp Hq Hs]. eexists. split; [reflexivity|]. split; try done. by apply metadata_ok_epoch.
Qed.

Lemma standing_publish last pending numbers p (c : cluster) :
  standing last pending numbers p c ->
  exists c', _publish_metadata c = (Ok tt, c') /\ standing last pending numbers p c'.
Proof.
  intros [Ho Hv Hp Hq Hs]. destruct (validate_metadata_ok _ Hv) as (k & _ & _ & _ & Hk).
  rewrite publish_metadata_run, Hk. eexists. split; [reflexivity|]. split; try done.
  apply validate_idemp in Hk. apply validate_Ok in Hk. apply Hk.
Qed.

Lemma standing_request last pending numbers p e sum status (c : cluster) :
  standing last pending numbers p c -> ReplicatedEntry.request_id e <> "" ->
  status ∈ ["prepared"; "committed"] ->
  exists c', record_request e sum status c = (Ok tt, c') /\ standing last pending numbers p c'.
Proof.
  intros [Ho Hv Hp Hq Hs] Hr Hst. eexists. split; [reflexivity|]. split; try done.
  apply metadata_ok_request; [done|]. by apply request_record_ok.
Qed.

Lemma standing_update last pending numbers p f (c : cluster) :
  standing last pending numbers p c ->
  placement_ok (ClusterMetadata.members (metadata c)) (id, f p) ->
  ShardPlacement.replicas (f p) = ShardPlacement.replicas p ->
  exists c', on_placement id f c = (Ok tt, c') /\ standing last pending numbers (f p) c'.
Proof.
  intros [Ho Hv Hp Hq Hs] Hf Hr. eexists. split; [reflexivity|].
  split; try done; cbn; rewrite ?Hp; try done.
  - by apply metadata_ok_placement.
  - cbn. by rewrite assoc_get_set_eq.
  - unfold ShardPlacement.quorum. by rewrite Hr.
  - by rewrite Hr.
Qed.
(** ** Elections *)

Lemma elect_lives last pending numbers p (c : cluster) :
  standing last pending numbers p c ->
  (forall node, node ∈ ShardPlacement.replicas p -> node ∈ ups ->
     (numbers node).1 <= ShardPlacement.term p + 1 /\
     (numbers node).2 <= ShardPlacement.placement_epoch p + 1) ->
  exists leader c', _elect_leader perf_counter_ns id c = (Ok leader, c') /\ leader ∈ ups /\
    let p' := ShardUpdate.set_leader (ShardPlacement.term p + 1) (ShardPlacement.placement_epoch p + 1)
                leader p in
    standing last pending (numbers_of p') p' c'.
Proof.
  intros Hst Hn. pose proof (standing_id _ _ _ _ _ Hst) as Hid.
  pose proof (standing_quorum _ _ _ _ _ Hst) as Hquorum.
  unfold _elect_leader. rewrite (run_Ok _ _ c p c) by (apply placement_of_run; split; [apply Hst|done]).
  rewrite Hid. destruct (poll_lives perf_counter_ns healthy accepts live _ _ _ _ _ _ _ c (standing_nodes _ _ _ _ _ Hst))
    as (candidates & c1 & H1 & Hc & Ho1 & Hs1).
  rewrite (run_Ok _ _ _ _ _ H1). rewrite run_guard.
  replace (Z.of_nat (length candidates)) with (Z.of_nat (length candidates.*2)) by (by rewrite length_fmap).
  rewrite Hc, (proj2 (Z.ltb_ge _ _) Hquorum).
  assert (isort candidate_leb candidates ≡ₚ candidates) as Hperm by apply isort_perm.
  destruct (isort candidate_leb candidates) as [|[best leader] rest] eqn:Hsort.
  { apply Permutation_nil_l in Hperm. subst candidates. cbn in Hc. rewrite <- Hc in Hquorum. cbn in Hquorum.
    unfold ShardPlacement.quorum in Hquorum.
    pose proof (Z.div_pos (Z.of_nat (length (ShardPlacement.replicas p))) 2). lia. }
  assert (leader ∈ filter (fun node => node ∈ ups) (ShardPlacement.replicas p)) as Hl.
  { rewrite <- Hc, <- Hperm. left. }
  apply list_elem_of_filter in Hl as [Hup Hin].
  pose proof (standing_calls _ _ _ _ _ _ _ _ _ Hst Ho1 Hs1) as Hst1.
  set (f := ShardUpdate.set_leader (ShardPlacement.term p + 1) (ShardPlacement.placement_epoch p + 1) leader).
  destruct (standing_update _ _ _ _ f _ Hst1) as (c2 & H2 & Hst2); [|done|].
  { apply leader_ok; [apply (standing_ok _ _ _ _ _ Hst1)|done|lia|lia]. }
  destruct (standing_bump _ _ _ _ _ Hst2) as (c3 & H3 & Hst3).
  destruct (standing_publish _ _ _ _ _ Hst3) as (c4 & H4 & Hst4).
  rewrite (run_Ok _ _ _ _ _ H2), (run_Ok _ _ _ _ _ H3), (run_Ok _ _ _ _ _ H4).
  rewrite (run_Ok _ _ c4 (f p) c4) by (apply placement_of_run; split; [apply Hst4|done]).
  destruct (configure_lives perf_counter_ns healthy accepts live _ dim last pending _ ups numbers (f p)
    ((best, leader) :: rest) c4 (standing_nodes _ _ _ _ _ Hst4)) as (c5 & H5 & Ho5 & Hs5).
  - by apply (standing_id _ _ _ _ _ Hst4).
  - rewrite Hperm. by rewrite Hc.
  - apply Forall_forall. intros node [Hu Hr]%list_elem_of_filter. by apply Hn.
  - rewrite (run_Ok _ _ _ _ _ H5). exists leader, c5. split_and!; [done|done|].
    exact (standing_calls _ _ _ _ _ _ _ _ _ Hst4 Ho5 Hs5).
Qed.

(** ** A leader that is up *)

Lemma ensure_leader_lives last pending p (c : cluster) :
  standing last pending (numbers_of p) p c ->
  exists p' c', _ensure_leader perf_counter_ns id c = (Ok tt, c') /\
    standing last pending (numbers_of p') p' c' /\ ShardPlacement.leader p' ∈ ups /\
    ShardPlacement.last_log_index p' = ShardPlacement.last_log_index p.
Proof.
  intros Hst. pose proof (standing_id _ _ _ _ _ Hst) as Hid.
  pose proof (placement_leader _ _ (standing_ok _ _ _ _ _ Hst)) as Hin. cbn [snd] in Hin.
  unfold _ensure_leader.
  rewrite (run_Ok _ _ c p c) by (apply placement_of_run; split; [apply Hst|done]). rewrite Hid.
  destruct (decide (ShardPlacement.leader p ∈ ups)) as [Hup|Hnot].
  - destruct (status_up perf_counter_ns healthy accepts live _ _ _ _ _ _ (numbers_of p) _ c
      (standing_nodes _ _ _ _ _ Hst) Hin Hup) as (v & c1 & H1 & [_ Ht] & Ho1 & Hs1).
    exists p, c1. split; [|split_and!; [|done|done]].
    + erewrite run_Ok; [|unfold try_catch; rewrite (run_Ok _ _ _ _ _ H1), run_lift, Ht; reflexivity].
      cbn [numbers_of fst]. replace (py_eq _ _) with true; [done|]. symmetry. cbn. apply Z.eqb_refl.
    + exact (standing_calls _ _ _ _ _ _ _ _ _ Hst Ho1 Hs1).
  - destruct (status_down perf_counter_ns healthy accepts live _ _ _ _ _ _ (numbers_of p) _ c
      (standing_nodes _ _ _ _ _ Hst) Hin Hnot) as (e & c1 & H1 & Hu & Ho1 & Hs1).
    pose proof (standing_calls _ _ _ _ _ _ _ _ _ Hst Ho1 Hs1) as Hst1.
    destruct (elect_lives _ _ _ _ _ Hst1) as (leader & c2 & H2 & Hl & Hst2);
      [intros node _ _; cbn; lia|].
    eexists _, c2. split; [|split_and!; [exact Hst2|exact Hl|done]].
    erewrite run_Ok; [|unfold try_catch; rewrite (run_Raise _ _ _ _ _ H1);
      rewrite (caught_unreachable e status_errors Hu) by (unfold status_errors; set_solver); reflexivity].
    cbv iota. by rewrite (run_Ok _ _ _ _ _ H2).
Qed.
(** ** Writes *)

(** A mutation that the shard can take: valid for the dimension, and all its calls
    accepted by the collections *)
Record acceptable (mutation : dict) : Prop := {
  acceptable_mutation : mutation_ok (Some dim) mutation;
  acceptable_calls : forall calls, mutation_calls mutation = Ok calls ->
    Forall (fun call => accepts call.1 call.2) calls }.

Lemma mutation_ok_any mutation : mutation_ok (Some dim) mutation -> mutation_ok None mutation.
Proof. intros [id' Hk Ho Hi|id' v pl sp ns ts Hk Ho Hi Hv Hne Hd Hf Hp Hfp Hnp Hs Hfs Hns];
  [by eapply delete_ok|by eapply upsert_ok]. Qed.

Lemma create_next last numbers p request_id mutation (c : cluster) :
  standing last None numbers p c -> 0 <= last -> request_id <> "" -> acceptable mutation ->
  next_entry accepts id dim (ShardPlacement.term p) (ShardPlacement.placement_epoch p) last
    (ReplicatedEntry.create id (ShardPlacement.term p) (ShardPlacement.placement_epoch p) (last + 1)
       request_id mutation).
Proof.
  intros Hst Hl Hr [Hm Hc]. pose proof (standing_ok _ _ _ _ _ Hst) as [Hid Ht He _ _ _ _].
  cbn [fst snd] in *. split; try done. apply validate_spec. cbn. split_and!; try done; try lia.
  - pose proof (standing_placement _ _ _ _ _ Hst) as Hp. apply assoc_get_elem_2 in Hp.
    apply (list_elem_of_fmap_2 fst) in Hp. apply (metadata_cover _ (standing_valid _ _ _ _ _ Hst)) in Hp.
    cbn in Hp. lia.
  - by apply mutation_ok_any.
Qed.

Lemma standing_pending last numbers p entry (c : cluster) :
  standing last None numbers p c -> standing last (Some entry) numbers p c.
Proof.
  intros Hst. eapply standing_calls; [done|reflexivity|]. intros node Hin.
  destruct (standing_nodes _ _ _ _ _ Hst node Hin) as [Hu Hd]. split; [|done].
  intros Hup. destruct (Hu Hup) as (q & sh & ? & ? & Hr). exists q, sh. split_and!; [done|done|].
  by apply ready_pending.
Qed.

Lemma standing_next last numbers p entry (c : cluster) :
  standing last (Some entry) numbers p c -> ReplicatedEntry.index entry = last + 1 ->
  standing (last + 1) None numbers p c.
Proof.
  intros Hst Hidx. eapply standing_calls; [done|reflexivity|]. intros node Hin.
  destruct (standing_nodes _ _ _ _ _ Hst node Hin) as [Hu Hd]. split; [|done].
  intros Hup. destruct (Hu Hup) as (q & sh & ? & ? & Hr). exists q, sh. split_and!; [done|done|].
  by eapply ready_next.
Qed.

(** The commit of an entry that the nodes may have prepared *)
Lemma commit_prepared_lives last p entry sum (c : cluster) :
  standing last (Some entry) (numbers_of p) p c ->
  next_entry accepts id dim (ShardPlacement.term p) (ShardPlacement.placement_epoch p) last entry ->
  ReplicatedEntry.index entry <= ShardPlacement.last_log_index p ->
  exists p' c', _commit_prepared perf_counter_ns id entry sum c =
      (Ok (CommitResult.Mk (ReplicatedEntry.shard_id entry) (ReplicatedEntry.term entry)
             (ReplicatedEntry.index entry) (ReplicatedEntry.request_id entry)), c') /\
    standing last (Some entry) (numbers_of p') p' c' /\
    ShardPlacement.last_log_index p' = ShardPlacement.last_log_index p.
Proof.
  intros Hst Hnext Hlog. pose proof (next_valid _ _ _ _ _ _ _ Hnext) as Hv.
  apply validate_spec in Hv as (_ & _ & _ & _ & Hr & _).
  unfold _commit_prepared.
  rewrite (run_Ok _ _ c p c) by (apply placement_of_run; split; [apply Hst|done]).
  destruct (commit_on_lives perf_counter_ns healthy accepts live id dim last (Some entry) _ ups _ _ _ Hnext
    eq_refl c (standing_nodes _ _ _ _ _ Hst)) as (c1 & H1 & Ho1 & Hs1).
  rewrite (run_Ok _ _ _ _ _ H1). rewrite run_guard.
  rewrite (proj2 (Z.ltb_ge _ _) (standing_quorum _ _ _ _ _ Hst)).
  pose proof (standing_calls _ _ _ _ _ _ _ _ _ Hst Ho1 Hs1) as Hst1.
  set (f := fun p => ShardUpdate.set_committed_index
    (Z.max (ShardPlacement.committed_index p) (ReplicatedEntry.index entry)) p).
  destruct (standing_update _ _ _ _ f _ Hst1) as (c2 & H2 & Hst2);
    [by apply committed_ok; [apply (standing_ok _ _ _ _ _ Hst1)|]|done|].
  destruct (standing_request _ _ _ _ entry sum "committed" _ Hst2 Hr ltac:(set_solver)) as (c3 & H3 & Hst3).
  destruct (standing_bump _ _ _ _ _ Hst3) as (c4 & H4 & Hst4).
  destruct (standing_publish _ _ _ _ _ Hst4) as (c5 & H5 & Hst5).
  rewrite (run_Ok _ _ _ _ _ H2), (run_Ok _ _ _ _ _ H3), (run_Ok _ _ _ _ _ H4), (run_Ok _ _ _ _ _ H5).
  by exists (f p), c5.
Qed.

Lemma new_write_lives again sum p request_id mutation (c : cluster) :
  let last := ShardPlacement.last_log_index p in
  standing last None (numbers_of p) p c -> 0 <= last -> request_id <> "" -> acceptable mutation ->
  exists p' r c', new_write perf_counter_ns again id sum request_id mutation c = (Ok r, c') /\
    CommitResult.shard_id r = id /\ CommitResult.index r = last + 1 /\
    CommitResult.request_id r = request_id /\ ShardPlacement.last_log_index p' = last + 1 /\
    standing (last + 1) None (numbers_of p') p' c'.
Proof.
  intros last Hst Hlast Hr Hm. unfold new_write.
  rewrite (run_Ok _ _ c p c) by (apply placement_of_run; split; [apply Hst|done]).
  destruct (ensure_leader_lives _ _ _ _ Hst) as (p1 & c1 & H1 & Hst1 & Hl & Hlog).
  rewrite (run_Ok _ _ _ _ _ H1).
  set (f := fun p => ShardUpdate.set_last_log_index (ShardPlacement.last_log_index p + 1) p).
  destruct (standing_update _ _ _ _ f _ Hst1) as (c2 & H2 & Hst2);
    [by apply log_ok, (standing_ok _ _ _ _ _ Hst1)|done|].
  change (numbers_of p1) with (numbers_of (f p1)) in Hst2.
  rewrite (run_Ok _ _ _ _ _ H2), (run_Ok _ _ c2 (f p1) c2) by (apply placement_of_run; split; [apply Hst2|done]).
  destruct (standing_bump _ _ _ _ _ Hst2) as (c3 & H3 & Hst3).
  destruct (standing_publish _ _ _ _ _ Hst3) as (c4 & H4 & Hst4).
  rewrite (run_Ok _ _ _ _ _ H3), (run_Ok _ _ _ _ _ H4). cbv zeta.
  assert (ShardPlacement.last_log_index (f p1) = last + 1) as Hidx by (unfold f; cbn; by rewrite Hlog).
  pose proof (create_next last _ (f p1) request_id mutation c4 Hst4 Hlast Hr Hm) as Hnext. rewrite Hidx.
  set (entry := ReplicatedEntry.create _ _ _ _ _ _) in *.
  apply (standing_pending _ _ _ entry) in Hst4.
  destruct (prepare_on_lives perf_counter_ns healthy accepts live id dim last (Some entry) _ ups _ _ _ Hnext
    eq_refl c4 (standing_nodes _ _ _ _ _ Hst4)) as (c5 & H5 & Ho5 & Hs5).
  rewrite (run_Ok _ _ _ _ _ H5).
  assert (str_in (ShardPlacement.leader (f p1))
    (filter (fun node => node ∈ ups) (ShardPlacement.replicas (f p1))) = true) as ->.
  { apply bool_decide_eq_true_2, list_elem_of_filter. split; [done|].
    apply (placement_leader _ _ (standing_ok _ _ _ _ _ Hst4)). }
  cbn [negb]. rewrite run_guard, (proj2 (Z.ltb_ge _ _) (standing_quorum _ _ _ _ _ Hst4)).
  pose proof (standing_calls _ _ _ _ _ _ _ _ _ Hst4 Ho5 Hs5) as Hst5.
  destruct (standing_request _ _ _ _ entry sum "prepared" _ Hst5 Hr ltac:(set_solver)) as (c6 & H6 & Hst6).
  destruct (standing_bump _ _ _ _ _ Hst6) as (c7 & H7 & Hst7).
  destruct (standing_publish _ _ _ _ _ Hst7) as (c8 & H8 & Hst8).
  rewrite (run_Ok _ _ _ _ _ H6), (run_Ok _ _ _ _ _ H7), (run_Ok _ _ _ _ _ H8).
  destruct (commit_prepared_lives last (f p1) entry sum c8 Hst8 Hnext) as (p' & c' & H' & Hst' & Hlog');
    [cbn; lia|].
  eexists p', _, c'. split; [exact H'|]. split_and!; try done; [congruence|].
  by eapply standing_next.
Qed.
End Quorum.

(** A write of a new request, whatever the number of elections it may hold *)
Lemma write_lives retries mutation request_id id dim ups p (c : cluster) :
  let last := ShardPlacement.last_log_index p in
  standing (shard_for c id) dim ups last None (numbers_of p) p c -> 0 <= last ->
  int_item mutation "id" = Ok id -> request_id <> "" ->
  dict_get (ClusterMetadata.request_table (metadata c)) request_id = None ->
  acceptable dim mutation ->
  exists p' r c', _write perf_counter_ns retries mutation request_id c = (Ok r, c') /\
    CommitResult.shard_id r = shard_for c id /\ CommitResult.index r = last + 1 /\
    CommitResult.request_id r = request_id /\ ShardPlacement.last_log_index p' = last + 1 /\
    standing (shard_for c id) dim ups (last + 1) None (numbers_of p') p' c'.
Proof.
  intros last Hst Hl Hid Hr Hnew Hm.
  assert (forall again, exists p' r c', new_write perf_counter_ns again (shard_for c id)
    (payload_checksum (PDict mutation)) request_id mutation c = (Ok r, c') /\
    CommitResult.shard_id r = shard_for c id /\ CommitResult.index r = last + 1 /\
    CommitResult.request_id r = request_id /\ ShardPlacement.last_log_index p' = last + 1 /\
    standing (shard_for c id) dim ups (last + 1) None (numbers_of p') p' c') as Hnw
    by (intros again; by apply new_write_lives).
  pose proof (standing_open _ _ _ _ _ _ _ _ Hst) as Hopen.
  assert (_ensure_open c = (Ok tt, c)) as He.
  { unfold _ensure_open. rewrite run_get. unfold lift. by rewrite Hopen. }
  assert (route id c = (Ok (shard_for c id), c)) as Hroute by (by apply route_run).
  destruct retries; cbn [_write]; rewrite (run_Ok _ _ _ _ _ He), run_lift, Hid,
    (run_Ok _ _ _ _ _ Hroute), run_get; unfold dict_get_or; rewrite Hnew; apply Hnw.
Qed.
End Progress.
