(* ===== verification/ProtocolTheorems.v ===== *)
(** The guarantees of the durable formats: canonical JSON, checksums, envelopes,
    collection identities, replicated entries and the replica journal. *)

From S2P Require Import Prelude PyFloat PyValue Json JsonFacts Checksum Envelope Files Models KernelConfig CollectionIdentity Mutation Journal JournalFacts JournalSpec.
Import KernelFacts ReplicaJournal EntryFacts.

(** * Sample data for the witnesses *)

Definition sample_mutation : dict :=
  [("operation", PStr "upsert"); ("id", PInt 7); ("vector", PList [PInt 1; PFloat (float_of_decimal false 25 (-1))]);
   ("fields", PList [PDict [("name", PStr "tag"); ("type", PStr "string"); ("value", PStr "a")]]);
   ("sparse", PList [PDict [("term_id", PInt 3); ("weight", PInt 2)]])].

Definition sample_entry : ReplicatedEntry.t :=
  ReplicatedEntry.create 0 1 1 1 "request-1" sample_mutation.

Definition sample_journal : t :=
  match open None with Ok j => (prepare sample_entry j).2 | Raise _ => Mk None ∅ ∅ 0 end.

Lemma sample_entry_valid : ReplicatedEntry.validate sample_entry = Ok tt.
Proof. by vm_compute. Qed.

Lemma sample_entry_storable : storable sample_entry.
Proof. by vm_compute. Qed.

(** * Canonical JSON and checksums *)



(** Two values that differ only in the order of the keys of their objects have
    the same canonical bytes and the same checksum. *)
Theorem canonical_order_insensitive (v w : pyval) (H : same_value v w) :
  canonical_bytes v = canonical_bytes w /\ payload_checksum v = payload_checksum w.
Proof. by rewrite H. Qed.

Lemma canonical_order_insensitive_witness :
  let v := PDict [("a", PInt 1); ("b", PInt 2)] in
  let w := PDict [("b", PInt 2); ("a", PInt 1)] in
  canonical_bytes v = canonical_bytes w /\ payload_checksum v = payload_checksum w.
Proof.
  intros v w. apply (canonical_order_insensitive v w).
  apply (same_dict _ [("a", PInt 1); ("b", PInt 2)]).
  - repeat constructor.
  - refine (bool_decide_eq_true_1 _ _). by vm_compute.
  - apply Permutation_swap.
Defined.

(** C35: the checksum is an unsigned 32-bit word, and changing one byte of the
    canonical text of a payload changes it, so that an envelope carrying the
    checksum of the other payload is refused. *)
Theorem one_byte_corruption_detected (payload damaged : dict) (s t : string) (c d : ascii)
    (Hp : canonical_bytes (PDict payload) = s +:+ String c t)
    (Hd : canonical_bytes (PDict damaged) = s +:+ String d t) (Hne : c <> d) :
  0 <= payload_checksum (PDict payload) < 2 ^ 32 /\
  _decode_envelope_versioned
    (PDict [("version", PInt PROTOCOL_VERSION); ("payload", PDict damaged);
            ("checksum", PInt (payload_checksum (PDict payload)))]) =
  raise ProtocolError "distributed envelope checksum mismatch".
Proof.
  split; [rewrite payload_checksum_crc; apply crc32_word32|].
  assert (payload_checksum (PDict payload) <> payload_checksum (PDict damaged)) as Hck.
  { rewrite !payload_checksum_crc, Hp, Hd. intros H. by apply crc32_one_byte in H. }
  unfold _decode_envelope_versioned. cbn [dict_with_fields].
  replace (keys_are _ ENVELOPE_FIELDS) with true by (symmetry; apply keys_are_spec; by intros).
  cbn [mbind res_bind]. unfold dict_item.
  change (dict_get _ "version") with (Some (PInt PROTOCOL_VERSION)).
  change (dict_get _ "payload") with (Some (PDict damaged)).
  change (dict_get _ "checksum") with (Some (PInt (payload_checksum (PDict payload)))).
  cbn [mbind res_bind _exact_int as_dict].
  change (negb (bool_decide (PROTOCOL_VERSION ∈ [LEGACY_PROTOCOL_VERSION; PROTOCOL_VERSION]))) with false.
  cbn [raise_if mbind res_bind]. by rewrite (proj2 (Z.eqb_neq _ _) Hck).
Qed.

Lemma one_byte_corruption_detected_witness :
  let payload := [("id", PInt 1)] in let damaged := [("id", PInt 2)] in
  0 <= payload_checksum (PDict payload) < 2 ^ 32 /\
  _decode_envelope_versioned
    (PDict [("version", PInt PROTOCOL_VERSION); ("payload", PDict damaged);
            ("checksum", PInt (payload_checksum (PDict payload)))]) =
  raise ProtocolError "distributed envelope checksum mismatch".
Proof.
  apply (one_byte_corruption_detected [("id", PInt 1)] [("id", PInt 2)]
    (String "{" (String quote ("id" +:+ String quote ":"))) "}" "1" "2");
    [by vm_compute|by vm_compute|discriminate].
Defined.

(** A record written as the canonical text of its envelope reads back as the
    same payload, keys sorted, at the current format version. *)
Theorem envelope_roundtrip (payload : dict) (H : json_ok (PDict payload) = true) :
  exists value, loads (envelope_text payload) = Ok value /\
    _decode_envelope_versioned value = Ok (PROTOCOL_VERSION, sorted_payload payload).
Proof. by apply loads_envelope. Qed.

Lemma envelope_roundtrip_witness :
  exists value, loads (envelope_text sample_mutation) = Ok value /\
    _decode_envelope_versioned value = Ok (PROTOCOL_VERSION, sorted_payload sample_mutation).
Proof. apply (envelope_roundtrip sample_mutation). by vm_compute. Defined.


(** * Collection identity *)

Lemma default_config_valid : valid (Kernel.defaults 8).
Proof. by vm_compute. Qed.

(** C33: the decoder of a stored collection identity accepts exactly the kernel's
    renderings of the valid configurations of that dimension, with the keys in any
    order, and returns the rendering; so a wrong fingerprint, a missing or extra
    field, a bound violated or another dimension is refused. *)
Theorem canonical_identity_exact (value : pyval) (dimension : Z) (c : dict) :
  canonical_collection_config value dimension = Ok c <->
  (exists d k, value = PDict d /\ valid k /\ Kernel.dimension k = dimension /\
    d ≡ₚ Kernel.to_python k /\ c = Kernel.to_python k).
Proof. apply canonical_config_spec. Qed.

(** The identity given to collections of the legacy metadata format is itself
    canonical, and canonical identities are fixed points of the decoder. *)
Theorem legacy_identity_canonical (dimension : Z) :
  (forall value c, canonical_collection_config value dimension = Ok c ->
     canonical_collection_config (PDict c) dimension = Ok c) /\
  (forall c, _legacy_default_collection_config dimension = Ok c ->
     canonical_collection_config (PDict c) dimension = Ok c).
Proof. split; [intros value c; apply canonical_config_idemp|apply legacy_config_canonical]. Qed.

(** A typed configuration that crosses into the kernel and back is unchanged
    but for the fingerprint it gains, a 64-bit word; in particular all 64 bits of
    the seed survive the signed conversion at the boundary. *)
Theorem config_crosses_kernel (c : CollectionConfig.t) (d : dict)
    (Hc : CollectionConfig.well_formed c)
    (H : validate_collection_config (CollectionConfig.dimension c)
           (PDict (CollectionConfig.to_kernel c)) = Ok d) :
  exists fingerprint, 0 <= fingerprint < 2 ^ 64 /\
    CollectionConfig.from_kernel d =
      Ok (CollectionConfig.set_fingerprint c (Some fingerprint)).
Proof.
  apply validate_inv in H as [Hv ->]; [|done|done].
  exists (Kernel.fingerprint (of_config c)). split; [apply fingerprint_range|].
  rewrite (from_kernel_lookup _ (of_config c)) by done. by rewrite to_of_config.
Qed.

Definition sample_config : CollectionConfig.t :=
  CollectionConfig.Mk 8 "cosine" "f16" 16 32 128 64 512 32 25 10000 0xFFFFFFFFFFFFFFFF None.

Definition sample_identity : dict := Kernel.to_python (of_config sample_config).

Lemma config_crosses_kernel_witness :
  exists fingerprint, 0 <= fingerprint < 2 ^ 64 /\
    CollectionConfig.from_kernel sample_identity =
      Ok (CollectionConfig.set_fingerprint sample_config (Some fingerprint)).
Proof.
  apply (config_crosses_kernel sample_config); [|by vm_compute].
  unfold CollectionConfig.well_formed. split_and!;
    try (by vm_compute); refine (bool_decide_eq_true_1 _ _); by vm_compute.
Defined.

(** * Mutations and entries *)

(** C34: the mutation validator accepts exactly the well-formed mutations: a delete
    with an integer id, or an upsert whose vector is a nonempty list of finite
    numbers of the expected dimension, whose payload has distinct nonempty names
    and values of the declared types, and whose sparse terms are distinct
    non-negative integers with finite weights. *)
Theorem mutation_validator_exact (m : pyval) (dimension : option Z) :
  validate_replicated_mutation m dimension = Ok tt <->
  (exists d, m = PDict d /\ mutation_ok dimension d).
Proof. apply validate_mutation_spec. Qed.

(** A valid entry is read back from the dictionary it is written as, and from
    the stored text of that dictionary with the keys of its mutation sorted, still
    valid and with the same checksum. *)
Theorem entry_roundtrip (e : ReplicatedEntry.t)
    (Hv : ReplicatedEntry.validate e = Ok tt) (Hs : storable e) :
  (d ← ReplicatedEntry.to_dict e; ReplicatedEntry.from_dict (PDict d)) = Ok e /\
  (d ← ReplicatedEntry.to_dict e; v ← loads (canonical_bytes (PDict d));
   ReplicatedEntry.from_dict v) = Ok (sorted e) /\
  ReplicatedEntry.validate (sorted e) = Ok tt.
Proof.
  unfold ReplicatedEntry.to_dict. rewrite Hv. cbn [mbind res_bind].
  rewrite loads_canonical by (by apply asdict_json_ok). cbn [mbind res_bind].
  by rewrite from_asdict, from_stored, validate_sorted.
Qed.

Lemma entry_roundtrip_witness :
  (d ← ReplicatedEntry.to_dict sample_entry; ReplicatedEntry.from_dict (PDict d)) = Ok sample_entry.
Proof. apply (entry_roundtrip sample_entry); by vm_compute. Defined.

(** An entry that decodes is valid (positive term, epoch and index, a request
    id, a well-formed mutation under its own checksum) and has every field of the
    dictionary it was decoded from. *)
Theorem entry_decoding_sound (value : pyval) (e : ReplicatedEntry.t)
    (H : ReplicatedEntry.from_dict value = Ok e) :
  (0 <= ReplicatedEntry.shard_id e /\ 0 < ReplicatedEntry.term e /\
   0 < ReplicatedEntry.placement_epoch e /\ 0 < ReplicatedEntry.index e /\
   ReplicatedEntry.request_id e <> "" /\ mutation_ok None (ReplicatedEntry.mutation e) /\
   ReplicatedEntry.mutation_checksum e =
     payload_checksum (PDict (ReplicatedEntry.mutation e))) /\
  exists d, value = PDict d /\ keys_are d REPLICATED_ENTRY_FIELDS = true /\
    forall k, dict_get d k = dict_get (ReplicatedEntry.asdict e) k.
Proof. apply from_dict_Ok in H as [Hv Hd]. split; [by apply validate_spec|done]. Qed.

Lemma entry_decoding_sound_witness :
  exists d, PDict (ReplicatedEntry.asdict sample_entry) = PDict d /\
    keys_are d REPLICATED_ENTRY_FIELDS = true /\
    forall k, dict_get d k = dict_get (ReplicatedEntry.asdict sample_entry) k.
Proof. apply (entry_decoding_sound _ sample_entry). by vm_compute. Defined.

(** * The replica journal *)

(** Whatever bytes the file held, a journal that opens holds only valid
    entries, each under its own index, and has committed only prepared ones. *)
Theorem journal_open_sound (f : option file) (j : t) (H : open f = Ok j) :
  map_Forall (fun i e => ReplicatedEntry.index e = i /\ ReplicatedEntry.validate e = Ok tt)
    (prepared j) /\
  forall i, i ∈ committed j -> is_Some (prepared j !! i).
Proof. by apply open_wf in H. Qed.

Lemma journal_open_sound_witness :
  exists j, open (path sample_journal) = Ok j /\
    forall i, i ∈ committed j -> is_Some (prepared j !! i).
Proof.
  exists (match open (path sample_journal) with Ok j => j | Raise _ => sample_journal end).
  split; [by vm_compute|]. apply (journal_open_sound (path sample_journal)). by vm_compute.
Defined.

(** C32: in every state a journal reaches from an empty file by its operations,
    restarts and crashes during an append, the file holds exactly the records of
    the tables: reopening it gives the same prepared entries (mutation keys
    sorted), the same committed indexes and the same snapshot index. *)
Theorem journal_reopens (j0 j : t) (H0 : open None = Ok j0) (H : rtc step j0 j) :
  open (path j) = Ok (reloaded j).
Proof.
  apply open_consistent, inv_consistent. by apply (reach_inv j0).
Qed.

Lemma sample_journal_reachable : rtc step (Mk None ∅ ∅ 0) sample_journal.
Proof.
  apply rtc_once. apply (step_prepare sample_entry _ (Ok tt)); [by vm_compute|].
  unfold sample_journal. by vm_compute.
Qed.

Lemma journal_reopens_witness : open (path sample_journal) = Ok (reloaded sample_journal).
Proof. apply (journal_reopens (Mk None ∅ ∅ 0)); [done|apply sample_journal_reachable]. Defined.

(** C31: the journal implements the abstract log: every state it reaches from an empty
    file stands for a log that the log's own steps reach, and the file alone,
    reopened, stands for the same log. *)
Theorem journal_refines_log (j0 j : t) (H0 : open None = Ok j0) (H : rtc step j0 j) :
  rtc log_step empty_log (log_of j) /\
  exists j', open (path j) = Ok j' /\ log_of j' = log_of j.
Proof.
  split.
  - replace empty_log with (log_of j0) by (by injection H0 as <-).
    apply steps_simulate; [by apply inv_fresh|done].
  - exists (reloaded j). split; [|by apply log_of_tables].
    apply open_consistent, inv_consistent. by apply (reach_inv j0).
Qed.

Lemma journal_refines_log_witness : rtc log_step empty_log (log_of sample_journal).
Proof. apply (journal_refines_log (Mk None ∅ ∅ 0)); [done|apply sample_journal_reachable]. Defined.

(** C30: nothing a journal has acknowledged is lost: along every history of
    operations, restarts and crashes, prepared entries, committed indexes and the
    snapshot index only grow. *)
Theorem journal_durable (j0 j j' : t) (H0 : open None = Ok j0) (H : rtc step j0 j)
    (H' : rtc step j j') :
  (sorted <$> prepared j) ⊆ (sorted <$> prepared j') /\
  committed j ⊆ committed j' /\ snapshot_index j <= snapshot_index j'.
Proof.
  assert (inv j) as Hinv by (by apply (reach_inv j0)).
  change (keeps j j'). clear H H0. induction H' as [|j1 j2 j3 Hs _ IH]; [reflexivity|].
  transitivity j2; [by apply step_keeps|]. by apply IH, (step_inv j1).
Qed.

Lemma journal_durable_witness : 
  (sorted <$> prepared sample_journal) ⊆ (sorted <$> prepared (commit 1 sample_journal).2) /\
  committed sample_journal ⊆ committed (commit 1 sample_journal).2 /\
  snapshot_index sample_journal <= snapshot_index (commit 1 sample_journal).2.
Proof.
  apply (journal_durable (Mk None ∅ ∅ 0)); [done|apply sample_journal_reachable|].
  apply rtc_once. eapply (step_commit 1). apply surjective_pairing.
Defined.

(** C29: an append is atomic: a crash at any point of it, with any part of the
    record on the disk, leaves a file that opens (the torn tail is cut off) with
    the tables from before the operation or from after it. *)
Theorem journal_crash_atomic (j : t) (r : dict) (j1 : t) (f' : file)
    (Hinv : inv j) (Ha : appends j r j1)
    (Hc : crash (Some (write (record_line r) (open_append (path j)))) (Some f')) :
  exists j', open (Some f') = Ok j' /\ inv j' /\
    (tables j' = tables (reloaded j) \/ tables j' = tables (reloaded j1)).
Proof. by eapply crash_atomic. Qed.

(** The disk after ten bytes of the first record. *)
Definition torn_file : file :=
  File (stake 10 (record_line (prepare_record sample_entry))) 10.

Lemma journal_crash_atomic_witness :
  exists j', open (Some torn_file) = Ok j' /\ inv j' /\
    (tables j' = tables (reloaded (Mk None ∅ ∅ 0)) \/ tables j' = tables (reloaded sample_journal)).
Proof.
  apply (journal_crash_atomic (Mk None ∅ ∅ 0) (prepare_record sample_entry)).
  - by apply inv_fresh.
  - apply appends_prepare; [by vm_compute|done|by vm_compute].
  - constructor. split_and!; [by vm_compute|simpl; lia|].
    exists (match substring 10 1000 (record_line (prepare_record sample_entry)) with s => s end).
    by vm_compute.
Defined.

(** Preparing an entry again changes nothing, and an entry with the index of a
    prepared one and another checksum is refused without a trace. *)
Theorem journal_prepare_idempotent (e e' : ReplicatedEntry.t) (j j' : t)
    (H : prepare e j = (Ok tt, j')) (Hi : ReplicatedEntry.index e' = ReplicatedEntry.index e)
    (Hv : ReplicatedEntry.validate e' = Ok tt) :
  prepare e j' = (Ok tt, j') /\
  (ReplicatedEntry.mutation_checksum e' <> ReplicatedEntry.mutation_checksum e ->
   prepare e' j' = (Raise (Exn ProtocolError "conflicting duplicate replicated entry"), j')).
Proof.
  assert (exists e0, prepared j' !! ReplicatedEntry.index e = Some e0 /\
    ReplicatedEntry.mutation_checksum e0 = ReplicatedEntry.mutation_checksum e /\
    ReplicatedEntry.validate e = Ok tt) as (e0 & He0 & Hck & Hve).
  { pose proof (prepare_spec e j) as Hspec.
    destruct (ReplicatedEntry.validate e) as [[]|]; [|congruence].
    destruct (prepared j !! _) as [e0|] eqn:He0; rewrite H in Hspec.
    - destruct (_ =? _) eqn:Hck; [|done]. injection Hspec as ->. inv_py. eauto.
    - injection Hspec as ->. exists e. cbn. by rewrite lookup_insert_eq. }
  pose proof (prepare_spec e j') as He. rewrite Hve, He0, Hck, Z.eqb_refl in He.
  pose proof (prepare_spec e' j') as He'. rewrite Hv, Hi, He0, Hck in He'.
  split; [done|]. intros Hne. by rewrite (proj2 (Z.eqb_neq _ _)) in He' by done.
Qed.

Lemma journal_prepare_idempotent_witness :
  prepare sample_entry sample_journal = (Ok tt, sample_journal).
Proof.
  apply (journal_prepare_idempotent sample_entry sample_entry (Mk None ∅ ∅ 0)); by vm_compute.
Defined.

(** The entries to replay after an index are the committed ones above it, each
    once, in ascending order of index. *)
Theorem journal_committed_after (j : t) (i : Z) (H : wf j) :
  exists l, committed_after j i = Ok l /\
    StronglySorted Z.lt (ReplicatedEntry.index <$> l) /\
    forall e, e ∈ l <->
      i < ReplicatedEntry.index e /\ ReplicatedEntry.index e ∈ committed j /\
      prepared j !! ReplicatedEntry.index e = Some e.
Proof. by apply committed_after_spec. Qed.

Lemma journal_committed_after_witness :
  exists l, committed_after (commit 1 sample_journal).2 0 = Ok l /\
    StronglySorted Z.lt (ReplicatedEntry.index <$> l).
Proof.
  destruct (journal_committed_after (commit 1 sample_journal).2 0) as (l & Hl & Hs & _).
  - apply inv_wf. eapply (commit_inv 1 sample_journal); [|apply surjective_pairing].
    apply (prepare_inv sample_entry (Mk None ∅ ∅ 0) (Ok tt)); [by apply inv_fresh|by vm_compute|].
    by vm_compute.
  - exists l. exact (conj Hl Hs).
Defined.
