(* ===== verification/MetadataTheorems.v ===== *)
(** The guarantees of the cluster metadata: quorums, what a loaded record
    satisfies, the round trip through the file and atomic publication. *)

From S2P Require Import Prelude Assoc PyFloat PyValue Json JsonFacts Checksum Envelope Files Models KernelConfig CollectionIdentity Mutation Journal JournalFacts Metadata MetadataFacts.
Import KernelFacts ClusterMetadata.

(** * Sample data for the witnesses *)

Definition sample_placement : ShardPlacement.t :=
  ShardPlacement.Mk 0 1 1 "n0" ["n0"; "n1"; "n2"] 3 2.

Definition sample_metadata : t :=
  Mk "c" 8 1 3 1 [("n2", ("127.0.0.1", 7002)); ("n0", ("127.0.0.1", 7000)); ("n1", ("127.0.0.1", 7001))]
    [(0, sample_placement)] (Kernel.to_python (Kernel.defaults 8))
    [("r", PDict [("shard_id", PInt 0); ("term", PInt 1); ("index", PInt 3);
                  ("checksum", PInt 5); ("status", PStr "prepared")])] 2.

Lemma sample_metadata_valid : validate sample_metadata = Ok sample_metadata.
Proof. by vm_compute. Qed.

(** * Theorems *)

(** Any two sets of replicas that reach the quorum of a placement share a
    replica, so an election and a commit always meet in one. *)
Theorem quorum_intersection (p : ShardPlacement.t) (q1 q2 : list string)
    (Hn1 : NoDup q1) (Hn2 : NoDup q2)
    (H1 : q1 ⊆ ShardPlacement.replicas p) (H2 : q2 ⊆ ShardPlacement.replicas p)
    (Hq1 : ShardPlacement.quorum p <= Z.of_nat (length q1))
    (Hq2 : ShardPlacement.quorum p <= Z.of_nat (length q2)) :
  exists node, node ∈ q1 /\ node ∈ q2.
Proof. by eapply quorums_intersect. Qed.

Lemma quorum_intersection_witness :
  exists node, node ∈ ["n0"; "n1"] /\ node ∈ ["n1"; "n2"].
Proof.
  apply (quorum_intersection sample_placement); try (by vm_compute);
    try (refine (bool_decide_eq_true_1 _ _); by vm_compute); set_solver.
Defined.

(** C37: metadata that loads, from the current or the legacy format, is valid: it
    names a cluster, its shards are exactly those below the shard count, every
    placement has a positive term and epoch, distinct known replicas with the
    leader among them and a commit index within its log, its requests are well
    formed, and its collection identity is canonical; validating it again changes
    nothing. *)
Theorem metadata_load_sound (f : option file) (m : t) (H : load f = Ok m) :
  metadata_ok m /\ validate m = Ok m.
Proof. apply load_valid in H. split; [by apply validate_Ok in H as [? _]|done]. Qed.

Lemma metadata_load_sound_witness :
  exists m, load (Some (File (metadata_text sample_metadata) 0)) = Ok m /\ metadata_ok m.
Proof.
  exists (match load (Some (File (metadata_text sample_metadata) 0)) with
          | Ok m => m | Raise _ => sample_metadata end).
  split; [by vm_compute|].
  apply (metadata_load_sound (Some (File (metadata_text sample_metadata) 0))). by vm_compute.
Defined.

(** C38: a valid record that is published and loaded again is the same record, up to
    the order of its members, its shards and the keys of its request table. *)
Theorem metadata_roundtrip (m : t) (d : directory) (Hv : validate m = Ok m)
    (Hj : json_ok (PDict (payload_of m)) = true) :
  exists m' d', publish m d = Ok (m, d') /\ load (destination d') = Ok m' /\ same_record m m'.
Proof.
  rewrite publish_spec, Hv. cbn [mbind res_bind].
  destruct (load_published m (String.length (metadata_text m)) Hv Hj) as (m' & Hl & Hs).
  by exists m', (Dir (Some (File (metadata_text m) (String.length (metadata_text m)))) None).
Qed.

Lemma metadata_roundtrip_witness :
  exists m' d', publish sample_metadata (Dir None None) = Ok (sample_metadata, d') /\
    load (destination d') = Ok m' /\ same_record sample_metadata m'.
Proof. apply (metadata_roundtrip sample_metadata (Dir None None)); by vm_compute. Defined.

(** Publication is atomic: whatever step of [publish] a crash interrupts, and
    however much of the unsynced data reaches the disk, the metadata file loads as
    before or as the new record. *)
Theorem publish_atomic (m : t) (d d' : directory) (f : option file)
    (Hv : validate m = Ok m) (Hj : json_ok (PDict (payload_of m)) = true)
    (Hd : durable (destination d))
    (Hin : d' ∈ d :: publish_steps (envelope_text (payload_of m) +:+ nl) d)
    (Hc : crash (destination d') f) :
  load f = load (destination d) \/ exists m', load f = Ok m' /\ same_record m m'.
Proof.
  apply (publish_crash _ d d' f Hd Hin) in Hc as [-> | ->]; [by left|right].
  by apply load_published.
Qed.

Lemma publish_atomic_witness :
  let text := metadata_text sample_metadata in
  exists m', load (Some (File text (String.length text))) = Ok m' /\ same_record sample_metadata m'.
Proof.
  intros text.
  destruct (publish_atomic sample_metadata (Dir None None)
    (List.last (publish_steps text (Dir None None)) (Dir None None))
    (Some (File text (String.length text)))) as [H|H].
  - by vm_compute.
  - by vm_compute.
  - done.
  - unfold publish_steps. cbn [List.last]. rewrite !elem_of_cons. tauto.
  - cbn [publish_steps List.last destination]. constructor. split_and!; [done|done|].
    exists "". cbn. by rewrite sapp_nil_r.
  - exfalso. revert H. vm_compute. discriminate.
  - exact H.
Defined.
