(* ===== verification/ReplicaTheorems.v ===== *)
(** The guarantees of a replica: stale entries are refused, nothing acknowledged
    goes back or is lost, snapshots replace the directory atomically, and the
    process reports every failure as one of three errors. *)

From S2P Require Import Prelude Assoc PyFloat PyValue Json JsonFacts Checksum Envelope Files Models KernelConfig KernelInterface Vectors Database MemoryKernel CollectionIdentity Mutation Journal JournalFacts Metadata MetadataFacts Snapshot SnapshotFacts Replica ReplicaFacts ReplicaHistory ReplicaServer.
Import EntryFacts ReplicaShard.

Abbreviation handle := ReplicaFacts.handle.

(** * Sample data for the witnesses *)

Definition clock (n : nat) : Z := Z.of_nat n.

Definition identity2 : dict := Kernel.to_python (Kernel.defaults 2).

Definition nowhere : @site memory := Site None None None None.

Definition no_shard : t (K := memory) :=
  let c := CollectionConfig.Mk 0 "" "" 0 0 0 0 0 0 0 0 0 None in
  Mk nowhere 0 0 c 0 0 0 (ReplicaJournal.Mk None ∅ ∅ 0)
    (MkCollection (Memory [] [] 0 true) 0 c ResourceLimits.defaults 0 0 0 0 0 0 [] 0).

Definition started (d : @site memory) : t :=
  match init clock 0 2 identity2 d with (Ok s, _) => s | (Raise _, _) => no_shard end.

Definition fresh : t := started nowhere.

Definition upsert7 : dict :=
  [("operation", PStr "upsert"); ("id", PInt 7); ("vector", PList [PInt 1; PInt 2]);
   ("fields", PList []); ("sparse", PList [])].

Definition entry1 : ReplicatedEntry.t := ReplicatedEntry.create 0 1 1 1 "request-1" upsert7.

Definition configured : t := (configure clock 1 1 fresh).2.
Definition holding : t := (commit clock entry1 configured).2.



(** * Fencing *)

(** A prepare or a commit for another shard, at another term or placement
    epoch, or with a malformed mutation, is refused and leaves the shard, its
    journal and its directory as they were; an accepted one has the shard's own
    identity and a well-formed mutation of its dimension. *)
Theorem stale_entry_refused {K : Type} `{!Kernel K} (now : nat -> Z) (e : ReplicatedEntry.t)
    (s : t (K := K)) :
  (ReplicatedEntry.shard_id e <> shard_id s \/ ReplicatedEntry.term e <> term s \/
   ReplicatedEntry.placement_epoch e <> placement_epoch s \/
   ~ mutation_ok (Some (dimension s)) (ReplicatedEntry.mutation e)) ->
  exists err, prepare e s = (Raise err, s) /\ commit now e s = (Raise err, s).
Proof.
  intros Hbad. destruct (admissible e s) as [[]|err] eqn:Ha.
  - apply admissible_Ok in Ha as (? & ? & ? & ?). tauto.
  - exists err. by rewrite (prepare_refused _ _ _ Ha), (commit_refused _ _ _ _ Ha).
Qed.

Lemma stale_entry_refused_witness :
  let stale := ReplicatedEntry.create 0 2 1 1 "request-1" upsert7 in
  exists err, prepare stale configured = (Raise err, configured) /\
    commit clock stale configured = (Raise err, configured).
Proof.
  apply (stale_entry_refused clock (ReplicatedEntry.create 0 2 1 1 "request-1" upsert7) configured).
  right; left. vm_compute. discriminate.
Defined.

(** * Histories *)

(** C2: along every history of a replica shard, from its creation in an empty
    place, through operations, snapshots, restarts, and kills while the journal,
    the collection or the state file is written or at any point of a snapshot's
    exchange of directories, its term, placement epoch and applied index never
    decrease, and its state file reads back as numbers not behind them. *)
Theorem replica_never_regresses {K : Type} `{!Kernel K} (now : nat -> Z) (id dim : Z) (c : dict)
    (s0 s s' : t (K := K)) (d : site)
    (H0 : init now id dim c (Site None None None None) = (Ok s0, d))
    (H : rtc (step now) s0 s) (H' : rtc (step now) s s') :
  (term s <= term s' /\ placement_epoch s <= placement_epoch s' /\
   applied_index s <= applied_index s') /\
  exists t' p' a', read_state (state_file s') = Ok (t', p', a') /\
    term s' <= t' /\ placement_epoch s' <= p' /\ applied_index s' <= a'.
Proof.
  pose proof (init_recorded _ _ _ _ _ _ H0) as Hr0.
  destruct (steps_behind now s0 s Hr0 H) as [_ Hr]. destruct (steps_behind now s s' Hr H') as [Hb Hr'].
  split; [exact Hb|]. destruct (recorded_read s' Hr') as ([[t' p'] a'] & Hn & Hb'). by exists t', p', a'.
Qed.

Lemma replica_never_regresses_witness :
  (term fresh <= term holding /\ placement_epoch fresh <= placement_epoch holding /\
   applied_index fresh <= applied_index holding) /\
  exists t' p' a', read_state (state_file holding) = Ok (t', p', a') /\
    term holding <= t' /\ placement_epoch holding <= p' /\ applied_index holding <= a'.
Proof.
  apply (replica_never_regresses clock 0 2 identity2 fresh fresh holding
    (init clock 0 2 identity2 nowhere).2).
  - vm_compute. reflexivity.
  - apply rtc_refl.
  - apply rtc_l with configured; [apply step_configure; vm_compute; reflexivity|].
    apply rtc_once. apply step_commit. vm_compute. reflexivity.
Defined.

(** * Commits *)




(** C12: a commit is idempotent: sent again after it was acknowledged, it is
    acknowledged again and changes nothing, neither the journal, nor the
    collection, nor the directory. *)
Theorem commit_is_idempotent {K : Type} `{!Kernel K} (now : nat -> Z) (e : ReplicatedEntry.t)
    (s s' : t (K := K)) (v : pyval) (H : commit now e s = (Ok v, s')) :
  commit now e s' = (Ok v, s').
Proof. by eapply commit_again. Qed.

Lemma commit_is_idempotent_witness :
  commit clock entry1 holding =
    (Ok (PDict [("committed_index", PInt 1); ("applied_index", PInt 1)]), holding).
Proof. apply (commit_is_idempotent clock entry1 configured). vm_compute. reflexivity. Defined.

(** C11: a snapshot is refused without a trace, or fails with the shard no further
    back and its directory in place, or is installed: the term, the epoch and the
    applied index are those of the snapshot, the journal remembers its index, and
    the state file and the journal file hold what the shard holds. *)
Theorem snapshot_install_outcome {K : Type} `{!Kernel K} (now : nat -> Z) (rows c sum : pyval)
    (i t p : Z) (s : ReplicaShard.t (K := K)) (Hrec : recorded s) (Hi : ints_ok (t, p, i)) :
  (exists e, install_snapshot now rows c (PInt i) (PInt t) (PInt p) sum s = (Raise e, s)) \/
  (let '(r, s') := install_snapshot now rows c (PInt i) (PInt t) (PInt p) sum s in
   (behind (numbers s) (numbers s') /\ recorded s') /\
   (is_ok r = true ->
     numbers s' = (t, p, i) /\ ReplicaJournal.snapshot_index (journal s') = i /\
     ReplicaJournal.open (journal_file (disk s')) = Ok (journal s') /\
     state_holds (state_file s') (t, p, i))).
Proof.
  pose proof (install_snapshot_outcome now rows c (PInt i) (PInt t) (PInt p) sum s Hrec) as H.
  destruct (check_snapshot _ _ _ _ _ _ _) as [sn|e] eqn:Hc; [|left; by exists e].
  right. apply check_snapshot_Ok in Hc as ([= ->] & [= ->] & [= ->] & _).
  specialize (H Hi). destruct (install_snapshot _ _ _ _ _ _ _ _) as [r s'].
  destruct H as [Hf Hok]. destruct (Hf Hrec) as (_ & ? & ?). split; [done|].
  destruct r as [v|e]; [|done]. intros _. destruct (Hok v eq_refl) as (Hn & ? & ? & Hh & _).
  by rewrite Hn in Hh.
Qed.

Definition exported : pyval :=
  match (export_records clock holding).1 with Ok v => v | Raise _ => PNone end.

Definition exported_checksum : Z := snapshot_checksum exported (CollectionConfig.asdict (config holding)) 1.

Definition joining : t := (configure clock 1 2 fresh).2.

Definition installed : t :=
  (install_snapshot clock exported (PDict (CollectionConfig.asdict (config holding))) (PInt 1) (PInt 1)
     (PInt 2) (PInt exported_checksum) joining).2.

Lemma joining_recorded : recorded joining.
Proof.
  assert (recorded fresh) as Hf.
  { apply (init_recorded clock 0 2 identity2 _ (init clock 0 2 identity2 nowhere).2). by vm_compute. }
  by apply (configure_forward clock 1 2 fresh).
Qed.

Lemma snapshot_install_outcome_witness :
  (exists e, (install_snapshot clock exported (PDict (CollectionConfig.asdict (config holding)))
     (PInt 1) (PInt 1) (PInt 2) (PInt exported_checksum) joining).1 = Raise e) \/
  numbers installed = (1, 2, 1).
Proof.
  assert (ints_ok (1, 2, 1)) as Hi by (vm_compute; repeat split).
  destruct (snapshot_install_outcome clock exported (PDict (CollectionConfig.asdict (config holding)))
    (PInt exported_checksum) 1 1 2 joining joining_recorded Hi) as [[e H]|H]; [left|right].
  - exists e. exact (f_equal fst H).
  - unfold installed. revert H. destruct (install_snapshot _ _ _ _ _ _ _ _) as [r s'] eqn:Hr.
    assert (is_ok r = true) as Hok.
    { apply (f_equal (fun p => is_ok p.1)) in Hr. cbn [fst] in Hr. rewrite <- Hr. vm_compute. reflexivity. }
    intros [_ H]. exact (proj1 (H Hok)).
Defined.



(** C14: the rows of a snapshot are parsed in their order, one mutation and one
    sparse vector each, under the identifier of the row; the identifiers are
    distinct, the sequences positive, the vectors of the dimension with finite
    values, and the payload names and sparse terms of a row distinct, with values
    of the declared types. *)
Theorem snapshot_rows_sound (rows : pyval) (dim : Z) (ms : list BatchMutation.t)
    (sp : list (Z * list SparseElement.t)) (H : _parse_snapshot_rows rows dim = Ok (ms, sp)) :
  exists l, rows = PList l /\ NoDup (BatchMutation.id <$> ms) /\ length ms = length l /\
    length sp = length l /\
    forall i row, l !! i = Some row -> exists m s, ms !! i = Some m /\ sp !! i = Some s /\
      row_parses dim row m s.
Proof. by apply parse_rows_Ok. Qed.

Lemma snapshot_rows_sound_witness :
  exists l, exported = PList l /\ length l = 1%nat.
Proof.
  destruct (snapshot_rows_sound exported 2
    [BatchMutation.upsert 7 [PFloat (float_of_decimal false 1 0); PFloat (float_of_decimal false 2 0)] (Some [])]
    [(7, [])]) as (l & Hl & _ & Hn & _); [vm_compute; reflexivity|].
  exists l. split; [exact Hl|]. symmetry. exact Hn.
Defined.

(** * The process *)

(** C15: a request to a replica process either returns an answer or raises
    [ReplicaUnavailable], [StaleEpochError] or [ProtocolError], whatever failed
    inside; a stopped process is unavailable and keeps its directories, and a
    partitioned one refuses everything but the control requests, unchanged. *)
Theorem replica_rpc_errors {K : Type} `{!Kernel K} (now : nat -> Z) (name : string)
    (request : dict) (p : ReplicaProcess.t (K := K))
    (Hname : dict_get_or request "operation" PNone = PStr name) :
  (forall e p', ReplicaProcess.rpc now (PDict request) p = (Raise e, p') ->
     exn_type e ∈ [ReplicaUnavailable; StaleEpochError; ProtocolError]) /\
  (ReplicaProcess.process p = None ->
     ReplicaProcess.rpc now (PDict request) p = (Raise (ReplicaProcess.unavailable p), p)) /\
  (forall s, ReplicaProcess.process p = Some s -> partitioned s = true ->
     name ∉ ["partition"; "fault"; "shutdown"] ->
     ReplicaProcess.rpc now (PDict request) p =
       (raise ReplicaUnavailable "replica is network partitioned", p)).
Proof.
  split_and!.
  - intros e p'. unfold ReplicaProcess.rpc. destruct (ReplicaProcess.process p) as [s|].
    + destruct (serve now (PDict request) s) as [[r run] s']. intros [= He _].
      destruct r as [v|c m| |]; try discriminate He; injection He as <-; cbn; try set_solver.
      unfold ReplicaProcess.raised. repeat case_bool_decide; cbn; set_solver.
    + intros [= <- _]. cbn. set_solver.
  - intros Hp. unfold ReplicaProcess.rpc. by rewrite Hp.
  - intros s Hp Hpart Hn. unfold ReplicaProcess.rpc, serve. rewrite Hp. cbn [ReplicaShard.mapping].
    rewrite Hname, Hpart. cbn [in_set]. unfold str_in. rewrite bool_decide_eq_false_2 by done.
    unfold failure, ReplicaProcess.serving. destruct p. cbn in *. by subst.
Qed.

Definition serving : ReplicaProcess.t (K := memory) :=
  ReplicaProcess.Mk "n0" 2 identity2 (Some (Server 2 identity2 [(0, holding)] true 0 0 [])) [] 1.

Lemma replica_rpc_errors_witness :
  ReplicaProcess.rpc clock (PDict [("operation", PStr "status"); ("shard_id", PInt 0)]) serving =
    (raise ReplicaUnavailable "replica is network partitioned", serving).
Proof.
  destruct (replica_rpc_errors clock "status" [("operation", PStr "status"); ("shard_id", PInt 0)]
    serving eq_refl) as (_ & _ & H).
  apply (H (Server 2 identity2 [(0, holding)] true 0 0 [])); [reflexivity|reflexivity|].
  refine (bool_decide_eq_true_1 _ _). vm_compute. reflexivity.
Defined.

