(* ===== verification/ClusterTheorems.v ===== *)
(** The guarantees of the cluster: routing, the merge of the shards' hits,
    elections, quorum writes and their retries, metadata that never goes back,
    and a history in which an acknowledged write is not found. *)

From S2P Require Import Prelude Assoc PyFloat PyValue Json JsonFacts Checksum Envelope Files Models KernelConfig KernelInterface Vectors Database MemoryKernel CollectionIdentity Mutation Journal JournalFacts Metadata MetadataFacts Snapshot Replica ReplicaFacts ReplicaHistory ReplicaServer Ranking RankingFacts Cluster ClusterFacts ClusterWrites.
Import EntryFacts DistributedCluster.

(** * Sample data for the witnesses *)

Definition now (n : nat) : Z := Z.of_nat n.
Definition port (node : string) (start : Z) : Z := 7000 + start.
Definition uuid (n : nat) : string := "u" +:+ int_repr (Z.of_nat n).

Definition unset : ClusterMetadata.t := ClusterMetadata.Mk "" 0 0 0 0 [] [] [] [] 2.

Definition nothing : t (K := memory) := closed_cluster (ClusterMetadata.Dir None None) [] unset 0.

(** Three nodes, one shard on all of them. *)
Definition create_three : M (t (K := memory)) unit :=
  init now port uuid 2 (CollectionConfig.Value (PDict [])) 1 3 3 None.

Definition three : t := (create_three nothing).2.

Definition upsert_of (id : Z) : dict :=
  upsert_mutation id [float_of_decimal false 1 0; float_of_decimal false 2 0] [] [].

Definition put (id : Z) (rid : string) : M (t (K := memory)) CommitResult.t :=
  _write now 2 (upsert_of id) rid.

Definition with8 : t := (put 8 "r8" three).2.

(** * An acknowledged write that is not found *)



(** ** The same without a gap in any journal: a node is caught up from a replica
    that was added from a snapshot, and has no entries from before it. *)
Definition create_four : M (t (K := memory)) unit :=
  init now port uuid 2 (CollectionConfig.Value (PDict [])) 1 3 4 None.

Definition snapshot_history : M (t (K := memory)) (CommitResult.t * pyval) :=
  create_four;;
  partition_node now "n2" true;;
  acknowledged ← put 8 "r8";
  partition_node now "n2" false;;
  rebalance_add_replica now 0 "n3";;
  partition_node now "n2" true;;
  put 9 "r9";;
  partition_node now "n2" false;;
  stop_node "n0";; stop_node "n1";;
  catch_up now "n2" 0;;
  found ← get now 8;
  mret (acknowledged, found).

Example caught_up_from_snapshot :
  (snapshot_history nothing).1 = Ok (CommitResult.Mk 0 1 1 "r8", PNone).
Proof. vm_compute. reflexivity. Qed.

(** * Routing *)

(** On an open cluster with a valid record, every identifier, negative ones and
    those beyond 64 bits included, is routed to a shard that the record has and
    places, and identifiers that agree modulo 2^64 to the same one. *)
Theorem route_in_range {K : Type} `{!Kernel K} (id : Z) (c : t (K := K))
    (Ho : _closed c = false) (Hv : metadata_ok (metadata c)) :
  route id c = (Ok (shard_for c id), c) /\
  0 <= shard_for c id < ClusterMetadata.shard_count (metadata c) /\
  is_Some (assoc_get (ClusterMetadata.shards (metadata c)) (shard_for c id)) /\
  forall id', id' mod 2 ^ 64 = id mod 2 ^ 64 -> shard_for c id' = shard_for c id.
Proof.
  pose proof (metadata_count _ Hv) as Hcount.
  assert (0 <= shard_for c id < ClusterMetadata.shard_count (metadata c)) as Hr
    by (by apply Z.mod_pos_bound).
  split_and!; [by apply route_run|lia|lia| |].
  - apply (metadata_cover _ Hv) in Hr. destruct (assoc_get _ _) eqn:H; [by eexists|].
    by apply assoc_get_None in H.
  - intros id' H. unfold shard_for.
    change 0xFFFFFFFFFFFFFFFF with (Z.ones 64). by rewrite !Z.land_ones, H by lia.
Qed.

Lemma three_valid : metadata_ok (metadata three).
Proof.
  refine (proj1 (proj1 (validate_Ok (metadata three) (metadata three)) _)).
  vm_compute. reflexivity.
Qed.

Lemma route_in_range_witness :
  route (-1) three = (Ok (shard_for three (-1)), three).
Proof. apply (route_in_range (-1) three); [vm_compute; reflexivity|exact three_valid]. Defined.

(** * Searches *)

(** C13: merging the best hits of each shard gives the best hits of all of them: the
    global top k of the shards' own top k is the global top k of every hit, for
    hits of distinct points with numeric scores. *)
Theorem topk_of_shards (hits : list (list SearchResult.t)) (k : Z) (metric mode : pyval)
    (ascending : bool) (Hk : 0 <= k) (Hids : NoDup (SearchResult.id <$> List.concat hits))
    (Hs : Forall scored (List.concat hits)) (Ha : ascending_order metric mode = Ok ascending) :
  _global_topk (List.concat (top ascending k <$> hits)) k metric mode =
    _global_topk (List.concat hits) k metric mode /\
  _global_topk (List.concat hits) k metric mode = Ok (top ascending k (List.concat hits)).
Proof.
  rewrite (global_topk_top (List.concat hits) k metric mode ascending) by done.
  split; [|done].
  assert (List.concat (top ascending k <$> hits) ⊆+ List.concat hits) as Hsub.
  { clear. induction hits as [|l ls IH]; [done|]. cbn. apply submseteq_app; [apply best_length_perm|done]. }
  rewrite (global_topk_top _ k metric mode ascending); [|done| |done].
  - f_equal. apply (best_concat (ranks ascending) scored); try done.
    + intros x y. apply ranks_total.
    + intros x y z. apply ranks_trans.
    + by apply ids_apart.
  - apply (fmap_submseteq SearchResult.id) in Hsub. apply submseteq_Permutation in Hsub as [rest Hp].
    rewrite Hp in Hids. by apply NoDup_app in Hids as [? _].
Qed.

Definition hit (id d : Z) : SearchResult.t := SearchResult.Mk id (float_of_decimal false d 0).

Lemma topk_of_shards_witness :
  _global_topk (List.concat (top true 2 <$> [[hit 1 5; hit 2 3; hit 3 9]; [hit 4 4]])) 2 (PStr "l2") (PStr "exact") =
    Ok [hit 2 3; hit 4 4].
Proof.
  rewrite (proj1 (topk_of_shards [[hit 1 5; hit 2 3; hit 3 9]; [hit 4 4]] 2 (PStr "l2") (PStr "exact") true
    ltac:(lia) ltac:(refine (bool_decide_eq_true_1 _ _); vm_compute; reflexivity)
    ltac:(repeat constructor) (eq_refl _))).
  vm_compute. reflexivity.
Defined.

(** * Elections *)



(** The node a read is sent to is the leader or another replica, and its shard
    has applied at least the index that was asked for, the committed index of the
    placement for [get]. *)
Theorem read_node_caught_up {K : Type} `{!Kernel K} (clock : nat -> Z) (p : ShardPlacement.t)
    (index : Z) (c c' : t (K := K)) (node : string)
    (H : _query_replica clock p index c = (Ok node, c')) :
  (node = ShardPlacement.leader p \/ node ∈ ShardPlacement.replicas p) /\
  exists a, applied_is c' (ShardPlacement.shard_id p) (a, node) /\ index <= a.
Proof.
  apply query_replica_spec in H as [Hn Ha]. split; [|exact Ha]. unfold ordered in Hn.
  apply elem_of_cons in Hn as [->|Hn]; [by left|]. right. by apply list_elem_of_filter in Hn as [_ ?].
Qed.

Definition placement0 (c : t (K := memory)) : ShardPlacement.t :=
  default (ShardPlacement.Mk 0 0 0 "" [] 0 0) (assoc_get (ClusterMetadata.shards (metadata c)) 0).

Lemma read_node_caught_up_witness :
  exists a, applied_is (_query_replica now (placement0 with8) 1 with8).2
    (ShardPlacement.shard_id (placement0 with8)) (a, "n0") /\ 1 <= a.
Proof.
  apply (read_node_caught_up now (placement0 with8) 1 with8). vm_compute. reflexivity.
Defined.

(** * Writes *)





(** * Histories *)

(** C10: along every history of operations of a cluster, whatever they return, the
    identity and the shard count of its record stay, its epoch never decreases,
    no shard disappears, and no placement's term, placement epoch, log index or
    committed index decreases, nor does it lose a replica. *)
Theorem cluster_never_regresses {K : Type} `{!Kernel K} (clock : nat -> Z)
    (port : string -> Z -> Z) (uuid : nat -> string) (c c' : t (K := K))
    (H : rtc (ClusterWrites.step clock port uuid) c c') :
  (ClusterMetadata.shard_count (metadata c') = ClusterMetadata.shard_count (metadata c) /\
   ClusterMetadata.cluster_id (metadata c') = ClusterMetadata.cluster_id (metadata c)) /\
  ClusterMetadata.epoch (metadata c) <= ClusterMetadata.epoch (metadata c') /\
  forall id p, assoc_get (ClusterMetadata.shards (metadata c)) id = Some p ->
    exists q, assoc_get (ClusterMetadata.shards (metadata c')) id = Some q /\ placement_le p q.
Proof.
  assert (advances c c') as [].
  { induction H as [c|c c1 c2 Hs _ IH]; [reflexivity|].
    transitivity c1; [by eapply step_advances|done]. }
  done.
Qed.

Lemma cluster_never_regresses_witness :
  ClusterMetadata.epoch (metadata with8) <=
    ClusterMetadata.epoch (metadata (rebalance_add_replica now 0 "n1" (get now 8 with8).2).2).
Proof.
  refine (proj1 (proj2 (cluster_never_regresses now port uuid with8 _ _))).
  apply rtc_l with (get now 8 with8).2; [apply step_get|]. apply rtc_once. apply step_rebalance.
Defined.
