(* ===== verification/LivenessTheorems.v ===== *)
(** Progress of the cluster: with a quorum of the replicas of a shard up and the
    others stopped or cut off, an election finds a leader and a new write is
    acknowledged, and the cluster is then as available as before. *)

From S2P Require Import Prelude Assoc PyFloat PyValue Json JsonFacts Checksum Envelope Files Models KernelConfig KernelInterface Vectors Database MemoryKernel CollectionIdentity Mutation Journal JournalFacts Metadata MetadataFacts Snapshot Replica ReplicaFacts ReplicaHistory ReplicaServer ReplicaLiveness Ranking RankingFacts Cluster ClusterFacts ClusterWrites ClusterLiveness ClusterProgress ClusterTheorems.
Import EntryFacts DistributedCluster.

(** * A collection that accepts the calls of mutations *)

Definition mem_healthy (m : memory) : Prop :=
  mem_open m = true /\ exists c, CollectionConfig.from_kernel (mem_config m) = Ok c.

Definition mem_accepts (method : string) (args : list pyval) : Prop :=
  match args with
  | [PInt _] => method = "delete"
  | [PInt _; _] => method = "upsert_sparse"
  | [PInt _; _; _] => method = "upsert_document"
  | _ => False
  end.

Lemma put_sparse_healthy id s m : mem_healthy m -> mem_healthy (put_sparse id s m).
Proof. unfold put_sparse. by destruct (assoc_get _ _). Qed.

Lemma memory_accepting : accepting mem_healthy mem_accepts.
Proof.
  split.
  - intros k Hk. exists (mem_sequence k), k. cbn. unfold memory_call. by rewrite (proj1 Hk).
  - intros k Hk. destruct (proj2 Hk) as [c Hc]. exists (mem_config k), c, k. cbn. unfold memory_call.
    by rewrite (proj1 Hk).
  - intros method args k Ha Hk. cbn. unfold memory_call. rewrite (proj1 Hk). cbn [negb].
    destruct args as [|[] [|v [|f []]]]; try done; cbn in Ha; subst method.
    + eexists _, _. by split.
    + eexists _, _. split; [reflexivity|]. by apply put_sparse_healthy.
    + eexists _, _. by split.
Qed.

(** The calls of a valid mutation are of those kinds. *)
Lemma memory_calls mutation calls :
  mutation_calls mutation = Ok calls -> Forall (fun call => mem_accepts call.1 call.2) calls.
Proof.
  unfold mutation_calls. intros (operation & _ & (id & _ & (point & _ & H)%bind_Ok)%bind_Ok)%bind_Ok.
  destruct (py_eq _ _); [injection H as <-; by repeat constructor|].
  repeat apply bind_Ok in H as (? & _ & H). injection H as <-.
  constructor; [done|]. case_bool_decide; by repeat constructor.
Qed.

(** * Properties *)

(** C7: with a quorum of the replicas of a shard up, none of them ahead of the term
    and epoch the election gives, and the others stopped or cut off, the election
    succeeds: it answers with a replica that is up, the placement has the new
    numbers, and every replica that is up has them too.  The kernel is any whose
    collections carry out the calls they accept. *)
Theorem election_available {K : Type} `{!Kernel K, !OrdinaryErrors K} (clock : nat -> Z)
    (healthy : K -> Prop) (accepts : string -> list pyval -> Prop)
    (live : accepting healthy accepts) (id dim last : Z) (ups : list string)
    (numbers : string -> Z * Z) (p : ShardPlacement.t) (c : t (K := K))
    (Hst : standing healthy id dim ups last None numbers p c)
    (Hn : forall node, node ∈ ShardPlacement.replicas p -> node ∈ ups ->
       (numbers node).1 <= ShardPlacement.term p + 1 /\
       (numbers node).2 <= ShardPlacement.placement_epoch p + 1) :
  exists leader c', _elect_leader clock id c = (Ok leader, c') /\ leader ∈ ups /\
    let p' := ShardUpdate.set_leader (ShardPlacement.term p + 1) (ShardPlacement.placement_epoch p + 1)
                leader p in
    standing healthy id dim ups last None (numbers_of p') p' c'.
Proof. by eapply elect_lives. Qed.

(** C4: with a quorum of the replicas of the point's shard up at the numbers of the
    placement and the others (the leader perhaps among them) stopped or cut off,
    the write of a new request with a mutation the shard takes is acknowledged, at
    the index after the last, with no election or at the first; and the shard is
    left so that the next write is acknowledged as well. *)
Theorem write_available {K : Type} `{!Kernel K, !OrdinaryErrors K} (clock : nat -> Z)
    (healthy : K -> Prop) (accepts : string -> list pyval -> Prop)
    (live : accepting healthy accepts) (retries : nat) (mutation : dict) (request_id : string)
    (id dim : Z) (ups : list string) (p : ShardPlacement.t) (c : t (K := K))
    (last := ShardPlacement.last_log_index p)
    (Hst : standing healthy (shard_for c id) dim ups last None (numbers_of p) p c) (Hl : 0 <= last)
    (Hid : int_item mutation "id" = Ok id) (Hr : request_id <> "")
    (Hnew : dict_get (ClusterMetadata.request_table (metadata c)) request_id = None)
    (Hm : acceptable accepts dim mutation) :
  exists p' r c', _write clock retries mutation request_id c = (Ok r, c') /\
    CommitResult.shard_id r = shard_for c id /\ CommitResult.index r = last + 1 /\
    CommitResult.request_id r = request_id /\ ShardPlacement.last_log_index p' = last + 1 /\
    standing healthy (shard_for c id) dim ups (last + 1) None (numbers_of p') p' c'.
Proof. by eapply write_lives. Qed.

(** ** A cluster whose leader is stopped *)

Definition leaderless : t := (stop_node "n0" three).2.

Lemma leaderless_valid : metadata_ok (metadata leaderless).
Proof.
  refine (proj1 (proj1 (validate_Ok (metadata leaderless) (metadata leaderless)) _)).
  vm_compute. reflexivity.
Qed.

(** What [up] and [ready] ask of a node, as a test *)
Definition fresh_shard (id dim term epoch : Z) (c : t (K := memory)) (node : string) : bool :=
  match assoc_get (nodes c) node with
  | Some p =>
      match ReplicaProcess.process p with
      | Some s =>
          match assoc_get (shards s) id with
          | Some sh =>
              negb (partitioned s) && (drop_commit_responses s <=? 0) && (drop_query_responses s <=? 0) &&
              (ReplicaShard.shard_id sh =? id) && (ReplicaShard.dimension sh =? dim) &&
              (ReplicaShard.term sh =? term) && (ReplicaShard.placement_epoch sh =? epoch) &&
              (ReplicaJournal.snapshot_index (ReplicaShard.journal sh) <=? 0) &&
              bool_decide (map_to_list (ReplicaJournal.prepared (ReplicaShard.journal sh)) = []) &&
              mem_open (_kernel (ReplicaShard.collection sh)) &&
              is_ok (CollectionConfig.from_kernel (mem_config (_kernel (ReplicaShard.collection sh))))
          | None => false
          end
      | None => false
      end
  | None => false
  end.

Lemma fresh_ready id dim term epoch c node :
  fresh_shard id dim term epoch c node = true -> ready_node mem_healthy id dim 0 None term epoch c node.
Proof.
  unfold fresh_shard, ready_node. destruct (assoc_get (nodes c) node) as [p|]; [|done].
  destruct (ReplicaProcess.process p) as [s|] eqn:Hp; [|done].
  destruct (assoc_get (shards s) id) as [sh|] eqn:Hsh; [|done].
  intros H. inv_py. exists p, sh. split; [done|]. split; [by exists s|].
  split; try done.
  - intros i e _ Hi.
    match goal with H : map_to_list _ = [] |- _ => apply map_to_list_empty_iff in H; rewrite H in Hi end.
    by rewrite lookup_empty in Hi.
  - split; [done|]. match goal with H : is_ok ?r = true |- _ => destruct r; [by eexists|done] end.
Qed.

Lemma survivors node : node ∈ ["n1"; "n2"] <-> node = "n1" \/ node = "n2".
Proof. set_solver. Qed.

Lemma leaderless_standing :
  standing mem_healthy 0 2 ["n1"; "n2"] 0 None (numbers_of (placement0 leaderless))
    (placement0 leaderless) leaderless.
Proof.
  split.
  - vm_compute. reflexivity.
  - exact leaderless_valid.
  - vm_compute. reflexivity.
  - vm_compute. discriminate.
  - assert (ShardPlacement.replicas (placement0 leaderless) = ["n0"; "n1"; "n2"]) as -> by (vm_compute; reflexivity).
    intros node Hnode. rewrite !elem_of_cons in Hnode. destruct Hnode as [-> | [-> | [-> |[]%elem_of_nil]]].
    + split; [by intros [?|?]%survivors|]. intros _. eexists. split; [vm_compute; reflexivity|exact I].
    + split; [intros _|intros []; apply survivors; auto]. apply fresh_ready. vm_compute. reflexivity.
    + split; [intros _|intros []; apply survivors; auto]. apply fresh_ready. vm_compute. reflexivity.
Qed.

Lemma election_available_witness :
  exists leader c', _elect_leader now 0 leaderless = (Ok leader, c') /\ leader ∈ ["n1"; "n2"].
Proof.
  destruct (election_available now mem_healthy mem_accepts memory_accepting 0 2 0 ["n1"; "n2"] _ _ _
    leaderless_standing) as (leader & c' & Hc & Hl & _); [intros node _ _; cbn; lia|].
  exists leader, c'. exact (conj Hc Hl).
Defined.

Lemma upsert_acceptable : acceptable mem_accepts 2 (upsert_of 8).
Proof.
  split; [|apply memory_calls].
  assert (validate_replicated_mutation (PDict (upsert_of 8)) (Some 2) = Ok tt) as Hv
    by (vm_compute; reflexivity).
  apply validate_mutation_spec in Hv as (d & [= <-] & Hd). exact Hd.
Qed.

Lemma write_available_witness :
  exists r c', _write now 0 (upsert_of 8) "r8" leaderless = (Ok r, c') /\ CommitResult.index r = 1.
Proof.
  destruct (write_available now mem_healthy mem_accepts memory_accepting 0 (upsert_of 8) "r8" 8 2
    ["n1"; "n2"] (placement0 leaderless) leaderless) as (p' & r & c' & Hc & _ & Hi & _).
  - exact leaderless_standing.
  - vm_compute. discriminate.
  - reflexivity.
  - discriminate.
  - vm_compute. reflexivity.
  - apply upsert_acceptable.
  - exists r, c'. exact (conj Hc Hi).
Defined.
